(* ===== verification/_CoqProject ===== *)
-Q . S2P
Prelude.v
GoString.v
GoTime.v
Naming.v
Sans.v
Api.v
GoError.v
Cloud.v
KubeLib.v
Effects.v
Interleave.v
Mutex.v
GoHeap.v
DeepCopy.v
FakeCAS.v
FakeFC3.v
FakeOSS.v
FakeCloud.v
Bundle.v
Json.v
Redaction.v
TestUtil.v
Tokens.v
Issuer.v
Samples.v
CertStatus.v
CertMaterial.v
CertUpload.v
UploadMemory.v
UploadWorld.v
Replicas.v
CertProbe.v
CertRetention.v
CertDeletion.v
CleanupWorld.v
CertController.v
CertTheorems.v
CertAccounts.v
CertWorld.v
Provider.v
ProviderFC3.v
ProviderOSS.v
TargetCells.v
TargetRaces.v
Sdk.v
Clients.v
SharedState.v
BindingStatus.v
BindingMaterial.v
BindingObserve.v
BindingController.v
BindingSafety.v
BindingTheorems.v
Metrics.v
Watches.v
BindingConvergence.v
BindingWorld.v
EndToEnd.v
Options.v
Main.v
