(* ===== verification/Prelude.v ===== *)
(** * le-to-alicloud: a verification of the certificate operator

    The program (Go, under src/) is a Kubernetes operator.  An AliyunCertificate asks
    cert-manager for a certificate and archives every issued generation in Alibaba
    Cloud CAS; an AliyunCertificateBinding puts the current generation on a target: a
    custom domain of Function Compute (FC3), into which the certificate is inlined, or
    a custom domain of an OSS bucket, which refers to it in CAS.  Two reconcilers do
    all of it, each in rounds that read the world, act and write the status back.

    ** How the code is modelled

    Pure functions are Rocq functions.  A method that performs I/O is a [prog]
    (Effects.v), a tree of calls to the API server, the clouds, the clock, the
    metrics and the shared client caches, whose responses are unconstrained: a theorem
    about a program holds for any behaviour of its surroundings, other replicas and
    conflicting writers included, unless it names an [environment].  The code returns
    a mutated object next to a result; here the object is threaded.  Where the code
    decodes the response of a write into its object, so does the model.  A round is a
    sequence of steps ([reaches]) that may stop anywhere, so that a [policy] proved of
    a round also holds of an operator that crashes in the middle of it.  Strings and
    []byte are byte strings; times are nanoseconds in Z, and their differences int64
    durations with the saturation of time.Sub; integers that the code only compares or
    counts are Z or nat.

    Third-party code is a parameter: class [Crypto] (Bundle.v) for PEM, x509 and
    SHA-256, with [CryptoLaws] for what the code relies on and the instance
    [toy_crypto]; class [ApiMachinery] (DeepCopy.v) for the deep copies of Kubernetes'
    and cert-manager's types, with [ApiMachineryLaws] and the instance [ref_machinery];
    class [KubeLib] (KubeLib.v) for the condition, finalizer and
    owner-reference helpers, with [KubeLibLaws] and the instance [ref_kube]; record
    [SDK] (Sdk.v) for the cloud SDKs; class [ControllerRuntime] (Watches.v) for the
    predicates and handlers of watches.  The cluster and the clouds are the responses.
    Where a theorem needs clouds that behave, they are the in-memory ones of the
    repository (pkg/aliyun/fake), with their faults: [fake_env] (FakeCloud.v) is the
    environment whose cloud responses are theirs, and whose other responses are free;
    [steady] (CertWorld.v) adds an API server that keeps one object.

    ** The files

    - Prelude, GoString, GoTime: generic lemmas; the string and time functions of Go's
      standard library the code uses, on bytes.
    - Naming, Tokens (pkg/naming, the token formats of upload.go, deletion.go and
      retention.go): names and idempotency tokens for CAS.
    - Sans, Bundle (pkg/pki): DNS name matching, parsing and encoding of bundles.
    - Json, Redaction (the String, GoString and MarshalJSON methods of pkg/pki and
      pkg/aliyun/fc3.go): encoding/json on the values that are rendered, with a reader
      of its texts, and what logs can show.
    - TestUtil (pkg/pki/testutil): the CA and the chains the tests use, with the class
      [Issuing] for key generation and x509.CreateCertificate.
    - Api (api/v1alpha1): the two custom resources, and the Kubernetes and cert-manager
      types they meet.
    - GoError (pkg/aliyun/errors.go, pkg/provider/errors.go, .../aliyunerr): errors as a
      closed type, their classification and translation.
    - Cloud (pkg/aliyun): the data exchanged with the clouds, credentials.
    - KubeLib, Effects: the libraries and the calls, with the program logic [twp]
      and its rules, [ran] (a part of a round was run and returned), and the tactics
      [twp_step], [calls_tac].  Interleave: pools of programs over one world, which run
      interleaved call by call, and the logic [rwp] for one of them, which relies on what
      the others may do.  Mutex: goroutines that share memory under a lock, interleaved
      instruction by instruction: the discipline that rules races and deadlocks out, that
      sections are atomic, and the logic [gwp].
    - GoHeap, DeepCopy (zz_generated.deepcopy.go): Go's memory, a heap of typed cells with
      pointers, slices and maps, and the generated copies on it.  [owns] says that a
      pointer stands for a value and which cells it is made of; everywhere else objects
      are values.  UploadMemory (adoptUploadState of upload.go) is the one place of the
      controllers where sharing would matter to the patches.
    - FakeCAS, FakeFC3, FakeOSS (pkg/aliyun/fake): the in-memory clouds, one method a
      function on their state; FakeCloud: the three as one environment.
    - Issuer (issuer.go), Samples (objects for witnesses).
    - The certificate controller: CertStatus (status.go, desired.go, metrics.go),
      CertMaterial (material.go), CertUpload (upload.go), CertProbe (probe.go),
      CertRetention (retention.go), CertDeletion (deletion.go), CertController
      (aliyuncertificate_controller.go), CertTheorems and CertAccounts (properties of
      whole rounds); UploadWorld, CleanupWorld, CertWorld (repeated uploads, clean-ups
      and whole rounds against the in-memory CAS); Replicas (uploads at the same time).
    - Provider (pkg/provider): the interface as a record of programs, its registry, and
      [ProviderContract], what the binding controller relies on.  ProviderFC3,
      ProviderOSS (pkg/provider/fc3, .../oss): the two providers as instances.
      TargetCells: the abstract target both providers implement over the clouds;
      TargetRaces: writes of one target at the same time.
    - Sdk (cas_sdk.go, fc3_sdk.go, oss_sdk.go, ratelimit.go): the code between the
      client calls and the SDKs, in state-passing style.
    - Clients (cache.go, cas_factory.go, provider_factory.go): construction and caching
      of clients.  SharedState (the locked methods of cache.go, ratelimit.go, of the
      reconcilers' settings and of the in-memory CAS): what goroutines do to them at the
      same time.
    - The binding controller: BindingStatus (binding_status.go, binding_conflict.go,
      indexes.go, metrics.go), BindingMaterial (binding_material.go,
      binding_identity.go), BindingObserve (binding_observe.go, binding_apply.go),
      BindingController (aliyuncertificatebinding_controller.go, binding_deletion.go),
      BindingSafety (the policies and the symbolic execution of a round),
      BindingTheorems (properties of whole rounds), BindingConvergence (a written
      target is found right by the next observation), BindingWorld (rounds against the
      abstract target).
    - EndToEnd: both controllers over one API server and one set of clouds, with the
      interfaces of CertWorld (a settled certificate) and TargetCells (a cell).
    - Metrics (the vectors of metrics.go): their labels and registration, and the calls
      both controllers make on them.
    - Watches (SetupWithManager of both controllers, indexes.go): which events put
      which requests into the queues.
    - Options, Main (cmd/main.go): the flags and the process.

    The interfaces between components are classes: [CASFactoryOk] and
    [BindingFactoryOk] state what the controllers expect of their factories, and are
    shown of the production factories in Clients.v and BindingSafety.v;
    [ProviderContract] states what the binding controller expects of a provider, and
    [CellProviderLaws] what a provider does to its target in the cloud.

    ** What is shown

    Certificate rounds: uploads are written ahead, with the name and token of the
    persisted record, at most one a round; a Secret of somebody else is never taken
    over; no certId and no record of an upload leaves the status without a cause CAS
    gave ([no_certificate_is_forgotten], and the one cause it did not give,
    [renewal_orphans_lost_upload]); what an upload leaves in memory on every branch; only reclaimable
    generations are deleted, and leave the history only when CAS confirmed it, and what
    is left beyond keepLast is too young or in use; the
    order of a deletion and that it cannot be blocked for ever; Ready is never claimed
    wrongly; an issued certificate is always looked at again.

    Binding rounds: a target is written at most once a round and only with cause (the
    winner of the arbitration, vouched-for and covering material, an observed target in
    the account of the first application); what the status says was applied was applied;
    a target that was written is found right and not written again; Ready is never
    claimed wrongly; the finalizer waits for the unbinding, which is bounded; a failed
    observation is not a verdict; drift is reported once; the winner of a target does
    not depend on the order it is seen in.

    Components: names and tokens are accepted by CAS, and the tokens tell uploads of
    different attempts and generations, and deletions, apart; DNS names match by RFC 6125; bundles survive encoding; the issuer stays pinned; errors are translated
    by the table; the messages of the services' errors stay inside the clients
    ([service_messages_stay_inside]); the types that are redacted render no key
    ([redacted_types_show_public_fields_only]); the chains a CA issues are accepted (TestUtil.v);
    clients are built from the
    credentials just read, whatever the shared caches hold; the providers' writes touch
    nothing of anybody else, down to the SDK's request; a listing of CAS is complete or
    an error; no call on a metric vector panics.

    Composition: repeated uploads of a generation, with answers lost at any point, make
    one certificate in CAS ([uploads_are_exactly_once]), also when replicas upload at the
    same time ([replicas_upload_once]); goroutines share one client and one limiter
    where they should ([cached_clients_are_shared], [limiters_are_shared]), read settings
    that somebody set ([settings_are_synchronised]), and find the in-memory CAS in a state
    some sequence of their calls leaves ([fake_cas_linearises]); replicas that write one target agree on it
    ([replicas_agree_on_targets]); repeated clean-ups of a
    deleted object remove its certificates and no others ([deletion_empties_cas]); whole rounds of an issued
    certificate bring it to CAS, once, and to Ready, and keep it there
    ([certificates_converge]), also when it was deleted there and the probe is due; FC3
    and OSS refine the abstract target, a cell that is observed, written and cleared atomically
    ([providers_implement_cells]), and over any such provider the rounds of a binding
    converge to the wanted state, which is stated apart from the code's own check
    ([in_place]), and then stop writing ([bindings_converge]); the keys of the conflict
    index stand for the providers' cells ([TargetKey_identifies]), but for bindings that
    spell one OSS domain differently, which fight over it ([spellings_fight]); rounds of the
    one controller and then of the other put an issued certificate on its target, written
    once ([issued_certificates_reach_targets]); a change of
    the winner of a target wakes all its bindings, and the controller's own writes wake
    nobody (Watches.v); the process starts only with both controllers set up as the
    theorems about them assume (Main.v); the in-memory CAS keeps its invariant; a deep copy
    shares no memory with its original ([deep_copies_are_independent]), so that the two
    copies of a round stay two ([adopted_copies_stay_apart]).

    ** Bounds and fuel

    Recursion is structural but for a few loops.  The runes of a string, and the reader
    of JSON texts (which is part of a statement), have the length of the text as fuel,
    which [read_write_value] shows to be enough.  The listing of CAS has the code's own
    limit of 200 pages as fuel; [FindUploaded_complete] shows that it never runs out.
    The loop over the PEM blocks of a certificate file has the length of the input as
    fuel; [parse_loop_fuel] shows that more changes nothing, since a block consumes
    input.

    ** What is not modelled

    Logging and the flags of its library; the Owns watch of the certificate controller,
    whose mapping is controller-runtime's own; the schedule of rounds: where [fake_env] is
    the environment, the rounds of one object are sequences and the clouds change only by
    their calls, whereas the theorems over any environment hold with replicas running at
    the same time, and Replicas and TargetRaces interleave the calls; memory, but for the deep copies and
    adoptUploadState: elsewhere an object that is mutated is threaded as a value; the
    registration of the types with a scheme; the tests and the command runner of the end-to-end
    tests; the servers, leader
    election and health checks main asks controller-runtime for. *)
From Stdlib Require Export Ascii.
From stdpp Require Export base list strings gmap sorting.
From stdpp Require Export options.
#[export] Set Warnings "-clear-no-such-hyp".
#[export] Set Default Proof Using "Type*".

(** ** Lists *)

Lemma existsb_ext {A} (f g : A -> bool) (l : list A) :
  (forall x, f x = g x) -> existsb f l = existsb g l.
Proof. intros H. induction l as [|x l IH]; [done|]. cbn. by rewrite H, IH. Qed.

Lemma elem_suffix {A} (l l' : list A) (x : A) : x ∈ l -> l `suffix_of` l' -> x ∈ l'.
Proof. intros Hx [k ->]. apply elem_of_app. by right. Qed.

(** ** Machine integers *)

(** an [int64] (or [int], on the 64-bit platforms the operator is built for) *)
Definition int64_wrap (z : Z) : Z := ((z + 2 ^ 63) mod 2 ^ 64 - 2 ^ 63)%Z.
Definition int64_incr (z : Z) : Z := int64_wrap (z + 1).
Definition int64_max : Z := (2 ^ 63 - 1)%Z.

Lemma int64_incr_lt z : (0 <= z < int64_max)%Z -> int64_incr z = (z + 1)%Z.
Proof. unfold int64_incr, int64_wrap, int64_max. intros H. rewrite Z.mod_small; lia. Qed.
