(* ===== verification/GoString.v ===== *)
(** * Go string functions

    The functions of Go's [strings], [strconv], [fmt] and [unicode/utf8]
    packages that the operator calls, on byte strings (Rocq's [string]), with
    the lemmas the components share.  Case mapping and white space are those of
    ASCII: the code applies them to DNS names, protocol lists and credential
    values.  Rune decoding follows UTF-8, because [sanitize] counts runes. *)
From S2P Require Import Prelude.

#[global] Arguments String.append !_ _ / : simpl nomatch.

(** ** Definitions *)

(** [strings.HasPrefix(s, p)] *)
Fixpoint has_prefix (s p : string) {struct p} : bool :=
  match p, s with
  | "", _ => true
  | String a p', String b s' => Ascii.eqb a b && has_prefix s' p'
  | String _ _, "" => false
  end.

(** [s[:n]] when [len(s) > n], else [s] (the guarded slice the code writes) *)
Fixpoint str_take (n : nat) (s : string) : string :=
  match n, s with
  | S n', String c s' => String c (str_take n' s')
  | _, _ => ""
  end.

(** [strings.TrimSuffix(s, suf)] *)
Fixpoint trim_suffix (s suf : string) : string :=
  if String.eqb s suf then ""
  else match s with
       | "" => ""
       | String c s' => String c (trim_suffix s' suf)
       end.

(** [strings.TrimRight(s, cutset)] for a one-byte cutset *)
Fixpoint trim_right_char (c : ascii) (s : string) : string :=
  match s with
  | "" => ""
  | String a s' =>
      match trim_right_char c s' with
      | "" => if Ascii.eqb a c then "" else String a ""
      | t => String a t
      end
  end.

Definition ascii_lower (c : ascii) : ascii :=
  let n := N_of_ascii c in
  if (65 <=? n)%N && (n <=? 90)%N then ascii_of_N (n + 32) else c.

Definition ascii_upper (c : ascii) : ascii :=
  let n := N_of_ascii c in
  if (97 <=? n)%N && (n <=? 122)%N then ascii_of_N (n - 32) else c.

Fixpoint str_map (f : ascii -> ascii) (s : string) : string :=
  match s with
  | "" => ""
  | String c s' => String (f c) (str_map f s')
  end.

(** [strings.ToLower], [strings.ToUpper], [strings.EqualFold] *)
Definition to_lower : string -> string := str_map ascii_lower.
Definition to_upper : string -> string := str_map ascii_upper.
Definition equal_fold (a b : string) : bool := String.eqb (to_lower a) (to_lower b).

(** [strings.TrimSpace] *)
Fixpoint trim_left_space (s : string) : string :=
  match s with
  | "" => ""
  | String c s' => if Ascii.is_space c then trim_left_space s' else s
  end.

Fixpoint trim_right_space (s : string) : string :=
  match s with
  | "" => ""
  | String a s' =>
      match trim_right_space s' with
      | "" => if Ascii.is_space a then "" else String a ""
      | t => String a t
      end
  end.

Definition trim_space (s : string) : string := trim_right_space (trim_left_space s).

(** [strings.Split(s, sep)] for a one-byte separator: never empty *)
Fixpoint split (c : ascii) (s : string) : list string :=
  match s with
  | "" => [""]
  | String a s' =>
      if Ascii.eqb a c then "" :: split c s'
      else match split c s' with
           | h :: t => String a h :: t
           | [] => [String a ""]
           end
  end.

(** [strings.Join(l, sep)] *)
Fixpoint join (sep : string) (l : list string) : string :=
  match l with
  | [] => ""
  | [x] => x
  | x :: t => x +:+ sep +:+ join sep t
  end.

(** [strings.Contains(s, sub)] *)
Fixpoint contains (s sub : string) : bool :=
  has_prefix s sub || match s with
                         | "" => false
                         | String _ s' => contains s' sub
                         end.

(** [strings.ReplaceAll(s, c, "")] for a one-byte [c] *)
Fixpoint remove_char (c : ascii) (s : string) : string :=
  match s with
  | "" => ""
  | String a s' => if Ascii.eqb a c then remove_char c s' else String a (remove_char c s')
  end.

(** one digit of [%x] *)
Definition hex_digit (n : Z) : ascii :=
  if (n <? 10)%Z then ascii_of_N (Z.to_N (48 + n)) else ascii_of_N (Z.to_N (87 + n)).

(** [k] hexadecimal digits of [n], most significant first *)
Fixpoint hex_digits (k : nat) (n : Z) : string :=
  match k with
  | O => ""
  | S k' => hex_digits k' (n / 16) +:+ String (hex_digit (n mod 16)) ""
  end.

(** [fmt.Sprintf("%08x", uint32(n))] *)
Definition hex08_uint32 (n : Z) : string := hex_digits 8 (n mod 2 ^ 32).

(** [sort.Strings]: bytewise lexicographic order *)
Definition sort_strings (l : list string) : list string := merge_sort String.le l.

(** [utf8.DecodeRuneInString]: the width of the rune at the head (1 for a byte
    that starts no valid sequence), with Go's table of accepted ranges for the
    second byte *)
Definition byte_in (lo hi : N) (c : ascii) : bool :=
  (lo <=? N_of_ascii c)%N && (N_of_ascii c <=? hi)%N.

Definition rune_width (s : string) : nat :=
  match s with
  | "" => 0
  | String c0 s1 =>
      let second lo hi k :=
        match s1 with
        | String c1 s2 => if byte_in lo hi c1 then k s2 else 1
        | "" => 1
        end in
      let cont k s2 :=
        match s2 with
        | String c2 s3 => if byte_in 128 191 c2 then k s3 else 1
        | "" => 1
        end in
      let two _ := 2 in
      let three s2 := cont (fun _ => 3) s2 in
      let four s2 := cont (fun s3 => cont (fun _ => 4) s3) s2 in
      if byte_in 194 223 c0 then second 128%N 191%N two
      else if byte_in 224 224 c0 then second 160%N 191%N three
      else if byte_in 225 236 c0 || byte_in 238 239 c0 then second 128%N 191%N three
      else if byte_in 237 237 c0 then second 128%N 159%N three
      else if byte_in 240 240 c0 then second 144%N 191%N four
      else if byte_in 241 243 c0 then second 128%N 191%N four
      else if byte_in 244 244 c0 then second 128%N 143%N four
      else 1
  end.

(** [%q] of text that needs no escape: names, PEM types, flag values *)
Definition dquote : ascii := Ascii.ascii_of_nat 34.
Definition quote (s : string) : string := String dquote (s +:+ String dquote "").

(** every byte of [s] satisfies [P] *)
Fixpoint str_forall (P : ascii -> bool) (s : string) : bool :=
  match s with
  | "" => true
  | String c s' => P c && str_forall P s'
  end.

Definition lower_hex (c : ascii) : bool := byte_in 48 57 c || byte_in 97 102 c.

(** ** Lemmas *)

Lemma length_str_app s t : String.length (s +:+ t) = String.length s + String.length t.
Proof. induction s as [|c s IH]; [done|]. cbn. by rewrite IH. Qed.

Lemma str_app_nil_r s : s +:+ "" = s.
Proof. induction s as [|c s IH]; [done|]. cbn. by rewrite IH. Qed.

Lemma str_app_assoc s t u : (s +:+ t) +:+ u = s +:+ t +:+ u.
Proof. induction s as [|c s IH]; [done|]. cbn. by rewrite IH. Qed.

Lemma length_str_take n s : String.length (str_take n s) = Nat.min n (String.length s).
Proof. revert s; induction n as [|n IH]; intros [|c s]; cbn; auto. Qed.

Lemma str_take_ge n s : String.length s <= n -> str_take n s = s.
Proof.
  revert s; induction n as [|n IH]; intros [|c s]; cbn; auto with lia.
  intros H. rewrite IH; [done|lia].
Qed.

(** the guarded slice [if len(s) > n { s = s[:n] }] *)
Lemma str_take_guard n s :
  (if n <? String.length s then str_take n s else s) = str_take n s.
Proof.
  destruct (Nat.ltb_spec n (String.length s)); [done|].
  by rewrite str_take_ge.
Qed.

Lemma str_take_app_ge n s t :
  String.length s <= n -> str_take n (s +:+ t) = s +:+ str_take (n - String.length s) t.
Proof.
  revert s; induction n as [|n IH]; intros [|c s]; cbn; try lia; try done.
  intros H. rewrite IH; [done|lia].
Qed.

Lemma str_take_take n m s : str_take n (str_take m s) = str_take (Nat.min n m) s.
Proof. revert m s; induction n as [|n IH]; intros [|m] [|c s]; cbn; auto. by rewrite IH. Qed.

Lemma str_forall_app P s t : str_forall P (s +:+ t) = str_forall P s && str_forall P t.
Proof. induction s as [|c s IH]; [done|]. cbn. by rewrite IH, andb_assoc. Qed.

Lemma str_forall_take P n s : str_forall P s = true -> str_forall P (str_take n s) = true.
Proof.
  revert s; induction n as [|n IH]; intros [|c s]; cbn; try done.
  intros [H1 H2]%andb_true_iff. by rewrite H1, IH.
Qed.

Lemma str_forall_impl (P Q : ascii -> bool) s :
  (forall c, P c = true -> Q c = true) -> str_forall P s = true -> str_forall Q s = true.
Proof.
  intros HPQ. induction s as [|c s IH]; [done|]. cbn.
  intros [H1 H2]%andb_true_iff. by rewrite (HPQ _ H1), IH.
Qed.

Lemma str_forall_trim_right P c s :
  str_forall P s = true -> str_forall P (trim_right_char c s) = true.
Proof.
  induction s as [|a s IH]; [done|]. cbn. intros [H1 H2]%andb_true_iff.
  specialize (IH H2). destruct (trim_right_char c s) as [|b t].
  - destruct (Ascii.eqb a c); cbn; [done|]. by rewrite H1.
  - change (P a && str_forall P (String b t) = true). by rewrite H1, IH.
Qed.

Lemma length_trim_right_char c s : String.length (trim_right_char c s) <= String.length s.
Proof.
  induction s as [|a s IH]; [done|]. cbn.
  destruct (trim_right_char c s); [destruct (Ascii.eqb a c); cbn; lia|].
  cbn in *. lia.
Qed.

Lemma str_app_inj_len s1 s2 t1 t2 :
  String.length t1 = String.length t2 -> s1 +:+ t1 = s2 +:+ t2 -> s1 = s2 /\ t1 = t2.
Proof.
  revert s2; induction s1 as [|c s1 IH]; intros [|d s2] Hl Heq; cbn in *.
  - done.
  - exfalso. subst t1. cbn in Hl. rewrite length_str_app in Hl. lia.
  - exfalso. subst t2. cbn in Hl. rewrite length_str_app in Hl. lia.
  - injection Heq as -> Heq. destruct (IH s2 Hl Heq) as [-> ->]. done.
Qed.

Lemma length_hex_digits k n : String.length (hex_digits k n) = k.
Proof.
  revert n; induction k as [|k IH]; intros n; [done|]. cbn [hex_digits].
  rewrite length_str_app, IH. cbn. lia.
Qed.

Lemma hex_digit_lower n : (0 <= n < 16)%Z -> lower_hex (hex_digit n) = true.
Proof.
  intros H.
  assert (Hc : forall k, (k < 16)%nat -> lower_hex (hex_digit (Z.of_nat k)) = true).
  { intros k Hk. do 16 (destruct k as [|k]; [reflexivity|]). lia. }
  rewrite <- (Z2Nat.id n) by lia. apply Hc. lia.
Qed.

Lemma hex_digits_lower k n : str_forall lower_hex (hex_digits k n) = true.
Proof.
  revert n; induction k as [|k IH]; intros n; [done|]. cbn [hex_digits].
  rewrite str_forall_app, IH. cbn. rewrite hex_digit_lower; [done|].
  apply Z.mod_pos_bound. lia.
Qed.

Lemma split_nonempty c s : split c s <> [].
Proof.
  destruct s as [|a s]; cbn; [done|]. destruct (Ascii.eqb a c); [done|].
  by destruct (split c s).
Qed.

(** ** Joining and splitting on a byte that does not occur in the parts *)

Definition free_of (c : ascii) (s : string) : bool := str_forall (fun a => negb (Ascii.eqb a c)) s.

Lemma split_free c s : free_of c s = true -> split c s = [s].
Proof.
  unfold free_of. induction s as [|a s IH]; cbn; [done|]. intros [H1 H2]%andb_true_iff.
  apply negb_true_iff in H1. by rewrite H1, IH.
Qed.

Lemma split_cons c s t : free_of c s = true -> split c (s +:+ String c t) = s :: split c t.
Proof.
  unfold free_of. induction s as [|a s IH]; cbn; [by rewrite Ascii.eqb_refl|]. intros [H1 H2]%andb_true_iff.
  apply negb_true_iff in H1. by rewrite H1, IH.
Qed.

Lemma split_join c l : l <> [] -> Forall (fun s => free_of c s = true) l -> split c (join (String c "") l) = l.
Proof.
  intros Hn Hl. induction Hl as [|s l Hs Hl IH]; [done|]. destruct l as [|s' l].
  - by apply split_free.
  - change (join (String c "") (s :: s' :: l)) with (s +:+ String c (join (String c "") (s' :: l))).
    by rewrite split_cons, IH.
Qed.

(** so joining such parts is injective *)
Lemma join_inj c l l' :
  l <> [] -> l' <> [] -> Forall (fun s => free_of c s = true) l -> Forall (fun s => free_of c s = true) l' ->
  join (String c "") l = join (String c "") l' -> l = l'.
Proof. intros. rewrite <-(split_join c l), <-(split_join c l') by done. by f_equal. Qed.

(** *** As lists of bytes *)

Lemma list_ascii_app a b : String.list_ascii_of_string (a +:+ b) = String.list_ascii_of_string a ++ String.list_ascii_of_string b.
Proof. induction a as [|c a IH]; [done|]. cbn. by rewrite IH. Qed.

Lemma list_ascii_inj a b : String.list_ascii_of_string a = String.list_ascii_of_string b -> a = b.
Proof. intros H. by rewrite <-(String.string_of_list_ascii_of_string a), <-(String.string_of_list_ascii_of_string b), H. Qed.

(** *** Case *)

Lemma ascii_upper_lower c : ascii_upper (ascii_lower c) = ascii_upper c.
Proof. destruct c as [[] [] [] [] [] [] [] []]; vm_compute; reflexivity. Qed.

Lemma ascii_lower_upper c : ascii_lower (ascii_upper c) = ascii_lower c.
Proof. destruct c as [[] [] [] [] [] [] [] []]; vm_compute; reflexivity. Qed.

Lemma to_upper_lower s : to_upper (to_lower s) = to_upper s.
Proof. unfold to_upper, to_lower. induction s as [|c s IH]; cbn; [done|]. by rewrite ascii_upper_lower, IH. Qed.

Lemma to_lower_upper s : to_lower (to_upper s) = to_lower s.
Proof. unfold to_upper, to_lower. induction s as [|c s IH]; cbn; [done|]. by rewrite ascii_lower_upper, IH. Qed.

(** equality under case folding is equality in upper case *)
Lemma equal_fold_upper a b : equal_fold a b = true <-> to_upper a = to_upper b.
Proof.
  unfold equal_fold. rewrite String.eqb_eq. split; intros H.
  - by rewrite <-(to_upper_lower a), H, to_upper_lower.
  - by rewrite <-(to_lower_upper a), H, to_lower_upper.
Qed.
