(* ===== verification/GoTime.v ===== *)
(** * Go times and durations

    [time.Time] as nanoseconds since the Unix epoch, [time.Duration] as an
    int64 count of nanoseconds with [Time.Sub]'s saturation, and the operations
    the operator uses on them. *)
From S2P Require Import Prelude GoString.
From stdpp Require Import pretty.

(** ** Definitions *)

Abbreviation gotime := Z.
Abbreviation duration := Z.

Definition second : duration := 1000000000.
Definition minute : duration := 60 * second.
Definition hour : duration := 60 * minute.

Definition max_duration : duration := 2 ^ 63 - 1.
Definition min_duration : duration := - 2 ^ 63.

(** the zero [time.Time], January 1 of year 1 *)
Definition time_zero : gotime := (-62135596800) * second.

(** [t.IsZero()]; for a pointer, nil counts as zero *)
Definition time_is_zero (t : gotime) : bool := (t =? time_zero)%Z.
Definition timep_is_zero (t : option gotime) : bool :=
  match t with Some t => time_is_zero t | None => true end.

(** [t.Sub(u)]: saturates at the int64 bounds *)
Definition time_sub (t u : gotime) : duration := Z.max min_duration (Z.min max_duration (t - u)).

(** [t.Before(u)] *)
Definition time_before (t u : gotime) : bool := (t <? u)%Z.

(** [t.Unix()] *)
Definition unix (t : gotime) : Z := (t / second)%Z.

(** [t.Truncate(time.Second)]: multiples of a second since the zero time are
    multiples of a second since the epoch *)
Definition truncate_second (t : gotime) : gotime := (t / second * second)%Z.

(** [d.Truncate(time.Minute).String()] for a non-negative [d] *)
Definition minutes_string (d : duration) : string :=
  let m := (d / minute)%Z in
  if (m =? 0)%Z then "0s"
  else if (m <? 60)%Z then pretty m +:+ "m0s"
  else pretty (m / 60)%Z +:+ "h" +:+ pretty (m mod 60)%Z +:+ "m0s".

(** ** Lemmas *)

Lemma time_sub_bounds t u : (min_duration <= time_sub t u <= max_duration)%Z.
Proof. unfold time_sub, min_duration, max_duration. lia. Qed.

Lemma time_sub_exact t u :
  (min_duration <= t - u <= max_duration)%Z -> time_sub t u = (t - u)%Z.
Proof. unfold time_sub. lia. Qed.

(** saturation never turns a long wait into a short one *)
Lemma time_sub_mono t t' u : (t <= t')%Z -> (time_sub t u <= time_sub t' u)%Z.
Proof. unfold time_sub. lia. Qed.

Lemma truncate_second_unix t u : truncate_second t = truncate_second u <-> unix t = unix u.
Proof. unfold truncate_second, unix, second. nia. Qed.
