(* ===== verification/Naming.v ===== *)
(** * Names and idempotency tokens (pkg/naming/naming.go)

    [CASName] and [ClientToken] as the code computes them, with [sanitize]'s
    loop over runes; then their shape (length and alphabet accepted by CAS), and
    that two generations of certificates never share a name. *)
From S2P Require Import Prelude GoString.

(** ** Definitions *)

Definition maxCASNameLen : nat := 63.
Definition prefixBudget : nat := 50.
Definition fpSuffixLen : nat := 12.
Definition tokenUIDLen : nat := 16.
Definition tokenFPLen : nat := 32.

(** the characters [sanitize] keeps *)
Definition cas_char (c : ascii) : bool :=
  byte_in 97 122 c || byte_in 65 90 c || byte_in 48 57 c || byte_in 95 95 c.

(** [for _, r := range s]: [skip] counts the bytes of the current rune that are
    still to be passed over *)
Fixpoint sanitize_from (skip : nat) (s : string) : string :=
  match s with
  | "" => ""
  | String c s' =>
      match skip with
      | S k => sanitize_from k s'
      | O => if cas_char c then String c (sanitize_from 0 s')
             else String "_" (sanitize_from (rune_width s - 1) s')
      end
  end.

Definition sanitize (s : string) : string := sanitize_from 0 s.

Definition CASName (crName fingerprint : string) : string :=
  let prefix := sanitize crName in
  let prefix := if prefixBudget <? String.length prefix then str_take prefixBudget prefix else prefix in
  let prefix := trim_right_char "_" prefix in
  let prefix := if String.eqb prefix "" then "cert" else prefix in
  let suffix := fingerprint in
  let suffix := if fpSuffixLen <? String.length suffix then str_take fpSuffixLen suffix else suffix in
  let name := prefix +:+ "_" +:+ suffix in
  if maxCASNameLen <? String.length name then str_take maxCASNameLen name else name.

Definition ClientToken (uid fingerprint : string) : string :=
  let u := remove_char "-" uid in
  let u := if tokenUIDLen <? String.length u then str_take tokenUIDLen u else u in
  let f := fingerprint in
  let f := if tokenFPLen <? String.length f then str_take tokenFPLen f else f in
  u +:+ f.

(** the prefix part of [CASName] *)
Definition cas_prefix (crName : string) : string :=
  let p := trim_right_char "_" (str_take prefixBudget (sanitize crName)) in
  if String.eqb p "" then "cert" else p.

(** ** Lemmas *)

Lemma sanitize_from_chars k s : str_forall cas_char (sanitize_from k s) = true.
Proof.
  revert k; induction s as [|c s IH]; intros k; [done|]. cbn [sanitize_from].
  destruct k as [|k]; [|apply IH].
  destruct (cas_char c) eqn:E; cbn [str_forall]; [by rewrite E, IH|]. by rewrite IH.
Qed.

Lemma cas_prefix_chars cr : str_forall cas_char (cas_prefix cr) = true.
Proof.
  unfold cas_prefix. case_match; [done|].
  apply str_forall_trim_right, str_forall_take, sanitize_from_chars.
Qed.

Lemma cas_prefix_length cr : 1 <= String.length (cas_prefix cr) <= prefixBudget.
Proof.
  unfold cas_prefix.
  pose proof (length_trim_right_char "_" (str_take prefixBudget (sanitize cr))) as H.
  rewrite length_str_take in H.
  destruct (trim_right_char _ _) as [|c t] eqn:E; [cbn; unfold prefixBudget; lia|].
  change (String.eqb (String c t) "") with false. cbn [String.length] in *. lia.
Qed.

(** the final cut to [maxCASNameLen] never fires: 50 + 1 + 12 = 63 *)
Lemma CASName_eq cr fp : CASName cr fp = cas_prefix cr +:+ "_" +:+ str_take fpSuffixLen fp.
Proof.
  unfold CASName. rewrite !str_take_guard. fold (cas_prefix cr).
  apply str_take_ge. rewrite !length_str_app, length_str_take.
  pose proof (cas_prefix_length cr). change (String.length "_") with 1.
  unfold prefixBudget, maxCASNameLen, fpSuffixLen in *. lia.
Qed.

Lemma lower_hex_cas_char c : lower_hex c = true -> cas_char c = true.
Proof. unfold lower_hex, cas_char, byte_in. rewrite !orb_true_iff, !andb_true_iff, !N.leb_le. lia. Qed.

Lemma ClientToken_eq uid fp :
  ClientToken uid fp = str_take tokenUIDLen (remove_char "-" uid) +:+ str_take tokenFPLen fp.
Proof. unfold ClientToken. by rewrite !str_take_guard. Qed.

Lemma ClientToken_length uid fp : String.length (ClientToken uid fp) <= tokenUIDLen + tokenFPLen.
Proof. rewrite ClientToken_eq, length_str_app, !length_str_take. lia. Qed.

(** ** Properties *)

(** C37: a CAS name is accepted by CAS for every CR name: at most 63 bytes, not
    empty before the underscore, and, for a hexadecimal fingerprint, made only
    of letters, digits and underscores. *)
Theorem CASName_accepted (cr fp : string) (Hfp : str_forall lower_hex fp = true) :
  String.length (CASName cr fp) <= maxCASNameLen /\
  str_forall cas_char (CASName cr fp) = true /\
  exists p, p <> "" /\ CASName cr fp = p +:+ "_" +:+ str_take fpSuffixLen fp.
Proof.
  rewrite CASName_eq. pose proof (cas_prefix_length cr) as Hl. split; [|split].
  - rewrite !length_str_app, length_str_take. change (String.length "_") with 1.
  unfold prefixBudget, maxCASNameLen, fpSuffixLen in *. lia.
  - rewrite !str_forall_app, cas_prefix_chars. change (str_forall cas_char "_") with true.
    apply str_forall_take. by eapply str_forall_impl; [apply lower_hex_cas_char|].
  - exists (cas_prefix cr). split; [|done]. intros E. rewrite E in Hl. cbn in Hl. lia.
Qed.

Lemma CASName_accepted_witness :
  String.length (CASName "my-cert.prod" "00ff00ff00ff00ff") <= maxCASNameLen /\
  str_forall cas_char (CASName "my-cert.prod" "00ff00ff00ff00ff") = true /\
  exists p, p <> "" /\ CASName "my-cert.prod" "00ff00ff00ff00ff" = p +:+ "_" +:+ str_take fpSuffixLen "00ff00ff00ff00ff".
Proof. apply CASName_accepted. reflexivity. Defined.

(** Names identify generations: two certificates whose CAS names collide,
    of the same CR or of different ones, agree on the first 12 digits of their
    fingerprints. *)
Theorem CASName_generation (cr1 cr2 fp1 fp2 : string)
  (H1 : fpSuffixLen <= String.length fp1) (H2 : fpSuffixLen <= String.length fp2)
  (Heq : CASName cr1 fp1 = CASName cr2 fp2) :
  str_take fpSuffixLen fp1 = str_take fpSuffixLen fp2.
Proof.
  rewrite !CASName_eq, <- !str_app_assoc in Heq.
  apply str_app_inj_len in Heq; [apply Heq|]. rewrite !length_str_take. lia.
Qed.

Lemma CASName_generation_witness :
  str_take fpSuffixLen "0123456789abcdef" = str_take fpSuffixLen "0123456789abffff".
Proof. apply (CASName_generation "a-b" "a.b"); [vm_compute; lia|vm_compute; lia|reflexivity]. Defined.
