(* ===== verification/Sans.v ===== *)
(** * Domain coverage (pkg/pki/sans.go)

    [Covers] and [Missing] as written, and an independent reading of RFC 6125
    6.4.3 on label lists that [Covers] is proved equivalent to. *)
From S2P Require Import Prelude GoString.

(** ** Definitions *)

(** [strings.ToLower(strings.TrimSuffix(s, "."))] *)
Definition norm_host (s : string) : string := to_lower (trim_suffix s ".").

(** the loop over the labels after the first *)
Fixpoint labels_match (pl hl : list string) : bool :=
  match pl, hl with
  | p :: pl', h :: hl' =>
      if String.eqb p "" || contains p "*" || negb (String.eqb p h) then false
      else labels_match pl' hl'
  | _, _ => true
  end.

Definition Covers (pattern host : string) : bool :=
  let p := norm_host pattern in
  let h := norm_host host in
  if String.eqb p "" || String.eqb h "" then false
  else if String.eqb p h then true
  else if negb (has_prefix p "*.") then false
  else
    let pl := split "." p in
    let hl := split "." h in
    if (length pl <? 3) || negb (length pl =? length hl) then false
    else if negb (labels_match (tail pl) (tail hl)) then false
    else match hl with
         | h0 :: _ => negb (String.eqb h0 "")
         | [] => false
         end.

(** the loop of [Missing]: [seen] is the set of normalised names already met *)
Fixpoint missing_loop (dnsNames : list string) (seen : gset string) (required : list string) : list string :=
  match required with
  | [] => []
  | r :: rest =>
      let key := norm_host r in
      if bool_decide (key ∈ seen) then missing_loop dnsNames seen rest
      else
        let out := missing_loop dnsNames ({[key]} ∪ seen) rest in
        if existsb (fun n => Covers n r) dnsNames then out else r :: out
  end.

Definition Missing (dnsNames required : list string) : list string :=
  sort_strings (missing_loop dnsNames ∅ required).

(** RFC 6125 6.4.3 on label lists: equal names, or a pattern whose first label
    is exactly the asterisk, with at least two more labels, all literal, equal
    to the host's labels after its own non-empty first one *)
Definition rfc6125 (pattern host : string) : Prop :=
  let p := norm_host pattern in
  let h := norm_host host in
  p <> "" /\ h <> "" /\
  (p = h \/
   exists h0 rest,
     split "." p = "*" :: rest /\ split "." h = h0 :: rest /\ h0 <> "" /\
     2 <= length rest /\ Forall (fun l => l <> "" /\ contains l "*" = false) rest).

(** ** Lemmas *)

Lemma has_prefix_star p : has_prefix p "*." = true -> exists rest, split "." p = "*" :: rest.
Proof.
  destruct p as [|a [|b p]]; cbn [has_prefix]; [done|by rewrite andb_false_r|].
  intros [<-%Ascii.eqb_eq [<-%Ascii.eqb_eq _]%andb_true_iff]%andb_true_iff. cbn. eauto.
Qed.

Lemma split_star_prefix p rest :
  split "." p = "*" :: rest -> rest <> [] -> has_prefix p "*." = true.
Proof.
  destruct p as [|a p]; cbn [split]; [intros [=]|].
  destruct (Ascii.eqb a "."); [intros [=]|].
  destruct (split "." p) as [|h t] eqn:E; [by destruct (split_nonempty "." p)|].
  intros [= -> -> ->] Hne. destruct p as [|b p]; cbn [split] in E; [congruence|].
  destruct (Ascii.eqb_spec b "."); [by subst|].
  destruct (split "." p); discriminate.
Qed.

Lemma labels_match_spec pl hl :
  length pl = length hl ->
  labels_match pl hl = true <->
  pl = hl /\ Forall (fun l => l <> "" /\ contains l "*" = false) pl.
Proof.
  revert hl; induction pl as [|p pl IH]; intros [|h hl] Hl; try discriminate; cbn.
  { split; [by repeat constructor|done]. }
  injection Hl as Hl.
  destruct (String.eqb_spec p ""), (contains p "*") eqn:Ec, (String.eqb_spec p h); cbn;
    try (split; [done|intros [[= ? ?] [[? ?] ?]%Forall_cons]; congruence]).
  rewrite IH by done. subst. split.
  - intros [-> HF]. split; [done|]. constructor; auto.
  - intros [[= ->] HF]. split; [done|]. by inversion HF.
Qed.

Lemma Covers_norm n r1 r2 : norm_host r1 = norm_host r2 -> Covers n r1 = Covers n r2.
Proof. unfold Covers. by intros ->. Qed.

Lemma missing_loop_incl names seen req r : r ∈ missing_loop names seen req -> r ∈ req.
Proof.
  revert seen; induction req as [|r' req IH]; intros seen; cbn; [done|].
  rewrite elem_of_cons. destruct (bool_decide _); [right; by eapply IH|].
  destruct (existsb _ _).
  - right. by eapply IH.
  - intros [->|?]%elem_of_cons; [by left|right; by eapply IH].
Qed.

Lemma missing_loop_uncovered names seen req r :
  r ∈ missing_loop names seen req -> existsb (fun n => Covers n r) names = false.
Proof.
  revert seen; induction req as [|r' req IH]; intros seen; cbn; [by intros ?%elem_of_nil|].
  destruct (bool_decide _); [apply IH|].
  destruct (existsb (fun n => Covers n r') names) eqn:E; [apply IH|].
  intros [->|?]%elem_of_cons; [done|by eapply IH].
Qed.

(** every uncovered name is represented by one with the same normal form *)
Lemma missing_loop_complete names seen req r :
  r ∈ req -> norm_host r ∉ seen -> existsb (fun n => Covers n r) names = false ->
  exists r', r' ∈ missing_loop names seen req /\ norm_host r' = norm_host r.
Proof.
  revert seen; induction req as [|r0 req IH]; intros seen Hin Hs Hc; [by apply elem_of_nil in Hin|].
  cbn. destruct (bool_decide_reflect (norm_host r0 ∈ seen)) as [Hseen|Hseen].
  { apply elem_of_cons in Hin as [->|Hin]; [done|]. by apply IH. }
  destruct (decide (norm_host r = norm_host r0)) as [Heq|Hne].
  - exists r0. split; [|done].
    rewrite (existsb_ext _ (fun n => Covers n r)), Hc; [by left|].
    intros n. by apply Covers_norm.
  - apply elem_of_cons in Hin as [->|Hin]; [done|].
    destruct (IH ({[norm_host r0]} ∪ seen) Hin) as (r' & Hr' & Hn); [set_solver|done|].
    exists r'. split; [|done]. destruct (existsb (fun n => Covers n r0) names); [done|]. by right.
Qed.

Lemma missing_loop_NoDup names seen req :
  NoDup (norm_host <$> missing_loop names seen req) /\
  forall r, r ∈ missing_loop names seen req -> norm_host r ∉ seen.
Proof.
  revert seen; induction req as [|r0 req IH]; intros seen; cbn.
  { split; [constructor|]. by intros r ?%elem_of_nil. }
  case_bool_decide as Hseen; [apply IH|].
  destruct (IH ({[norm_host r0]} ∪ seen)) as [Hnd Hout].
  destruct (existsb (fun n => Covers n r0) names); cbn.
  - split; [done|]. intros r Hr%Hout. set_solver.
  - split.
    + constructor; [|done]. intros (r & Heq & Hr)%list_elem_of_fmap.
      apply Hout in Hr. set_solver.
    + intros r [->|Hr]%elem_of_cons; [done|]. apply Hout in Hr. set_solver.
Qed.

Lemma elem_of_Missing names req r : r ∈ Missing names req <-> r ∈ missing_loop names ∅ req.
Proof. unfold Missing, sort_strings. by rewrite merge_sort_Permutation. Qed.

Lemma covered_spec names r : existsb (fun n => Covers n r) names = true <-> exists n, n ∈ names /\ Covers n r = true.
Proof. rewrite existsb_exists. by setoid_rewrite list_elem_of_In. Qed.

Lemma Missing_nil names required :
  Missing names required = [] <-> forall r, r ∈ required -> exists n, n ∈ names /\ Covers n r = true.
Proof.
  split.
  - intros Hm r Hr. apply covered_spec. apply not_false_iff_true. intros Hc.
    destruct (missing_loop_complete names ∅ required r Hr ltac:(set_solver) Hc) as (r' & Hr' & _).
    apply elem_of_Missing in Hr'. rewrite Hm in Hr'. by apply elem_of_nil in Hr'.
  - intros H. destruct (Missing names required) as [|r l] eqn:E; [done|]. exfalso.
    assert (Hr : r ∈ missing_loop names ∅ required) by (apply elem_of_Missing; rewrite E; constructor).
    pose proof (missing_loop_uncovered _ _ _ _ Hr) as Hu. apply missing_loop_incl in Hr.
    by rewrite (proj2 (covered_spec _ _) (H r Hr)) in Hu.
Qed.

(** ** Properties *)

(** C36: [Covers] decides RFC 6125 6.4.3 as read on label lists: names match
    case-insensitively up to a trailing dot, and a wildcard matches exactly one
    whole leftmost label of a name of at least three labels. *)
Theorem Covers_rfc6125 (pattern host : string) :
  Covers pattern host = true <-> rfc6125 pattern host.
Proof.
  unfold Covers, rfc6125.
  set (p := norm_host pattern). set (h := norm_host host).
  destruct (String.eqb_spec p ""), (String.eqb_spec h ""); cbn [orb];
    try (split; [done|]; intros (? & ? & _); done).
  destruct (String.eqb_spec p h); [split; auto|].
  destruct (has_prefix p "*.") eqn:Hp; cbn [negb].
  2:{ split; [done|]. intros (_ & _ & [?|(h0 & rest & Hpl & _ & _ & Hr & _)]); [done|].
      rewrite (split_star_prefix p rest) in Hp; [done|done|by intros ->; cbn in Hr; lia]. }
  destruct (has_prefix_star p Hp) as [rest Hpl]. rewrite Hpl.
  destruct (split "." h) as [|h0 hr] eqn:Hhl; [by destruct (split_nonempty "." h)|].
  cbn [length tail].
  destruct (Nat.ltb_spec (S (length rest)) 3); cbn [orb].
  { split; [done|]. intros (_ & _ & [?|(? & ? & [= <-] & _ & _ & ? & _)]); [done|lia]. }
  destruct (Nat.eqb_spec (S (length rest)) (S (length hr))) as [Hl|Hl]; cbn [negb].
  2:{ split; [done|]. intros (_ & _ & [?|(? & ? & [= <-] & [= _ <-] & _)]); done. }
  injection Hl as Hl. pose proof (labels_match_spec rest hr Hl) as Hm.
  destruct (labels_match rest hr); cbn [negb].
  2:{ split; [done|]. intros (_ & _ & [?|(? & ? & [= <-] & [= -> <-] & _ & _ & HF)]); [done|].
      apply Hm. done. }
  destruct (proj1 Hm eq_refl) as [<- HF].
  destruct (String.eqb_spec h0 ""); cbn [negb]; split; try done.
  - intros (_ & _ & [?|(? & ? & _ & [= -> _] & ? & _)]); done.
  - intros _. do 2 (split; [done|]). right. exists h0, rest. auto with lia.
Qed.

(** [Missing] reports exactly the uncovered domains: it is empty if and only
    if every required name is covered; what it reports is required, uncovered,
    sorted, and free of duplicates up to case and trailing dot. *)
Theorem Missing_spec (names required : list string) :
  (Missing names required = [] <->
     forall r, r ∈ required -> exists n, n ∈ names /\ Covers n r = true) /\
  (forall r, r ∈ Missing names required ->
     r ∈ required /\ forall n, n ∈ names -> Covers n r = false) /\
  Sorted String.le (Missing names required) /\
  NoDup (norm_host <$> Missing names required).
Proof.
  assert (Hcov : forall r, existsb (fun n => Covers n r) names = false <->
                           forall n, n ∈ names -> Covers n r = false).
  { intros r. rewrite <- not_true_iff_false, existsb_exists. split.
    - intros H n Hn. destruct (Covers n r) eqn:E; [|done].
      destruct H. exists n. by rewrite <- list_elem_of_In.
    - intros H (n & Hn%list_elem_of_In & E). by rewrite H in E. }
  split; [apply Missing_nil|split; [|split]].
  - intros r Hr%elem_of_Missing. split; [by eapply missing_loop_incl|].
    apply Hcov. by eapply missing_loop_uncovered.
  - apply Sorted_merge_sort. apply _.
  - unfold Missing, sort_strings. rewrite merge_sort_Permutation. apply missing_loop_NoDup.
Qed.

