(* ===== verification/Api.v ===== *)
(** * The API types (api/v1alpha1) and the cert-manager and Kubernetes types they use

    Records follow the Go structs field by field: a pointer field is an
    [option], a slice a [list] (nil and empty are not told apart by the code),
    a map a [gmap], an integer a [Z].  Types of cert-manager have the fields
    the CRD in config/crd/bases lists or the code reads.  [set_f] is the
    assignment [x.f = v]. *)
From S2P Require Import Prelude GoString GoTime.

(** ** Condition types, reasons and names (conditions.go) *)

Definition ConditionReady : string := "Ready".
Definition ConditionIssued : string := "Issued".
Definition ConditionUploaded : string := "Uploaded".
Definition ConditionIssuerDefaultDiverged : string := "IssuerDefaultDiverged".
Definition ConditionApplied : string := "Applied".
Definition ConditionConflict : string := "Conflict".
Definition ReasonNoIssuer : string := "NoIssuer".
Definition ReasonIssuerDefaultDiverged : string := "IssuerDefaultDiverged".
Definition ReasonSecretNameConflict : string := "SecretNameConflict".
Definition ReasonCertificateNotReady : string := "CertificateNotReady".
Definition ReasonIssuanceStalled : string := "IssuanceStalled".
Definition ReasonSecretNotFound : string := "SecretNotFound".
Definition ReasonSecretInvalid : string := "SecretInvalid".
Definition ReasonSelfSignedDuringIssuance : string := "SelfSignedDuringIssuance".
Definition ReasonSANsMismatch : string := "SANsMismatch".
Definition ReasonCredentialsNotFound : string := "CredentialsSecretNotFound".
Definition ReasonCredentialsInvalid : string := "CredentialsInvalid".
Definition ReasonUploadFailed : string := "UploadFailed".
Definition ReasonThrottled : string := "Throttled".
Definition ReasonDeletionBlocked : string := "DeletionBlockedByBindings".
Definition ReasonCleanupFailed : string := "CleanupFailed".
Definition ReasonCleanupAbandoned : string := "CleanupAbandoned".
Definition ReasonUploadDisabled : string := "UploadDisabled".
Definition ReasonReady : string := "Ready".
Definition ReasonCertificateNotFound : string := "CertificateNotFound".
Definition ReasonTargetNotFound : string := "TargetNotFound".
Definition ReasonDomainNotCovered : string := "DomainNotCovered".
Definition ReasonCASUploadRequired : string := "CASUploadRequired".
Definition ReasonConflictingBinding : string := "ConflictingBinding".
Definition ReasonNoConflict : string := "NoConflict".
Definition ReasonAccountMismatch : string := "AccountMismatch".
Definition ReasonApplyFailed : string := "ApplyFailed".
Definition ReasonObserveFailed : string := "ObserveFailed".
Definition ReasonDriftCorrected : string := "DriftCorrected".
Definition ReasonApplied : string := "Applied".
Definition FinalizerName : string := "certs.bestheme.ac.cn/finalizer".
Definition LabelManaged : string := "certs.bestheme.ac.cn/managed".

(** ** Kubernetes and cert-manager types *)

Inductive ConditionStatus : Type := CondTrue | CondFalse | CondUnknown.
#[export] Instance ConditionStatus_eq_dec : EqDecision ConditionStatus.
Proof. solve_decision. Defined.

(** metav1.Condition *)
Record Condition : Type := mkCondition {
  cond_type : string;
  cond_status : ConditionStatus;
  cond_reason : string;
  cond_message : string;
  cond_observed_generation : Z;
  cond_last_transition : gotime
}.

(** metav1.ObjectMeta *)
Record ObjectMeta : Type := mkObjectMeta {
  om_namespace : string;
  om_name : string;
  om_uid : string;
  om_resource_version : string;
  om_generation : Z;
  om_creation : gotime;
  om_deletion : option gotime;
  om_finalizers : list string;
  om_labels : gmap string string;
  om_annotations : gmap string string
}.

Definition set_om_namespace (v : string) (x : ObjectMeta) : ObjectMeta :=
  {| om_namespace := v; om_name := om_name x; om_uid := om_uid x; om_resource_version := om_resource_version x; om_generation := om_generation x; om_creation := om_creation x; om_deletion := om_deletion x; om_finalizers := om_finalizers x; om_labels := om_labels x; om_annotations := om_annotations x |}.
Definition set_om_name (v : string) (x : ObjectMeta) : ObjectMeta :=
  {| om_namespace := om_namespace x; om_name := v; om_uid := om_uid x; om_resource_version := om_resource_version x; om_generation := om_generation x; om_creation := om_creation x; om_deletion := om_deletion x; om_finalizers := om_finalizers x; om_labels := om_labels x; om_annotations := om_annotations x |}.
Definition set_om_uid (v : string) (x : ObjectMeta) : ObjectMeta :=
  {| om_namespace := om_namespace x; om_name := om_name x; om_uid := v; om_resource_version := om_resource_version x; om_generation := om_generation x; om_creation := om_creation x; om_deletion := om_deletion x; om_finalizers := om_finalizers x; om_labels := om_labels x; om_annotations := om_annotations x |}.
Definition set_om_resource_version (v : string) (x : ObjectMeta) : ObjectMeta :=
  {| om_namespace := om_namespace x; om_name := om_name x; om_uid := om_uid x; om_resource_version := v; om_generation := om_generation x; om_creation := om_creation x; om_deletion := om_deletion x; om_finalizers := om_finalizers x; om_labels := om_labels x; om_annotations := om_annotations x |}.
Definition set_om_generation (v : Z) (x : ObjectMeta) : ObjectMeta :=
  {| om_namespace := om_namespace x; om_name := om_name x; om_uid := om_uid x; om_resource_version := om_resource_version x; om_generation := v; om_creation := om_creation x; om_deletion := om_deletion x; om_finalizers := om_finalizers x; om_labels := om_labels x; om_annotations := om_annotations x |}.
Definition set_om_creation (v : gotime) (x : ObjectMeta) : ObjectMeta :=
  {| om_namespace := om_namespace x; om_name := om_name x; om_uid := om_uid x; om_resource_version := om_resource_version x; om_generation := om_generation x; om_creation := v; om_deletion := om_deletion x; om_finalizers := om_finalizers x; om_labels := om_labels x; om_annotations := om_annotations x |}.
Definition set_om_deletion (v : option gotime) (x : ObjectMeta) : ObjectMeta :=
  {| om_namespace := om_namespace x; om_name := om_name x; om_uid := om_uid x; om_resource_version := om_resource_version x; om_generation := om_generation x; om_creation := om_creation x; om_deletion := v; om_finalizers := om_finalizers x; om_labels := om_labels x; om_annotations := om_annotations x |}.
Definition set_om_finalizers (v : list string) (x : ObjectMeta) : ObjectMeta :=
  {| om_namespace := om_namespace x; om_name := om_name x; om_uid := om_uid x; om_resource_version := om_resource_version x; om_generation := om_generation x; om_creation := om_creation x; om_deletion := om_deletion x; om_finalizers := v; om_labels := om_labels x; om_annotations := om_annotations x |}.
Definition set_om_labels (v : gmap string string) (x : ObjectMeta) : ObjectMeta :=
  {| om_namespace := om_namespace x; om_name := om_name x; om_uid := om_uid x; om_resource_version := om_resource_version x; om_generation := om_generation x; om_creation := om_creation x; om_deletion := om_deletion x; om_finalizers := om_finalizers x; om_labels := v; om_annotations := om_annotations x |}.
Definition set_om_annotations (v : gmap string string) (x : ObjectMeta) : ObjectMeta :=
  {| om_namespace := om_namespace x; om_name := om_name x; om_uid := om_uid x; om_resource_version := om_resource_version x; om_generation := om_generation x; om_creation := om_creation x; om_deletion := om_deletion x; om_finalizers := om_finalizers x; om_labels := om_labels x; om_annotations := v |}.

(** cmmeta.IssuerReference *)
Record IssuerReference : Type := mkIssuerReference {
  iss_name : string;
  iss_kind : string;
  iss_group : string
}.

(** cmapi.X509Subject *)
Record X509Subject : Type := mkX509Subject {
  subj_organizations : list string;
  subj_countries : list string;
  subj_organizational_units : list string;
  subj_localities : list string;
  subj_provinces : list string;
  subj_street_addresses : list string;
  subj_postal_codes : list string;
  subj_serial_number : string
}.

(** cmapi.CertificatePrivateKey *)
Record CertificatePrivateKey : Type := mkPrivateKey {
  pk_rotation_policy : string;
  pk_encoding : string;
  pk_algorithm : string;
  pk_size : Z
}.

(** cmapi.CertificateSecretTemplate *)
Record CertificateSecretTemplate : Type := mkSecretTemplate {
  st_annotations : gmap string string;
  st_labels : gmap string string
}.

(** cmapi.CertificateSpec, the fields the operator sets; it overwrites the whole spec *)
Record CertificateSpec : Type := mkCertificateSpec {
  cs_secret_name : string;
  cs_issuer_ref : IssuerReference;
  cs_common_name : string;
  cs_dns_names : list string;
  cs_ip_addresses : list string;
  cs_duration : option duration;
  cs_renew_before : option duration;
  cs_subject : option X509Subject;
  cs_usages : list string;
  cs_private_key : option CertificatePrivateKey;
  cs_secret_template : option CertificateSecretTemplate
}.

(** cmapi.CertificateCondition *)
Record CertificateCondition : Type := mkCertificateCondition {
  cc_type : string;
  cc_status : ConditionStatus;
  cc_last_transition : option gotime
}.

(** cmapi.CertificateStatus, the fields the operator reads *)
Record CertificateStatus : Type := mkCertificateStatus {
  cst_conditions : list CertificateCondition;
  cst_revision : option Z;
  cst_renewal_time : option gotime;
  cst_failed_attempts : option Z;
  cst_last_failure : option gotime
}.

(** cmapi.Certificate *)
Record Certificate : Type := mkCertificate {
  cert_meta : ObjectMeta;
  cert_spec : CertificateSpec;
  cert_status : CertificateStatus
}.

Definition set_cert_meta (v : ObjectMeta) (x : Certificate) : Certificate :=
  {| cert_meta := v; cert_spec := cert_spec x; cert_status := cert_status x |}.
Definition set_cert_spec (v : CertificateSpec) (x : Certificate) : Certificate :=
  {| cert_meta := cert_meta x; cert_spec := v; cert_status := cert_status x |}.
Definition set_cert_status (v : CertificateStatus) (x : Certificate) : Certificate :=
  {| cert_meta := cert_meta x; cert_spec := cert_spec x; cert_status := v |}.

(** corev1.Secret *)
Record Secret : Type := mkSecret {
  sec_meta : ObjectMeta;
  sec_data : gmap string string
}.

(** ** AliyunCertificate (aliyuncertificate_types.go) *)

(** CertificateTemplate *)
Record CertificateTemplate : Type := mkCertificateTemplate {
  ct_issuer_ref : option IssuerReference;
  ct_common_name : string;
  ct_dns_names : list string;
  ct_ip_addresses : list string;
  ct_duration : option duration;
  ct_renew_before : option duration;
  ct_subject : option X509Subject;
  ct_usages : list string;
  ct_private_key : option CertificatePrivateKey;
  ct_secret_template : option CertificateSecretTemplate
}.

(** AliyunSpec *)
Record AliyunSpec : Type := mkAliyunSpec {
  al_credentials_ref : string;
  al_region : string;
  al_cas_region : string;
  al_endpoint_override : string;
  al_resource_group_id : string;
  al_upload_to_cas : option bool
}.

(** RetentionSpec; [KeepLast] is an int32 *)
Record RetentionSpec : Type := mkRetentionSpec {
  ret_keep_last : Z;
  ret_min_age : option duration
}.

(** AliyunCertificateSpec *)
Record AliyunCertificateSpec : Type := mkAliyunCertificateSpec {
  acs_secret_name : string;
  acs_template : CertificateTemplate;
  acs_aliyun : AliyunSpec;
  acs_retention : RetentionSpec
}.

(** CertificateGeneration *)
Record CertificateGeneration : Type := mkGeneration {
  gen_fingerprint : string;
  gen_cert_id : option Z;
  gen_cas_name : string;
  gen_not_before : gotime;
  gen_not_after : gotime;
  gen_uploaded_at : gotime
}.

Definition set_gen_fingerprint (v : string) (x : CertificateGeneration) : CertificateGeneration :=
  {| gen_fingerprint := v; gen_cert_id := gen_cert_id x; gen_cas_name := gen_cas_name x; gen_not_before := gen_not_before x; gen_not_after := gen_not_after x; gen_uploaded_at := gen_uploaded_at x |}.
Definition set_gen_cert_id (v : option Z) (x : CertificateGeneration) : CertificateGeneration :=
  {| gen_fingerprint := gen_fingerprint x; gen_cert_id := v; gen_cas_name := gen_cas_name x; gen_not_before := gen_not_before x; gen_not_after := gen_not_after x; gen_uploaded_at := gen_uploaded_at x |}.
Definition set_gen_cas_name (v : string) (x : CertificateGeneration) : CertificateGeneration :=
  {| gen_fingerprint := gen_fingerprint x; gen_cert_id := gen_cert_id x; gen_cas_name := v; gen_not_before := gen_not_before x; gen_not_after := gen_not_after x; gen_uploaded_at := gen_uploaded_at x |}.
Definition set_gen_not_before (v : gotime) (x : CertificateGeneration) : CertificateGeneration :=
  {| gen_fingerprint := gen_fingerprint x; gen_cert_id := gen_cert_id x; gen_cas_name := gen_cas_name x; gen_not_before := v; gen_not_after := gen_not_after x; gen_uploaded_at := gen_uploaded_at x |}.
Definition set_gen_not_after (v : gotime) (x : CertificateGeneration) : CertificateGeneration :=
  {| gen_fingerprint := gen_fingerprint x; gen_cert_id := gen_cert_id x; gen_cas_name := gen_cas_name x; gen_not_before := gen_not_before x; gen_not_after := v; gen_uploaded_at := gen_uploaded_at x |}.
Definition set_gen_uploaded_at (v : gotime) (x : CertificateGeneration) : CertificateGeneration :=
  {| gen_fingerprint := gen_fingerprint x; gen_cert_id := gen_cert_id x; gen_cas_name := gen_cas_name x; gen_not_before := gen_not_before x; gen_not_after := gen_not_after x; gen_uploaded_at := v |}.

(** PendingUpload *)
Record PendingUpload : Type := mkPendingUpload {
  pu_fingerprint : string;
  pu_cas_name : string;
  pu_client_token : string;
  pu_started_at : gotime;
  pu_domain_hint : string
}.

(** IssuanceStatus *)
Record IssuanceStatus : Type := mkIssuanceStatus {
  is_revision : option Z;
  is_renewal_time : option gotime;
  is_failed_attempts : option Z;
  is_last_failure : option gotime
}.

(** AliyunCertificateStatus *)
Record AliyunCertificateStatus : Type := mkACStatus {
  as_observed_generation : Z;
  as_effective_issuer : option IssuerReference;
  as_secret_name : string;
  as_cm_name : string;
  as_issuance : option IssuanceStatus;
  as_current : option CertificateGeneration;
  as_history : list CertificateGeneration;
  as_pending : option PendingUpload;
  as_probed_at : option gotime;
  as_cleanup_started : option gotime;
  as_conditions : list Condition
}.

Definition set_as_observed_generation (v : Z) (x : AliyunCertificateStatus) : AliyunCertificateStatus :=
  {| as_observed_generation := v; as_effective_issuer := as_effective_issuer x; as_secret_name := as_secret_name x; as_cm_name := as_cm_name x; as_issuance := as_issuance x; as_current := as_current x; as_history := as_history x; as_pending := as_pending x; as_probed_at := as_probed_at x; as_cleanup_started := as_cleanup_started x; as_conditions := as_conditions x |}.
Definition set_as_effective_issuer (v : option IssuerReference) (x : AliyunCertificateStatus) : AliyunCertificateStatus :=
  {| as_observed_generation := as_observed_generation x; as_effective_issuer := v; as_secret_name := as_secret_name x; as_cm_name := as_cm_name x; as_issuance := as_issuance x; as_current := as_current x; as_history := as_history x; as_pending := as_pending x; as_probed_at := as_probed_at x; as_cleanup_started := as_cleanup_started x; as_conditions := as_conditions x |}.
Definition set_as_secret_name (v : string) (x : AliyunCertificateStatus) : AliyunCertificateStatus :=
  {| as_observed_generation := as_observed_generation x; as_effective_issuer := as_effective_issuer x; as_secret_name := v; as_cm_name := as_cm_name x; as_issuance := as_issuance x; as_current := as_current x; as_history := as_history x; as_pending := as_pending x; as_probed_at := as_probed_at x; as_cleanup_started := as_cleanup_started x; as_conditions := as_conditions x |}.
Definition set_as_cm_name (v : string) (x : AliyunCertificateStatus) : AliyunCertificateStatus :=
  {| as_observed_generation := as_observed_generation x; as_effective_issuer := as_effective_issuer x; as_secret_name := as_secret_name x; as_cm_name := v; as_issuance := as_issuance x; as_current := as_current x; as_history := as_history x; as_pending := as_pending x; as_probed_at := as_probed_at x; as_cleanup_started := as_cleanup_started x; as_conditions := as_conditions x |}.
Definition set_as_issuance (v : option IssuanceStatus) (x : AliyunCertificateStatus) : AliyunCertificateStatus :=
  {| as_observed_generation := as_observed_generation x; as_effective_issuer := as_effective_issuer x; as_secret_name := as_secret_name x; as_cm_name := as_cm_name x; as_issuance := v; as_current := as_current x; as_history := as_history x; as_pending := as_pending x; as_probed_at := as_probed_at x; as_cleanup_started := as_cleanup_started x; as_conditions := as_conditions x |}.
Definition set_as_current (v : option CertificateGeneration) (x : AliyunCertificateStatus) : AliyunCertificateStatus :=
  {| as_observed_generation := as_observed_generation x; as_effective_issuer := as_effective_issuer x; as_secret_name := as_secret_name x; as_cm_name := as_cm_name x; as_issuance := as_issuance x; as_current := v; as_history := as_history x; as_pending := as_pending x; as_probed_at := as_probed_at x; as_cleanup_started := as_cleanup_started x; as_conditions := as_conditions x |}.
Definition set_as_history (v : list CertificateGeneration) (x : AliyunCertificateStatus) : AliyunCertificateStatus :=
  {| as_observed_generation := as_observed_generation x; as_effective_issuer := as_effective_issuer x; as_secret_name := as_secret_name x; as_cm_name := as_cm_name x; as_issuance := as_issuance x; as_current := as_current x; as_history := v; as_pending := as_pending x; as_probed_at := as_probed_at x; as_cleanup_started := as_cleanup_started x; as_conditions := as_conditions x |}.
Definition set_as_pending (v : option PendingUpload) (x : AliyunCertificateStatus) : AliyunCertificateStatus :=
  {| as_observed_generation := as_observed_generation x; as_effective_issuer := as_effective_issuer x; as_secret_name := as_secret_name x; as_cm_name := as_cm_name x; as_issuance := as_issuance x; as_current := as_current x; as_history := as_history x; as_pending := v; as_probed_at := as_probed_at x; as_cleanup_started := as_cleanup_started x; as_conditions := as_conditions x |}.
Definition set_as_probed_at (v : option gotime) (x : AliyunCertificateStatus) : AliyunCertificateStatus :=
  {| as_observed_generation := as_observed_generation x; as_effective_issuer := as_effective_issuer x; as_secret_name := as_secret_name x; as_cm_name := as_cm_name x; as_issuance := as_issuance x; as_current := as_current x; as_history := as_history x; as_pending := as_pending x; as_probed_at := v; as_cleanup_started := as_cleanup_started x; as_conditions := as_conditions x |}.
Definition set_as_cleanup_started (v : option gotime) (x : AliyunCertificateStatus) : AliyunCertificateStatus :=
  {| as_observed_generation := as_observed_generation x; as_effective_issuer := as_effective_issuer x; as_secret_name := as_secret_name x; as_cm_name := as_cm_name x; as_issuance := as_issuance x; as_current := as_current x; as_history := as_history x; as_pending := as_pending x; as_probed_at := as_probed_at x; as_cleanup_started := v; as_conditions := as_conditions x |}.
Definition set_as_conditions (v : list Condition) (x : AliyunCertificateStatus) : AliyunCertificateStatus :=
  {| as_observed_generation := as_observed_generation x; as_effective_issuer := as_effective_issuer x; as_secret_name := as_secret_name x; as_cm_name := as_cm_name x; as_issuance := as_issuance x; as_current := as_current x; as_history := as_history x; as_pending := as_pending x; as_probed_at := as_probed_at x; as_cleanup_started := as_cleanup_started x; as_conditions := v |}.

(** AliyunCertificate *)
Record AliyunCertificate : Type := mkAC {
  ac_meta : ObjectMeta;
  ac_spec : AliyunCertificateSpec;
  ac_status : AliyunCertificateStatus
}.

Definition set_ac_meta (v : ObjectMeta) (x : AliyunCertificate) : AliyunCertificate :=
  {| ac_meta := v; ac_spec := ac_spec x; ac_status := ac_status x |}.
Definition set_ac_spec (v : AliyunCertificateSpec) (x : AliyunCertificate) : AliyunCertificate :=
  {| ac_meta := ac_meta x; ac_spec := v; ac_status := ac_status x |}.
Definition set_ac_status (v : AliyunCertificateStatus) (x : AliyunCertificate) : AliyunCertificate :=
  {| ac_meta := ac_meta x; ac_spec := ac_spec x; ac_status := v |}.

(** ** AliyunCertificateBinding (aliyuncertificatebinding_types.go) *)

(** FC3CustomDomainTarget *)
Record FC3CustomDomainTarget : Type := mkFC3Target {
  fc_region : string;
  fc_domain_name : string;
  fc_ensure_https : bool
}.

(** OSSCustomDomainTarget *)
Record OSSCustomDomainTarget : Type := mkOSSTarget {
  oss_region : string;
  oss_bucket : string;
  oss_domain_name : string
}.

(** BindingTarget *)
Record BindingTarget : Type := mkBindingTarget {
  bt_type : string;
  bt_fc3 : option FC3CustomDomainTarget;
  bt_oss : option OSSCustomDomainTarget
}.

(** AliyunCertificateBindingSpec *)
Record AliyunCertificateBindingSpec : Type := mkBindingSpec {
  abs_certificate_ref : string;
  abs_target : BindingTarget;
  abs_credentials_ref : option string;
  abs_deletion_policy : string
}.

(** AliyunCertificateBindingStatus *)
Record AliyunCertificateBindingStatus : Type := mkBindingStatus {
  bs_observed_generation : Z;
  bs_applied_fingerprint : string;
  bs_drifted_fingerprint : string;
  bs_applied_cert_ref : string;
  bs_drifted_cert_ref : string;
  bs_last_applied : option gotime;
  bs_last_observed : option gotime;
  bs_bound_account : string;
  bs_cleanup_started : option gotime;
  bs_conditions : list Condition
}.

Definition set_bs_observed_generation (v : Z) (x : AliyunCertificateBindingStatus) : AliyunCertificateBindingStatus :=
  {| bs_observed_generation := v; bs_applied_fingerprint := bs_applied_fingerprint x; bs_drifted_fingerprint := bs_drifted_fingerprint x; bs_applied_cert_ref := bs_applied_cert_ref x; bs_drifted_cert_ref := bs_drifted_cert_ref x; bs_last_applied := bs_last_applied x; bs_last_observed := bs_last_observed x; bs_bound_account := bs_bound_account x; bs_cleanup_started := bs_cleanup_started x; bs_conditions := bs_conditions x |}.
Definition set_bs_applied_fingerprint (v : string) (x : AliyunCertificateBindingStatus) : AliyunCertificateBindingStatus :=
  {| bs_observed_generation := bs_observed_generation x; bs_applied_fingerprint := v; bs_drifted_fingerprint := bs_drifted_fingerprint x; bs_applied_cert_ref := bs_applied_cert_ref x; bs_drifted_cert_ref := bs_drifted_cert_ref x; bs_last_applied := bs_last_applied x; bs_last_observed := bs_last_observed x; bs_bound_account := bs_bound_account x; bs_cleanup_started := bs_cleanup_started x; bs_conditions := bs_conditions x |}.
Definition set_bs_drifted_fingerprint (v : string) (x : AliyunCertificateBindingStatus) : AliyunCertificateBindingStatus :=
  {| bs_observed_generation := bs_observed_generation x; bs_applied_fingerprint := bs_applied_fingerprint x; bs_drifted_fingerprint := v; bs_applied_cert_ref := bs_applied_cert_ref x; bs_drifted_cert_ref := bs_drifted_cert_ref x; bs_last_applied := bs_last_applied x; bs_last_observed := bs_last_observed x; bs_bound_account := bs_bound_account x; bs_cleanup_started := bs_cleanup_started x; bs_conditions := bs_conditions x |}.
Definition set_bs_applied_cert_ref (v : string) (x : AliyunCertificateBindingStatus) : AliyunCertificateBindingStatus :=
  {| bs_observed_generation := bs_observed_generation x; bs_applied_fingerprint := bs_applied_fingerprint x; bs_drifted_fingerprint := bs_drifted_fingerprint x; bs_applied_cert_ref := v; bs_drifted_cert_ref := bs_drifted_cert_ref x; bs_last_applied := bs_last_applied x; bs_last_observed := bs_last_observed x; bs_bound_account := bs_bound_account x; bs_cleanup_started := bs_cleanup_started x; bs_conditions := bs_conditions x |}.
Definition set_bs_drifted_cert_ref (v : string) (x : AliyunCertificateBindingStatus) : AliyunCertificateBindingStatus :=
  {| bs_observed_generation := bs_observed_generation x; bs_applied_fingerprint := bs_applied_fingerprint x; bs_drifted_fingerprint := bs_drifted_fingerprint x; bs_applied_cert_ref := bs_applied_cert_ref x; bs_drifted_cert_ref := v; bs_last_applied := bs_last_applied x; bs_last_observed := bs_last_observed x; bs_bound_account := bs_bound_account x; bs_cleanup_started := bs_cleanup_started x; bs_conditions := bs_conditions x |}.
Definition set_bs_last_applied (v : option gotime) (x : AliyunCertificateBindingStatus) : AliyunCertificateBindingStatus :=
  {| bs_observed_generation := bs_observed_generation x; bs_applied_fingerprint := bs_applied_fingerprint x; bs_drifted_fingerprint := bs_drifted_fingerprint x; bs_applied_cert_ref := bs_applied_cert_ref x; bs_drifted_cert_ref := bs_drifted_cert_ref x; bs_last_applied := v; bs_last_observed := bs_last_observed x; bs_bound_account := bs_bound_account x; bs_cleanup_started := bs_cleanup_started x; bs_conditions := bs_conditions x |}.
Definition set_bs_last_observed (v : option gotime) (x : AliyunCertificateBindingStatus) : AliyunCertificateBindingStatus :=
  {| bs_observed_generation := bs_observed_generation x; bs_applied_fingerprint := bs_applied_fingerprint x; bs_drifted_fingerprint := bs_drifted_fingerprint x; bs_applied_cert_ref := bs_applied_cert_ref x; bs_drifted_cert_ref := bs_drifted_cert_ref x; bs_last_applied := bs_last_applied x; bs_last_observed := v; bs_bound_account := bs_bound_account x; bs_cleanup_started := bs_cleanup_started x; bs_conditions := bs_conditions x |}.
Definition set_bs_bound_account (v : string) (x : AliyunCertificateBindingStatus) : AliyunCertificateBindingStatus :=
  {| bs_observed_generation := bs_observed_generation x; bs_applied_fingerprint := bs_applied_fingerprint x; bs_drifted_fingerprint := bs_drifted_fingerprint x; bs_applied_cert_ref := bs_applied_cert_ref x; bs_drifted_cert_ref := bs_drifted_cert_ref x; bs_last_applied := bs_last_applied x; bs_last_observed := bs_last_observed x; bs_bound_account := v; bs_cleanup_started := bs_cleanup_started x; bs_conditions := bs_conditions x |}.
Definition set_bs_cleanup_started (v : option gotime) (x : AliyunCertificateBindingStatus) : AliyunCertificateBindingStatus :=
  {| bs_observed_generation := bs_observed_generation x; bs_applied_fingerprint := bs_applied_fingerprint x; bs_drifted_fingerprint := bs_drifted_fingerprint x; bs_applied_cert_ref := bs_applied_cert_ref x; bs_drifted_cert_ref := bs_drifted_cert_ref x; bs_last_applied := bs_last_applied x; bs_last_observed := bs_last_observed x; bs_bound_account := bs_bound_account x; bs_cleanup_started := v; bs_conditions := bs_conditions x |}.
Definition set_bs_conditions (v : list Condition) (x : AliyunCertificateBindingStatus) : AliyunCertificateBindingStatus :=
  {| bs_observed_generation := bs_observed_generation x; bs_applied_fingerprint := bs_applied_fingerprint x; bs_drifted_fingerprint := bs_drifted_fingerprint x; bs_applied_cert_ref := bs_applied_cert_ref x; bs_drifted_cert_ref := bs_drifted_cert_ref x; bs_last_applied := bs_last_applied x; bs_last_observed := bs_last_observed x; bs_bound_account := bs_bound_account x; bs_cleanup_started := bs_cleanup_started x; bs_conditions := v |}.

(** AliyunCertificateBinding *)
Record AliyunCertificateBinding : Type := mkBinding {
  ab_meta : ObjectMeta;
  ab_spec : AliyunCertificateBindingSpec;
  ab_status : AliyunCertificateBindingStatus
}.

Definition set_ab_meta (v : ObjectMeta) (x : AliyunCertificateBinding) : AliyunCertificateBinding :=
  {| ab_meta := v; ab_spec := ab_spec x; ab_status := ab_status x |}.
Definition set_ab_spec (v : AliyunCertificateBindingSpec) (x : AliyunCertificateBinding) : AliyunCertificateBinding :=
  {| ab_meta := ab_meta x; ab_spec := v; ab_status := ab_status x |}.
Definition set_ab_status (v : AliyunCertificateBindingStatus) (x : AliyunCertificateBinding) : AliyunCertificateBinding :=
  {| ab_meta := ab_meta x; ab_spec := ab_spec x; ab_status := v |}.

(** ** Accessors *)

Definition DeletionPolicyOrphan : string := "Orphan".
Definition DeletionPolicyUnbind : string := "Unbind".
Definition TargetTypeFC3CustomDomain : string := "FC3CustomDomain".
Definition TargetTypeOSSCustomDomain : string := "OSSCustomDomain".

Definition ac_name (ac : AliyunCertificate) : string := om_name (ac_meta ac).
Definition ac_namespace (ac : AliyunCertificate) : string := om_namespace (ac_meta ac).
Definition ac_aliyun (ac : AliyunCertificate) : AliyunSpec := acs_aliyun (ac_spec ac).
Definition ac_template (ac : AliyunCertificate) : CertificateTemplate := acs_template (ac_spec ac).
Definition ab_name (b : AliyunCertificateBinding) : string := om_name (ab_meta b).
Definition ab_namespace (b : AliyunCertificateBinding) : string := om_namespace (ab_meta b).
Definition ab_target (b : AliyunCertificateBinding) : BindingTarget := abs_target (ab_spec b).

(** [f(&ac.Status)] and [f(&b.Status)] *)
Definition on_status (f : AliyunCertificateStatus -> AliyunCertificateStatus) (ac : AliyunCertificate) : AliyunCertificate :=
  set_ac_status (f (ac_status ac)) ac.
Definition on_bstatus (f : AliyunCertificateBindingStatus -> AliyunCertificateBindingStatus) (b : AliyunCertificateBinding) : AliyunCertificateBinding :=
  set_ab_status (f (ab_status b)) b.

Definition UploadEnabled (a : AliyunSpec) : bool :=
  match al_upload_to_cas a with Some v => v | None => true end.

Definition EffectiveCASRegion (a : AliyunSpec) : string :=
  if negb (String.eqb (al_cas_region a) "") then al_cas_region a else al_region a.

Definition defaultMinAge : duration := 24 * hour.

Definition MinAgeOrDefault (r : RetentionSpec) : duration :=
  match ret_min_age r with Some d => d | None => defaultMinAge end.

Definition KeepLastOrDefault (r : RetentionSpec) : Z :=
  if (ret_keep_last r <? 1)%Z then 2 else ret_keep_last r.

(** [TargetKey]: the key of the conflict index; empty for a malformed target *)
Definition TargetKey (b : AliyunCertificateBinding) : string :=
  let t := ab_target b in
  if String.eqb (bt_type t) TargetTypeFC3CustomDomain then
    match bt_fc3 t with
    | None => ""
    | Some fc => bt_type t +:+ "/" +:+ fc_region fc +:+ "/" +:+ fc_domain_name fc
    end
  else if String.eqb (bt_type t) TargetTypeOSSCustomDomain then
    match bt_oss t with
    | None => ""
    | Some o => bt_type t +:+ "/" +:+ oss_region o +:+ "/" +:+ oss_bucket o +:+ "/" +:+ oss_domain_name o
    end
  else "".
