(* ===== verification/GoError.v ===== *)
(** * Errors and their classification

    Go error values as a tree whose children are the [Unwrap] chain, and the
    three classification layers over it: [aliyun.Error] (pkg/aliyun/errors.go
    and classifyOSS of oss_sdk.go), [provider.ProviderError]
    (pkg/provider/errors.go) and the translation between them
    (pkg/provider/internal/aliyunerr/errors.go). *)
From S2P Require Import Prelude GoString Api.

(** ** Definitions *)

Inductive ErrClass : Type := ClassPermanent | ClassRetryable | ClassAuth | ClassNotFound.
#[export] Instance ErrClass_eq_dec : EqDecision ErrClass.
Proof. solve_decision. Defined.

(** an [error] value; [msg] is the text of an error made outside the operator *)
Inductive goerr : Type :=
| EText (msg : string)                                        (* errors.New, opaque third-party errors *)
| EWrap (prefix : string) (inner : goerr)                     (* fmt.Errorf with prefix and %w *)
| EAliyun (class : ErrClass) (op code : string) (inner : goerr)         (* *aliyun.Error *)
| EProvider (code : string) (retryable : bool) (reason : string) (inner : goerr) (* *provider.ProviderError *)
| ECredentials (reason : string) (inner : goerr)              (* *credentialsError *)
| EKube (not_found : bool) (msg : string)                     (* an API server error, IsNotFound or not *)
| EDeadline                                                   (* context.DeadlineExceeded *)
| ENet (timeout : bool) (msg : string) (inner : goerr)        (* net.Error *)
| EDaraSDK (code : option string) (status : option Z) (msg : string)    (* *dara.SDKError *)
| ETeaSDK (code : option string) (status : option Z) (msg : string)     (* *tea.SDKError *)
| EOssService (code : string) (status : Z) (msg : string).    (* *oss.ServiceError *)

(** [ErrClass.String] *)
Definition class_string (c : ErrClass) : string :=
  match c with
  | ClassRetryable => "Retryable"
  | ClassAuth => "Auth"
  | ClassNotFound => "NotFound"
  | ClassPermanent => "Permanent"
  end.

Definition bool_string (b : bool) : string := if b then "true" else "false".

(** [err.Error()] *)
Fixpoint err_text (e : goerr) : string :=
  match e with
  | EText m | EKube _ m | ENet _ m _ | EDaraSDK _ _ m | ETeaSDK _ _ m | EOssService _ _ m => m
  | EWrap p i => p +:+ err_text i
  | EAliyun c op code i => "aliyun " +:+ op +:+ ": " +:+ code +:+ " (" +:+ class_string c +:+ "): " +:+ err_text i
  | EProvider code retry reason _ =>
      "provider error " +:+ code +:+ " (retryable=" +:+ bool_string retry +:+ ", reason=" +:+ reason +:+ ")"
  | ECredentials _ i => err_text i
  | EDeadline => "context deadline exceeded"
  end.

(** [errors.Unwrap] *)
Definition unwrap (e : goerr) : option goerr :=
  match e with
  | EWrap _ i | EAliyun _ _ _ i | EProvider _ _ _ i | ECredentials _ i | ENet _ _ i => Some i
  | _ => None
  end.

(** [errors.As]: the first error of the chain that [f] accepts *)
Fixpoint errors_as {A} (f : goerr -> option A) (e : goerr) : option A :=
  match f e with
  | Some a => Some a
  | None =>
      match e with
      | EWrap _ i | EAliyun _ _ _ i | EProvider _ _ _ i | ECredentials _ i | ENet _ _ i => errors_as f i
      | _ => None
      end
  end.

Definition is_aliyun (e : goerr) : option (ErrClass * string * string) :=
  match e with EAliyun c op code _ => Some (c, op, code) | _ => None end.
Definition is_provider (e : goerr) : option (string * bool * string) :=
  match e with EProvider code retry reason _ => Some (code, retry, reason) | _ => None end.
Definition is_credentials (e : goerr) : option (string * goerr) :=
  match e with ECredentials reason i => Some (reason, e) | _ => None end.
Definition is_net (e : goerr) : option bool :=
  match e with ENet t _ _ => Some t | _ => None end.
Definition is_deadline (e : goerr) : option unit :=
  match e with EDeadline => Some tt | _ => None end.
Definition is_dara (e : goerr) : option (option string * option Z) :=
  match e with EDaraSDK c s _ => Some (c, s) | _ => None end.
Definition is_tea (e : goerr) : option (option string * option Z) :=
  match e with ETeaSDK c s _ => Some (c, s) | _ => None end.
Definition is_oss_service (e : goerr) : option (string * Z) :=
  match e with EOssService c s _ => Some (c, s) | _ => None end.

(** [apierrors.IsNotFound] (which also looks through wrapping) *)
Definition IsNotFound (e : goerr) : bool :=
  match errors_as (fun e => match e with EKube nf _ => Some nf | _ => None end) e with
  | Some nf => nf
  | None => false
  end.

(** [client.IgnoreNotFound] *)
Definition IgnoreNotFound (e : option goerr) : option goerr :=
  match e with
  | Some e => if IsNotFound e then None else Some e
  | None => None
  end.

(** *** pkg/aliyun/errors.go *)

Definition CodeEmptyResponse : string := "EmptyResponse".

Definition ClassOf (e : goerr) : ErrClass :=
  match errors_as is_aliyun e with
  | Some (c, _, _) => c
  | None => ClassPermanent
  end.

(** [ClassOf] of a possibly nil error *)
Definition ClassOf_opt (e : option goerr) : ErrClass :=
  match e with Some e => ClassOf e | None => ClassPermanent end.

Definition classifyCode (code : string) (status : Z) : ErrClass :=
  if has_prefix code "Throttling"
     || String.eqb code "ServiceUnavailable"
     || String.eqb code "InternalError"
     || has_prefix code "ServiceUnavailable"
     || (status =? 429)%Z
     || (500 <=? status)%Z then ClassRetryable
  else if has_prefix code "InvalidAccessKeyId"
     || String.eqb code "SignatureDoesNotMatch"
     || has_prefix code "Forbidden"
     || has_prefix code "NoPermission"
     || String.eqb code "InvalidSecurityToken.Expired"
     || (status =? 401)%Z || (status =? 403)%Z then ClassAuth
  else if contains code "NotExist"
     || contains code "NotFound"
     || (status =? 404)%Z then ClassNotFound
  else ClassPermanent.

(** decimal rendering of the HTTP status in the safe message *)
Definition status_string (z : Z) : string := pretty.pretty z.

Definition fromSDKError (op : string) (codePtr : option string) (statusPtr : option Z) : goerr :=
  let code := default "" codePtr in
  let status := default 0%Z statusPtr in
  EAliyun (classifyCode code status) op code
    (EText ("sdk error code=" +:+ code +:+ " status=" +:+ status_string status)).

Definition Classify (op : string) (err : option goerr) : option goerr :=
  match err with
  | None => None
  | Some e =>
      match errors_as is_aliyun e with
      | Some _ => Some e
      | None =>
          Some (match errors_as is_deadline e with
          | Some _ => EAliyun ClassRetryable op "Timeout" e
          | None =>
              match errors_as is_net e with
              | Some true => EAliyun ClassRetryable op "NetTimeout" e
              | Some false => EAliyun ClassRetryable op "NetError" e
              | None =>
                  match errors_as is_dara e with
                  | Some (c, s) => fromSDKError op c s
                  | None =>
                      match errors_as is_tea e with
                      | Some (c, s) => fromSDKError op c s
                      | None => EAliyun ClassPermanent op "Unknown" e
                      end
                  end
              end
          end)
      end
  end.

(** [classifyOSS] of oss_sdk.go *)
Definition classifyOSS (op : string) (err : option goerr) : option goerr :=
  match err with
  | None => None
  | Some e =>
      match errors_as is_oss_service e with
      | Some (c, s) => Some (fromSDKError op (Some c) (Some s))
      | None => Classify op err
      end
  end.

(** [callCode] of cas_sdk.go: the bounded metric label of a call's outcome *)
Definition callCode (err : option goerr) : string :=
  match err with
  | None => "OK"
  | Some e =>
      match errors_as is_aliyun e with
      | Some (_, _, code) => if negb (String.eqb code "") then code else "Unknown"
      | None => "Unknown"
      end
  end.

(** *** pkg/provider/errors.go *)

Definition CodeTargetNotFound : string := "TargetNotFound".
Definition CodeAuth : string := "Auth".
Definition CodeThrottled : string := "Throttled".
Definition CodeRetryable : string := "Retryable".
Definition CodePermanent : string := "Permanent".
Definition CodeInvalidClient : string := "InvalidClient".
Definition CodeInvalidTarget : string := "InvalidTarget".

(** [provider.Errorf] *)
Definition Errorf (code : string) (retryable : bool) (reason : string) (err : goerr) : goerr :=
  EProvider code retryable reason err.

(** [provider.ErrorOf]: (Code, Retryable, Reason) of the first ProviderError *)
Definition ErrorOf (err : goerr) : option (string * bool * string) := errors_as is_provider err.

(** *** pkg/provider/internal/aliyunerr/errors.go *)

Definition isThrottling (code : string) : bool := has_prefix code "Throttling".

Definition ToProviderError (op : string) (err : option goerr) (failReason : string) : option goerr :=
  match err with
  | None => None
  | Some e =>
      let ae := errors_as is_aliyun e in
      let withOp p :=
        match ae with
        | Some (_, _, code) => EWrap (op +:+ "[" +:+ code +:+ "]: ") p
        | None => EWrap (op +:+ ": ") p
        end in
      Some (match ClassOf e with
      | ClassNotFound => withOp (Errorf CodeTargetNotFound false ReasonTargetNotFound e)
      | ClassAuth => withOp (Errorf CodeAuth false ReasonCredentialsInvalid e)
      | ClassRetryable =>
          if match ae with Some (_, _, code) => isThrottling code | None => false end
          then withOp (Errorf CodeThrottled true ReasonThrottled e)
          else withOp (Errorf CodeRetryable true failReason e)
      | ClassPermanent => withOp (Errorf CodePermanent false failReason e)
      end)
  end.

Definition SwallowNotFound (err : option goerr) : option goerr :=
  match err with
  | None => None
  | Some e =>
      match ErrorOf e with
      | Some (code, _, _) => if String.eqb code CodeTargetNotFound then None else Some e
      | None => Some e
      end
  end.

(** ** Lemmas *)

Lemma errors_as_head {A} (f : goerr -> option A) e a : f e = Some a -> errors_as f e = Some a.
Proof. intros H. destruct e; cbn; by rewrite H. Qed.

Lemma ClassOf_aliyun c op code i : ClassOf (EAliyun c op code i) = c.
Proof. done. Qed.

(** whatever an SDK returns, the classified error carries an [aliyun.Error] *)
Lemma Classify_aliyun op e : exists r x, Classify op (Some e) = Some r /\ errors_as is_aliyun r = Some x.
Proof.
  unfold Classify. destruct (errors_as is_aliyun e) eqn:E; [eauto|].
  repeat case_match; eauto.
Qed.

Lemma Classify_idem op op' e : Classify op' (Classify op (Some e)) = Classify op (Some e).
Proof.
  destruct (Classify_aliyun op e) as (r & x & -> & Hx). cbn. by rewrite Hx.
Qed.

(** the (Code, Retryable, Reason) table of [ToProviderError] *)
Definition provider_verdict (e : goerr) (failReason : string) : string * bool * string :=
  match ClassOf e with
  | ClassNotFound => (CodeTargetNotFound, false, ReasonTargetNotFound)
  | ClassAuth => (CodeAuth, false, ReasonCredentialsInvalid)
  | ClassRetryable =>
      match errors_as is_aliyun e with
      | Some (_, _, code) =>
          if isThrottling code then (CodeThrottled, true, ReasonThrottled)
          else (CodeRetryable, true, failReason)
      | None => (CodeRetryable, true, failReason)
      end
  | ClassPermanent => (CodePermanent, false, failReason)
  end.

Lemma ToProviderError_verdict op e fr :
  exists r, ToProviderError op (Some e) fr = Some r /\ ErrorOf r = Some (provider_verdict e fr).
Proof.
  unfold ToProviderError, provider_verdict, ErrorOf.
  destruct (ClassOf e), (errors_as is_aliyun e) as [[[? ?] code]|];
    try destruct (isThrottling code); eexists; split; reflexivity.
Qed.

(** *** Errors of a service *)

(** an error of a service as the CAS and FC3 SDKs return it, by its code and its
    status, wrapped or not, with whatever message *)
Inductive service_error : goerr -> string -> Z -> Prop :=
| service_dara c s m : service_error (EDaraSDK c s m) (default "" c) (default 0%Z s)
| service_tea c s m : service_error (ETeaSDK c s m) (default "" c) (default 0%Z s)
| service_wrap p e c s : service_error e c s -> service_error (EWrap p e) c s.

(** and as the OSS SDK does *)
Inductive oss_error : goerr -> string -> Z -> Prop :=
| oss_service c s m : oss_error (EOssService c s m) c s
| oss_wrap p e c s : oss_error e c s -> oss_error (EWrap p e) c s.

(** the text of the classified error *)
Definition service_text (op code : string) (status : Z) : string :=
  "aliyun " +:+ op +:+ ": " +:+ code +:+ " (" +:+ class_string (classifyCode code status) +:+ "): " +:+
  "sdk error code=" +:+ code +:+ " status=" +:+ status_string status.

(** only the SDK errors of the chain of a service error are found in it *)
Lemma service_error_chain e c s : service_error e c s ->
  errors_as is_aliyun e = None /\ errors_as is_deadline e = None /\ errors_as is_net e = None /\
  errors_as is_oss_service e = None /\
  exists code status, default "" code = c /\ default 0%Z status = s /\
    (errors_as is_dara e = Some (code, status) \/ errors_as is_dara e = None /\ errors_as is_tea e = Some (code, status)).
Proof. induction 1; cbn; [split_and!; eauto 8..|done]. Qed.

Lemma oss_error_found e c s : oss_error e c s -> errors_as is_oss_service e = Some (c, s).
Proof. by induction 1. Qed.

Lemma Classify_service op e c s : service_error e c s -> Classify op (Some e) = Some (fromSDKError op (Some c) (Some s)).
Proof.
  intros (H1 & H2 & H3 & _ & code & status & <- & <- & H)%service_error_chain. unfold Classify. rewrite H1, H2, H3.
  by destruct H as [-> | [-> ->]].
Qed.

Lemma classifyOSS_service op e c s : service_error e c s -> classifyOSS op (Some e) = Some (fromSDKError op (Some c) (Some s)).
Proof.
  intros H. pose proof (service_error_chain _ _ _ H) as (_ & _ & _ & Ho & _). unfold classifyOSS. rewrite Ho. by apply Classify_service.
Qed.

Lemma classifyOSS_oss op e c s : oss_error e c s -> classifyOSS op (Some e) = Some (fromSDKError op (Some c) (Some s)).
Proof. intros H%oss_error_found. unfold classifyOSS. by rewrite H. Qed.

(** the text of a provider error: the call, the code of the cloud and the verdict *)
Lemma ToProviderError_text op fr e :
  err_text <$> ToProviderError op (Some e) fr = Some (
    let '(code, retryable, reason) := provider_verdict e fr in
    op +:+ match errors_as is_aliyun e with Some (_, _, c) => "[" +:+ c +:+ "]: " | None => ": " end +:+
    "provider error " +:+ code +:+ " (retryable=" +:+ bool_string retryable +:+ ", reason=" +:+ reason +:+ ")").
Proof.
  unfold ToProviderError, provider_verdict.
  destruct (ClassOf e), (errors_as is_aliyun e) as [[[? ?] code]|]; try destruct (isThrottling code) eqn:Et;
    cbn [fmap option_fmap option_map err_text Errorf]; by rewrite <-?str_app_assoc.
Qed.

(** ** Properties *)

(** Every failure a provider reports is classified: the translated error
    carries a ProviderError with the code, retryability and reason of the table,
    still unwraps to the same aliyun error, is retryable exactly when the aliyun
    class is, and is swallowed by a cleanup exactly when the target is gone. *)
Theorem ToProviderError_spec (op failReason : string) (e : goerr) :
  exists r, ToProviderError op (Some e) failReason = Some r /\
    ErrorOf r = Some (provider_verdict e failReason) /\
    errors_as is_aliyun r = errors_as is_aliyun e /\
    ((provider_verdict e failReason).1.2 = true <-> ClassOf e = ClassRetryable) /\
    (SwallowNotFound (Some r) = None <-> ClassOf e = ClassNotFound).
Proof.
  destruct (ToProviderError_verdict op e failReason) as (r & Hr & Hv).
  exists r. do 2 (split; [done|]). split; [|split].
  - revert Hr. unfold ToProviderError.
    destruct (ClassOf e), (errors_as is_aliyun e) as [[[? ?] code]|] eqn:E;
      try destruct (isThrottling code); intros [= <-]; cbn; by rewrite E.
  - unfold provider_verdict. destruct (ClassOf e); try done.
    destruct (errors_as is_aliyun e) as [[[? ?] code]|]; [destruct (isThrottling code)|]; done.
  - unfold SwallowNotFound. rewrite Hv. unfold provider_verdict.
    destruct (ClassOf e); try done.
    destruct (errors_as is_aliyun e) as [[[? ?] code]|]; [destruct (isThrottling code)|]; done.
Qed.
