(* ===== verification/Cloud.v ===== *)
(** * Cloud-side types and credentials (pkg/aliyun)

    The data the operator exchanges with CAS, FC3 and OSS (cas.go, fc3.go,
    oss.go), the client values it builds, and credentials.go.  A client value
    is identified with the arguments of its constructor: that is all that
    distinguishes two clients.  [opaque] is the type of the configuration values
    the operator carries around without reading them. *)
From S2P Require Import Prelude GoString Api GoError.

(** ** Definitions *)

Abbreviation opaque := string.

(** cas.go *)
Record CertSummary : Type := mkCertSummary {
  sum_cert_id : Z;
  sum_name : string;
  sum_sans : list string;
  sum_end_date : string
}.

(** fc3.go *)
Record CertConfig : Type := mkCertConfig {
  ccf_name : string;
  ccf_cert_pem : string;
  ccf_key_pem : string
}.

(** the SDK's write body: what [DomainEcho] carries, plus what an update sets *)
Record SDKCertConfig : Type := mkSDKCertConfig {
  scc_name : option string;
  scc_certificate : option string;
  scc_private_key : option string
}.

Record SDKBody : Type := mkSDKBody {
  body_auth : option opaque;
  body_cors : option opaque;
  body_route : option opaque;
  body_tls : option opaque;
  body_waf : option opaque;
  body_protocol : option string;
  body_cert : option SDKCertConfig
}.

(** [DomainEcho.Payload any]: nil, the SDK's body, or a value of another type *)
Inductive DomainEcho : Type :=
| EchoNil
| EchoSDK (body : SDKBody)
| EchoOther (v : opaque).

Record CustomDomain : Type := mkCustomDomain {
  cd_account_id : string;
  cd_domain_name : string;
  cd_protocol : string;
  cd_cert_name : string;
  cd_certificate_pem : string;
  cd_echo : DomainEcho
}.

Record UpdateCustomDomainInput : Type := mkUpdateInput {
  ui_protocol : string;
  ui_cert_config : option CertConfig;
  ui_clear_cert : bool;
  ui_echo : DomainEcho
}.

(** oss.go *)
Record Cname : Type := mkCname {
  cn_domain : string;
  cn_status : string;
  cn_cert_ref : string;
  cn_cert_type : string;
  cn_account_id : string
}.

Definition ActionGetCustomDomain : string := "GetCustomDomain".
Definition ActionUpdateCustomDomain : string := "UpdateCustomDomain".
Definition ActionListCname : string := "ListCname".
Definition ActionPutCname : string := "PutCname".

(** [fmt.Sprintf] of the redacting [String] methods of fc3.go *)
Definition redactedKey : string := "<redacted>".

Definition CertConfig_String (c : CertConfig) : string :=
  "aliyun.CertConfig{certName=" +:+ ccf_name c +:+ ", certBytes=" +:+
  pretty.pretty (String.length (ccf_cert_pem c)) +:+ ", key=" +:+ redactedKey +:+ "}".

Definition UpdateInput_String (u : UpdateCustomDomainInput) : string :=
  let cert := match ui_cert_config u with Some c => CertConfig_String c | None => "<none>" end in
  "aliyun.UpdateCustomDomainInput{protocol=" +:+ ui_protocol u +:+ ", clearCert=" +:+
  bool_string (ui_clear_cert u) +:+ ", certConfig=" +:+ cert +:+ "}".

(** *** credentials.go *)

Definition KeyAccessKeyID : string := "accessKeyId".
Definition KeyAccessKeySecret : string := "accessKeySecret".
Definition KeySecurityToken : string := "securityToken".
Definition KeyRoleARN : string := "roleArn".
Definition KeyOIDCProviderARN : string := "oidcProviderArn".
Definition KeyOIDCTokenFilePath : string := "oidcTokenFilePath".

Record Credentials : Type := mkCredentials {
  cr_access_key_id : string;
  cr_access_key_secret : string;
  cr_security_token : string;
  cr_role_arn : string;
  cr_oidc_provider_arn : string;
  cr_oidc_token_file_path : string
}.

Definition isOIDC (c : Credentials) : bool :=
  negb (String.eqb (cr_role_arn c) "") && negb (String.eqb (cr_oidc_provider_arn c) "")
  && negb (String.eqb (cr_oidc_token_file_path c) "").

Definition CredentialsFromSecret (s : Secret) : goerr + Credentials :=
  let get k := trim_space (default "" (sec_data s !! k)) in
  let c := mkCredentials (get KeyAccessKeyID) (get KeyAccessKeySecret) (get KeySecurityToken)
             (get KeyRoleARN) (get KeyOIDCProviderARN) (get KeyOIDCTokenFilePath) in
  let hasID := negb (String.eqb (cr_access_key_id c) "") in
  let hasSecret := negb (String.eqb (cr_access_key_secret c) "") in
  if isOIDC c then inr c
  else if hasID && hasSecret then inr c
  else if hasID || hasSecret then
    inl (EText ("凭证 Secret 必须同时包含 " +:+ KeyAccessKeyID +:+ " 与 " +:+ KeyAccessKeySecret))
  else inl (EText "凭证 Secret 为空：需要 accessKeyId/accessKeySecret 或 roleArn/oidcProviderArn/oidcTokenFilePath").

Definition LimiterKey (c : Credentials) : string :=
  if isOIDC c then cr_role_arn c else cr_access_key_id c.

(** the [credential.Config] that [Credentials.Build] fills in *)
Inductive CredentialConfig : Type :=
| CfgOIDC (role_arn provider_arn token_path : string)
| CfgSTS (ak sk token : string)
| CfgAccessKey (ak sk : string).

Definition build_config (c : Credentials) : CredentialConfig :=
  if isOIDC c then CfgOIDC (cr_role_arn c) (cr_oidc_provider_arn c) (cr_oidc_token_file_path c)
  else if negb (String.eqb (cr_security_token c) "") then
    CfgSTS (cr_access_key_id c) (cr_access_key_secret c) (cr_security_token c)
  else CfgAccessKey (cr_access_key_id c) (cr_access_key_secret c).

(** *** Client values *)

(** [CASClientConfig]: the timeout, limiters and hooks are the process's own *)
Record CASClient : Type := mkCASClient {
  cas_cred : CredentialConfig;
  cas_region : string;
  cas_endpoint : string;
  cas_resource_group : string;
  cas_limiter_key : string
}.

(** the dynamic type and arguments of a [provider.Client any] *)
Inductive ProviderClient : Type :=
| FC3Client (cred : CredentialConfig) (region limiter_key : string)
| OSSClient (cred : CredentialConfig) (region limiter_key : string)
| OtherClient (type_name : string).

(** ** Lemmas *)

(** the credentials a Secret yields can authenticate: a full OIDC triple, or an
    access key with its secret *)
Definition usable (c : Credentials) : Prop :=
  (cr_role_arn c <> "" /\ cr_oidc_provider_arn c <> "" /\ cr_oidc_token_file_path c <> "") \/
  (cr_access_key_id c <> "" /\ cr_access_key_secret c <> "").

Lemma isOIDC_spec c :
  isOIDC c = true <->
  cr_role_arn c <> "" /\ cr_oidc_provider_arn c <> "" /\ cr_oidc_token_file_path c <> "".
Proof.
  unfold isOIDC. rewrite !andb_true_iff, !negb_true_iff, !String.eqb_neq. naive_solver.
Qed.

Lemma CredentialsFromSecret_usable s c : CredentialsFromSecret s = inr c -> usable c.
Proof.
  unfold CredentialsFromSecret, usable. case_match eqn:E.
  { intros [= <-]. left. by apply isOIDC_spec. }
  case_match eqn:E2; [|by case_match].
  intros [= <-]. right. apply andb_true_iff in E2.
  by rewrite !negb_true_iff, !String.eqb_neq in E2.
Qed.
