(* ===== verification/KubeLib.v ===== *)
(** * The library functions of apimachinery and controller-runtime the operator calls

    [KubeLib] collects the third-party functions on conditions, finalizers and
    owner references; [KubeLibLaws] states the documented behaviour the
    operator relies on.  The development is parametric in both; [ref_kube] is an
    instance that satisfies the laws, for concrete evaluations.  The wall clock
    that SetStatusCondition stamps a transition with is the library's own: no law
    says what it is. *)
From S2P Require Import Prelude GoString GoTime Api GoError.

(** ** Interface *)

Class KubeLib : Type := {
  SetStatusCondition : list Condition -> Condition -> list Condition;
  FindStatusCondition : list Condition -> string -> option Condition;
  ContainsFinalizer : ObjectMeta -> string -> bool;
  AddFinalizer : ObjectMeta -> string -> ObjectMeta;
  RemoveFinalizer : ObjectMeta -> string -> ObjectMeta;
  (* SetControllerReference(owner, controlled, scheme) *)
  SetControllerReference : AliyunCertificate -> Certificate -> goerr + Certificate
}.

(** the condition type a lookup is about *)
Definition of_type (t : string) (c : Condition) : bool := String.eqb (cond_type c) t.

Class KubeLibLaws (K : KubeLib) : Prop := {
  (* FindStatusCondition returns the first condition of the type *)
  find_first l t : FindStatusCondition l t = List.find (of_type t) l;
  (* SetStatusCondition gives the type the new status, reason, message and generation *)
  find_set_same l c :
    exists ltt, FindStatusCondition (SetStatusCondition l c) (cond_type c) =
      Some (mkCondition (cond_type c) (cond_status c) (cond_reason c) (cond_message c)
              (cond_observed_generation c) ltt);
  (* a given, non-zero transition time is used when the status changes *)
  set_ltt_given l c old :
    FindStatusCondition l (cond_type c) = Some old ->
    cond_status old <> cond_status c -> time_is_zero (cond_last_transition c) = false ->
    cond_last_transition <$> FindStatusCondition (SetStatusCondition l c) (cond_type c) =
      Some (cond_last_transition c);
  (* the transition time is kept while the status stays *)
  set_ltt_kept l c old :
    FindStatusCondition l (cond_type c) = Some old -> cond_status old = cond_status c ->
    cond_last_transition <$> FindStatusCondition (SetStatusCondition l c) (cond_type c) =
      Some (cond_last_transition old);
  (* and leaves the other types alone *)
  find_set_other l c t : t <> cond_type c ->
    FindStatusCondition (SetStatusCondition l c) t = FindStatusCondition l t;
  contains_finalizer_spec m f : ContainsFinalizer m f = bool_decide (f ∈ om_finalizers m);
  add_finalizer_spec m f :
    AddFinalizer m f =
      if bool_decide (f ∈ om_finalizers m) then m else set_om_finalizers (om_finalizers m ++ [f]) m;
  remove_finalizer_spec m f :
    RemoveFinalizer m f = set_om_finalizers (List.filter (fun g => negb (String.eqb g f)) (om_finalizers m)) m;
  (* SetControllerReference only touches the metadata of the controlled object *)
  owner_ref_spec ac c c' : SetControllerReference ac c = inr c' ->
    cert_spec c' = cert_spec c /\ cert_status c' = cert_status c
}.

(** [meta.IsStatusConditionTrue]: the lookup finds a condition whose status is True *)
Definition IsStatusConditionTrue `{KubeLib} (l : list Condition) (t : string) : bool :=
  match FindStatusCondition l t with
  | Some c => bool_decide (cond_status c = CondTrue)
  | None => false
  end.

(** ** A reference instance *)

Fixpoint ref_set (now : gotime) (l : list Condition) (c : Condition) : list Condition :=
  match l with
  | [] =>
      [mkCondition (cond_type c) (cond_status c) (cond_reason c) (cond_message c) (cond_observed_generation c)
         (if time_is_zero (cond_last_transition c) then now else cond_last_transition c)]
  | o :: l' =>
      if of_type (cond_type c) o then
        mkCondition (cond_type c) (cond_status c) (cond_reason c) (cond_message c) (cond_observed_generation c)
          (if bool_decide (cond_status o = cond_status c) then cond_last_transition o
           else if time_is_zero (cond_last_transition c) then now else cond_last_transition c) :: l'
      else o :: ref_set now l' c
  end.

Definition ref_kube (now : gotime) : KubeLib := {|
  SetStatusCondition := ref_set now;
  FindStatusCondition := fun l t => List.find (of_type t) l;
  ContainsFinalizer m f := bool_decide (f ∈ om_finalizers m);
  AddFinalizer m f :=
    if bool_decide (f ∈ om_finalizers m) then m else set_om_finalizers (om_finalizers m ++ [f]) m;
  RemoveFinalizer m f :=
    set_om_finalizers (List.filter (fun g => negb (String.eqb g f)) (om_finalizers m)) m;
  SetControllerReference ac c := inr c
|}.

Lemma ref_find_set now l c :
  exists ltt, List.find (of_type (cond_type c)) (ref_set now l c) =
    Some (mkCondition (cond_type c) (cond_status c) (cond_reason c) (cond_message c)
            (cond_observed_generation c) ltt).
Proof.
  induction l as [|o l IH]; cbn [ref_set].
  - eexists. cbn. unfold of_type. cbn. by rewrite String.eqb_refl.
  - destruct (of_type (cond_type c) o) eqn:E; cbn [List.find].
    + eexists. unfold of_type at 1. cbn [cond_type]. by rewrite String.eqb_refl.
    + by rewrite E.
Qed.

Lemma ref_find_other now l c t :
  t <> cond_type c -> List.find (of_type t) (ref_set now l c) = List.find (of_type t) l.
Proof.
  intros Ht. assert (Hc : forall st r m g ltt, of_type t (mkCondition (cond_type c) st r m g ltt) = false).
  { intros. unfold of_type. cbn [cond_type]. by apply String.eqb_neq. }
  induction l as [|o l IH]; cbn [ref_set List.find].
  - by rewrite Hc.
  - destruct (of_type (cond_type c) o) eqn:E; cbn [List.find].
    + rewrite Hc. unfold of_type in *. apply String.eqb_eq in E.
      by rewrite (proj2 (String.eqb_neq _ _)) by congruence.
    + by rewrite IH.
Qed.

Lemma ref_find_stamp now l c old :
  List.find (of_type (cond_type c)) l = Some old ->
  cond_last_transition <$> List.find (of_type (cond_type c)) (ref_set now l c) =
    Some (if bool_decide (cond_status old = cond_status c) then cond_last_transition old
          else if time_is_zero (cond_last_transition c) then now else cond_last_transition c).
Proof.
  induction l as [|o l IH]; cbn [ref_set List.find]; [done|].
  destruct (of_type (cond_type c) o) eqn:E; cbn [List.find].
  - intros [= ->]. unfold of_type at 1. cbn [cond_type]. by rewrite String.eqb_refl.
  - rewrite E. apply IH.
Qed.

#[export] Instance ref_kube_laws now : KubeLibLaws (ref_kube now).
Proof.
  split; cbn [FindStatusCondition SetStatusCondition ContainsFinalizer AddFinalizer RemoveFinalizer
               SetControllerReference ref_kube]; try done.
  - apply ref_find_set.
  - intros l c old Hf Hs Hz. rewrite (ref_find_stamp _ _ _ _ Hf).
    rewrite bool_decide_eq_false_2 by done. by rewrite Hz.
  - intros l c old Hf Hs. rewrite (ref_find_stamp _ _ _ _ Hf). by rewrite bool_decide_eq_true_2.
  - intros. by apply ref_find_other.
  - by intros ac c c' [= ->].
Qed.

(** ** Consequences used by both controllers *)

Section laws.
  Context `{KL : KubeLibLaws}.

(** the status, reason, message and generation a lookup shows *)
Definition shown (l : list Condition) (t : string) : option (ConditionStatus * string * string * Z) :=
  (fun c => (cond_status c, cond_reason c, cond_message c, cond_observed_generation c)) <$> FindStatusCondition l t.

Lemma shown_set_same l t s r m g ltt :
  shown (SetStatusCondition l (mkCondition t s r m g ltt)) t = Some (s, r, m, g).
Proof.
  unfold shown. destruct (find_set_same l (mkCondition t s r m g ltt)) as [ltt' Hf].
  cbn [cond_type] in Hf. by rewrite Hf.
Qed.

Lemma shown_set_other l c t : t <> cond_type c -> shown (SetStatusCondition l c) t = shown l t.
Proof. intros H. unfold shown. by rewrite find_set_other. Qed.

Lemma is_true_shown l t :
  IsStatusConditionTrue l t = match shown l t with Some (s, _, _, _) => bool_decide (s = CondTrue) | None => false end.
Proof. unfold IsStatusConditionTrue, shown. by destruct (FindStatusCondition l t). Qed.

Lemma is_true_set_same l t s r m g ltt :
  IsStatusConditionTrue (SetStatusCondition l (mkCondition t s r m g ltt)) t = bool_decide (s = CondTrue).
Proof. by rewrite is_true_shown, shown_set_same. Qed.

Lemma is_true_set_other l c t :
  t <> cond_type c -> IsStatusConditionTrue (SetStatusCondition l c) t = IsStatusConditionTrue l t.
Proof. intros H. by rewrite !is_true_shown, shown_set_other. Qed.

Lemma finalizer_added m f : ContainsFinalizer (AddFinalizer m f) f = true.
Proof.
  rewrite contains_finalizer_spec, add_finalizer_spec. apply bool_decide_eq_true_2.
  case_bool_decide; [done|]. cbn. apply elem_of_app. right. by apply list_elem_of_singleton.
Qed.

Lemma finalizer_removed m f : ContainsFinalizer (RemoveFinalizer m f) f = false.
Proof.
  rewrite contains_finalizer_spec, remove_finalizer_spec. apply bool_decide_eq_false_2. cbn.
  rewrite list_elem_of_In, filter_In, String.eqb_refl. by intros [_ [=]].
Qed.

End laws.
