(* ===== verification/Effects.v ===== *)
(** * Effectful programs: calls to the cluster and the cloud, and what is proved of them

    A method of the operator that performs I/O is a [prog]: a tree of calls [op]
    whose responses are unconstrained.  A Go closure handed to the library is a
    function argument of the call.  Logging is left out.  [twp] is the program
    logic: it states which calls a program may make given the calls already made
    (a [policy] on [history]) and what holds when it returns, under assumptions
    on the responses (an [environment]).  [reaches] is the step relation; it is
    defined on programs that may stop anywhere, so what [twp] states of the calls
    also holds of an operator that crashes in the middle of a round. *)
From S2P Require Import Prelude GoString GoTime Api GoError Cloud.

(** ** Calls *)

(** controllerutil.OperationResult, as far as the code tells them apart *)
Inductive OperationResult : Type := OperationResultNone | OperationResultCreated | OperationResultUpdated.
#[export] Instance OperationResult_eq_dec : EqDecision OperationResult.
Proof. solve_decision. Defined.

Inductive op : Type :=
(* client.Client and client.Reader, by object type; Live: through the APIReader *)
| OGetAC (live : bool) (ns name : string)
| OUpdateAC (ac : AliyunCertificate)
| OPatchACStatus (ac base : AliyunCertificate)
| OGetBinding (live : bool) (ns name : string)
| OUpdateBinding (b : AliyunCertificateBinding)
| OPatchBindingStatus (b base : AliyunCertificateBinding)
| OListBindingsLive (ns : string)
| OListBindingsByTarget (key : string)
| OListBindingsByCertificate (ns name : string)
| OGetCert (ns name : string)
| OCreateOrUpdateCert (c : Certificate) (mutate : Certificate -> goerr + Certificate)
| ODeleteCert (c : Certificate)
| OGetSecret (ns name : string)
| ODeleteSecret (s : Secret)
(* aliyun.CASClient *)
| OCASUpload (c : CASClient) (name certPEM keyPEM token : string)
| OCASDelete (c : CASClient) (id : Z) (token : string)
| OCASFind (c : CASClient) (hint : string)
(* aliyun.FC3Client and aliyun.OSSClient *)
| OGetCustomDomain (c : ProviderClient) (domain : string)
| OUpdateCustomDomain (c : ProviderClient) (domain : string) (input : UpdateCustomDomainInput)
| OGetCname (c : ProviderClient) (bucket domain : string)
| OPutCnameCert (c : ProviderClient) (bucket domain certRef : string)
| ODeleteCnameCert (c : ProviderClient) (bucket domain : string)
(* construction of credentials and clients by the SDKs *)
| ONewCredential (cfg : CredentialConfig)
| ONewCASClient (c : CASClient)
| ONewProviderClient (c : ProviderClient)
(* the shared maps of the two client caches: (resourceVersion, client) by identity *)
| OCASCacheGet (id : string)
| OCASCachePut (id rv : string) (c : CASClient)
| OProviderCacheGet (id : string)
| OProviderCachePut (id rv : string) (c : ProviderClient)
(* clock, events, metrics *)
| ONow
| OEvent (ns name : string) (warning : bool) (reason message : string)
| OCounterInc (metric : string) (labels : list string)
| OGaugeSet (metric : string) (labels : list string) (v : Z)
| OGaugeDelete (metric : string) (labels : list string).

Definition resp (o : op) : Type :=
  match o with
  | OGetAC _ _ _ | OUpdateAC _ | OPatchACStatus _ _ => goerr + AliyunCertificate
  | OGetBinding _ _ _ | OUpdateBinding _ | OPatchBindingStatus _ _ => goerr + AliyunCertificateBinding
  | OListBindingsLive _ | OListBindingsByTarget _ | OListBindingsByCertificate _ _ =>
      goerr + list AliyunCertificateBinding
  | OGetCert _ _ => goerr + Certificate
  | OCreateOrUpdateCert _ _ => goerr + (OperationResult * Certificate)
  | OGetSecret _ _ => goerr + Secret
  | OCASUpload _ _ _ _ _ => goerr + Z
  | OCASFind _ _ => goerr + list CertSummary
  | OGetCustomDomain _ _ => goerr + CustomDomain
  | OGetCname _ _ _ => goerr + Cname
  | ODeleteCert _ | ODeleteSecret _ | OCASDelete _ _ _ | OUpdateCustomDomain _ _ _
  | OPutCnameCert _ _ _ _ | ODeleteCnameCert _ _ _ | ONewCredential _ | ONewCASClient _
  | ONewProviderClient _ => option goerr
  | OCASCacheGet _ => option (string * CASClient)
  | OProviderCacheGet _ => option (string * ProviderClient)
  | ONow => gotime
  | OCASCachePut _ _ _ | OProviderCachePut _ _ _
  | OEvent _ _ _ _ _ | OCounterInc _ _ | OGaugeSet _ _ _ | OGaugeDelete _ _ => unit
  end%type.

(** ** Programs *)

Inductive prog (A : Type) : Type :=
| Ret (a : A)
| Vis (o : op) (k : resp o -> prog A).
Arguments Ret {A} a.
Arguments Vis {A} o k.

Definition call (o : op) : prog (resp o) := Vis o Ret.

Fixpoint bind {A B} (p : prog A) (f : A -> prog B) : prog B :=
  match p with
  | Ret a => f a
  | Vis o k => Vis o (fun r => bind (k r) f)
  end.

Declare Scope prog_scope.
Delimit Scope prog_scope with prog.
Bind Scope prog_scope with prog.

(** sequencing *)
Notation "'let!' x ':=' p 'in' k" := (bind p (fun x => k))
  (at level 10, x name, p at level 200, k at level 200) : prog_scope.
Notation "'let!' ' x ':=' p 'in' k" := (bind p (fun x => k))
  (at level 10, x strict pattern, p at level 200, k at level 200) : prog_scope.
Notation "'do!' p 'in' k" := (bind p (fun _ => k))
  (at level 10, p at level 200, k at level 200) : prog_scope.
(** [x, err := p; if err != nil { return zero, err }] *)
Notation "'try!' x ':=' p 'in' k" :=
  (bind p (fun r => match r with inl e => Ret (inl e) | inr x => k end))
  (at level 10, x name, p at level 200, k at level 200) : prog_scope.

(** ** Histories and the step relation *)

Record event : Type := Ev { ev_op : op; ev_resp : resp ev_op }.

(** the calls made so far with their responses, the latest first *)
Abbreviation history := (list event).

(** what a response may be, and which calls are allowed, after a history *)
Definition environment : Type := history -> forall o, resp o -> Prop.
Definition policy : Type := history -> op -> Prop.
Definition any_env : environment := fun _ _ _ => True.
Definition any_call : policy := fun _ _ => True.

(** some steps of a program; it need not have returned *)
Inductive reaches {A} (E : environment) : history -> prog A -> history -> prog A -> Prop :=
| reaches_here h p : reaches E h p h p
| reaches_call h o k r h' p' : E h o r ->
    reaches E (Ev o r :: h) (k r) h' p' -> reaches E h (Vis o k) h' p'.

(** ** The program logic *)

Fixpoint twp {A} (E : environment) (P : policy) (h : history) (p : prog A)
    (Q : A -> history -> Prop) : Prop :=
  match p with
  | Ret a => Q a h
  | Vis o k => P h o /\ forall r, E h o r -> twp E P (Ev o r :: h) (k r) Q
  end.

(** every call of a program, whatever the responses *)
Fixpoint all_calls {A} (C : op -> Prop) (p : prog A) : Prop :=
  match p with
  | Ret _ => True
  | Vis o k => C o /\ forall r, all_calls C (k r)
  end.

(** what every run returns *)
Fixpoint returns {A} (Q : A -> Prop) (p : prog A) : Prop :=
  match p with
  | Ret a => Q a
  | Vis _ k => forall r, returns Q (k r)
  end.

(** a world that answers calls, and the run against it *)
Definition handler (S : Type) : Type := S -> forall o, resp o * S.

Fixpoint exec {S A} (w : handler S) (s : S) (h : history) (p : prog A) : A * history * S :=
  match p with
  | Ret a => (a, h, s)
  | Vis o k => let '(r, s') := w s o in exec w s' (Ev o r :: h) (k r)
  end.

(** the response of a call that fails (and of a clock that stands at the epoch) *)
Definition failed_resp (o : op) : resp o :=
  match o with
  | OGetAC _ _ _ | OUpdateAC _ | OPatchACStatus _ _ | OGetBinding _ _ _ | OUpdateBinding _
  | OPatchBindingStatus _ _ | OListBindingsLive _ | OListBindingsByTarget _
  | OListBindingsByCertificate _ _ | OGetCert _ _ | OCreateOrUpdateCert _ _ | OGetSecret _ _
  | OCASUpload _ _ _ _ _ | OCASFind _ _ | OGetCustomDomain _ _ | OGetCname _ _ _ => inl EDeadline
  | ODeleteCert _ | ODeleteSecret _ | OCASDelete _ _ _ | OUpdateCustomDomain _ _ _
  | OPutCnameCert _ _ _ _ | ODeleteCnameCert _ _ _ | ONewCredential _ | ONewCASClient _
  | ONewProviderClient _ => Some EDeadline
  | OCASCacheGet _ | OProviderCacheGet _ => None
  | ONow => 0%Z
  | OCASCachePut _ _ _ | OProviderCachePut _ _ _
  | OEvent _ _ _ _ _ | OCounterInc _ _ | OGaugeSet _ _ _ | OGaugeDelete _ _ => tt
  end.

(** *** Soundness *)

Lemma twp_reaches {A} E P h (p : prog A) Q h' p' :
  twp E P h p Q -> reaches E h p h' p' -> twp E P h' p' Q.
Proof. intros Ht Hr. induction Hr as [|h o k r h' p' Hr _ IH]; [done|]. apply IH. by apply Ht. Qed.

(** every call a run makes was allowed by the policy when it was made, also in a
    run that stops before the program returns *)
Lemma twp_call_allowed {A} E P h (p : prog A) Q h' o k :
  twp E P h p Q -> reaches E h p h' (Vis o k) -> P h' o.
Proof. intros Ht Hr. by apply (twp_reaches _ _ _ _ _ _ _ Ht Hr). Qed.

Lemma twp_returns {A} E P h (p : prog A) Q h' a :
  twp E P h p Q -> reaches E h p h' (Ret a) -> Q a h'.
Proof. intros Ht Hr. by apply (twp_reaches _ _ _ _ _ _ _ Ht Hr). Qed.

(** and a world that answers within the environment runs the program to a result
    with the postcondition *)
Lemma twp_exec {S A} (w : handler S) (I : S -> history -> Prop) E P h s (p : prog A) Q :
  (forall s h o, I s h -> E h o (w s o).1 /\ I (w s o).2 (Ev o (w s o).1 :: h)) ->
  I s h -> twp E P h p Q ->
  let '(a, h', s') := exec w s h p in Q a h' /\ I s' h'.
Proof.
  intros Hw. revert h s. induction p as [a|o k IH]; intros h s HI Ht; cbn; [done|].
  destruct (Hw s h o HI) as [HE HI']. destruct (w s o) as [r s'] eqn:Eq. cbn in *.
  apply IH; [done|]. by apply Ht.
Qed.

Lemma twp_exec_env {S A} (w : handler S) E P h s (p : prog A) Q :
  (forall s h o, E h o (w s o).1) -> twp E P h p Q -> Q (exec w s h p).1.1 (exec w s h p).1.2.
Proof.
  intros HE Ht. assert (Hw : forall s h o, True -> E h o (w s o).1 /\ True) by auto.
  pose proof (twp_exec w (fun _ _ => True) E P h s p Q Hw I Ht) as H.
  destruct (exec w s h p) as [[a h'] s']. apply H.
Qed.

Lemma twp_exec_any {S A} (w : handler S) P h s (p : prog A) Q :
  twp any_env P h p Q -> Q (exec w s h p).1.1 (exec w s h p).1.2.
Proof. by apply twp_exec_env. Qed.

(** each call of a history was allowed after the calls before it *)
Fixpoint all_allowed (P : policy) (h : history) : Prop :=
  match h with [] => True | e :: h => P h (ev_op e) /\ all_allowed P h end.

Lemma twp_reaches_allowed {A} E P h (p : prog A) Q h' p' :
  twp E P h p Q -> all_allowed P h -> reaches E h p h' p' -> all_allowed P h'.
Proof.
  intros Ht Ha Hr. revert Ht Ha. induction Hr as [|h o k r h' p' HE Hr IH]; [done|].
  intros [Ho Hk] Ha. apply IH; [by apply Hk|]. by split.
Qed.

Lemma exec_reaches {S A} (w : handler S) (E : environment) h s (p : prog A) :
  (forall s h o, E h o (w s o).1) -> reaches E h p (exec w s h p).1.2 (Ret (exec w s h p).1.1).
Proof.
  intros HE. revert h s. induction p as [a|o k IH]; intros h s; cbn; [constructor|].
  pose proof (HE s h o) as Hr. destruct (w s o) as [r s']. cbn in Hr. econstructor; [done|]. apply IH.
Qed.

Lemma twp_exec_allowed {S A} (w : handler S) E P s (p : prog A) Q :
  (forall s h o, E h o (w s o).1) -> twp E P [] p Q -> all_allowed P (exec w s [] p).1.2.
Proof. intros HE Ht. by eapply twp_reaches_allowed; [exact Ht| |apply exec_reaches]. Qed.

(** *** Structural rules *)

Lemma twp_mono {A} E P P' h (p : prog A) (Q Q' : A -> history -> Prop) :
  (forall h o, P h o -> P' h o) -> (forall a h, Q a h -> Q' a h) ->
  twp E P h p Q -> twp E P' h p Q'.
Proof.
  intros HP HQ. revert h. induction p as [a|o k IH]; intros h; cbn; [apply HQ|].
  intros [Ho Hk]. split; [by apply HP|]. intros r Hr. by apply IH, Hk.
Qed.

Lemma twp_post {A} E P h (p : prog A) (Q Q' : A -> history -> Prop) :
  twp E P h p Q -> (forall a h, Q a h -> Q' a h) -> twp E P h p Q'.
Proof. intros Ht HQ. by eapply twp_mono; [| |exact Ht]. Qed.

Lemma twp_bind {A B} E P h (p : prog A) (f : A -> prog B) Q :
  twp E P h (bind p f) Q <-> twp E P h p (fun a h' => twp E P h' (f a) Q).
Proof.
  revert h. induction p as [a|o k IH]; intros h; cbn; [done|].
  split; intros [Ho Hk]; (split; [done|]); intros r Hr; apply IH, Hk, Hr.
Qed.

Lemma twp_and {A} E P P' h (p : prog A) Q1 Q2 :
  twp E P h p Q1 -> twp E P' h p Q2 -> twp E P h p (fun a h => Q1 a h /\ Q2 a h).
Proof.
  revert h. induction p as [a|o k IH]; intros h; cbn; [done|].
  intros [Ho H1] [_ H2]. split; [done|]. intros r Hr. by apply IH; [apply H1|apply H2].
Qed.

Lemma all_calls_bind {A B} C (p : prog A) (f : A -> prog B) :
  all_calls C p -> (forall a, all_calls C (f a)) -> all_calls C (bind p f).
Proof. intros Hp Hf. induction p as [a|o k IH]; cbn in *; [done|]. destruct Hp. auto. Qed.

Lemma all_calls_mono {A} (C C' : op -> Prop) (p : prog A) :
  (forall o, C o -> C' o) -> all_calls C p -> all_calls C' p.
Proof. intros HC. induction p as [a|o k IH]; cbn; [done|]. intros [? ?]. auto. Qed.

(** the calls since [h0] are all in [C] *)
Definition only_since (C : op -> Prop) (h0 h : history) : Prop :=
  exists new, h = new ++ h0 /\ Forall (fun e => C (ev_op e)) new.

Lemma only_since_refl C h : only_since C h h.
Proof. by exists []. Qed.

Lemma only_since_trans C h1 h2 h3 : only_since C h1 h2 -> only_since C h2 h3 -> only_since C h1 h3.
Proof.
  intros (n1 & -> & H1) (n2 & -> & H2). exists (n2 ++ n1). split; [by rewrite app_assoc|].
  by apply Forall_app.
Qed.

Lemma only_since_mono (C C' : op -> Prop) h1 h2 :
  (forall o, C o -> C' o) -> only_since C h1 h2 -> only_since C' h1 h2.
Proof. intros HC (n & -> & H). exists n. split; [done|]. eapply Forall_impl; [exact H|]. cbn. auto. Qed.

(** an event that was there stays there *)
Lemma only_since_elem C h0 h e : only_since C h0 h -> e ∈ h0 -> e ∈ h.
Proof. intros (n & -> & _) He. apply elem_of_app. by right. Qed.

(** a program that only makes calls of [C], which the policy always allows *)
Lemma all_calls_twp {A} (C : op -> Prop) E P h (p : prog A) :
  all_calls C p -> (forall h o, C o -> P h o) -> twp E P h p (fun _ h' => only_since C h h').
Proof.
  intros Hp HC. assert (H : forall h', only_since C h h' -> twp E P h' p (fun _ h' => only_since C h h')).
  { induction p as [a|o k IH]; intros h' Hh; cbn in *; [done|]. destruct Hp as [Ho Hk].
    split; [by apply HC|]. intros r _. apply IH; [apply Hk|].
    destruct Hh as (n & -> & Hn). exists (Ev o r :: n). split; [done|]. by constructor. }
  apply H, only_since_refl.
Qed.

(** a property of the responses of [E], and one of all responses *)
Lemma twp_both {A} E h (q : prog A) P Q R :
  twp E any_call h q Q -> twp any_env P h q R -> twp E any_call h q (fun a h' => Q a h' /\ R a h').
Proof.
  revert h. induction q as [a|o k IH]; intros h; cbn; [done|]. intros [_ H1] [_ H2]. split; [exact I|].
  intros x Hx. apply IH; [by apply H1|by apply H2].
Qed.

(** what is known of all results is known of the one that comes back *)
Lemma twp_returned {A} E h (p : prog A) : twp E any_call h p (fun a _ => forall R, returns R p -> R a).
Proof.
  revert h. induction p as [a|o k IH]; intros h; cbn; [auto|]. split; [exact I|]. intros x _.
  eapply twp_post; [apply IH|]. intros a h' Ha R HR. apply Ha, HR.
Qed.

(** a triple proved for a static set of calls holds under any policy that allows
    those calls from here on *)
Lemma twp_under {A} (C : op -> Prop) E P h (p : prog A) Q :
  twp any_env (fun _ o => C o) h p Q ->
  (forall h' o, only_since C h h' -> C o -> P h' o) ->
  twp E P h p (fun a h' => Q a h' /\ only_since C h h').
Proof.
  intros Ht HP. assert (H : forall h', only_since C h h' -> twp any_env (fun _ o => C o) h' p Q ->
    twp E P h' p (fun a h' => Q a h' /\ only_since C h h')); [|by apply H; [apply only_since_refl|]].
  clear Ht. induction p as [a|o k IH]; intros h' Hh; cbn; [done|]. intros [Ho Hk]. split; [by apply HP|].
  intros r _. apply IH; [|by apply Hk]. destruct Hh as (n & -> & Hn). exists (Ev o r :: n).
  split; [done|]. by constructor.
Qed.

Lemma twp_all_calls {A} (C : op -> Prop) (p : prog A) h Q :
  twp any_env (fun _ o => C o) h p Q -> all_calls C p.
Proof.
  revert h. induction p as [a|o k IH]; intros h; cbn; [done|].
  intros [Ho Hk]. split; [done|]. intros r. eapply IH. by apply Hk.
Qed.

Lemma returns_bind {A B} (Q : B -> Prop) (p : prog A) (f : A -> prog B) :
  returns (fun a => returns Q (f a)) p -> returns Q (bind p f).
Proof. intros Hp. induction p as [a|o k IH]; cbn in *; auto. Qed.

Lemma returns_bind_post {A B} (R : A -> Prop) (Q : B -> Prop) (p : prog A) (f : A -> prog B) :
  returns R p -> (forall a, R a -> returns Q (f a)) -> returns Q (bind p f).
Proof. intros Hp Hf. induction p as [a|o k IH]; cbn in *; auto. Qed.

Lemma returns_mono {A} (Q Q' : A -> Prop) (p : prog A) :
  returns Q p -> (forall a, Q a -> Q' a) -> returns Q' p.
Proof. intros Hp HQ. induction p as [a|o k IH]; cbn in *; auto. Qed.

Lemma returns_and {A} (Q Q' : A -> Prop) (p : prog A) :
  returns Q p -> returns Q' p -> returns (fun a => Q a /\ Q' a) p.
Proof. intros H H'. induction p as [a|o k IH]; cbn in *; auto. Qed.

Lemma returns_True {A} (p : prog A) : returns (fun _ => True) p.
Proof. induction p as [a|o k IH]; cbn; auto. Qed.

Lemma returns_twp {A} E h (p : prog A) Q :
  returns Q p -> twp E any_call h p (fun a _ => Q a).
Proof. revert h. induction p as [a|o k IH]; intros h; cbn; [done|]. intros H. by split; [|auto]. Qed.

Lemma twp_returns_and {A} E P h (p : prog A) Q R :
  twp E P h p Q -> returns R p -> twp E P h p (fun a h' => Q a h' /\ R a).
Proof.
  revert h. induction p as [a|o k IH]; intros h; cbn; [done|]. intros [Ho Hk] Hr. split; [done|].
  intros r HE. by apply IH; [apply Hk|].
Qed.

(** *** Runs of a part of a program *)

Lemma reaches_step {A} E h (p : prog A) h' o k r :
  reaches E h p h' (Vis o k) -> E h' o r -> reaches E h p (Ev o r :: h') (k r).
Proof.
  intros Hr He. remember (Vis o k) as q eqn:Eq. revert Eq. induction Hr as [h p|h o1 k1 r1 h' p' H1 Hr IH]; intros Eq.
  - subst p. econstructor; [exact He|]. constructor.
  - econstructor; [exact H1|]. by apply IH.
Qed.

Lemma reaches_suffix {A} E h (p : prog A) h' p' : reaches E h p h' p' -> h `suffix_of` h'.
Proof.
  induction 1 as [|h o k r h' p' _ _ IH]; [done|]. etrans; [|exact IH]. by exists [Ev o r].
Qed.

(** what the policy allows and what a program reaches from its start, together *)
Lemma twp_tracks {A} E (P : policy) h0 (p0 : prog A) h p Q :
  reaches E h0 p0 h p -> twp E P h p Q ->
  twp E (fun h o => P h o /\ exists k, reaches E h0 p0 h (Vis o k)) h p
    (fun a h' => Q a h' /\ reaches E h0 p0 h' (Ret a)).
Proof.
  revert h. induction p as [a|o k IH]; intros h Hr; cbn; [done|]. intros [Ho Hk]. split; [eauto|].
  intros x Hx. apply IH; [by apply reaches_step|by apply Hk].
Qed.

Lemma twp_trivial {A} E h (p : prog A) : twp E any_call h p (fun _ _ => True).
Proof. revert h. induction p as [a|o k IH]; intros h; cbn; [done|]. split; [exact I|auto]. Qed.

Lemma twp_suffix {A} E h (p : prog A) : twp E any_call h p (fun _ h' => h `suffix_of` h').
Proof.
  revert h. induction p as [a|o k IH]; intros h; cbn; [done|]. split; [exact I|]. intros x _.
  eapply twp_post; [apply IH|]. intros a h' Hs. etrans; [|exact Hs]. by exists [Ev o x].
Qed.

Lemma all_calls_reaches {A} (C : op -> Prop) E h (p : prog A) h' o k :
  all_calls C p -> reaches E h p h' (Vis o k) -> C o.
Proof.
  intros Hc Hr. eapply (twp_call_allowed E (fun _ o => C o) h p (fun _ _ => True)); [|exact Hr].
  eapply twp_post; [by apply (all_calls_twp C)|done].
Qed.

(** [p] was run to its end within the history [h], and returned [a] *)
Definition ran {A} (h : history) (p : prog A) (a : A) : Prop :=
  exists h1 h2, reaches any_env h1 p h2 (Ret a) /\ h2 `suffix_of` h.

Lemma ran_suffix {A} h h' (p : prog A) a : ran h p a -> h `suffix_of` h' -> ran h' p a.
Proof. intros (h1 & h2 & Hr & Hs) Hh. exists h1, h2. split; [done|by etrans]. Qed.

Lemma ran_returns {A} h (p : prog A) a (Q : A -> Prop) : ran h p a -> returns Q p -> Q a.
Proof.
  intros (h1 & h2 & Hr & _) Hq. exact (twp_returns _ _ _ _ _ _ _ (returns_twp any_env h1 p Q Hq) Hr).
Qed.

Lemma only_since_suffix C h h' : only_since C h h' -> h `suffix_of` h'.
Proof. by intros (n & -> & _); exists n. Qed.

(** a part of a program whose calls the policy always allows *)
Lemma twp_ran {A B} (C : op -> Prop) (P : policy) h (p : prog A) (f : A -> prog B) Q :
  all_calls C p -> (forall h o, C o -> P h o) ->
  (forall a h', only_since C h h' -> ran h' p a -> twp any_env P h' (f a) Q) ->
  twp any_env P h (bind p f) Q.
Proof.
  intros Hc HP Hf. apply twp_bind.
  pose proof (twp_tracks any_env P h p h p _ (reaches_here _ _ _) (all_calls_twp C any_env P h p Hc HP)) as Ht.
  eapply twp_mono; [| |exact Ht]; [by intros ? ? []|]. intros a h' [Hs Hr]. apply Hf; [done|]. by exists h, h'.
Qed.

(** ** Tactics *)

(** one step of a symbolic execution *)
Ltac twp_step :=
  lazymatch goal with
  | |- twp _ _ _ (bind _ _) _ => apply twp_bind
  | |- twp _ _ _ (call _) _ => split; [try exact I|intros ? ?; cbn [twp]]
  | |- twp _ _ _ (Vis _ _) _ => split; [try exact I|intros ? ?; cbn [twp]]
  | |- twp _ _ _ (Ret _) _ => cbn [twp]
  | |- all_calls _ (bind _ _) => apply all_calls_bind; [|intros ?]
  | |- all_calls _ (call _) => split; [|intros ?; exact I]
  | |- all_calls _ (Ret _) => exact I
  end.

(** all the calls of a program made of branches and calls: [all_calls_tac using
    the hints of effects] *)
Create HintDb calls.
Ltac calls_tac :=
  repeat first
    [ twp_step
    | match goal with |- all_calls _ (match ?x with _ => _ end) => destruct x end
    | match goal with |- all_calls _ (if ?b then _ else _) => destruct b end
    | solve [auto 2 with calls] ].
