(* ===== verification/Interleave.v ===== *)
(** * Programs that run at the same time

    Replicas of the operator overlap while leadership moves, and the goroutines of one
    replica serve different objects.  A pool is a list of programs over one world; a
    step is a call of one of them, answered in the state the others have left, or a
    step of somebody else.  [rwp] is the logic for one program of a pool: it relies on
    a relation [R] for what happens between its calls, and guarantees [R] of its own
    calls.  [pool_sound] is its soundness: what was proved of each program alone, and
    of one call at a time, holds of every interleaving. *)
From S2P Require Import Prelude GoString GoTime Api GoError Cloud Effects.
From stdpp Require Import relations.

Section program.
  Context {S : Type} (answers : S -> forall o, resp o -> S -> Prop).

(** ** The logic of one program *)

Context (R : relation S) `{!PreOrder R}.

Fixpoint rwp {A} (s : S) (p : prog A) (Q : A -> S -> Prop) : Prop :=
  match p with
  | Ret a => forall s', R s s' -> Q a s'
  | Vis o k => forall s1, R s s1 -> forall x s2, answers s1 o x s2 -> R s1 s2 /\ rwp s2 (k x) Q
  end.

(** what others do does not matter *)
Lemma rwp_stable {A} s s' (p : prog A) Q : R s s' -> rwp s p Q -> rwp s' p Q.
Proof.
  intros HR. destruct p as [a|o k]; cbn [rwp].
  - intros HQ s2 H2. apply HQ. by transitivity s'.
  - intros Hk s1 H1. apply Hk. by transitivity s'.
Qed.

Lemma rwp_mono {A} s (p : prog A) (Q Q' : A -> S -> Prop) :
  rwp s p Q -> (forall a s', R s s' -> Q a s' -> Q' a s') -> rwp s p Q'.
Proof.
  revert s. induction p as [a|o k IH]; intros s; cbn [rwp].
  - intros HQ Hm s' HR. by apply Hm, HQ.
  - intros Hk Hm s1 H1 x s2 Hx. destruct (Hk s1 H1 x s2 Hx) as [H2 Hp]. split; [done|].
    apply (IH x s2 Hp). intros a s' HR. apply Hm. transitivity s2; [|done]. by transitivity s1.
Qed.

Lemma rwp_bind {A B} s (p : prog A) (f : A -> prog B) Q :
  rwp s p (fun a s' => rwp s' (f a) Q) -> rwp s (bind p f) Q.
Proof.
  revert s. induction p as [a|o k IH]; intros s; cbn [rwp bind].
  - intros Hf. by apply Hf.
  - intros Hk s1 H1 x s2 Hx. destruct (Hk s1 H1 x s2 Hx) as [H2 Hp]. split; [done|]. by apply IH.
Qed.

(** a program whose calls leave the world alone *)
Lemma rwp_calls {A} (C : op -> Prop) s (p : prog A) :
  (forall s1 o x s2, C o -> answers s1 o x s2 -> s2 = s1) -> all_calls C p -> rwp s p (fun _ _ => True).
Proof.
  intros HC. revert s. induction p as [a|o k IH]; intros s; [done|]. intros [Ho Hk] s1 _ x s2 Hx.
  rewrite (HC _ _ _ _ Ho Hx). split; [reflexivity|]. by apply IH.
Qed.

End program.

Section pool.
  Context {S : Type} (answers : S -> forall o, resp o -> S -> Prop) (others : relation S).

(** ** Pools *)

Inductive pool_step {A} : S * list (prog A) -> S * list (prog A) -> Prop :=
| step_program s before o k after x s' :
    answers s o x s' -> pool_step (s, before ++ Vis o k :: after) (s', before ++ k x :: after)
| step_others s s' pool : others s s' -> pool_step (s, pool) (s', pool).

(** a schedule, run against a world that is a function *)
Definition run_program {A} (world : handler S) (c : S * list (prog A)) (i : nat) : S * list (prog A) :=
  match c.2 !! i with
  | Some (Vis o k) => let '(x, s') := world c.1 o in (s', <[i := k x]> c.2)
  | _ => c
  end.

Definition run_schedule {A} (world : handler S) (schedule : list nat) (c : S * list (prog A)) : S * list (prog A) :=
  foldl (run_program world) c schedule.

Lemma run_schedule_steps {A} (world : handler S) schedule (c : S * list (prog A)) :
  (forall s o, answers s o (world s o).1 (world s o).2) -> rtc (pool_step (A := A)) c (run_schedule world schedule c).
Proof.
  intros Hw. revert c. induction schedule as [|i l IH]; intros c; [apply rtc_refl|]. cbn [run_schedule foldl].
  etransitivity; [|apply IH]. unfold run_program. destruct c as [s pool]. cbn [fst snd].
  destruct (pool !! i) as [[a|o k]|] eqn:E; [apply rtc_refl| |apply rtc_refl].
  pose proof (Hw s o) as Ha. destruct (world s o) as [x s']. apply rtc_once.
  rewrite <-(take_drop_middle _ _ _ E) at 1. rewrite (insert_take_drop _ _ _ (lookup_lt_Some _ _ _ E)).
  by constructor.
Qed.

(** ** Soundness *)

Context (R : relation S) `{!PreOrder R}.

Abbreviation rwp := (rwp answers R).

Lemma pool_step_sound {A} (Q : A -> S -> Prop) c c' :
  (forall s s', others s s' -> R s s') -> pool_step c c' ->
  Forall (fun p => rwp c.1 p Q) c.2 -> R c.1 c'.1 /\ Forall (fun p => rwp c'.1 p Q) c'.2.
Proof.
  intros Ho Hs Hp.
  assert (Hst : forall s s' l, R s s' -> Forall (fun p => rwp s p Q) l -> Forall (fun p => rwp s' p Q) l).
  { intros s s' l HR Hl. eapply Forall_impl; [exact Hl|]. intros p. by apply rwp_stable. }
  destruct Hs as [s before o k after x s' Hx|s s' pool Hx]; cbn [fst snd] in *.
  - apply Forall_app in Hp as [Hb Ha]. apply Forall_cons in Ha as [Hk Ha].
    destruct (Hk s ltac:(reflexivity) x s' Hx) as [HR Hc]. split; [done|].
    apply Forall_app. split; [by apply (Hst s)|]. constructor; [done|by apply (Hst s)].
  - split; [by apply Ho|]. by apply (Hst s), Hp; apply Ho.
Qed.

Lemma pool_sound {A} (Q : A -> S -> Prop) c c' :
  (forall s s', others s s' -> R s s') -> rtc pool_step c c' ->
  Forall (fun p => rwp c.1 p Q) c.2 -> R c.1 c'.1 /\ Forall (fun p => rwp c'.1 p Q) c'.2.
Proof.
  intros Ho Hr. induction Hr as [c|c1 c2 c3 Hs _ IH]; intros Hp; [by split|].
  destruct (pool_step_sound Q _ _ Ho Hs Hp) as [H1 Hp1]. destruct (IH Hp1) as [H2 Hp2].
  split; [by transitivity c2.1|done].
Qed.

(** the programs of the pool that have returned *)
Lemma pool_returned {A} (Q : A -> S -> Prop) s pool s' pool' a :
  (forall s s', others s s' -> R s s') ->
  rtc pool_step (s, pool) (s', pool') -> Forall (fun p => rwp s p Q) pool -> Ret a ∈ pool' -> Q a s'.
Proof.
  intros Ho Hr Hp Ha. destruct (pool_sound Q _ _ Ho Hr Hp) as [_ Hp'].
  rewrite Forall_forall in Hp'. apply (Hp' _ Ha). reflexivity.
Qed.

End pool.
