(* ===== verification/Mutex.v ===== *)
(** * Goroutines that share memory under a lock

    sync.Mutex and sync.RWMutex as the code uses them: one lock, the variables it
    protects, and goroutines that run interleaved instruction by instruction.
    [guarded] is the locking discipline; [guarded_is_safe] shows that code that keeps it
    has no data race, never unlocks what it does not hold and cannot block for ever, and
    [sections_are_atomic] that its critical sections may be taken for single steps,
    which is how the rest of the development models locked methods.  [gwp] is the logic
    for one goroutine among others whose sections are such steps. *)
From S2P Require Import Prelude GoString GoTime Api GoError Cloud Effects.
From stdpp Require Import relations.

(** ** Code *)

(** [Lock] is exclusive, [RLock] is shared; a sync.Mutex has the first only *)
Inductive mode : Type := Exclusive | Shared.

#[export] Instance mode_eq_dec : EqDecision mode.
Proof. solve_decision. Defined.

Section code.
  Context {V : Type}.

(** code that uses the variables [V] of one lock; calls are answered by others *)
Inductive code (A : Type) : Type :=
| Done (a : A)
| Call (o : op) (k : resp o -> code A)
| Acquire (m : mode) (k : code A)
| Release (m : mode) (k : code A)
| Load (k : V -> code A)
| Store (v : V) (k : code A).
#[global] Arguments Done {A} _.
#[global] Arguments Call {A} _ _.
#[global] Arguments Acquire {A} _ _.
#[global] Arguments Release {A} _ _.
#[global] Arguments Load {A} _.
#[global] Arguments Store {A} _ _.

Fixpoint code_bind {A B} (c : code A) (f : A -> code B) : code B :=
  match c with
  | Done a => f a
  | Call o k => Call o (fun x => code_bind (k x) f)
  | Acquire m k => Acquire m (code_bind k f)
  | Release m k => Release m (code_bind k f)
  | Load k => Load (fun v => code_bind (k v) f)
  | Store v k => Store v (code_bind k f)
  end.

Fixpoint lift {A} (p : prog A) : code A :=
  match p with
  | Ret a => Done a
  | Vis o k => Call o (fun x => lift (k x))
  end.

(** [mu.Lock(); defer mu.Unlock(); body] *)
Definition locked {A} (m : mode) (body : code A) : code A :=
  Acquire m (code_bind body (fun a => Release m (Done a))).

(** ** Interleaved execution *)

(** who holds the lock, the variables, the goroutines *)
Record config (A : Type) : Type := mkConfig {
  holders : gmap nat mode;
  vars : V;
  routines : list (code A)
}.
#[global] Arguments mkConfig {A} _ _ _.
#[global] Arguments holders {A} _.
#[global] Arguments vars {A} _.
#[global] Arguments routines {A} _.

(** an exclusive holder is alone *)
Definition may_acquire (m : mode) (h : gmap nat mode) : Prop :=
  match m with Exclusive => h = ∅ | Shared => map_Forall (fun _ m' => m' = Shared) h end.

(** one instruction of goroutine [i] *)
Inductive instruction {A} (i : nat) (h : gmap nat mode) (v : V) : code A -> gmap nat mode -> V -> code A -> Prop :=
| i_call o k x : instruction i h v (Call o k) h v (k x)
| i_acquire m k : may_acquire m h -> instruction i h v (Acquire m k) (<[i := m]> h) v k
| i_release m k : h !! i = Some m -> instruction i h v (Release m k) (delete i h) v k
| i_load k : instruction i h v (Load k) h v (k v)
| i_store v' k : instruction i h v (Store v' k) h v' k.

Inductive routine_step {A} : config A -> config A -> Prop :=
| routine_step_intro i c c' h v h' v' l :
    l !! i = Some c -> instruction i h v c h' v' c' ->
    routine_step (mkConfig h v l) (mkConfig h' v' (<[i := c']> l)).

(** ** The discipline *)

(** variables are read under the lock and written under the exclusive lock *)
Fixpoint guarded {A} (held : option mode) (c : code A) : Prop :=
  match c with
  | Done _ => held = None
  | Call _ k => forall x, guarded held (k x)
  | Acquire m k => held = None /\ guarded (Some m) k
  | Release m k => held = Some m /\ guarded None k
  | Load k => is_Some held /\ forall v, guarded held (k v)
  | Store _ k => held = Some Exclusive /\ guarded held k
  end.

(** what a goroutine is about to do *)
Definition writes_next {A} (c : code A) : Prop := match c with Store _ _ => True | _ => False end.
Definition accesses_next {A} (c : code A) : Prop := match c with Store _ _ | Load _ => True | _ => False end.
Definition done {A} (c : code A) : Prop := match c with Done _ => True | _ => False end.

(** two goroutines are at accesses of the variables, and one of them writes *)
Definition data_race {A} (s : config A) : Prop :=
  exists i j c d, i <> j /\ routines s !! i = Some c /\ routines s !! j = Some d /\ writes_next c /\ accesses_next d.

(** [fatal error: sync: unlock of unlocked mutex] *)
Definition bad_unlock {A} (s : config A) : Prop :=
  exists i m k, routines s !! i = Some (Release m k) /\ holders s !! i <> Some m.

#[global] Instance done_dec {A} (c : code A) : Decision (done c).
Proof. destruct c; apply _. Defined.

Definition all_done {A} (s : config A) : Prop := Forall done (routines s).

End code.
#[global] Arguments code : clear implicits.
#[global] Arguments config : clear implicits.

(** ** The discipline is enough *)

Section safety.
  Context {V A : Type}.
Implicit Type s : config V A.

(** the lock and the goroutines agree *)
Record well_held s : Prop := {
  held_guarded i c : routines s !! i = Some c -> guarded (holders s !! i) c;
  held_by_routine i m : holders s !! i = Some m -> is_Some (routines s !! i);
  held_alone i : holders s !! i = Some Exclusive -> holders s = {[i := Exclusive]}
}.

Lemma well_held_start v (l : list (code V A)) : Forall (guarded None) l -> well_held (mkConfig ∅ v l).
Proof.
  intros Hl. split; cbn; [|intros i m; by rewrite lookup_empty|intros i; by rewrite lookup_empty].
  intros i c Hc. rewrite lookup_empty. by eapply Forall_lookup_1.
Qed.

(** another holder keeps the exclusive mode away *)
Lemma held_both s i j m : well_held s -> holders s !! i = Some Exclusive -> holders s !! j = Some m -> j = i.
Proof. intros Hs Hi Hj. rewrite (held_alone _ Hs _ Hi) in Hj. by apply lookup_singleton_Some in Hj as [<- _]. Qed.

(** one goroutine moves, and changes at most its own hold of the lock *)
Lemma well_held_update s i c' h' v' :
  well_held s -> is_Some (routines s !! i) -> (forall j, j <> i -> h' !! j = holders s !! j) ->
  guarded (h' !! i) c' -> (forall j, h' !! j = Some Exclusive -> h' = {[j := Exclusive]}) ->
  well_held (mkConfig h' v' (<[i := c']> (routines s))).
Proof.
  intros Hs Hi Hh Hg Ha. apply lookup_lt_is_Some in Hi. split; cbn; [| |done].
  - intros j d. destruct (decide (j = i)) as [->|Hn].
    + rewrite list_lookup_insert_eq by done. by intros [= <-].
    + rewrite list_lookup_insert_ne, Hh by done. by apply held_guarded.
  - intros j m Hj. apply lookup_lt_is_Some. rewrite length_insert. destruct (decide (j = i)) as [->|Hn]; [done|].
    rewrite Hh in Hj by done. apply lookup_lt_is_Some. by eapply held_by_routine.
Qed.

(** the hold of a goroutine that keeps it *)
Lemma well_held_keep s i c' v' :
  well_held s -> is_Some (routines s !! i) -> guarded (holders s !! i) c' ->
  well_held (mkConfig (holders s) v' (<[i := c']> (routines s))).
Proof. intros Hs Hi Hg. apply well_held_update; try done. by apply held_alone. Qed.

Lemma well_held_step s s' : well_held s -> routine_step s s' -> well_held s'.
Proof.
  intros Hs Hst. revert Hs. destruct Hst as [i c c' h v h' v' l Hc Hi]. intros Hs.
  pose proof (held_guarded _ Hs _ _ Hc) as Hg. assert (Hl : is_Some (l !! i)) by eauto.
  destruct Hi as [o k x|m k Hm|m k Hm|k|v' k]; cbn in Hg.
  - by apply (well_held_keep _ _ _ _ Hs Hl).
  - apply (well_held_update _ _ _ _ _ Hs Hl); cbn.
    + intros j Hj. by apply lookup_insert_ne.
    + rewrite lookup_insert_eq. apply Hg.
    + intros j Hj. destruct m; cbn in Hm.
      * subst h. rewrite insert_empty in *. by apply lookup_singleton_Some in Hj as [<- _].
      * destruct (decide (j = i)) as [->|Hn]; [by rewrite lookup_insert_eq in Hj|].
        rewrite lookup_insert_ne in Hj by done. by specialize (Hm _ _ Hj).
  - apply (well_held_update _ _ _ _ _ Hs Hl); cbn.
    + intros j Hj. by apply lookup_delete_ne.
    + rewrite lookup_delete_eq. apply Hg.
    + intros j Hj. apply lookup_delete_Some in Hj as [Hn Hj].
      by destruct Hn; apply (held_both _ _ _ _ Hs Hj Hm).
  - by apply (well_held_keep _ _ _ _ Hs Hl), Hg.
  - by apply (well_held_keep _ _ _ _ Hs Hl), Hg.
Qed.

Lemma well_held_steps s s' : well_held s -> rtc routine_step s s' -> well_held s'.
Proof. intros Hs Hr. induction Hr as [|s1 s2 s3 H12 _ IH]; [done|]. apply IH. by eapply well_held_step. Qed.

Lemma well_held_no_race s : well_held s -> ~ data_race s.
Proof.
  intros Hs (i & j & c & d & Hn & Hc & Hd & Hw & Ha). apply Hn.
  pose proof (held_guarded _ Hs _ _ Hc) as Gc. pose proof (held_guarded _ Hs _ _ Hd) as Gd.
  destruct c; try done. cbn in Gc. destruct Gc as [Hi _].
  assert (exists m, holders s !! j = Some m) as [m Hj]; [|symmetry; by eapply held_both].
  destruct d; try done; cbn in Gd; [by destruct Gd as [[m Hm] _]; exists m|destruct Gd; eauto].
Qed.

Lemma well_held_no_bad_unlock s : well_held s -> ~ bad_unlock s.
Proof. intros Hs (i & m & k & Hc & Hn). apply Hn. by apply (held_guarded _ Hs _ _ Hc). Qed.

(** *** Progress *)

Lemma resp_inhabited o : exists _ : resp o, True.
Proof.
  assert (goerr) as e by exact (EText ""). assert (gotime) as t by exact 0%Z.
  destruct o; cbn; eexists; try exact I; try exact t; try exact (inl e); try exact None; exact tt.
Qed.

(** a goroutine that is not at the lock can go on *)
Definition at_lock (c : code V A) : Prop := match c with Acquire _ _ => True | _ => False end.

#[local] Instance at_lock_dec c : Decision (at_lock c).
Proof. destruct c; apply _. Defined.

Lemma moves h i (c : code V A) v :
  guarded (h !! i) c -> ~ done c -> ~ at_lock c -> exists h' v' c', instruction i h v c h' v' c'.
Proof.
  destruct c as [a|o k|m k|m k|k|v' k]; cbn; intros Hg Hd Ha; [done| |done| | |].
  - destruct (resp_inhabited o) as [x _]. do 3 eexists. apply (i_call i h v o k x).
  - do 3 eexists. apply i_release, Hg.
  - do 3 eexists. apply i_load.
  - do 3 eexists. apply i_store.
Qed.

(** nobody waits for the lock but for a holder who can go on; if nobody holds it, who waits gets it *)
Lemma well_held_progress s : well_held s -> all_done s \/ exists s', routine_step s s'.
Proof.
  intros Hs. assert (Hstep : forall i c, routines s !! i = Some c ->
      (exists h' v' c', instruction i (holders s) (vars s) c h' v' c') -> exists s', routine_step s s').
  { intros i c Hc (h' & v' & c' & Hi). destruct s as [h v l]. eexists. by econstructor. }
  destruct (decide (holders s = ∅)) as [He|(i & m & Hi)%map_choose].
  - destruct (decide (Forall done (routines s))) as [Hd|Hd]; [by left|right].
    apply not_Forall_Exists, Exists_exists in Hd; [|apply _]. destruct Hd as (c & Hc & Hd).
    apply list_elem_of_lookup in Hc as [i Hc]. apply (Hstep _ _ Hc).
    destruct (decide (at_lock c)) as [Ha|Ha].
    + destruct c as [| |m k| | |]; try done. do 3 eexists. apply i_acquire.
      rewrite He. by destruct m; [|apply map_Forall_empty].
    + by apply moves; [by apply held_guarded|..].
  - right. destruct (held_by_routine _ Hs _ _ Hi) as [c Hc]. apply (Hstep _ _ Hc).
    pose proof (held_guarded _ Hs _ _ Hc) as Hg. rewrite Hi in Hg.
    apply moves; [by apply held_guarded| |]; destruct c; cbn in *; naive_solver.
Qed.

(** Code that keeps the discipline has no data race, does not unlock what it does not hold, and while a goroutine is not
    finished some goroutine can go on. *)
Lemma guarded_is_safe v (l : list (code V A)) s :
  Forall (guarded None) l -> rtc routine_step (mkConfig ∅ v l) s ->
  ~ data_race s /\ ~ bad_unlock s /\ (all_done s \/ exists s', routine_step s s').
Proof.
  intros Hl Hr. pose proof (well_held_steps _ _ (well_held_start v l Hl) Hr) as Hs.
  split; [by apply well_held_no_race|]. split; [by apply well_held_no_bad_unlock|by apply well_held_progress].
Qed.

End safety.

(** ** Critical sections are atomic *)

Section atomicity.
  Context {V A : Type}.
Implicit Type s : config V A.

(** an instruction within a section *)
Inductive alone : V * code V A -> V * code V A -> Prop :=
| alone_call v o k x : alone (v, Call o k) (v, k x)
| alone_load v k : alone (v, Load k) (v, k v)
| alone_store v v' k : alone (v, Store v' k) (v', k).

(** a goroutine outside a section calls, or runs a whole section at once *)
Inductive atomic_step : V * list (code V A) -> V * list (code V A) -> Prop :=
| atomic_call i o k x v l : l !! i = Some (Call o k) -> atomic_step (v, l) (v, <[i := k x]> l)
| atomic_section i m k v v' k' l :
    l !! i = Some (Acquire m k) -> rtc alone (v, k) (v', Release m k') -> atomic_step (v, l) (v', <[i := k']> l).

(** where a goroutine is: in its section, which began from [v0] *)
Definition in_section (v0 v : V) (m : mode) (c c0 : code V A) : Prop :=
  exists k, c0 = Acquire m k /\ rtc alone (v0, k) (v, c).

Record sim s (a : V * list (code V A)) : Prop := {
  sim_length : length a.2 = length (routines s);
  sim_outside i : holders s !! i = None -> a.2 !! i = routines s !! i;
  sim_inside i m c c0 : holders s !! i = Some m -> routines s !! i = Some c -> a.2 !! i = Some c0 -> in_section a.1 (vars s) m c c0;
  sim_vars : (forall i, holders s !! i <> Some Exclusive) -> vars s = a.1
}.

Lemma sim_start v l : sim (mkConfig ∅ v l) (v, l).
Proof. by split; cbn; [|..|intros i m c c0; rewrite lookup_empty|]. Qed.

(** an instruction within a section is not seen outside *)
Lemma sim_stutter s a i m c v' c' :
  well_held s -> sim s a -> holders s !! i = Some m -> routines s !! i = Some c -> alone (vars s, c) (v', c') ->
  (m = Shared -> v' = vars s) -> sim (mkConfig (holders s) v' (<[i := c']> (routines s))) a.
Proof.
  intros Hs Ha Hm Hc Hst Hv. assert (Hlt : i < length (routines s)) by by eapply lookup_lt_Some.
  assert (Hm' : m = Exclusive \/ v' = vars s) by (destruct m; auto).
  split; cbn.
  - by rewrite length_insert, (sim_length _ _ Ha).
  - intros j Hj. rewrite list_lookup_insert_ne by congruence. by apply sim_outside.
  - intros j m' d d0 Hj Hd Hd0. destruct (decide (j = i)) as [->|Hn].
    + rewrite list_lookup_insert_eq in Hd by done. injection Hd as <-. rewrite Hm in Hj. injection Hj as <-.
      destruct (sim_inside _ _ Ha _ _ _ _ Hm Hc Hd0) as (k & -> & Hk). exists k. split; [done|]. by eapply rtc_r.
    + rewrite list_lookup_insert_ne in Hd by done. destruct Hm' as [->| ->]; [|by eapply sim_inside].
      by destruct Hn; eapply held_both.
  - intros Hn. destruct Hm' as [->| ->]; [by destruct (Hn i)|by apply sim_vars].
Qed.

Lemma sim_acquire s a i m k :
  sim s a -> routines s !! i = Some (Acquire m k) -> holders s !! i = None -> may_acquire m (holders s) ->
  sim (mkConfig (<[i := m]> (holders s)) (vars s) (<[i := k]> (routines s))) a.
Proof.
  intros Ha Hc Hi Hm. assert (Hlt : i < length (routines s)) by by eapply lookup_lt_Some.
  assert (Hv : vars s = a.1).
  { apply (sim_vars _ _ Ha). intros j Hj. destruct m; cbn in Hm; [by rewrite Hm, lookup_empty in Hj|by specialize (Hm _ _ Hj)]. }
  split; cbn.
  - by rewrite length_insert, (sim_length _ _ Ha).
  - intros j [Hj Hn]%lookup_insert_None. rewrite list_lookup_insert_ne by done. by apply sim_outside.
  - intros j m' d d0 Hj Hd Hd0. destruct (decide (j = i)) as [->|Hn].
    + rewrite list_lookup_insert_eq in Hd by done. injection Hd as <-. rewrite lookup_insert_eq in Hj. injection Hj as <-.
      rewrite (sim_outside _ _ Ha _ Hi), Hc in Hd0. injection Hd0 as <-. exists k. split; [done|]. rewrite Hv. apply rtc_refl.
    + rewrite lookup_insert_ne in Hj by done. rewrite list_lookup_insert_ne in Hd by done. by eapply sim_inside.
  - by intros _.
Qed.

(** at its end, a section happens *)
Lemma sim_release s a i m k :
  well_held s -> sim s a -> routines s !! i = Some (Release m k) -> holders s !! i = Some m ->
  exists a', atomic_step a a' /\ sim (mkConfig (delete i (holders s)) (vars s) (<[i := k]> (routines s))) a'.
Proof.
  intros Hs Ha Hc Hi. assert (Hlt : i < length (routines s)) by by eapply lookup_lt_Some.
  destruct a as [v0 l0]. pose proof (sim_length _ _ Ha) as Hl. cbn in Hl.
  destruct (lookup_lt_is_Some_2 l0 i) as [c0 Hc0]; [by rewrite Hl|].
  destruct (sim_inside _ _ Ha _ _ _ _ Hi Hc Hc0) as (k0 & -> & Hk). cbn in Hk.
  exists (vars s, <[i := k]> l0). split; [by eapply atomic_section|]. split; cbn.
  - by rewrite !length_insert.
  - intros j Hj. destruct (decide (j = i)) as [->|Hn]; [by rewrite !list_lookup_insert_eq by congruence|].
    rewrite !list_lookup_insert_ne by done. apply (sim_outside _ _ Ha). by rewrite lookup_delete_ne in Hj.
  - intros j m' d d0 [Hn Hj]%lookup_delete_Some Hd Hd0. rewrite list_lookup_insert_ne in Hd, Hd0 by done.
    pose proof (sim_inside _ _ Ha _ _ _ _ Hj Hd Hd0) as Hin. cbn in Hin.
    assert (vars s = v0) as <-; [|done]. apply (sim_vars _ _ Ha). intros x Hx.
    pose proof (held_both _ _ _ _ Hs Hx Hi). pose proof (held_both _ _ _ _ Hs Hx Hj). congruence.
  - done.
Qed.

Lemma sim_call s a i o k x :
  sim s a -> routines s !! i = Some (Call o k) -> holders s !! i = None ->
  exists a', atomic_step a a' /\ sim (mkConfig (holders s) (vars s) (<[i := k x]> (routines s))) a'.
Proof.
  intros Ha Hc Hi. assert (Hlt : i < length (routines s)) by by eapply lookup_lt_Some. destruct a as [v0 l0].
  pose proof (sim_length _ _ Ha) as Hl. cbn in Hl.
  exists (v0, <[i := k x]> l0). split; [eapply atomic_call; by rewrite (sim_outside _ _ Ha _ Hi : l0 !! i = _)|]. split; cbn.
  - by rewrite !length_insert.
  - intros j Hj. destruct (decide (j = i)) as [->|Hn]; [by rewrite !list_lookup_insert_eq by congruence|].
    rewrite !list_lookup_insert_ne by done. by apply (sim_outside _ _ Ha).
  - intros j m' d d0 Hj Hd Hd0. rewrite list_lookup_insert_ne in Hd, Hd0 by congruence. by eapply (sim_inside _ _ Ha).
  - apply (sim_vars _ _ Ha).
Qed.

Lemma sim_step s s' a :
  well_held s -> sim s a -> routine_step s s' -> exists a', rtc atomic_step a a' /\ sim s' a'.
Proof.
  intros Hs Ha Hst. revert Hs Ha. destruct Hst as [i c c' h v h' v' l Hc Hi]. intros Hs Ha.
  pose proof (held_guarded _ Hs _ _ Hc) as Hg. cbn in Hg.
  pose proof (fun m d v' c' => sim_stutter _ _ i m d v' c' Hs Ha) as Hst. cbn in Hst.
  destruct Hi as [o k x|m k Hm|m k Hm|k|v' k]; cbn in Hg.
  - destruct (h !! i) as [m|] eqn:E.
    + exists a. split; [done|]. eapply Hst; [done|exact Hc|constructor|done].
    + destruct (sim_call _ _ _ _ _ x Ha Hc E) as (a' & H1 & H2). exists a'. split; [by apply rtc_once|done].
  - exists a. split; [done|]. apply (sim_acquire _ _ _ _ _ Ha Hc); cbn; [apply Hg|done].
  - destruct (sim_release _ _ _ _ _ Hs Ha Hc Hm) as (a' & H1 & H2). exists a'. split; [by apply rtc_once|done].
  - destruct Hg as [[m Hm] _]. exists a. split; [done|]. eapply Hst; [done|exact Hc|constructor|done].
  - exists a. split; [done|]. eapply Hst; [apply Hg|exact Hc|constructor|done].
Qed.

Lemma sim_steps s s' a :
  rtc routine_step s s' -> well_held s -> sim s a -> exists a', rtc atomic_step a a' /\ well_held s' /\ sim s' a'.
Proof.
  intros Hr. revert a. induction Hr as [s|s1 s2 s3 H12 _ IH]; intros a Hs Ha; [by exists a|].
  destruct (sim_step _ _ _ Hs Ha H12) as (a' & H1 & H2).
  destruct (IH a' (well_held_step _ _ Hs H12) H2) as (a2 & H3 & H4). exists a2. split; [by etransitivity|done].
Qed.

(** What goroutines do that keep the discipline, they do with their sections as single steps: finished goroutines have the
    same results, and when nobody holds the lock everything is the same. *)
Lemma sections_are_atomic v (l : list (code V A)) s :
  Forall (guarded None) l -> rtc routine_step (mkConfig ∅ v l) s ->
  exists a, rtc atomic_step (v, l) a /\ (forall i r, routines s !! i = Some (Done r) -> a.2 !! i = Some (Done r)) /\
    (holders s = ∅ -> a = (vars s, routines s)).
Proof.
  intros Hl Hr.
  destruct (sim_steps _ _ _ Hr (well_held_start v l Hl) (sim_start v l)) as (a & Ha & Hs & Hsim).
  exists a. split; [done|]. split.
  - intros i r Hi. rewrite (sim_outside _ _ Hsim); [done|]. exact (held_guarded _ Hs _ _ Hi).
  - intros Hh. destruct a as [va la]. f_equal.
    + symmetry. apply (sim_vars _ _ Hsim). intros i. by rewrite Hh, lookup_empty.
    + apply list_eq. intros i. apply (sim_outside _ _ Hsim). by rewrite Hh, lookup_empty.
Qed.

End atomicity.

(** ** One goroutine among others *)

(** the discipline of a sequence *)
Lemma guarded_bind {V B C} held (c : code V B) (f : B -> code V C) :
  guarded held c -> (forall b, guarded None (f b)) -> guarded held (code_bind c f).
Proof. revert held. induction c; intros held; cbn; naive_solver. Qed.

Lemma guarded_lift {V B C} held (p : prog B) (f : B -> code V C) :
  (forall b, guarded held (f b)) -> guarded held (code_bind (lift p) f).
Proof. intros Hf. induction p as [b|o k IH]; cbn; auto. Qed.

(** the discipline within a section, at its end *)
Lemma guarded_alone {V A} m v (c : code V A) v' c' : rtc alone (v, c) (v', c') -> guarded (Some m) c -> guarded (Some m) c'.
Proof.
  intros Hr. remember (v, c) as a eqn:Ea. remember (v', c') as b eqn:Eb. revert v c Ea.
  induction Hr as [a|a1 a2 a3 H12 _ IH]; intros v c Ea Hg; [congruence|].
  destruct a2 as [v2 c2]. apply (IH Eb v2 c2 eq_refl). subst a1. inversion H12; subst; cbn in Hg; naive_solver.
Qed.

Section logic.
  Context {V : Type} (R : relation V) `{!PreOrder R}.

(** [R] is what sections do to the variables: relied on before a section, guaranteed by
    it.  [own] is the value a section began with. *)
Fixpoint gwp {A} (own : option V) (v : V) (c : code V A) (Q : A -> V -> Prop) : Prop :=
  match c with
  | Done a => own = None /\ forall v', R v v' -> Q a v'
  | Call _ k => forall x, gwp own v (k x) Q
  | Acquire _ k => forall v1, R v v1 -> gwp (Some v1) v1 k Q
  | Release _ k => match own with Some v0 => R v0 v | None => False end /\ gwp None v k Q
  | Load k => gwp own v (k v) Q
  | Store v' k => gwp own v' k Q
  end.

Lemma gwp_bind {A B} own v (c : code V B) (f : B -> code V A) Q :
  gwp own v c (fun b v' => gwp None v' (f b) Q) -> gwp own v (code_bind c f) Q.
Proof.
  revert own v. induction c as [b|o k IH|m k IH|m k IH|k IH|w k IH]; intros own v; cbn.
  - intros [-> Hf]. by apply Hf.
  - intros Hk x. by apply IH.
  - intros Hk v1 H1. by apply IH, Hk.
  - intros [H0 Hk]. split; [done|by apply IH].
  - by apply IH.
  - by apply IH.
Qed.

Lemma gwp_mono {A} own v (c : code V A) (Q Q' : A -> V -> Prop) :
  (forall a v', Q a v' -> Q' a v') -> gwp own v c Q -> gwp own v c Q'.
Proof using Type. intros HQ. revert own v. induction c; intros own w; cbn; naive_solver. Qed.

Lemma gwp_lift {A B} own v (p : prog B) (f : B -> code V A) (P : B -> Prop) Q :
  returns P p -> (forall b, P b -> gwp own v (f b) Q) -> gwp own v (code_bind (lift p) f) Q.
Proof using Type. induction p as [b|o k IH]; cbn; intros Hp Hf; [by apply Hf|]. intros x. by apply IH. Qed.

(** between its sections, a goroutine is stable *)
Lemma gwp_stable {A} v v' (c : code V A) Q : guarded None c -> R v v' -> gwp None v c Q -> gwp None v' c Q.
Proof.
  intros Hg HR. induction c as [a|o k IH|m k _|m k _|k _|w k _]; cbn in *.
  - intros [_ HQ]. split; [done|]. intros v2 H2. apply HQ. by etransitivity.
  - intros Hk x. by apply IH.
  - intros Hk v1 H1. apply Hk. by etransitivity.
  - by intros [[] _].
  - by destruct Hg as [[? ?] _].
  - by destruct Hg.
Qed.

Lemma gwp_alone {A} own v (c : code V A) v' c' Q : rtc alone (v, c) (v', c') -> gwp own v c Q -> gwp own v' c' Q.
Proof using Type.
  intros Hr. remember (v, c) as a eqn:Ea. remember (v', c') as b eqn:Eb. revert v c Ea.
  induction Hr as [a|a1 a2 a3 H12 _ IH]; intros v c Ea Hg; [congruence|].
  destruct a2 as [v2 c2]. apply (IH Eb v2 c2 eq_refl). subst a1. by inversion H12; subst.
Qed.

Definition pool_ok {A} (v : V) (l : list (code V A)) (Qs : list (A -> V -> Prop)) : Prop :=
  Forall2 (fun c Q => guarded None c /\ gwp None v c Q) l Qs.

Lemma pool_ok_update {A} v v' (l : list (code V A)) Qs i c Q c' :
  pool_ok v l Qs -> R v v' -> l !! i = Some c -> Qs !! i = Some Q ->
  guarded None c' /\ gwp None v' c' Q -> pool_ok v' (<[i := c']> l) Qs.
Proof.
  intros Hp HR Hc HQ Hc'. rewrite <-(list_insert_id Qs i Q HQ). apply Forall2_insert; [|done].
  eapply Forall2_impl; [exact Hp|]. intros d Qd [Hg Hd]. split; [done|]. by apply (gwp_stable v).
Qed.

Lemma atomic_step_ok {A} (a a' : V * list (code V A)) Qs : atomic_step a a' -> pool_ok a.1 a.2 Qs -> R a.1 a'.1 /\ pool_ok a'.1 a'.2 Qs.
Proof.
  intros Hst Hp. destruct Hst as [i o k x v l Hi|i m k v v' k' l Hi Hs]; cbn [fst snd] in *.
  - destruct (Forall2_lookup_l _ _ _ _ _ Hp Hi) as (Q & HQ & Hg & Hw). split; [done|].
    eapply pool_ok_update; [exact Hp|done|exact Hi|exact HQ|]. split; [apply Hg|apply Hw].
  - destruct (Forall2_lookup_l _ _ _ _ _ Hp Hi) as (Q & HQ & Hg & Hw). cbn in Hg, Hw.
    destruct (gwp_alone _ _ _ _ _ Q Hs (Hw v ltac:(done))) as [HR Hk].
    destruct (guarded_alone m _ _ _ _ Hs (proj2 Hg)) as [_ Hgk].
    split; [done|]. by eapply pool_ok_update.
Qed.

(** What is shown of each goroutine alone holds of all of them together: the results of those that have finished are as
    their postconditions say of one and the same value of the variables. *)
Lemma routines_return {A} v (l : list (code V A)) Qs s :
  pool_ok v l Qs -> rtc routine_step (mkConfig ∅ v l) s ->
  exists v', R v v' /\ forall i r Q, routines s !! i = Some (Done r) -> Qs !! i = Some Q -> Q r v'.
Proof.
  intros Hp Hr. destruct (sections_are_atomic v l s) as (a & Ha & Hd & _); [|done|].
  { apply Forall_lookup_2. intros i c Hc. by destruct (Forall2_lookup_l _ _ _ _ _ Hp Hc) as (? & ? & ? & ?). }
  assert (Hok : R v a.1 /\ pool_ok a.1 a.2 Qs).
  { change v with (v, l).1. change (pool_ok (v, l).1 (v, l).2 Qs) in Hp. clear Hd Hr.
    induction Ha as [a|a1 a2 a3 H12 _ IH]; [done|]. destruct (atomic_step_ok _ _ _ H12 Hp) as [H1 H2].
    destruct (IH H2) as [H3 H4]. split; [by etransitivity|done]. }
  destruct Hok as [HR Hok]. exists a.1. split; [done|]. intros i r Q Hi HQ. specialize (Hd _ _ Hi).
  destruct (Forall2_lookup_lr _ _ _ _ _ _ Hok Hd HQ) as [_ [_ Hw]]. apply Hw. reflexivity.
Qed.

End logic.

(** ** A schedule *)

#[export] Instance may_acquire_dec m h : Decision (may_acquire m h).
Proof. destruct m; apply _. Defined.

Section schedule.
  Context {V A : Type} (world : forall o, resp o).

(** goroutine [i] tries its next instruction *)
Definition do_instruction (s : config V A) (i : nat) : config V A :=
  let '(mkConfig h v l) := s in
  match l !! i with
  | None | Some (Done _) => s
  | Some (Call o k) => mkConfig h v (<[i := k (world o)]> l)
  | Some (Acquire m k) => if decide (may_acquire m h) then mkConfig (<[i := m]> h) v (<[i := k]> l) else s
  | Some (Release m k) => if decide (h !! i = Some m) then mkConfig (delete i h) v (<[i := k]> l) else s
  | Some (Load k) => mkConfig h v (<[i := k v]> l)
  | Some (Store v' k) => mkConfig h v' (<[i := k]> l)
  end.

Definition run_routines (schedule : list nat) (s : config V A) : config V A := foldl do_instruction s schedule.

Lemma run_routines_steps schedule s : rtc routine_step s (run_routines schedule s).
Proof.
  revert s. induction schedule as [|i l IH]; intros s; [apply rtc_refl|]. cbn [run_routines foldl].
  etransitivity; [|apply IH]. destruct s as [h v rs]. cbn [do_instruction].
  destruct (rs !! i) as [c|] eqn:E; [|apply rtc_refl]. destruct c as [a|o k|m k|m k|k|v' k]; [apply rtc_refl| | | | |].
  - apply rtc_once. by econstructor; [|constructor].
  - case_decide; [|apply rtc_refl]. apply rtc_once. by econstructor; [|constructor].
  - case_decide; [|apply rtc_refl]. apply rtc_once. by econstructor; [|constructor].
  - apply rtc_once. by econstructor; [|constructor].
  - apply rtc_once. by econstructor; [|constructor].
Qed.

End schedule.

(** ** Methods under one lock *)

Section methods.
  Context {V A : Type}.

(** [mu.Lock(); defer mu.Unlock()] around what is a function on the variables *)
Definition method (f : V -> A * V) : code V A :=
  locked Exclusive (Load (fun v => Store (f v).2 (Done (f v).1))).

(** the methods of [fs] one after the other: their results, and what they leave *)
Fixpoint in_order (fs : list (V -> A * V)) (order : list nat) (v : V) : list (nat * A) * V :=
  match order with
  | [] => ([], v)
  | i :: order =>
      match fs !! i with
      | Some f => let r := in_order fs order (f v).2 in ((i, (f v).1) :: r.1, r.2)
      | None => in_order fs order v
      end
  end.

Lemma in_order_snoc fs order i f v :
  fs !! i = Some f ->
  in_order fs (order ++ [i]) v =
  ((in_order fs order v).1 ++ [(i, (f (in_order fs order v).2).1)], (f (in_order fs order v).2).2).
Proof.
  intros Hi. revert v. induction order as [|j order IH]; intros v; cbn [in_order app]; [by rewrite Hi|].
  destruct (fs !! j) as [g|]; [|apply IH]. by rewrite IH.
Qed.

(** a result is that of a method after those before it *)
Lemma in_order_result fs order v i r :
  (i, r) ∈ (in_order fs order v).1 ->
  exists o1 o2 f, order = o1 ++ i :: o2 /\ fs !! i = Some f /\ r = (f (in_order fs o1 v).2).1.
Proof.
  revert v. induction order as [|j order IH]; intros v; cbn [in_order]; [by intros ?%elem_of_nil|].
  destruct (fs !! j) as [f|] eqn:E.
  - intros [[= -> ->]|Hr]%elem_of_cons; [by exists [], order, f|].
    destruct (IH _ Hr) as (o1 & o2 & g & -> & Hg & ->). exists (j :: o1), o2, g. cbn [in_order]. by rewrite E.
  - intros Hr. destruct (IH _ Hr) as (o1 & o2 & g & -> & Hg & ->). exists (j :: o1), o2, g. cbn [in_order]. by rewrite E.
Qed.

Lemma method_guarded f : guarded None (method f).
Proof. split; [done|]. split; [by eexists|]. done. Qed.

Lemma method_section f v v' m k' k :
  rtc alone (v, k) (v', Release m k') -> method f = Acquire m k -> v' = (f v).2 /\ k' = Done (f v).1.
Proof.
  intros Hr [= <- <-]. inversion Hr as [|? [v1 c1] ? H1 Hr1]; subst. inversion H1; subst; clear H1.
  inversion Hr1 as [|? [v2 c2] ? H2 Hr2]; subst. inversion H2; subst; clear H2.
  inversion Hr2 as [|? [v3 c3] ? H3 ?]; subst; [done|]. inversion H3.
Qed.

(** where the goroutines are after the methods in [order] have happened *)
Definition happened (fs : list (V -> A * V)) (v0 : V) (order : list nat) (a : V * list (code V A)) : Prop :=
  NoDup order /\ Forall (fun i => i < length fs) order /\ length a.2 = length fs /\ a.1 = (in_order fs order v0).2 /\
  forall i f, fs !! i = Some f ->
    ((i ∉ order) /\ a.2 !! i = Some (method f)) \/
    (i ∈ order /\ exists r, (i, r) ∈ (in_order fs order v0).1 /\ a.2 !! i = Some (Done r)).

Lemma happened_step fs v0 order a a' :
  happened fs v0 order a -> atomic_step a a' -> exists order', happened fs v0 order' a'.
Proof.
  intros (Hnd & Hlen & Hl & Hv & Hall) Hst. revert Hl Hv Hall.
  destruct Hst as [i o k x v l Hi|i m k v v' k' l Hi Hs]; cbn [fst snd]; intros Hl Hv Hall;
    pose proof (lookup_lt_Some _ _ _ Hi) as Hlt; rewrite Hl in Hlt; apply lookup_lt_is_Some in Hlt as [f Hf];
    destruct (Hall _ _ Hf) as [[Hn Hm]|(_ & r & _ & Hm)]; rewrite Hi in Hm; try discriminate Hm.
  destruct (method_section f v v' m k' k Hs ltac:(congruence)) as [-> ->].
  exists (order ++ [i]). unfold happened. rewrite (in_order_snoc _ _ _ _ _ Hf), <-Hv. cbn [fst snd].
  split; [apply NoDup_app; split; [done|]; split; [set_solver|apply NoDup_singleton]|].
  split; [by apply Forall_app; split; [|constructor; [apply lookup_lt_Some in Hf|constructor]]|].
  split; [by rewrite length_insert|]. split; [done|].
  intros j g Hg. destruct (decide (j = i)) as [->|Hji].
  - right. split; [set_solver|]. replace g with f in * by congruence. exists (f v).1.
    rewrite list_lookup_insert_eq by (by rewrite Hl; apply lookup_lt_Some in Hf). split; [set_solver|done].
  - rewrite list_lookup_insert_ne by done. destruct (Hall _ _ Hg) as [[? ?]|(? & r & ? & ?)]; [left|right]; set_solver.
Qed.

(** Methods that run interleaved, each under the lock, are as if they had run one after the other in some order. *)
Lemma methods_linearise fs v s :
  rtc routine_step (mkConfig ∅ v (map method fs)) s -> all_done s ->
  exists order, order ≡ₚ seq 0 (length fs) /\ vars s = (in_order fs order v).2 /\
    forall i r, routines s !! i = Some (Done r) -> (i, r) ∈ (in_order fs order v).1.
Proof.
  intros Hr Hd. destruct (sections_are_atomic v (map method fs) s) as (a & Ha & _ & Hs); [by apply Forall_map, Forall_true, method_guarded|done|].
  assert (a = (vars s, routines s)) as ->.
  { apply Hs, map_empty. intros i. apply eq_None_not_Some. intros [m Hm].
    pose proof (well_held_steps _ _ (well_held_start v (map method fs) ltac:(by apply Forall_map, Forall_true, method_guarded)) Hr) as Hw.
    destruct (held_by_routine _ Hw _ _ Hm) as [c Hc]. pose proof (held_guarded _ Hw _ _ Hc) as Hg. rewrite Hm in Hg.
    pose proof (Forall_lookup_1 _ _ _ _ Hd Hc) as Hdc. by destruct c. }
  assert (Hh : exists order, happened fs v order (vars s, routines s)).
  { eapply (rtc_ind_r (fun a => exists order, happened fs v order a)); [|intros ? ? _ H12 [o Ho]; by eapply happened_step|exact Ha].
    exists []. split; [constructor|]. split; [constructor|]. split; [cbn; apply length_map|]. split; [done|].
    intros i f Hf. left. split; [apply not_elem_of_nil|]. cbn. by rewrite list_lookup_fmap, Hf. }
  destruct Hh as (order & Hnd & Hlen & Hl & Hv & Hall). cbn in *.
  assert (Hone : forall i f, fs !! i = Some f -> i ∈ order /\ exists r, (i, r) ∈ (in_order fs order v).1 /\ routines s !! i = Some (Done r)).
  { intros i f Hf. destruct (Hall _ _ Hf) as [[_ Hm]|H]; [|done]. by pose proof (Forall_lookup_1 _ _ _ _ Hd Hm). }
  exists order. split; [|split; [done|]].
  - apply NoDup_Permutation; [done|apply NoDup_seq|]. intros i. rewrite elem_of_seq. split.
    + intros Hi. rewrite Forall_forall in Hlen. specialize (Hlen _ Hi). lia.
    + intros [_ Hi]. apply lookup_lt_is_Some in Hi as [f Hf]. by destruct (Hone _ _ Hf).
  - intros i r Hi. pose proof (lookup_lt_Some _ _ _ Hi) as Hlt. rewrite Hl in Hlt. apply lookup_lt_is_Some in Hlt as [f Hf].
    destruct (Hone _ _ Hf) as (_ & r' & Hr' & Hd'). congruence.
Qed.

End methods.
