(* ===== verification/GoHeap.v ===== *)
(** * Go memory: pointers, slices, maps and copies

    A heap of cells, each holding a value of some type; typed pointers, slices with
    their backing array, reference maps.  [Layout M V] relates a value in memory, of
    type [M], to the immutable value, of type [V], that it stands for in a heap.
    [copies] says of a function that its result stands for the same value in memory
    that it has allocated itself, so that writes through the original and writes
    through the copy do not meet. *)
From S2P Require Import Prelude.

(** ** Definitions *)

Abbreviation loc := positive.

Abbreviation heap cell := (gmap positive cell).

(** code that reads and allocates; [None] is a panic *)
Definition mem (cell A : Type) : Type := heap cell -> option (A * heap cell).

Definition mret {cell A} (a : A) : mem cell A := fun h => Some (a, h).
Definition mbind {cell A B} (c : mem cell A) (f : A -> mem cell B) : mem cell B := fun h =>
  match c h with Some (a, h) => f a h | None => None end.

Declare Scope mem_scope.
Delimit Scope mem_scope with mem.
Notation "'let&' x := c 'in' f" := (mbind c (fun x => f)) (at level 10, x binder, c at level 100, f at level 200) : mem_scope.
#[local] Open Scope mem_scope.

(** what values of type [M] look like in a cell *)
Class Stored (cell M : Type) : Type := {
  to_cell : M -> cell;
  of_cell : cell -> option M;
  of_to_cell m : of_cell (to_cell m) = Some m
}.

(** a pointer; nil is [None] of [option (ptr M)] *)
Record ptr (M : Type) : Type := Ptr { addr : loc }.
Arguments Ptr {M}.
Arguments addr {M}.

(** a slice that is not nil: a window into a backing array *)
Record slice (M : Type) : Type := Slice { sl_array : ptr (list M); sl_off : nat; sl_len : nat; sl_cap : nat }.
Arguments Slice {M}.
Arguments sl_array {M}.
Arguments sl_off {M}.
Arguments sl_len {M}.
Arguments sl_cap {M}.

(** a map that is not nil *)
Record refmap (M : Type) : Type := RefMap { rm_ref : ptr (gmap string M) }.
Arguments RefMap {M}.
Arguments rm_ref {M}.

Section ops.
  Context {cell : Type}.

Definition load {M} `{!Stored cell M} (p : ptr M) : mem cell M := fun h =>
  match h !! addr p with
  | Some c => match of_cell c with Some m => Some (m, h) | None => None end
  | None => None
  end.

(** [new(T)] with the value that is stored there first *)
Definition alloc {M} `{!Stored cell M} (m : M) : mem cell (ptr M) := fun h =>
  let l := fresh (dom h) in Some (Ptr l, <[l := to_cell m]> h).

Definition store {M} `{!Stored cell M} (p : ptr M) (m : M) : mem cell unit := fun h =>
  match h !! addr p with
  | Some _ => Some (tt, <[addr p := to_cell m]> h)
  | None => None
  end.

(** [if p != nil { out = new(T); ... *out = copy of *p }] *)
Definition copy_ptr {M} `{!Stored cell M} (d : M -> mem cell M) (p : option (ptr M)) : mem cell (option (ptr M)) :=
  match p with
  | None => mret None
  | Some p => let& m := load p in let& m := d m in let& q := alloc m in mret (Some q)
  end.

Fixpoint copy_list {M} (d : M -> mem cell M) (l : list M) : mem cell (list M) :=
  match l with
  | [] => mret []
  | m :: l => let& m := d m in let& l := copy_list d l in mret (m :: l)
  end.

(** the elements in the window *)
Definition window {M} (s : slice M) (a : list M) : list M := take (sl_len s) (drop (sl_off s) a).

(** [if s != nil { out = make([]T, len(s)); for i := range s { ... } }] *)
Definition copy_slice {M} `{!Stored cell (list M)} (d : M -> mem cell M) (s : option (slice M)) : mem cell (option (slice M)) :=
  match s with
  | None => mret None
  | Some s =>
      let& a := load (sl_array s) in
      let& l := copy_list d (window s a) in
      let& q := alloc l in
      mret (Some (Slice q 0 (length l) (length l)))
  end.

(** [if m != nil { out = make(map[string]T, len(m)); for k, v := range m { out[k] = v } }] *)
Definition copy_map {M} `{!Stored cell (gmap string M)} (m : option (refmap M)) : mem cell (option (refmap M)) :=
  match m with
  | None => mret None
  | Some m => let& x := load (rm_ref m) in let& q := alloc x in mret (Some (RefMap q))
  end.

End ops.

(** ** What memory stands for *)

Class Layout (cell M V : Type) : Type := {
  reads : heap cell -> M -> V -> Prop;
  reads_mono h h' m v : h ⊆ h' -> reads h m v -> reads h' m v
}.

(** a type without pointers *)
Definition flat (cell M : Type) : Layout cell M M.
Proof. refine {| reads _ m v := m = v |}. done. Defined.

Section layouts.
  Context {cell : Type}.

(** the cell a pointer leads to *)
Definition points {M} `{!Stored cell M} (h : heap cell) (p : ptr M) (m : M) : Prop :=
  exists c, h !! addr p = Some c /\ of_cell c = Some m.

Lemma points_mono {M} `{!Stored cell M} h h' (p : ptr M) m : h ⊆ h' -> points h p m -> points h' p m.
Proof. intros Hs (c & Hc & Hm). exists c. split; [by eapply lookup_weaken|done]. Qed.

Lemma load_points {M} `{!Stored cell M} h (p : ptr M) m : points h p m -> load p h = Some (m, h).
Proof. intros (c & Hc & Hm). unfold load. by rewrite Hc, Hm. Qed.

#[export] Instance ptr_layout {M V} `{!Stored cell M} `{!Layout cell M V} : Layout cell (ptr M) V.
Proof.
  refine {| reads h p v := exists m, points h p m /\ reads h m v |}.
  intros h h' p v Hs (m & Hp & Hm). exists m. split; [by eapply points_mono|by eapply reads_mono].
Defined.

#[export] Instance option_layout {M V} `{!Layout cell M V} : Layout cell (option M) (option V).
Proof.
  refine {| reads h p v := match p, v with None, None => True | Some m, Some v => reads h m v | _, _ => False end |}.
  intros h h' [m|] [v|] Hs Hr; [by eapply reads_mono|done..].
Defined.

#[export] Instance list_layout {M V} `{!Layout cell M V} : Layout cell (list M) (list V).
Proof.
  refine {| reads h l v := Forall2 (reads h) l v |}.
  intros h h' l v Hs Hr. eapply Forall2_impl; [exact Hr|]. intros m x. by apply reads_mono.
Defined.

(** the code does not tell a nil slice or map from an empty one *)
#[export] Instance slice_layout {M V} `{!Stored cell (list M)} `{!Layout cell M V} : Layout cell (option (slice M)) (list V).
Proof.
  refine {| reads h s v := match s with
                           | None => v = []
                           | Some s => exists a, points h (sl_array s) a /\ reads h (window s a) v
                           end |}.
  intros h h' [s|] v Hs; [|done]. intros (a & Hp & Hr). exists a. split; [by eapply points_mono|by eapply reads_mono].
Defined.

#[export] Instance refmap_layout {M} `{!Stored cell (gmap string M)} : Layout cell (option (refmap M)) (gmap string M).
Proof.
  refine {| reads h m v := match m with None => v = ∅ | Some m => points h (rm_ref m) v end |}.
  intros h h' [m|] v Hs; [|done]. by apply points_mono.
Defined.

End layouts.

(** ** Copies *)

Section copies.
  Context {cell : Type}.

Implicit Types h : heap cell.

(** the code runs and only allocates; [Q] holds of its result *)
Definition grows {A} h (c : mem cell A) (Q : A -> heap cell -> Prop) : Prop :=
  exists a h', c h = Some (a, h') /\ h ⊆ h' /\ Q a h'.

(** in a heap that has grown from [h0]: [m] stands for [v] in the new part *)
Definition fresh_reads {M V} `{!Layout cell M V} h0 h (m : M) (v : V) : Prop := reads (h ∖ h0) m v.

Definition copies {M V} `{!Layout cell M V} (d : M -> mem cell M) : Prop :=
  forall h m v, reads h m v -> grows h (d m) (fun m' h' => fresh_reads h h' m' v).

Lemma difference_mono h1 h2 h0 h0' : h1 ⊆ h2 -> h0' ⊆ h0 -> h1 ∖ h0 ⊆ h2 ∖ h0'.
Proof.
  intros Hs H0. apply map_subseteq_spec. intros l c. rewrite !lookup_difference_Some. intros [Hl Hn].
  split; [by eapply lookup_weaken|by eapply lookup_weaken_None].
Qed.

Lemma fresh_reads_mono {M V} `{!Layout cell M V} h0 h h' (m : M) (v : V) :
  h ⊆ h' -> fresh_reads h0 h m v -> fresh_reads h0 h' m v.
Proof. intros Hs. apply reads_mono. by apply difference_mono. Qed.

Lemma fresh_reads_later {M V} `{!Layout cell M V} h0 h1 h (m : M) (v : V) :
  h0 ⊆ h1 -> fresh_reads h1 h m v -> fresh_reads h0 h m v.
Proof. intros Hs. apply reads_mono. by apply difference_mono. Qed.

Lemma grows_ret {A} h (a : A) (Q : A -> heap cell -> Prop) : Q a h -> grows h (mret a) Q.
Proof. intros HQ. by exists a, h. Qed.

Lemma grows_bind {A B} h (c : mem cell A) (f : A -> mem cell B) P Q :
  grows h c P -> (forall a h', h ⊆ h' -> P a h' -> grows h' (f a) Q) -> grows h (mbind c f) Q.
Proof.
  intros (a & h1 & E1 & Hs1 & HP) Hf. destruct (Hf a h1 Hs1 HP) as (b & h2 & E2 & Hs2 & HQ).
  exists b, h2. unfold mbind. rewrite E1. split; [done|]. split; [by etrans|done].
Qed.

Lemma grows_load {M} `{!Stored cell M} h (p : ptr M) m (Q : M -> heap cell -> Prop) :
  points h p m -> Q m h -> grows h (load p) Q.
Proof. intros Hp HQ. exists m, h. by rewrite (load_points h p m Hp). Qed.

(** a step of a copy that began in [h0]: the part [m] of the original is copied *)
Lemma grows_copy {M V B} `{!Layout cell M V} (d : M -> mem cell M) (f : M -> mem cell B) h0 h m v Q :
  copies d -> h0 ⊆ h -> reads h0 m v ->
  (forall m' h', h ⊆ h' -> fresh_reads h0 h' m' v -> grows h' (f m') Q) -> grows h (mbind (d m) f) Q.
Proof.
  intros Hd Hs Hm Hf. eapply grows_bind; [apply Hd; by eapply reads_mono|].
  intros m' h' Hs' Hr. apply Hf; [done|]. by eapply fresh_reads_later.
Qed.

Lemma grows_alloc {M} `{!Stored cell M} h0 h (m : M) :
  h0 ⊆ h -> grows h (alloc m) (fun p h' => points (h' ∖ h0) p m).
Proof.
  intros Hs. assert (Hf : h !! fresh (dom h) = None) by apply not_elem_of_dom, is_fresh.
  eexists _, _. split; [reflexivity|]. split; [by apply insert_subseteq|].
  exists (to_cell m). split; [|apply of_to_cell]. cbn. apply lookup_difference_Some. split; [by rewrite lookup_insert_eq|].
  by eapply lookup_weaken_None.
Qed.

(** ** The combinators *)

Lemma copies_flat {M} : @copies M M (flat cell M) mret.
Proof. intros h m v Hr. by apply grows_ret. Qed.

#[local] Ltac later := first [done|by etrans].

Lemma copies_ptr {M V} `{!Stored cell M} `{!Layout cell M V} (d : M -> mem cell M) : copies d -> copies (copy_ptr d).
Proof.
  intros Hd h [p|] [v|] Hr; [|by destruct Hr..|by apply grows_ret]. destruct Hr as (m & Hp & Hm). cbn [copy_ptr].
  eapply grows_bind; [by apply (grows_load h p m (fun m' h' => m' = m /\ h' = h))|]. intros ? ? _ [-> ->].
  eapply grows_copy; [exact Hd|done|exact Hm|]. intros m' h1 Hs1 Hm'.
  eapply grows_bind; [by apply (grows_alloc h h1)|]. intros q h2 Hs2 Hq. apply grows_ret.
  exists m'. split; [done|]. by eapply fresh_reads_mono.
Qed.

Lemma copies_list {M V} `{!Layout cell M V} (d : M -> mem cell M) : copies d -> copies (copy_list d).
Proof.
  intros Hd h l. revert h. induction l as [|m l IH]; intros h v Hr; cbn [copy_list].
  { apply grows_ret. inversion Hr. constructor. }
  inversion Hr as [|? x ? v' Hm Hl]; subst. eapply grows_copy; [exact Hd|done|exact Hm|]. intros m' h1 Hs1 Hm'.
  eapply grows_bind; [apply (IH h1 v'), (reads_mono h); done|]. intros l' h2 Hs2 Hl'. apply grows_ret.
  constructor; [by eapply fresh_reads_mono|]. exact (fresh_reads_later h h1 h2 l' v' Hs1 Hl').
Qed.

Lemma copies_slice {M V} `{!Stored cell (list M)} `{!Layout cell M V} (d : M -> mem cell M) : copies d -> copies (copy_slice d).
Proof.
  intros Hd h [s|] v Hr; [|by apply grows_ret]. destruct Hr as (a & Hp & Hw). cbn [copy_slice].
  eapply grows_bind; [by apply (grows_load h (sl_array s) a (fun m' h' => m' = a /\ h' = h))|]. intros ? ? _ [-> ->].
  eapply grows_copy; [by apply copies_list|done|exact Hw|]. intros l h1 Hs1 Hl.
  eapply grows_bind; [by apply (grows_alloc h h1)|]. intros q h2 Hs2 Hq. apply grows_ret.
  exists l. split; [done|]. unfold window. cbn [sl_len sl_off]. rewrite drop_0, firstn_all. exact (fresh_reads_mono h h1 h2 l v Hs2 Hl).
Qed.

Lemma copies_map {M} `{!Stored cell (gmap string M)} : copies (copy_map (cell:=cell) (M:=M)).
Proof.
  intros h [m|] v Hr; [|by apply grows_ret]. cbn [copy_map].
  eapply grows_bind; [by apply (grows_load h (rm_ref m) v (fun m' h' => m' = v /\ h' = h))|]. intros ? ? _ [-> ->].
  eapply grows_bind; [by apply (grows_alloc h h)|]. intros q h2 Hs2 Hq. by apply grows_ret.
Qed.

End copies.

(** [h ⊆ h'] along the chain of heaps in the context *)
Ltac grown := solve [done | assumption | repeat (etrans; [eassumption|]); done].

(** a copy of a struct is a chain of copies of its parts, begun in the heap [h0] *)
Ltac copy_step :=
  match goal with
  | |- grows _ (mret _) _ => apply grows_ret
  | H : reads ?h0 ?m ?v |- grows _ (mbind (?d ?m) _) _ =>
      eapply (grows_copy d _ h0 _ m v); [solve [eauto with copies]|grown|exact H|intros ? ? ? ?]
  end.

Ltac unfold_head c := lazymatch c with mbind _ _ => idtac | ?f _ => unfold_head f | _ => unfold c end.

(** the parts of the original are copied, and the copies are still there at the end *)
Ltac copies_tac :=
  let h := fresh "h" in let m := fresh "m" in let v := fresh "v" in let Hr := fresh "Hr" in
  intros h m v Hr; hnf in Hr; destruct_and? Hr;
  cbv beta; lazymatch goal with |- grows _ ?c _ => unfold_head c end; cbv beta zeta; repeat copy_step;
  hnf; repeat match goal with |- _ /\ _ => split end; try assumption;
  match goal with
  | H : fresh_reads _ ?h1 ?m ?v |- reads (?h2 ∖ _) _ ?v => apply (fresh_reads_mono _ h1 h2 m v); [grown|exact H]
  end.

(** a field that is copied with the struct, and one that is a value of its own *)
Ltac layout_mono :=
  intros h h' m v Hs Hr; destruct_and? Hr; split_and?; try assumption; by (eapply reads_mono; [exact Hs|assumption]).

Create HintDb copies.
#[export] Hint Resolve copies_flat copies_ptr copies_list copies_slice copies_map : copies.

(** ** Ownership: the part of the heap that an object is made of *)

Section owns.
  Context {cell : Type}.

Implicit Types h k : heap cell.

(** [k] is the cell of the object and, apart from it, all the object leads to *)
Definition owns {M V} `{!Stored cell M} `{!Layout cell M V} k (p : ptr M) (v : V) : Prop :=
  exists m rest, rest !! addr p = None /\ k = <[addr p := to_cell m]> rest /\ reads rest m v.

Lemma owns_reads {M V} `{!Stored cell M} `{!Layout cell M V} k (p : ptr M) (v : V) : owns k p v -> reads k p v.
Proof.
  intros (m & rest & Hn & -> & Hr). exists m. split; [|by eapply reads_mono; [apply insert_subseteq|]].
  exists (to_cell m). by rewrite lookup_insert_eq, of_to_cell.
Qed.

(** a pointer's copy is an object of new cells *)
Lemma copy_ptr_owns {M V} `{!Stored cell M} `{!Layout cell M V} (d : M -> mem cell M) h (p : ptr M) (v : V) :
  copies d -> reads h p v ->
  exists q k, copy_ptr d (Some p) h = Some (Some q, h ∪ k) /\ h ##ₘ k /\ owns k q v.
Proof.
  intros Hd (m & Hp & Hm). cbn [copy_ptr]. unfold mbind at 1. rewrite (load_points h p m Hp).
  destruct (Hd h m v Hm) as (m' & h1 & E & Hs & Hr). unfold mbind. rewrite E. cbn.
  set (l := fresh (dom h1)). assert (Hl : h1 !! l = None) by apply not_elem_of_dom, is_fresh.
  assert (Hl0 : h !! l = None) by (by eapply lookup_weaken_None).
  exists (Ptr l), (<[l := to_cell m']> (h1 ∖ h)). split; [|split].
  - rewrite <-insert_union_r by done. by rewrite map_difference_union.
  - apply map_disjoint_insert_r_2; [done|]. by apply map_disjoint_difference_r1.
  - exists m', (h1 ∖ h). split; [|done]. cbn. apply lookup_difference_None. by left.
Qed.

(** [p.field = ...], as a function of the struct *)
Definition update {M} `{!Stored cell M} (p : ptr M) (f : M -> M) : mem cell unit := let& m := load p in store p (f m).

(** in the heap [h], the object [p] is made of the cells [k] *)
Definition held {M V} `{!Stored cell M} `{!Layout cell M V} h k (p : ptr M) (v : V) : Prop := k ⊆ h /\ owns k p v.

(** whatever is apart from [k] in [h] is in [h'], apart from [k'] *)
Definition apart h k h' k' : Prop := forall r, r ⊆ h -> r ##ₘ k -> r ⊆ h' /\ r ##ₘ k'.

Lemma apart_trans h1 k1 h2 k2 h3 k3 : apart h1 k1 h2 k2 -> apart h2 k2 h3 k3 -> apart h1 k1 h3 k3.
Proof. intros H12 H23 r Hr Hd. destruct (H12 r Hr Hd). by apply H23. Qed.

Lemma held_load {M V} `{!Stored cell M} `{!Layout cell M V} h k (p : ptr M) (v : V) :
  held h k p v -> exists m, load p h = Some (m, h) /\ reads k m v.
Proof.
  intros [Hs (m & rest & Hn & -> & Hr)]. exists m. split.
  - apply load_points. exists (to_cell m). split; [|apply of_to_cell]. eapply lookup_weaken; [|exact Hs]. by rewrite lookup_insert_eq.
  - eapply reads_mono; [by apply insert_subseteq|done].
Qed.

(** a field of an object is overwritten with something new *)
Lemma held_assign {M V N W} `{!Stored cell M} `{!Layout cell M V} `{!Layout cell N W}
    (c : mem cell N) h k (p : ptr M) (v : V) (w : W) (f : N -> M -> M) (g : W -> V -> V) :
  grows h c (fun n h' => fresh_reads h h' n w) -> held h k p v ->
  (forall k n m v, reads k n w -> reads k m v -> reads k (f n m) (g w v)) ->
  exists h' k', (let& n := c in update p (f n)) h = Some (tt, h') /\ held h' k' p (g w v) /\ apart h k h' k'.
Proof.
  intros (n' & h1 & E & Hs1 & Hw') [Hs (m & rest & Hn & -> & Hm)] Hfg.
  assert (Hlp : h !! addr p = Some (to_cell m)) by (eapply lookup_weaken; [|exact Hs]; by rewrite lookup_insert_eq).
  assert (Hl : h1 !! addr p = Some (to_cell m)) by (by eapply lookup_weaken).
  assert (Hrest : rest ⊆ h) by (etrans; [by apply insert_subseteq|exact Hs]).
  assert (Hdj : rest ##ₘ h1 ∖ h) by (by apply map_disjoint_difference_r1).
  assert (Hf : (h1 ∖ h) !! addr p = None) by (apply lookup_difference_None; right; by eexists).
  exists (<[addr p := to_cell (f n' m)]> h1), (<[addr p := to_cell (f n' m)]> (rest ∪ (h1 ∖ h))). split; [|split].
  - unfold mbind at 1. rewrite E. unfold update, mbind, load. rewrite Hl, of_to_cell. unfold store. by rewrite Hl.
  - split.
    + apply insert_mono, map_union_least; [etrans; [exact Hrest|exact Hs1]|]. by apply map_subseteq_difference_l.
    + exists (f n' m), (rest ∪ (h1 ∖ h)). split; [by apply lookup_union_None|]. split; [done|]. apply Hfg.
      * eapply reads_mono; [by apply map_union_subseteq_r|exact Hw'].
      * eapply reads_mono; [by apply map_union_subseteq_l|exact Hm].
  - intros s Hsub Hds. apply map_disjoint_insert_r in Hds as [Hsp Hds]. split.
    + apply insert_subseteq_r; [done|]. etrans; [exact Hsub|exact Hs1].
    + apply map_disjoint_insert_r_2; [done|]. apply map_disjoint_union_r_2; [done|].
      by apply map_disjoint_difference_r1.
Qed.

End owns.

(** ** Deep copies of objects *)

Section deep.
  Context {cell : Type}.

(** [g] is [h] after writes to the locations [P] only (and allocations) *)
Definition rewritten (P : loc -> Prop) (h g : heap cell) : Prop := forall l c, h !! l = Some c -> ~ P l -> g !! l = Some c.

Lemma rewritten_part P (h k g : heap cell) : rewritten P h g -> k ⊆ h -> (forall l, is_Some (k !! l) -> ~ P l) -> k ⊆ g.
Proof. intros Hg Hk HP. apply map_subseteq_spec. intros l c Hl. apply Hg; [by eapply lookup_weaken|]. apply HP. by eexists. Qed.

(** nil for nil; else a new object of the same value, in cells of its own, that no write
    through the original reaches, and the other way round *)
Definition deep_copied {M V} `{!Stored cell M} `{!Layout cell M V}
    (copy : option (ptr M) -> mem cell (option (ptr M))) : Prop :=
  (forall h, copy None h = Some (None, h)) /\
  forall h p v, reads h p v ->
    exists q k, copy (Some p) h = Some (Some q, h ∪ k) /\ h ##ₘ k /\ owns k q v /\
      (forall g, rewritten (fun l => is_Some (h !! l)) (h ∪ k) g -> reads g q v) /\
      (forall g, rewritten (fun l => is_Some (k !! l)) (h ∪ k) g -> reads g p v).

Lemma copies_deep {M V} `{!Stored cell M} `{!Layout cell M V} (d : M -> mem cell M) : copies d -> deep_copied (copy_ptr d).
Proof.
  intros Hd. split; [done|]. intros h p v Hp. destruct (copy_ptr_owns d h p v Hd Hp) as (q & k & E & Hdj & Hk).
  exists q, k. do 3 (split; [done|]). split; intros g Hg.
  - apply (reads_mono k); [|by apply owns_reads]. eapply rewritten_part; [exact Hg|by apply map_union_subseteq_r|].
    intros l [c Hc] [c' Hc']. by eapply map_disjoint_spec.
  - apply (reads_mono h); [|done]. eapply rewritten_part; [exact Hg|by apply map_union_subseteq_l|].
    intros l [c Hc] [c' Hc']. by eapply map_disjoint_spec.
Qed.

End deep.
