(* ===== verification/DeepCopy.v ===== *)
(** * Deep copies (api/v1alpha1/zz_generated.deepcopy.go)

    The API types as they lie in memory, with pointers, slices and maps, and the
    generated functions on them.  [DeepCopyInto] is a function from the value of *in
    to the value left in *out; it copies the struct, which shares everything the
    struct points to, and then replaces what must not be shared.  The functions of
    apimachinery and cert-manager they call are the class [ApiMachinery]. *)
From S2P Require Import Prelude GoString GoTime Api GoHeap.

#[local] Open Scope mem_scope.

(** ** The types in memory *)

(** metav1.TypeMeta *)
Record TypeMeta : Type := mkTypeMeta { tm_kind : string; tm_api_version : string }.

(** metav1.ListMeta *)
Record ListMeta : Type := mkListMeta {
  lm_resource_version : string;
  lm_continue : string;
  lm_remaining : option Z
}.
Record mListMeta : Type := mkmListMeta {
  mlm_resource_version : string;
  mlm_continue : string;
  mlm_remaining : option (ptr Z)
}.

Record mObjectMeta : Type := mkmObjectMeta {
  mom_namespace : string;
  mom_name : string;
  mom_uid : string;
  mom_resource_version : string;
  mom_generation : Z;
  mom_creation : gotime;
  mom_deletion : option (ptr gotime);
  mom_finalizers : option (slice string);
  mom_labels : option (refmap string);
  mom_annotations : option (refmap string)
}.

Record mX509Subject : Type := mkmX509Subject {
  msubj_organizations : option (slice string);
  msubj_countries : option (slice string);
  msubj_organizational_units : option (slice string);
  msubj_localities : option (slice string);
  msubj_provinces : option (slice string);
  msubj_street_addresses : option (slice string);
  msubj_postal_codes : option (slice string);
  msubj_serial_number : string
}.

Record mSecretTemplate : Type := mkmSecretTemplate {
  mst_annotations : option (refmap string);
  mst_labels : option (refmap string)
}.

Record mCertificateTemplate : Type := mkmCertificateTemplate {
  mct_issuer_ref : option (ptr IssuerReference);
  mct_common_name : string;
  mct_dns_names : option (slice string);
  mct_ip_addresses : option (slice string);
  mct_duration : option (ptr duration);
  mct_renew_before : option (ptr duration);
  mct_subject : option (ptr mX509Subject);
  mct_usages : option (slice string);
  mct_private_key : option (ptr CertificatePrivateKey);
  mct_secret_template : option (ptr mSecretTemplate)
}.

Record mAliyunSpec : Type := mkmAliyunSpec {
  mal_credentials_ref : string;
  mal_region : string;
  mal_cas_region : string;
  mal_endpoint_override : string;
  mal_resource_group_id : string;
  mal_upload_to_cas : option (ptr bool)
}.

Record mRetentionSpec : Type := mkmRetentionSpec {
  mret_keep_last : Z;
  mret_min_age : option (ptr duration)
}.

Record mCertificateSpec : Type := mkmCertificateSpec {
  macs_secret_name : string;
  macs_template : mCertificateTemplate;
  macs_aliyun : mAliyunSpec;
  macs_retention : mRetentionSpec
}.

Record mGeneration : Type := mkmGeneration {
  mgen_fingerprint : string;
  mgen_cert_id : option (ptr Z);
  mgen_cas_name : string;
  mgen_not_before : gotime;
  mgen_not_after : gotime;
  mgen_uploaded_at : gotime
}.

Record mIssuanceStatus : Type := mkmIssuanceStatus {
  mis_revision : option (ptr Z);
  mis_renewal_time : option (ptr gotime);
  mis_failed_attempts : option (ptr Z);
  mis_last_failure : option (ptr gotime)
}.

Record mCertificateStatus : Type := mkmCertificateStatus {
  mas_observed_generation : Z;
  mas_effective_issuer : option (ptr IssuerReference);
  mas_secret_name : string;
  mas_cm_name : string;
  mas_issuance : option (ptr mIssuanceStatus);
  mas_current : option (ptr mGeneration);
  mas_history : option (slice mGeneration);
  mas_pending : option (ptr PendingUpload);
  mas_probed_at : option (ptr gotime);
  mas_cleanup_started : option (ptr gotime);
  mas_conditions : option (slice Condition)
}.

Record mCertificate : Type := mkmCertificate {
  mac_type : TypeMeta;
  mac_meta : mObjectMeta;
  mac_spec : mCertificateSpec;
  mac_status : mCertificateStatus
}.

Record mCertificateList : Type := mkmCertificateList {
  macl_type : TypeMeta;
  macl_meta : mListMeta;
  macl_items : option (slice mCertificate)
}.

Record mBindingTarget : Type := mkmBindingTarget {
  mbt_type : string;
  mbt_fc3 : option (ptr FC3CustomDomainTarget);
  mbt_oss : option (ptr OSSCustomDomainTarget)
}.

Record mBindingSpec : Type := mkmBindingSpec {
  mabs_certificate_ref : string;
  mabs_target : mBindingTarget;
  mabs_credentials_ref : option (ptr string);
  mabs_deletion_policy : string
}.

Record mBindingStatus : Type := mkmBindingStatus {
  mbs_observed_generation : Z;
  mbs_applied_fingerprint : string;
  mbs_drifted_fingerprint : string;
  mbs_applied_cert_ref : string;
  mbs_drifted_cert_ref : string;
  mbs_last_applied : option (ptr gotime);
  mbs_last_observed : option (ptr gotime);
  mbs_bound_account : string;
  mbs_cleanup_started : option (ptr gotime);
  mbs_conditions : option (slice Condition)
}.

Record mBinding : Type := mkmBinding {
  mab_type : TypeMeta;
  mab_meta : mObjectMeta;
  mab_spec : mBindingSpec;
  mab_status : mBindingStatus
}.

Record mBindingList : Type := mkmBindingList {
  mabl_type : TypeMeta;
  mabl_meta : mListMeta;
  mabl_items : option (slice mBinding)
}.

(** ** The heap *)

(** what a pointer, the array of a slice, or a map of these types leads to; integers,
    durations and times are all Z here *)
Inductive cell : Type :=
| CInt (z : Z)
| CBool (b : bool)
| CString (s : string)
| CStrings (l : list string)
| CStringMap (m : gmap string string)
| CIssuerReference (i : IssuerReference)
| CPrivateKey (k : CertificatePrivateKey)
| CFC3Target (t : FC3CustomDomainTarget)
| COSSTarget (t : OSSCustomDomainTarget)
| CPendingUpload (p : PendingUpload)
| CConditions (l : list Condition)
| CX509Subject (s : mX509Subject)
| CSecretTemplate (t : mSecretTemplate)
| CCertificateTemplate (t : mCertificateTemplate)
| CAliyunSpec (s : mAliyunSpec)
| CRetentionSpec (s : mRetentionSpec)
| CCertificateSpec (s : mCertificateSpec)
| CGeneration (g : mGeneration)
| CGenerations (l : list mGeneration)
| CIssuanceStatus (s : mIssuanceStatus)
| CCertificateStatus (s : mCertificateStatus)
| CCertificate (ac : mCertificate)
| CCertificates (l : list mCertificate)
| CCertificateList (l : mCertificateList)
| CBindingTarget (t : mBindingTarget)
| CBindingSpec (s : mBindingSpec)
| CBindingStatus (s : mBindingStatus)
| CBinding (b : mBinding)
| CBindings (l : list mBinding)
| CBindingList (l : mBindingList).

#[export] Instance stored_CInt : Stored cell Z :=
  {| to_cell := CInt; of_cell c := match c with CInt x => Some x | _ => None end; of_to_cell _ := eq_refl |}.
#[export] Instance stored_CBool : Stored cell bool :=
  {| to_cell := CBool; of_cell c := match c with CBool x => Some x | _ => None end; of_to_cell _ := eq_refl |}.
#[export] Instance stored_CString : Stored cell string :=
  {| to_cell := CString; of_cell c := match c with CString x => Some x | _ => None end; of_to_cell _ := eq_refl |}.
#[export] Instance stored_CStrings : Stored cell (list string) :=
  {| to_cell := CStrings; of_cell c := match c with CStrings x => Some x | _ => None end; of_to_cell _ := eq_refl |}.
#[export] Instance stored_CStringMap : Stored cell (gmap string string) :=
  {| to_cell := CStringMap; of_cell c := match c with CStringMap x => Some x | _ => None end; of_to_cell _ := eq_refl |}.
#[export] Instance stored_CIssuerReference : Stored cell IssuerReference :=
  {| to_cell := CIssuerReference; of_cell c := match c with CIssuerReference x => Some x | _ => None end; of_to_cell _ := eq_refl |}.
#[export] Instance stored_CPrivateKey : Stored cell CertificatePrivateKey :=
  {| to_cell := CPrivateKey; of_cell c := match c with CPrivateKey x => Some x | _ => None end; of_to_cell _ := eq_refl |}.
#[export] Instance stored_CFC3Target : Stored cell FC3CustomDomainTarget :=
  {| to_cell := CFC3Target; of_cell c := match c with CFC3Target x => Some x | _ => None end; of_to_cell _ := eq_refl |}.
#[export] Instance stored_COSSTarget : Stored cell OSSCustomDomainTarget :=
  {| to_cell := COSSTarget; of_cell c := match c with COSSTarget x => Some x | _ => None end; of_to_cell _ := eq_refl |}.
#[export] Instance stored_CPendingUpload : Stored cell PendingUpload :=
  {| to_cell := CPendingUpload; of_cell c := match c with CPendingUpload x => Some x | _ => None end; of_to_cell _ := eq_refl |}.
#[export] Instance stored_CConditions : Stored cell (list Condition) :=
  {| to_cell := CConditions; of_cell c := match c with CConditions x => Some x | _ => None end; of_to_cell _ := eq_refl |}.
#[export] Instance stored_CX509Subject : Stored cell mX509Subject :=
  {| to_cell := CX509Subject; of_cell c := match c with CX509Subject x => Some x | _ => None end; of_to_cell _ := eq_refl |}.
#[export] Instance stored_CSecretTemplate : Stored cell mSecretTemplate :=
  {| to_cell := CSecretTemplate; of_cell c := match c with CSecretTemplate x => Some x | _ => None end; of_to_cell _ := eq_refl |}.
#[export] Instance stored_CCertificateTemplate : Stored cell mCertificateTemplate :=
  {| to_cell := CCertificateTemplate; of_cell c := match c with CCertificateTemplate x => Some x | _ => None end; of_to_cell _ := eq_refl |}.
#[export] Instance stored_CAliyunSpec : Stored cell mAliyunSpec :=
  {| to_cell := CAliyunSpec; of_cell c := match c with CAliyunSpec x => Some x | _ => None end; of_to_cell _ := eq_refl |}.
#[export] Instance stored_CRetentionSpec : Stored cell mRetentionSpec :=
  {| to_cell := CRetentionSpec; of_cell c := match c with CRetentionSpec x => Some x | _ => None end; of_to_cell _ := eq_refl |}.
#[export] Instance stored_CCertificateSpec : Stored cell mCertificateSpec :=
  {| to_cell := CCertificateSpec; of_cell c := match c with CCertificateSpec x => Some x | _ => None end; of_to_cell _ := eq_refl |}.
#[export] Instance stored_CGeneration : Stored cell mGeneration :=
  {| to_cell := CGeneration; of_cell c := match c with CGeneration x => Some x | _ => None end; of_to_cell _ := eq_refl |}.
#[export] Instance stored_CGenerations : Stored cell (list mGeneration) :=
  {| to_cell := CGenerations; of_cell c := match c with CGenerations x => Some x | _ => None end; of_to_cell _ := eq_refl |}.
#[export] Instance stored_CIssuanceStatus : Stored cell mIssuanceStatus :=
  {| to_cell := CIssuanceStatus; of_cell c := match c with CIssuanceStatus x => Some x | _ => None end; of_to_cell _ := eq_refl |}.
#[export] Instance stored_CCertificateStatus : Stored cell mCertificateStatus :=
  {| to_cell := CCertificateStatus; of_cell c := match c with CCertificateStatus x => Some x | _ => None end; of_to_cell _ := eq_refl |}.
#[export] Instance stored_CCertificate : Stored cell mCertificate :=
  {| to_cell := CCertificate; of_cell c := match c with CCertificate x => Some x | _ => None end; of_to_cell _ := eq_refl |}.
#[export] Instance stored_CCertificates : Stored cell (list mCertificate) :=
  {| to_cell := CCertificates; of_cell c := match c with CCertificates x => Some x | _ => None end; of_to_cell _ := eq_refl |}.
#[export] Instance stored_CCertificateList : Stored cell mCertificateList :=
  {| to_cell := CCertificateList; of_cell c := match c with CCertificateList x => Some x | _ => None end; of_to_cell _ := eq_refl |}.
#[export] Instance stored_CBindingTarget : Stored cell mBindingTarget :=
  {| to_cell := CBindingTarget; of_cell c := match c with CBindingTarget x => Some x | _ => None end; of_to_cell _ := eq_refl |}.
#[export] Instance stored_CBindingSpec : Stored cell mBindingSpec :=
  {| to_cell := CBindingSpec; of_cell c := match c with CBindingSpec x => Some x | _ => None end; of_to_cell _ := eq_refl |}.
#[export] Instance stored_CBindingStatus : Stored cell mBindingStatus :=
  {| to_cell := CBindingStatus; of_cell c := match c with CBindingStatus x => Some x | _ => None end; of_to_cell _ := eq_refl |}.
#[export] Instance stored_CBinding : Stored cell mBinding :=
  {| to_cell := CBinding; of_cell c := match c with CBinding x => Some x | _ => None end; of_to_cell _ := eq_refl |}.
#[export] Instance stored_CBindings : Stored cell (list mBinding) :=
  {| to_cell := CBindings; of_cell c := match c with CBindings x => Some x | _ => None end; of_to_cell _ := eq_refl |}.
#[export] Instance stored_CBindingList : Stored cell mBindingList :=
  {| to_cell := CBindingList; of_cell c := match c with CBindingList x => Some x | _ => None end; of_to_cell _ := eq_refl |}.

(** ** What the types in memory stand for *)

(** AliyunCertificateList, AliyunCertificateBindingList; an object comes with its TypeMeta *)
Record AliyunCertificateList : Type := mkACList {
  acl_type : TypeMeta;
  acl_meta : ListMeta;
  acl_items : list (TypeMeta * AliyunCertificate)
}.
Record AliyunCertificateBindingList : Type := mkBindingList {
  abl_type : TypeMeta;
  abl_meta : ListMeta;
  abl_items : list (TypeMeta * AliyunCertificateBinding)
}.

#[export] Instance Z_layout : Layout cell Z Z := flat _ _.
#[export] Instance bool_layout : Layout cell bool bool := flat _ _.
#[export] Instance string_layout : Layout cell string string := flat _ _.
#[export] Instance IssuerReference_layout : Layout cell IssuerReference IssuerReference := flat _ _.
#[export] Instance PrivateKey_layout : Layout cell CertificatePrivateKey CertificatePrivateKey := flat _ _.
#[export] Instance FC3Target_layout : Layout cell FC3CustomDomainTarget FC3CustomDomainTarget := flat _ _.
#[export] Instance OSSTarget_layout : Layout cell OSSCustomDomainTarget OSSCustomDomainTarget := flat _ _.
#[export] Instance PendingUpload_layout : Layout cell PendingUpload PendingUpload := flat _ _.
#[export] Instance Condition_layout : Layout cell Condition Condition := flat _ _.

#[export] Instance ListMeta_layout : Layout cell mListMeta ListMeta.
Proof.
  refine {| reads h m v :=
    (mlm_resource_version m = lm_resource_version v /\ mlm_continue m = lm_continue v) /\ reads h (mlm_remaining m) (lm_remaining v) |}.
  layout_mono.
Defined.

#[export] Instance ObjectMeta_layout : Layout cell mObjectMeta ObjectMeta.
Proof.
  refine {| reads h m v :=
    (mom_namespace m = om_namespace v /\ mom_name m = om_name v /\ mom_uid m = om_uid v /\
     mom_resource_version m = om_resource_version v /\ mom_generation m = om_generation v /\ mom_creation m = om_creation v) /\
    reads h (mom_deletion m) (om_deletion v) /\ reads h (mom_finalizers m) (om_finalizers v) /\
    reads h (mom_labels m) (om_labels v) /\ reads h (mom_annotations m) (om_annotations v) |}.
  layout_mono.
Defined.

#[export] Instance X509Subject_layout : Layout cell mX509Subject X509Subject.
Proof.
  refine {| reads h m v :=
    msubj_serial_number m = subj_serial_number v /\
    reads h (msubj_organizations m) (subj_organizations v) /\ reads h (msubj_countries m) (subj_countries v) /\
    reads h (msubj_organizational_units m) (subj_organizational_units v) /\ reads h (msubj_localities m) (subj_localities v) /\
    reads h (msubj_provinces m) (subj_provinces v) /\ reads h (msubj_street_addresses m) (subj_street_addresses v) /\
    reads h (msubj_postal_codes m) (subj_postal_codes v) |}.
  layout_mono.
Defined.

#[export] Instance SecretTemplate_layout : Layout cell mSecretTemplate CertificateSecretTemplate.
Proof.
  refine {| reads h m v := reads h (mst_annotations m) (st_annotations v) /\ reads h (mst_labels m) (st_labels v) |}.
  layout_mono.
Defined.

#[export] Instance CertificateTemplate_layout : Layout cell mCertificateTemplate CertificateTemplate.
Proof.
  refine {| reads h m v :=
    mct_common_name m = ct_common_name v /\ reads h (mct_issuer_ref m) (ct_issuer_ref v) /\
    reads h (mct_dns_names m) (ct_dns_names v) /\ reads h (mct_ip_addresses m) (ct_ip_addresses v) /\
    reads h (mct_duration m) (ct_duration v) /\ reads h (mct_renew_before m) (ct_renew_before v) /\
    reads h (mct_subject m) (ct_subject v) /\ reads h (mct_usages m) (ct_usages v) /\
    reads h (mct_private_key m) (ct_private_key v) /\ reads h (mct_secret_template m) (ct_secret_template v) |}.
  layout_mono.
Defined.

#[export] Instance AliyunSpec_layout : Layout cell mAliyunSpec AliyunSpec.
Proof.
  refine {| reads h m v :=
    (mal_credentials_ref m = al_credentials_ref v /\ mal_region m = al_region v /\ mal_cas_region m = al_cas_region v /\
     mal_endpoint_override m = al_endpoint_override v /\ mal_resource_group_id m = al_resource_group_id v) /\
    reads h (mal_upload_to_cas m) (al_upload_to_cas v) |}.
  layout_mono.
Defined.

#[export] Instance RetentionSpec_layout : Layout cell mRetentionSpec RetentionSpec.
Proof.
  refine {| reads h m v := mret_keep_last m = ret_keep_last v /\ reads h (mret_min_age m) (ret_min_age v) |}.
  layout_mono.
Defined.

#[export] Instance CertificateSpec_layout : Layout cell mCertificateSpec AliyunCertificateSpec.
Proof.
  refine {| reads h m v :=
    macs_secret_name m = acs_secret_name v /\ reads h (macs_template m) (acs_template v) /\
    reads h (macs_aliyun m) (acs_aliyun v) /\ reads h (macs_retention m) (acs_retention v) |}.
  layout_mono.
Defined.

#[export] Instance Generation_layout : Layout cell mGeneration CertificateGeneration.
Proof.
  refine {| reads h m v :=
    (mgen_fingerprint m = gen_fingerprint v /\ mgen_cas_name m = gen_cas_name v) /\
    reads h (mgen_cert_id m) (gen_cert_id v) /\ reads h (mgen_not_before m) (gen_not_before v) /\
    reads h (mgen_not_after m) (gen_not_after v) /\ reads h (mgen_uploaded_at m) (gen_uploaded_at v) |}.
  layout_mono.
Defined.

#[export] Instance IssuanceStatus_layout : Layout cell mIssuanceStatus IssuanceStatus.
Proof.
  refine {| reads h m v :=
    reads h (mis_revision m) (is_revision v) /\ reads h (mis_renewal_time m) (is_renewal_time v) /\
    reads h (mis_failed_attempts m) (is_failed_attempts v) /\ reads h (mis_last_failure m) (is_last_failure v) |}.
  layout_mono.
Defined.

#[export] Instance CertificateStatus_layout : Layout cell mCertificateStatus AliyunCertificateStatus.
Proof.
  refine {| reads h m v :=
    (mas_observed_generation m = as_observed_generation v /\ mas_secret_name m = as_secret_name v /\ mas_cm_name m = as_cm_name v) /\
    reads h (mas_effective_issuer m) (as_effective_issuer v) /\ reads h (mas_issuance m) (as_issuance v) /\
    reads h (mas_current m) (as_current v) /\ reads h (mas_history m) (as_history v) /\
    reads h (mas_pending m) (as_pending v) /\ reads h (mas_probed_at m) (as_probed_at v) /\
    reads h (mas_cleanup_started m) (as_cleanup_started v) /\ reads h (mas_conditions m) (as_conditions v) |}.
  layout_mono.
Defined.

#[export] Instance Certificate_layout : Layout cell mCertificate (TypeMeta * AliyunCertificate).
Proof.
  refine {| reads h m v :=
    mac_type m = v.1 /\ reads h (mac_meta m) (ac_meta v.2) /\ reads h (mac_spec m) (ac_spec v.2) /\ reads h (mac_status m) (ac_status v.2) |}.
  layout_mono.
Defined.

#[export] Instance CertificateList_layout : Layout cell mCertificateList AliyunCertificateList.
Proof.
  refine {| reads h m v := macl_type m = acl_type v /\ reads h (macl_meta m) (acl_meta v) /\ reads h (macl_items m) (acl_items v) |}.
  layout_mono.
Defined.

#[export] Instance BindingTarget_layout : Layout cell mBindingTarget BindingTarget.
Proof.
  refine {| reads h m v := mbt_type m = bt_type v /\ reads h (mbt_fc3 m) (bt_fc3 v) /\ reads h (mbt_oss m) (bt_oss v) |}.
  layout_mono.
Defined.

#[export] Instance BindingSpec_layout : Layout cell mBindingSpec AliyunCertificateBindingSpec.
Proof.
  refine {| reads h m v :=
    (mabs_certificate_ref m = abs_certificate_ref v /\ mabs_deletion_policy m = abs_deletion_policy v) /\
    reads h (mabs_target m) (abs_target v) /\ reads h (mabs_credentials_ref m) (abs_credentials_ref v) |}.
  layout_mono.
Defined.

#[export] Instance BindingStatus_layout : Layout cell mBindingStatus AliyunCertificateBindingStatus.
Proof.
  refine {| reads h m v :=
    (mbs_observed_generation m = bs_observed_generation v /\ mbs_applied_fingerprint m = bs_applied_fingerprint v /\
     mbs_drifted_fingerprint m = bs_drifted_fingerprint v /\ mbs_applied_cert_ref m = bs_applied_cert_ref v /\
     mbs_drifted_cert_ref m = bs_drifted_cert_ref v /\ mbs_bound_account m = bs_bound_account v) /\
    reads h (mbs_last_applied m) (bs_last_applied v) /\ reads h (mbs_last_observed m) (bs_last_observed v) /\
    reads h (mbs_cleanup_started m) (bs_cleanup_started v) /\ reads h (mbs_conditions m) (bs_conditions v) |}.
  layout_mono.
Defined.

#[export] Instance Binding_layout : Layout cell mBinding (TypeMeta * AliyunCertificateBinding).
Proof.
  refine {| reads h m v :=
    mab_type m = v.1 /\ reads h (mab_meta m) (ab_meta v.2) /\ reads h (mab_spec m) (ab_spec v.2) /\ reads h (mab_status m) (ab_status v.2) |}.
  layout_mono.
Defined.

#[export] Instance BindingList_layout : Layout cell mBindingList AliyunCertificateBindingList.
Proof.
  refine {| reads h m v := mabl_type m = abl_type v /\ reads h (mabl_meta m) (abl_meta v) /\ reads h (mabl_items m) (abl_items v) |}.
  layout_mono.
Defined.

(** ** The functions of other packages *)

Class ApiMachinery : Type := {
  ObjectMeta_DeepCopyInto : mObjectMeta -> mem cell mObjectMeta;
  ListMeta_DeepCopyInto : mListMeta -> mem cell mListMeta;
  Condition_DeepCopyInto : Condition -> mem cell Condition;
  Time_DeepCopyInto : gotime -> mem cell gotime;
  Time_DeepCopy : option (ptr gotime) -> mem cell (option (ptr gotime));
  X509Subject_DeepCopyInto : mX509Subject -> mem cell mX509Subject;
  SecretTemplate_DeepCopyInto : mSecretTemplate -> mem cell mSecretTemplate
}.

Class ApiMachineryLaws (M : ApiMachinery) : Prop := {
  ObjectMeta_copies : copies ObjectMeta_DeepCopyInto;
  ListMeta_copies : copies ListMeta_DeepCopyInto;
  Condition_copies : copies Condition_DeepCopyInto;
  Time_copies_into : copies Time_DeepCopyInto;
  Time_copies : copies Time_DeepCopy;
  X509Subject_copies : copies X509Subject_DeepCopyInto;
  SecretTemplate_copies : copies SecretTemplate_DeepCopyInto
}.

(** runtime.Object: a nil interface, or a pointer to an object of the group *)
Inductive Object : Type :=
| ObjectNil
| ObjectCertificate (p : ptr mCertificate)
| ObjectCertificateList (p : ptr mCertificateList)
| ObjectBinding (p : ptr mBinding)
| ObjectBindingList (p : ptr mBindingList).

Section deep_copy.
  Context `{M : ApiMachinery}.

(** ** The generated functions

    [copy_ptr d] is the guarded [*out = new(T)] of a pointer field and also the body of
    a [DeepCopy]: nil stays nil.  A fresh cell is made when its value is complete. *)

Definition FC3CustomDomainTarget_DeepCopyInto (t : FC3CustomDomainTarget) : mem cell FC3CustomDomainTarget := mret t.
Definition FC3CustomDomainTarget_DeepCopy := copy_ptr FC3CustomDomainTarget_DeepCopyInto.

Definition OSSCustomDomainTarget_DeepCopyInto (t : OSSCustomDomainTarget) : mem cell OSSCustomDomainTarget := mret t.
Definition OSSCustomDomainTarget_DeepCopy := copy_ptr OSSCustomDomainTarget_DeepCopyInto.

(** both reference types are a struct of one name *)
Definition LocalObjectReference_DeepCopyInto (r : string) : mem cell string := mret r.
Definition LocalObjectReference_DeepCopy := copy_ptr LocalObjectReference_DeepCopyInto.
Definition LocalSecretReference_DeepCopyInto (r : string) : mem cell string := mret r.
Definition LocalSecretReference_DeepCopy := copy_ptr LocalSecretReference_DeepCopyInto.

Definition PendingUpload_DeepCopyInto (p : PendingUpload) : mem cell PendingUpload :=
  let& startedAt := Time_DeepCopyInto (pu_started_at p) in
  mret (mkPendingUpload (pu_fingerprint p) (pu_cas_name p) (pu_client_token p) startedAt (pu_domain_hint p)).
Definition PendingUpload_DeepCopy := copy_ptr PendingUpload_DeepCopyInto.

Definition RetentionSpec_DeepCopyInto (s : mRetentionSpec) : mem cell mRetentionSpec :=
  let& minAge := copy_ptr mret (mret_min_age s) in
  mret (mkmRetentionSpec (mret_keep_last s) minAge).
Definition RetentionSpec_DeepCopy := copy_ptr RetentionSpec_DeepCopyInto.

Definition AliyunSpec_DeepCopyInto (s : mAliyunSpec) : mem cell mAliyunSpec :=
  let& uploadToCAS := copy_ptr mret (mal_upload_to_cas s) in
  mret (mkmAliyunSpec (mal_credentials_ref s) (mal_region s) (mal_cas_region s) (mal_endpoint_override s)
    (mal_resource_group_id s) uploadToCAS).
Definition AliyunSpec_DeepCopy := copy_ptr AliyunSpec_DeepCopyInto.

Definition CertificateTemplate_DeepCopyInto (t : mCertificateTemplate) : mem cell mCertificateTemplate :=
  let& issuerRef := copy_ptr mret (mct_issuer_ref t) in
  let& dnsNames := copy_slice mret (mct_dns_names t) in
  let& ipAddresses := copy_slice mret (mct_ip_addresses t) in
  let& duration := copy_ptr mret (mct_duration t) in
  let& renewBefore := copy_ptr mret (mct_renew_before t) in
  let& subject := copy_ptr X509Subject_DeepCopyInto (mct_subject t) in
  let& usages := copy_slice mret (mct_usages t) in
  let& privateKey := copy_ptr mret (mct_private_key t) in
  let& secretTemplate := copy_ptr SecretTemplate_DeepCopyInto (mct_secret_template t) in
  mret (mkmCertificateTemplate issuerRef (mct_common_name t) dnsNames ipAddresses duration renewBefore subject usages
    privateKey secretTemplate).
Definition CertificateTemplate_DeepCopy := copy_ptr CertificateTemplate_DeepCopyInto.

Definition AliyunCertificateSpec_DeepCopyInto (s : mCertificateSpec) : mem cell mCertificateSpec :=
  let& template := CertificateTemplate_DeepCopyInto (macs_template s) in
  let& aliyun := AliyunSpec_DeepCopyInto (macs_aliyun s) in
  let& retention := RetentionSpec_DeepCopyInto (macs_retention s) in
  mret (mkmCertificateSpec (macs_secret_name s) template aliyun retention).
Definition AliyunCertificateSpec_DeepCopy := copy_ptr AliyunCertificateSpec_DeepCopyInto.

Definition CertificateGeneration_DeepCopyInto (g : mGeneration) : mem cell mGeneration :=
  let& certID := copy_ptr mret (mgen_cert_id g) in
  let& notBefore := Time_DeepCopyInto (mgen_not_before g) in
  let& notAfter := Time_DeepCopyInto (mgen_not_after g) in
  let& uploadedAt := Time_DeepCopyInto (mgen_uploaded_at g) in
  mret (mkmGeneration (mgen_fingerprint g) certID (mgen_cas_name g) notBefore notAfter uploadedAt).
Definition CertificateGeneration_DeepCopy := copy_ptr CertificateGeneration_DeepCopyInto.

Definition IssuanceStatus_DeepCopyInto (s : mIssuanceStatus) : mem cell mIssuanceStatus :=
  let& revision := copy_ptr mret (mis_revision s) in
  let& renewalTime := Time_DeepCopy (mis_renewal_time s) in
  let& failedIssuanceAttempts := copy_ptr mret (mis_failed_attempts s) in
  let& lastFailureTime := Time_DeepCopy (mis_last_failure s) in
  mret (mkmIssuanceStatus revision renewalTime failedIssuanceAttempts lastFailureTime).
Definition IssuanceStatus_DeepCopy := copy_ptr IssuanceStatus_DeepCopyInto.

Definition AliyunCertificateStatus_DeepCopyInto (s : mCertificateStatus) : mem cell mCertificateStatus :=
  let& effectiveIssuerRef := copy_ptr mret (mas_effective_issuer s) in
  let& issuance := copy_ptr IssuanceStatus_DeepCopyInto (mas_issuance s) in
  let& current := copy_ptr CertificateGeneration_DeepCopyInto (mas_current s) in
  let& history := copy_slice CertificateGeneration_DeepCopyInto (mas_history s) in
  let& pendingUpload := copy_ptr PendingUpload_DeepCopyInto (mas_pending s) in
  let& casProbedAt := Time_DeepCopy (mas_probed_at s) in
  let& cleanupStartedAt := Time_DeepCopy (mas_cleanup_started s) in
  let& conditions := copy_slice Condition_DeepCopyInto (mas_conditions s) in
  mret (mkmCertificateStatus (mas_observed_generation s) effectiveIssuerRef (mas_secret_name s) (mas_cm_name s) issuance
    current history pendingUpload casProbedAt cleanupStartedAt conditions).
Definition AliyunCertificateStatus_DeepCopy := copy_ptr AliyunCertificateStatus_DeepCopyInto.

Definition AliyunCertificate_DeepCopyInto (ac : mCertificate) : mem cell mCertificate :=
  let& meta := ObjectMeta_DeepCopyInto (mac_meta ac) in
  let& spec := AliyunCertificateSpec_DeepCopyInto (mac_spec ac) in
  let& status := AliyunCertificateStatus_DeepCopyInto (mac_status ac) in
  mret (mkmCertificate (mac_type ac) meta spec status).
Definition AliyunCertificate_DeepCopy := copy_ptr AliyunCertificate_DeepCopyInto.
Definition AliyunCertificate_DeepCopyObject (p : option (ptr mCertificate)) : mem cell Object :=
  let& c := AliyunCertificate_DeepCopy p in mret (match c with Some c => ObjectCertificate c | None => ObjectNil end).

Definition AliyunCertificateList_DeepCopyInto (l : mCertificateList) : mem cell mCertificateList :=
  let& meta := ListMeta_DeepCopyInto (macl_meta l) in
  let& items := copy_slice AliyunCertificate_DeepCopyInto (macl_items l) in
  mret (mkmCertificateList (macl_type l) meta items).
Definition AliyunCertificateList_DeepCopy := copy_ptr AliyunCertificateList_DeepCopyInto.
Definition AliyunCertificateList_DeepCopyObject (p : option (ptr mCertificateList)) : mem cell Object :=
  let& c := AliyunCertificateList_DeepCopy p in mret (match c with Some c => ObjectCertificateList c | None => ObjectNil end).

Definition BindingTarget_DeepCopyInto (t : mBindingTarget) : mem cell mBindingTarget :=
  let& fc3 := copy_ptr mret (mbt_fc3 t) in
  let& oss := copy_ptr mret (mbt_oss t) in
  mret (mkmBindingTarget (mbt_type t) fc3 oss).
Definition BindingTarget_DeepCopy := copy_ptr BindingTarget_DeepCopyInto.

Definition AliyunCertificateBindingSpec_DeepCopyInto (s : mBindingSpec) : mem cell mBindingSpec :=
  let& target := BindingTarget_DeepCopyInto (mabs_target s) in
  let& credentialsRef := copy_ptr mret (mabs_credentials_ref s) in
  mret (mkmBindingSpec (mabs_certificate_ref s) target credentialsRef (mabs_deletion_policy s)).
Definition AliyunCertificateBindingSpec_DeepCopy := copy_ptr AliyunCertificateBindingSpec_DeepCopyInto.

Definition AliyunCertificateBindingStatus_DeepCopyInto (s : mBindingStatus) : mem cell mBindingStatus :=
  let& lastAppliedTime := Time_DeepCopy (mbs_last_applied s) in
  let& lastObservedTime := Time_DeepCopy (mbs_last_observed s) in
  let& cleanupStartedAt := Time_DeepCopy (mbs_cleanup_started s) in
  let& conditions := copy_slice Condition_DeepCopyInto (mbs_conditions s) in
  mret (mkmBindingStatus (mbs_observed_generation s) (mbs_applied_fingerprint s) (mbs_drifted_fingerprint s)
    (mbs_applied_cert_ref s) (mbs_drifted_cert_ref s) lastAppliedTime lastObservedTime (mbs_bound_account s)
    cleanupStartedAt conditions).
Definition AliyunCertificateBindingStatus_DeepCopy := copy_ptr AliyunCertificateBindingStatus_DeepCopyInto.

Definition AliyunCertificateBinding_DeepCopyInto (b : mBinding) : mem cell mBinding :=
  let& meta := ObjectMeta_DeepCopyInto (mab_meta b) in
  let& spec := AliyunCertificateBindingSpec_DeepCopyInto (mab_spec b) in
  let& status := AliyunCertificateBindingStatus_DeepCopyInto (mab_status b) in
  mret (mkmBinding (mab_type b) meta spec status).
Definition AliyunCertificateBinding_DeepCopy := copy_ptr AliyunCertificateBinding_DeepCopyInto.
Definition AliyunCertificateBinding_DeepCopyObject (p : option (ptr mBinding)) : mem cell Object :=
  let& c := AliyunCertificateBinding_DeepCopy p in mret (match c with Some c => ObjectBinding c | None => ObjectNil end).

Definition AliyunCertificateBindingList_DeepCopyInto (l : mBindingList) : mem cell mBindingList :=
  let& meta := ListMeta_DeepCopyInto (mabl_meta l) in
  let& items := copy_slice AliyunCertificateBinding_DeepCopyInto (mabl_items l) in
  mret (mkmBindingList (mabl_type l) meta items).
Definition AliyunCertificateBindingList_DeepCopy := copy_ptr AliyunCertificateBindingList_DeepCopyInto.
Definition AliyunCertificateBindingList_DeepCopyObject (p : option (ptr mBindingList)) : mem cell Object :=
  let& c := AliyunCertificateBindingList_DeepCopy p in mret (match c with Some c => ObjectBindingList c | None => ObjectNil end).

(** ** Lemmas *)

Context {L : ApiMachineryLaws M}.

#[local] Hint Resolve ObjectMeta_copies ListMeta_copies Condition_copies Time_copies_into Time_copies X509Subject_copies SecretTemplate_copies : copies.

Lemma RetentionSpec_copies : copies RetentionSpec_DeepCopyInto.
Proof. copies_tac. Qed.
Lemma AliyunSpec_copies : copies AliyunSpec_DeepCopyInto.
Proof. copies_tac. Qed.
Lemma CertificateTemplate_copies : copies CertificateTemplate_DeepCopyInto.
Proof. copies_tac. Qed.
#[local] Hint Resolve RetentionSpec_copies AliyunSpec_copies CertificateTemplate_copies : copies.

Lemma AliyunCertificateSpec_copies : copies AliyunCertificateSpec_DeepCopyInto.
Proof. copies_tac. Qed.
Lemma PendingUpload_copies : copies PendingUpload_DeepCopyInto.
Proof.
  intros h m v Hr. change (m = v) in Hr. subst m. unfold PendingUpload_DeepCopyInto.
  assert (Ht : reads (cell:=cell) h (pu_started_at v) (pu_started_at v)) by done. copy_step.
  match goal with H : fresh_reads _ _ _ _ |- _ => hnf in H; subst end. apply grows_ret. by destruct v.
Qed.
Lemma CertificateGeneration_copies : copies CertificateGeneration_DeepCopyInto.
Proof. copies_tac. Qed.
Lemma IssuanceStatus_copies : copies IssuanceStatus_DeepCopyInto.
Proof. copies_tac. Qed.
#[local] Hint Resolve AliyunCertificateSpec_copies PendingUpload_copies CertificateGeneration_copies IssuanceStatus_copies : copies.

Lemma AliyunCertificateStatus_copies : copies AliyunCertificateStatus_DeepCopyInto.
Proof. copies_tac. Qed.
#[local] Hint Resolve AliyunCertificateStatus_copies : copies.
Lemma AliyunCertificate_copies : copies AliyunCertificate_DeepCopyInto.
Proof. copies_tac. Qed.
#[local] Hint Resolve AliyunCertificate_copies : copies.
Lemma AliyunCertificateList_copies : copies AliyunCertificateList_DeepCopyInto.
Proof. copies_tac. Qed.

Lemma BindingTarget_copies : copies BindingTarget_DeepCopyInto.
Proof. copies_tac. Qed.
#[local] Hint Resolve BindingTarget_copies : copies.
Lemma AliyunCertificateBindingSpec_copies : copies AliyunCertificateBindingSpec_DeepCopyInto.
Proof. copies_tac. Qed.
Lemma AliyunCertificateBindingStatus_copies : copies AliyunCertificateBindingStatus_DeepCopyInto.
Proof. copies_tac. Qed.
#[local] Hint Resolve AliyunCertificateBindingSpec_copies AliyunCertificateBindingStatus_copies : copies.
Lemma AliyunCertificateBinding_copies : copies AliyunCertificateBinding_DeepCopyInto.
Proof. copies_tac. Qed.
#[local] Hint Resolve AliyunCertificateBinding_copies : copies.
Lemma AliyunCertificateBindingList_copies : copies AliyunCertificateBindingList_DeepCopyInto.
Proof. copies_tac. Qed.

End deep_copy.

#[export] Hint Resolve AliyunCertificate_copies AliyunCertificateList_copies AliyunCertificateBinding_copies
  AliyunCertificateBindingList_copies CertificateGeneration_copies PendingUpload_copies : copies.

(** a [DeepCopyObject] wraps what [DeepCopy] makes, and a nil pointer in a nil interface *)
Definition wraps {M} (copy : option (ptr M) -> mem cell (option (ptr M))) (object : option (ptr M) -> mem cell Object)
    (mk : ptr M -> Object) : Prop :=
  forall h p, object p h = match copy p h with
                           | Some (Some q, h') => Some (mk q, h')
                           | Some (None, h') => Some (ObjectNil, h')
                           | None => None
                           end.

(** ** Reference functions of the other packages *)

#[export] Instance ref_machinery : ApiMachinery := {|
  ObjectMeta_DeepCopyInto m :=
    let& deletion := copy_ptr mret (mom_deletion m) in
    let& finalizers := copy_slice mret (mom_finalizers m) in
    let& labels := copy_map (mom_labels m) in
    let& annotations := copy_map (mom_annotations m) in
    mret (mkmObjectMeta (mom_namespace m) (mom_name m) (mom_uid m) (mom_resource_version m) (mom_generation m)
      (mom_creation m) deletion finalizers labels annotations);
  ListMeta_DeepCopyInto m :=
    let& remaining := copy_ptr mret (mlm_remaining m) in
    mret (mkmListMeta (mlm_resource_version m) (mlm_continue m) remaining);
  Condition_DeepCopyInto := mret;
  Time_DeepCopyInto := mret;
  Time_DeepCopy := copy_ptr mret;
  X509Subject_DeepCopyInto s :=
    let& organizations := copy_slice mret (msubj_organizations s) in
    let& countries := copy_slice mret (msubj_countries s) in
    let& units := copy_slice mret (msubj_organizational_units s) in
    let& localities := copy_slice mret (msubj_localities s) in
    let& provinces := copy_slice mret (msubj_provinces s) in
    let& streets := copy_slice mret (msubj_street_addresses s) in
    let& postals := copy_slice mret (msubj_postal_codes s) in
    mret (mkmX509Subject organizations countries units localities provinces streets postals (msubj_serial_number s));
  SecretTemplate_DeepCopyInto t :=
    let& annotations := copy_map (mst_annotations t) in
    let& labels := copy_map (mst_labels t) in
    mret (mkmSecretTemplate annotations labels)
|}.

#[export] Instance ref_machinery_laws : ApiMachineryLaws ref_machinery.
Proof.
  split; cbn [ObjectMeta_DeepCopyInto ListMeta_DeepCopyInto Condition_DeepCopyInto Time_DeepCopyInto Time_DeepCopy
    X509Subject_DeepCopyInto SecretTemplate_DeepCopyInto ref_machinery]; try (by auto with copies); copies_tac.
Qed.

(** ** Properties *)

(** C18: Deep copies are values.  A copy of a certificate, of a binding, or of a list of
    either, stands for the same value as the original and is made of new cells only:
    whatever is written through the original afterwards leaves the copy what it was,
    and whatever is written through the copy leaves the original what it was.  So the
    snapshot a round patches against does not follow the object the round mutates.  A
    nil pointer is copied to nil, and to a nil interface rather than to an interface
    that holds a nil pointer. *)
Theorem deep_copies_are_independent `{ML : ApiMachineryLaws} :
  (deep_copied AliyunCertificate_DeepCopy /\ deep_copied AliyunCertificateList_DeepCopy /\
   deep_copied AliyunCertificateBinding_DeepCopy /\ deep_copied AliyunCertificateBindingList_DeepCopy) /\
  (wraps AliyunCertificate_DeepCopy AliyunCertificate_DeepCopyObject ObjectCertificate /\
   wraps AliyunCertificateList_DeepCopy AliyunCertificateList_DeepCopyObject ObjectCertificateList /\
   wraps AliyunCertificateBinding_DeepCopy AliyunCertificateBinding_DeepCopyObject ObjectBinding /\
   wraps AliyunCertificateBindingList_DeepCopy AliyunCertificateBindingList_DeepCopyObject ObjectBindingList).
Proof.
  split; [repeat split_and; apply copies_deep; auto with copies|].
  assert (Hw : forall T (copy : option (ptr T) -> mem cell (option (ptr T))) mk,
    wraps copy (fun p => let& c := copy p in mret (match c with Some c => mk c | None => ObjectNil end)) mk).
  { intros T copy mk h p. unfold mbind. by destruct (copy p h) as [[[q|] h']|]. }
  repeat split_and; apply Hw.
Qed.

(** a certificate in memory with one current generation, and the cell of its certId *)
Definition sample_memory : mem cell (ptr mCertificate * ptr Z) :=
  let& id := alloc (7%Z : Z) in
  let& current := alloc (mkmGeneration "f1" (Some id) "site_f1" 0 0 5) in
  let& history := alloc ([] : list mGeneration) in
  let& names := alloc ["site.example.com"] in
  let& p := alloc (mkmCertificate (mkTypeMeta "AliyunCertificate" "v1alpha1")
    (mkmObjectMeta "prod" "site" "uid-1" "9" 1 0 None None None None)
    (mkmCertificateSpec "" (mkmCertificateTemplate None "" (Some (Slice names 0 1 1)) None None None None None None None)
       (mkmAliyunSpec "creds" "cn-hangzhou" "" "" "" None) (mkmRetentionSpec 2 None))
    (mkmCertificateStatus 1 None "" "" None (Some current) (Some (Slice history 0 0 0)) None None None None)) in
  mret (p, id).

(** the certId of the current generation *)
Definition current_id (p : ptr mCertificate) : mem cell (option Z) :=
  let& ac := load p in
  match mas_current (mac_status ac) with
  | None => mret None
  | Some g =>
      let& g := load g in
      match mgen_cert_id g with
      | None => mret None
      | Some id => let& id := load id in mret (Some id)
      end
  end.

(** a copy is made, the original's certId is overwritten, both are read *)
Lemma deep_copies_are_independent_witness :
  (let run := (let& '(p, id) := sample_memory in
               let& q := AliyunCertificate_DeepCopy (Some p) in
               let& _ := store id (8%Z : Z) in
               let& old := current_id p in
               let& new := match q with Some q => current_id q | None => mret None end in
               mret (old, new)) ∅ in
   fst <$> run = Some (Some 8%Z, Some 7%Z)) /\
  deep_copied (cell:=cell) AliyunCertificate_DeepCopy.
Proof. split; [vm_compute; reflexivity|]. exact (proj1 (proj1 (deep_copies_are_independent (ML:=ref_machinery_laws)))). Defined.
