(* ===== verification/FakeCAS.v ===== *)
(** * The in-memory CAS (pkg/aliyun/fake/cas.go)

    The fake is the repository's executable description of what CAS does: uploads
    are idempotent in the client token, names are unique, and a response can be lost
    after the server has committed.  Every method holds the mutex from its first to
    its last statement, so goroutines that share the fake interleave whole methods. *)
From S2P Require Import Prelude GoString Api GoError Cloud.

Module FakeCAS.

(** ** Definitions *)

Definition ErrDuplicateName : goerr :=
  EAliyun ClassPermanent "Upload" "CertNameDuplicated" (EText "name already exists").

Record Cert : Type := mkCert {
  ID : Z;
  Name : string;
  CertPEM : string;
  KeyPEM : string;
  Token : string
}.

(** a queue holds [error] values, which may be nil *)
Record CAS : Type := mkCAS {
  nextID : Z;
  certs : gmap Z Cert;
  byToken : gmap string Z;
  uploadErrs : list (option goerr);
  deleteErrs : list (option goerr);
  findErrs : list (option goerr);
  failAfterCommit : option goerr;
  uploadCalls : Z;
  deleteCalls : Z;
  findCalls : Z
}.

Definition NewCAS : CAS := mkCAS 1000 ∅ ∅ [] [] [] None 0 0 0.

Definition QueueUploadErr (err : option goerr) (f : CAS) : CAS :=
  mkCAS (nextID f) (certs f) (byToken f) (uploadErrs f ++ [err]) (deleteErrs f) (findErrs f) (failAfterCommit f)
    (uploadCalls f) (deleteCalls f) (findCalls f).
Definition QueueDeleteErr (err : option goerr) (f : CAS) : CAS :=
  mkCAS (nextID f) (certs f) (byToken f) (uploadErrs f) (deleteErrs f ++ [err]) (findErrs f) (failAfterCommit f)
    (uploadCalls f) (deleteCalls f) (findCalls f).
Definition QueueFindErr (err : option goerr) (f : CAS) : CAS :=
  mkCAS (nextID f) (certs f) (byToken f) (uploadErrs f) (deleteErrs f) (findErrs f ++ [err]) (failAfterCommit f)
    (uploadCalls f) (deleteCalls f) (findCalls f).
Definition FailNextUploadAfterCommit (err : option goerr) (f : CAS) : CAS :=
  mkCAS (nextID f) (certs f) (byToken f) (uploadErrs f) (deleteErrs f) (findErrs f) err
    (uploadCalls f) (deleteCalls f) (findCalls f).

(** the error and the queue it leaves *)
Definition pop (q : list (option goerr)) : option goerr * list (option goerr) :=
  match q with [] => (None, []) | e :: q => (e, q) end.

(** the certificate map is left by [Upload] with the new certificate under the new id *)
Definition commit (name certPEM keyPEM token : string) (f : CAS) : CAS :=
  let id := int64_incr (nextID f) in
  mkCAS id (<[id := mkCert id name certPEM keyPEM token]> (certs f))
    (if String.eqb token "" then byToken f else <[token := id]> (byToken f))
    (uploadErrs f) (deleteErrs f) (findErrs f) None (uploadCalls f) (deleteCalls f) (findCalls f).

(** the order in which the loop over the map compares the names does not matter *)
Definition name_taken (name : string) (m : gmap Z Cert) : bool :=
  existsb (fun kc => String.eqb (Name kc.2) name) (map_to_list m).

Definition Upload (name certPEM keyPEM token : string) (f0 : CAS) : (goerr + Z) * CAS :=
  let '(err, q) := pop (uploadErrs f0) in
  let f := mkCAS (nextID f0) (certs f0) (byToken f0) q (deleteErrs f0) (findErrs f0) (failAfterCommit f0)
             (int64_incr (uploadCalls f0)) (deleteCalls f0) (findCalls f0) in
  match err with
  | Some e => (inl e, f)
  | None =>
      match (if String.eqb token "" then None else byToken f !! token) with
      | Some id => (inr id, f)
      | None =>
          if name_taken name (certs f) then (inl ErrDuplicateName, f)
          else
            let f' := commit name certPEM keyPEM token f in
            (match failAfterCommit f with Some e => inl e | None => inr (nextID f') end, f')
      end
  end.

Definition ErrCertNotExist : goerr := EAliyun ClassNotFound "Delete" "CertNotExist" (EText "not found").

Definition Delete (certID : Z) (_token : string) (f0 : CAS) : option goerr * CAS :=
  let '(err, q) := pop (deleteErrs f0) in
  let f := mkCAS (nextID f0) (certs f0) (byToken f0) (uploadErrs f0) q (findErrs f0) (failAfterCommit f0)
             (uploadCalls f0) (int64_incr (deleteCalls f0)) (findCalls f0) in
  match err with
  | Some e => (Some e, f)
  | None =>
      match certs f !! certID with
      | None => (Some ErrCertNotExist, f)
      | Some _ =>
          (None, mkCAS (nextID f) (delete certID (certs f)) (filter (fun ti => ti.2 <> certID) (byToken f))
             (uploadErrs f) (deleteErrs f) (findErrs f) (failAfterCommit f) (uploadCalls f) (deleteCalls f) (findCalls f))
      end
  end.

(** the text up to the first dot, with the replacer applied ([-] becomes [_]; no dot
    is left to replace) *)
Definition sanitizeHint (s : string) : string :=
  str_map (fun c => if (Ascii.eqb c "." || Ascii.eqb c "-")%bool then "_"%char else c) (default "" (head (split "." s))).

(** the order a [range] visits the map in is a parameter *)
Definition FindUploaded (visit : gmap Z Cert -> list Cert) (domainHint : string) (f0 : CAS) :
    (goerr + list CertSummary) * CAS :=
  let '(err, q) := pop (findErrs f0) in
  let f := mkCAS (nextID f0) (certs f0) (byToken f0) (uploadErrs f0) (deleteErrs f0) q (failAfterCommit f0)
             (uploadCalls f0) (deleteCalls f0) (int64_incr (findCalls f0)) in
  match err with
  | Some e => (inl e, f)
  | None =>
      let hits := List.filter (fun c => String.eqb domainHint "" || contains (Name c) (sanitizeHint domainHint)) (visit (certs f)) in
      (inr ((fun c => mkCertSummary (ID c) (Name c) [] "") <$> hits), f)
  end.

Definition Has (id : Z) (f : CAS) : bool := bool_decide (is_Some (certs f !! id)).
Definition Certs (visit : gmap Z Cert -> list Cert) (f : CAS) : list Cert := visit (certs f).
Definition UploadCalls (f : CAS) : Z := uploadCalls f.
Definition DeleteCalls (f : CAS) : Z := deleteCalls f.
Definition FindCalls (f : CAS) : Z := findCalls f.

(** an order of visiting a map shows its values once each *)
Definition visits (visit : gmap Z Cert -> list Cert) : Prop := forall m, visit m ≡ₚ (map_to_list m).*2.

(** *** Runs: any sequence of method calls *)

Inductive method : Type :=
| MUpload (name certPEM keyPEM token : string)
| MDelete (id : Z) (token : string)
| MFind (hint : string)
| MQueueUploadErr (e : option goerr)
| MQueueDeleteErr (e : option goerr)
| MQueueFindErr (e : option goerr)
| MFailNextUploadAfterCommit (e : option goerr).

Definition step (visit : gmap Z Cert -> list Cert) (f : CAS) (m : method) : CAS :=
  match m with
  | MUpload n c k t => (Upload n c k t f).2
  | MDelete id t => (Delete id t f).2
  | MFind h => (FindUploaded visit h f).2
  | MQueueUploadErr e => QueueUploadErr e f
  | MQueueDeleteErr e => QueueDeleteErr e f
  | MQueueFindErr e => QueueFindErr e f
  | MFailNextUploadAfterCommit e => FailNextUploadAfterCommit e f
  end.

Definition run (visit : gmap Z Cert -> list Cert) (f : CAS) (l : list method) : CAS := foldl (step visit) f l.

(** ** The invariant *)

(** ids are fresh, names and tokens are keys, and the token index agrees with the
    certificates in both directions *)
Record wf (f : CAS) : Prop := {
  wf_next : (1000 <= nextID f)%Z;
  wf_id id c : certs f !! id = Some c -> ID c = id /\ (1000 < id <= nextID f)%Z;
  wf_name i j c d : certs f !! i = Some c -> certs f !! j = Some d -> Name c = Name d -> i = j;
  wf_index t id : byToken f !! t = Some id -> t <> "" /\ exists c, certs f !! id = Some c /\ Token c = t;
  wf_token id c : certs f !! id = Some c -> Token c <> "" -> byToken f !! Token c = Some id
}.

Lemma name_taken_spec name m : name_taken name m = true <-> exists id c, m !! id = Some c /\ Name c = name.
Proof.
  unfold name_taken. rewrite existsb_exists. split.
  - intros [[id c] [Hin%list_elem_of_In%elem_of_map_to_list Hn%String.eqb_eq]]. eauto.
  - intros (id & c & Hm & Hn). exists (id, c). split; [by apply list_elem_of_In, elem_of_map_to_list|]. by apply String.eqb_eq.
Qed.

Lemma NewCAS_wf : wf NewCAS.
Proof. split; cbn; [lia|..]; intros; simplify_map_eq. Qed.

(** [wf] reads the certificates, the index and the counter only *)
Lemma wf_same f g : nextID g = nextID f -> certs g = certs f -> byToken g = byToken f -> wf f -> wf g.
Proof. intros H1 H2 H3 [? ? ? ? ?]. by split; rewrite ?H1, ?H2, ?H3. Qed.

Lemma commit_wf name certPEM keyPEM token f :
  wf f -> (nextID f < int64_max)%Z -> name_taken name (certs f) = false ->
  (token <> "" -> byToken f !! token = None) -> wf (commit name certPEM keyPEM token f).
Proof.
  intros [Hnx Hid Hnm Hix Htk] Hmax Hfree Htok. unfold commit.
  assert (Hn : forall i c, certs f !! i = Some c -> Name c <> name).
  { intros i c Hc E. enough (name_taken name (certs f) = true) by congruence. apply name_taken_spec. eauto. }
  rewrite (int64_incr_lt (nextID f)) by lia.
  assert (Hold : forall i c, certs f !! i = Some c -> i <> (nextID f + 1)%Z) by (intros i c Hc; apply Hid in Hc; lia).
  split; cbn [nextID certs byToken].
  - lia.
  - intros i c. rewrite lookup_insert_Some. intros [[<- <-]|[_ Hc]]; [cbn; lia|]. apply Hid in Hc. lia.
  - intros i j c d. rewrite !lookup_insert_Some. intros [[<- <-]|[_ Hi]] [[<- <-]|[_ Hj]] E; cbn in E; [done|..].
    + by destruct (Hn _ _ Hj).
    + by destruct (Hn _ _ Hi).
    + by apply (Hnm i j c d).
  - intros t i Ht. assert (Ho : byToken f !! t = Some i -> t <> "" /\ exists c,
      <[(nextID f + 1)%Z := mkCert (nextID f + 1) name certPEM keyPEM token]> (certs f) !! i = Some c /\ Token c = t).
    { intros [? (c & Hc & ?)]%Hix. split; [done|]. exists c. rewrite lookup_insert_ne; [done|]. by apply not_eq_sym, (Hold i c). }
    destruct (String.eqb_spec token "") as [->|Hne]; [by apply Ho|].
    apply lookup_insert_Some in Ht as [[<- <-]|[_ Ht]]; [|by apply Ho]. split; [done|]. by eexists; rewrite lookup_insert_eq.
  - intros i c. rewrite lookup_insert_Some. intros [[<- <-]|[_ Hc]] Ht; cbn [Token] in *.
    + rewrite (proj2 (String.eqb_neq _ _)) by done. by rewrite lookup_insert_eq.
    + pose proof (Htk _ _ Hc Ht) as Hb. destruct (String.eqb_spec token "") as [_|Hne]; [done|].
      rewrite lookup_insert_ne; [done|]. intros E. rewrite <-E, (Htok Hne) in Hb. done.
Qed.

Lemma Upload_wf n c k t f : wf f -> (nextID f < int64_max)%Z -> wf (Upload n c k t f).2.
Proof.
  intros Hwf Hmax. unfold Upload. destruct (pop (uploadErrs f)) as [[e|] q]; [by apply (wf_same f)|].
  cbn [byToken certs failAfterCommit nextID]. destruct (if String.eqb t "" then None else byToken f !! t) as [id|] eqn:E; [by apply (wf_same f)|].
  destruct (name_taken n (certs f)) eqn:En; [by apply (wf_same f)|]. cbn [snd].
  apply commit_wf; cbn [nextID certs byToken]; [by apply (wf_same f)|done..|].
  intros Ht. by rewrite (proj2 (String.eqb_neq _ _) Ht) in E.
Qed.

Lemma Delete_wf id t f : wf f -> wf (Delete id t f).2.
Proof.
  intros Hwf. unfold Delete. destruct (pop (deleteErrs f)) as [[e|] q]; [by apply (wf_same f)|]. cbn [certs].
  destruct (certs f !! id) as [c|] eqn:Ec; [|by apply (wf_same f)]. destruct Hwf as [Hnx Hid Hnm Hix Htk].
  split; cbn [nextID certs byToken snd]; [done|..].
  - intros i d [_ Hd]%lookup_delete_Some. by apply Hid.
  - intros i j d e [_ Hi]%lookup_delete_Some [_ Hj]%lookup_delete_Some. by apply (Hnm i j).
  - intros u i [Hu Hne]%map_lookup_filter_Some. destruct (Hix _ _ Hu) as [? (d & Hd & ?)]. split; [done|]. exists d.
    rewrite lookup_delete_ne; [done|]. by apply not_eq_sym.
  - intros i d [Hne Hd]%lookup_delete_Some Ht. apply map_lookup_filter_Some. split; [by apply Htk|]. by apply not_eq_sym.
Qed.

Lemma step_wf visit f m : wf f -> (nextID f < int64_max)%Z -> wf (step visit f m) /\ (nextID (step visit f m) <= nextID f + 1)%Z.
Proof.
  intros Hwf Hmax. destruct m as [n c k t|id t|h|e|e|e|e]; cbn [step]; split;
    try (apply (wf_same f); [done..|exact Hwf]); try (cbn; lia).
  - by apply Upload_wf.
  - pose proof (wf_next f Hwf) as Hn. unfold Upload. destruct (pop _) as [[e|] q]; [cbn; lia|]. destruct (if String.eqb t "" then _ else _); [cbn; lia|].
    destruct (name_taken _ _); [cbn; lia|]. cbn [snd nextID commit]. rewrite int64_incr_lt; lia.
  - by apply Delete_wf.
  - unfold Delete. destruct (pop _) as [[e|] q]; [cbn; lia|]. destruct (_ !! id); cbn; lia.
  - unfold FindUploaded. destruct (pop _) as [[e|] q]; by apply (wf_same f).
  - unfold FindUploaded. destruct (pop _) as [[e|] q]; cbn; lia.
Qed.

(** from any well-formed state, as long as the counter cannot reach the end of int64 *)
Lemma run_wf visit l f : wf f -> (nextID f + Z.of_nat (length l) <= int64_max)%Z -> wf (run visit f l).
Proof.
  revert f. induction l as [|m l IH]; intros f Hwf Hl; [done|]. cbn [length] in Hl.
  destruct (step_wf visit f m Hwf) as [Hw Hn]; [lia|]. cbn. apply IH; [done|lia].
Qed.

(** what an upload does: nothing, with the error or the id of the token; or one new
    certificate, under a name that was free, whatever is reported *)
Lemma Upload_outcome n c k t f :
  let r := (Upload n c k t f).1 in let f' := (Upload n c k t f).2 in
  (certs f' = certs f /\ nextID f' = nextID f /\
     ((exists e, r = inl e) \/ exists id, r = inr id /\ t <> "" /\ byToken f !! t = Some id)) \/
  (name_taken n (certs f) = false /\ nextID f' = int64_incr (nextID f) /\
     certs f' = <[nextID f' := mkCert (nextID f') n c k t]> (certs f) /\ (r = inr (nextID f') \/ exists e, r = inl e)).
Proof.
  cbn zeta. unfold Upload. destruct (pop (uploadErrs f)) as [[e|] q]; [left; cbn; eauto 6|]. cbn [byToken certs failAfterCommit nextID].
  destruct (if String.eqb t "" then None else byToken f !! t) as [id|] eqn:E.
  { left. cbn. do 2 (split; [done|]). right. exists id. by destruct (String.eqb_spec t ""). }
  destruct (name_taken n (certs f)) eqn:En; [left; cbn; eauto 6|]. right. cbn. destruct (failAfterCommit f); eauto 7.
Qed.

(** a token that is known names its certificate, if no fault comes first *)
Lemma Upload_known n c k t f id x : wf f -> uploadErrs f = [] -> t <> "" -> certs f !! id = Some x -> Token x = t ->
  (Upload n c k t f).1 = inr id /\ certs (Upload n c k t f).2 = certs f.
Proof.
  intros Hwf Hq Ht Hx Hxt. subst t. unfold Upload. rewrite Hq. cbn [pop byToken].
  by rewrite (proj2 (String.eqb_neq _ _) Ht), (wf_token f Hwf id x Hx Ht).
Qed.

(** a listing shows certificates that are there *)
Lemma Find_shown visit h f l s : visits visit -> wf f -> (FindUploaded visit h f).1 = inr l -> s ∈ l ->
  exists x, certs f !! sum_cert_id s = Some x /\ Name x = sum_name s.
Proof.
  intros Hv Hwf. unfold FindUploaded. destruct (pop (findErrs f)) as [[e|] q]; [done|]. cbn. intros [= <-].
  rewrite list_elem_of_fmap. intros (x & -> & Hx). cbn. exists x. split; [|done].
  apply list_elem_of_In, filter_In in Hx as [Hx _]. apply list_elem_of_In in Hx. rewrite (Hv (certs f)) in Hx.
  apply list_elem_of_fmap in Hx as ([id y] & -> & Hy%elem_of_map_to_list). cbn. by destruct (wf_id f Hwf id y Hy) as [-> _].
Qed.

Lemma Find_same visit h f : let f' := (FindUploaded visit h f).2 in
  certs f' = certs f /\ byToken f' = byToken f /\ nextID f' = nextID f /\ uploadErrs f' = uploadErrs f.
Proof. cbn zeta. unfold FindUploaded. by destruct (pop _) as [[e|] q]. Qed.

(** a deletion removes the certificate, or fails; without a fault it fails only when
    the certificate is not there *)
Lemma Delete_outcome id t f :
  let r := (Delete id t f).1 in let f' := (Delete id t f).2 in
  deleteErrs f' = tail (deleteErrs f) /\ findErrs f' = findErrs f /\
  ((exists e q, deleteErrs f = Some e :: q /\ r = Some e /\ certs f' = certs f) \/
   (pop (deleteErrs f)).1 = None /\ (r = None \/ r = Some ErrCertNotExist) /\ certs f' = delete id (certs f)).
Proof.
  cbn zeta. unfold Delete. destruct (deleteErrs f) as [|[e|] q]; cbn.
  2: { do 2 (split; [done|]). left. eauto 6. }
  all: destruct (certs f !! id) as [c|] eqn:Ec; cbn; do 2 (split; [done|]); right; split; try done.
  all: split; [by eauto|]; try done; by rewrite delete_id.
Qed.

(** a listing that does not fail shows every certificate the hint fits *)
Lemma Find_complete visit h f l id x : visits visit -> wf f -> (FindUploaded visit h f).1 = inr l ->
  certs f !! id = Some x -> (h = "" \/ contains (Name x) (sanitizeHint h) = true) ->
  exists s, s ∈ l /\ sum_name s = Name x /\ sum_cert_id s = id.
Proof.
  intros Hv Hwf. unfold FindUploaded. destruct (pop (findErrs f)) as [[e|] q]; [done|]. cbn. intros [= <-] Hx Hh.
  exists (mkCertSummary (ID x) (Name x) [] ""). split; [|split; [done|]].
  2: { cbn. by destruct (wf_id f Hwf id x Hx). }
  apply list_elem_of_fmap. exists x. split; [done|]. apply list_elem_of_In, filter_In. split.
  - apply list_elem_of_In. rewrite (Hv (certs f)). apply list_elem_of_fmap. exists (id, x). split; [done|]. by apply elem_of_map_to_list.
  - destruct Hh as [->|Hh]; [done|]. rewrite Hh. apply orb_true_r.
Qed.

Lemma Find_faults visit h f : let f' := (FindUploaded visit h f).2 in
  deleteErrs f' = deleteErrs f /\ findErrs f' = tail (findErrs f) /\
  (findErrs f = [] -> exists l, (FindUploaded visit h f).1 = inr l).
Proof.
  cbn zeta. unfold FindUploaded. destruct (findErrs f) as [|[e|] q]; cbn; do 2 (split; [done|]); [eauto|done|done].
Qed.

End FakeCAS.

(** C33: Whatever sequence of methods a test calls on a new fake, with faults injected
    anywhere: ids, names and tokens are keys and the token index agrees with the
    certificates, so that an upload that is repeated with the token of a stored
    certificate answers with its id and stores nothing, and a listing only shows what
    is stored. *)
Theorem fake_cas_stays_well_formed visit l :
  FakeCAS.visits visit -> (1000 + Z.of_nat (length l) <= int64_max)%Z ->
  let f := FakeCAS.run visit FakeCAS.NewCAS l in
  FakeCAS.wf f /\
  (forall n c k id x, FakeCAS.uploadErrs f = [] -> FakeCAS.certs f !! id = Some x -> FakeCAS.Token x <> "" ->
     (FakeCAS.Upload n c k (FakeCAS.Token x) f).1 = inr id /\
     FakeCAS.certs (FakeCAS.Upload n c k (FakeCAS.Token x) f).2 = FakeCAS.certs f) /\
  (forall h r s, (FakeCAS.FindUploaded visit h f).1 = inr r -> s ∈ r ->
     exists x, FakeCAS.certs f !! sum_cert_id s = Some x /\ FakeCAS.Name x = sum_name s).
Proof.
  intros Hv Hl f. assert (Hwf : FakeCAS.wf f) by (apply FakeCAS.run_wf; [apply FakeCAS.NewCAS_wf|done]).
  split; [done|split].
  - intros n c k id x Hq Hx Ht. by apply (FakeCAS.Upload_known n c k _ f id x).
  - intros h r s. by apply FakeCAS.Find_shown.
Qed.

(** an upload whose answer is lost, its retry, and the deletion *)
Lemma fake_cas_stays_well_formed_witness :
  let visit m := (map_to_list m).*2 in
  let f := FakeCAS.run visit FakeCAS.NewCAS
    [FakeCAS.MFailNextUploadAfterCommit (Some (EText "reset")); FakeCAS.MUpload "a" "c" "k" "t";
     FakeCAS.MUpload "a" "c" "k" "t"; FakeCAS.MUpload "b" "c" "k" "u"; FakeCAS.MDelete 1002 "d"] in
  FakeCAS.wf f /\ FakeCAS.Upload "a" "c" "k" "t" f = (inr 1001%Z, (FakeCAS.Upload "a" "c" "k" "t" f).2) /\
  FakeCAS.Has 1001 f = true /\ FakeCAS.Has 1002 f = false.
Proof.
  intros visit f. assert (Hv : FakeCAS.visits visit) by (intros m; done).
  split; [|split; [vm_compute; reflexivity|split; vm_compute; reflexivity]].
  apply (fake_cas_stays_well_formed visit); [exact Hv|vm_compute; intros H; discriminate H].
Defined.
