(* ===== verification/FakeFC3.v ===== *)
(** * The in-memory FC3 (pkg/aliyun/fake/fc3.go)

    The fake keeps a domain as the cloud does, with the private key; what its read
    returns has none.  A write replaces protocol and echo, and the certificate as
    the body says. *)
From S2P Require Import Prelude GoString Api GoError Cloud FakeCAS.

Module FakeFC3.

(** ** Definitions *)

Definition ErrDomainNotFound : goerr :=
  EAliyun ClassNotFound ActionGetCustomDomain "DomainNameNotFound" (EText "custom domain not found").

Record Domain : Type := mkDomain {
  DomainName : string;
  Protocol : string;
  CertName : string;
  CertPEM : string;
  KeyPEM : string;
  Echo : DomainEcho
}.

Record FC3 : Type := mkFC3 {
  accountID : string;
  domains : gmap string Domain;
  getErrs : list (option goerr);
  updateErrs : list (option goerr);
  alwaysUpdateErr : option goerr;
  failAfterCommit : option goerr;
  getCalls : Z;
  updateCalls : Z;
  getCallsFor : gmap string Z;
  updateCallsFor : gmap string Z
}.

Definition NewFC3 : FC3 := mkFC3 "" ∅ [] [] None None 0 0 ∅ ∅.

Definition SetAccountID (id : string) (f : FC3) : FC3 :=
  mkFC3 id (domains f) (getErrs f) (updateErrs f) (alwaysUpdateErr f) (failAfterCommit f) (getCalls f) (updateCalls f)
    (getCallsFor f) (updateCallsFor f).

Definition set_domains (m : gmap string Domain) (f : FC3) : FC3 :=
  mkFC3 (accountID f) m (getErrs f) (updateErrs f) (alwaysUpdateErr f) (failAfterCommit f) (getCalls f) (updateCalls f)
    (getCallsFor f) (updateCallsFor f).

Definition AddDomain (d : Domain) (f : FC3) : FC3 := set_domains (<[DomainName d := d]> (domains f)) f.
Definition RemoveDomain (name : string) (f : FC3) : FC3 := set_domains (delete name (domains f)) f.
Definition Domain_of (name : string) (f : FC3) : option Domain := domains f !! name.

Definition set_faults (ge ue : list (option goerr)) (always after : option goerr) (f : FC3) : FC3 :=
  mkFC3 (accountID f) (domains f) ge ue always after (getCalls f) (updateCalls f) (getCallsFor f) (updateCallsFor f).

Definition QueueGetErr (err : option goerr) (f : FC3) : FC3 :=
  set_faults (getErrs f ++ [err]) (updateErrs f) (alwaysUpdateErr f) (failAfterCommit f) f.
Definition QueueUpdateErr (err : option goerr) (f : FC3) : FC3 :=
  set_faults (getErrs f) (updateErrs f ++ [err]) (alwaysUpdateErr f) (failAfterCommit f) f.
Definition AlwaysUpdateErr (err : option goerr) (f : FC3) : FC3 :=
  set_faults (getErrs f) (updateErrs f) err (failAfterCommit f) f.
Definition FailNextUpdateAfterCommit (err : option goerr) (f : FC3) : FC3 :=
  set_faults (getErrs f) (updateErrs f) (alwaysUpdateErr f) err f.

Definition GetCalls (f : FC3) : Z := getCalls f.
Definition UpdateCalls (f : FC3) : Z := updateCalls f.
(** a key that is not in the map reads as zero *)
Definition GetCallsFor (domain : string) (f : FC3) : Z := default 0%Z (getCallsFor f !! domain).
Definition UpdateCallsFor (domain : string) (f : FC3) : Z := default 0%Z (updateCallsFor f !! domain).

Definition bump (k : string) (m : gmap string Z) : gmap string Z := <[k := int64_incr (default 0%Z (m !! k))]> m.

(** both counters of a read, and of a write *)
Definition count_get (domain : string) (f : FC3) : FC3 :=
  mkFC3 (accountID f) (domains f) (getErrs f) (updateErrs f) (alwaysUpdateErr f) (failAfterCommit f)
    (int64_incr (getCalls f)) (updateCalls f) (bump domain (getCallsFor f)) (updateCallsFor f).
Definition count_update (domain : string) (f : FC3) : FC3 :=
  mkFC3 (accountID f) (domains f) (getErrs f) (updateErrs f) (alwaysUpdateErr f) (failAfterCommit f)
    (getCalls f) (int64_incr (updateCalls f)) (getCallsFor f) (bump domain (updateCallsFor f)).

(** the domain as [GetCustomDomain] returns it *)
Definition shown_domain (account : string) (d : Domain) : CustomDomain :=
  mkCustomDomain account (DomainName d) (Protocol d) (CertName d) (CertPEM d) (Echo d).

Definition GetCustomDomain (domain : string) (f0 : FC3) : (goerr + CustomDomain) * FC3 :=
  let f1 := count_get domain f0 in
  let '(err, q) := FakeCAS.pop (getErrs f1) in
  let f := set_faults q (updateErrs f1) (alwaysUpdateErr f1) (failAfterCommit f1) f1 in
  match err with
  | Some e => (inl e, f)
  | None =>
      match domains f !! domain with
      | None => (inl ErrDomainNotFound, f)
      | Some d => (inr (shown_domain (accountID f) d), f)
      end
  end.

Definition updateRejected (code msg : string) : goerr :=
  EAliyun ClassPermanent ActionUpdateCustomDomain code (EText msg).

(** [in] may be nil *)
Definition validateUpdate (input : option UpdateCustomDomainInput) : option goerr :=
  match input with
  | None => Some (updateRejected "NilInput" "写入体为空")
  | Some i =>
      if String.eqb (ui_protocol i) "" then Some (updateRejected "ProtocolRequired" "写入体必须显式给出 Protocol")
      else None
  end.

(** the domain after a write with the body [i] *)
Definition updated (i : UpdateCustomDomainInput) (d : Domain) : Domain :=
  let '(n, c, k) :=
    if ui_clear_cert i then ("", "", "")
    else match ui_cert_config i with
         | Some cc => (ccf_name cc, ccf_cert_pem cc, ccf_key_pem cc)
         | None => (CertName d, CertPEM d, KeyPEM d)
         end in
  mkDomain (DomainName d) (ui_protocol i) n c k (ui_echo i).

Definition UpdateCustomDomain (domain : string) (input : option UpdateCustomDomainInput) (f0 : FC3) : option goerr * FC3 :=
  let f1 := count_update domain f0 in
  match alwaysUpdateErr f1 with
  | Some e => (Some e, f1)
  | None =>
      let '(err, q) := FakeCAS.pop (updateErrs f1) in
      let f := set_faults (getErrs f1) q (alwaysUpdateErr f1) (failAfterCommit f1) f1 in
      match err with
      | Some e => (Some e, f)
      | None =>
          match domains f !! domain with
          | None => (Some ErrDomainNotFound, f)
          | Some d =>
              match validateUpdate input, input with
              | Some e, _ => (Some e, f)
              | None, None => (None, f) (* not reached: nil is refused *)
              | None, Some i =>
                  let f' := set_domains (<[domain := updated i d]> (domains f)) f in
                  match failAfterCommit f' with
                  | Some e => (Some e, set_faults (getErrs f') (updateErrs f') (alwaysUpdateErr f') None f')
                  | None => (None, f')
                  end
              end
          end
      end
  end.

(** ** Lemmas *)

(** a read changes no domain *)
Lemma get_domains domain f : domains (GetCustomDomain domain f).2 = domains f.
Proof. unfold GetCustomDomain. cbn. destruct (getErrs f) as [|[e|] q]; cbn; by destruct (domains f !! domain). Qed.

(** a write changes no other domain *)
Lemma update_frame domain input f name :
  name <> domain -> domains (UpdateCustomDomain domain input f).2 !! name = domains f !! name.
Proof.
  intros Hn. unfold UpdateCustomDomain, count_update, set_faults, set_domains.
  cbn [alwaysUpdateErr updateErrs getErrs failAfterCommit domains].
  destruct (alwaysUpdateErr f); [done|]. destruct (FakeCAS.pop (updateErrs f)) as [[e|] q]; [done|].
  destruct (domains f !! domain) as [d|]; [|done]. destruct (validateUpdate input); [done|].
  destruct input; [|done]. destruct (failAfterCommit f); cbn [domains snd]; by rewrite lookup_insert_ne by done.
Qed.

(** what a write does to its own domain, and what it returns *)
Lemma update_self domain i f :
  (domains (UpdateCustomDomain domain (Some i) f).2 !! domain = domains f !! domain /\
     exists e, (UpdateCustomDomain domain (Some i) f).1 = Some e) \/
  (exists d, domains f !! domain = Some d /\
     domains (UpdateCustomDomain domain (Some i) f).2 !! domain = Some (updated i d) /\
     (UpdateCustomDomain domain (Some i) f).1 = failAfterCommit f).
Proof.
  unfold UpdateCustomDomain, count_update, set_faults, set_domains.
  cbn [alwaysUpdateErr updateErrs getErrs failAfterCommit domains].
  destruct (alwaysUpdateErr f); [left; eauto|]. destruct (FakeCAS.pop (updateErrs f)) as [[e|] q]; [left; eauto|].
  destruct (domains f !! domain) as [d|] eqn:Ed; [|left; eauto]. destruct (validateUpdate (Some i)); [left; eauto|].
  right. exists d. split; [done|]. destruct (failAfterCommit f); cbn [domains fst snd]; by rewrite lookup_insert_eq.
Qed.

(** two domains that differ in their keys only are shown alike: the key does not come
    back from the cloud *)
Lemma shown_without_key account d k :
  shown_domain account d = shown_domain account (mkDomain (DomainName d) (Protocol d) (CertName d) (CertPEM d) k (Echo d)).
Proof. done. Qed.

End FakeFC3.
