(* ===== verification/FakeOSS.v ===== *)
(** * The in-memory OSS (pkg/aliyun/fake/oss.go)

    Buckets of CNAME records, by the domain in lower case. *)
From S2P Require Import Prelude GoString Api GoError Cloud FakeCAS FakeFC3.

Module FakeOSS.

(** ** Definitions *)

Definition ErrNoSuchBucket : goerr := EAliyun ClassNotFound ActionListCname "NoSuchBucket" (EText "bucket 不存在").
Definition ErrCnameNotFound : goerr :=
  EAliyun ClassNotFound ActionListCname "CnameNotFound" (EText "bucket 上没有该自定义域名").

Record CnameRecord : Type := mkCnameRecord {
  Domain : string;
  CertRef : string;
  CertType : string
}.

Record OSS : Type := mkOSS {
  owner : string;
  buckets : gmap string (gmap string CnameRecord);
  listErrs : list (option goerr);
  putErrs : list (option goerr);
  alwaysPutErr : option goerr;
  listCallsFor : gmap string Z;
  putCallsFor : gmap string Z
}.

Definition NewOSS : OSS := mkOSS "" ∅ [] [] None ∅ ∅.

Definition cnameKey (bucket domain : string) : string := bucket +:+ "/" +:+ to_lower domain.

Definition SetOwner (id : string) (f : OSS) : OSS :=
  mkOSS id (buckets f) (listErrs f) (putErrs f) (alwaysPutErr f) (listCallsFor f) (putCallsFor f).
Definition set_buckets (m : gmap string (gmap string CnameRecord)) (f : OSS) : OSS :=
  mkOSS (owner f) m (listErrs f) (putErrs f) (alwaysPutErr f) (listCallsFor f) (putCallsFor f).
Definition set_faults (le pe : list (option goerr)) (always : option goerr) (f : OSS) : OSS :=
  mkOSS (owner f) (buckets f) le pe always (listCallsFor f) (putCallsFor f).

Definition AddBucket (bucket : string) (f : OSS) : OSS :=
  match buckets f !! bucket with Some _ => f | None => set_buckets (<[bucket := ∅]> (buckets f)) f end.

Definition AddCname (bucket : string) (rec : CnameRecord) (f : OSS) : OSS :=
  let b := default ∅ (buckets f !! bucket) in
  set_buckets (<[bucket := <[to_lower (Domain rec) := rec]> b]> (buckets f)) f.

(** the record of a CNAME, by any spelling of its domain *)
Definition Cname_of (bucket domain : string) (f : OSS) : option CnameRecord :=
  match buckets f !! bucket with None => None | Some b => b !! to_lower domain end.

Definition QueueListErr (err : option goerr) (f : OSS) : OSS := set_faults (listErrs f ++ [err]) (putErrs f) (alwaysPutErr f) f.
Definition QueuePutErr (err : option goerr) (f : OSS) : OSS := set_faults (listErrs f) (putErrs f ++ [err]) (alwaysPutErr f) f.
Definition AlwaysPutErr (err : option goerr) (f : OSS) : OSS := set_faults (listErrs f) (putErrs f) err f.
Definition ListCallsFor (bucket domain : string) (f : OSS) : Z := default 0%Z (listCallsFor f !! cnameKey bucket domain).
Definition PutCallsFor (bucket domain : string) (f : OSS) : Z := default 0%Z (putCallsFor f !! cnameKey bucket domain).

Definition count_list (bucket domain : string) (f : OSS) : OSS :=
  mkOSS (owner f) (buckets f) (listErrs f) (putErrs f) (alwaysPutErr f)
    (FakeFC3.bump (cnameKey bucket domain) (listCallsFor f)) (putCallsFor f).
Definition count_put (bucket domain : string) (f : OSS) : OSS :=
  mkOSS (owner f) (buckets f) (listErrs f) (putErrs f) (alwaysPutErr f) (listCallsFor f)
    (FakeFC3.bump (cnameKey bucket domain) (putCallsFor f)).

(** the record as [GetCname] returns it *)
Definition shown_cname (account : string) (r : CnameRecord) : Cname :=
  mkCname (Domain r) "Enabled" (CertRef r) (CertType r) account.

Definition GetCname (bucket domain : string) (f0 : OSS) : (goerr + Cname) * OSS :=
  let f1 := count_list bucket domain f0 in
  let '(err, q) := FakeCAS.pop (listErrs f1) in
  let f := set_faults q (putErrs f1) (alwaysPutErr f1) f1 in
  match err with
  | Some e => (inl e, f)
  | None =>
      match buckets f !! bucket with
      | None => (inl ErrNoSuchBucket, f)
      | Some b =>
          match b !! to_lower domain with
          | None => (inl ErrCnameNotFound, f)
          | Some r => (inr (shown_cname (owner f) r), f)
          end
      end
  end.

Definition write (bucket domain : string) (mutate : CnameRecord -> CnameRecord) (f0 : OSS) : option goerr * OSS :=
  let f1 := count_put bucket domain f0 in
  match alwaysPutErr f1 with
  | Some e => (Some e, f1)
  | None =>
      let '(err, q) := FakeCAS.pop (putErrs f1) in
      let f := set_faults (listErrs f1) q (alwaysPutErr f1) f1 in
      match err with
      | Some e => (Some e, f)
      | None =>
          match buckets f !! bucket with
          | None => (Some ErrNoSuchBucket, f)
          | Some b =>
              match b !! to_lower domain with
              | None => (Some ErrCnameNotFound, f)
              | Some r => (None, set_buckets (<[bucket := <[to_lower domain := mutate r]> b]> (buckets f)) f)
              end
          end
      end
  end.

Definition attach (certRef : string) (r : CnameRecord) : CnameRecord := mkCnameRecord (Domain r) certRef "CAS".
Definition detach (r : CnameRecord) : CnameRecord := mkCnameRecord (Domain r) "" "".

(** an empty reference is refused before anything is counted *)
Definition PutCnameCert (bucket domain certRef : string) (f : OSS) : option goerr * OSS :=
  if String.eqb certRef "" then
    (Some (EAliyun ClassPermanent ActionPutCname "InvalidArgument" (EText "certRef 为空")), f)
  else write bucket domain (attach certRef) f.

Definition DeleteCnameCert (bucket domain : string) (f : OSS) : option goerr * OSS := write bucket domain detach f.

(** ** Lemmas *)

Lemma get_buckets bucket domain f : buckets (GetCname bucket domain f).2 = buckets f.
Proof.
  unfold GetCname. cbn. destruct (listErrs f) as [|[e|] q]; cbn; try done;
    destruct (buckets f !! bucket) as [b|]; try done; by destruct (b !! to_lower domain).
Qed.

(** what a write does to its own record, by any spelling, and what it returns *)
Lemma write_self bucket domain mutate f :
  (buckets (write bucket domain mutate f).2 = buckets f /\ exists e, (write bucket domain mutate f).1 = Some e) \/
  (exists r, Cname_of bucket domain f = Some r /\ (write bucket domain mutate f).1 = None /\
     Cname_of bucket domain (write bucket domain mutate f).2 = Some (mutate r)).
Proof.
  unfold write, count_put, set_faults, set_buckets, Cname_of. cbn [alwaysPutErr putErrs listErrs buckets].
  destruct (alwaysPutErr f); [left; eauto|]. destruct (FakeCAS.pop (putErrs f)) as [[e|] q]; [left; eauto|].
  destruct (buckets f !! bucket) as [b|] eqn:Eb; [|left; eauto].
  destruct (b !! to_lower domain) as [r|] eqn:Er; [|left; eauto]. right. exists r. split; [done|]. split; [done|].
  cbn [buckets snd]. by rewrite !lookup_insert_eq.
Qed.

(** a write changes no other record *)
Lemma write_frame bucket domain mutate f bucket' domain' :
  (bucket', to_lower domain') <> (bucket, to_lower domain) ->
  Cname_of bucket' domain' (write bucket domain mutate f).2 = Cname_of bucket' domain' f.
Proof.
  intros Hn. unfold write, count_put, set_faults, set_buckets, Cname_of. cbn [alwaysPutErr putErrs listErrs buckets].
  destruct (alwaysPutErr f); [done|]. destruct (FakeCAS.pop (putErrs f)) as [[e|] q]; [done|].
  destruct (buckets f !! bucket) as [b|] eqn:Eb; [|done]. destruct (b !! to_lower domain) as [r|]; [|done].
  cbn [buckets snd]. destruct (decide (bucket' = bucket)) as [->|Hb].
  - rewrite lookup_insert_eq, Eb. rewrite lookup_insert_ne; [done|]. intros E. apply Hn. by rewrite E.
  - by rewrite lookup_insert_ne by done.
Qed.

End FakeOSS.
