(* ===== verification/FakeCloud.v ===== *)
(** * The three in-memory clouds as one world

    The suite hands one fake of each service to every client it builds.  [cloud_step]
    answers a call to the cloud by the fake's method, [cloud_after] is the state of
    the clouds after a history, and [fake_env] is the environment in which the clouds
    answer as the fakes do, while cluster, clock and caches answer as they like. *)
From S2P Require Import Prelude GoString GoTime Api GoError Cloud Effects FakeCAS FakeFC3 FakeOSS.

(** ** Definitions *)

Record cloud : Type := mkCloud {
  cl_cas : FakeCAS.CAS;
  cl_fc3 : FakeFC3.FC3;
  cl_oss : FakeOSS.OSS
}.

Definition set_cas (s : cloud) (f : FakeCAS.CAS) : cloud := mkCloud f (cl_fc3 s) (cl_oss s).
Definition set_fc3 (s : cloud) (f : FakeFC3.FC3) : cloud := mkCloud (cl_cas s) f (cl_oss s).
Definition set_oss (s : cloud) (f : FakeOSS.OSS) : cloud := mkCloud (cl_cas s) (cl_fc3 s) f.

Section fakes.
  Variable visit : gmap Z FakeCAS.Cert -> list FakeCAS.Cert.

(** [None]: not a call to a cloud *)
Definition cloud_step (s : cloud) (o : op) : option (resp o * cloud) :=
  match o return option (resp o * cloud) with
  | OCASUpload _ name c k token => let '(r, f) := FakeCAS.Upload name c k token (cl_cas s) in Some (r, set_cas s f)
  | OCASDelete _ id token => let '(r, f) := FakeCAS.Delete id token (cl_cas s) in Some (r, set_cas s f)
  | OCASFind _ hint => let '(r, f) := FakeCAS.FindUploaded visit hint (cl_cas s) in Some (r, set_cas s f)
  | OGetCustomDomain _ d => let '(r, f) := FakeFC3.GetCustomDomain d (cl_fc3 s) in Some (r, set_fc3 s f)
  | OUpdateCustomDomain _ d i => let '(r, f) := FakeFC3.UpdateCustomDomain d (Some i) (cl_fc3 s) in Some (r, set_fc3 s f)
  | OGetCname _ b d => let '(r, f) := FakeOSS.GetCname b d (cl_oss s) in Some (r, set_oss s f)
  | OPutCnameCert _ b d ref => let '(r, f) := FakeOSS.PutCnameCert b d ref (cl_oss s) in Some (r, set_oss s f)
  | ODeleteCnameCert _ b d => let '(r, f) := FakeOSS.DeleteCnameCert b d (cl_oss s) in Some (r, set_oss s f)
  | _ => None
  end.

(** the state an event leaves; the state does not depend on what was answered *)
Definition cloud_next (s : cloud) (e : event) : cloud :=
  match cloud_step s (ev_op e) with Some (_, s') => s' | None => s end.

Fixpoint cloud_after (c0 : cloud) (h : history) : cloud :=
  match h with [] => c0 | e :: h => cloud_next (cloud_after c0 h) e end.

Definition fake_env (c0 : cloud) : environment := fun h o x =>
  match cloud_step (cloud_after c0 h) o with Some (r, _) => x = r | None => True end.

(** ** Lemmas *)

Definition cloud_call (o : op) : bool :=
  match o with
  | OCASUpload _ _ _ _ _ | OCASDelete _ _ _ | OCASFind _ _ | OGetCustomDomain _ _ | OUpdateCustomDomain _ _ _
  | OGetCname _ _ _ | OPutCnameCert _ _ _ _ | ODeleteCnameCert _ _ _ => true
  | _ => false
  end.

Lemma cloud_call_spec s o : cloud_call o = true <-> is_Some (cloud_step s o).
Proof.
  destruct o; cbn; try (split; [done|by intros []]); split; try done; intros _;
    match goal with |- context [let '(_, _) := ?x in _] => destruct x; eauto end.
Qed.

Lemma cloud_next_other s e : cloud_call (ev_op e) = false -> cloud_next s e = s.
Proof.
  intros He. unfold cloud_next. destruct (cloud_step s (ev_op e)) as [[? ?]|] eqn:E; [|done].
  assert (H : cloud_call (ev_op e) = true) by (apply (cloud_call_spec s); by rewrite E). congruence.
Qed.

(** calls that are none to a cloud leave the clouds alone *)
Lemma cloud_after_since (C : op -> Prop) c0 h h' :
  (forall o, C o -> cloud_call o = false) -> only_since C h h' -> cloud_after c0 h' = cloud_after c0 h.
Proof.
  intros HC (new & -> & Hn). induction Hn as [|e new He _ IH]; [done|]. cbn. rewrite cloud_next_other; [done|]. by apply HC.
Qed.

(** the fakes as a [handler], with any world for the rest *)
Definition fake_world {S} (w : handler S) : handler (cloud * S) := fun s o =>
  match cloud_step s.1 o with
  | Some (r, c) => (r, (c, s.2))
  | None => let '(r, s') := w s.2 o in (r, (s.1, s'))
  end.

(** a run against the fakes is a run in their environment, and ends in their state *)
Lemma fake_world_env {S A} (w : handler S) c0 s (p : prog A) P Q :
  twp (fake_env c0) P [] p Q ->
  let '(a, h, s') := exec (fake_world w) (c0, s) [] p in Q a h /\ s'.1 = cloud_after c0 h.
Proof.
  intros Ht. apply (twp_exec (fake_world w) (fun s h => s.1 = cloud_after c0 h) (fake_env c0) P [] (c0, s) p Q); [|done..].
  clear. intros [c s] h o Hc. cbn in Hc. subst c. unfold fake_world, fake_env. cbn [fst snd cloud_after].
  unfold cloud_next. cbn [ev_op]. destruct (cloud_step (cloud_after c0 h) o) as [[r c]|] eqn:E; [done|].
  by destruct (w s o).
Qed.

End fakes.
