(* ===== verification/Bundle.v ===== *)
(** * Certificate material (pkg/pki/bundle.go)

    Parsing, checking and re-encoding of the TLS Secret.  The cryptographic and
    encoding primitives of Go's standard library (PEM, X.509, SHA-256, key
    formats) are the parameter [Crypto]; [CryptoLaws] states their documented
    behaviour: a PEM decoder consumes input, a decoder reads back what the encoder
    wrote, a parsed certificate keeps its DER, a marshalled key parses back, a
    digest is 32 bytes in hex.  [toy_crypto] is an instance. *)
From S2P Require Import Prelude GoString GoTime GoError.

(** ** Standard library types and primitives *)

(** pem.Block *)
Record PemBlock : Type := mkPemBlock {
  blk_type : string;
  blk_headers : gmap string string;
  blk_bytes : string
}.

(** x509.Certificate, the fields the operator reads; [x_raw] is the DER *)
Record X509 : Type := mkX509 {
  x_raw : string;
  x_raw_issuer : string;
  x_raw_subject : string;
  x_common_name : string;
  x_dns_names : list string;
  x_not_before : gotime;
  x_not_after : gotime
}.

(** the dynamic type of a private key, and the key *)
Inductive PrivateKey : Type :=
| RSAKey (k : string)
| ECDSAKey (k : string)
| OtherKey (k : string).

Class Crypto : Type := {
  pem_decode : string -> option (PemBlock * string);
  pem_encode : string -> string -> string;
  ParseCertificate : string -> goerr + X509;
  ParsePKCS1PrivateKey : string -> goerr + string;
  ParseECPrivateKey : string -> goerr + string;
  ParsePKCS8PrivateKey : string -> goerr + PrivateKey;
  MarshalPKCS1PrivateKey : string -> string;
  MarshalECPrivateKey : string -> goerr + string;
  CheckSignatureFrom : X509 -> X509 -> option goerr;
  (* c.CheckSignature with the certificate's own algorithm, TBS part and signature *)
  CheckSignatureSelf : X509 -> option goerr;
  (* whether the leaf's public key has an Equal method, and what it says of the signer's *)
  PublicKeyEqual : X509 -> PrivateKey -> option bool;
  sha256_hex : string -> string
}.

Class CryptoLaws (C : Crypto) : Prop := {
  pem_decode_shrinks s b rest : pem_decode s = Some (b, rest) -> String.length rest < String.length s;
  pem_decode_empty : pem_decode "" = None;
  pem_decode_encode t bytes rest :
    pem_decode (pem_encode t bytes +:+ rest) = Some (mkPemBlock t ∅ bytes, rest);
  parse_keeps_raw der c : ParseCertificate der = inr c -> x_raw c = der;
  parse_marshal_pkcs1 k : ParsePKCS1PrivateKey (MarshalPKCS1PrivateKey k) = inr k;
  parse_marshal_ec k der : MarshalECPrivateKey k = inr der -> ParseECPrivateKey der = inr k;
  sha256_hex_length s : String.length (sha256_hex s) = 64;
  sha256_hex_lower s : str_forall lower_hex (sha256_hex s) = true
}.

(** ** Definitions *)

Record Bundle : Type := mkBundle {
  b_leaf : X509;
  b_intermediates : list X509;
  b_signer : PrivateKey;
  b_fingerprint : string
}.

Definition ErrNoCertificate : goerr := EText "pki: 未找到 CERTIFICATE PEM 块".
Definition ErrNoPrivateKey : goerr := EText "pki: 未找到私钥 PEM 块".
Definition ErrEncryptedKey : goerr := EText "pki: 私钥已加密，阿里云不接受".
Definition ErrUnsupportedKey : goerr := EText "pki: 不支持的私钥类型（仅 RSA / ECDSA）".
Definition ErrKeyMismatch : goerr := EText "pki: 私钥与 leaf 公钥不匹配".
Definition ErrBrokenChain : goerr := EText "pki: 证书链不连续".
Definition pemTypeCertificate : string := "CERTIFICATE".
Definition redactedKey : string := "<redacted>".

Section bundle.
  Context `{Crypto}.

Definition fingerprintOf (c : X509) : string := sha256_hex (x_raw c).

(** the loop of [parseCertificates]; a step consumes input, so the length of the
    input is enough fuel *)
Fixpoint parse_loop (fuel : nat) (rest : string) (out : list X509) : goerr + list X509 :=
  match fuel with
  | 0 => inr out
  | S fuel =>
      match pem_decode rest with
      | None => inr out
      | Some (blk, rest) =>
          if negb (String.eqb (blk_type blk) pemTypeCertificate) then parse_loop fuel rest out
          else match ParseCertificate (blk_bytes blk) with
               | inl e => inl (EWrap "pki: 解析证书失败: " e)
               | inr c => parse_loop fuel rest (out ++ [c])
               end
      end
  end.

Definition parseCertificates (certPEM : string) : goerr + list X509 :=
  match parse_loop (String.length certPEM) certPEM [] with
  | inl e => inl e
  | inr [] => inl ErrNoCertificate
  | inr out => inr out
  end.

Definition wrap_key_error {A} (r : goerr + A) : goerr + A :=
  match r with inl e => inl (EWrap "pki: 解析私钥失败: " e) | inr k => inr k end.

Definition parsePrivateKey (keyPEM : string) : goerr + PrivateKey :=
  match pem_decode keyPEM with
  | None => inl ErrNoPrivateKey
  | Some (blk, _) =>
      if match blk_headers blk !! "Proc-Type" with Some p => contains p "ENCRYPTED" | None => false end
      then inl ErrEncryptedKey
      else
        let t := blk_type blk in
        let key :=
          if String.eqb t "RSA PRIVATE KEY" then
            wrap_key_error (match ParsePKCS1PrivateKey (blk_bytes blk) with inl e => inl e | inr k => inr (RSAKey k) end)
          else if String.eqb t "EC PRIVATE KEY" then
            wrap_key_error (match ParseECPrivateKey (blk_bytes blk) with inl e => inl e | inr k => inr (ECDSAKey k) end)
          else if String.eqb t "PRIVATE KEY" then wrap_key_error (ParsePKCS8PrivateKey (blk_bytes blk))
          else if String.eqb t "ENCRYPTED PRIVATE KEY" then inl ErrEncryptedKey
          else inl (EText (err_text ErrUnsupportedKey +:+ ": PEM 类型 " +:+ quote t)) in
        match key with
        | inl e => inl e
        | inr (OtherKey _) => inl ErrUnsupportedKey
        | inr k => inr k
        end
  end.

(** the first link of a chain that is not signed by the next certificate *)
Fixpoint check_chain (certs : list X509) : option goerr :=
  match certs with
  | c :: (p :: _) as rest =>
      match CheckSignatureFrom c p with
      | Some e => Some e
      | None => check_chain rest
      end
  | _ => None
  end.

Definition ParseBundle (certPEM keyPEM : string) : goerr + Bundle :=
  match parseCertificates certPEM with
  | inl e => inl e
  | inr [] => inl ErrNoCertificate (* not reached: parseCertificates returns no empty list *)
  | inr (leaf :: rest) =>
      match parsePrivateKey keyPEM with
      | inl e => inl e
      | inr signer =>
          match check_chain (leaf :: rest) with
          | Some e => inl (EWrap "pki: 证书链不连续: " e)
          | None =>
              match PublicKeyEqual leaf signer with
              | Some true => inr (mkBundle leaf rest signer (fingerprintOf leaf))
              | _ => inl ErrKeyMismatch
              end
          end
      end
  end.

Definition IsSelfSigned (b : Bundle) : bool :=
  if negb (String.eqb (x_raw_issuer (b_leaf b)) (x_raw_subject (b_leaf b))) then false
  else match CheckSignatureSelf (b_leaf b) with None => true | Some _ => false end.

Definition DNSNames (b : Bundle) : list string :=
  let names := x_dns_names (b_leaf b) in
  let cn := x_common_name (b_leaf b) in
  if String.eqb cn "" then names
  else if existsb (fun n => String.eqb n cn) names then names
  else names ++ [cn].

Definition cert_block (c : X509) : string := pem_encode pemTypeCertificate (x_raw c).

Fixpoint encode_certs (l : list X509) : string :=
  match l with
  | [] => ""
  | c :: l => cert_block c +:+ encode_certs l
  end.

Definition CertPEM (b : Bundle) : string := cert_block (b_leaf b) +:+ encode_certs (b_intermediates b).

Definition KeyPEM (b : Bundle) : goerr + string :=
  match b_signer b with
  | RSAKey k => inr (pem_encode "RSA PRIVATE KEY" (MarshalPKCS1PrivateKey k))
  | ECDSAKey k =>
      match MarshalECPrivateKey k with
      | inl e => inl (EWrap "pki: 编码 EC 私钥失败: " e)
      | inr der => inr (pem_encode "EC PRIVATE KEY" der)
      end
  | OtherKey _ => inl ErrUnsupportedKey
  end.

Definition LeafFingerprint (certPEM : string) : goerr + string :=
  match parseCertificates certPEM with
  | inl e => inl e
  | inr [] => inl ErrNoCertificate (* not reached *)
  | inr (c :: _) => inr (fingerprintOf c)
  end.

(** [redactedFields] and the [String] method; [%v] of a []string *)
Definition redactedFields (b : Bundle) : string * list string * nat :=
  (b_fingerprint b, DNSNames b, length (b_intermediates b)).

Definition Bundle_String (b : Bundle) : string :=
  let '(fp, names, n) := redactedFields b in
  let fp := if 8 <? String.length fp then str_take 8 fp else fp in
  "pki.Bundle{fingerprint=" +:+ fp +:+ ", dnsNames=[" +:+ join " " names +:+ "], intermediates=" +:+
  pretty.pretty n +:+ ", key=" +:+ redactedKey +:+ "}".

(** what ParseBundle has checked of a bundle *)
Definition valid_bundle (b : Bundle) : Prop :=
  check_chain (b_leaf b :: b_intermediates b) = None /\
  PublicKeyEqual (b_leaf b) (b_signer b) = Some true /\
  b_fingerprint b = fingerprintOf (b_leaf b) /\
  (forall c, c ∈ b_leaf b :: b_intermediates b -> ParseCertificate (x_raw c) = inr c) /\
  match b_signer b with OtherKey _ => False | _ => True end.

(** ** Lemmas *)

Context `{!CryptoLaws _}.

(** more fuel than the input is long changes nothing *)
Lemma parse_loop_fuel n m rest out :
  String.length rest <= n -> String.length rest <= m -> parse_loop n rest out = parse_loop m rest out.
Proof.
  revert m rest out. induction n as [|n IH]; intros [|m] rest out Hn Hm.
  - done.
  - destruct rest; [cbn; by rewrite pem_decode_empty|cbn in *; lia].
  - destruct rest; [cbn; by rewrite pem_decode_empty|cbn in *; lia].
  - cbn [parse_loop]. destruct (pem_decode rest) as [[blk rest']|] eqn:E; [|done].
    apply pem_decode_shrinks in E. case_match; [apply IH; lia|].
    case_match; [done|apply IH; lia].
Qed.

(** the loop run on what the encoder wrote *)
Lemma parse_loop_encode l fuel out :
  String.length (encode_certs l) <= fuel ->
  (forall c, c ∈ l -> ParseCertificate (x_raw c) = inr c) ->
  parse_loop fuel (encode_certs l) out = inr (out ++ l).
Proof.
  revert fuel out. induction l as [|c l IH]; intros fuel out Hf Hl; cbn [encode_certs] in *.
  - destruct fuel; cbn; [by rewrite app_nil_r|]. by rewrite pem_decode_empty, app_nil_r.
  - pose proof (pem_decode_encode pemTypeCertificate (x_raw c) (encode_certs l)) as Hd.
    fold (cert_block c) in Hd. pose proof (pem_decode_shrinks _ _ _ Hd).
    destruct fuel as [|fuel]; [lia|]. cbn [parse_loop]. rewrite Hd. cbn [blk_type blk_bytes].
    rewrite String.eqb_refl. cbn [negb]. rewrite Hl by constructor.
    rewrite IH; [by rewrite <-app_assoc|lia|]. intros c' Hc. apply Hl. by constructor.
Qed.

Lemma parseCertificates_encode c l :
  (forall c', c' ∈ c :: l -> ParseCertificate (x_raw c') = inr c') ->
  parseCertificates (encode_certs (c :: l)) = inr (c :: l).
Proof. intros Hl. unfold parseCertificates. by rewrite parse_loop_encode. Qed.

(** every certificate the loop returns parses back from its own DER *)
Lemma parse_loop_reparse fuel rest out l :
  (forall c, c ∈ out -> ParseCertificate (x_raw c) = inr c) ->
  parse_loop fuel rest out = inr l -> forall c, c ∈ l -> ParseCertificate (x_raw c) = inr c.
Proof.
  revert rest out. induction fuel as [|fuel IH]; intros rest out Ho; cbn [parse_loop].
  - by intros [= <-].
  - destruct (pem_decode rest) as [[blk rest']|]; [|by intros [= <-]].
    case_match; [by apply IH|]. destruct (ParseCertificate (blk_bytes blk)) as [|c] eqn:E; [done|].
    apply IH. intros c' [Hc'|Hc'%list_elem_of_singleton]%elem_of_app; [by apply Ho|]. subst c'.
    by rewrite (parse_keeps_raw _ _ E).
Qed.

Lemma parseCertificates_reparse s l :
  parseCertificates s = inr l -> l <> [] /\ forall c, c ∈ l -> ParseCertificate (x_raw c) = inr c.
Proof.
  unfold parseCertificates. destruct (parse_loop _ s []) as [|out] eqn:E; [done|].
  destruct out as [|c out]; [done|]. intros [= <-]. split; [done|].
  eapply parse_loop_reparse; [|exact E]. intros c' Hc. by apply elem_of_nil in Hc.
Qed.

Lemma parsePrivateKey_kind s k :
  parsePrivateKey s = inr k -> match k with OtherKey _ => False | _ => True end.
Proof.
  unfold parsePrivateKey. destruct (pem_decode s) as [[blk ?]|]; [|done].
  case_match; [done|].
  match goal with |- match ?key with _ => _ end = _ -> _ => destruct key as [|[]] end; by intros [= <-].
Qed.

Lemma ParseBundle_valid c k b : ParseBundle c k = inr b -> valid_bundle b.
Proof.
  unfold ParseBundle. destruct (parseCertificates c) as [|[|leaf rest]] eqn:Ec; [done..|].
  destruct (parsePrivateKey k) as [|signer] eqn:Ek; [done|].
  destruct (check_chain (leaf :: rest)) eqn:Eh; [done|].
  destruct (PublicKeyEqual leaf signer) as [[]|] eqn:Ep; [|done..].
  intros [= <-]. repeat split; cbn; try done.
  - by apply (parseCertificates_reparse _ _ Ec).
  - by apply (parsePrivateKey_kind _ _ Ek).
Qed.

Lemma fingerprint_64 b : valid_bundle b -> String.length (b_fingerprint b) = 64.
Proof. intros (_ & _ & -> & _). apply sha256_hex_length. Qed.

Lemma parsePrivateKey_KeyPEM b kp :
  valid_bundle b -> KeyPEM b = inr kp -> parsePrivateKey kp = inr (b_signer b).
Proof.
  intros (_ & _ & _ & _ & Hk). unfold KeyPEM, parsePrivateKey.
  assert (Hd : forall t x, pem_decode (pem_encode t x) = Some (mkPemBlock t ∅ x, "")).
  { intros t x. rewrite <-(pem_decode_encode t x ""). by rewrite str_app_nil_r. }
  destruct (b_signer b) as [k|k|k]; [| |done].
  - intros [= <-]. rewrite Hd. cbn [blk_headers blk_type blk_bytes]. rewrite lookup_empty.
    cbn [String.eqb Ascii.eqb Bool.eqb]. by rewrite parse_marshal_pkcs1.
  - destruct (MarshalECPrivateKey k) as [|der] eqn:E; [done|]. intros [= <-]. rewrite Hd.
    cbn [blk_headers blk_type blk_bytes]. rewrite lookup_empty.
    cbn [String.eqb Ascii.eqb Bool.eqb]. by rewrite (parse_marshal_ec _ _ E).
Qed.

End bundle.

(** ** A toy instance: length-prefixed blocks, hex digest, DER = the common name *)

Fixpoint unary (n : nat) (s : string) : string :=
  match n with 0 => String "0" s | S n => String "1" (unary n s) end.

Definition frame (s rest : string) : string := unary (String.length s) (s +:+ rest).

Fixpoint read_unary (s : string) : option (nat * string) :=
  match s with
  | String "0" s => Some (0, s)
  | String "1" s => match read_unary s with Some (n, r) => Some (S n, r) | None => None end
  | _ => None
  end.

Fixpoint str_drop (n : nat) (s : string) : string :=
  match n, s with S n, String _ s => str_drop n s | _, _ => s end.

Definition read_frame (s : string) : option (string * string) :=
  match read_unary s with
  | Some (n, r) => if n <=? String.length r then Some (str_take n r, str_drop n r) else None
  | None => None
  end.

Lemma read_unary_frame n s : read_unary (unary n s) = Some (n, s).
Proof. induction n as [|n IH]; cbn [unary read_unary]; [done|]. by rewrite IH. Qed.

Lemma str_drop_app s t : str_drop (String.length s) (s +:+ t) = t.
Proof. induction s as [|c s IH]; [by destruct t|]. apply IH. Qed.

Lemma str_take_app s t : str_take (String.length s) (s +:+ t) = s.
Proof. induction s as [|c s IH]; [by destruct t|]. cbn in *. by rewrite IH. Qed.

Lemma read_frame_frame s rest : read_frame (frame s rest) = Some (s, rest).
Proof.
  unfold read_frame, frame. rewrite read_unary_frame, length_str_app.
  rewrite (proj2 (Nat.leb_le _ _)) by lia. by rewrite str_take_app, str_drop_app.
Qed.

Lemma read_unary_shrinks s n r : read_unary s = Some (n, r) -> String.length r < String.length s.
Proof.
  revert n r. induction s as [|c s IH]; intros n r; [done|]. cbn [read_unary].
  repeat match goal with |- context [match ?x with _ => _ end] => destruct x end; try done.
  - intros [= <- <-]. specialize (IH _ _ eq_refl). cbn. lia.
  - intros [= <- <-]. cbn. lia.
Qed.

Lemma length_str_drop n s : String.length (str_drop n s) <= String.length s.
Proof. revert s. induction n as [|n IH]; intros [|c s]; cbn [str_drop String.length]; [lia..|]. specialize (IH s). lia. Qed.

Lemma read_frame_shrinks s t r : read_frame s = Some (t, r) -> String.length r < String.length s.
Proof.
  unfold read_frame. destruct (read_unary s) as [[n r']|] eqn:E; [|done].
  apply read_unary_shrinks in E. case_match; [|done]. intros [= <- <-].
  pose proof (length_str_drop n r'). lia.
Qed.

Definition toy_decode (s : string) : option (PemBlock * string) :=
  match read_frame s with
  | Some (t, r) =>
      match read_frame r with
      | Some (b, rest) => Some (mkPemBlock t ∅ b, rest)
      | None => None
      end
  | None => None
  end.

Definition toy_digest (s : string) : string :=
  let hex := (fix go s := match s with
    | EmptyString => EmptyString
    | String c s => hex_digits 2 (Z.of_N (N_of_ascii c)) +:+ go s
    end) s in
  str_take 64 (hex +:+ hex_digits 64 0).

Definition toy_cert (der : string) : X509 := mkX509 der "issuer" der der [der] 0 0.

Definition toy_crypto : Crypto := {|
  pem_decode := toy_decode;
  pem_encode t b := frame t (frame b "");
  ParseCertificate der := inr (toy_cert der);
  ParsePKCS1PrivateKey k := inr k;
  ParseECPrivateKey k := inr k;
  ParsePKCS8PrivateKey k := inr (OtherKey k);
  MarshalPKCS1PrivateKey k := k;
  MarshalECPrivateKey k := inr k;
  CheckSignatureFrom _ _ := None;
  CheckSignatureSelf _ := Some (EText "not self-signed");
  PublicKeyEqual _ _ := Some true;
  sha256_hex := toy_digest
|}.

Lemma frame_app s t r : frame s t +:+ r = frame s (t +:+ r).
Proof.
  unfold frame. rewrite <-str_app_assoc. generalize (s +:+ t). intros u.
  induction (String.length s) as [|n IH]; cbn [unary]; [done|]. cbn. f_equal. apply IH.
Qed.

#[export] Instance toy_crypto_laws : CryptoLaws toy_crypto.
Proof.
  split; cbn [pem_decode pem_encode ParseCertificate ParsePKCS1PrivateKey ParseECPrivateKey
               MarshalPKCS1PrivateKey MarshalECPrivateKey sha256_hex toy_crypto]; try done.
  - intros s b rest. unfold toy_decode. destruct (read_frame s) as [[t r]|] eqn:E1; [|done].
    destruct (read_frame r) as [[b' rest']|] eqn:E2; [|done]. intros [= <- <-].
    apply read_frame_shrinks in E1, E2. lia.
  - intros t bytes rest. unfold toy_decode. by rewrite !frame_app, read_frame_frame, read_frame_frame.
  - by intros der c [= <-].
  - intros s. unfold toy_digest. rewrite length_str_take, length_str_app, length_hex_digits. lia.
  - intros s. unfold toy_digest. apply str_forall_take. rewrite str_forall_app, hex_digits_lower, andb_true_r.
    induction s as [|c s IH]; [done|]. by rewrite str_forall_app, hex_digits_lower, IH.
Qed.

(** the normalised PEM of a bundle parses to the bundle *)
Lemma ParseBundle_CertPEM `{CL : CryptoLaws} (b : Bundle) (kp : string) :
  valid_bundle b -> KeyPEM b = inr kp ->
  ParseBundle (CertPEM b) kp = inr b /\ LeafFingerprint (CertPEM b) = inr (b_fingerprint b).
Proof.
  intros V Hk. pose proof (parsePrivateKey_KeyPEM _ _ V Hk) as Hs. destruct V as (Hc & Hp & Hf & Hr & _).
  unfold ParseBundle, LeafFingerprint. change (CertPEM b) with (encode_certs (b_leaf b :: b_intermediates b)).
  rewrite (parseCertificates_encode _ _ Hr), Hs, Hc, Hp, <-Hf. split; [|done]. by destruct b.
Qed.

(** ** Properties *)

(** C35: what the operator writes to the cloud is read back as what it was: the
    normalised PEM of a bundle parses, with its key, to the very same bundle, and
    the fingerprint computed from the certificate alone (all the cloud returns) is
    the bundle's, so that an applied certificate is recognised as ours. *)
Theorem ParseBundle_roundtrip `{CL : CryptoLaws} (c k kp : string) (b : Bundle) :
  ParseBundle c k = inr b -> KeyPEM b = inr kp ->
  ParseBundle (CertPEM b) kp = inr b /\ LeafFingerprint (CertPEM b) = inr (b_fingerprint b).
Proof.
  intros Hb Hk. apply ParseBundle_CertPEM; [|done]. by eapply ParseBundle_valid.
Qed.

Lemma ParseBundle_roundtrip_witness :
  let C := toy_crypto in
  let c := frame "X" (frame "y" "") +:+ frame "CERTIFICATE" (frame "leaf" "") +:+ frame "CERTIFICATE" (frame "ca" "") in
  let k := frame "EC PRIVATE KEY" (frame "key" "") in
  exists b kp, ParseBundle c k = inr b /\ KeyPEM b = inr kp /\ ParseBundle (CertPEM b) kp = inr b /\
    LeafFingerprint (CertPEM b) = inr (b_fingerprint b).
Proof.
  intros C c k. eexists _, _. split; [vm_compute; reflexivity|]. split; [vm_compute; reflexivity|].
  exact (@ParseBundle_roundtrip toy_crypto toy_crypto_laws c k _ _ eq_refl eq_refl).
Defined.
