(* ===== verification/Json.v ===== *)
(** * JSON texts (encoding/json)

    What [json.Marshal] writes for the strings, integers, booleans, slices and
    structs the operator renders: compact text, with the string escaping of
    [encodeState] (quotes, backslashes and control bytes; the HTML characters; the
    two line separators; a byte that starts no UTF-8 sequence becomes the
    replacement character).  [read_json] is a reader of such texts, and
    [read_write_json] says that it gets back the value that was written, with its
    strings made valid UTF-8: no string content can end its own quotes. *)
From S2P Require Import Prelude GoString GoTime GoError Bundle.

(** ** Values *)

#[local] Unset Elimination Schemes.

Inductive json : Type :=
| JNull
| JBool (b : bool)
| JNumber (n : nat)
| JString (s : string)
| JArray (l : list json)
| JObject (fields : list (string * json)).

#[local] Set Elimination Schemes.

(** the induction principle that goes through the lists *)
Section json_ind'.
  Variable P : json -> Prop.
  Hypothesis HNull : P JNull.
  Hypothesis HBool : forall b, P (JBool b).
  Hypothesis HNumber : forall n, P (JNumber n).
  Hypothesis HString : forall s, P (JString s).
  Hypothesis HArray : forall l, Forall P l -> P (JArray l).
  Hypothesis HObject : forall l, Forall (fun f => P f.2) l -> P (JObject l).

Fixpoint json_ind' (v : json) : P v :=
  match v with
  | JNull => HNull
  | JBool b => HBool b
  | JNumber n => HNumber n
  | JString s => HString s
  | JArray l =>
      HArray l ((fix go l := match l return Forall P l with
                             | [] => Forall_nil_2 _
                             | v :: l => Forall_cons_2 _ v l (json_ind' v) (go l)
                             end) l)
  | JObject l =>
      HObject l ((fix go l := match l return Forall (fun f => P f.2) l with
                              | [] => Forall_nil_2 _
                              | f :: l => Forall_cons_2 (fun f => P f.2) f l (json_ind' f.2) (go l)
                              end) l)
  end.
End json_ind'.

(** ** Writing *)

(** the runes of a string: a chunk of one byte is an ASCII character or a byte that
    starts no valid sequence, a longer one is a valid sequence *)
Fixpoint runes_fuel (fuel : nat) (s : string) : list string :=
  match fuel, s with
  | S fuel, String c s' =>
      match rune_width s with
      | 0 | 1 => String c "" :: runes_fuel fuel s'
      | n => str_take n s :: runes_fuel fuel (str_drop n s)
      end
  | _, _ => []
  end.

Definition runes (s : string) : list string := runes_fuel (String.length s) s.

Definition rune_self (c : ascii) : bool := (N_of_ascii c <? 128)%N.
Definition runeError : string := String "239" (String "191" (String "189" "")).
Definition line_separator : string := String "226" (String "128" (String "168" "")).
Definition paragraph_separator : string := String "226" (String "128" (String "169" "")).

(** [appendString], one byte below [utf8.RuneSelf] *)
Definition escape_byte (c : ascii) : string :=
  if Ascii.eqb c dquote || Ascii.eqb c "\" then String "\" (String c "")
  else if Ascii.eqb c "008" then "\b"
  else if Ascii.eqb c "012" then "\f"
  else if Ascii.eqb c "010" then "\n"
  else if Ascii.eqb c "013" then "\r"
  else if Ascii.eqb c "009" then "\t"
  else if (N_of_ascii c <? 32)%N || Ascii.eqb c "<" || Ascii.eqb c ">" || Ascii.eqb c "&"
  then "\u00" +:+ hex_digits 2 (Z.of_N (N_of_ascii c))
  else String c "".

Definition escape_rune (r : string) : string :=
  match r with
  | String c "" => if rune_self c then escape_byte c else "\ufffd"
  | _ =>
      if String.eqb r line_separator then "\u2028"
      else if String.eqb r paragraph_separator then "\u2029"
      else r
  end.

Definition concat_str (l : list string) : string := foldr String.append "" l.

Definition json_quote (s : string) : string :=
  String dquote (concat_str (escape_rune <$> runes s) +:+ String dquote "").

Fixpoint write_json (v : json) : string :=
  match v with
  | JNull => "null"
  | JBool b => bool_string b
  | JNumber n => pretty.pretty n
  | JString s => json_quote s
  | JArray l => "[" +:+ join "," (write_json <$> l) +:+ "]"
  | JObject l => "{" +:+ join "," ((fun f => json_quote f.1 +:+ ":" +:+ write_json f.2) <$> l) +:+ "}"
  end.

(** a nil slice is written [null], and no code of the operator renders an empty one
    that is not nil *)
Definition json_strings (l : list string) : json :=
  match l with [] => JNull | _ => JArray (JString <$> l) end.

(** ** Reading *)

Definition hex_val (c : ascii) : option N :=
  let n := N_of_ascii c in
  if (48 <=? n)%N && (n <=? 57)%N then Some (n - 48)%N
  else if (97 <=? n)%N && (n <=? 102)%N then Some (n - 87)%N
  else if (65 <=? n)%N && (n <=? 70)%N then Some (n - 55)%N
  else None.

Definition hex4 (a b c d : ascii) : option N :=
  match hex_val a, hex_val b, hex_val c, hex_val d with
  | Some a, Some b, Some c, Some d => Some (((a * 16 + b) * 16 + c) * 16 + d)%N
  | _, _, _, _ => None
  end.

(** UTF-8 of a code unit of the basic plane; a surrogate half is the replacement
    character *)
Definition utf8_encode (n : N) : string :=
  if (n <? 128)%N then String (ascii_of_N n) ""
  else if (n <? 2048)%N then String (ascii_of_N (192 + n / 64)) (String (ascii_of_N (128 + n mod 64)) "")
  else if (55296 <=? n)%N && (n <? 57344)%N then runeError
  else String (ascii_of_N (224 + n / 4096))
         (String (ascii_of_N (128 + (n / 64) mod 64)) (String (ascii_of_N (128 + n mod 64)) "")).

Definition unescape (c : ascii) : option ascii :=
  if Ascii.eqb c dquote || Ascii.eqb c "\" || Ascii.eqb c "/" then Some c
  else if Ascii.eqb c "b" then Some "008"%char
  else if Ascii.eqb c "f" then Some "012"%char
  else if Ascii.eqb c "n" then Some "010"%char
  else if Ascii.eqb c "r" then Some "013"%char
  else if Ascii.eqb c "t" then Some "009"%char
  else None.

Definition prepend (u : string) (r : option (string * string)) : option (string * string) :=
  match r with Some (t, rest) => Some (u +:+ t, rest) | None => None end.

(** the characters up to the closing quote *)
Fixpoint read_chars (s : string) : option (string * string) :=
  match s with
  | "" => None
  | String c s =>
      if Ascii.eqb c dquote then Some ("", s)
      else if Ascii.eqb c "\" then
        match s with
        | "" => None
        | String e s =>
            if Ascii.eqb e "u" then
              match s with
              | String h1 (String h2 (String h3 (String h4 s))) =>
                  match hex4 h1 h2 h3 h4 with
                  | Some n => prepend (utf8_encode n) (read_chars s)
                  | None => None
                  end
              | _ => None
              end
            else match unescape e with
                 | Some c => prepend (String c "") (read_chars s)
                 | None => None
                 end
        end
      else if (N_of_ascii c <? 32)%N then None
      else prepend (String c "") (read_chars s)
  end.

Definition is_digit (c : ascii) : bool := (48 <=? N_of_ascii c)%N && (N_of_ascii c <=? 57)%N.

Fixpoint read_digits (acc : N) (s : string) : N * string :=
  match s with
  | String c s' => if is_digit c then read_digits (10 * acc + (N_of_ascii c - 48)) s' else (acc, s)
  | "" => (acc, s)
  end.

Definition expect (p s : string) : option string :=
  if has_prefix s p then Some (str_drop (String.length p) s) else None.

Fixpoint read_value (fuel : nat) (s : string) : option (json * string) :=
  match fuel, s with
  | S fuel, String c r =>
      if Ascii.eqb c dquote then '(t, r) ← read_chars r; Some (JString t, r)
      else if Ascii.eqb c "[" then
        match expect "]" r with
        | Some r => Some (JArray [], r)
        | None => '(v, r) ← read_value fuel r; '(l, r) ← read_items fuel r; Some (JArray (v :: l), r)
        end
      else if Ascii.eqb c "{" then
        match expect "}" r with
        | Some r => Some (JObject [], r)
        | None => '(f, r) ← read_field fuel r; '(l, r) ← read_fields fuel r; Some (JObject (f :: l), r)
        end
      else if is_digit c then let '(n, r) := read_digits 0 s in Some (JNumber (N.to_nat n), r)
      else match expect "null" s, expect "true" s, expect "false" s with
           | Some r, _, _ => Some (JNull, r)
           | _, Some r, _ => Some (JBool true, r)
           | _, _, Some r => Some (JBool false, r)
           | _, _, _ => None
           end
  | _, _ => None
  end
with read_items (fuel : nat) (s : string) : option (list json * string) :=
  match fuel, s with
  | S fuel, String c r =>
      if Ascii.eqb c "]" then Some ([], r)
      else if Ascii.eqb c "," then
        '(v, r) ← read_value fuel r; '(l, r) ← read_items fuel r; Some (v :: l, r)
      else None
  | _, _ => None
  end
with read_field (fuel : nat) (s : string) : option ((string * json) * string) :=
  match fuel, s with
  | S fuel, String c r =>
      if Ascii.eqb c dquote then
        '(k, r) ← read_chars r; r ← expect ":" r; '(v, r) ← read_value fuel r; Some ((k, v), r)
      else None
  | _, _ => None
  end
with read_fields (fuel : nat) (s : string) : option (list (string * json) * string) :=
  match fuel, s with
  | S fuel, String c r =>
      if Ascii.eqb c "}" then Some ([], r)
      else if Ascii.eqb c "," then
        '(f, r) ← read_field fuel r; '(l, r) ← read_fields fuel r; Some (f :: l, r)
      else None
  | _, _ => None
  end.

(** a whole text: every call consumes a byte, so its length is enough fuel *)
Definition read_json (s : string) : option json :=
  match read_value (String.length s) s with
  | Some (v, "") => Some v
  | _ => None
  end.

(** [strings.ToValidUTF8] byte by byte: what a reader of the text gets back *)
Definition valid_rune (r : string) : string :=
  match r with
  | String c "" => if rune_self c then r else runeError
  | _ => r
  end.

Definition to_valid (s : string) : string := concat_str (valid_rune <$> runes s).

Fixpoint valid_json (v : json) : json :=
  match v with
  | JString s => JString (to_valid s)
  | JArray l => JArray (valid_json <$> l)
  | JObject l => JObject ((fun f => (to_valid f.1, valid_json f.2)) <$> l)
  | _ => v
  end.

(** ** Lemmas *)

Lemma prepend_app u v r : prepend u (prepend v r) = prepend (u +:+ v) r.
Proof. destruct r as [[t rest]|]; [|done]. cbn. by rewrite str_app_assoc. Qed.

Lemma rune_width_high c s :
  2 <= rune_width (String c s) -> rune_self c = false.
Proof.
  unfold rune_width, rune_self, byte_in. intros H. apply N.ltb_ge.
  repeat match type of H with context [if ?b then _ else _] =>
    let E := fresh "E" in destruct b eqn:E; [clear H | clear E] end; try lia.
  all: rewrite ?orb_true_iff, ?andb_true_iff, ?N.leb_le in *; lia.
Qed.

Definition high (c : ascii) : bool := negb (rune_self c).

(** what a chunk of [runes] is: one byte, or several bytes outside ASCII *)
Definition chunk (r : string) : Prop :=
  (exists c, r = String c "") \/ 2 <= String.length r /\ str_forall high r = true.

(** the width of a rune: one, or some bytes that are there and are not ASCII *)
Lemma rune_width_chunk c s :
  rune_width (String c s) <= 1 \/ chunk (str_take (rune_width (String c s)) (String c s)).
Proof.
  assert (Hh : forall lo hi d, byte_in lo hi d = true -> (128 <= lo)%N -> high d = true).
  { intros lo hi d. unfold byte_in, high, rune_self. rewrite andb_true_iff, !N.leb_le, negb_true_iff, N.ltb_ge. lia. }
  destruct (decide (2 <= rune_width (String c s))) as [W|]; [|left; lia]. right. right.
  pose proof (rune_width_high _ _ W) as Hc. revert W. unfold rune_width.
  repeat lazymatch goal with
  | |- context [if ?b then _ else _] => let E := fresh "E" in destruct b eqn:E
  | |- context [match ?s with EmptyString => _ | String _ _ => _ end] => is_var s; destruct s
  end; intros W; try lia; (split; [cbn; lia|]); cbn [str_take str_forall];
    change (high c) with (negb (rune_self c)); rewrite Hc; cbn [negb andb];
    repeat match goal with
    | H : byte_in ?lo ?hi ?d = true |- context [high ?d] => rewrite (Hh lo hi d H) by lia; clear H
    end; done.
Qed.

Lemma runes_chunks n s : Forall chunk (runes_fuel n s).
Proof.
  revert s. induction n as [|n IH]; intros [|c s]; try constructor. cbn [runes_fuel].
  pose proof (rune_width_chunk c s) as H.
  destruct (rune_width (String c s)) as [|[|w]];
    (constructor; [|apply IH]); [left; by exists c..|]. by destruct H as [?|H]; [lia|].
Qed.

Lemma read_high u s : str_forall high u = true -> read_chars (u +:+ s) = prepend u (read_chars s).
Proof.
  induction u as [|c u IH]; cbn [str_forall].
  - intros _. cbn. by destruct (read_chars s) as [[]|].
  - intros [Hc Hu]%andb_true_iff. change (String c u) with (String c "" +:+ u). rewrite <-prepend_app, <-IH by done.
    unfold high, rune_self in Hc. rewrite negb_true_iff, N.ltb_ge in Hc. cbn [String.append read_chars].
    destruct (Ascii.eqb_spec c dquote) as [->|]; [by destruct Hc|].
    destruct (Ascii.eqb_spec c "\") as [->|]; [by destruct Hc|].
    destruct (N.ltb_spec (N_of_ascii c) 32); [lia|done].
Qed.

Lemma read_escape_byte c s :
  rune_self c = true -> read_chars (escape_byte c +:+ s) = prepend (String c "") (read_chars s).
Proof. destruct c as [[] [] [] [] [] [] [] []]; intros H; first [discriminate H | reflexivity]. Qed.

Lemma read_escape_rune r s :
  chunk r -> read_chars (escape_rune r +:+ s) = prepend (valid_rune r) (read_chars s).
Proof.
  intros [[c ->]|[Hl Hh]].
  - cbn [escape_rune valid_rune]. destruct (rune_self c) eqn:E; [by apply read_escape_byte|reflexivity].
  - destruct r as [|a [|b r]]; [cbn in Hl; lia..|]. cbn [escape_rune valid_rune].
    destruct (String.eqb_spec (String a (String b r)) line_separator) as [->|]; [reflexivity|].
    destruct (String.eqb_spec (String a (String b r)) paragraph_separator) as [->|]; [reflexivity|].
    by apply read_high.
Qed.

Lemma read_escaped l s :
  Forall chunk l ->
  read_chars (concat_str (escape_rune <$> l) +:+ String dquote s) = Some (concat_str (valid_rune <$> l), s).
Proof.
  induction 1 as [|r l Hr _ IH]; [done|]. cbn [fmap list_fmap concat_str foldr].
  rewrite str_app_assoc, read_escape_rune by done. unfold concat_str in IH. by rewrite IH.
Qed.

(** a quoted string reads back as itself, made valid UTF-8 *)
Lemma read_quote s rest :
  json_quote s +:+ rest = String dquote (concat_str (escape_rune <$> runes s) +:+ String dquote rest) /\
  read_chars (concat_str (escape_rune <$> runes s) +:+ String dquote rest) = Some (to_valid s, rest).
Proof.
  split; [|apply read_escaped, runes_chunks]. unfold json_quote. cbn [String.append]. f_equal.
  by rewrite str_app_assoc.
Qed.

(** ASCII text is read back unchanged *)
Lemma to_valid_ascii s : str_forall rune_self s = true -> to_valid s = s.
Proof.
  unfold to_valid, runes. generalize (le_n (String.length s)). generalize (String.length s) at 2 3 as n.
  intros n. revert s. induction n as [|n IH]; intros [|c s]; cbn [String.length str_forall]; try done; [lia|].
  intros Hn [Hc Hs]%andb_true_iff. cbn [runes_fuel].
  assert (W : rune_width (String c s) <= 1).
  { destruct (decide (2 <= rune_width (String c s))) as [W|]; [|lia]. apply rune_width_high in W. congruence. }
  assert (R : concat_str (valid_rune <$> runes_fuel n s) = s) by (apply IH; [lia|done]).
  destruct (rune_width (String c s)) as [|[|]]; [..|lia];
    cbn [fmap list_fmap concat_str foldr valid_rune]; rewrite Hc; cbn [String.append]; by f_equal.
Qed.

Lemma expect_app p s : expect p (p +:+ s) = Some s.
Proof.
  unfold expect. rewrite str_drop_app. replace (has_prefix (p +:+ s) p) with true; [done|].
  induction p as [|c p IH]; [by destruct s|]. cbn. by rewrite Ascii.eqb_refl.
Qed.

(** the text after a number does not continue it *)
Definition ends_number (s : string) : Prop :=
  match s with String c _ => is_digit c = false | "" => True end.


Lemma digit_char n :
  is_digit (pretty.pretty_N_char n) = true /\
  ((n < 10)%N -> (N_of_ascii (pretty.pretty_N_char n) - 48 = n)%N).
Proof.
  split; [unfold pretty.pretty_N_char; by repeat case_match|]. intros H.
  assert (Hc : Forall (fun k => (N_of_ascii (pretty.pretty_N_char (N.of_nat k)) - 48 = N.of_nat k)%N) (seq 0 10))
    by (repeat constructor).
  rewrite Forall_forall in Hc. specialize (Hc (N.to_nat n)). rewrite N2Nat.id in Hc. apply Hc, elem_of_seq. lia.
Qed.

Lemma read_pretty_go n s : read_digits 0 (pretty.pretty_N_go n s) = read_digits n s.
Proof.
  revert s. induction (N.lt_wf_0 n) as [n _ IH]. intros s. destruct (decide (n = 0)%N) as [->|]; [done|].
  rewrite pretty.pretty_N_go_step, IH by (apply N.div_lt || idtac; lia). cbn [read_digits].
  destruct (digit_char (n mod 10)) as [-> Hv]. rewrite Hv by (by apply N.mod_lt).
  f_equal. pose proof (N.div_mod n 10). lia.
Qed.

(** a number is written with a digit first, and reads back *)
Lemma read_pretty n rest :
  ends_number rest ->
  (exists c t, pretty.pretty n = String c t /\ is_digit c = true) /\
  read_digits 0 (pretty.pretty n +:+ rest) = (N.of_nat n, rest).
Proof.
  intros Hr. assert (Hd : forall k, read_digits k rest = (k, rest)).
  { intros k. destruct rest as [|c r]; [done|]. cbn in *. by rewrite Hr. }
  assert (Hg : forall n s, pretty.pretty_N_go n s +:+ rest = pretty.pretty_N_go n (s +:+ rest)).
  { intros k. induction (N.lt_wf_0 k) as [k _ IH]. intros s. destruct (decide (k = 0)%N) as [->|]; [done|].
    rewrite !(pretty.pretty_N_go_step k), IH by (apply N.div_lt || idtac; lia). done. }
  assert (Hh : forall n s, (0 < n)%N -> exists c t, pretty.pretty_N_go n s = String c t /\ is_digit c = true).
  { intros k. induction (N.lt_wf_0 k) as [k _ IH]. intros s Hk. rewrite pretty.pretty_N_go_step by done.
    destruct (decide (k / 10 = 0)%N) as [->|Hq]; [|apply IH; [by apply N.div_lt|by apply N.neq_0_lt_0]].
    eexists _, _. split; [done|]. apply digit_char. }
  unfold pretty.pretty, pretty.pretty_nat, pretty.pretty, pretty.pretty_N. case_decide as E.
  - rewrite E. split; [by eexists _, _|]. cbn. by rewrite Hd.
  - split; [apply Hh; lia|]. by rewrite Hg, read_pretty_go, Hd.
Qed.

Definition commas (l : list string) : string := concat_str ((fun x => "," +:+ x) <$> l).

Lemma join_commas x l : join "," (x :: l) = x +:+ commas l.
Proof.
  revert x. induction l as [|y l IH]; intros x; [cbn; by rewrite str_app_nil_r|].
  change (join "," (x :: y :: l)) with (x +:+ "," +:+ join "," (y :: l)). by rewrite IH.
Qed.

(** the reader gets [x'] back from the text [x], whatever follows *)
Definition reads {A} (rd : nat -> string -> option (A * string)) (x : string) (x' : A) : Prop :=
  forall fuel rest, String.length x <= fuel -> ends_number rest -> rd fuel (x +:+ rest) = Some (x', rest).

Lemma ends_commas l close rest :
  ends_number close -> close <> "" -> ends_number (commas l +:+ close +:+ rest).
Proof. destruct l; [|done]. by destruct close. Qed.

Lemma read_items_commas xs vs :
  Forall2 (reads read_value) xs vs -> reads read_items (commas xs +:+ "]") vs.
Proof.
  induction 1 as [|x v xs vs Hx _ IH]; intros [|fuel] rest Hf Hr.
  1: by apply Nat.nle_succ_0 in Hf. 1: done.
  - rewrite length_str_app in Hf. cbn in Hf. lia.
  - change (commas (x :: xs)) with (("," +:+ x) +:+ commas xs) in *.
    rewrite !str_app_assoc, !length_str_app in *. cbn [String.length] in Hf.
    cbn [String.append read_items Ascii.eqb Bool.eqb].
    rewrite Hx by (lia || by apply (ends_commas xs "]")). cbn [mbind option_bind].
    specialize (IH fuel rest). rewrite length_str_app, str_app_assoc in IH. cbn [String.append String.length] in IH.
    by rewrite IH by (lia || done).
Qed.

Lemma read_fields_commas xs vs :
  Forall2 (reads read_field) xs vs -> reads read_fields (commas xs +:+ "}") vs.
Proof.
  induction 1 as [|x v xs vs Hx _ IH]; intros [|fuel] rest Hf Hr.
  1: by apply Nat.nle_succ_0 in Hf. 1: done.
  - rewrite length_str_app in Hf. cbn in Hf. lia.
  - change (commas (x :: xs)) with (("," +:+ x) +:+ commas xs) in *.
    rewrite !str_app_assoc, !length_str_app in *. cbn [String.length] in Hf.
    cbn [String.append read_fields Ascii.eqb Bool.eqb].
    rewrite Hx by (lia || by apply (ends_commas xs "}")). cbn [mbind option_bind].
    specialize (IH fuel rest). rewrite length_str_app, str_app_assoc in IH. cbn [String.append String.length] in IH.
    by rewrite IH by (lia || done).
Qed.

Lemma read_field_written k x v :
  reads read_value x v -> reads read_field (json_quote k +:+ ":" +:+ x) (to_valid k, v).
Proof.
  intros Hx fuel rest Hf Hr. rewrite !length_str_app in Hf. cbn in Hf. rewrite !str_app_assoc.
  destruct (read_quote k (":" +:+ x +:+ rest)) as [-> Hk]. destruct fuel as [|fuel]; [lia|].
  cbn [read_field]. rewrite Ascii.eqb_refl, Hk. cbn [mbind option_bind]. rewrite expect_app. cbn [mbind option_bind].
  rewrite Hx by (done || lia). done.
Qed.

(** what is written after an opening bracket is not the closing one *)
Lemma written_head v : exists c t, write_json v = String c t /\ c <> "]"%char /\ c <> "}"%char.
Proof.
  destruct v as [|[]|n|s|l|l]; try (by eexists _, _).
  destruct (proj1 (read_pretty n "" I)) as (c & t & E & D). cbn [write_json]. rewrite E.
  eexists _, _. split; [done|]. by split; intros ->.
Qed.

Lemma reads_array l : Forall (fun v => reads read_value (write_json v) (valid_json v)) l ->
  reads read_value (write_json (JArray l)) (valid_json (JArray l)).
Proof.
  intros Hl [|fuel] rest Hf Hr; cbn [write_json] in *.
  { by apply Nat.nle_succ_0 in Hf. }
  destruct l as [|v l]; [done|]. inversion Hl as [|? ? Hv Hl']; subst.
  cbn [fmap list_fmap] in Hf |- *. rewrite join_commas in *. rewrite !length_str_app in Hf. cbn [String.length] in Hf.
  rewrite !str_app_assoc. cbn [String.append read_value Ascii.eqb Bool.eqb dquote].
  destruct (written_head v) as (c & t & E & N1 & _).
  replace (expect "]" _) with (@None string); cycle 1.
  { rewrite E. unfold expect. cbn [String.append has_prefix]. by rewrite (proj2 (Ascii.eqb_neq "]" c)) by congruence. }
  rewrite Hv by (lia || by apply (ends_commas _ "]")). cbn [mbind option_bind].
  pose proof (read_items_commas (write_json <$> l) (valid_json <$> l)) as IH.
  specialize (IH (proj2 (Forall2_fmap _ _ _ _ _) (Forall_Forall2_diag _ _ Hl')) fuel rest).
  rewrite length_str_app, str_app_assoc in IH. cbn [String.append String.length] in IH.
  by rewrite IH by (lia || done).
Qed.

Definition write_field (f : string * json) : string := json_quote f.1 +:+ ":" +:+ write_json f.2.

Lemma reads_object l : Forall (fun f => reads read_value (write_json f.2) (valid_json f.2)) l ->
  reads read_value (write_json (JObject l)) (valid_json (JObject l)).
Proof.
  intros Hl [|fuel] rest Hf Hr; cbn [write_json] in *.
  { by apply Nat.nle_succ_0 in Hf. }
  change (fun f : string * json => json_quote f.1 +:+ ":" +:+ write_json f.2) with write_field in *.
  assert (Hw : Forall (fun f => reads read_field (write_field f) (to_valid f.1, valid_json f.2)) l).
  { eapply Forall_impl; [exact Hl|]. intros f Hv. by apply read_field_written. }
  destruct l as [|f l]; [done|]. inversion Hw as [|? ? Hv Hl']; subst.
  cbn [fmap list_fmap] in Hf |- *. rewrite join_commas in *. rewrite !length_str_app in Hf. cbn [String.length] in Hf.
  rewrite !str_app_assoc. cbn [String.append read_value Ascii.eqb Bool.eqb dquote].
  replace (expect "}" _) with (@None string) by done.
  rewrite Hv by (lia || by apply (ends_commas _ "}")). cbn [mbind option_bind].
  pose proof (read_fields_commas (write_field <$> l) ((fun f => (to_valid f.1, valid_json f.2)) <$> l)) as IH.
  specialize (IH (proj2 (Forall2_fmap _ _ _ _ _) (Forall_Forall2_diag _ _ Hl')) fuel rest).
  rewrite length_str_app, str_app_assoc in IH. cbn [String.append String.length] in IH.
  by rewrite IH by (lia || done).
Qed.

Lemma reads_number n : reads read_value (write_json (JNumber n)) (valid_json (JNumber n)).
Proof.
  intros fuel rest Hf Hr. cbn [write_json] in *. destruct (read_pretty n rest Hr) as [(c & t & E & D) R].
  rewrite E in *. destruct fuel as [|fuel]; [by apply Nat.nle_succ_0 in Hf|]. cbn [String.append read_value] in *.
  assert (forall x, is_digit x = false -> Ascii.eqb c x = false) as Hx.
  { intros x Hx. apply Ascii.eqb_neq. congruence. }
  rewrite !Hx, D, R by done. by rewrite Nat2N.id.
Qed.

(** every value is read back, its strings made valid UTF-8 *)
Lemma read_write_value v : reads read_value (write_json v) (valid_json v).
Proof.
  induction v using json_ind'; try by apply reads_array. 5: by apply reads_object.
  - by intros [|fuel] rest Hf; [apply Nat.nle_succ_0 in Hf|].
  - by destruct b; intros [|fuel] rest Hf; [apply Nat.nle_succ_0 in Hf| |apply Nat.nle_succ_0 in Hf|].
  - apply reads_number.
  - intros [|fuel] rest Hf _; cbn [write_json] in *; [by apply Nat.nle_succ_0 in Hf|].
    destruct (read_quote s rest) as [-> R]. cbn [read_value]. by rewrite Ascii.eqb_refl, R.
Qed.

Lemma read_write_json v : read_json (write_json v) = Some (valid_json v).
Proof.
  unfold read_json. pose proof (read_write_value v (String.length (write_json v)) "" (le_n _) I) as R.
  rewrite str_app_nil_r in R. by rewrite R.
Qed.
