(* ===== verification/Redaction.v ===== *)
(** * What logs may show (String, GoString and MarshalJSON of pkg/pki and pkg/aliyun)

    A log line renders a value with [fmt] or with [encoding/json].  Three types that
    hold a private key (pki.Bundle, aliyun.CertConfig and the update input that
    contains one) and the opaque write body (aliyun.DomainEcho) implement the three
    interfaces by a summary.  The theorem says what a reader of the log can learn from
    these types, and from a CustomDomain, which has no methods of its own.  Types that the
    code does not redact (provider.CertMaterial, aliyun.Credentials) are outside: nothing
    is claimed of a log line that renders one.  The [String] methods are in Bundle and
    Cloud; an encoder that meets a value with MarshalJSON, also inside another one, writes
    the text the method returns (already compact and escaped, so that the encoder's own
    compaction leaves it as it is). *)
From S2P Require Import Prelude GoString GoTime Api GoError Bundle Cloud Json.

(** ** Definitions *)

(** *** pkg/pki/bundle.go *)

Section bundle.
  Context `{Crypto}.

Definition Bundle_GoString (b : Bundle) : string := Bundle_String b.

Definition Bundle_json (b : Bundle) : json :=
  let '(fp, names, n) := redactedFields b in
  JObject [("fingerprint", JString fp); ("dnsNames", json_strings names);
           ("intermediates", JNumber n); ("key", JString Bundle.redactedKey)].

Definition Bundle_MarshalJSON (b : Bundle) : string := write_json (Bundle_json b).

End bundle.

(** *** pkg/aliyun/fc3.go *)

Definition CertConfig_redacted (c : CertConfig) : json :=
  JObject [("certName", JString (ccf_name c)); ("certBytes", JNumber (String.length (ccf_cert_pem c)));
           ("key", JString Cloud.redactedKey)].

Definition CertConfig_GoString (c : CertConfig) : string := CertConfig_String c.
Definition CertConfig_MarshalJSON (c : CertConfig) : string := write_json (CertConfig_redacted c).

Definition echoOpaque : string := "<opaque>".

Definition DomainEcho_String (e : DomainEcho) : string := "aliyun.DomainEcho{" +:+ echoOpaque +:+ "}".
Definition DomainEcho_GoString (e : DomainEcho) : string := DomainEcho_String e.
Definition DomainEcho_json (e : DomainEcho) : json := JString echoOpaque.
Definition DomainEcho_MarshalJSON (e : DomainEcho) : string := write_json (DomainEcho_json e).

(** [certConfig] is [omitempty]: a nil interface is left out *)
Definition UpdateInput_redacted (u : UpdateCustomDomainInput) : json :=
  let cc := match ui_cert_config u with
            | Some c => [("certConfig", CertConfig_redacted c)]
            | None => []
            end in
  JObject ([("protocol", JString (ui_protocol u))] ++ cc ++ [("clearCert", JBool (ui_clear_cert u))]).

Definition UpdateInput_GoString (u : UpdateCustomDomainInput) : string := UpdateInput_String u.
Definition UpdateInput_MarshalJSON (u : UpdateCustomDomainInput) : string := write_json (UpdateInput_redacted u).

(** a CustomDomain has no methods: its fields are encoded by reflection, the echo by
    its own method *)
Definition CustomDomain_json (d : CustomDomain) : json :=
  JObject [("AccountID", JString (cd_account_id d)); ("DomainName", JString (cd_domain_name d));
           ("Protocol", JString (cd_protocol d)); ("CertName", JString (cd_cert_name d));
           ("CertificatePEM", JString (cd_certificate_pem d)); ("Echo", DomainEcho_json (cd_echo d))].

(** ** What may be shown *)

(** a renderer [shows] a view when values with the same view are rendered alike *)
Definition shows {A B} (view : A -> B) (render : A -> string) : Prop :=
  forall x y, view x = view y -> render x = render y.

Definition public_bundle `{Crypto} (b : Bundle) : string * list string * nat :=
  (b_fingerprint b, DNSNames b, length (b_intermediates b)).

Definition public_config (c : CertConfig) : string * nat := (ccf_name c, String.length (ccf_cert_pem c)).

Definition public_input (u : UpdateCustomDomainInput) : string * option (string * nat) * bool :=
  (ui_protocol u, public_config <$> ui_cert_config u, ui_clear_cert u).

(** the texts as a reader of the log parses them *)
Definition bundle_text (v : string * list string * nat) : json :=
  let '(fp, names, n) := v in
  JObject [("fingerprint", JString (to_valid fp)); ("dnsNames", json_strings (to_valid <$> names));
           ("intermediates", JNumber n); ("key", JString "<redacted>")].

Definition config_text (v : string * nat) : json :=
  JObject [("certName", JString (to_valid v.1)); ("certBytes", JNumber v.2); ("key", JString "<redacted>")].

Definition input_text (v : string * option (string * nat) * bool) : json :=
  let '(protocol, cc, clear) := v in
  JObject (("protocol", JString (to_valid protocol)) ::
           match cc with Some c => [("certConfig", config_text c)] | None => [] end ++
           [("clearCert", JBool clear)]).

(** ** Lemmas *)

Lemma valid_json_strings l : valid_json (json_strings l) = json_strings (to_valid <$> l).
Proof.
  destruct l as [|s l]; [done|]. cbn. do 2 f_equal. rewrite <-!list_fmap_compose. by apply list_fmap_ext.
Qed.

Lemma config_shows : shows public_config CertConfig_String /\ shows public_config CertConfig_MarshalJSON.
Proof.
  split; intros [n c k] [n' c' k']; unfold public_config, CertConfig_String, CertConfig_MarshalJSON,
    CertConfig_redacted; cbn [ccf_name ccf_cert_pem]; by intros [= -> ->].
Qed.

Lemma input_shows : shows public_input UpdateInput_String /\ shows public_input UpdateInput_MarshalJSON.
Proof.
  split; intros [p cc cl e] [p' cc' cl' e']; unfold public_input, UpdateInput_String, UpdateInput_MarshalJSON,
    UpdateInput_redacted; cbn [ui_protocol ui_cert_config ui_clear_cert]; intros [= -> Hc ->];
    destruct cc as [[n c k]|], cc' as [[n' c' k']|]; cbn in Hc; try done;
    injection Hc as -> Hl; unfold CertConfig_String, CertConfig_redacted; cbn [ccf_name ccf_cert_pem]; by rewrite Hl.
Qed.

Lemma bundle_shows `{Crypto} : shows public_bundle Bundle_String /\ shows public_bundle Bundle_MarshalJSON.
Proof.
  split; intros b b'; unfold public_bundle, Bundle_String, Bundle_MarshalJSON, Bundle_json, redactedFields;
    by intros [= -> -> ->].
Qed.

(** ** Properties *)

(** C16: what the renderings of the redacted types show.  Those of a bundle (String,
    GoString, JSON) are functions of its fingerprint, its names and the length of its
    chain, those of a certificate configuration of its name and the size of its
    certificate, those of an update of its protocol, its clear flag and the same of its
    configuration, and those of an echo of nothing: so no private key, no body of an
    update and no certificate of a configuration is in them.  The JSON texts parse back to
    exactly these fields with the placeholder for the key, whatever bytes the fields hold,
    so that no field value can forge another.  The JSON of a domain that was read, which
    has no rendering of its own, shows its certificate, which is public, and the
    placeholder for what was read besides. *)
Theorem redacted_types_show_public_fields_only `{Crypto} :
  (shows public_bundle Bundle_String /\ shows public_bundle Bundle_GoString /\
   shows public_bundle Bundle_MarshalJSON /\
   forall b, read_json (Bundle_MarshalJSON b) = Some (bundle_text (public_bundle b))) /\
  (shows public_input UpdateInput_String /\ shows public_input UpdateInput_GoString /\
   shows public_input UpdateInput_MarshalJSON /\
   forall u, read_json (UpdateInput_MarshalJSON u) = Some (input_text (public_input u))) /\
  (shows public_config CertConfig_String /\ shows public_config CertConfig_GoString /\
   shows public_config CertConfig_MarshalJSON /\
   forall c, read_json (CertConfig_MarshalJSON c) = Some (config_text (public_config c))) /\
  (shows (fun _ : DomainEcho => tt) DomainEcho_String /\ shows (fun _ : DomainEcho => tt) DomainEcho_GoString /\
   shows (fun _ : DomainEcho => tt) DomainEcho_MarshalJSON /\
   forall d,
     read_json (write_json (CustomDomain_json d)) =
       Some (JObject [("AccountID", JString (to_valid (cd_account_id d)));
                      ("DomainName", JString (to_valid (cd_domain_name d)));
                      ("Protocol", JString (to_valid (cd_protocol d)));
                      ("CertName", JString (to_valid (cd_cert_name d)));
                      ("CertificatePEM", JString (to_valid (cd_certificate_pem d)));
                      ("Echo", JString "<opaque>")])).
Proof.
  destruct bundle_shows as [B1 B2], input_shows as [I1 I2], config_shows as [C1 C2].
  split_and!; try done.
  - intros b. unfold Bundle_MarshalJSON. rewrite read_write_json. unfold Bundle_json, public_bundle, redactedFields.
    cbn [valid_json fmap list_fmap fst snd bundle_text]. by rewrite valid_json_strings.
  - intros [p [[n c k]|] cl e]; unfold UpdateInput_MarshalJSON; by rewrite read_write_json.
  - intros c. unfold CertConfig_MarshalJSON. by rewrite read_write_json.
  - intros d. by rewrite read_write_json.
Qed.
