(* ===== verification/TestUtil.v ===== *)
(** * Test certificates (pkg/pki/testutil/testutil.go)

    The package that makes the chains and keys the tests feed to the operator.  The
    libraries it calls (key generation, x509.CreateCertificate, PEM with headers) are
    the parameter [Issuing] over [Crypto], with [IssuingLaws]; [toy_issuing] is an
    instance.  A function returns, stops the test ([t.Fatalf]), or panics (the first
    name of an empty list).  The theorem says that the fixtures are what the tests
    take them for, and so that ParseBundle accepts the chains a CA issues. *)
From S2P Require Import Prelude GoString GoTime GoError Bundle.

(** ** Standard library *)

(** x509.Certificate as a template: the fields the package sets *)
Record Template : Type := mkTemplate {
  t_serial : Z;
  t_common_name : string;
  t_dns_names : list string;
  t_not_before : gotime;
  t_not_after : gotime;
  t_is_ca : bool;
  t_key_usage : Z;
  t_ext_key_usage : list Z;
  t_basic_constraints : bool
}.

Definition KeyUsageDigitalSignature : Z := 1.
Definition KeyUsageCertSign : Z := 32.
Definition ExtKeyUsageServerAuth : Z := 1.

(** the randomness and the clock are a [world] the calls read *)
Class Issuing (C : Crypto) : Type := {
  world : Type;
  PublicKey : Type;
  Public : PrivateKey -> PublicKey;
  time_Now : world -> gotime * world;
  (* ecdsa.GenerateKey(elliptic.P256(), rand.Reader), rsa.GenerateKey(rand.Reader, bits) *)
  ecdsa_GenerateKey : world -> (goerr + string) * world;
  rsa_GenerateKey : Z -> world -> (goerr + string) * world;
  (* rand.Int(rand.Reader, max) *)
  rand_Int : Z -> world -> (goerr + Z) * world;
  (* the parent is a template or a certificate *)
  CreateCertificate : Template -> Template + X509 -> PublicKey -> PrivateKey -> world -> (goerr + string) * world;
  MarshalPKCS8PrivateKey : PrivateKey -> goerr + string;
  (* pem.EncodeToMemory of a block with headers *)
  pem_encode_block : PemBlock -> string;
  (* the DER of a name that has a common name only *)
  marshal_name : string -> string;
  (* IsCA, with valid basic constraints and the usage CertSign *)
  may_sign : X509 -> bool
}.

Definition template_may_sign (t : Template) : bool :=
  t_basic_constraints t && t_is_ca t && Z.testbit (t_key_usage t) 5.

(** a header word that PEM writes and reads unchanged *)
Definition header_char (c : ascii) : bool :=
  byte_in 48 57 c || byte_in 65 90 c || byte_in 97 122 c || Ascii.eqb c "-" || Ascii.eqb c ",".

(** what x509.CreateCertificate promises of the certificate it returns *)
Definition created_by `{Issuing} (t : Template) (parent : Template + X509) (pub : PublicKey) (k : PrivateKey) (c : X509) : Prop :=
  x_common_name c = t_common_name t /\ x_dns_names c = t_dns_names t /\
  x_raw_subject c = marshal_name (t_common_name t) /\
  (forall k', pub = Public k' -> PublicKeyEqual c k' = Some true) /\
  may_sign c = template_may_sign t /\
  (pub = Public k -> CheckSignatureSelf c = None) /\
  match parent with
  | inl p => x_raw_issuer c = marshal_name (t_common_name p)
  | inr p => x_raw_issuer c = x_raw_subject p /\
             (may_sign p = true -> PublicKeyEqual p k = Some true -> CheckSignatureFrom c p = None)
  end.

Class IssuingLaws (C : Crypto) (I : Issuing C) : Prop := {
  create_creates t p pub k w der w' :
    CreateCertificate t p pub k w = (inr der, w') -> exists c, ParseCertificate der = inr c /\ created_by t p pub k c;
  pem_encode_is_block t x : pem_encode t x = pem_encode_block (mkPemBlock t ∅ x);
  pem_decode_block b rest :
    map_Forall (fun k v => str_forall header_char k = true /\ str_forall header_char v = true) (blk_headers b) ->
    pem_decode (pem_encode_block b +:+ rest) = Some (b, rest);
  marshal_name_inj n n' : marshal_name n = marshal_name n' -> n = n';
  parse_marshal_pkcs8 k der : MarshalPKCS8PrivateKey k = inr der -> ParsePKCS8PrivateKey der = inr k
}.

(** ** Definitions *)

(** a test goes on, or it is stopped by [t.Fatalf] or a panic *)
Inductive outcome (A : Type) : Type :=
| Done (a : A)
| Fatal (msg : string)
| Panic.
Arguments Done {A} a. Arguments Fatal {A} msg. Arguments Panic {A}.

Module TestUtil.
Section testutil.
  Context `{I : Issuing}.

Definition T (A : Type) : Type := world -> outcome (A * world).

#[export] Instance T_ret : MRet T := fun A a w => Done (a, w).

#[export] Instance T_bind : MBind T := fun A B f m w =>
  match m w with
  | Done (a, w) => f a w
  | Fatal msg => Fatal msg
  | Panic => Panic
  end.

(** a library call whose error stops the test *)
Definition must {A} (what : string) (call : world -> (goerr + A) * world) : T A := fun w =>
  match call w with
  | (inl e, _) => Fatal (what +:+ err_text e)
  | (inr a, w) => Done (a, w)
  end.

(** a pure one *)
Definition must_pure {A} (what : string) (r : goerr + A) : T A := must what (fun w => (r, w)).

Definition now : T gotime := fun w => Done (time_Now w).

Record CA : Type := mkCA {
  Cert : X509;
  Key : PrivateKey
}.

Definition mustKey : T string := must "生成密钥失败: " ecdsa_GenerateKey.

Definition serial : T Z := must "生成序列号失败: " (rand_Int (2 ^ 120)).

Definition NewCA : T CA :=
  key ← mustKey;
  n ← serial;
  t1 ← now;
  t2 ← now;
  let tmpl := mkTemplate n "Test Intermediate CA" [] (t1 - hour) (t2 + 24 * hour) true
                (Z.lor KeyUsageCertSign KeyUsageDigitalSignature) [] true in
  der ← must "创建 CA 失败: " (CreateCertificate tmpl (inl tmpl) (Public (ECDSAKey key)) (ECDSAKey key));
  cert ← must_pure "解析 CA 失败: " (ParseCertificate der);
  mret (mkCA cert (ECDSAKey key)).

(** the index [dnsNames[0]] *)
Definition first_name (dnsNames : list string) : T string := fun w =>
  match dnsNames with
  | n :: _ => Done (n, w)
  | [] => Panic
  end.

Definition leafTemplate (dnsNames : list string) : T Template :=
  n ← serial;
  cn ← first_name dnsNames;
  t1 ← now;
  t2 ← now;
  mret (mkTemplate n cn dnsNames (t1 - hour) (t2 + 90 * 24 * hour) false
         KeyUsageDigitalSignature [ExtKeyUsageServerAuth] false).

Definition issueLeaf (ca : CA) (pub : PublicKey) (dnsNames : list string) : T string :=
  tmpl ← leafTemplate dnsNames;
  der ← must "签发 leaf 失败: " (CreateCertificate tmpl (inr (Cert ca)) pub (Key ca));
  mret (pem_encode "CERTIFICATE" der +:+ pem_encode "CERTIFICATE" (x_raw (Cert ca))).

Definition IssueLeaf (ca : CA) (dnsNames : list string) : T (string * string) :=
  key ← mustKey;
  certPEM ← issueLeaf ca (Public (ECDSAKey key)) dnsNames;
  keyDER ← must_pure "编码私钥失败: " (MarshalECPrivateKey key);
  mret (certPEM, pem_encode "EC PRIVATE KEY" keyDER).

Definition IssueLeafRSA (ca : CA) (dnsNames : list string) : T (string * string) :=
  key ← must "生成 RSA 密钥失败: " (rsa_GenerateKey 2048);
  certPEM ← issueLeaf ca (Public (RSAKey key)) dnsNames;
  mret (certPEM, pem_encode "RSA PRIVATE KEY" (MarshalPKCS1PrivateKey key)).

(** the error of [MarshalECPrivateKey] is dropped: its DER is then nil *)
Definition SelfSigned (dnsNames : list string) : T (string * string) :=
  key ← mustKey;
  n ← serial;
  cn ← first_name dnsNames;
  t1 ← now;
  t2 ← now;
  let tmpl := mkTemplate n cn dnsNames (t1 - hour) (t2 + 24 * hour) false KeyUsageDigitalSignature [] false in
  der ← must "创建自签证书失败: " (CreateCertificate tmpl (inl tmpl) (Public (ECDSAKey key)) (ECDSAKey key));
  let keyDER := match MarshalECPrivateKey key with inr der => der | inl _ => "" end in
  mret (pem_encode "CERTIFICATE" der, pem_encode "EC PRIVATE KEY" keyDER).

Definition ToPKCS8 (keyPEM : string) : T string :=
  match pem_decode keyPEM with
  | None => fun _ => Fatal "解析私钥失败: 未找到 PEM 块"
  | Some (blk, _) =>
      let parsed :=
        if String.eqb (blk_type blk) "EC PRIVATE KEY" then
          Some (match ParseECPrivateKey (blk_bytes blk) with inl e => inl e | inr k => inr (ECDSAKey k) end)
        else if String.eqb (blk_type blk) "RSA PRIVATE KEY" then
          Some (match ParsePKCS1PrivateKey (blk_bytes blk) with inl e => inl e | inr k => inr (RSAKey k) end)
        else None in
      match parsed with
      | None => fun _ => Fatal ("不支持的私钥 PEM 类型: " +:+ quote (blk_type blk))
      | Some r =>
          k ← must_pure "解析私钥失败: " r;
          der ← must_pure "PKCS8 编码失败: " (MarshalPKCS8PrivateKey k);
          mret (pem_encode "PRIVATE KEY" der)
      end
  end.

Definition Encrypted : string :=
  pem_encode_block
    (mkPemBlock "RSA PRIVATE KEY" {[ "Proc-Type" := "4,ENCRYPTED"; "DEK-Info" := "AES-128-CBC,00" ]} "not-a-real-key").

(** ** Lemmas *)

Lemma bind_done {A B} (m : T A) (f : A -> T B) w r :
  (m ≫= f) w = Done r -> exists a w1, m w = Done (a, w1) /\ f a w1 = Done r.
Proof using Type. unfold mbind, T_bind. destruct (m w) as [[a w1]| |]; [|done..]. eauto. Qed.

Lemma must_done {A} what (call : world -> (goerr + A) * world) w a w' :
  must what call w = Done (a, w') -> call w = (inr a, w').
Proof using Type. unfold must. by destruct (call w) as [[e|x] v]; intros [= -> ->]. Qed.

Lemma must_pure_done {A} what (r : goerr + A) w a w' : must_pure what r w = Done (a, w') -> r = inr a.
Proof using Type. unfold must_pure. intros H. apply must_done in H. by injection H. Qed.

End testutil.

(** the steps of a run that went through *)
Ltac run_inv H :=
  lazymatch type of H with
  | (_ ≫= _) _ = Done _ =>
      let x := fresh "x" in let v := fresh "v" in let E := fresh "E" in
      apply bind_done in H as (x & v & E & H); cbv beta zeta in H; run_inv H
  | mret _ _ = Done _ => injection H as <- <-
  | _ => idtac
  end.

Section lemmas.
  Context {C : Crypto} {I : Issuing C} {CL : CryptoLaws C} {IL : IssuingLaws C I}.

Lemma CreateCertificate_done what t p pub k w der w' :
  must what (CreateCertificate t p pub k) w = Done (der, w') ->
  exists c, ParseCertificate der = inr c /\ x_raw c = der /\ created_by t p pub k c.
Proof.
  intros H. apply must_done in H. destruct (create_creates _ _ _ _ _ _ _ H) as (c & Hp & Hc).
  exists c. split; [done|]. split; [by eapply parse_keeps_raw|done].
Qed.

(** a CA may sign, with the key it comes with *)
Lemma NewCA_done w ca w' :
  NewCA w = Done (ca, w') ->
  may_sign (Cert ca) = true /\ PublicKeyEqual (Cert ca) (Key ca) = Some true /\
  ParseCertificate (x_raw (Cert ca)) = inr (Cert ca) /\ x_raw_subject (Cert ca) = marshal_name "Test Intermediate CA".
Proof.
  unfold NewCA. intros H. run_inv H. apply must_pure_done in E4.
  destruct (CreateCertificate_done _ _ _ _ _ _ _ _ E3) as (c & Hp & Hr & Hc).
  rewrite Hp in E4. injection E4 as <-. cbn [Cert Key]. destruct Hc as (_ & _ & Hs & Hk & Hm & _).
  rewrite Hr. split; [by rewrite Hm|]. split; [by apply Hk|]. by split.
Qed.

Lemma pem_decode_encode_one t x : pem_decode (pem_encode t x) = Some (mkPemBlock t ∅ x, "").
Proof. rewrite <-(pem_decode_encode t x ""). by rewrite str_app_nil_r. Qed.

(** the chain a CA issues for a key *)
Lemma issueLeaf_done ca pub names w pem w' :
  may_sign (Cert ca) = true -> PublicKeyEqual (Cert ca) (Key ca) = Some true ->
  ParseCertificate (x_raw (Cert ca)) = inr (Cert ca) ->
  issueLeaf ca pub names w = Done (pem, w') ->
  exists leaf n rest, names = n :: rest /\ parseCertificates pem = inr [leaf; Cert ca] /\
    check_chain [leaf; Cert ca] = None /\ x_dns_names leaf = names /\ x_common_name leaf = n /\
    x_raw_subject leaf = marshal_name n /\ x_raw_issuer leaf = x_raw_subject (Cert ca) /\
    forall k, pub = Public k -> PublicKeyEqual leaf k = Some true.
Proof.
  intros Hm Hk Hp H. unfold issueLeaf, leafTemplate in H. run_inv H. run_inv E.
  destruct names as [|n rest]; [done|]. injection E2 as <- <-.
  destruct (CreateCertificate_done _ _ _ _ _ _ _ _ E0) as (leaf & Hpl & Hr & Hc).
  destruct Hc as (Hcn & Hdn & Hs & Hpk & _ & _ & Hi & Hsig).
  exists leaf, n, rest. split; [done|]. split.
  { rewrite <-Hr. change (pem_encode "CERTIFICATE") with (pem_encode pemTypeCertificate).
    fold (cert_block leaf). fold (cert_block (Cert ca)).
    rewrite <-(str_app_nil_r (cert_block (Cert ca))). apply (parseCertificates_encode leaf [Cert ca]).
    intros c [->|[->|[]%elem_of_nil]%elem_of_cons]%elem_of_cons; [by rewrite Hr|done]. }
  cbn [check_chain]. rewrite Hsig by done. by split_and!.
Qed.

(** the keys of the fixtures, also as PKCS#8 *)
Lemma parsePrivateKey_rsa k :
  parsePrivateKey (pem_encode "RSA PRIVATE KEY" (MarshalPKCS1PrivateKey k)) = inr (RSAKey k).
Proof.
  unfold parsePrivateKey. rewrite pem_decode_encode_one. cbn [blk_headers blk_type blk_bytes].
  rewrite lookup_empty. cbn [String.eqb Ascii.eqb Bool.eqb]. by rewrite parse_marshal_pkcs1.
Qed.

Lemma parsePrivateKey_ec k der :
  MarshalECPrivateKey k = inr der -> parsePrivateKey (pem_encode "EC PRIVATE KEY" der) = inr (ECDSAKey k).
Proof.
  intros Hd. unfold parsePrivateKey. rewrite pem_decode_encode_one. cbn [blk_headers blk_type blk_bytes].
  rewrite lookup_empty. cbn [String.eqb Ascii.eqb Bool.eqb]. by rewrite (parse_marshal_ec _ _ Hd).
Qed.

Lemma parsePrivateKey_pkcs8 k der :
  MarshalPKCS8PrivateKey k = inr der -> match k with OtherKey _ => False | _ => True end ->
  parsePrivateKey (pem_encode "PRIVATE KEY" der) = inr k.
Proof.
  intros Hd Hk. unfold parsePrivateKey. rewrite pem_decode_encode_one. cbn [blk_headers blk_type blk_bytes].
  rewrite lookup_empty. cbn [String.eqb Ascii.eqb Bool.eqb]. rewrite (parse_marshal_pkcs8 _ _ Hd). by destruct k.
Qed.

(** the conversion keeps the key *)
Lemma ToPKCS8_done keyPEM k w pem w' :
  parsePrivateKey keyPEM = inr k -> ToPKCS8 keyPEM w = Done (pem, w') -> parsePrivateKey pem = inr k.
Proof.
  intros Hk. pose proof (parsePrivateKey_kind _ _ Hk) as Hd. revert Hk.
  unfold parsePrivateKey at 1, ToPKCS8. destruct (pem_decode keyPEM) as [[blk rest]|]; [|done].
  match goal with |- context [if ?b then inl ErrEncryptedKey else _] => destruct b end; [done|]. cbv zeta.
  destruct (String.eqb_spec (blk_type blk) "RSA PRIVATE KEY") as [Ht|].
  2: destruct (String.eqb_spec (blk_type blk) "EC PRIVATE KEY") as [Ht|]; [|intros _ H; discriminate H].
  all: rewrite ?Ht; cbn [String.eqb Ascii.eqb Bool.eqb].
  all: match goal with |- context [match ?r with inl e => inl e | inr k => inr (_ k) end] => destruct r as [|k'] end;
    [done|]; cbn [wrap_key_error]; intros [= <-] H; run_inv H;
    apply must_pure_done in E, E0; injection E as <-; by apply parsePrivateKey_pkcs8.
Qed.

End lemmas.

(** ** A toy instance: a certificate is the list of its fields, framed *)

Fixpoint frames (l : list string) : string :=
  match l with [] => "" | s :: l => frame s (frames l) end.

Fixpoint read_frames (fuel : nat) (s : string) : list string :=
  match fuel with
  | 0 => []
  | S fuel => match read_frame s with Some (t, r) => t :: read_frames fuel r | None => [] end
  end.

Definition fields (s : string) : list string := read_frames (String.length s) s.

Lemma fields_frames l : fields (frames l) = l.
Proof.
  unfold fields. generalize (le_n (String.length (frames l))).
  generalize (String.length (frames l)) at 2 3 as n. intros n. revert l.
  induction n as [|n IH]; intros [|s l] Hn; cbn [frames read_frames] in *; try done.
  - pose proof (read_frame_shrinks _ _ _ (read_frame_frame s (frames l))). lia.
  - pose proof (read_frame_shrinks _ _ _ (read_frame_frame s (frames l))).
    rewrite read_frame_frame, IH by lia. done.
Qed.

Definition key_fields (k : PrivateKey) : string * string :=
  match k with RSAKey k => ("rsa", k) | ECDSAKey k => ("ec", k) | OtherKey k => ("other", k) end.

Definition toy_pkcs8 (k : PrivateKey) : string := frames [(key_fields k).1; (key_fields k).2].

Definition key_of_fields (l : list string) : goerr + PrivateKey :=
  match l with
  | ["rsa"; k] => inr (RSAKey k)
  | ["ec"; k] => inr (ECDSAKey k)
  | ["other"; k] => inr (OtherKey k)
  | _ => inl (EText "malformed key")
  end.

(** issuer, subject, public key, signing key, and whether it is a CA *)
Record toy_fields : Type := mkToy {
  toy_issuer : string;
  toy_subject : string;
  toy_public : string * string;
  toy_signer : string * string;
  toy_ca : bool;
  toy_names : list string
}.

Definition toy_der (f : toy_fields) : string :=
  frames ([toy_issuer f; toy_subject f; (toy_public f).1; (toy_public f).2; (toy_signer f).1; (toy_signer f).2;
           bool_string (toy_ca f)] ++ toy_names f).

Definition toy_read (der : string) : option toy_fields :=
  match fields der with
  | i :: s :: pk :: p :: sk :: k :: ca :: names => Some (mkToy i s (pk, p) (sk, k) (String.eqb ca "true") names)
  | _ => None
  end.

Lemma toy_read_der f : toy_read (toy_der f) = Some f.
Proof. unfold toy_read, toy_der. rewrite fields_frames. by destruct f as [i s [] [] [] l]. Qed.

Fixpoint pairs (l : list string) : list (string * string) :=
  match l with k :: v :: l => (k, v) :: pairs l | _ => [] end.

Definition flat (l : list (string * string)) : list string := l ≫= (fun kv => [kv.1; kv.2]).

Lemma pairs_flat l : pairs (flat l) = l.
Proof. induction l as [|[k v] l IH]; [done|]. cbn. by f_equal. Qed.

Definition toy_pem (b : PemBlock) : string :=
  frames [blk_type b; blk_bytes b; frames (flat (map_to_list (blk_headers b)))].

Definition toy_unpem (s : string) : option (PemBlock * string) :=
  '(t, r) ← read_frame s; '(x, r) ← read_frame r; '(h, r) ← read_frame r;
  Some (mkPemBlock t (list_to_map (pairs (fields h))) x, r).

Lemma toy_unpem_pem b rest : toy_unpem (toy_pem b +:+ rest) = Some (b, rest).
Proof.
  unfold toy_unpem, toy_pem. cbn [frames]. rewrite !frame_app, !read_frame_frame. cbn [mbind option_bind].
  rewrite !read_frame_frame. cbn [mbind option_bind]. rewrite read_frame_frame. cbn [mbind option_bind].
  rewrite fields_frames, pairs_flat, list_to_map_to_list. by destruct b.
Qed.

Definition toy_library : Crypto := {|
  pem_decode := toy_unpem;
  pem_encode t x := toy_pem (mkPemBlock t ∅ x);
  ParseCertificate der :=
    match toy_read der with
    | Some f => inr (mkX509 der (toy_issuer f) (toy_subject f) (toy_subject f) (toy_names f) 0 0)
    | None => inl (EText "malformed certificate")
    end;
  ParsePKCS1PrivateKey k := inr k;
  ParseECPrivateKey k := inr k;
  ParsePKCS8PrivateKey der := key_of_fields (fields der);
  MarshalPKCS1PrivateKey k := k;
  MarshalECPrivateKey k := inr k;
  CheckSignatureFrom c p :=
    match toy_read (x_raw c), toy_read (x_raw p) with
    | Some f, Some g =>
        if toy_ca g && bool_decide (toy_signer f = toy_public g) then None else Some (EText "bad signature")
    | _, _ => Some (EText "malformed certificate")
    end;
  CheckSignatureSelf c :=
    match toy_read (x_raw c) with
    | Some f => if bool_decide (toy_signer f = toy_public f) then None else Some (EText "bad signature")
    | None => Some (EText "malformed certificate")
    end;
  PublicKeyEqual c k := (fun f => bool_decide (toy_public f = key_fields k)) <$> toy_read (x_raw c);
  sha256_hex := toy_digest
|}.

Definition toy_created (t : Template) (p : Template + X509) (pub k : PrivateKey) : toy_fields :=
  mkToy (match p with inl t => t_common_name t | inr c => x_raw_subject c end) (t_common_name t)
    (key_fields pub) (key_fields k) (template_may_sign t) (t_dns_names t).

(** the world counts the keys and numbers that were drawn *)
Definition toy_issuing : Issuing toy_library := {|
  world := nat;
  PublicKey := PrivateKey;
  Public k := k;
  time_Now w := (0%Z, w);
  ecdsa_GenerateKey w := (inr (pretty.pretty w), S w);
  rsa_GenerateKey _ w := (inr (pretty.pretty w), S w);
  rand_Int _ w := (inr (Z.of_nat w), S w);
  CreateCertificate t p pub k w := (inr (toy_der (toy_created t p pub k)), w);
  MarshalPKCS8PrivateKey k := inr (toy_pkcs8 k);
  pem_encode_block := toy_pem;
  marshal_name n := n;
  may_sign c := match toy_read (x_raw c) with Some f => toy_ca f | None => false end
|}.

#[export] Instance toy_library_laws : CryptoLaws toy_library.
Proof.
  split; cbn [pem_decode pem_encode ParseCertificate ParsePKCS1PrivateKey ParseECPrivateKey
              MarshalPKCS1PrivateKey MarshalECPrivateKey sha256_hex toy_library]; try done.
  - intros s b rest. unfold toy_unpem. destruct (read_frame s) as [[t r]|] eqn:E1; [|done]. cbn [mbind option_bind].
    destruct (read_frame r) as [[x r']|] eqn:E2; [|done]. cbn [mbind option_bind].
    destruct (read_frame r') as [[h r'']|] eqn:E3; [|done]. cbn [mbind option_bind]. intros [= _ <-].
    apply read_frame_shrinks in E1, E2, E3. lia.
  - intros t x rest. apply toy_unpem_pem.
  - intros der c. by destruct (toy_read der); intros [= <-].
  - apply (@sha256_hex_length _ toy_crypto_laws).
  - apply (@sha256_hex_lower _ toy_crypto_laws).
Qed.

#[export] Instance toy_issuing_laws : IssuingLaws toy_library toy_issuing.
Proof.
  split; cbn [CreateCertificate MarshalPKCS8PrivateKey pem_encode_block marshal_name toy_issuing
              pem_decode pem_encode ParsePKCS8PrivateKey toy_library]; try done.
  - intros t p pub k w der w' [= <- <-]. cbn [ParseCertificate toy_library]. rewrite toy_read_der.
    eexists. split; [done|]. unfold created_by.
    cbn [x_common_name x_dns_names x_raw_subject x_raw_issuer x_raw toy_created toy_names toy_subject toy_issuer
         PublicKeyEqual CheckSignatureFrom CheckSignatureSelf toy_library may_sign marshal_name toy_issuing Public].
    rewrite !toy_read_der. cbn [fmap option_fmap option_map toy_public toy_signer toy_ca toy_created].
    split_and!; try done.
    + intros k' ->. by rewrite bool_decide_eq_true_2.
    + intros ->. by rewrite bool_decide_eq_true_2.
    + destruct p as [p|p]; [done|]. split; [done|]. intros Hm Hk.
      destruct (toy_read (x_raw p)) as [g|]; [|done]. cbn in Hk. injection Hk as Hk%bool_decide_eq_true.
      by rewrite Hm, Hk, bool_decide_eq_true_2.
  - intros b rest _. apply toy_unpem_pem.
  - intros k der [= <-]. unfold toy_pkcs8. rewrite fields_frames. by destruct k.
Qed.

(** ** Properties *)

(** a leaf that a CA issued: the operator accepts it, with the key in either of the
    two encodings, reads back the names that were asked for, and takes it for a
    certificate of an issuer *)
Theorem issued_leaves_are_accepted {C : Crypto} {I : Issuing C} {CL : CryptoLaws C} {IL : IssuingLaws C I}
    w ca w1 names w2 cert key w3 :
  NewCA w = Done (ca, w1) ->
  IssueLeaf ca names w2 = Done ((cert, key), w3) \/ IssueLeafRSA ca names w2 = Done ((cert, key), w3) ->
  exists b n rest, names = n :: rest /\
    ParseBundle cert key = inr b /\ DNSNames b = names /\ b_intermediates b = [Cert ca] /\
    (n <> "Test Intermediate CA" -> IsSelfSigned b = false) /\
    forall w4 pkcs8 w5, ToPKCS8 key w4 = Done (pkcs8, w5) -> ParseBundle cert pkcs8 = inr b.
Proof.
  intros (Hm & Hk & Hp & Hs)%NewCA_done H.
  assert (exists pub k v v', issueLeaf ca pub names v = Done (cert, v') /\ pub = Public k /\ parsePrivateKey key = inr k)
    as (pub & k & v & v' & Hi & -> & Hkey).
  { destruct H as [H|H]; [unfold IssueLeaf in H|unfold IssueLeafRSA in H]; run_inv H.
    - apply must_pure_done in E1. eexists _, _, _, _. split_and!; [exact E0|done|by apply parsePrivateKey_ec].
    - eexists _, _, _, _. split_and!; [exact E0|done|by apply parsePrivateKey_rsa]. }
  destruct (issueLeaf_done _ _ _ _ _ _ Hm Hk Hp Hi) as (leaf & n & rest & Hn & Hc & Hch & Hdn & Hcn & Hsub & Hiss & Hpk).
  exists (mkBundle leaf [Cert ca] k (fingerprintOf leaf)), n, rest.
  assert (Hb : forall key', parsePrivateKey key' = inr k ->
            ParseBundle cert key' = inr (mkBundle leaf [Cert ca] k (fingerprintOf leaf))).
  { intros key' Hk'. unfold ParseBundle. by rewrite Hc, Hk', Hch, (Hpk k). }
  split_and!; [done|by apply Hb| |done| |].
  - unfold DNSNames. cbn [b_leaf]. rewrite Hdn, Hcn, Hn. cbn [existsb]. rewrite String.eqb_refl. by case_match.
  - intros Hne. unfold IsSelfSigned. cbn [b_leaf]. rewrite Hiss, Hs, Hsub.
    rewrite (proj2 (String.eqb_neq _ _)); [done|]. intros E%marshal_name_inj. by apply Hne.
  - intros w4 pem w5 Ht. apply Hb. by eapply ToPKCS8_done.
Qed.

Lemma issued_leaves_are_accepted_witness :
  let C := toy_library in let I := toy_issuing in
  exists ca cert key b, NewCA 0 = Done (ca, 2) /\ IssueLeafRSA ca ["a.example.com"; "b.example.com"] 7 = Done ((cert, key), 9) /\
    ParseBundle cert key = inr b /\ IsSelfSigned b = false.
Proof.
  intros C I.
  assert (exists ca cert key, NewCA 0 = Done (ca, 2) /\
            IssueLeafRSA ca ["a.example.com"; "b.example.com"] 7 = Done ((cert, key), 9)) as (ca & cert & key & H1 & H2).
  { eexists _, _, _. split; [vm_compute; reflexivity|vm_compute; reflexivity]. }
  destruct (issued_leaves_are_accepted _ _ _ _ _ _ _ _ H1 (or_intror H2)) as (b & n & rest & Hn & Hb & _ & _ & Hs & _).
  exists ca, cert, key, b. split_and!; [done..|]. apply Hs. by injection Hn as <- _.
Defined.

(** the fixtures that are refused or recognised: a self-signed leaf, as cert-manager
    hands out while it waits for the issuer, is a bundle that IsSelfSigned finds; an
    encrypted key is refused as such *)
Theorem special_fixtures_are_recognised {C : Crypto} {I : Issuing C} {CL : CryptoLaws C} {IL : IssuingLaws C I}
    w names cert key w' :
  SelfSigned names w = Done ((cert, key), w') ->
  parsePrivateKey Encrypted = inl ErrEncryptedKey /\
  exists k, fst (ecdsa_GenerateKey w) = inr k /\
    forall der, MarshalECPrivateKey k = inr der ->
      exists b, ParseBundle cert key = inr b /\ IsSelfSigned b = true /\ DNSNames b = names /\ b_intermediates b = [].
Proof.
  intros H. split.
  { unfold parsePrivateKey, Encrypted. rewrite <-(str_app_nil_r (pem_encode_block _)), pem_decode_block; [reflexivity|].
    intros h v Hv. cbn [blk_headers] in Hv.
    apply lookup_insert_Some in Hv as [[<- <-]|[_ [<- <-]%lookup_singleton_Some]]; by split. }
  unfold SelfSigned in H. run_inv H. apply must_done in E. exists x. split; [by rewrite E|]. intros der Hd.
  destruct names as [|n rest]; [done|]. injection E1 as <- <-. cbv zeta in E4.
  destruct (CreateCertificate_done _ _ _ _ _ _ _ _ E4) as (leaf & Hp & Hr & Hcn & Hdn & Hsub & Hpk & _ & Hself & Hiss).
  exists (mkBundle leaf [] (ECDSAKey x) (fingerprintOf leaf)). cbn in Hcn, Hdn, Hsub, Hiss. split_and!; [| | |done].
  - unfold ParseBundle. rewrite Hd, (parsePrivateKey_ec _ _ Hd), <-Hr.
    assert (Hc : parseCertificates (cert_block leaf) = inr [leaf]).
    { rewrite <-(str_app_nil_r (cert_block leaf)). apply (parseCertificates_encode leaf []).
      intros c [->|[]%elem_of_nil]%elem_of_cons. by rewrite Hr. }
    change (pem_encode "CERTIFICATE" (x_raw leaf)) with (cert_block leaf). rewrite Hc. cbn [check_chain]. by rewrite Hpk.
  - unfold IsSelfSigned. cbn [b_leaf]. by rewrite Hiss, Hsub, String.eqb_refl, Hself.
  - unfold DNSNames. cbn [b_leaf]. rewrite Hdn, Hcn. cbn [existsb]. rewrite String.eqb_refl. by case_match.
Qed.

Lemma special_fixtures_are_recognised_witness :
  let C := toy_library in let I := toy_issuing in
  exists cert key b, SelfSigned ["a.example.com"] 0 = Done ((cert, key), 2) /\
    ParseBundle cert key = inr b /\ IsSelfSigned b = true.
Proof.
  intros C I.
  assert (exists cert key, SelfSigned ["a.example.com"] 0 = Done ((cert, key), 2)) as (cert & key & H).
  { eexists _, _. vm_compute. reflexivity. }
  destruct (special_fixtures_are_recognised _ _ _ _ _ H) as (_ & k & _ & Hb).
  destruct (Hb k eq_refl) as (b & H1 & H2 & _). by exists cert, key, b.
Defined.

End TestUtil.
