(* ===== verification/Tokens.v ===== *)
(** * Idempotency tokens of the CAS calls (upload.go, deletion.go, retention.go) *)
From S2P Require Import Prelude GoString GoTime Naming.

(** ** Definitions *)

Definition tokenPrefixLen : nat := 40.

Definition uploadToken (uid fingerprint : string) (startedAt : gotime) : string :=
  let base := ClientToken uid fingerprint in
  let base := if tokenPrefixLen <? String.length base then str_take tokenPrefixLen base else base in
  base +:+ hex08_uint32 (unix startedAt).

Definition deleteToken (uploadToken : string) : string :=
  let t := uploadToken +:+ "d" in
  if 64 <? String.length t then str_take 64 t else t.

(** the token built inline in [reclaimOldGenerations] *)
Definition reclaimToken (uid fingerprint : string) : string :=
  let token := ClientToken uid fingerprint +:+ "d" in
  if 64 <? String.length token then str_take 64 token else token.

(** ** Lemmas *)

Lemma hex_digit_inj n m : (0 <= n < 16)%Z -> (0 <= m < 16)%Z -> hex_digit n = hex_digit m -> n = m.
Proof.
  intros Hn Hm. rewrite <-(Z2Nat.id n), <-(Z2Nat.id m) by lia.
  assert (Hn' : Z.to_nat n < 16) by lia. assert (Hm' : Z.to_nat m < 16) by lia. revert Hn' Hm'.
  generalize (Z.to_nat n) (Z.to_nat m). clear. intros n m.
  assert (Hc : forallb (fun i => forallb (fun j => implb (Ascii.eqb (hex_digit (Z.of_nat i)) (hex_digit (Z.of_nat j)))
    (i =? j)) (seq 0 16)) (seq 0 16) = true) by by vm_compute.
  rewrite forallb_forall in Hc. intros Hn Hm E. f_equal.
  specialize (Hc n ltac:(apply in_seq; lia)). rewrite forallb_forall in Hc.
  specialize (Hc m ltac:(apply in_seq; lia)). rewrite E, Ascii.eqb_refl in Hc. by apply Nat.eqb_eq.
Qed.

Lemma hex_digits_inj k n m :
  hex_digits k n = hex_digits k m -> (n mod 16 ^ Z.of_nat k = m mod 16 ^ Z.of_nat k)%Z.
Proof.
  revert n m. induction k as [|k IH]; intros n m; cbn [hex_digits].
  { intros _. by rewrite !Z.mod_1_r. }
  intros [Hr Hd]%str_app_inj_len; [|done]. apply IH in Hr. injection Hd as Hd.
  apply hex_digit_inj in Hd; [|by apply Z.mod_pos_bound..].
  rewrite Nat2Z.inj_succ, Z.pow_succ_r by lia.
  assert (0 < 16 ^ Z.of_nat k)%Z by (apply Z.pow_pos_nonneg; lia).
  rewrite !Z.rem_mul_r by lia. congruence.
Qed.

Lemma hex08_inj n m : hex08_uint32 n = hex08_uint32 m <-> (n mod 2 ^ 32 = m mod 2 ^ 32)%Z.
Proof.
  unfold hex08_uint32. split; [|by intros ->]. intros H%hex_digits_inj.
  change (16 ^ Z.of_nat 8)%Z with (2 ^ 32)%Z in H. by rewrite !Zmod_mod in H.
Qed.

Lemma uploadToken_eq uid fp t :
  uploadToken uid fp t = str_take tokenPrefixLen (ClientToken uid fp) +:+ hex08_uint32 (unix t).
Proof. unfold uploadToken. by rewrite str_take_guard. Qed.

Lemma uploadToken_length uid fp t :
  String.length (uploadToken uid fp t) = Nat.min 40 (String.length (ClientToken uid fp)) + 8.
Proof. rewrite uploadToken_eq, length_str_app, length_str_take. unfold hex08_uint32. by rewrite length_hex_digits. Qed.

Lemma deleteToken_eq t : deleteToken t = str_take 64 (t +:+ "d").
Proof. unfold deleteToken. by rewrite str_take_guard. Qed.

Lemma deleteToken_length t : String.length (deleteToken t) = Nat.min 64 (String.length t + 1).
Proof. rewrite deleteToken_eq, length_str_take, length_str_app. done. Qed.

(** a token of a full UID and fingerprint: 16 digits of the one, 24 of the other, 8 of the second *)
Lemma uploadToken_full uid fp t :
  tokenUIDLen <= String.length (remove_char "-" uid) -> String.length fp = 64 ->
  uploadToken uid fp t = (str_take tokenUIDLen (remove_char "-" uid) +:+ str_take 24 fp) +:+ hex08_uint32 (unix t).
Proof.
  intros Hu Hf. rewrite uploadToken_eq, ClientToken_eq. f_equal.
  rewrite (str_take_app_ge tokenPrefixLen) by (rewrite length_str_take; unfold tokenUIDLen, tokenPrefixLen in *; lia).
  rewrite length_str_take, Nat.min_l by done. by rewrite str_take_take.
Qed.

Lemma hex08_length n : String.length (hex08_uint32 n) = 8.
Proof. unfold hex08_uint32. by rewrite length_hex_digits. Qed.

Lemma uploadToken_second uid fp t t' :
  uploadToken uid fp t = uploadToken uid fp t' <-> (unix t mod 2 ^ 32 = unix t' mod 2 ^ 32)%Z.
Proof.
  rewrite !uploadToken_eq, <-hex08_inj. split; [|by intros ->]. intros [_ H]%str_app_inj_len; [done|]. by rewrite !hex08_length.
Qed.

(** ** Properties *)

(** C38: The tokens of CAS calls.  Upload tokens have at most 48 characters and deletion
    tokens at most 64, the limit of CAS.  Two uploads of a generation have the same token
    exactly when their recorded start times fall in the same second (modulo 2^32, so for
    attempts less than 136 years apart: in the same second), so that a retry from the
    record reuses the token and a later attempt gets a new one; uploads of two generations
    of an object have different tokens when the first 24 digits of the fingerprints differ.
    A deletion token is never the upload token of any attempt for the same generation,
    nor, for a full UID and fingerprint (a token of 48 digits), of any attempt for any
    other; deletion tokens of two uploads are the same only if those of the uploads are.
    Retention and the deletion of the object use the same token for a generation: they ask
    for the same deletion. *)
Theorem tokens_spec (uid fp uid' fp' : string) (t t' : gotime) :
  String.length (uploadToken uid fp t) <= 48 /\
  String.length (deleteToken (uploadToken uid fp t)) <= 64 /\
  String.length (reclaimToken uid fp) <= 64 /\
  (uploadToken uid fp t = uploadToken uid fp t' <-> (unix t mod 2 ^ 32 = unix t' mod 2 ^ 32)%Z) /\
  ((Z.abs (unix t - unix t') < 2 ^ 32)%Z -> (uploadToken uid fp t = uploadToken uid fp t' <-> unix t = unix t')) /\
  (tokenUIDLen <= String.length (remove_char "-" uid) ->
   String.length fp = 64 -> String.length fp' = 64 -> str_take 24 fp <> str_take 24 fp' ->
   uploadToken uid fp t <> uploadToken uid fp' t') /\
  deleteToken (uploadToken uid fp t) <> uploadToken uid fp t' /\
  (String.length (ClientToken uid fp) = 48 ->
   deleteToken (uploadToken uid fp t) <> uploadToken uid' fp' t' /\ deleteToken (ClientToken uid fp) <> uploadToken uid' fp' t') /\
  (deleteToken (uploadToken uid fp t) = deleteToken (uploadToken uid' fp' t') <-> uploadToken uid fp t = uploadToken uid' fp' t') /\
  reclaimToken uid fp = deleteToken (ClientToken uid fp).
Proof.
  assert (Hd : forall uid fp t, deleteToken (uploadToken uid fp t) = uploadToken uid fp t +:+ "d").
  { intros u f x. rewrite deleteToken_eq, str_take_ge; [done|]. rewrite length_str_app, uploadToken_length. change (String.length "d") with 1. lia. }
  change (reclaimToken uid fp) with (deleteToken (ClientToken uid fp)). rewrite !deleteToken_length, !uploadToken_length.
  split; [lia|]. split; [lia|]. split; [lia|]. split; [apply uploadToken_second|]. split; [|split; [|split; [|split; [|split]]]].
  - intros Ha. rewrite uploadToken_second. split; [|by intros ->]. intros E.
    assert (Hz : ((unix t - unix t') mod 2 ^ 32 = 0)%Z) by by rewrite Zminus_mod, E, Z.sub_diag.
    apply Z.mod_divide in Hz as [q Hq]; [|done]. destruct (decide (q = 0)%Z) as [->|Hq0]; lia.
  - intros Hu Hf Hf' Hne. rewrite !uploadToken_full by done. intros [E _]%str_app_inj_len; [|by rewrite !hex08_length].
    apply str_app_inj_len in E as [_ E]; [done|]. by rewrite !length_str_take, Hf, Hf'.
  - intros E%(f_equal String.length). rewrite deleteToken_length, !uploadToken_length in E. lia.
  - intros Hl. split; intros E%(f_equal String.length); rewrite deleteToken_length, !uploadToken_length, Hl in E; lia.
  - rewrite !Hd. split; [|by intros ->]. by intros [E _]%str_app_inj_len.
  - done.
Qed.

(** two generations of an object, in the same second *)
Lemma tokens_spec_witness :
  let uid := "0123abcd-0123-abcd-0123-0123456789ab" in
  let fp c := String.string_of_list_ascii (List.repeat c 64) in
  uploadToken uid (fp "a"%char) 0 <> uploadToken uid (fp "b"%char) 0 /\
  deleteToken (ClientToken uid (fp "a"%char)) <> uploadToken uid (fp "b"%char) 0.
Proof.
  intros uid fp. pose proof (tokens_spec uid (fp "a"%char) uid (fp "b"%char) 0 0) as (_ & _ & _ & _ & _ & H1 & _ & H2 & _). split.
  - apply H1; [by vm_compute; lia|by vm_compute|by vm_compute|by vm_compute].
  - apply H2. by vm_compute.
Defined.
