(* ===== verification/Issuer.v ===== *)
(** * Issuer resolution (internal/controller/issuer.go)

    Which issuer a certificate is requested from: the spec, else the pin in the
    status, else the Certificate that already exists, else the operator's flags.
    Issuer references are compared up to cert-manager's default kind and group
    ([issuer_equiv], a coarser relation than equality). *)
From S2P Require Import Prelude GoString Api.
From Stdlib Require Import Setoid Morphisms.

(** ** Definitions *)

Definition defaultIssuerKind : string := "Issuer".
Definition defaultIssuerGroup : string := "cert-manager.io".

Record IssuerDefaults : Type := mkIssuerDefaults {
  def_name : string;
  def_kind : string;
  def_group : string
}.

Inductive IssuerSource : Type :=
  IssuerSourceSpec | IssuerSourceStatus | IssuerSourceExisting | IssuerSourceDefault.
#[export] Instance IssuerSource_eq_dec : EqDecision IssuerSource.
Proof. solve_decision. Defined.

Definition NormalizeIssuerRef (r : IssuerReference) : IssuerReference :=
  mkIssuerReference (iss_name r)
    (if String.eqb (iss_kind r) "" then defaultIssuerKind else iss_kind r)
    (if String.eqb (iss_group r) "" then defaultIssuerGroup else iss_group r).

(** [IssuerDefaults.Ref] *)
Definition Ref (d : IssuerDefaults) : option IssuerReference :=
  if String.eqb (def_name d) "" then None
  else Some (NormalizeIssuerRef (mkIssuerReference (def_name d) (def_kind d) (def_group d))).

Definition IssuerRefEqual (a b : IssuerReference) : bool :=
  let a := NormalizeIssuerRef a in
  let b := NormalizeIssuerRef b in
  String.eqb (iss_name a) (iss_name b) && String.eqb (iss_kind a) (iss_kind b)
  && String.eqb (iss_group a) (iss_group b).

(** a non-nil reference with a name *)
Definition named (r : option IssuerReference) : option IssuerReference :=
  match r with
  | Some r => if negb (String.eqb (iss_name r) "") then Some r else None
  | None => None
  end.

(** [ok = false] is [None] *)
Definition ResolveIssuerRef (tpl : option CertificateTemplate) (status : option AliyunCertificateStatus)
    (existing : option Certificate) (defaults : IssuerDefaults) : option (IssuerReference * IssuerSource) :=
  match named (t ← tpl; ct_issuer_ref t) with
  | Some r => Some (NormalizeIssuerRef r, IssuerSourceSpec)
  | None =>
      match named (s ← status; as_effective_issuer s) with
      | Some r => Some (NormalizeIssuerRef r, IssuerSourceStatus)
      | None =>
          match named ((fun c => cs_issuer_ref (cert_spec c)) <$> existing) with
          | Some r => Some (NormalizeIssuerRef r, IssuerSourceExisting)
          | None =>
              match Ref defaults with
              | Some d => Some (d, IssuerSourceDefault)
              | None => None
              end
          end
      end
  end.

(** the same issuer, up to cert-manager's defaults *)
Definition issuer_equiv (a b : IssuerReference) : Prop := IssuerRefEqual a b = true.

(** ** Lemmas *)

Lemma issuer_equiv_spec a b : issuer_equiv a b <-> NormalizeIssuerRef a = NormalizeIssuerRef b.
Proof.
  unfold issuer_equiv, IssuerRefEqual. rewrite !andb_true_iff, !String.eqb_eq.
  destruct (NormalizeIssuerRef a), (NormalizeIssuerRef b); cbn. naive_solver.
Qed.

#[export] Instance issuer_equivalence : Equivalence issuer_equiv.
Proof.
  split; repeat intro; rewrite ?issuer_equiv_spec in *; congruence.
Qed.

Lemma NormalizeIssuerRef_idem r : NormalizeIssuerRef (NormalizeIssuerRef r) = NormalizeIssuerRef r.
Proof.
  unfold NormalizeIssuerRef; cbn. f_equal.
  - by destruct (String.eqb (iss_kind r) "") eqn:E; [|rewrite E].
  - by destruct (String.eqb (iss_group r) "") eqn:E; [|rewrite E].
Qed.

Lemma normalize_equiv r : issuer_equiv (NormalizeIssuerRef r) r.
Proof. apply issuer_equiv_spec, NormalizeIssuerRef_idem. Qed.

#[export] Instance normalize_proper : Proper (issuer_equiv ==> eq) NormalizeIssuerRef.
Proof. intros a b. apply issuer_equiv_spec. Qed.

#[export] Instance IssuerRefEqual_proper : Proper (issuer_equiv ==> issuer_equiv ==> eq) IssuerRefEqual.
Proof. intros a a' Ha b b' Hb. unfold IssuerRefEqual. by rewrite Ha, Hb. Qed.

#[export] Instance iss_name_proper : Proper (issuer_equiv ==> eq) iss_name.
Proof. intros a b H%issuer_equiv_spec. by injection H. Qed.

Lemma named_some r r' : named r = Some r' -> r = Some r' /\ iss_name r' <> "".
Proof.
  destruct r as [x|]; cbn; [|done]. destruct (String.eqb (iss_name x) "") eqn:E; [done|].
  intros [= <-]. split; [done|]. by apply String.eqb_neq.
Qed.

Lemma named_normal r : named r = None \/ exists r', named r = Some r' /\
  named (Some (NormalizeIssuerRef r')) = Some (NormalizeIssuerRef r').
Proof.
  destruct (named r) as [r'|] eqn:E; [right|by left]. exists r'. split; [done|].
  apply named_some in E as [_ Hn]. cbn. by rewrite (proj2 (String.eqb_neq _ _) Hn).
Qed.

(** a resolved issuer has a name and is in normal form *)
Lemma ResolveIssuerRef_normal tpl st ex d r src :
  ResolveIssuerRef tpl st ex d = Some (r, src) -> NormalizeIssuerRef r = r /\ iss_name r <> "".
Proof.
  unfold ResolveIssuerRef.
  repeat match goal with |- context [named ?x] =>
    let E := fresh in destruct (named x) eqn:E;
    [apply named_some in E as [_ ?]; intros [= <- <-]; by rewrite NormalizeIssuerRef_idem|] end.
  unfold Ref. destruct (String.eqb (def_name d) "") eqn:E; [done|].
  intros [= <- <-]. rewrite NormalizeIssuerRef_idem. split; [done|]. by apply String.eqb_neq.
Qed.

(** ** Properties *)

(** The pin: once an issuer has been resolved and recorded in the status,
    every later resolution with the same spec gives that very issuer, whatever
    the flags say by then and whatever Certificate exists, so changing a flag
    never re-issues a certificate; and resolution fails exactly when none of the
    four sources names an issuer. *)
Theorem ResolveIssuerRef_pinned (tpl : option CertificateTemplate) (st : option AliyunCertificateStatus)
    (ex : option Certificate) (d : IssuerDefaults) :
  match ResolveIssuerRef tpl st ex d with
  | Some (r, _) =>
      iss_name r <> "" /\
      forall st' ex' d', as_effective_issuer st' = Some r ->
        exists src, ResolveIssuerRef tpl (Some st') ex' d' = Some (r, src) /\
                    (src = IssuerSourceSpec \/ src = IssuerSourceStatus)
  | None =>
      named (t ← tpl; ct_issuer_ref t) = None /\ named (s ← st; as_effective_issuer s) = None /\
      named ((fun c => cs_issuer_ref (cert_spec c)) <$> ex) = None /\ def_name d = ""
  end.
Proof.
  destruct (ResolveIssuerRef tpl st ex d) as [[r src]|] eqn:E.
  - pose proof (ResolveIssuerRef_normal _ _ _ _ _ _ E) as [Hn Hne]. split; [done|].
    intros st' ex' d' Hst. revert E. unfold ResolveIssuerRef.
    destruct (named (t ← tpl; ct_issuer_ref t)) as [r0|].
    { intros [= <- _]. eauto. }
    intros _. cbn [option_bind mbind]. rewrite Hst. cbn.
    rewrite (proj2 (String.eqb_neq _ _) Hne). cbn. rewrite Hn. eauto.
  - revert E. unfold ResolveIssuerRef. do 3 (case_match; [done|]).
    unfold Ref. destruct (String.eqb (def_name d) "") eqn:E; [|done].
    intros _. by apply String.eqb_eq in E.
Qed.
