(* ===== verification/Samples.v ===== *)
(** * Concrete objects the examples and witnesses are evaluated on *)
From S2P Require Import Prelude GoString GoTime Api Cloud KubeLib Bundle.

Definition sample_meta (name uid : string) (finalizers : list string) : ObjectMeta :=
  mkObjectMeta "prod" name uid "7" 3 (1000 * second) None finalizers ∅ ∅.

Definition sample_template : CertificateTemplate :=
  mkCertificateTemplate (Some (mkIssuerReference "letsencrypt" "" "")) "" ["leaf"] [] None None None [] None None.

Definition sample_aliyun : AliyunSpec := mkAliyunSpec "creds" "cn-hangzhou" "" "" "" None.

Definition empty_status : AliyunCertificateStatus := mkACStatus 0 None "" "" None None [] None None None [].

Definition sample_ac : AliyunCertificate :=
  mkAC (sample_meta "site" "uid-1" [FinalizerName])
    (mkAliyunCertificateSpec "" sample_template sample_aliyun (mkRetentionSpec 2 None)) empty_status.

Definition sample_cond (t : string) (s : ConditionStatus) (r : string) : Condition := mkCondition t s r "" 3 0.

(** a Secret whose certificate the toy primitives parse *)
Definition sample_secret (name der : string) : Secret :=
  mkSecret (mkObjectMeta "prod" name "uid-s" "9" 1 0 None [] ∅ {["cert-manager.io/certificate-name" := "site"]})
    {["tls.crt" := frame "CERTIFICATE" (frame der ""); "tls.key" := frame "EC PRIVATE KEY" (frame "key" "")]}.

Definition sample_bundle (der : string) : Bundle :=
  mkBundle (toy_cert der) [] (ECDSAKey "key") (toy_digest der).

Definition sample_gen (der : string) (id : option Z) (uploaded : gotime) : CertificateGeneration :=
  mkGeneration (toy_digest der) id (String.append "k8s-" der) 0 (10 ^ 18) uploaded.

Definition sample_cas : CASClient := mkCASClient (CfgAccessKey "ak" "sk") "cn-hangzhou" "" "" "ak".
