(* ===== verification/CertStatus.v ===== *)
(** * Status, desired state and metrics of the certificate controller

    The reconciler's fields (aliyuncertificate_controller.go), its status helpers
    (status.go), the cert-manager object it wants (desired.go), the Ready
    aggregation, and the metrics of the certificate side (metrics.go).  A
    reconciler value is fixed for a round: the setters SetNow,
    SetIssuerDefaults and SetResyncInterval change it between rounds. *)
From S2P Require Import Prelude GoString GoTime Api GoError Cloud KubeLib Effects Bundle Issuer Samples.
From Stdlib Require Import Morphisms.

#[local] Open Scope prog_scope.

(** ** Definitions *)

Definition CleanupPolicyAbandon : string := "Abandon".
Definition CleanupPolicyBlock : string := "Block".

Definition CASFactory : Type := AliyunCertificate -> prog (goerr + CASClient).

(** AliyunCertificateReconciler; [APIReader] is nil or not, the clients are the
    calls of [op] *)
Record CertReconciler : Type := mkCertReconciler {
  r_has_api_reader : bool;
  r_cas_factory : option CASFactory;
  r_resync_interval : duration;
  r_cas_probe_interval : duration;
  r_issuance_stall_threshold : duration;
  r_cleanup_grace_period : duration;
  r_cleanup_failure_policy : string;
  r_defaults : IssuerDefaults
}.

(** (ctrl.Result, error): the RequeueAfter, zero for none, and the error *)
Definition Result : Type := duration * option goerr.

Definition err_of {A} (r : goerr + A) : option goerr :=
  match r with inl e => Some e | inr _ => None end.

(** [r.Recorder.Event(ac, type, reason, message)] *)
Definition Event (m : ObjectMeta) (warning : bool) (reason message : string) : prog unit :=
  call (OEvent (om_namespace m) (om_name m) warning reason message).

(** *** desired.go *)

Definition certManagerCertificateNameAnnotation : string := "cert-manager.io/certificate-name".

Definition secretNameFor (ac : AliyunCertificate) : string :=
  if negb (String.eqb (acs_secret_name (ac_spec ac)) "") then acs_secret_name (ac_spec ac)
  else ac_name ac +:+ "-tls".

Definition certManagerNameFor (ac : AliyunCertificate) : string := ac_name ac.

Definition servingSecretName (ac : AliyunCertificate) (effective : string) : string :=
  if negb (String.eqb effective "") then effective else secretNameFor ac.

Definition secretNameConflictMessage (ac : AliyunCertificate) : string :=
  "Secret " +:+ quote (secretNameFor ac) +:+ " 已存在且不属于本证书".

Definition secretNameGuardHolding (ac : AliyunCertificate) : bool :=
  negb (String.eqb (as_secret_name (ac_status ac)) "")
  && negb (String.eqb (as_secret_name (ac_status ac)) (secretNameFor ac)).

(** a missing annotation reads as the empty string *)
Definition secretOwnedByUs (s : Secret) (ac : AliyunCertificate) : bool :=
  String.eqb (default "" (om_annotations (sec_meta s) !! certManagerCertificateNameAnnotation)) (certManagerNameFor ac).

Definition PKCS1 : string := "PKCS1".

Definition desiredCertificateSpec (ac : AliyunCertificate) (issuer : IssuerReference) : CertificateSpec :=
  let t := ac_template ac in
  let pk := default (mkPrivateKey "" "" "" 0) (ct_private_key t) in
  let pk := if String.eqb (pk_encoding pk) ""
            then mkPrivateKey (pk_rotation_policy pk) PKCS1 (pk_algorithm pk) (pk_size pk) else pk in
  let st := default (mkSecretTemplate ∅ ∅) (ct_secret_template t) in
  let st := mkSecretTemplate (st_annotations st) (<[LabelManaged := "true"]> (st_labels st)) in
  {| cs_secret_name := secretNameFor ac;
     cs_issuer_ref := NormalizeIssuerRef issuer;
     cs_common_name := ct_common_name t;
     cs_dns_names := ct_dns_names t;
     cs_ip_addresses := ct_ip_addresses t;
     cs_duration := ct_duration t;
     cs_renew_before := ct_renew_before t;
     cs_subject := ct_subject t;
     cs_usages := ct_usages t;
     cs_private_key := Some pk;
     cs_secret_template := Some st |}.

(** *** status.go *)

Definition CertificateConditionReady : string := "Ready".
Definition CertificateConditionIssuing : string := "Issuing".

Definition mirrorIssuance (ac : AliyunCertificate) (cert : Certificate) : AliyunCertificate :=
  let s := cert_status cert in
  on_status (set_as_issuance (Some (mkIssuanceStatus (cst_revision s) (cst_renewal_time s)
                                      (cst_failed_attempts s) (cst_last_failure s)))) ac.

Definition certCondition (cert : Certificate) (t : string) : option CertificateCondition :=
  List.find (fun c => String.eqb (cc_type c) t) (cst_conditions (cert_status cert)).

Definition certReady (cert : Certificate) : bool :=
  match certCondition cert CertificateConditionReady with
  | Some c => bool_decide (cc_status c = CondTrue)
  | None => false
  end.

Definition certIssuingSince (cert : Certificate) : bool * gotime :=
  match certCondition cert CertificateConditionIssuing with
  | None => (false, time_zero)
  | Some c =>
      if bool_decide (cc_status c = CondTrue) then
        (true, match cc_last_transition c with Some t => t | None => time_zero end)
      else (false, time_zero)
  end.

(** *** metrics.go, certificate side *)

Definition resultSuccess : string := "success".
Definition resultThrottled : string := "throttled".
Definition resultError : string := "error".
Definition metric_not_after : string := "aliyuncert_certificate_not_after_timestamp_seconds".
Definition metric_cert_ready : string := "aliyuncert_certificate_ready".
Definition metric_issuance_stalled : string := "aliyuncert_certificate_issuance_stalled".
Definition metric_issuer_diverged : string := "aliyuncert_issuer_default_diverged".
Definition metric_cas_upload : string := "aliyuncert_cas_upload_total".
Definition metric_cas_delete : string := "aliyuncert_cas_delete_total".
Definition metric_cert_recreated : string := "aliyuncert_certmanager_certificate_recreated_total".
Definition metric_cleanup_abandoned : string := "aliyuncert_cleanup_abandoned_total".
Definition metric_secret_skipped : string := "aliyuncert_secret_deletion_skipped_total".

Definition b2f (v : bool) : Z := if v then 1 else 0.

Definition condReasonIs (ac : AliyunCertificate) (condType reason : string) : bool :=
  match List.find (of_type condType) (as_conditions (ac_status ac)) with
  | Some c => String.eqb (cond_reason c) reason
  | None => false
  end.

Definition throttling_code (e : goerr) : bool :=
  match errors_as is_aliyun e with
  | Some (_, _, code) => has_prefix code "Throttling"
  | None => false
  end.

Definition casResult (err : option goerr) : string :=
  match err with
  | None => resultSuccess
  | Some e => if throttling_code e then resultThrottled else resultError
  end.

(** [err != nil && aliyun.ClassOf(err) == ClassNotFound] *)
Definition is_not_found (err : option goerr) : bool :=
  match err with Some e => bool_decide (ClassOf e = ClassNotFound) | None => false end.

Definition recordCASDelete (err : option goerr) : prog unit :=
  if is_not_found err then call (OCounterInc metric_cas_delete [resultSuccess])
  else call (OCounterInc metric_cas_delete [casResult err]).

Section kube.
  Context `{K : KubeLib}.

Definition setCondition (ac : AliyunCertificate) (condType : string) (status : ConditionStatus)
    (reason message : string) : AliyunCertificate :=
  on_status (fun s => set_as_conditions (SetStatusCondition (as_conditions s)
    (mkCondition condType status reason message (om_generation (ac_meta ac)) time_zero)) s) ac.

Definition condTrue (ac : AliyunCertificate) (condType : string) : bool :=
  IsStatusConditionTrue (as_conditions (ac_status ac)) condType.

Definition recordCertMetrics (ac : AliyunCertificate) : prog unit :=
  let l := [ac_namespace ac; ac_name ac] in
  do! match as_current (ac_status ac) with
      | Some c => call (OGaugeSet metric_not_after l (unix (gen_not_after c)))
      | None => Ret tt
      end in
  do! call (OGaugeSet metric_cert_ready l (b2f (condTrue ac ConditionReady))) in
  do! call (OGaugeSet metric_issuance_stalled l (b2f (condReasonIs ac ConditionIssued ReasonIssuanceStalled))) in
  call (OGaugeSet metric_issuer_diverged l (b2f (condTrue ac ConditionIssuerDefaultDiverged))).

Definition clearCertMetrics (namespace name : string) : prog unit :=
  do! call (OGaugeDelete metric_not_after [namespace; name]) in
  do! call (OGaugeDelete metric_cert_ready [namespace; name]) in
  do! call (OGaugeDelete metric_issuance_stalled [namespace; name]) in
  call (OGaugeDelete metric_issuer_diverged [namespace; name]).

(** [patchStatus]: the response is decoded back into [ac] *)
Definition patchStatus (ac orig : AliyunCertificate) : prog (goerr + AliyunCertificate) :=
  do! recordCertMetrics ac in call (OPatchACStatus ac orig).

(** [return ctrl.Result{RequeueAfter: d}, r.patchStatus(ctx, ac, orig)] *)
Definition patch_and_return (d : duration) (ac orig : AliyunCertificate) : prog Result :=
  let! r := patchStatus ac orig in Ret (d, err_of r).

(** *** Uploaded and Ready (aliyuncertificate_controller.go) *)

Definition setUploadedCondition (ac : AliyunCertificate) : AliyunCertificate :=
  if negb (UploadEnabled (ac_aliyun ac)) then
    setCondition ac ConditionUploaded CondFalse ReasonUploadDisabled "spec.aliyun.uploadToCAS=false"
  else
    match c ← as_current (ac_status ac); gen_cert_id c with
    | Some id => setCondition ac ConditionUploaded CondTrue ReasonReady ("certId=" +:+ pretty.pretty id)
    | None => setCondition ac ConditionUploaded CondFalse ReasonUploadFailed "尚未上传"
    end.

(** a condition that is present and not True *)
Definition not_true (ac : AliyunCertificate) (condType : string) : option Condition :=
  match FindStatusCondition (as_conditions (ac_status ac)) condType with
  | Some c => if bool_decide (cond_status c = CondTrue) then None else Some c
  | None => None
  end.

Definition aggregateReady (ac : AliyunCertificate) : AliyunCertificate :=
  if secretNameGuardHolding ac then
    setCondition ac ConditionReady CondFalse ReasonSecretNameConflict (secretNameConflictMessage ac)
  else
    let issued := condTrue ac ConditionIssued in
    let uploadedOK := negb (UploadEnabled (ac_aliyun ac)) || condTrue ac ConditionUploaded in
    if issued && uploadedOK then setCondition ac ConditionReady CondTrue ReasonReady ""
    else
      let reason :=
        match not_true ac ConditionIssued with
        | Some c => cond_reason c
        | None =>
            match not_true ac ConditionUploaded with
            | Some c => cond_reason c
            | None => ReasonCertificateNotReady
            end
        end in
      setCondition ac ConditionReady CondFalse reason "".

(** *** Lemmas *)

(** the reading of a condition that setting another one does not change *)
Context `{!KubeLibLaws K}.

Lemma condTrue_set_same ac t s r m : condTrue (setCondition ac t s r m) t = bool_decide (s = CondTrue).
Proof. unfold condTrue, setCondition. cbn. apply is_true_set_same. Qed.

Lemma condTrue_set_other ac t t' s r m : t' <> t -> condTrue (setCondition ac t s r m) t' = condTrue ac t'.
Proof. intros H. unfold condTrue, setCondition. cbn. by apply is_true_set_other. Qed.

(** the condition [t] of a certificate, as a reader sees it *)
Definition ac_shown (ac : AliyunCertificate) (t : string) : option (ConditionStatus * string * string * Z) :=
  shown (as_conditions (ac_status ac)) t.

Lemma ac_shown_set_same ac t s r m :
  ac_shown (setCondition ac t s r m) t = Some (s, r, m, om_generation (ac_meta ac)).
Proof. unfold ac_shown, setCondition. cbn. apply shown_set_same. Qed.

Lemma ac_shown_set_other ac t t' s r m : t' <> t -> ac_shown (setCondition ac t s r m) t' = ac_shown ac t'.
Proof. intros H. unfold ac_shown, setCondition. cbn. by apply shown_set_other. Qed.

(** everything of a certificate but its conditions *)
Definition but_conditions (ac : AliyunCertificate) : AliyunCertificate := on_status (set_as_conditions []) ac.

Lemma setCondition_rest ac t s r m : but_conditions (setCondition ac t s r m) = but_conditions ac.
Proof. done. Qed.

Lemma aggregateReady_rest ac : but_conditions (aggregateReady ac) = but_conditions ac.
Proof. unfold aggregateReady. destruct (secretNameGuardHolding ac); [done|]. by destruct (_ && _). Qed.

Lemma setUploadedCondition_rest ac : but_conditions (setUploadedCondition ac) = but_conditions ac.
Proof. unfold setUploadedCondition. by repeat case_match. Qed.

Lemma aggregateReady_other ac t : t <> ConditionReady -> ac_shown (aggregateReady ac) t = ac_shown ac t.
Proof.
  intros H. unfold aggregateReady. destruct (secretNameGuardHolding ac); [by rewrite ac_shown_set_other|].
  destruct (_ && _); by rewrite ac_shown_set_other.
Qed.

(** what Ready has to be *)
Definition ready_spec (ac : AliyunCertificate) : bool :=
  negb (secretNameGuardHolding ac) && condTrue ac ConditionIssued
  && (negb (UploadEnabled (ac_aliyun ac)) || condTrue ac ConditionUploaded).

Lemma aggregateReady_true ac : condTrue (aggregateReady ac) ConditionReady = ready_spec ac.
Proof.
  unfold aggregateReady, ready_spec. destruct (secretNameGuardHolding ac); cbn [negb andb].
  - by rewrite condTrue_set_same.
  - destruct (condTrue ac ConditionIssued && _); by rewrite condTrue_set_same.
Qed.

Lemma but_conditions_guard ac ac' :
  but_conditions ac = but_conditions ac' -> secretNameGuardHolding ac = secretNameGuardHolding ac'.
Proof.
  intros H. unfold secretNameGuardHolding, secretNameFor, ac_name.
  assert (Hm : ac_meta ac = ac_meta ac') by exact (f_equal ac_meta H).
  assert (Hp : ac_spec ac = ac_spec ac') by exact (f_equal ac_spec H).
  assert (Hn : as_secret_name (ac_status ac) = as_secret_name (ac_status ac'))
    by exact (f_equal (fun a => as_secret_name (ac_status a)) H).
  by rewrite Hm, Hp, Hn.
Qed.

End kube.

Lemma recordCASDelete_calls (C : op -> Prop) err :
  (forall l, C (OCounterInc metric_cas_delete l)) -> all_calls C (recordCASDelete err).
Proof. intros H. unfold recordCASDelete. case_match; split; auto; done. Qed.

(** gauges, counters and events: calls that touch neither the cluster's objects
    nor the cloud *)
Definition is_report (o : op) : Prop :=
  match o with
  | ONow | OEvent _ _ _ _ _ | OCounterInc _ _ | OGaugeSet _ _ _ | OGaugeDelete _ _ => True
  | _ => False
  end.

Lemma recordCertMetrics_reports `{KubeLib} ac : all_calls is_report (recordCertMetrics ac).
Proof. unfold recordCertMetrics. destruct (as_current (ac_status ac)); cbn; done. Qed.

Lemma recordCASDelete_reports err : all_calls is_report (recordCASDelete err).
Proof. by apply recordCASDelete_calls. Qed.

(** a status patch, with the gauges set before it *)
Lemma patchStatus_wp `{KubeLib} (E : environment) (P : policy) h ac orig (Q : goerr + AliyunCertificate -> history -> Prop) :
  (forall h o, is_report o -> P h o) ->
  (forall h1, only_since is_report h h1 -> P h1 (OPatchACStatus ac orig)) ->
  (forall h1 r, only_since is_report h h1 -> E h1 (OPatchACStatus ac orig) r ->
    Q r (Ev (OPatchACStatus ac orig) r :: h1)) ->
  twp E P h (patchStatus ac orig) Q.
Proof.
  intros Hrep Hp HQ. unfold patchStatus. twp_step.
  eapply twp_post; [apply (all_calls_twp is_report); [apply recordCertMetrics_reports|done]|].
  intros ? h1 Hs. cbn beta in Hs. split; [by apply Hp|]. intros r Hr. by apply HQ.
Qed.

Lemma Event_wp E (P : policy) h m w reason msg (Q : unit -> history -> Prop) :
  (forall h o, is_report o -> P h o) ->
  (forall u, Q u (Ev (OEvent (om_namespace m) (om_name m) w reason msg) u :: h)) ->
  twp E P h (Event m w reason msg) Q.
Proof. intros Hp HQ. split; [by apply Hp|]. intros u _. apply HQ. Qed.

(** the response of a patch or update is the object it was made for *)
Definition same_object (m m' : ObjectMeta) : Prop :=
  om_namespace m = om_namespace m' /\ om_name m = om_name m' /\ om_uid m = om_uid m'.

(** documented behaviour of the API server: a write answers with the same object *)
Definition api_identity : environment := fun _ o r =>
  match o return resp o -> Prop with
  | OPatchACStatus ac _ | OUpdateAC ac => fun r =>
      match r with inr ac' => same_object (ac_meta ac) (ac_meta ac') | inl _ => True end
  | OPatchBindingStatus b _ | OUpdateBinding b => fun r =>
      match r with inr b' => same_object (ab_meta b) (ab_meta b') | inl _ => True end
  | _ => fun _ => True
  end r.

#[export] Instance same_object_equiv : Equivalence same_object.
Proof. split; unfold same_object; repeat intro; naive_solver congruence. Qed.

(** ** Properties *)

(** Ready is a veto of the Secret-name guard and otherwise the conjunction of
    Issued and of Uploaded when uploading is on; aggregation changes no other
    condition and no other part of the object, stamps the current generation, is
    idempotent in what it shows, and when it is not the guard that holds, a False
    Ready carries the reason of the failing condition. *)
Theorem aggregateReady_spec `{KL : KubeLibLaws} (ac : AliyunCertificate) :
  condTrue (aggregateReady ac) ConditionReady = ready_spec ac /\
  but_conditions (aggregateReady ac) = but_conditions ac /\
  (forall t, t <> ConditionReady -> ac_shown (aggregateReady ac) t = ac_shown ac t) /\
  ac_shown (aggregateReady (aggregateReady ac)) ConditionReady = ac_shown (aggregateReady ac) ConditionReady /\
  (secretNameGuardHolding ac = false -> forall s r m g,
     ac_shown ac ConditionIssued = Some (s, r, m, g) -> s <> CondTrue ->
     ac_shown (aggregateReady ac) ConditionReady = Some (CondFalse, r, "", om_generation (ac_meta ac))).
Proof.
  split; [apply aggregateReady_true|]. split; [apply aggregateReady_rest|].
  split; [apply aggregateReady_other|]. split.
  - assert (Hd : forall ac', but_conditions ac' = but_conditions ac ->
      (forall t, t <> ConditionReady -> ac_shown ac' t = ac_shown ac t) ->
      ac_shown (aggregateReady ac') ConditionReady = ac_shown (aggregateReady ac) ConditionReady).
    { intros ac' Hb Ho.
      assert (Hg : secretNameGuardHolding ac' = secretNameGuardHolding ac) by by apply but_conditions_guard.
      assert (Hm : ac_meta ac' = ac_meta ac) by exact (f_equal ac_meta Hb).
      assert (Hs : ac_spec ac' = ac_spec ac) by exact (f_equal ac_spec Hb).
      assert (Hc : forall t, t <> ConditionReady -> condTrue ac' t = condTrue ac t).
      { intros t Ht. unfold condTrue. rewrite !is_true_shown. unfold ac_shown in Ho. by rewrite Ho. }
      assert (Hn : forall t, t <> ConditionReady -> cond_reason <$> not_true ac' t = cond_reason <$> not_true ac t).
      { intros t Ht. specialize (Ho t Ht). unfold ac_shown, shown in Ho. unfold not_true.
        destruct (FindStatusCondition (as_conditions (ac_status ac')) t),
                 (FindStatusCondition (as_conditions (ac_status ac)) t); try done.
        cbn in Ho. injection Ho as -> Hr _ _. case_bool_decide; [done|]. cbn. by rewrite Hr. }
      unfold aggregateReady. rewrite Hg. destruct (secretNameGuardHolding ac).
      { rewrite !ac_shown_set_same. unfold secretNameConflictMessage, secretNameFor, ac_name. by rewrite Hm, Hs. }
      rewrite !Hc by done. unfold ac_aliyun. rewrite Hs.
      destruct (condTrue ac ConditionIssued && _); rewrite !ac_shown_set_same, Hm; [done|].
      pose proof (Hn ConditionIssued ltac:(done)) as H1. pose proof (Hn ConditionUploaded ltac:(done)) as H2.
      destruct (not_true ac' ConditionIssued), (not_true ac ConditionIssued); try done; [by injection H1 as ->|].
      destruct (not_true ac' ConditionUploaded), (not_true ac ConditionUploaded); try done. by injection H2 as ->. }
    apply Hd; [apply aggregateReady_rest|apply aggregateReady_other].
  - intros Hg s r m g Hs Hf. unfold aggregateReady. rewrite Hg.
    assert (Hi : condTrue ac ConditionIssued = false).
    { unfold condTrue. rewrite is_true_shown. unfold ac_shown in Hs. rewrite Hs. by apply bool_decide_eq_false_2. }
    rewrite Hi. cbn [andb]. rewrite ac_shown_set_same. unfold not_true.
    unfold ac_shown, shown in Hs.
    destruct (FindStatusCondition (as_conditions (ac_status ac)) ConditionIssued) as [c|]; [|done].
    cbn in Hs. injection Hs as Hs Hr _ _. rewrite bool_decide_eq_false_2 by congruence. by rewrite Hr.
Qed.

(** not issued: Ready is False with the reason of Issued *)
Lemma aggregateReady_spec_witness :
  let K := ref_kube 0 in
  let ac := on_status (set_as_conditions
    [sample_cond ConditionUploaded CondTrue ReasonReady; sample_cond ConditionIssued CondFalse ReasonSecretInvalid]) sample_ac in
  condTrue (aggregateReady ac) ConditionReady = ready_spec ac /\
  ac_shown (aggregateReady ac) ConditionReady = Some (CondFalse, ReasonSecretInvalid, "", 3%Z).
Proof.
  intros K ac. pose proof (@aggregateReady_spec (ref_kube 0) (ref_kube_laws 0) ac) as (H1 & _ & _ & _ & H2).
  split; [exact H1|]. eapply H2; [reflexivity|reflexivity|discriminate].
Defined.
