(* ===== verification/CertMaterial.v ===== *)
(** * Reading and checking the TLS Secret (internal/controller/material.go) *)
From S2P Require Import Prelude GoString GoTime Api GoError Cloud KubeLib Effects Bundle Sans Issuer.
From S2P Require Import CertStatus Samples.

#[local] Open Scope prog_scope.

(** ** Definitions *)

Record materialError : Type := mkMaterialError {
  me_reason : string;
  me_message : string
}.

Definition TLSCertKey : string := "tls.crt".
Definition TLSPrivateKeyKey : string := "tls.key".

Section material.
  Context `{Cr : Crypto}.

(** [loadBundle]: a missing data key reads as no bytes *)
Definition loadBundle (namespace name : string) : prog (materialError + Bundle) :=
  let! r := call (OGetSecret namespace name) in
  Ret match r with
  | inl e =>
      if IsNotFound e then inl (mkMaterialError ReasonSecretNotFound ("Secret " +:+ quote name +:+ " 不存在"))
      else inl (mkMaterialError ReasonSecretInvalid ("读取 Secret 失败: " +:+ err_text e))
  | inr s =>
      match ParseBundle (default "" (sec_data s !! TLSCertKey)) (default "" (sec_data s !! TLSPrivateKeyKey)) with
      | inl e => inl (mkMaterialError ReasonSecretInvalid (err_text e))
      | inr b => inr b
      end
  end.

(** the domains the certificate must cover: the spec's names and its common name *)
Definition requiredNames (ac : AliyunCertificate) : list string :=
  let t := ac_template ac in
  ct_dns_names t ++ (if String.eqb (ct_common_name t) "" then [] else [ct_common_name t]).

Definition validateMaterial (b : Bundle) (ac : AliyunCertificate) (cert : Certificate) : option materialError :=
  if (certIssuingSince cert).1 && IsSelfSigned b then
    Some (mkMaterialError ReasonSelfSignedDuringIssuance "Secret 中是 cert-manager 的临时自签证书，等待正式签发")
  else
    match Missing (DNSNames b) (requiredNames ac) with
    | [] => None
    | missing => Some (mkMaterialError ReasonSANsMismatch ("证书未覆盖: " +:+ join ", " missing))
    end.

Definition loadMaterial (ac : AliyunCertificate) (cert : Certificate) : prog (materialError + Bundle) :=
  let! r := loadBundle (ac_namespace ac) (servingSecretName ac (cs_secret_name (cert_spec cert))) in
  Ret match r with
  | inl me => inl me
  | inr b => match validateMaterial b ac cert with Some me => inl me | None => inr b end
  end.

(** what the material of a certificate must satisfy before anything is uploaded *)
Definition good_material (ac : AliyunCertificate) (cert : Certificate) (b : Bundle) : Prop :=
  valid_bundle b /\
  ((certIssuingSince cert).1 = true -> IsSelfSigned b = false) /\
  (forall d, d ∈ requiredNames ac -> exists n, n ∈ DNSNames b /\ Covers n d = true).

(** ** Lemmas *)

Lemma validateMaterial_ok b ac cert :
  validateMaterial b ac cert = None <->
  ((certIssuingSince cert).1 = true -> IsSelfSigned b = false) /\
  (forall d, d ∈ requiredNames ac -> exists n, n ∈ DNSNames b /\ Covers n d = true).
Proof.
  unfold validateMaterial. rewrite <-Missing_nil.
  destruct ((certIssuingSince cert).1), (IsSelfSigned b); cbn [andb];
    destruct (Missing (DNSNames b) (requiredNames ac)); naive_solver.
Qed.

Context `{CL : !CryptoLaws Cr}.

Lemma loadBundle_valid ns name :
  returns (fun r => match r with inr b => valid_bundle b | inl _ => True end) (loadBundle ns name).
Proof.
  cbn. intros [e|s]; [by destruct (IsNotFound e)|].
  match goal with |- match (match ?x with _ => _ end) with _ => _ end => destruct x eqn:E end; [done|].
  by apply (ParseBundle_valid _ _ _ E).
Qed.

Lemma loadMaterial_good ac cert :
  returns (fun r => match r with inr b => good_material ac cert b | inl _ => True end) (loadMaterial ac cert).
Proof.
  eapply returns_bind_post; [apply loadBundle_valid|]. intros [me|b] Hb; cbn; [done|].
  destruct (validateMaterial b ac cert) eqn:E; [done|]. split; [done|]. by apply validateMaterial_ok.
Qed.

Definition material_reasons : list string :=
  [ReasonSecretNotFound; ReasonSecretInvalid; ReasonSelfSignedDuringIssuance; ReasonSANsMismatch].

Lemma loadMaterial_reasons ac cert :
  returns (fun r => match r with inl me => me_reason me ∈ material_reasons | inr _ => True end) (loadMaterial ac cert).
Proof.
  apply (returns_bind_post (fun r => match r with inl me => me_reason me ∈ material_reasons | inr _ => True end)).
  - cbn. intros [e|s]; [destruct (IsNotFound e); set_solver|].
    destruct (ParseBundle _ _); [set_solver|done].
  - intros [me|b] Hb; [done|]. cbn. unfold validateMaterial. destruct (_ && _); [set_solver|].
    destruct (Missing _ _); [done|set_solver].
Qed.

End material.

(** reading the material is one direct read of one Secret *)
Lemma loadMaterial_calls `{Crypto} ac cert :
  all_calls (fun o => o = OGetSecret (ac_namespace ac) (servingSecretName ac (cs_secret_name (cert_spec cert))))
    (loadMaterial ac cert).
Proof. repeat split. Qed.

(** ** Properties *)

(** No material is accepted that is not an intact chain with its matching
    key, that is cert-manager's temporary self-signed certificate, or that misses
    one of the declared names; and a rejected Secret always comes with one of the
    four reasons.  Only the Secret in service is read. *)
Theorem loadMaterial_spec `{CL : CryptoLaws} (ac : AliyunCertificate) (cert : Certificate) :
  returns (fun r => match r with
    | inr b => good_material ac cert b
    | inl me => me_reason me ∈ material_reasons
    end) (loadMaterial ac cert) /\
  all_calls (fun o => o = OGetSecret (ac_namespace ac) (servingSecretName ac (cs_secret_name (cert_spec cert))))
    (loadMaterial ac cert).
Proof.
  split; [|apply loadMaterial_calls].
  eapply returns_mono; [apply returns_and; [apply loadMaterial_reasons|apply loadMaterial_good]|].
  cbn. intros [me|b] [Hr Hg]; done.
Qed.

Lemma loadMaterial_spec_witness :
  let C := toy_crypto in
  let cert := mkCertificate (sample_meta "site" "u" []) (desiredCertificateSpec sample_ac (mkIssuerReference "i" "" ""))
                (mkCertificateStatus [] None None None None) in
  let w : handler unit := fun _ o => match o return resp o * unit with
    | OGetSecret _ _ => (inr (sample_secret "site-tls" "leaf"), tt)
    | o => (failed_resp o, tt) end in
  (exec w tt [] (loadMaterial sample_ac cert)).1.1 = inr (sample_bundle "leaf") /\
  all_calls (fun o => o = OGetSecret "prod" "site-tls") (loadMaterial sample_ac cert).
Proof.
  intros C cert w. split; [vm_compute; reflexivity|].
  exact (proj2 (@loadMaterial_spec toy_crypto toy_crypto_laws sample_ac cert)).
Defined.
