(* ===== verification/CertUpload.v ===== *)
(** * Uploading to CAS (internal/controller/upload.go)

    A round works on two copies of the object: [ac], and [orig], the base of the
    final merge patch; functions that change them return both.  The write-ahead
    record is [status.pendingUpload]; [recorded] is what the API server last showed
    of it, and [write_ahead] the policy that no upload precedes its record. *)
From S2P Require Import Prelude GoString GoTime Api GoError Cloud KubeLib Effects Naming Tokens Bundle Issuer.
From S2P Require Import CertStatus Samples.

#[local] Open Scope prog_scope.

(** ** Definitions *)

Definition round : Type := AliyunCertificate * AliyunCertificate.

Definition adoptUploadState (dst src : AliyunCertificate) : AliyunCertificate :=
  let s := ac_status src in
  on_status (fun d => set_as_current (as_current s) (set_as_pending (as_pending s)
    (set_as_probed_at (as_probed_at s) (set_as_history (as_history s) d)))) dst.

Definition shortFP (fp : string) : string := if String.length fp <? 8 then fp else str_take 8 fp.

Definition first_or (l : list string) (d : string) : string :=
  match l with n :: _ => n | [] => d end.

Definition casDomainHint (ac : AliyunCertificate) : string :=
  first_or (ct_dns_names (ac_template ac)) (ct_common_name (ac_template ac)).

Definition casFindHint (ac : AliyunCertificate) (preferred : string) : string :=
  match as_pending (ac_status ac) with
  | Some p => if negb (String.eqb (pu_domain_hint p) "") then pu_domain_hint p
              else if negb (String.eqb preferred "") then preferred else casDomainHint ac
  | None => if negb (String.eqb preferred "") then preferred else casDomainHint ac
  end.

Definition isDuplicateName (e : goerr) : bool :=
  match errors_as is_aliyun e with
  | Some (_, _, code) =>
      String.eqb code "NameRepeat" || String.eqb code "CertNameDuplicated"
      || String.eqb code "DuplicateCertificateName" || String.eqb code "CertNameExisted"
  | None => false
  end.

(** [status.current] is the generation with this fingerprint *)
Definition current_is (ac : AliyunCertificate) (fp : string) : bool :=
  match as_current (ac_status ac) with
  | Some c => String.eqb (gen_fingerprint c) fp
  | None => false
  end.

Section upload.
  Context `{K : KubeLib} `{Cr : Crypto}.

Definition casClient (r : CertReconciler) (ac : AliyunCertificate) : prog (goerr + CASClient) :=
  match r_cas_factory r with
  | None => Ret (inl (EText "CASFactory 未配置"))
  | Some f => f ac
  end.

Definition refreshUploadState (r : CertReconciler) (ac orig : AliyunCertificate) : prog (goerr + round) :=
  try! fresh := call (OGetAC (r_has_api_reader r) (ac_namespace ac) (ac_name ac)) in
  Ret (inr (adoptUploadState ac fresh, adoptUploadState orig fresh)).

Definition patchPendingUpload (ac orig : AliyunCertificate) (want : PendingUpload) : prog (goerr + round) :=
  let target := on_status (set_as_pending (Some want)) ac in
  try! _ := call (OPatchACStatus target ac) in
  Ret (inr (on_status (set_as_pending (Some want)) ac, on_status (set_as_pending (Some want)) orig)).

Definition findByName (cas : CASClient) (b : Bundle) (casName : string) : prog (goerr + Z) :=
  try! l := call (OCASFind cas (first_or (DNSNames b) "")) in
  Ret match List.find (fun c => String.eqb (sum_name c) casName) l with
      | Some c => inr (sum_cert_id c)
      | None => inl (EText ("CAS 中未找到名为 " +:+ casName +:+ " 的证书"))
      end.

(** the write-ahead record of this bundle: the one there is, or a new one, written first *)
Definition ensurePending (r : CertReconciler) (ac orig : AliyunCertificate) (b : Bundle) :
    prog (goerr + PendingUpload * round) :=
  let fresh :=
    let! startedAt := call ONow in
    let pending := mkPendingUpload (b_fingerprint b) (CASName (ac_name ac) (b_fingerprint b))
                     (uploadToken (om_uid (ac_meta ac)) (b_fingerprint b) startedAt) startedAt (casDomainHint ac) in
    try! st := patchPendingUpload ac orig pending in
    Ret (inr (pending, st)) in
  match as_pending (ac_status ac) with
  | Some p => if String.eqb (pu_fingerprint p) (b_fingerprint b) then Ret (inr (p, (ac, orig))) else fresh
  | None => fresh
  end.

(** the call to CAS, with the claim by name when CAS says the name is taken *)
Definition uploadOrClaim (cas : CASClient) (b : Bundle) (p : PendingUpload) (keyPEM : string) : prog (goerr + Z) :=
  let! up := call (OCASUpload cas (pu_cas_name p) (CertPEM b) keyPEM (pu_client_token p)) in
  let! up := match up with
    | inl e =>
        if bool_decide (ClassOf e = ClassPermanent) && isDuplicateName e then
          let! found := findByName cas b (pu_cas_name p) in
          Ret match found with
              | inr id => if (id =? 0)%Z then inl e else inr id
              | inl _ => inl e
              end
        else Ret (inl e)
    | inr id => Ret (inr id)
    end in
  do! call (OCounterInc metric_cas_upload [casResult (err_of up)]) in
  Ret up.

(** the block of [ensureUploaded] that runs when uploading is enabled; [inr] gives
    the generation with its certId and the round after it *)
Definition uploadGeneration (r : CertReconciler) (ac orig : AliyunCertificate) (b : Bundle) (now : gotime)
    (gen : CertificateGeneration) : prog ((goerr + CertificateGeneration) * round) :=
  let! pend := ensurePending r ac orig b in
  match pend with
  | inl e => Ret (inl e, (ac, orig))
  | inr (p, (ac, orig)) =>
      let! cas := casClient r ac in
      match cas with
      | inl e => Ret (inl e, (ac, orig))
      | inr cas =>
          match KeyPEM b with
          | inl e => Ret (inl e, (ac, orig))
          | inr keyPEM =>
              let! up := uploadOrClaim cas b p keyPEM in
              match up with
              | inl e => Ret (inl e, (ac, orig))
              | inr certID =>
                  let gen := set_gen_cas_name (pu_cas_name p) (set_gen_cert_id (Some certID) gen) in
                  let ac := on_status (fun s => set_as_pending None (set_as_probed_at (Some now) s)) ac in
                  do! Event (ac_meta ac) false "Uploaded" "certificate uploaded to CAS" in
                  Ret (inr gen, (ac, orig))
              end
          end
      end
  end.

(** [history] gets the generation that was current, unless it is the probe's
    placeholder, and [gen] becomes current *)
Definition pushGeneration (gen : CertificateGeneration) (ac : AliyunCertificate) : AliyunCertificate :=
  on_status (fun s =>
    set_as_current (Some gen)
      match as_current s with
      | Some c => if negb (String.eqb (gen_fingerprint c) "") then set_as_history (c :: as_history s) s else s
      | None => s
      end) ac.

(** the part of [ensureUploaded] after the refreshed state was found to lack the bundle *)
Definition advanceGeneration (r : CertReconciler) (ac orig : AliyunCertificate) (b : Bundle) :
    prog ((goerr + bool) * round) :=
  let! now := call ONow in
  let gen := mkGeneration (b_fingerprint b) None "" (x_not_before (b_leaf b)) (x_not_after (b_leaf b)) now in
  let! '(up, (ac, orig)) :=
    if UploadEnabled (ac_aliyun ac) then uploadGeneration r ac orig b now gen
    else Ret (inr gen, (ac, orig)) in
  match up with
  | inl e => Ret (inl e, (ac, orig))
  | inr gen => Ret (inr true, (pushGeneration gen ac, orig))
  end.

Definition ensureUploaded (r : CertReconciler) (ac orig : AliyunCertificate) (b : Bundle) :
    prog ((goerr + bool) * round) :=
  if current_is ac (b_fingerprint b) then Ret (inr false, (ac, orig))
  else
    let! fresh := refreshUploadState r ac orig in
    match fresh with
    | inl e => Ret (inl e, (ac, orig))
    | inr (ac, orig) =>
        if current_is ac (b_fingerprint b) then Ret (inr false, (ac, orig))
        else advanceGeneration r ac orig b
    end.

End upload.

(** ** The write-ahead policy *)

(** what an event shows of [status.pendingUpload] in the API server *)
Definition shows_pending (e : event) : option (option PendingUpload) :=
  match e with
  | Ev o r =>
      match o return resp o -> option (option PendingUpload) with
      | OPatchACStatus ac _ => fun r => match r with inr _ => Some (as_pending (ac_status ac)) | inl _ => None end
      | OGetAC _ _ _ => fun r => match r with inr ac => Some (as_pending (ac_status ac)) | inl _ => None end
      | _ => fun _ => None
      end r
  end.

Fixpoint recorded (h : history) : option PendingUpload :=
  match h with
  | [] => None
  | e :: h => match shows_pending e with Some p => p | None => recorded h end
  end.

Definition is_upload (o : op) : Prop := match o with OCASUpload _ _ _ _ _ => True | _ => False end.
Definition no_upload (h : history) : Prop := Forall (fun e => ~ is_upload (ev_op e)) h.

(** an upload is made at most once, from the record the API server has, of the
    certificate the record names *)
Definition write_ahead `{Crypto} : policy := fun h o =>
  match o with
  | OCASUpload _ name certPEM _ token =>
      no_upload h /\
      exists p, recorded h = Some p /\ pu_cas_name p = name /\ pu_client_token p = token /\
                LeafFingerprint certPEM = inr (pu_fingerprint p)
  | _ => True
  end.

(** calls that neither upload nor show the record *)
Definition quiet (o : op) : Prop :=
  match o with OCASUpload _ _ _ _ _ | OPatchACStatus _ _ | OGetAC _ _ _ => False | _ => True end.

(** the calls a client factory makes *)
Definition client_call (o : op) : Prop :=
  match o with
  | OGetSecret _ _ | ONewCredential _ | ONewCASClient _ | ONewProviderClient _
  | OCASCacheGet _ | OCASCachePut _ _ _ | OProviderCacheGet _ | OProviderCachePut _ _ _ => True
  | _ => False
  end.

(** the interface the certificate controller expects of its CASFactory: it only
    reads Secrets and builds clients *)
Class CASFactoryOk (r : CertReconciler) : Prop :=
  cas_factory_calls : forall f ac, r_cas_factory r = Some f -> all_calls client_call (f ac).

(** the generations and the write-ahead record of an object *)
Definition upload_state (ac : AliyunCertificate) :
    option CertificateGeneration * option PendingUpload * list CertificateGeneration * option gotime :=
  let s := ac_status ac in (as_current s, as_pending s, as_history s, as_probed_at s).

(** both copies agree with each other and with the record of the API server *)
Definition synced (h : history) (st : round) : Prop :=
  recorded h = as_pending (ac_status st.1) /\ upload_state st.1 = upload_state st.2.

Lemma client_call_quiet o : client_call o -> quiet o.
Proof. by destruct o. Qed.

Lemma report_quiet o : is_report o -> quiet o.
Proof. by destruct o. Qed.

Lemma quiet_event o r h : quiet o -> recorded (Ev o r :: h) = recorded h /\ (no_upload h -> no_upload (Ev o r :: h)).
Proof. destruct o; intros H; try done; (split; [done|]; intros Hn; constructor; [by intros []|done]). Qed.

Lemma quiet_since h h' : only_since quiet h h' -> recorded h' = recorded h /\ (no_upload h -> no_upload h').
Proof.
  intros (new & -> & Hn). induction new as [|[o r] new IH]; [done|]. inversion_clear Hn as [|? ? Ho Hn'].
  destruct (IH Hn') as [IH1 IH2]. cbn [app]. destruct (quiet_event o r (new ++ h) Ho) as [H1 H2].
  split; [by rewrite H1|auto].
Qed.

Lemma no_upload_cons o r h : ~ is_upload o -> no_upload h -> no_upload (Ev o r :: h).
Proof. intros H Hn. by constructor. Qed.

Ltac no_upload_tac := repeat (apply no_upload_cons; [by intros []|]); done.

(** a program that makes quiet calls only, followed by anything *)
Lemma twp_quiet `{Crypto} {A} (p : prog A) h Q :
  all_calls quiet p ->
  (forall a h', recorded h' = recorded h -> (no_upload h -> no_upload h') -> Q a h') ->
  twp any_env write_ahead h p Q.
Proof.
  intros Hp HQ. eapply twp_post; [apply (all_calls_twp quiet); [done|by intros ? []]|].
  intros a h' Hs. cbn in Hs. destruct (quiet_since _ _ Hs). by apply HQ.
Qed.

Section upload_proofs.
  Context `{K : KubeLib} `{Cr : Crypto} `{CL : !CryptoLaws Cr}.

Lemma casClient_calls r `{!CASFactoryOk r} ac : all_calls client_call (casClient r ac).
Proof. unfold casClient. destruct (r_cas_factory r) as [f|] eqn:E; [|done]. by eapply cas_factory_calls. Qed.

Lemma casClient_quiet r `{!CASFactoryOk r} ac : all_calls quiet (casClient r ac).
Proof. eapply all_calls_mono; [apply client_call_quiet|]. by apply casClient_calls. Qed.

Lemma findByName_quiet cas b n : all_calls quiet (findByName cas b n).
Proof. repeat split. intros [e|l]; exact I. Qed.

(** the certificate of a valid bundle is the one its fingerprint names *)
Lemma LeafFingerprint_CertPEM b : valid_bundle b -> LeafFingerprint (CertPEM b) = inr (b_fingerprint b).
Proof.
  intros (_ & _ & Hf & Hr & _). unfold LeafFingerprint.
  change (CertPEM b) with (encode_certs (b_leaf b :: b_intermediates b)).
  by rewrite (parseCertificates_encode _ _ Hr), Hf.
Qed.

(** *** The record before the call *)

(** a copy with the record written into it *)
Definition with_record (p : PendingUpload) : AliyunCertificate -> AliyunCertificate :=
  on_status (set_as_pending (Some p)).

(** [ensurePending] ends with the record in the API server and in both copies *)
Definition pending_written (ac orig : AliyunCertificate) (b : Bundle) (h : history)
    (res : goerr + PendingUpload * round) (h' : history) : Prop :=
  no_upload h' /\
  match res with
  | inl _ => recorded h' = recorded h
  | inr (p, st) => recorded h' = Some p /\ pu_fingerprint p = b_fingerprint b /\
                   st = (with_record p ac, with_record p orig)
  end.

Lemma with_record_same p ac : as_pending (ac_status ac) = Some p -> with_record p ac = ac.
Proof. destruct ac as [m sp []]. cbn. by intros ->. Qed.

Lemma ensurePending_wp r ac orig b h :
  no_upload h -> synced h (ac, orig) ->
  twp any_env write_ahead h (ensurePending r ac orig b) (pending_written ac orig b h).
Proof.
  intros Hn [Hr Hs]. cbn in Hr, Hs. unfold ensurePending.
  set (fresh := let! startedAt := call ONow in _).
  assert (Hf : twp any_env write_ahead h fresh (pending_written ac orig b h)).
  { unfold fresh, patchPendingUpload. repeat twp_step.
    destruct r1 as [e|ac0]; cbn; (split; [no_upload_tac|]); done. }
  destruct (as_pending (ac_status ac)) as [p|] eqn:Ep; [|exact Hf].
  destruct (String.eqb (pu_fingerprint p) (b_fingerprint b)) eqn:E; [|exact Hf].
  assert (Ho : as_pending (ac_status orig) = Some p) by (injection Hs; congruence).
  cbn. split; [done|]. split; [done|]. split; [by apply String.eqb_eq|]. by rewrite !with_record_same.
Qed.
Lemma pushGeneration_pending gen ac :
  as_pending (ac_status (pushGeneration gen ac)) = as_pending (ac_status ac).
Proof. unfold pushGeneration, on_status. cbn. destruct (as_current (ac_status ac)) as [c|]; [by destruct (negb _)|done]. Qed.

(** *** The call and its outcome *)

(** CAS has said that the certificate [id] exists under the recorded name *)
Definition cas_confirmed (h : history) (p : PendingUpload) (id : Z) : Prop :=
  exists e, e ∈ h /\
    match e with
    | Ev o r =>
        match o return resp o -> Prop with
        | OCASUpload _ name _ _ token => fun r => name = pu_cas_name p /\ token = pu_client_token p /\ r = inr id
        | OCASFind _ _ => fun r => exists l c, r = inr l /\ c ∈ l /\ sum_name c = pu_cas_name p /\ sum_cert_id c = id
        | _ => fun _ => False
        end r
    end.

Lemma cas_confirmed_cons h p id e : cas_confirmed h p id -> cas_confirmed (e :: h) p id.
Proof. intros (e' & He & Hp). exists e'. split; [by right|done]. Qed.

Lemma uploadOrClaim_wp cas b p kp h :
  valid_bundle b -> no_upload h -> recorded h = Some p -> pu_fingerprint p = b_fingerprint b ->
  twp any_env write_ahead h (uploadOrClaim cas b p kp) (fun res h' => recorded h' = Some p /\
    match res with inr id => cas_confirmed h' p id | inl _ => True end).
Proof.
  intros Hv Hn Hr Hf. unfold uploadOrClaim. repeat twp_step.
  { split; [done|]. exists p. repeat split; try done. by rewrite Hf, LeafFingerprint_CertPEM. }
  assert (Hfail : forall e h', recorded h' = Some p ->
    twp any_env write_ahead h' (Ret (inl e) : prog (goerr + Z))
      (fun up h' => twp any_env write_ahead h' (do! call (OCounterInc metric_cas_upload [casResult (err_of up)]) in Ret up)
        (fun res h' => recorded h' = Some p /\ match res with inr id => cas_confirmed h' p id | inl _ => True end))).
  { intros e h' Hh'. by repeat twp_step. }
  destruct r as [e|id].
  - destruct (_ && _); [|by apply Hfail]. unfold findByName. repeat twp_step.
    destruct r as [e'|l]; repeat twp_step; [done|].
    destruct (List.find _ l) as [c|] eqn:El; [|done].
    apply find_some in El as [Hin%list_elem_of_In Hname%String.eqb_eq].
    destruct (sum_cert_id c =? 0)%Z; [done|]. split; [done|].
    apply cas_confirmed_cons. eexists. split; [by left|]. by exists l, c.
  - repeat twp_step. split; [done|]. apply cas_confirmed_cons. eexists. by split; [left|].
Qed.

(** the copy of the round after a successful upload *)
Definition uploaded_ac (p : PendingUpload) (now : gotime) (ac : AliyunCertificate) : AliyunCertificate :=
  on_status (fun s => set_as_pending None (set_as_probed_at (Some now) s)) (with_record p ac).

Definition generation_of (b : Bundle) (now : gotime) (id : option Z) (name : string) : CertificateGeneration :=
  mkGeneration (b_fingerprint b) id name (x_not_before (b_leaf b)) (x_not_after (b_leaf b)) now.

(** a failed attempt leaves the generations alone and both copies in step with the
    API server; at most the record was written *)
Definition attempt_failed (ac orig : AliyunCertificate) (b : Bundle) (st : round) (h' : history) : Prop :=
  synced h' st /\
  (st = (ac, orig) \/
   exists p, pu_fingerprint p = b_fingerprint b /\ st = (with_record p ac, with_record p orig)).

Lemma uploadGeneration_wp r `{!CASFactoryOk r} ac orig b now h :
  valid_bundle b -> no_upload h -> synced h (ac, orig) ->
  twp any_env write_ahead h (uploadGeneration r ac orig b now (generation_of b now None ""))
    (fun '(res, st) h' => match res with
      | inl _ => attempt_failed ac orig b st h'
      | inr gen => exists p id, gen = generation_of b now (Some id) (pu_cas_name p) /\
          pu_fingerprint p = b_fingerprint b /\ recorded h' = Some p /\ cas_confirmed h' p id /\
          st = (uploaded_ac p now ac, with_record p orig)
      end).
Proof.
  intros Hv Hn Hs. unfold uploadGeneration. repeat twp_step.
  eapply twp_post; [by apply ensurePending_wp|]. intros [e|[p [ac1 orig1]]] h1 [Hn1 H1].
  { cbn. split; [|by left]. destruct Hs as [Hs1 Hs2]. split; [by rewrite H1|done]. }
  destruct H1 as (Hr1 & Hf & [= -> ->]).
  assert (Hsync : forall h2, recorded h2 = Some p -> attempt_failed ac orig b (with_record p ac, with_record p orig) h2).
  { intros h2 H2. split; [|by eauto]. split; [done|]. destruct Hs as [_ Hs]. cbn in *. unfold upload_state in *. cbn.
    by injection Hs as -> _ -> ->. }
  twp_step. apply twp_quiet; [by apply casClient_quiet|]. intros [e|cas] h2 Hr2 Hn2.
  { apply Hsync. by rewrite Hr2. }
  destruct (KeyPEM b) as [e|kp]; [apply Hsync; by rewrite Hr2|]. repeat twp_step.
  eapply twp_post; [apply uploadOrClaim_wp; try done; [by apply Hn2|by rewrite Hr2]|].
  intros [e|id] h3 [Hr3 Hc]; [by apply Hsync|]. unfold Event. repeat twp_step.
  exists p, id. split; [done|]. split; [done|]. split; [done|]. split; [by apply cas_confirmed_cons|done].
Qed.

(** what [advanceGeneration] leaves *)
Definition advanced (ac orig : AliyunCertificate) (b : Bundle) (res : goerr + bool) (st : round) (h' : history) : Prop :=
  match res with
  | inl _ => attempt_failed ac orig b st h'
  | inr changed => changed = true /\ exists now,
      if UploadEnabled (ac_aliyun ac) then
        exists p id, pu_fingerprint p = b_fingerprint b /\ recorded h' = Some p /\ cas_confirmed h' p id /\
          st = (pushGeneration (generation_of b now (Some id) (pu_cas_name p)) (uploaded_ac p now ac), with_record p orig)
      else st = (pushGeneration (generation_of b now None "") ac, orig)
  end.

Lemma advanceGeneration_wp r `{!CASFactoryOk r} ac orig b h :
  valid_bundle b -> no_upload h -> synced h (ac, orig) ->
  twp any_env write_ahead h (advanceGeneration r ac orig b) (fun '(res, st) h' => advanced ac orig b res st h').
Proof.
  intros Hv Hn Hs. unfold advanceGeneration. repeat twp_step. unfold advanced.
  destruct (UploadEnabled (ac_aliyun ac)) eqn:Eu.
  - eapply twp_post; [apply (uploadGeneration_wp r ac orig b r0 _ Hv); [no_upload_tac|done]|].
    intros [[e|gen] [ac1 orig1]] h1 H1; cbn; [done|].
    destruct H1 as (p & id & -> & Hf & Hr & Hc & [= -> ->]). split; [done|]. eexists.
    exists p, id. repeat (split; [done|]). done.
  - cbn. split; [done|]. by eexists.
Qed.

(** the state the API server shows, adopted by a copy *)
Lemma adopted_synced h live ns name fresh ac orig :
  synced (Ev (OGetAC live ns name) (inr fresh) :: h) (adoptUploadState ac fresh, adoptUploadState orig fresh).
Proof. done. Qed.

(** the read of the object, from the API server itself where there is a reader for it *)
Definition fresh_read (r : CertReconciler) (ac : AliyunCertificate) : op := OGetAC (r_has_api_reader r) (ac_namespace ac) (ac_name ac).

Lemma ensureUploaded_wp r `{!CASFactoryOk r} ac orig b h :
  valid_bundle b -> no_upload h ->
  twp any_env write_ahead h (ensureUploaded r ac orig b) (fun '(res, st) h' =>
    if current_is ac (b_fingerprint b) then res = inr false /\ st = (ac, orig) /\ h' = h
    else (exists e, res = inl e /\ st = (ac, orig) /\ h' = Ev (fresh_read r ac) (inl e) :: h) \/
      exists fresh, Ev (fresh_read r ac) (inr fresh) :: h `suffix_of` h' /\
        let ac1 := adoptUploadState ac fresh in let orig1 := adoptUploadState orig fresh in
        if current_is fresh (b_fingerprint b) then res = inr false /\ st = (ac1, orig1) /\ no_upload h'
        else advanced ac1 orig1 b res st h').
Proof.
  intros Hv Hn. unfold ensureUploaded. destruct (current_is ac (b_fingerprint b)) eqn:E; [done|].
  unfold refreshUploadState. repeat twp_step. destruct r0 as [e|fresh]; cbn [twp]; [left; eauto|].
  change (current_is (adoptUploadState ac fresh)) with (current_is fresh).
  assert (Hn1 : no_upload (Ev (OGetAC (r_has_api_reader r) (ac_namespace ac) (ac_name ac)) (inr fresh) :: h))
    by (no_upload_tac).
  destruct (current_is fresh (b_fingerprint b)) eqn:E1.
  { cbn. right. exists fresh. cbn zeta. by rewrite E1. }
  eapply twp_post; [apply (twp_and _ _ any_call); [by apply advanceGeneration_wp|apply twp_suffix]|].
  intros [res st] h' [Had Hs]. right. exists fresh. split; [exact Hs|]. cbn zeta. by rewrite E1.
Qed.

End upload_proofs.

(** ** Properties *)

(** the generation of [b] is the current one *)
Definition is_current (ac : AliyunCertificate) (b : Bundle) : Prop :=
  exists g, as_current (ac_status ac) = Some g /\ gen_fingerprint g = b_fingerprint b.

Lemma current_is_spec ac b : current_is ac (b_fingerprint b) = true <-> is_current ac b.
Proof.
  unfold current_is, is_current. destruct (as_current (ac_status ac)) as [g|]; [|by split; [|intros (? & ? & _)]].
  rewrite String.eqb_eq. split; [eauto|]. by intros (? & [= <-] & ?).
Qed.

(** what an upload has no business with *)
Definition but_generations (ac : AliyunCertificate) :=
  let s := ac_status ac in
  (ac_meta ac, ac_spec ac, as_observed_generation s, as_effective_issuer s, as_secret_name s, as_cm_name s,
   as_issuance s, as_cleanup_started s, as_conditions s).

(** [ac1] is [ac] with the generations, the record and the time of the probe of [fresh] *)
Definition refreshed (ac fresh ac1 : AliyunCertificate) : Prop :=
  upload_state ac1 = upload_state fresh /\ but_generations ac1 = but_generations ac.

(** [ac2] is [ac1] after a generation of [b] became the current one *)
Record generation_made (ac1 ac2 : AliyunCertificate) (b : Bundle) (now : gotime) (id : option Z) (name : string) : Prop := {
  gm_current : as_current (ac_status ac2) =
    Some (mkGeneration (b_fingerprint b) id name (x_not_before (b_leaf b)) (x_not_after (b_leaf b)) now);
  (* the generation before it is the newest of the history; a placeholder is dropped *)
  gm_pushed old : as_current (ac_status ac1) = Some old -> gen_fingerprint old <> "" ->
    as_history (ac_status ac2) = old :: as_history (ac_status ac1);
  gm_dropped : (forall old, as_current (ac_status ac1) = Some old -> gen_fingerprint old = "") ->
    as_history (ac_status ac2) = as_history (ac_status ac1);
  gm_rest : but_generations ac2 = but_generations ac1
}.

(** how [ensureUploaded] ends *)
Inductive upload_outcome (r : CertReconciler) (ac orig : AliyunCertificate) (b : Bundle) (h : history) :
    goerr + bool -> round -> history -> Prop :=
(* the certificate is current already: nothing is called *)
| already_current : is_current ac b -> upload_outcome r ac orig b h (inr false) (ac, orig) h
(* the object could not be read *)
| not_read e : ~ is_current ac b ->
    upload_outcome r ac orig b h (inl e) (ac, orig) (Ev (fresh_read r ac) (inl e) :: h)
(* it is current in the object that was read, which both copies take over *)
| found_current fresh ac1 orig1 h' : ~ is_current ac b -> Ev (fresh_read r ac) (inr fresh) ∈ h' -> is_current fresh b ->
    refreshed ac fresh ac1 -> refreshed orig fresh orig1 -> no_upload h' ->
    upload_outcome r ac orig b h (inr false) (ac1, orig1) h'
(* the attempt failed: the generations are those of the object that was read, and the
   record is that of the API server, in both copies; it is the one that was read, or one of [b] *)
| attempt_fails e fresh ac2 orig2 h' : ~ is_current ac b -> Ev (fresh_read r ac) (inr fresh) ∈ h' -> ~ is_current fresh b ->
    as_current (ac_status ac2) = as_current (ac_status fresh) -> as_history (ac_status ac2) = as_history (ac_status fresh) ->
    upload_state ac2 = upload_state orig2 -> recorded h' = as_pending (ac_status ac2) ->
    (as_pending (ac_status ac2) = as_pending (ac_status fresh) \/
     exists p, as_pending (ac_status ac2) = Some p /\ pu_fingerprint p = b_fingerprint b) ->
    but_generations ac2 = but_generations ac -> but_generations orig2 = but_generations orig ->
    upload_outcome r ac orig b h (inl e) (ac2, orig2) h'
(* uploading is on: the certificate is in CAS under the recorded name; the record is
   dropped in the copy of the round, and still there in the base of its patches *)
| made_in_cas fresh p id now ac1 ac2 orig2 h' : ~ is_current ac b -> Ev (fresh_read r ac) (inr fresh) ∈ h' -> ~ is_current fresh b ->
    UploadEnabled (ac_aliyun ac) = true -> pu_fingerprint p = b_fingerprint b -> recorded h' = Some p -> cas_confirmed h' p id ->
    refreshed ac fresh ac1 -> generation_made ac1 ac2 b now (Some id) (pu_cas_name p) ->
    as_pending (ac_status ac2) = None -> as_probed_at (ac_status ac2) = Some now ->
    as_pending (ac_status orig2) = Some p -> as_current (ac_status orig2) = as_current (ac_status fresh) ->
    as_history (ac_status orig2) = as_history (ac_status fresh) -> but_generations orig2 = but_generations orig ->
    upload_outcome r ac orig b h (inr true) (ac2, orig2) h'
(* uploading is off: the generation is known by its fingerprint only *)
| made_unarchived fresh now ac1 ac2 orig1 h' : ~ is_current ac b -> Ev (fresh_read r ac) (inr fresh) ∈ h' -> ~ is_current fresh b ->
    UploadEnabled (ac_aliyun ac) = false -> refreshed ac fresh ac1 -> refreshed orig fresh orig1 ->
    generation_made ac1 ac2 b now None "" ->
    as_pending (ac_status ac2) = as_pending (ac_status fresh) -> as_probed_at (ac_status ac2) = as_probed_at (ac_status fresh) ->
    upload_outcome r ac orig b h (inr true) (ac2, orig1) h'.

Lemma adopt_refreshed ac fresh : refreshed ac fresh (adoptUploadState ac fresh).
Proof. done. Qed.

(** what [pushGeneration] does with a new generation, of an object that has the
    generations of [ac1] *)
Lemma push_made ac1 ac2 b now id name :
  as_current (ac_status ac2) = as_current (ac_status ac1) -> as_history (ac_status ac2) = as_history (ac_status ac1) ->
  but_generations ac2 = but_generations ac1 ->
  generation_made ac1 (pushGeneration (generation_of b now id name) ac2) b now id name.
Proof.
  intros Hc Hh Hb. split; unfold pushGeneration; cbn; rewrite ?Hc.
  - done.
  - intros old -> Hf%String.eqb_neq. rewrite Hf. cbn. by rewrite Hh.
  - intros Hno. destruct (as_current (ac_status ac1)) as [old|]; [|done]. by rewrite (Hno old eq_refl).
  - unfold but_generations in *. cbn. rewrite ?Hc. destruct (as_current (ac_status ac1)) as [old|]; [|done]. by destruct (negb _).
Qed.

Lemma push_state gen ac : as_probed_at (ac_status (pushGeneration gen ac)) = as_probed_at (ac_status ac).
Proof. unfold pushGeneration, on_status. cbn. destruct (as_current (ac_status ac)) as [c|]; [by destruct (negb _)|done]. Qed.

Lemma advanced_outcome r ac orig b h fresh res st h' :
  ~ is_current ac b -> ~ is_current fresh b -> Ev (fresh_read r ac) (inr fresh) ∈ h' ->
  advanced (adoptUploadState ac fresh) (adoptUploadState orig fresh) b res st h' -> upload_outcome r ac orig b h res st h'.
Proof.
  intros Hac Hfr Hin. unfold advanced. destruct res as [e|changed].
  - intros [[Hr Hs] [->|(p & Hf & ->)]]; (apply (attempt_fails _ _ _ _ _ e fresh); try done); [by left|]. right. by exists p.
  - intros [-> [now Hmade]]. change (UploadEnabled (ac_aliyun (adoptUploadState ac fresh))) with (UploadEnabled (ac_aliyun ac)) in Hmade.
    destruct (UploadEnabled (ac_aliyun ac)) eqn:Eu.
    + destruct Hmade as (p & id & Hf & Hr & Hc & ->).
      apply (made_in_cas _ _ _ _ _ fresh p id now (adoptUploadState ac fresh)); try done; rewrite ?push_state, ?pushGeneration_pending; try done.
      by apply push_made.
    + subst st. apply (made_unarchived _ _ _ _ _ fresh now (adoptUploadState ac fresh)); try done;
        rewrite ?push_state, ?pushGeneration_pending; try done. by apply push_made.
Qed.

(** C17: what [ensureUploaded] does to the generations.  A bundle that is already
    current is left alone without any call.  Otherwise both copies take over the
    generations and the record of the object as the API server has it; if the bundle is
    not current there either, success makes it current, with its validity and, when
    uploading is on, the certId CAS confirmed for the recorded name, makes the previous
    generation the newest of the history (a placeholder is dropped), and drops the record
    in the copy the generation is written to, while the patch base still carries it;
    failure leaves the generations as they were read and both copies with the record the
    API server has, so that the final patch cannot delete it.  Nothing else of the object
    changes. *)
Theorem ensureUploaded_outcome `{CL : CryptoLaws} (r : CertReconciler) `{!CASFactoryOk r}
    (ac orig : AliyunCertificate) (b : Bundle) (h : history) :
  valid_bundle b -> no_upload h ->
  twp any_env write_ahead h (ensureUploaded r ac orig b) (fun '(res, st) h' => upload_outcome r ac orig b h res st h').
Proof.
  intros Hv Hn. eapply twp_post; [by apply ensureUploaded_wp|]. intros [res st] h' Ho.
  pose proof (current_is_spec ac b) as Hcs. destruct (current_is ac (b_fingerprint b)).
  { destruct Ho as (-> & -> & ->). apply already_current. by apply Hcs. }
  assert (Hac : ~ is_current ac b) by (intros Hc; by apply Hcs in Hc).
  destruct Ho as [(e & -> & -> & ->)|(fresh & Hs & Ho)]; [by apply not_read|].
  assert (Hin : Ev (fresh_read r ac) (inr fresh) ∈ h') by (eapply elem_suffix; [|exact Hs]; by left).
  cbn zeta in Ho. pose proof (current_is_spec fresh b) as Hcf. destruct (current_is fresh (b_fingerprint b)).
  - destruct Ho as (-> & -> & Hno). apply (found_current _ _ _ _ _ fresh); try done. by apply Hcf.
  - apply (advanced_outcome r ac orig b h fresh); try done. intros Hc. by apply Hcf in Hc.
Qed.

(** the sample bundle is valid for the toy primitives *)
Lemma sample_bundle_valid der : @valid_bundle toy_crypto (sample_bundle der).
Proof.
  split; [done|]. split; [done|]. split; [done|]. split; [|done].
  by intros c [->|Hc%elem_of_nil]%elem_of_cons.
Qed.

(** a reconciler whose factory hands out the sample client *)
Definition sample_reconciler : CertReconciler :=
  mkCertReconciler true (Some (fun _ => Ret (inr sample_cas))) (10 * minute) (12 * hour) hour hour
    CleanupPolicyAbandon (mkIssuerDefaults "" "" "").

#[export] Instance sample_factory_ok : CASFactoryOk sample_reconciler.
Proof. by intros f ac [= <-]. Defined.

(** the object of the API server with a generation before *)
Definition sample_served : AliyunCertificate := on_status (set_as_current (Some (sample_gen "old" (Some 3%Z) 0))) sample_ac.

Lemma ensureUploaded_outcome_witness :
  let w : handler unit := fun _ o => match o return resp o * unit with
    | OGetAC _ _ _ => (inr sample_served, tt)
    | OPatchACStatus ac _ => (inr ac, tt)
    | OCASUpload _ _ _ _ _ => (inr 4711%Z, tt)
    | o => (failed_resp o, tt) end in
  let run := exec w tt [] (@ensureUploaded toy_crypto sample_reconciler sample_ac sample_ac (sample_bundle "leaf")) in
  (gen_cert_id <$> as_current (ac_status run.1.1.2.1)) = Some (Some 4711%Z) /\
  as_history (ac_status run.1.1.2.1) = [sample_gen "old" (Some 3%Z) 0] /\
  upload_outcome sample_reconciler sample_ac sample_ac (sample_bundle "leaf") [] run.1.1.1 run.1.1.2 run.1.2.
Proof.
  intros w run. split; [vm_compute; reflexivity|]. split; [vm_compute; reflexivity|].
  pose proof (twp_exec_any w _ [] tt _ _ (@ensureUploaded_outcome toy_crypto toy_crypto_laws sample_reconciler _
    sample_ac sample_ac (sample_bundle "leaf") [] (sample_bundle_valid _) (List.Forall_nil _))) as H.
  change (exec w tt [] _) with run in H. by destruct run as [[[res st] h'] u].
Defined.

(** the API server shows [p] as the record of an object that lacks the bundle *)
Definition shows_record (p : PendingUpload) (b : Bundle) : environment := fun _ o r =>
  match o return resp o -> Prop with
  | OGetAC _ _ _ => fun r => match r with
      | inr ac => as_pending (ac_status ac) = Some p /\ current_is ac (b_fingerprint b) = false
      | inl _ => True end
  | _ => fun _ => True
  end r.

(** uploads are made under the record [p], and no record is written *)
Definition from_record (p : PendingUpload) : policy := fun _ o =>
  match o with
  | OCASUpload _ name _ _ token => name = pu_cas_name p /\ token = pu_client_token p
  | OPatchACStatus _ _ => False
  | _ => True
  end.

(** A retry is idempotent for CAS: when the API server holds a record of this
    certificate, written by an earlier round that crashed or lost the response, the
    upload is made with that record's name and token and no second record is
    written, whatever stale copy the informer cache gave this round. *)
Theorem retry_reuses_record `{CL : CryptoLaws} (r : CertReconciler) `{!CASFactoryOk r}
    (ac orig : AliyunCertificate) (b : Bundle) (p : PendingUpload) (h : history) :
  pu_fingerprint p = b_fingerprint b ->
  twp (shows_record p b) (from_record p) h (ensureUploaded r ac orig b) (fun '(res, st) h' =>
    UploadEnabled (ac_aliyun ac) = true -> res = inr true ->
    exists gen, as_current (ac_status st.1) = Some gen /\ gen_cas_name gen = pu_cas_name p /\
                as_pending (ac_status st.1) = None).
Proof.
  intros Hp. unfold ensureUploaded. destruct (current_is ac (b_fingerprint b)); [by cbn|].
  unfold refreshUploadState. repeat twp_step. destruct r0 as [e|fresh]; cbn [twp]; [by cbn|].
  destruct H as [Hpf Hcf]. change (current_is (adoptUploadState ac fresh)) with (current_is fresh).
  rewrite Hcf. unfold advanceGeneration. repeat twp_step.
  change (ac_aliyun (adoptUploadState ac fresh)) with (ac_aliyun ac).
  destruct (UploadEnabled (ac_aliyun ac)); [|by cbn].
  unfold uploadGeneration, ensurePending. change (as_pending (ac_status (adoptUploadState ac fresh))) with
    (as_pending (ac_status fresh)). rewrite Hpf, (proj2 (String.eqb_eq _ _) Hp). cbn [bind]. repeat twp_step.
  eapply twp_post; [apply (all_calls_twp client_call); [by apply casClient_calls|by intros ? []]|].
  intros [e|cas] h1 _; [by cbn|]. destruct (KeyPEM b) as [e|kp]; [by cbn|].
  unfold uploadOrClaim, findByName, Event. repeat twp_step; [done|].
  destruct r1 as [e|id]; [|repeat twp_step; intros _ _; eexists; split; [reflexivity|cbn [fst]; by rewrite pushGeneration_pending]].
  destruct (_ && _); repeat twp_step; [|done].
  destruct r1 as [e'|l]; repeat twp_step; [done|].
  destruct (List.find _ l) as [c|]; [|done]. destruct (sum_cert_id c =? 0)%Z; [done|].
  repeat twp_step. intros _ _. eexists. split; [reflexivity|cbn [fst]; by rewrite pushGeneration_pending].
Qed.

Lemma retry_reuses_record_witness :
  let p := mkPendingUpload (toy_digest "leaf") "site_old" "token-1" 0 "leaf" in
  let stale := sample_ac in
  let live := on_status (set_as_pending (Some p)) sample_ac in
  let w : handler unit := fun _ o => match o return resp o * unit with
    | OGetAC _ _ _ => (inr live, tt)
    | OCASUpload _ _ _ _ _ => (inr 4711%Z, tt)
    | o => (failed_resp o, tt) end in
  let run := exec w tt [] (@ensureUploaded toy_crypto sample_reconciler stale stale (sample_bundle "leaf")) in
  run.1.1.1 = inr true /\
  exists gen, as_current (ac_status run.1.1.2.1) = Some gen /\ gen_cas_name gen = "site_old" /\
              as_pending (ac_status run.1.1.2.1) = None.
Proof.
  intros p stale live w run. split; [vm_compute; reflexivity|].
  assert (HE : forall s h o, shows_record p (sample_bundle "leaf") h o (w s o).1).
  { intros s h []; try exact I. split; vm_compute; reflexivity. }
  assert (Hr : run.1.1.1 = inr true) by (vm_compute; reflexivity).
  pose proof (twp_exec_env w _ _ [] tt _ _ HE (@retry_reuses_record toy_crypto toy_crypto_laws sample_reconciler _
    stale stale (sample_bundle "leaf") p [] eq_refl)) as H.
  change (exec w tt [] _) with run in H. destruct run as [[[res st] h'] u]. cbn in Hr, H |- *. by apply H.
Defined.

(** Switching uploading on does not upload what is already current: a
    generation that became current while [uploadToCAS] was false has no certId, and
    once uploading is enabled [ensureUploaded] makes no call for it (the fingerprint
    is the only thing compared) while Uploaded stays False, until the next renewal. *)
Theorem enabling_upload_uploads_nothing `{KL : KubeLibLaws} `{Cr : Crypto} (r : CertReconciler)
    (ac orig : AliyunCertificate) (b : Bundle) (c : CertificateGeneration) :
  UploadEnabled (ac_aliyun ac) = true -> as_current (ac_status ac) = Some c ->
  gen_fingerprint c = b_fingerprint b -> gen_cert_id c = None ->
  ensureUploaded r ac orig b = Ret (inr false, (ac, orig)) /\
  ac_shown (setUploadedCondition ac) ConditionUploaded =
    Some (CondFalse, ReasonUploadFailed, "尚未上传", om_generation (ac_meta ac)).
Proof.
  intros Hu Hc Hf Hi. split.
  - unfold ensureUploaded, current_is. by rewrite Hc, (proj2 (String.eqb_eq _ _) Hf).
  - unfold setUploadedCondition. rewrite Hu. cbn [negb]. rewrite Hc. cbn [option_bind mbind]. rewrite Hi.
    apply ac_shown_set_same.
Qed.

(** the state is reached: advance with uploading off, then switch it on *)
Lemma enabling_upload_uploads_nothing_witness :
  let off := set_ac_spec (mkAliyunCertificateSpec "" sample_template
    (mkAliyunSpec "creds" "cn-hangzhou" "" "" "" (Some false)) (mkRetentionSpec 2 None)) sample_ac in
  let w : handler unit := fun _ o => match o return resp o * unit with
    | OGetAC _ _ _ => (inr off, tt) | o => (failed_resp o, tt) end in
  let st := (exec w tt [] (@ensureUploaded toy_crypto sample_reconciler off off (sample_bundle "leaf"))).1.1.2 in
  let on := set_ac_spec (ac_spec sample_ac) st.1 in
  UploadEnabled (ac_aliyun on) = true /\
  @ensureUploaded toy_crypto sample_reconciler on on (sample_bundle "leaf") = Ret (inr false, (on, on)).
Proof.
  intros off w st on. split; [vm_compute; reflexivity|].
  refine (proj1 (@enabling_upload_uploads_nothing (ref_kube 0) (ref_kube_laws 0) toy_crypto sample_reconciler on on
    (sample_bundle "leaf") (generation_of (sample_bundle "leaf") 0 None "") _ _ _ _)); vm_compute; reflexivity.
Defined.
