(* ===== verification/UploadMemory.v ===== *)
(** * Taking over the upload state, in memory (internal/controller/upload.go)

    A round keeps two copies of its object, the one it mutates and the one its patches
    are computed against.  Both take over the upload state the API server has, by deep
    copies of the same fresh object.  Here the pure [adoptUploadState] of CertUpload.v
    is refined to memory, and the two copies are shown to stay apart. *)
From S2P Require Import Prelude GoString GoTime Api GoHeap DeepCopy KubeLib Effects CertUpload.

#[local] Open Scope mem_scope.

(** ** Definitions *)

Section memory.
  Context `{M : ApiMachinery}.

(** assignments [dst.Status.f = v] *)
Definition set_mstatus (f : mCertificateStatus -> mCertificateStatus) (ac : mCertificate) : mCertificate :=
  mkmCertificate (mac_type ac) (mac_meta ac) (mac_spec ac) (f (mac_status ac)).

Definition set_mas_current (v : option (ptr mGeneration)) (s : mCertificateStatus) : mCertificateStatus :=
  mkmCertificateStatus (mas_observed_generation s) (mas_effective_issuer s) (mas_secret_name s) (mas_cm_name s) (mas_issuance s)
    v (mas_history s) (mas_pending s) (mas_probed_at s) (mas_cleanup_started s) (mas_conditions s).
Definition set_mas_history (v : option (slice mGeneration)) (s : mCertificateStatus) : mCertificateStatus :=
  mkmCertificateStatus (mas_observed_generation s) (mas_effective_issuer s) (mas_secret_name s) (mas_cm_name s) (mas_issuance s)
    (mas_current s) v (mas_pending s) (mas_probed_at s) (mas_cleanup_started s) (mas_conditions s).
Definition set_mas_pending (v : option (ptr PendingUpload)) (s : mCertificateStatus) : mCertificateStatus :=
  mkmCertificateStatus (mas_observed_generation s) (mas_effective_issuer s) (mas_secret_name s) (mas_cm_name s) (mas_issuance s)
    (mas_current s) (mas_history s) v (mas_probed_at s) (mas_cleanup_started s) (mas_conditions s).
Definition set_mas_probed_at (v : option (ptr gotime)) (s : mCertificateStatus) : mCertificateStatus :=
  mkmCertificateStatus (mas_observed_generation s) (mas_effective_issuer s) (mas_secret_name s) (mas_cm_name s) (mas_issuance s)
    (mas_current s) (mas_history s) (mas_pending s) v (mas_cleanup_started s) (mas_conditions s).

Definition adoptUploadState_mem (dst src : ptr mCertificate) : mem cell unit :=
  let& s := load src in
  let& _ := (let& v := CertificateGeneration_DeepCopy (mas_current (mac_status s)) in update dst (set_mstatus (set_mas_current v))) in
  let& s := load src in
  let& _ := (let& v := PendingUpload_DeepCopy (mas_pending (mac_status s)) in update dst (set_mstatus (set_mas_pending v))) in
  let& s := load src in
  let& _ := (let& v := Time_DeepCopy (mas_probed_at (mac_status s)) in update dst (set_mstatus (set_mas_probed_at v))) in
  let& _ := update dst (set_mstatus (set_mas_history None)) in
  let& s := load src in
  match mas_history (mac_status s) with
  | None => mret tt
  | Some _ => let& v := copy_slice CertificateGeneration_DeepCopyInto (mas_history (mac_status s)) in
              update dst (set_mstatus (set_mas_history v))
  end.

(** [refreshUploadState] once the fresh object is there *)
Definition adopt_both (ac orig fresh : ptr mCertificate) : mem cell unit :=
  let& _ := adoptUploadState_mem ac fresh in adoptUploadState_mem orig fresh.

End memory.

(** ** Lemmas *)

Section lemmas.
  Context `{ML : ApiMachineryLaws}.

(** one assignment: a field of the source is copied into the destination *)
Lemma assign_status {N W} `{!Layout cell N W} (d : N -> mem cell N) (field : mCertificateStatus -> N) (vfield : AliyunCertificateStatus -> W)
    (f : N -> mCertificateStatus -> mCertificateStatus) (g : W -> AliyunCertificateStatus -> AliyunCertificateStatus)
    h kd ks dst src t v ts vs :
  copies d ->
  (forall (k : heap cell) m v, reads k m v -> reads k (field m) (vfield v)) ->
  (forall (k : heap cell) n m w v, reads k n w -> reads k m v -> reads k (f n m) (g w v)) ->
  held h kd dst (t, v) -> held h ks src (ts, vs) -> ks ##ₘ kd ->
  exists h' kd', (forall B (c : mem cell B),
      (let& s := load src in let& _ := (let& n := d (field (mac_status s)) in update dst (set_mstatus (f n))) in c) h = c h') /\
    held h' kd' dst (t, on_status (g (vfield (ac_status vs))) v) /\ held h' ks src (ts, vs) /\ ks ##ₘ kd' /\ apart h kd h' kd'.
Proof.
  intros Hd Hfield Hset Hdst Hsrc Hdj. destruct (held_load h ks src _ Hsrc) as (ms & E & Hms).
  destruct Hms as (_ & _ & _ & Hms).
  destruct (held_assign (d (field (mac_status ms))) h kd dst (t, v) (vfield (ac_status vs))
    (fun n => set_mstatus (f n)) (fun w tv => (tv.1, on_status (g w) tv.2))) as (h' & kd' & E' & Hdst' & Ha).
  - apply Hd. apply (reads_mono ks); [apply Hsrc|by apply Hfield].
  - done.
  - intros k n m [t0 v0] Hn (H1 & H2 & H3 & H4). exact (conj H1 (conj H2 (conj H3 (Hset _ _ _ _ _ Hn H4)))).
  - exists h', kd'. split.
    + intros B c. unfold mbind at 1. rewrite E. unfold mbind at 1. by rewrite E'.
    + destruct (Ha ks) as [Hk Hdj']; [apply Hsrc|done|]. repeat split_and; try done. split; [done|apply Hsrc].
Qed.

(** the history before it is replaced *)
Lemma set_history_reads (k : heap cell) n m (w : list CertificateGeneration) (tv : TypeMeta * AliyunCertificate) :
  reads k n w -> reads k m tv -> reads k (set_mstatus (set_mas_history n) m) (tv.1, on_status (set_as_history w) tv.2).
Proof.
  intros Hn (H1 & H2 & H3 & H4). refine (conj H1 (conj H2 (conj H3 _))). hnf in H4. destruct_and? H4. hnf. split_and?; assumption.
Qed.

Lemma assign_history_nil h k dst t v : held h k dst (t, v) ->
  exists h' k', (forall B (c : mem cell B), (let& _ := update dst (set_mstatus (set_mas_history None)) in c) h = c h') /\
    held h' k' dst (t, on_status (set_as_history []) v) /\ apart h k h' k'.
Proof.
  intros Hdst. destruct (held_assign (N:=option (slice mGeneration)) (W:=list CertificateGeneration) (mret None) h k dst (t, v) []
    (fun n => set_mstatus (set_mas_history n)) (fun w tv => (tv.1, on_status (set_as_history w) tv.2)))
    as (h' & k' & E & Hdst' & Ha); [by apply grows_ret|done|intros; by apply set_history_reads|].
  exists h', k'. split; [|by split]. intros B c. unfold mbind at 1. change (update dst (set_mstatus (set_mas_history None)) h = Some (tt, h')) in E. by rewrite E.
Qed.

(** a change of one field of the status, seen in the value *)
Ltac set_field_tac :=
  let k := fresh "k" in let m := fresh "m" in let v := fresh "v" in let H := fresh "H" in
  intros k ? m ? v ? H; hnf in H; destruct_and? H; hnf; split_and?; assumption.

Ltac field_tac := intros k m x H; hnf in H; destruct_and? H; assumption.

Lemma adopt_mem h kd ks dst src t v ts vs :
  held h kd dst (t, v) -> held h ks src (ts, vs) -> ks ##ₘ kd ->
  exists h' kd', adoptUploadState_mem dst src h = Some (tt, h') /\
    held h' kd' dst (t, adoptUploadState v vs) /\ apart h kd h' kd'.
Proof.
  intros Hdst Hsrc Hdj. unfold adoptUploadState_mem.
  edestruct (assign_status CertificateGeneration_DeepCopy mas_current as_current set_mas_current set_as_current)
    as (h1 & k1 & -> & Hdst1 & Hsrc1 & Hdj1 & Ha1); [by apply copies_ptr; auto with copies|field_tac|set_field_tac|exact Hdst|exact Hsrc|done|].
  edestruct (assign_status PendingUpload_DeepCopy mas_pending as_pending set_mas_pending set_as_pending)
    as (h2 & k2 & -> & Hdst2 & Hsrc2 & Hdj2 & Ha2); [by apply copies_ptr; auto with copies|field_tac|set_field_tac|exact Hdst1|exact Hsrc1|done|].
  edestruct (assign_status Time_DeepCopy mas_probed_at as_probed_at set_mas_probed_at set_as_probed_at)
    as (h3 & k3 & -> & Hdst3 & Hsrc3 & Hdj3 & Ha3); [apply Time_copies|field_tac|set_field_tac|exact Hdst2|exact Hsrc2|done|].
  destruct (assign_history_nil h3 k3 dst t _ Hdst3) as (h4 & k4 & E4 & Hdst4 & Ha4). rewrite E4.
  destruct (Ha4 ks) as [Hs4 Hdj4]; [apply Hsrc3|done|]. assert (Hsrc4 : held h4 ks src (ts, vs)) by (split; [done|apply Hsrc3]).
  assert (Ha : apart h kd h4 k4) by (do 3 (eapply apart_trans; [eassumption|]); exact Ha4).
  destruct (held_load h4 ks src _ Hsrc4) as (ms & E & _ & _ & _ & Hms). unfold mbind at 1. rewrite E.
  assert (Hf : forall (k : heap cell) (m : mCertificateStatus) (x : AliyunCertificateStatus),
    reads k m x -> reads k (mas_history m) (as_history x)) by field_tac.
  pose proof (Hf ks _ _ Hms) as Hh. cbn [snd] in Hh.
  destruct (mas_history (mac_status ms)) as [sl|] eqn:Eh.
  - match type of Hdst4 with held _ _ _ ?x => set (tv := x) in Hdst4 end.
    destruct (held_assign (copy_slice CertificateGeneration_DeepCopyInto (Some sl)) h4 k4 dst tv (as_history (ac_status vs))
      (fun n => set_mstatus (set_mas_history n)) (fun w tv => (tv.1, on_status (set_as_history w) tv.2))) as (h5 & k5 & E5 & Hdst5 & Ha5);
      [apply copies_slice; [auto with copies|by apply (reads_mono ks)]|exact Hdst4|intros; by apply set_history_reads|].
    exists h5, k5. split; [exact E5|]. split; [exact Hdst5|]. by eapply apart_trans.
  - exists h4, k4. split; [done|]. split; [|done]. change (as_history (ac_status vs) = []) in Hh.
    unfold adoptUploadState. cbv zeta. rewrite Hh. exact Hdst4.
Qed.

End lemmas.

(** ** Properties *)

(** C19: The two copies of a round stay two.  Let the object of the round, the base of its
    patches and the freshly read object lie apart from each other in memory.  Then
    taking over the upload state runs through, leaves in both copies what the pure
    [adoptUploadState] says, and leaves all three apart, so that what the round then
    writes into its object does not reach the base, and the patch at its end shows it;
    nothing else in memory is touched. *)
Theorem adopted_copies_stay_apart `{ML : ApiMachineryLaws} (h ka ko kf : heap cell) (ac orig fresh : ptr mCertificate)
    (ta to tf : TypeMeta) (va vo vf : AliyunCertificate) :
  held h ka ac (ta, va) -> held h ko orig (to, vo) -> held h kf fresh (tf, vf) ->
  ka ##ₘ ko -> kf ##ₘ ka -> kf ##ₘ ko ->
  exists h' ka' ko', adopt_both ac orig fresh h = Some (tt, h') /\
    held h' ka' ac (ta, adoptUploadState va vf) /\ held h' ko' orig (to, adoptUploadState vo vf) /\ held h' kf fresh (tf, vf) /\
    ka' ##ₘ ko' /\ kf ##ₘ ka' /\ kf ##ₘ ko' /\
    (forall r, r ⊆ h -> r ##ₘ ka -> r ##ₘ ko -> r ⊆ h' /\ r ##ₘ ka' /\ r ##ₘ ko').
Proof.
  intros Hac Horig Hfresh Hao Hfa Hfo. unfold adopt_both, mbind at 1.
  destruct (adopt_mem h ka kf ac fresh ta va tf vf Hac Hfresh Hfa) as (h1 & ka' & -> & Hac1 & Ha1).
  destruct (Ha1 ko) as [Hko Hko']; [apply Horig|done|]. destruct (Ha1 kf) as [Hkf Hkf']; [apply Hfresh|done|].
  destruct (adopt_mem h1 ko kf orig fresh to vo tf vf) as (h2 & ko' & E & Horig2 & Ha2); [split; [done|apply Horig]|split; [done|apply Hfresh]|done|].
  destruct (Ha2 ka') as [Hka2 Hka2']; [apply Hac1|done|]. destruct (Ha2 kf) as [Hkf2 Hkf2']; [done|done|].
  exists h2, ka', ko'. split; [done|]. split; [split; [done|apply Hac1]|]. split; [done|]. split; [split; [done|apply Hfresh]|].
  do 3 (split; [done|]). intros r Hr Hra Hro. destruct (Ha1 r Hr Hra) as [Hr1 Hra']. by destruct (Ha2 r Hr1 Hro).
Qed.

(** an object without pointers, and one with a current generation *)
Definition bare_memory (current : option (ptr mGeneration)) : mCertificate :=
  mkmCertificate (mkTypeMeta "" "") (mkmObjectMeta "prod" "site" "uid-1" "9" 1 0 None None None None)
    (mkmCertificateSpec "" (mkmCertificateTemplate None "" None None None None None None None None)
       (mkmAliyunSpec "" "" "" "" "" None) (mkmRetentionSpec 2 None))
    (mkmCertificateStatus 1 None "" "" None current None None None None None).
Definition bare_value (current : option CertificateGeneration) : AliyunCertificate :=
  mkAC (mkObjectMeta "prod" "site" "uid-1" "9" 1 0 None [] ∅ ∅)
    (mkAliyunCertificateSpec "" (mkCertificateTemplate None "" [] [] None None None [] None None)
       (mkAliyunSpec "" "" "" "" "" None) (mkRetentionSpec 2 None))
    (mkACStatus 1 None "" "" None current [] None None None []).
Definition bare_generation : mGeneration := mkmGeneration "f1" None "site_f1" 0 0 5.

Lemma adopted_copies_stay_apart_witness :
  let ka : heap cell := {[1%positive := to_cell (bare_memory None)]} in
  let ko : heap cell := {[2%positive := to_cell (bare_memory None)]} in
  let kf : heap cell := <[3%positive := to_cell (bare_memory (Some (Ptr 4)))]> {[4%positive := to_cell bare_generation]} in
  let g := mkGeneration "f1" None "site_f1" 0 0 5 in
  exists h' ka' ko', adopt_both (Ptr 1) (Ptr 2) (Ptr 3) (ka ∪ (ko ∪ kf)) = Some (tt, h') /\
    held h' ka' (Ptr 1) (mkTypeMeta "" "", bare_value (Some g)) /\ held h' ko' (Ptr 2) (mkTypeMeta "" "", bare_value (Some g)) /\
    ka' ##ₘ ko'.
Proof.
  intros ka ko kf g.
  assert (Hbare : forall l, owns (cell:=cell) {[l := to_cell (bare_memory None)]} (Ptr l) (mkTypeMeta "" "", bare_value None)).
  { intros l. exists (bare_memory None), ∅. split; [done|]. split; [done|]. repeat split. }
  assert (Hf : owns kf (Ptr 3) (mkTypeMeta "" "", bare_value (Some g))).
  { exists (bare_memory (Some (Ptr 4))), {[4%positive := to_cell bare_generation]}. split; [done|]. split; [done|]. repeat split.
    exists bare_generation. split; [by exists (to_cell bare_generation)|]. repeat split. }
  assert (D1 : ka ##ₘ ko) by (by apply map_disjoint_singleton_l_2).
  assert (D2 : ka ##ₘ kf) by (by apply map_disjoint_singleton_l_2).
  assert (D3 : ko ##ₘ kf) by (by apply map_disjoint_singleton_l_2).
  destruct (adopted_copies_stay_apart (ML:=ref_machinery_laws) (ka ∪ (ko ∪ kf)) ka ko kf (Ptr 1) (Ptr 2) (Ptr 3)
    (mkTypeMeta "" "") (mkTypeMeta "" "") (mkTypeMeta "" "") (bare_value None) (bare_value None) (bare_value (Some g)))
    as (h' & ka' & ko' & E & Ha & Ho & _ & Hd & _).
  - split; [by apply map_union_subseteq_l|apply Hbare].
  - split; [by apply map_union_subseteq_r'; [apply map_disjoint_union_r|apply map_union_subseteq_l]|apply Hbare].
  - split; [by apply map_union_subseteq_r'; [apply map_disjoint_union_r|apply map_union_subseteq_r]|exact Hf].
  - done.
  - by symmetry.
  - by symmetry.
  - exists h', ka', ko'. by repeat split_and.
Defined.
