(* ===== verification/UploadWorld.v ===== *)
(** * Uploading against the cloud

    The attempts of the certificate controller to upload one generation, run against
    the in-memory CAS: whatever faults happen between them, they make at most one
    certificate, and all that succeed name the same one. *)
From S2P Require Import Prelude GoString GoTime Api GoError Cloud KubeLib Effects FakeCAS FakeFC3 FakeOSS FakeCloud.
From S2P Require Import Naming Tokens Bundle Issuer CertStatus Samples CertUpload.

#[local] Open Scope prog_scope.

Section world.
  Context `{KL : KubeLibLaws} `{Cr : Crypto} (visit : gmap Z FakeCAS.Cert -> list FakeCAS.Cert).
  Context (Hvisit : FakeCAS.visits visit).

(** the CAS after a history *)
Definition cas_after (c0 : cloud) (h : history) : FakeCAS.CAS := cl_cas (cloud_after visit c0 h).

(** the id is that of the certificate of this name *)
Definition cert_named (s : FakeCAS.CAS) (name : string) (id : Z) : Prop :=
  exists x, FakeCAS.certs s !! id = Some x /\ FakeCAS.Name x = name.

(** no other certificate carries the token *)
Definition owned (s : FakeCAS.CAS) (name token : string) : Prop :=
  forall id x, FakeCAS.certs s !! id = Some x -> FakeCAS.Token x = token -> FakeCAS.Name x = name.

(** one more certificate at most, of this name, token and text *)
Definition grown (s s' : FakeCAS.CAS) (name cert key token : string) : Prop :=
  FakeCAS.certs s' = FakeCAS.certs s \/
  (FakeCAS.name_taken name (FakeCAS.certs s) = false /\
   exists id, FakeCAS.certs s !! id = None /\
     FakeCAS.certs s' = <[id := FakeCAS.mkCert id name cert key token]> (FakeCAS.certs s)).

(** ids left before the counter ends *)
Definition room (n : nat) (s : FakeCAS.CAS) : Prop := (FakeCAS.nextID s + Z.of_nat n <= int64_max)%Z.

Lemma cert_named_unique s name i j : FakeCAS.wf s -> cert_named s name i -> cert_named s name j -> i = j.
Proof. intros Hwf (x & Hx & Ex) (y & Hy & Ey). apply (FakeCAS.wf_name s Hwf i j x y Hx Hy). congruence. Qed.

Lemma cert_named_grown s s' name cert key token id : grown s s' name cert key token -> cert_named s name id -> cert_named s' name id.
Proof.
  intros [E|(Hfree & new & Hnew & E)] (x & Hx & Ex); exists x; rewrite E; [done|].
  split; [|done]. rewrite lookup_insert_ne; [done|]. intros ->. congruence.
Qed.

Lemma grown_owned s s' name cert key token : grown s s' name cert key token -> owned s name token -> owned s' name token.
Proof.
  intros [E|(_ & new & _ & E)] Ho id x; rewrite E; [apply Ho|]. rewrite lookup_insert_Some. intros [[<- <-]|[_ Hx]]; [done|by apply (Ho id)].
Qed.

(** once the name is there, it stays the only one *)
Lemma grown_trans s1 s2 s3 name cert key token :
  grown s1 s2 name cert key token -> grown s2 s3 name cert key token -> grown s1 s3 name cert key token.
Proof.
  intros H12 [E|(Hfree & new & Hnew & E)]; [destruct H12 as [E'|(Hf & new & Hn & E')]; [left|right]; rewrite E; eauto|].
  destruct H12 as [E'|(_ & new' & _ & E')]; [right; rewrite E' in *; eauto|]. exfalso.
  enough (FakeCAS.name_taken name (FakeCAS.certs s2) = true) by congruence.
  apply FakeCAS.name_taken_spec. eexists new', _. rewrite E', lookup_insert_eq. done.
Qed.

(** calls that do not reach CAS *)
Lemma cas_after_since c0 h h' : only_since (fun o => cloud_call o = false) h h' -> cas_after c0 h' = cas_after c0 h.
Proof using Type. intros Hs. unfold cas_after. by rewrite (cloud_after_since visit (fun o => cloud_call o = false) c0 h h'). Qed.

Lemma env_upload c0 h cas n c k t x : fake_env visit c0 h (OCASUpload cas n c k t) x ->
  x = (FakeCAS.Upload n c k t (cas_after c0 h)).1 /\
  cas_after c0 (Ev (OCASUpload cas n c k t) x :: h) = (FakeCAS.Upload n c k t (cas_after c0 h)).2.
Proof using Type. unfold fake_env, cas_after. cbn. unfold cloud_next. cbn. by destruct (FakeCAS.Upload _ _ _ _ _). Qed.

Lemma env_find c0 h cas hint x : fake_env visit c0 h (OCASFind cas hint) x ->
  x = (FakeCAS.FindUploaded visit hint (cas_after c0 h)).1 /\
  cas_after c0 (Ev (OCASFind cas hint) x :: h) = (FakeCAS.FindUploaded visit hint (cas_after c0 h)).2.
Proof using Type. unfold fake_env, cas_after. cbn. unfold cloud_next. cbn. by destruct (FakeCAS.FindUploaded _ _ _). Qed.

(** the states an attempt goes through *)
Record attempted (s s' : FakeCAS.CAS) (name cert key token : string) : Prop := {
  at_wf : FakeCAS.wf s';
  at_next : (FakeCAS.nextID s' <= FakeCAS.nextID s + 1)%Z;
  at_grown : grown s s' name cert key token
}.

Lemma upload_attempted name cert key token s : FakeCAS.wf s -> room 1 s -> owned s name token ->
  let r := (FakeCAS.Upload name cert key token s).1 in let s' := (FakeCAS.Upload name cert key token s).2 in
  attempted s s' name cert key token /\ (forall id, r = inr id -> cert_named s' name id).
Proof.
  intros Hwf Hroom Ho. cbn zeta. assert (Hmax : (FakeCAS.nextID s < int64_max)%Z) by (unfold room in Hroom; lia).
  pose proof (FakeCAS.Upload_wf name cert key token s Hwf Hmax) as Hwf'. pose proof (FakeCAS.wf_next s Hwf) as Hn.
  destruct (FakeCAS.Upload_outcome name cert key token s) as [(E & En & Hr)|(Hfree & En & E & Hr)].
  - split; [split; [done|lia|by left]|]. intros id Hid. destruct Hr as [[e He]|(id' & Hr & Ht & Hb)]; [congruence|].
    rewrite Hr in Hid. injection Hid as ->. destruct (FakeCAS.wf_index s Hwf token id Hb) as (_ & x & Hx & Ex).
    exists x. rewrite E. split; [done|]. by apply (Ho id).
  - rewrite int64_incr_lt in En by lia. split.
    + split; [done|lia|]. right. split; [done|]. eexists. split; [|exact E].
      destruct (FakeCAS.certs s !! _) as [x|] eqn:Ex; [|done]. apply (FakeCAS.wf_id s Hwf) in Ex. lia.
    + intros id Hid. destruct Hr as [Hr|[e He]]; [|congruence]. rewrite Hr in Hid. injection Hid as <-.
      eexists. by rewrite E, lookup_insert_eq.
Qed.

(** one call to CAS with the claim by name *)
Lemma uploadOrClaim_world c0 cas b p key h :
  let s := cas_after c0 h in
  FakeCAS.wf s -> room 1 s -> owned s (pu_cas_name p) (pu_client_token p) ->
  twp (fake_env visit c0) any_call h (uploadOrClaim cas b p key) (fun up h' =>
    attempted s (cas_after c0 h') (pu_cas_name p) (CertPEM b) key (pu_client_token p) /\
    (forall id, up = inr id -> cert_named (cas_after c0 h') (pu_cas_name p) id)).
Proof.
  cbn zeta. intros Hwf Hroom Ho. unfold uploadOrClaim. twp_step. split; [exact I|]. intros up Hup.
  apply env_upload in Hup as [Hup Hc1]. cbn [twp]. set (h1 := Ev _ up :: h) in *.
  destruct (upload_attempted (pu_cas_name p) (CertPEM b) key (pu_client_token p) _ Hwf Hroom Ho) as [Hat Hnm].
  rewrite <-Hc1 in Hat, Hnm. rewrite <-Hup in Hnm. twp_step.
  apply (twp_post _ _ _ _ (fun up h' => attempted (cas_after c0 h) (cas_after c0 h') (pu_cas_name p) (CertPEM b) key (pu_client_token p) /\
    (forall id, up = inr id -> cert_named (cas_after c0 h') (pu_cas_name p) id))).
  2: { intros up' h2 [H1 H2]. twp_step. split; [exact I|]. intros u _. cbn [twp].
       rewrite (cas_after_since c0 h2 (_ :: h2)); [by split|]. exists [Ev (OCounterInc metric_cas_upload [casResult (err_of up')]) u]. by repeat constructor. }
  destruct up as [e|id]; [|by split]. destruct (bool_decide _ && _); [|by split].
  twp_step. unfold findByName. twp_step. split; [exact I|]. intros l Hl. apply env_find in Hl as [Hl Hc2]. cbn [twp].
  destruct (FakeCAS.Find_same visit (first_or (DNSNames b) "") (cas_after c0 h1)) as (E1 & E2 & E3 & _).
  assert (Hat2 : attempted (cas_after c0 h) (FakeCAS.FindUploaded visit (first_or (DNSNames b) "") (cas_after c0 h1)).2
    (pu_cas_name p) (CertPEM b) key (pu_client_token p)).
  { destruct Hat as [H1 H2 H3]. split; [by apply (FakeCAS.wf_same (cas_after c0 h1))|lia|]. unfold grown in *. by rewrite E1. }
  destruct l as [e'|l]; cbn [twp]; rewrite Hc2; [by split|]. split; [exact Hat2|].
  destruct (List.find _ l) as [c|] eqn:Ef; [|done]. apply find_some in Ef as [Hin Hn%String.eqb_eq].
  destruct (FakeCAS.Find_shown visit _ _ l c Hvisit (at_wf _ _ _ _ _ _ Hat) (eq_sym Hl)) as (x & Hx & Ex).
  { by apply list_elem_of_In. }
  destruct (sum_cert_id c =? 0)%Z; [done|]. intros id [= <-]. exists x. rewrite E1. split; [done|]. congruence.
Qed.

(** ** Any number of attempts *)

Context (r : CertReconciler) `{!CASFactoryOk r} (b : Bundle) (p : PendingUpload).

(** the copies, the time and the new generation an attempt starts with *)
Record attempt : Type := mkAttempt {
  at_ac : AliyunCertificate;
  at_orig : AliyunCertificate;
  at_now : gotime;
  at_gen : CertificateGeneration
}.

(** attempts that find the record [p] of this bundle *)
Definition with_pending (a : attempt) : Prop := as_pending (ac_status (at_ac a)) = Some p.

Fixpoint upload_attempts (l : list attempt) : prog (list (goerr + CertificateGeneration)) :=
  match l with
  | [] => Ret []
  | a :: l =>
      let! '(up, _) := uploadGeneration r (at_ac a) (at_orig a) b (at_now a) (at_gen a) in
      let! ups := upload_attempts l in
      Ret (up :: ups)
  end.

Definition key_text : string := match KeyPEM b with inr k => k | inl _ => "" end.

Lemma client_off_cloud o : client_call o -> cloud_call o = false.
Proof. by destruct o; intros []. Qed.

Lemma attempted_refl s name cert key token : FakeCAS.wf s -> attempted s s name cert key token.
Proof. intros Hwf. split; [done|lia|by left]. Qed.

(** a generation that was uploaded names the certificate in CAS *)
Definition uploaded_as (s : FakeCAS.CAS) (up : goerr + CertificateGeneration) (id : Z) : Prop :=
  forall g, up = inr g -> gen_cert_id g = Some id /\ gen_cas_name g = pu_cas_name p /\ cert_named s (pu_cas_name p) id.

Lemma uploadGeneration_world c0 a h :
  let s := cas_after c0 h in
  with_pending a -> pu_fingerprint p = b_fingerprint b ->
  FakeCAS.wf s -> room 1 s -> owned s (pu_cas_name p) (pu_client_token p) ->
  twp (fake_env visit c0) any_call h (uploadGeneration r (at_ac a) (at_orig a) b (at_now a) (at_gen a)) (fun res h' =>
    attempted s (cas_after c0 h') (pu_cas_name p) (CertPEM b) key_text (pu_client_token p) /\
    exists id, uploaded_as (cas_after c0 h') res.1 id).
Proof.
  cbn zeta. intros Ha Hfp Hwf Hroom Ho. unfold uploadGeneration, ensurePending. rewrite Ha, Hfp, String.eqb_refl. cbn [bind].
  assert (Hfail : forall h', cas_after c0 h' = cas_after c0 h -> forall e st,
    twp (fake_env visit c0) any_call h' (Ret (inl e, st)) (fun res h' =>
      attempted (cas_after c0 h) (cas_after c0 h') (pu_cas_name p) (CertPEM b) key_text (pu_client_token p) /\
      exists id, uploaded_as (cas_after c0 h') (fst (B := round) res) id)).
  { intros h' E e st. cbn [twp]. rewrite E. split; [by apply attempted_refl|]. by exists 0%Z. }
  twp_step. eapply twp_post; [apply (all_calls_twp (fun o => cloud_call o = false)); [|done]|].
  { eapply all_calls_mono; [apply client_off_cloud|by apply casClient_calls]. }
  cbv beta. intros cas h1 Hs1. apply (cas_after_since c0) in Hs1. destruct cas as [e|cas]; [by apply Hfail|].
  unfold key_text in *. destruct (KeyPEM b) as [e|key]; [by apply Hfail|].
  twp_step. eapply twp_post; [apply (uploadOrClaim_world c0 cas b p key h1); by rewrite Hs1|].
  cbn zeta. rewrite Hs1. intros up h2 [Hat Hnm]. destruct up as [e|id]; cbn [twp].
  { split; [done|]. by exists 0%Z. }
  twp_step. unfold Event. split; [exact I|]. intros u _. cbn [twp].
  split; [exact Hat|]. exists id. intros g [= <-]. cbn. do 2 (split; [done|]). by apply Hnm.
Qed.

Lemma upload_attempts_world c0 l h :
  let s := cas_after c0 h in
  Forall with_pending l -> pu_fingerprint p = b_fingerprint b ->
  FakeCAS.wf s -> room (length l) s -> owned s (pu_cas_name p) (pu_client_token p) ->
  twp (fake_env visit c0) any_call h (upload_attempts l) (fun ups h' =>
    FakeCAS.wf (cas_after c0 h') /\ grown s (cas_after c0 h') (pu_cas_name p) (CertPEM b) key_text (pu_client_token p) /\
    exists id, Forall (fun up => uploaded_as (cas_after c0 h') up id) ups).
Proof.
  cbn zeta. intros Hl Hfp. revert h. induction l as [|a l IH]; intros h Hwf Hroom Ho; cbn [upload_attempts].
  { cbn [twp]. split; [done|]. split; [by left|]. by exists 0%Z. }
  apply Forall_cons in Hl as [Ha Hl]. unfold room in Hroom. cbn [length] in Hroom.
  twp_step. eapply twp_post; [apply uploadGeneration_world; try done; unfold room; lia|].
  cbn zeta. intros [up st] h1 [[Hwf1 Hn1 Hg1] [id1 Hid1]]. cbn [fst] in Hid1. twp_step.
  eapply twp_post; [apply IH; [done..|unfold room; lia|by eapply grown_owned]|].
  cbn zeta. intros ups h2 (Hwf2 & Hg2 & [id2 Hid2]). cbn [twp]. split; [done|].
  split; [by eapply grown_trans|].
  assert (Hup : uploaded_as (cas_after c0 h2) up id1).
  { intros g Eg. destruct (Hid1 g Eg) as (? & ? & Hnm). do 2 (split; [done|]). by eapply cert_named_grown. }
  destruct up as [e|g].
  - exists id2. by constructor.
  - exists id1. constructor; [done|]. eapply Forall_impl; [exact Hid2|]. intros up' H' g' Eg'.
    destruct (H' g' Eg') as (E1 & E2 & Hnm'). destruct (Hup g eq_refl) as (_ & _ & Hnm).
    by rewrite (cert_named_unique _ _ _ _ Hwf2 Hnm Hnm').
Qed.

(** a record whose upload was committed is answered by its certificate *)
Lemma uploadOrClaim_known c0 cas key h id x :
  let s := cas_after c0 h in
  FakeCAS.wf s -> FakeCAS.uploadErrs s = [] -> pu_client_token p <> "" ->
  FakeCAS.certs s !! id = Some x -> FakeCAS.Token x = pu_client_token p ->
  twp (fake_env visit c0) any_call h (uploadOrClaim cas b p key) (fun up h' =>
    up = inr id /\ FakeCAS.certs (cas_after c0 h') = FakeCAS.certs s).
Proof.
  cbn zeta. intros Hwf Hq Ht Hx Hxt. unfold uploadOrClaim. twp_step. split; [exact I|]. intros up Hup.
  apply env_upload in Hup as [Hup Hc1]. cbn [twp].
  destruct (FakeCAS.Upload_known (pu_cas_name p) (CertPEM b) key (pu_client_token p) _ id x Hwf Hq Ht Hx Hxt) as [E1 E2].
  rewrite E1 in Hup. subst up. twp_step. cbn [twp]. twp_step. split; [exact I|]. intros u _. cbn [twp]. split; [done|].
  rewrite <-E2, <-Hc1. done.
Qed.

End world.

(** ** Properties *)

(** C2: A generation is uploaded exactly once.  Against CAS as the repository describes
    it (idempotent tokens, unique names, responses that are lost after the commit,
    errors at any call), any number of attempts with one write-ahead record add at
    most one certificate to CAS, with the recorded name and token and the text of the
    bundle; all attempts that succeed put the id of the same certificate, of that
    name, into the generation; and once it is in CAS under the token, an attempt that
    meets no fault returns its id and adds nothing. *)
Theorem uploads_are_exactly_once `{Cr : Crypto} (visit : gmap Z FakeCAS.Cert -> list FakeCAS.Cert) (r : CertReconciler)
    `{!CASFactoryOk r} (b : Bundle) (p : PendingUpload) (c0 : cloud) (l : list attempt) :
  FakeCAS.visits visit -> Forall (with_pending p) l -> pu_fingerprint p = b_fingerprint b ->
  FakeCAS.wf (cl_cas c0) -> room (length l) (cl_cas c0) -> owned (cl_cas c0) (pu_cas_name p) (pu_client_token p) ->
  twp (fake_env visit c0) any_call [] (upload_attempts r b l) (fun ups h =>
    let s := cas_after visit c0 h in
    grown (cl_cas c0) s (pu_cas_name p) (CertPEM b) (key_text b) (pu_client_token p) /\
    (exists id, Forall (fun up => uploaded_as p s up id) ups) /\
    (forall cas key id x, FakeCAS.uploadErrs s = [] -> pu_client_token p <> "" ->
       FakeCAS.certs s !! id = Some x -> FakeCAS.Token x = pu_client_token p ->
       twp (fake_env visit c0) any_call h (uploadOrClaim cas b p key) (fun up h' =>
         up = inr id /\ FakeCAS.certs (cas_after visit c0 h') = FakeCAS.certs s))).
Proof.
  intros Hv Hl Hfp Hwf Hroom Ho.
  eapply twp_post; [by apply (upload_attempts_world visit Hv r b p c0 l [])|].
  cbn zeta. intros ups h (Hwf' & Hg & Hid). do 2 (split; [done|]). intros cas key id x Hq Ht Hx Hxt.
  by eapply uploadOrClaim_known.
Qed.

(** a cloud that commits the next upload and loses the response *)
Definition lossy_cloud : cloud :=
  mkCloud (FakeCAS.FailNextUploadAfterCommit (Some EDeadline) FakeCAS.NewCAS) FakeFC3.NewFC3 FakeOSS.NewOSS.

Lemma uploads_are_exactly_once_witness :
  let visit m := (map_to_list m).*2 in
  let p := mkPendingUpload (toy_digest "leaf") "site_leaf" "token-1" 0 "leaf" in
  let ac := on_status (set_as_pending (Some p)) sample_ac in
  let a := mkAttempt ac ac 5 (mkGeneration (toy_digest "leaf") None "" 0 0 5) in
  let w : handler unit := fun _ o => (failed_resp o, tt) in
  let run := exec (fake_world visit w) (lossy_cloud, tt) []
    (@upload_attempts toy_crypto sample_reconciler (sample_bundle "leaf") [a; a]) in
  (fun up => match up with inr g => gen_cert_id g | inl _ => None end) <$> run.1.1 = [None; Some 1001%Z] /\
  exists id, Forall (fun up => uploaded_as p (cl_cas run.2.1) up id) run.1.1.
Proof.
  intros visit p ac a w run. split; [vm_compute; reflexivity|].
  assert (Hwf : FakeCAS.wf (cl_cas lossy_cloud)).
  { apply (FakeCAS.wf_same FakeCAS.NewCAS); [reflexivity..|apply FakeCAS.NewCAS_wf]. }
  pose proof (fake_world_env visit w lossy_cloud tt _ _ _
    (@uploads_are_exactly_once toy_crypto visit sample_reconciler _ (sample_bundle "leaf") p lossy_cloud [a; a]
       (fun m => Permutation_refl _) ltac:(by repeat constructor) eq_refl Hwf ltac:(done) ltac:(intros i x Hx; done))) as H.
  unfold run. destruct (exec _ _ _ _) as [[ups h] s']. cbn. destruct H as [(_ & Hid & _) ->]. exact Hid.
Defined.
