(* ===== verification/Replicas.v ===== *)
(** * Replicas that upload at the same time

    While leadership moves, or a status write is not yet in another replica's cache,
    several replicas can be uploading the same certificate.  Here any number of
    [ensureUploaded] run interleaved, call by call, against one CAS (the in-memory
    one), with faults and with other uploads and deletions going on, and with an API
    server that answers as it likes, except that the records it returns were written
    by the operator.  Nothing orders the replicas: each may write its own record, with
    its own token, between the calls of another. *)
From S2P Require Import Prelude GoString GoTime Api GoError Cloud KubeLib Effects Interleave FakeCAS FakeFC3 FakeOSS FakeCloud.
From S2P Require Import Naming Tokens Bundle Issuer CertStatus Samples CertUpload UploadWorld.

#[local] Open Scope prog_scope.

Section replicas.
  Context `{Cr : Crypto} (visit : gmap Z FakeCAS.Cert -> list FakeCAS.Cert).
  Context (Hvisit : FakeCAS.visits visit).
  Context (object uid : string) (b : Bundle).

(** what every replica derives from the object and the bundle *)
Definition upload_name : string := CASName object (b_fingerprint b).
Definition upload_token (t : string) : Prop := exists startedAt, t = uploadToken uid (b_fingerprint b) startedAt.

Definition own_record (p : PendingUpload) : Prop := pu_cas_name p = upload_name /\ upload_token (pu_client_token p).

(** ** The shared world *)

(** a record of this upload in the API server is one the operator wrote *)
Definition api_ok (o : op) : resp o -> Prop :=
  match o return resp o -> Prop with
  | OGetAC _ _ _ => fun x => forall ac p, x = inr ac -> as_pending (ac_status ac) = Some p ->
                             pu_fingerprint p = b_fingerprint b -> own_record p
  | _ => fun _ => True
  end.

Definition shared_answers (s : cloud) (o : op) (x : resp o) (s' : cloud) : Prop :=
  match cloud_step visit s o with
  | Some (y, s1) => x = y /\ s' = s1
  | None => s' = s /\ api_ok o x
  end.

(** other traffic: everything but this name and these tokens *)
Definition harmless (m : FakeCAS.method) (s : FakeCAS.CAS) : Prop :=
  match m with
  | FakeCAS.MUpload n _ _ t => n <> upload_name /\ ~ upload_token t /\ (FakeCAS.nextID s + 2 < int64_max)%Z
  | FakeCAS.MDelete id _ => forall x, FakeCAS.certs s !! id = Some x -> FakeCAS.Name x <> upload_name
  | _ => True
  end.

Definition traffic : relation cloud := fun s s' =>
  exists m, harmless m (cl_cas s) /\ s' = set_cas s (FakeCAS.step visit (cl_cas s) m).

(** ** The invariant, and what nobody undoes *)

Context (s0 : FakeCAS.CAS).

Record shared_inv (s : FakeCAS.CAS) : Prop := {
  si_wf : FakeCAS.wf s;
  si_owned id x : FakeCAS.certs s !! id = Some x -> upload_token (FakeCAS.Token x) -> FakeCAS.Name x = upload_name;
  si_next : (FakeCAS.nextID s < int64_max)%Z;
  si_room : FakeCAS.name_taken upload_name (FakeCAS.certs s) = false -> (FakeCAS.nextID s + 1 < int64_max)%Z;
  si_text id x : FakeCAS.certs s !! id = Some x -> FakeCAS.Name x = upload_name ->
    FakeCAS.certs s0 !! id = Some x \/
    FakeCAS.CertPEM x = CertPEM b /\ inr (FakeCAS.KeyPEM x) = KeyPEM b /\ upload_token (FakeCAS.Token x)
}.

(** the invariant, and the certificates of this name, stay *)
Definition evolves : relation cloud := fun s s' =>
  shared_inv (cl_cas s) -> shared_inv (cl_cas s') /\
  forall id, cert_named (cl_cas s) upload_name id -> cert_named (cl_cas s') upload_name id.

#[export] Instance evolves_preorder : PreOrder evolves.
Proof using Type.
  split; [by intros s Hs; split|]. intros s1 s2 s3 H12 H23 H1. destruct (H12 H1) as [H2 N2].
  destruct (H23 H2) as [H3 N3]. split; [done|]. intros id Hid. by apply N3, N2.
Qed.

(** calls that change neither certificates nor counter *)
Lemma evolves_same s s' :
  FakeCAS.certs (cl_cas s') = FakeCAS.certs (cl_cas s) -> FakeCAS.byToken (cl_cas s') = FakeCAS.byToken (cl_cas s) ->
  FakeCAS.nextID (cl_cas s') = FakeCAS.nextID (cl_cas s) -> evolves s s'.
Proof using Type.
  intros E1 E2 E3 [Hwf Ho Hn Hr Ht]. split.
  - split; rewrite ?E1, ?E3; try done. by apply (FakeCAS.wf_same (cl_cas s)).
  - unfold cert_named. by rewrite E1.
Qed.

(** an upload: of the record of this object, or of something else *)
Lemma upload_evolves n c k t s s' :
  s' = set_cas s (FakeCAS.Upload n c k t (cl_cas s)).2 ->
  n = upload_name /\ c = CertPEM b /\ inr k = KeyPEM b /\ upload_token t \/
  n <> upload_name /\ ~ upload_token t /\ (FakeCAS.nextID (cl_cas s) + 2 < int64_max)%Z ->
  evolves s s'.
Proof using Type.
  intros -> Hown [Hwf Ho Hn Hr Ht]. cbn [cl_cas set_cas]. pose proof (FakeCAS.wf_next _ Hwf) as Hge.
  pose proof (FakeCAS.Upload_wf n c k t _ Hwf Hn) as Hwf'.
  destruct (FakeCAS.Upload_outcome n c k t (cl_cas s)) as [(E & En & _)|(Hfree & En & E & _)].
  - split; [|unfold cert_named; by rewrite E]. split; rewrite ?E, ?En; done.
  - rewrite int64_incr_lt in En by lia. unfold cert_named. rewrite E, En. split.
    + split; rewrite ?E, ?En; try done.
      * intros id x [[<- <-]|[_ Hx]]%lookup_insert_Some; [|by apply (Ho id)]. cbn. by destruct Hown as [(-> & _)|(_ & Hx & _)].
      * destruct Hown as [(-> & _)|(_ & _ & Hx)]; [|lia]. specialize (Hr Hfree). lia.
      * intros Hf. destruct Hown as [(-> & _)|(_ & _ & Hx)]; [|lia]. exfalso.
        enough (FakeCAS.name_taken upload_name (<[(FakeCAS.nextID (cl_cas s) + 1)%Z :=
          FakeCAS.mkCert (FakeCAS.nextID (cl_cas s) + 1) upload_name c k t]> (FakeCAS.certs (cl_cas s))) = true) by congruence.
        apply FakeCAS.name_taken_spec. by eexists _, _; rewrite lookup_insert_eq.
      * intros id x [[<- <-]|[_ Hx]]%lookup_insert_Some; [|by apply Ht]. cbn. intros Hname.
        destruct Hown as [(_ & -> & Hk & Hx)|(Hne & _)]; [by right|done].
    + intros id (x & Hx & Hname). exists x. split; [|done]. rewrite lookup_insert_ne; [done|].
      intros <-. apply (FakeCAS.wf_id _ Hwf) in Hx. lia.
Qed.

Lemma delete_evolves id t s :
  harmless (FakeCAS.MDelete id t) (cl_cas s) -> evolves s (set_cas s (FakeCAS.Delete id t (cl_cas s)).2).
Proof using Type.
  intros Hh [Hwf Ho Hn Hr Ht]. cbn [cl_cas set_cas harmless] in *.
  pose proof (FakeCAS.Delete_wf id t _ Hwf) as Hwf'.
  assert (En : FakeCAS.nextID (FakeCAS.Delete id t (cl_cas s)).2 = FakeCAS.nextID (cl_cas s)).
  { unfold FakeCAS.Delete. destruct (FakeCAS.pop _) as [[e|] q]; [done|]. by destruct (FakeCAS.certs _ !! id). }
  destruct (FakeCAS.Delete_outcome id t (cl_cas s)) as (_ & _ & [(e & q & _ & _ & E)|(_ & _ & E)]).
  { split; [|unfold cert_named; by rewrite E]. split; rewrite ?E, ?En; done. }
  split.
  - split; rewrite ?E, ?En; try done.
    + intros i x [_ Hx]%lookup_delete_Some. by apply (Ho i).
    + intros Hf. apply Hr. destruct (FakeCAS.name_taken _ (FakeCAS.certs (cl_cas s))) eqn:En'; [|done].
      apply FakeCAS.name_taken_spec in En' as (i & x & Hx & Hname).
      enough (FakeCAS.name_taken upload_name (delete id (FakeCAS.certs (cl_cas s))) = true) by congruence.
      apply FakeCAS.name_taken_spec. exists i, x. split; [|done]. rewrite lookup_delete_ne; [done|].
      intros <-. by apply (Hh x).
    + intros i x [_ Hx]%lookup_delete_Some. by apply Ht.
  - intros i (x & Hx & Hname). exists x. rewrite E. split; [|done]. rewrite lookup_delete_ne; [done|].
    intros <-. by apply (Hh x).
Qed.

Lemma traffic_evolves s s' : traffic s s' -> evolves s s'.
Proof using Type.
  intros (m & Hm & ->). destruct m as [n c k t|id t|h|e|e|e|e]; cbn [FakeCAS.step].
  - apply (upload_evolves n c k t); [done|by right].
  - by apply delete_evolves.
  - destruct (FakeCAS.Find_same visit h (cl_cas s)) as (E1 & E2 & E3 & _). by apply evolves_same.
  - by apply evolves_same.
  - by apply evolves_same.
  - by apply evolves_same.
  - by apply evolves_same.
Qed.

(** ** The programs of a replica *)

Abbreviation shared := (rwp shared_answers evolves).
Abbreviation inv s := (shared_inv (cl_cas s)).
Abbreviation in_cas s id := (cert_named (cl_cas s) upload_name id).

Lemma evolved s s' : inv s -> evolves s s' -> inv s' /\ forall id, in_cas s id -> in_cas s' id.
Proof using Type. intros Hs HR. by apply HR. Qed.

(** a call that is none to a cloud *)
Lemma off_cloud_answers s o x s' : cloud_call o = false -> shared_answers s o x s' -> s' = s /\ api_ok o x.
Proof using Type.
  intros Ho. unfold shared_answers. destruct (cloud_step visit s o) as [[y s1]|] eqn:E; [|done].
  assert (H : cloud_call o = true) by (apply (cloud_call_spec visit s); by rewrite E). congruence.
Qed.

Lemma shared_off_cloud {A} s o (k : resp o -> prog A) Q :
  cloud_call o = false -> inv s -> (forall s1 x, evolves s s1 -> inv s1 -> api_ok o x -> shared s1 (k x) Q) -> shared s (Vis o k) Q.
Proof using Type.
  intros Ho Hs Hk s1 H1 x s2 Hx. destruct (off_cloud_answers _ _ _ _ Ho Hx) as [-> Hok]. split; [reflexivity|].
  apply Hk; [done| |done]. by apply (evolved s).
Qed.

Lemma shared_client {A B} s (p : prog A) (f : A -> prog B) Q :
  all_calls client_call p -> inv s -> (forall s1 a, evolves s s1 -> inv s1 -> shared s1 (f a) Q) -> shared s (bind p f) Q.
Proof using Type.
  intros Hp Hs Hf. apply rwp_bind; [typeclasses eauto|]. apply rwp_mono with (Q := fun _ _ => True); [typeclasses eauto|..].
  - apply (rwp_calls shared_answers evolves client_call); [|done].
    intros s1 o x s2 Ho Hx. by apply (off_cloud_answers s1 o x s2 (client_off_cloud o Ho)).
  - intros a s1 H1 _. apply Hf; [done|]. by apply (evolved s).
Qed.

(** the answer to an upload, and what it makes of the clouds *)
Lemma upload_answers s cas c k t x s' :
  inv s -> shared_answers s (OCASUpload cas upload_name c k t) x s' ->
  c = CertPEM b -> inr k = KeyPEM b -> upload_token t ->
  evolves s s' /\ forall id, x = inr id -> in_cas s' id.
Proof using Type.
  intros Hs Hx -> Hk Ht. unfold shared_answers in Hx. cbn [cloud_step] in Hx.
  destruct (FakeCAS.Upload upload_name (CertPEM b) k t (cl_cas s)) as [y f] eqn:E. destruct Hx as [-> ->].
  assert (HR : evolves s (set_cas s f)) by (apply (upload_evolves upload_name (CertPEM b) k t); [by rewrite E|by left]).
  split; [done|]. intros id ->. cbn [cl_cas set_cas].
  destruct (FakeCAS.Upload_outcome upload_name (CertPEM b) k t (cl_cas s)) as [(Ec & _ & Hr)|(_ & En & Ec & Hr)];
    rewrite E in Ec, Hr; cbn [fst snd] in *.
  - destruct Hr as [[e He]|(i & Hi & Hne & Hb)]; [done|]. injection Hi as <-.
    destruct (FakeCAS.wf_index _ (si_wf _ Hs) t id Hb) as (_ & c & Hc & Htok). exists c. rewrite Ec. split; [done|].
    apply (si_owned _ Hs id); [done|]. by rewrite Htok.
  - destruct Hr as [Hr|[e He]]; [|done]. injection Hr as ->. eexists. by rewrite Ec, lookup_insert_eq.
Qed.

Lemma find_answers s cas hint x s' :
  inv s -> shared_answers s (OCASFind cas hint) x s' ->
  evolves s s' /\ forall l c, x = inr l -> c ∈ l -> sum_name c = upload_name -> in_cas s' (sum_cert_id c).
Proof.
  intros Hs Hx. unfold shared_answers in Hx. cbn [cloud_step] in Hx.
  destruct (FakeCAS.FindUploaded visit hint (cl_cas s)) as [y f] eqn:E. destruct Hx as [-> ->].
  destruct (FakeCAS.Find_same visit hint (cl_cas s)) as (E1 & E2 & E3 & _). rewrite E in E1, E2, E3. cbn in E1, E2, E3.
  split; [by apply evolves_same|]. intros l c -> Hc Hname.
  destruct (FakeCAS.Find_shown visit hint (cl_cas s) l c Hvisit (si_wf _ Hs)) as (x & Hx & Ex); [by rewrite E|done|].
  exists x. cbn. rewrite E1. split; [done|congruence].
Qed.

Lemma uploadOrClaim_shared s cas p key :
  inv s -> own_record p -> inr key = KeyPEM b ->
  shared s (uploadOrClaim cas b p key) (fun up s' => forall id, up = inr id -> in_cas s' id).
Proof.
  intros Hs [Hn Ht] Hk. unfold uploadOrClaim. cbn [bind call]. intros s1 H1 up s2 Hup.
  destruct (evolved s s1 Hs H1) as [Hs1 _]. rewrite Hn in Hup.
  destruct (upload_answers _ _ _ _ _ _ _ Hs1 Hup eq_refl Hk Ht) as [H2 Hnm]. split; [done|].
  destruct (evolved _ _ Hs1 H2) as [Hs2 _]. clear Hup.
  assert (Hend : forall s3 (up : goerr + Z), inv s3 -> (forall id, up = inr id -> in_cas s3 id) ->
    shared s3 (do! call (OCounterInc metric_cas_upload [casResult (err_of up)]) in Ret up)
      (fun up s' => forall id, up = inr id -> in_cas s' id)).
  { intros s3 up' Hs3 Hup. apply shared_off_cloud; [done..|]. intros s4 x H4 Hs4 _ s5 H5 id ->.
    apply (evolved s4 s5 Hs4 H5). apply (evolved s3 s4 Hs3 H4). by apply Hup. }
  destruct up as [e|id]; cbn [bind]; [|by apply Hend]. destruct (bool_decide _ && _); cbn [bind]; [|by apply Hend].
  unfold findByName. cbn [bind call]. intros s3 H3 l s4 Hl. destruct (evolved _ _ Hs2 H3) as [Hs3 _].
  destruct (find_answers _ _ _ _ _ Hs3 Hl) as [H4 Hshow]. split; [done|]. destruct (evolved _ _ Hs3 H4) as [Hs4 _].
  destruct l as [e'|l]; cbn [bind]; [by apply Hend|].
  destruct (List.find _ l) as [c|] eqn:Ef; cbn [bind]; [|by apply Hend].
  apply find_some in Ef as [Hin Hc%String.eqb_eq]. apply Hend; [done|].
  destruct (sum_cert_id c =? 0)%Z; [done|]. intros id [= <-]. apply (Hshow l); [done|by apply list_elem_of_In|congruence].
Qed.

(** an object that a replica works on: this one, whatever its caches hold *)
Definition this_object (ac : AliyunCertificate) : Prop := ac_name ac = object /\ om_uid (ac_meta ac) = uid.

Definition known_record (ac : AliyunCertificate) : Prop :=
  forall p, as_pending (ac_status ac) = Some p -> pu_fingerprint p = b_fingerprint b -> own_record p.

Lemma ensurePending_shared s r ac orig :
  inv s -> this_object ac -> known_record ac ->
  shared s (ensurePending r ac orig b) (fun res _ => forall p st, res = inr (p, st) -> own_record p).
Proof using Type.
  intros Hs [Hname Huid] Hrec. unfold ensurePending. set (fresh := let! startedAt := call ONow in _).
  assert (Hf : shared s fresh (fun res _ => forall p st, res = inr (p, st) -> own_record p)).
  { unfold fresh, patchPendingUpload. cbn [bind call]. apply shared_off_cloud; [done..|]. intros s1 t H1 Hs1 _.
    apply shared_off_cloud; [done..|]. intros s2 [e|ac'] H2 Hs2 _; cbn [bind]; intros s3 _ p st; [done|].
    intros [= <- _]. split; cbn; [unfold upload_name; by rewrite <-Hname|]. exists t. by rewrite <-Huid. }
  destruct (as_pending (ac_status ac)) as [p|] eqn:Ep; [|exact Hf].
  destruct (String.eqb_spec (pu_fingerprint p) (b_fingerprint b)) as [E|]; [|exact Hf].
  intros s1 _ p' st [= <- _]. by apply Hrec.
Qed.

(** a generation that was uploaded names the certificate in CAS *)
Definition uploaded_in (s : cloud) (gen gen' : CertificateGeneration) : Prop :=
  exists id, gen_cert_id gen' = Some id /\ gen_cas_name gen' = upload_name /\
    gen_fingerprint gen' = gen_fingerprint gen /\ in_cas s id.

Lemma uploadGeneration_shared s r `{!CASFactoryOk r} ac orig now gen :
  inv s -> this_object ac -> known_record ac ->
  shared s (uploadGeneration r ac orig b now gen) (fun res s' => forall gen', res.1 = inr gen' -> uploaded_in s' gen gen').
Proof.
  intros Hs Hobj Hrec. unfold uploadGeneration. apply rwp_bind; [typeclasses eauto|].
  eapply rwp_mono; [typeclasses eauto|by apply ensurePending_shared|]. cbv beta. intros [e|[p [ac1 orig1]]] s1 H1 Hp.
  { by intros s2 _. }
  destruct (evolved _ _ Hs H1) as [Hs1 _]. specialize (Hp p _ eq_refl).
  apply shared_client; [by apply casClient_calls|done|]. intros s2 [e|cas] H2 Hs2; [by intros s3 _|].
  destruct (KeyPEM b) as [e|key] eqn:Ek; [by intros s3 _|]. apply rwp_bind; [typeclasses eauto|].
  eapply rwp_mono; [typeclasses eauto|apply (uploadOrClaim_shared s2 cas p key); done|]. cbv beta.
  intros [e|id] s3 H3 Hid; [by intros s4 _|]. destruct (evolved _ _ Hs2 H3) as [Hs3 _].
  unfold Event. cbn [bind call]. apply shared_off_cloud; [done..|]. intros s4 [] H4 Hs4 _ s5 H5 gen' [= <-].
  exists id. cbn. do 3 (split; [by try apply Hp|]). apply (evolved _ _ Hs4 H5), (evolved _ _ Hs3 H4). by apply Hid.
Qed.

(** an upload that this run made put the certificate of the name into the current
    generation *)
Definition ran_upload (res : (goerr + bool) * round) (s : cloud) : Prop :=
  res.1 = inr true -> exists g id, as_current (ac_status res.2.1) = Some g /\
    gen_fingerprint g = b_fingerprint b /\ gen_cert_id g = Some id /\ gen_cas_name g = upload_name /\ in_cas s id.

Lemma advanceGeneration_shared s r `{!CASFactoryOk r} ac orig :
  inv s -> this_object ac -> known_record ac -> UploadEnabled (ac_aliyun ac) = true ->
  shared s (advanceGeneration r ac orig b) ran_upload.
Proof.
  intros Hs Hobj Hrec Hup. unfold advanceGeneration. cbn [bind call]. apply shared_off_cloud; [done..|].
  intros s1 now H1 Hs1 _. rewrite Hup. apply rwp_bind; [typeclasses eauto|].
  eapply rwp_mono; [typeclasses eauto|by apply uploadGeneration_shared|]. cbv beta.
  intros [[e|g] [ac1 orig1]] s2 H2 Hg; [by intros s3 _|]. destruct (evolved _ _ Hs1 H2) as [Hs2 _].
  destruct (Hg g eq_refl) as (id & Hid & Hn & Hfp & Hnm). intros s3 H3 _. exists g, id. cbn [fst snd].
  split; [by unfold pushGeneration, on_status|]. do 3 (split; [done|]). by apply (evolved s2 s3).
Qed.

Lemma ensureUploaded_shared s r `{!CASFactoryOk r} ac orig :
  inv s -> this_object ac -> UploadEnabled (ac_aliyun ac) = true ->
  shared s (ensureUploaded r ac orig b) ran_upload.
Proof.
  intros Hs Hobj Hup. unfold ensureUploaded. destruct (current_is ac _); [by intros s1 _|].
  unfold refreshUploadState. cbn [bind call]. apply shared_off_cloud; [done..|]. intros s1 x H1 Hs1 Hok.
  destruct x as [e|fresh]; cbn [bind]; [by intros s2 _|]. destruct (current_is _ _); [by intros s2 _|].
  apply advanceGeneration_shared; [done..|by destruct Hobj| |done]. intros p Hp. by apply (Hok fresh p).
Qed.

(** a replica that serves this object *)
Definition replica (p : prog ((goerr + bool) * round)) : Prop :=
  exists (r : CertReconciler) ac orig, CASFactoryOk r /\ p = ensureUploaded r ac orig b /\
    this_object ac /\ UploadEnabled (ac_aliyun ac) = true.

Lemma replicas_sound c0 pool c' pool' :
  shared_inv (cl_cas c0) -> Forall replica pool ->
  rtc (pool_step shared_answers traffic) (c0, pool) (c', pool') ->
  shared_inv (cl_cas c') /\ forall res, Ret res ∈ pool' -> ran_upload res c'.
Proof.
  intros Hs Hp Hr.
  assert (Hall : Forall (fun p => shared c0 p ran_upload) pool).
  { eapply Forall_impl; [exact Hp|]. intros p (r & ac & orig & Hf & -> & Hobj & Hup). by apply ensureUploaded_shared. }
  split.
  - destruct (pool_sound shared_answers traffic evolves ran_upload (c0, pool) (c', pool')) as [H _]; try done.
    { apply traffic_evolves. } by apply (evolved c0 c').
  - intros res Hres. eapply (pool_returned shared_answers traffic evolves); [|exact Hr|exact Hall|exact Hres].
    apply traffic_evolves.
Qed.

End replicas.

(** ** Properties *)

(** C3: Replicas that upload the same certificate at the same time upload it once.  Any
    number of [ensureUploaded] for one object and one bundle run interleaved, call by
    call, each with its own view of the object, its own record and its own token, while
    others upload and delete other certificates and faults lose answers.  In every
    state they reach, stopped anywhere, CAS holds at most one certificate of the name;
    one that was not there before carries the bundle's text and key and the token of a
    record of this upload; and all replicas that report an upload have put the id of
    that one certificate into the current generation. *)
Theorem replicas_upload_once `{Cr : Crypto} (visit : gmap Z FakeCAS.Cert -> list FakeCAS.Cert)
    (object uid : string) (b : Bundle) (c0 c' : cloud) pool pool' :
  FakeCAS.visits visit -> shared_inv object uid b (cl_cas c0) (cl_cas c0) ->
  Forall (replica object uid b) pool ->
  rtc (pool_step (shared_answers visit object uid b) (traffic visit object uid b)) (c0, pool) (c', pool') ->
  (forall i j x y, FakeCAS.certs (cl_cas c') !! i = Some x -> FakeCAS.certs (cl_cas c') !! j = Some y ->
     FakeCAS.Name x = upload_name object b -> FakeCAS.Name y = upload_name object b -> i = j) /\
  (forall i x, FakeCAS.certs (cl_cas c') !! i = Some x -> FakeCAS.Name x = upload_name object b ->
     FakeCAS.certs (cl_cas c0) !! i = Some x \/
     FakeCAS.CertPEM x = CertPEM b /\ inr (FakeCAS.KeyPEM x) = KeyPEM b /\ upload_token uid b (FakeCAS.Token x)) /\
  (forall st, Ret (inr true, st) ∈ pool' -> exists g id, as_current (ac_status st.1) = Some g /\
     gen_fingerprint g = b_fingerprint b /\ gen_cas_name g = upload_name object b /\ gen_cert_id g = Some id /\
     cert_named (cl_cas c') (upload_name object b) id).
Proof.
  intros Hv Hs Hp Hr. destruct (replicas_sound visit Hv object uid b (cl_cas c0) c0 pool c' pool' Hs Hp Hr) as [Hs' Hres].
  destruct Hs' as [Hwf _ _ _ Ht]. split_and!.
  - intros i j x y Hx Hy Ex Ey. apply (FakeCAS.wf_name _ Hwf i j x y Hx Hy). congruence.
  - intros i x Hx Ex. by apply Ht.
  - intros st Hst. destruct (Hres _ Hst eq_refl) as (g & id & Hg & Hfp & Hid & Hn & Hnm). by exists g, id.
Qed.

(** two replicas read the object; the first writes its record and loses the answer of
    its upload, the second, with a record and a token of its own, meets the name and
    claims the certificate *)
Definition by_id (m : gmap Z FakeCAS.Cert) : list FakeCAS.Cert := (map_to_list m).*2.

Definition two_replicas_world : handler cloud := fun s o =>
  match cloud_step by_id s o with
  | Some (x, s') => (x, s')
  | None =>
      (match o return resp o with
       | OGetAC _ _ _ => inr sample_ac
       | OPatchACStatus target _ => inr target
       | ONow => (FakeCAS.uploadCalls (cl_cas s) * second)%Z
       | o => failed_resp o
       end, s)
  end.

Lemma two_replicas_answers object uid b s o :
  shared_answers by_id object uid b s o (two_replicas_world s o).1 (two_replicas_world s o).2.
Proof.
  unfold shared_answers, two_replicas_world. destruct (cloud_step by_id s o) as [[x s']|]; [by split|].
  split; [done|]. destruct o; try exact I. intros ac p E. injection E as <-. discriminate.
Qed.

Definition raced_bundle : Bundle := sample_bundle "site".

Definition racing : prog ((goerr + bool) * round) :=
  @ensureUploaded toy_crypto sample_reconciler sample_ac sample_ac raced_bundle.

Definition raced : cloud * list (prog ((goerr + bool) * round)) :=
  run_schedule two_replicas_world ([1] ++ replicate 6 0 ++ replicate 7 1) (lossy_cloud, [racing; racing]).

Lemma racing_replica : @replica toy_crypto (ac_name sample_ac) (om_uid (ac_meta sample_ac)) raced_bundle racing.
Proof.
  exists sample_reconciler, sample_ac, sample_ac. split; [apply _|]. split; [exact (eq_refl racing)|].
  split; [by split|reflexivity].
Qed.

Lemma replicas_upload_once_witness :
  exists st st' g, raced.2 = [Ret (inl EDeadline, st); Ret (inr true, st')] /\
    as_current (ac_status st'.1) = Some g /\ gen_cert_id g = Some 1001%Z /\
    cert_named (cl_cas raced.1) (upload_name (ac_name sample_ac) raced_bundle) 1001.
Proof.
  assert (exists st st', raced.2 = [Ret (inl EDeadline, st); Ret (inr true, st')] /\
    exists g, as_current (ac_status st'.1) = Some g /\ gen_cert_id g = Some 1001%Z) as (st & st' & Hc & g & Hg & Hid).
  { eexists _, _. split; [vm_compute; reflexivity|]. eexists. split; [vm_compute; reflexivity|]. reflexivity. }
  exists st, st', g. do 3 (split; [done|]).
  assert (Hr : rtc (pool_step (shared_answers by_id (ac_name sample_ac) (om_uid (ac_meta sample_ac)) raced_bundle)
                              (traffic by_id (ac_name sample_ac) (om_uid (ac_meta sample_ac)) raced_bundle))
                 (lossy_cloud, [racing; racing]) raced).
  { apply run_schedule_steps, two_replicas_answers. }
  assert (Hw : FakeCAS.wf (cl_cas lossy_cloud)).
  { apply (FakeCAS.wf_same FakeCAS.NewCAS); [reflexivity..|apply FakeCAS.NewCAS_wf]. }
  rewrite (surjective_pairing raced) in Hr.
  destruct (@replicas_upload_once toy_crypto by_id (ac_name sample_ac) (om_uid (ac_meta sample_ac)) raced_bundle lossy_cloud raced.1 [racing; racing] raced.2
    (fun m => Permutation_refl _)) as (_ & _ & Hup); [| |exact Hr|].
  - split; [exact Hw|done|done|done|done].
  - apply Forall_cons_2; [apply racing_replica|]. apply Forall_cons_2; [apply racing_replica|apply Forall_nil_2].
  - destruct (Hup st') as (g' & id & Hg' & _ & _ & Hid' & Hnm); [rewrite Hc; do 2 constructor|].
    rewrite Hg in Hg'. injection Hg' as <-. rewrite Hid in Hid'. by injection Hid' as <-.
Defined.
