(* ===== verification/CertProbe.v ===== *)
(** * Probing CAS for the current certificate (internal/controller/probe.go) *)
From S2P Require Import Prelude GoString GoTime Api GoError Cloud KubeLib Effects Naming Tokens Bundle Issuer.
From S2P Require Import CertStatus Samples CertUpload.

#[local] Open Scope prog_scope.

(** ** Definitions *)

Definition probeFailedMessage : string :=
  "failed to verify the CAS certificate still exists; the current certificate is unaffected".

(** the generation of [ac] with a certId, when the probe is to look for it at all *)
Definition probe_target (ac : AliyunCertificate) : option (CertificateGeneration * Z) :=
  if UploadEnabled (ac_aliyun ac) then
    match as_current (ac_status ac) with
    | Some c => match gen_cert_id c with Some id => Some (c, id) | None => None end
    | None => None
    end
  else None.

(** the current generation after the probe found it gone *)
Definition forget_current (ac : AliyunCertificate) : AliyunCertificate :=
  on_status (fun s => set_as_current ((fun c => set_gen_fingerprint "" (set_gen_cert_id None c)) <$> as_current s) s) ac.

Section probe.
  Context `{K : KubeLib}.

(** [inr true]: the current certificate is gone, and [ac] has been cleared for a
    re-upload *)
Definition probeCAS (r : CertReconciler) (ac : AliyunCertificate) (primaryDomain : string) :
    prog ((goerr + bool) * AliyunCertificate) :=
  match probe_target ac with
  | None => Ret (inr false, ac)
  | Some (cur, id) =>
      let! now := call ONow in
      if time_before (gen_not_after cur) now then Ret (inr false, ac)
      else
        let! throttled :=
          match as_probed_at (ac_status ac) with
          | Some t => let! now := call ONow in Ret (time_sub now t <? r_cas_probe_interval r)%Z
          | None => Ret false
          end in
        if throttled then Ret (inr false, ac)
        else
          let! cas := casClient r ac in
          match cas with
          | inl e => Ret (inl e, ac)
          | inr cas =>
              let! l := call (OCASFind cas (casFindHint ac primaryDomain)) in
              match l with
              | inl e => Ret (inl e, ac)
              | inr l =>
                  let! now := call ONow in
                  let ac := on_status (set_as_probed_at (Some now)) ac in
                  if existsb (fun c => (sum_cert_id c =? id)%Z) l then Ret (inr false, ac)
                  else
                    do! Event (ac_meta ac) true "CASCertificateMissing"
                          "current certificate not found in CAS; re-uploading" in
                    Ret (inr true, forget_current ac)
              end
          end
  end.

Definition noteProbeFailure (ac : AliyunCertificate) : prog unit :=
  Event (ac_meta ac) true "ProbeFailed" probeFailedMessage.

End probe.

(** ** Lemmas *)

Lemma probeCAS_quiet r `{!CASFactoryOk r} ac d : all_calls quiet (probeCAS r ac d).
Proof.
  unfold probeCAS. destruct (probe_target ac) as [[cur id]|]; [|exact I].
  twp_step; [by split|]. destruct (time_before _ _); [exact I|].
  twp_step. { destruct (as_probed_at (ac_status ac)); by repeat split. }
  destruct a0; [exact I|]. twp_step; [by apply casClient_quiet|].
  destruct a0 as [e|cas]; [exact I|]. twp_step; [by split|]. destruct a0 as [e|l]; [exact I|].
  twp_step; [by split|]. destruct (existsb _ _); by repeat split.
Qed.

(** what a probe may leave behind *)
Definition probed (ac : AliyunCertificate) (res : goerr + bool) (ac' : AliyunCertificate) : Prop :=
  match res with
  | inl _ => ac' = ac
  | inr false => ac' = ac \/ exists now, ac' = on_status (set_as_probed_at (Some now)) ac
  | inr true => exists now, ac' = forget_current (on_status (set_as_probed_at (Some now)) ac)
  end.

(** the calls of this probe show that CAS was asked and did not list [id] *)
Definition not_listed (h : history) (id : Z) : Prop :=
  exists cas hint l, Ev (OCASFind cas hint) (inr l) ∈ h /\ forall c, c ∈ l -> sum_cert_id c <> id.

Lemma existsb_id_false l id :
  existsb (fun c => (sum_cert_id c =? id)%Z) l = false -> forall c, c ∈ l -> sum_cert_id c <> id.
Proof.
  intros He c Hc%list_elem_of_In Hid. apply not_true_iff_false in He. apply He. apply existsb_exists.
  exists c. split; [done|]. by apply Z.eqb_eq.
Qed.

Lemma probeCAS_wp (r : CertReconciler) `{!CASFactoryOk r} (ac : AliyunCertificate) (d : string) (h : history) :
  twp any_env (fun _ o => client_call o \/ is_report o \/
                 exists cas, o = OCASFind cas (casFindHint ac d)) h (probeCAS r ac d)
    (fun '(res, ac') h' => probed ac res ac' /\
       (res = inr true -> exists c id, probe_target ac = Some (c, id) /\ not_listed h' id) /\
       (probe_target ac = None -> h' = h /\ res = inr false /\ ac' = ac)).
Proof.
  unfold probeCAS. destruct (probe_target ac) as [[cur id]|] eqn:Et; [|cbn; naive_solver].
  repeat twp_step; [by right; left|]. destruct (time_before _ _); [cbn; naive_solver|].
  twp_step. eapply twp_post with (Q := fun _ _ => True).
  { destruct (as_probed_at (ac_status ac)); [|done]. repeat twp_step; [by right; left|done]. }
  intros throttled h1 _. destruct throttled; [cbn; naive_solver|]. twp_step.
  eapply twp_post; [apply (all_calls_twp client_call); [by apply casClient_calls|by intros; left]|].
  intros [e|cas] h2 _; [cbn; naive_solver|]. repeat twp_step; [right; right; eauto|].
  destruct r1 as [e|l]; [cbn; naive_solver|]. repeat twp_step; [by right; left|].
  destruct (existsb _ l) eqn:El; [cbn; naive_solver|].
  unfold Event. repeat twp_step; [by right; left|]. cbn. split; [by eexists|]. split; [|done].
  intros _. exists cur, id. split; [done|]. exists cas, (casFindHint ac d), l. split; [set_solver|].
  by apply existsb_id_false.
Qed.

(** ** Properties *)

(** The probe never condemns a certificate without having asked: it changes
    nothing but the probe time unless CAS answered a listing, in this probe, that
    does not contain the certId; then it clears certId and fingerprint of the
    current generation and nothing else.  It looks for nothing when uploading is
    off, when there is no certId, when the certificate has expired or when the last
    probe is recent, and a failed listing leaves the object as it was. *)
Theorem probeCAS_spec (r : CertReconciler) `{!CASFactoryOk r} (ac : AliyunCertificate) (d : string) (h : history) :
  twp any_env (fun _ o => client_call o \/ is_report o \/
                 exists cas, o = OCASFind cas (casFindHint ac d)) h (probeCAS r ac d)
    (fun '(res, ac') h' => probed ac res ac' /\
       (res = inr true -> exists c id, probe_target ac = Some (c, id) /\ not_listed h' id) /\
       (probe_target ac = None -> h' = h /\ res = inr false /\ ac' = ac)).
Proof. by apply probeCAS_wp. Qed.

Lemma probeCAS_spec_witness :
  let ac := on_status (set_as_current (Some (sample_gen "leaf" (Some 5%Z) 0))) sample_ac in
  let w : handler unit := fun _ o => match o return resp o * unit with
    | OCASFind _ _ => (inr [mkCertSummary 6 "x" [] ""], tt) | o => (failed_resp o, tt) end in
  let run := exec w tt [] (probeCAS sample_reconciler ac "leaf") in
  run.1.1.1 = inr true /\ not_listed run.1.2 5.
Proof.
  intros ac w run.
  pose proof (twp_exec_any w _ [] tt _ _ (probeCAS_spec sample_reconciler ac "leaf" [])) as H.
  change (exec w tt [] _) with run in H. assert (Hr : run.1.1.1 = inr true) by (vm_compute; reflexivity).
  destruct run as [[[res ac'] h'] u]. cbn in Hr, H |- *. destruct H as (_ & H & _). split; [done|].
  destruct (H Hr) as (c & id & [= _ <-] & Hl). exact Hl.
Defined.

(** The hint of a pending upload shadows the current certificate: while the
    record of a newer generation is pending, the probe searches CAS with that
    record's domain, so after the spec moved to another domain a certificate that
    CAS still holds is reported missing and its certId forgotten.  (The world below
    lists a certificate exactly under the keywords contained in its name list.) *)
Theorem probe_uses_hint_of_other_generation :
  let cur := sample_gen "old.example.com" (Some 5%Z) 0 in
  let p := mkPendingUpload (toy_digest "new.example.com") "n" "t" 0 "new.example.com" in
  let ac := on_status (fun s => set_as_pending (Some p) (set_as_current (Some cur) s)) sample_ac in
  let held := mkCertSummary 5 "k8s-old.example.com" ["old.example.com"] "" in
  let w : handler unit := fun _ o => match o return resp o * unit with
    | OCASFind _ hint => (inr (List.filter (fun c => existsb (fun n => contains n hint) (sum_sans c)) [held]), tt)
    | o => (failed_resp o, tt) end in
  (exec w tt [] (probeCAS sample_reconciler ac "old.example.com")).1.1.1 = inr true /\
  (exec w tt [] (probeCAS sample_reconciler (on_status (set_as_pending None) ac) "old.example.com")).1.1.1 = inr false.
Proof. vm_compute. done. Qed.
