(* ===== verification/CertRetention.v ===== *)
(** * The retention policy (internal/controller/retention.go)

    Old generations are deleted from CAS until [keepLast] are left, the oldest
    first, each behind three guards evaluated on the bindings the API server
    listed in this round. *)
From S2P Require Import Prelude GoString GoTime Api GoError Cloud KubeLib Effects Naming Tokens Bundle Issuer.
From S2P Require Import CertStatus Samples CertUpload.

#[local] Open Scope prog_scope.

(** ** Definitions *)

(** [reclaimable]: the answer and the reason for a refusal *)
Fixpoint reclaimable_bindings (gen : CertificateGeneration) (bindings : list AliyunCertificateBinding) : bool * string :=
  match bindings with
  | [] => (true, "")
  | b :: rest =>
      if (bs_observed_generation (ab_status b) <? om_generation (ab_meta b))%Z then
        (false, "Binding " +:+ ab_name b +:+ " 尚未完成 reconcile")
      else if String.eqb (bs_applied_fingerprint (ab_status b)) (gen_fingerprint gen) then
        (false, "Binding " +:+ ab_name b +:+ " 仍在使用该代")
      else reclaimable_bindings gen rest
  end.

Definition reclaimable (gen : CertificateGeneration) (now : gotime) (minAge : duration)
    (bindings : list AliyunCertificateBinding) : bool * string :=
  if (time_sub now (gen_uploaded_at gen) <? minAge)%Z then (false, "minAge 未到")
  else reclaimable_bindings gen bindings.

(** the bindings of a list that reference the certificate *)
Definition bindings_of (name : string) (l : list AliyunCertificateBinding) : list AliyunCertificateBinding :=
  List.filter (fun b => String.eqb (abs_certificate_ref (ab_spec b)) name) l.

Definition liveBindingsFor (ac : AliyunCertificate) : prog (goerr + list AliyunCertificateBinding) :=
  try! l := call (OListBindingsLive (ac_namespace ac)) in
  Ret (inr (bindings_of (ac_name ac) l)).

Definition with_history (l : list CertificateGeneration) (ac : AliyunCertificate) : AliyunCertificate :=
  on_status (set_as_history l) ac.

Definition reclaimFailedMessage : string :=
  "failed to reclaim an old CAS certificate; the current certificate is unaffected".

Section retention.
  Context (r : CertReconciler).

(** the loop of [reclaimOldGenerations]: [rest] is the history still there, oldest
    first; it returns the history that is left, in the same order *)
Fixpoint reclaim_loop (ac : AliyunCertificate) (now : gotime) (minAge : duration)
    (bindings : list AliyunCertificateBinding) (excess : Z) (cas : option CASClient)
    (rest : list CertificateGeneration) : prog (option goerr * list CertificateGeneration) :=
  match rest with
  | [] => Ret (None, [])
  | oldest :: rest' =>
      if (excess <=? 0)%Z then Ret (None, rest)
      else if negb (reclaimable oldest now minAge bindings).1 then Ret (None, rest)
      else
        match gen_cert_id oldest with
        | None => reclaim_loop ac now minAge bindings (excess - 1) cas rest'
        | Some id =>
            let! c := match cas with
                      | Some c => Ret (inr c)
                      | None => casClient r (with_history (rev rest) ac)
                      end in
            match c with
            | inl e => Ret (Some e, rest)
            | inr c =>
                let! err := call (OCASDelete c id (reclaimToken (om_uid (ac_meta ac)) (gen_fingerprint oldest))) in
                do! recordCASDelete err in
                match err with
                | Some e =>
                    if bool_decide (ClassOf e = ClassNotFound) then
                      do! Event (ac_meta ac) false "Reclaimed" "old CAS certificate reclaimed" in
                      reclaim_loop ac now minAge bindings (excess - 1) (Some c) rest'
                    else Ret (Some e, rest)
                | None =>
                    do! Event (ac_meta ac) false "Reclaimed" "old CAS certificate reclaimed" in
                    reclaim_loop ac now minAge bindings (excess - 1) (Some c) rest'
                end
            end
        end
  end.

Definition reclaimOldGenerations (ac : AliyunCertificate) : prog (option goerr * AliyunCertificate) :=
  if negb (UploadEnabled (ac_aliyun ac)) then Ret (None, ac)
  else
    let history := as_history (ac_status ac) in
    let keep := KeepLastOrDefault (acs_retention (ac_spec ac)) in
    let excess := (1 + Z.of_nat (length history) - keep)%Z in
    if (excess <=? 0)%Z then Ret (None, ac)
    else
      let! bindings := liveBindingsFor ac in
      match bindings with
      | inl e => Ret (Some e, ac)
      | inr bindings =>
          let! now := call ONow in
          let! '(err, kept) := reclaim_loop ac now (MinAgeOrDefault (acs_retention (ac_spec ac))) bindings
                                 excess None (rev history) in
          Ret (err, with_history (rev kept) ac)
      end.

End retention.

(** ** Lemmas *)

Lemma reclaimable_spec gen now minAge bindings :
  (reclaimable gen now minAge bindings).1 = true <->
  (minAge <= time_sub now (gen_uploaded_at gen))%Z /\
  (forall b, b ∈ bindings -> (om_generation (ab_meta b) <= bs_observed_generation (ab_status b))%Z /\
                             bs_applied_fingerprint (ab_status b) <> gen_fingerprint gen).
Proof.
  unfold reclaimable. destruct (Z.ltb_spec (time_sub now (gen_uploaded_at gen)) minAge) as [|Hage].
  { split; [done|]. intros [? _]. lia. }
  assert (H : (reclaimable_bindings gen bindings).1 = true <->
    forall b, b ∈ bindings -> (om_generation (ab_meta b) <= bs_observed_generation (ab_status b))%Z /\
                             bs_applied_fingerprint (ab_status b) <> gen_fingerprint gen); [|naive_solver lia].
  induction bindings as [|b bs IH]; cbn [reclaimable_bindings].
  { split; [|done]. by intros _ b ?%elem_of_nil. }
  destruct (Z.ltb_spec (bs_observed_generation (ab_status b)) (om_generation (ab_meta b))) as [Hlt|Hle].
  { split; [done|]. intros Hb. specialize (Hb b ltac:(left)). lia. }
  destruct (String.eqb_spec (bs_applied_fingerprint (ab_status b)) (gen_fingerprint gen)) as [He|Hne].
  { split; [done|]. intros Hb. by destruct (Hb b ltac:(left)). }
  rewrite IH. setoid_rewrite elem_of_cons. naive_solver.
Qed.

(** why a CAS certificate may be deleted: a generation of the history beyond the
    newest [keepLast - 1], old enough at a clock reading of this round, that no
    binding the API server listed in this round could be using *)
Definition reclaim_justified (ac : AliyunCertificate) (h : history) (id : Z) (token : string) : Prop :=
  exists i g now bs,
    as_history (ac_status ac) !! i = Some g /\ gen_cert_id g = Some id /\
    (KeepLastOrDefault (acs_retention (ac_spec ac)) - 1 <= Z.of_nat i)%Z /\
    token = reclaimToken (om_uid (ac_meta ac)) (gen_fingerprint g) /\
    Ev ONow now ∈ h /\ Ev (OListBindingsLive (ac_namespace ac)) (inr bs) ∈ h /\
    (reclaimable g now (MinAgeOrDefault (acs_retention (ac_spec ac))) (bindings_of (ac_name ac) bs)).1 = true.

Definition reclaim_safe (ac : AliyunCertificate) : policy := fun h o =>
  match o with
  | OCASDelete _ id token => reclaim_justified ac h id token
  | OListBindingsLive ns => ns = ac_namespace ac
  | _ => client_call o \/ is_report o
  end.

(** what retention leaves: a prefix of the history, never shorter than needed *)
Definition reclaimed (ac : AliyunCertificate) (ac' : AliyunCertificate) : Prop :=
  exists n, ac' = with_history (take n (as_history (ac_status ac))) ac /\
    (Z.min (Z.of_nat (length (as_history (ac_status ac))))
           (KeepLastOrDefault (acs_retention (ac_spec ac)) - 1) <= Z.of_nat n)%Z.

Lemma KeepLast_pos s : (1 <= KeepLastOrDefault s)%Z.
Proof. unfold KeepLastOrDefault. destruct (Z.ltb_spec (ret_keep_last s) 1); lia. Qed.

Lemma recordCASDelete_client err : all_calls (fun o => client_call o \/ is_report o) (recordCASDelete err).
Proof. apply recordCASDelete_calls. by right. Qed.

(** CAS has confirmed that the certificate [id] is gone *)
Definition delete_confirmed (h : history) (id : Z) : Prop :=
  exists cas token err, Ev (OCASDelete cas id token) err ∈ h /\ (err = None \/ is_not_found err = true).

Definition gen_ids (g : CertificateGeneration) : list Z :=
  match gen_cert_id g with Some id => [id] | None => [] end.

Lemma delete_confirmed_mono h h' id : (forall e, e ∈ h -> e ∈ h') -> delete_confirmed h id -> delete_confirmed h' id.
Proof. intros Hh (c & t & r & Hin & Hr). exists c, t, r. auto. Qed.

(** a certId that was in [l] is still in [l'] or confirmed deleted *)
Definition ids_kept (l l' : list CertificateGeneration) (h : history) : Prop :=
  forall id, id ∈ flat_map gen_ids l -> id ∈ flat_map gen_ids l' \/ delete_confirmed h id.

(** the loop has nothing left to do: enough was reclaimed, or the oldest generation
    has to stay *)
Definition loop_spent (now : gotime) (minAge : duration) (bs : list AliyunCertificateBinding) (excess : Z)
    (rest kept : list CertificateGeneration) : Prop :=
  (excess <= Z.of_nat (length rest) - Z.of_nat (length kept))%Z \/
  exists oldest kept', kept = oldest :: kept' /\ (reclaimable oldest now minAge bs).1 = false.

(** retention has nothing left to do: [keepLast] generations are left, the current one
    included, or the oldest is too young or possibly in use, by what was read in this round *)
Definition retained (ac ac' : AliyunCertificate) (h : history) : Prop :=
  UploadEnabled (ac_aliyun ac) = true ->
  (1 + Z.of_nat (length (as_history (ac_status ac'))) <= KeepLastOrDefault (acs_retention (ac_spec ac)))%Z \/
  exists oldest now bs, last (as_history (ac_status ac')) = Some oldest /\
    Ev ONow now ∈ h /\ Ev (OListBindingsLive (ac_namespace ac)) (inr bs) ∈ h /\
    (reclaimable oldest now (MinAgeOrDefault (acs_retention (ac_spec ac))) (bindings_of (ac_name ac) bs)).1 = false.

Lemma flat_map_rev_elem {A B} (f : A -> list B) l x : x ∈ flat_map f (rev l) <-> x ∈ flat_map f l.
Proof.
  rewrite !list_elem_of_In, !in_flat_map. split; intros (y & Hy & Hx); exists y; (split; [|done]);
    [by apply in_rev|by apply in_rev in Hy].
Qed.

Section retention_proofs.
  Context (r : CertReconciler) `{!CASFactoryOk r} (ac : AliyunCertificate).

(** with [n] generations left, the loop stops with [m] of them *)
Definition loop_left (n : nat) (res : option goerr * list CertificateGeneration) (_ : history) : Prop :=
  exists m, res.2 = rev (take m (as_history (ac_status ac))) /\ m <= n /\
    (Z.min (Z.of_nat n) (KeepLastOrDefault (acs_retention (ac_spec ac)) - 1) <= Z.of_nat m)%Z.

Lemma reclaim_loop_wp now bs (h0 : history) excess cas n :
  let hist := as_history (ac_status ac) in
  n <= length hist ->
  excess = (1 + Z.of_nat n - KeepLastOrDefault (acs_retention (ac_spec ac)))%Z ->
  Ev ONow now ∈ h0 -> Ev (OListBindingsLive (ac_namespace ac)) (inr bs) ∈ h0 ->
  forall h : history, (forall e, e ∈ h0 -> e ∈ h) ->
  twp any_env (reclaim_safe ac) h
    (reclaim_loop r ac now (MinAgeOrDefault (acs_retention (ac_spec ac))) (bindings_of (ac_name ac) bs)
       excess cas (rev (take n hist)))
    (loop_left n).
Proof.
  intros hist Hn He Hnow Hbs. revert excess cas Hn He.
  induction n as [|n IH]; intros excess cas Hn He h Hh.
  { cbn. exists 0. split; [done|]. split; [done|]. lia. }
  destruct (hist !! n) as [g|] eqn:Eg; [|apply lookup_ge_None in Eg; lia].
  rewrite (take_S_r _ _ _ Eg), rev_unit. cbn [reclaim_loop].
  assert (Hstop : forall err h', twp any_env (reclaim_safe ac) h' (Ret (err, g :: rev (take n hist)))
    (loop_left (S n))).
  { intros err h'. exists (S n). cbn [snd]. fold hist. rewrite (take_S_r _ _ _ Eg), rev_unit. split; [done|]. split; [done|lia]. }
  destruct (Z.leb_spec excess 0) as [|Hex]; [apply Hstop|].
  destruct (reclaimable g now _ _).1 eqn:Er; cbn [negb]; [|apply Hstop].
  assert (Hgo : forall cas (h' : history), (forall e, e ∈ h0 -> e ∈ h') -> twp any_env (reclaim_safe ac) h'
    (reclaim_loop r ac now (MinAgeOrDefault (acs_retention (ac_spec ac))) (bindings_of (ac_name ac) bs)
       (excess - 1) cas (rev (take n hist)))
    (loop_left (S n))).
  { intros cas' h' Hh'. eapply twp_post; [apply IH; [lia|lia|done]|].
    intros [err kept] ? (m & Hm & Hm1 & Hm2). exists m. split; [done|]. split; lia. }
  destruct (gen_cert_id g) as [id|] eqn:Ei; [|by apply Hgo]. twp_step.
  apply (twp_post _ _ _ _ (fun _ h' => forall e, e ∈ h0 -> e ∈ h')).
  { destruct cas; [done|]. eapply twp_post; [apply (all_calls_twp client_call); [by apply casClient_calls|]|].
    - intros h' o Ho. destruct o; try done; by left.
    - intros ? h' Hs e He'. eapply only_since_elem; [exact Hs|by apply Hh]. }
  intros [e|c] h1 Hh1; [apply Hstop|]. repeat twp_step.
  { exists n, g, now, bs. repeat (split; [done|]). split; [lia|]. split; [done|]. split; [by apply Hh1|].
    split; [by apply Hh1|done]. }
  eapply twp_post; [apply (all_calls_twp (fun o => client_call o \/ is_report o)); [apply recordCASDelete_client|]|].
  { intros h' o Ho. destruct o; try done; cbn in *; tauto. }
  intros ? h2 Hs. cbn beta in Hs. assert (Hh2 : forall e, e ∈ h0 -> e ∈ h2).
  { intros e He'. eapply only_since_elem; [exact Hs|]. right. by apply Hh1. }
  destruct r0 as [e|]; [destruct (bool_decide _); [|apply Hstop]|].
  all: unfold Event; repeat twp_step; [by right|]; apply Hgo; intros e' He'; right; by apply Hh2.
Qed.

(** a generation leaves the history only with its certId, and the loop goes on as long
    as there is something to reclaim *)
Definition loop_ends now minAge bs excess (h : history) rest : option goerr * list CertificateGeneration -> history -> Prop :=
  fun '(err, kept) h' => h `suffix_of` h' /\ ids_kept rest kept h' /\ (err = None -> loop_spent now minAge bs excess rest kept).

Lemma reclaim_loop_ends a now minAge bs excess cas rest h :
  (excess <= Z.of_nat (length rest))%Z ->
  twp any_env any_call h (reclaim_loop r a now minAge bs excess cas rest) (loop_ends now minAge bs excess h rest).
Proof using CASFactoryOk0.
  revert excess cas h. induction rest as [|g rest IH]; intros excess cas h Hex; cbn [reclaim_loop].
  { split; [done|]. split; [by left|]. left. cbn in *. lia. }
  assert (Hstop : forall (err : option goerr) h', h `suffix_of` h' -> (err = None -> loop_spent now minAge bs excess (g :: rest) (g :: rest)) ->
    twp any_env any_call h' (Ret (err, g :: rest)) (loop_ends now minAge bs excess h (g :: rest))).
  { intros err h' Hh' Hs. split; [done|]. by split; [left|]. }
  destruct (Z.leb_spec excess 0) as [H0|H0]; [apply Hstop; [done|]; left; lia|].
  destruct (reclaimable g now minAge bs).1 eqn:Er; cbn [negb]; [|apply Hstop; [done|]; right; by eexists _, _].
  assert (Hgo : forall cas h1, h `suffix_of` h1 -> (forall id, id ∈ gen_ids g -> delete_confirmed h1 id) ->
    twp any_env any_call h1 (reclaim_loop r a now minAge bs (excess - 1) cas rest) (loop_ends now minAge bs excess h (g :: rest))).
  { intros cas' h1 Hh1 Hg. eapply twp_post; [apply IH; cbn in Hex; lia|]. intros [err kept] h2 (Hh2 & Hk & Hs). split; [by etrans|]. split.
    - intros id [Hi|Hi]%elem_of_app; [right|auto]. eapply delete_confirmed_mono; [|by apply Hg].
      intros e He. by eapply elem_suffix.
    - intros He. destruct (Hs He) as [Hl|Hl]; [left; cbn [length]; lia|by right]. }
  destruct (gen_cert_id g) as [id|] eqn:Ei.
  2: { apply Hgo; [done|]. unfold gen_ids. rewrite Ei. by intros ? ?%elem_of_nil. }
  twp_step. apply (twp_post _ _ _ _ (fun _ h' => h `suffix_of` h')).
  { destruct cas; [cbn; reflexivity|]. eapply twp_post; [by apply (all_calls_twp client_call); [apply casClient_calls|]|].
    intros ? h'. apply only_since_suffix. }
  intros [e|c] h1 Hh1; [by apply Hstop|]. repeat twp_step.
  eapply twp_post; [apply (all_calls_twp is_report); [apply recordCASDelete_reports|done]|].
  intros _ h2 Hs%only_since_suffix. assert (Hh : h `suffix_of` h2).
  { etrans; [exact Hh1|]. etrans; [|exact Hs]. by exists [Ev (OCASDelete c id (reclaimToken (om_uid (ac_meta a)) (gen_fingerprint g))) r0]. }
  assert (Hg : forall x, r0 = None \/ is_not_found r0 = true -> forall i, i ∈ gen_ids g -> delete_confirmed (x :: h2) i).
  { intros x Hok i. unfold gen_ids. rewrite Ei. intros ->%list_elem_of_singleton. eexists c, _, r0. split; [|done].
    right. eapply elem_suffix; [|exact Hs]. by left. }
  destruct r0 as [e|]; [destruct (bool_decide _) eqn:En; [|by apply Hstop]|].
  all: unfold Event; repeat twp_step; apply Hgo; [by apply suffix_cons_r|]; apply Hg; first [by left|by right].
Qed.

Lemma reclaim_ends h :
  twp any_env any_call h (reclaimOldGenerations r ac) (fun '(err, ac') h' => h `suffix_of` h' /\
    ids_kept (as_history (ac_status ac)) (as_history (ac_status ac')) h' /\ (err = None -> retained ac ac' h')).
Proof.
  unfold reclaimOldGenerations. destruct (UploadEnabled (ac_aliyun ac)) eqn:Eu; cbn [negb]; [|split; [done|]; split; [by left|intros _ Hu; congruence]].
  cbn zeta. set (hist := as_history (ac_status ac)). destruct (Z.leb_spec (1 + Z.of_nat (length hist) -
    KeepLastOrDefault (acs_retention (ac_spec ac))) 0) as [|Hex]; [split; [done|]; split; [by left|]; intros _ _; left; fold hist; lia|].
  unfold liveBindingsFor. repeat twp_step. destruct r0 as [e|bs]; cbn [twp bind]; [split; [by apply suffix_cons_r|by split; [left|]]|].
  repeat twp_step. eapply twp_post.
  { apply reclaim_loop_ends. rewrite length_rev. pose proof (KeepLast_pos (acs_retention (ac_spec ac))). lia. }
  intros [err kept] h1 (Hh1 & Hk & Hs). cbn. split; [etrans; [|exact Hh1]; by do 2 apply suffix_cons_r|]. split.
  { intros id Hi. destruct (Hk id) as [Hx|Hx]; [by apply flat_map_rev_elem|left; by apply flat_map_rev_elem|by right]. }
  intros He _. cbn. rewrite length_rev. destruct (Hs He) as [Hl|(oldest & kept' & -> & Hno)]; [left; rewrite length_rev in Hl; lia|right].
  exists oldest, r0, bs. cbn [rev]. rewrite last_snoc. split; [done|].
  split; [eapply elem_suffix; [|exact Hh1]; by left|]. split; [|done]. eapply elem_suffix; [|exact Hh1]. right. by left.
Qed.

Lemma reclaimed_wp h :
  twp any_env (reclaim_safe ac) h (reclaimOldGenerations r ac) (fun '(err, ac') _ => reclaimed ac ac').
Proof.
  assert (Hid : reclaimed ac ac).
  { exists (length (as_history (ac_status ac))). rewrite firstn_all. split; [|lia]. by destruct ac as [? ? []]. }
  unfold reclaimOldGenerations. destruct (UploadEnabled (ac_aliyun ac)); cbn [negb]; [|done].
  set (hist := as_history (ac_status ac)). destruct (Z.leb_spec (1 + Z.of_nat (length hist) -
    KeepLastOrDefault (acs_retention (ac_spec ac))) 0) as [|Hex]; [done|].
  unfold liveBindingsFor. repeat twp_step; [done|]. destruct r0 as [e|bs]; cbn [twp bind]; [done|].
  repeat twp_step; [by right|]. replace (rev hist) with (rev (take (length hist) hist)) by by rewrite firstn_all.
  eapply twp_post; [eapply (reclaim_loop_wp r0 bs); [done|done| | |intros e He; exact He]; set_solver|].
  intros [err kept] ? (m & Hm & Hm1 & Hm2). cbn in Hm |- *. subst kept. exists m. rewrite rev_involutive. split; [done|]. exact Hm2.
Qed.

Lemma reclaimOldGenerations_wp h :
  twp any_env (reclaim_safe ac) h (reclaimOldGenerations r ac) (fun '(err, ac') h' => reclaimed ac ac' /\
    ids_kept (as_history (ac_status ac)) (as_history (ac_status ac')) h' /\ (err = None -> retained ac ac' h')).
Proof.
  eapply twp_post; [eapply twp_and; [apply reclaimed_wp|apply reclaim_ends]|]. by intros [err ac'] h' [H1 [_ H2]].
Qed.

End retention_proofs.

(** ** Properties *)

(** C20: retention never deletes a certificate in service.  Every deletion it asks
    CAS for is of a generation of the history - never the current one - beyond the
    newest [keepLast - 1], at least [minAge] old, that no binding can be using: each
    binding of this certificate that the API server listed in this very round had
    completed its reconcile and had another fingerprint applied.  It reads nothing
    stale and writes nothing else to the cloud, and what it leaves of the history is
    a prefix with at least [keepLast - 1] generations (or the whole of a shorter
    one), from which a certId is missing only when CAS confirmed its deletion.  And it
    does its work: when it reports no error, [keepLast] generations are left, or the
    oldest of those left is too young or possibly in use. *)
Theorem reclaim_safety (r : CertReconciler) `{!CASFactoryOk r} (ac : AliyunCertificate) (h : history) :
  twp any_env (reclaim_safe ac) h (reclaimOldGenerations r ac) (fun '(err, ac') h' => reclaimed ac ac' /\
    ids_kept (as_history (ac_status ac)) (as_history (ac_status ac')) h' /\ (err = None -> retained ac ac' h')).
Proof. by apply reclaimOldGenerations_wp. Qed.

(** three generations with keepLast 2: the oldest goes; with a binding on it, it stays *)
Definition sample_old : AliyunCertificate :=
  on_status (fun s => set_as_history [sample_gen "b" (Some 2%Z) 0; sample_gen "a" (Some 1%Z) 0]
    (set_as_current (Some (sample_gen "c" (Some 3%Z) 0)) s)) sample_ac.

Definition sample_binding (applied : string) : AliyunCertificateBinding :=
  mkBinding (sample_meta "b1" "uid-b" [FinalizerName])
    (mkBindingSpec "site" (mkBindingTarget TargetTypeFC3CustomDomain (Some (mkFC3Target "cn-hangzhou" "leaf" true)) None)
       None DeletionPolicyOrphan)
    (mkBindingStatus 3 applied "" "" "" None None "acct" None []).

Lemma reclaim_safety_witness :
  let w bs : handler unit := fun _ o => match o return resp o * unit with
    | OListBindingsLive _ => (inr bs, tt) | OCASDelete _ _ _ => (None, tt)
    | ONow => (48 * hour, tt)%Z | o => (failed_resp o, tt) end in
  let run bs := exec (w bs) tt [] (reclaimOldGenerations sample_reconciler sample_old) in
  as_history (ac_status (run [sample_binding (toy_digest "c")]).1.1.2) = [sample_gen "b" (Some 2%Z) 0] /\
  as_history (ac_status (run [sample_binding (toy_digest "a")]).1.1.2) = as_history (ac_status sample_old) /\
  delete_confirmed (run []).1.2 1 /\ (forall bs, reclaimed sample_old (run bs).1.1.2) /\
  retained sample_old (run [sample_binding (toy_digest "a")]).1.1.2 (run [sample_binding (toy_digest "a")]).1.2.
Proof.
  intros w run. split; [vm_compute; reflexivity|]. split; [vm_compute; reflexivity|].
  assert (H : forall bs, reclaimed sample_old (run bs).1.1.2 /\
    ids_kept (as_history (ac_status sample_old)) (as_history (ac_status (run bs).1.1.2)) (run bs).1.2 /\
    ((run bs).1.1.1 = None -> retained sample_old (run bs).1.1.2 (run bs).1.2)).
  { intros bs. pose proof (twp_exec_any (w bs) _ [] tt _ _ (reclaim_safety sample_reconciler sample_old [])) as H.
    change (exec (w bs) tt [] _) with (run bs) in H. by destruct (run bs) as [[[err ac'] h'] u]. }
  split; [|split; [intros bs; apply H|apply H; vm_compute; reflexivity]]. assert (H1 : 1%Z ∈ flat_map gen_ids (as_history (ac_status sample_old))) by (right; left).
  destruct (proj1 (proj2 (H [])) 1%Z H1) as [Hi|Hi]; [|done].
  assert (Hl : flat_map gen_ids (as_history (ac_status (run []).1.1.2)) = [2%Z]) by (vm_compute; reflexivity).
  rewrite Hl in Hi. by apply list_elem_of_singleton in Hi.
Defined.
