(* ===== verification/CertDeletion.v ===== *)
(** * Deleting a certificate (internal/controller/deletion.go) *)
From S2P Require Import Prelude GoString GoTime Api GoError Cloud KubeLib Effects Naming Tokens Bundle Issuer.
From S2P Require Import CertStatus Samples CertUpload CertRetention.

#[local] Open Scope prog_scope.

(** ** Definitions *)

Definition requeueDeletionWait : duration := 2 * second.
Definition cleanupAbandonedMessage : string :=
  "gave up deleting the CAS certificates after the cleanup grace period; see operator logs for the leaked certificate IDs".
Definition secretDeletionSkippedMessage : string :=
  "Secret 不属于本 CR（cert-manager.io/certificate-name 指向别的 Certificate），跳过删除".

(** [!t.IsZero()] of a deletion timestamp *)
Definition is_deleting (m : ObjectMeta) : bool := negb (timep_is_zero (om_deletion m)).

Definition activeBindingNames (bindings : list AliyunCertificateBinding) : list string :=
  ab_name <$> List.filter (fun b => negb (is_deleting (ab_meta b))) bindings.

(** [shouldAbandonCleanup] of binding_deletion.go, shared by both controllers *)
Definition shouldAbandonCleanup (policy : string) (elapsed grace : duration) : bool :=
  negb (String.eqb policy CleanupPolicyBlock) && (grace <=? elapsed)%Z.

Definition remainingCertIDs (ac : AliyunCertificate) : list Z :=
  let ids o := match o with Some id => [id] | None => [] end in
  ids (c ← as_current (ac_status ac); gen_cert_id c)
  ++ flat_map (fun h => ids (gen_cert_id h)) (as_history (ac_status ac)).

(** a nil dereference: the manager recovers the panic into an error *)
Definition panicked : Result := (0%Z, Some (EText "panic: nil pointer dereference")).

Section deletion.
  Context `{K : KubeLib} (r : CertReconciler).

(** the closure [del] of [cleanupCAS] *)
Definition del_gen (cas : CASClient) (uid : string) (gen : CertificateGeneration) :
    prog (option goerr * CertificateGeneration) :=
  match gen_cert_id gen with
  | None => Ret (None, gen)
  | Some id =>
      let! err := call (OCASDelete cas id (deleteToken (ClientToken uid (gen_fingerprint gen)))) in
      do! recordCASDelete err in
      match err with
      | Some e => if bool_decide (ClassOf e = ClassNotFound) then Ret (None, set_gen_cert_id None gen)
                  else Ret (Some e, gen)
      | None => Ret (None, set_gen_cert_id None gen)
      end
  end.

Fixpoint del_gens (cas : CASClient) (uid : string) (l : list CertificateGeneration) :
    prog (option goerr * list CertificateGeneration) :=
  match l with
  | [] => Ret (None, [])
  | g :: l =>
      let! '(err, g) := del_gen cas uid g in
      match err with
      | Some e => Ret (Some e, g :: l)
      | None => let! '(err, l) := del_gens cas uid l in Ret (err, g :: l)
      end
  end.

Definition cleanupPendingUpload (cas : CASClient) (ac : AliyunCertificate) : prog (option goerr * AliyunCertificate) :=
  match as_pending (ac_status ac) with
  | None => Ret (None, ac)
  | Some p =>
      let! l := call (OCASFind cas (casFindHint ac "")) in
      match l with
      | inl e => Ret (Some e, ac)
      | inr l =>
          let! derr :=
            match List.find (fun c => String.eqb (sum_name c) (pu_cas_name p)) l with
            | None => Ret None
            | Some c =>
                let! derr := call (OCASDelete cas (sum_cert_id c) (deleteToken (pu_client_token p))) in
                do! recordCASDelete derr in
                Ret (if is_not_found derr then None else derr)
            end in
          match derr with
          | Some e => Ret (Some e, ac)
          | None => Ret (None, on_status (set_as_pending None) ac)
          end
      end
  end.

Definition set_current_gen (g : CertificateGeneration) (ac : AliyunCertificate) : AliyunCertificate :=
  on_status (set_as_current (Some g)) ac.

Definition cleanupCAS (ac : AliyunCertificate) : prog (option goerr * AliyunCertificate) :=
  match remainingCertIDs ac, as_pending (ac_status ac) with
  | [], None => Ret (None, ac)
  | _, _ =>
      let! cas := casClient r ac in
      match cas with
      | inl e => Ret (Some e, ac)
      | inr cas =>
          let uid := om_uid (ac_meta ac) in
          let! '(err, history) := del_gens cas uid (as_history (ac_status ac)) in
          let ac := with_history history ac in
          match err with
          | Some e => Ret (Some e, ac)
          | None =>
              let! '(err, ac) :=
                match as_current (ac_status ac) with
                | None => Ret (None, ac)
                | Some c => let! '(err, c) := del_gen cas uid c in Ret (err, set_current_gen c ac)
                end in
              match err with
              | Some e => Ret (Some e, ac)
              | None => cleanupPendingUpload cas ac
              end
          end
      end
  end.

(** *** The steps of [reconcileDelete]; [inl] is an early return *)

(** a. bindings that are not being deleted block the deletion *)
Definition delete_blocked (ac orig : AliyunCertificate) : prog (Result + unit) :=
  let! bindings := liveBindingsFor ac in
  match bindings with
  | inl e => Ret (inl (0%Z, Some e))
  | inr bindings =>
      match activeBindingNames bindings with
      | [] => Ret (inr tt)
      | names =>
          let msg := "仍被 Binding 引用: " +:+ join ", " names in
          let ac := setCondition ac ConditionReady CondFalse ReasonDeletionBlocked msg in
          do! Event (ac_meta ac) true ReasonDeletionBlocked msg in
          let! res := patch_and_return 0 ac orig in
          Ret (inl res)
      end
  end.

(** the start of the grace period, recorded once *)
Definition delete_started (ac orig : AliyunCertificate) : prog (Result + round) :=
  match as_cleanup_started (ac_status ac) with
  | Some _ => Ret (inr (ac, orig))
  | None =>
      let! now := call ONow in
      let! patched := patchStatus (on_status (set_as_cleanup_started (Some now)) ac) orig in
      Ret match patched with
          | inl e => inl (0%Z, Some e)
          | inr ac => inr (ac, ac)
          end
  end.

(** b. the CAS side, bounded by the grace period; the progress is persisted *)
Definition delete_cas (ac orig : AliyunCertificate) : prog (Result + AliyunCertificate) :=
  let! '(err, ac) := cleanupCAS ac in
  let! stop :=
    match err with
    | None => Ret None
    | Some e =>
        let! now := call ONow in
        match as_cleanup_started (ac_status ac) with
        | None => Ret (Some panicked)
        | Some started =>
            if negb (shouldAbandonCleanup (r_cleanup_failure_policy r) (time_sub now started) (r_cleanup_grace_period r))
            then
              let ac := setCondition ac ConditionReady CondFalse ReasonCleanupFailed
                          ("CAS 清理失败，重试中: " +:+ err_text e) in
              let! patched := patchStatus ac orig in
              Ret (Some (0%Z, Some match patched with inl perr => perr | inr _ => e end))
            else
              do! Event (ac_meta ac) true ReasonCleanupAbandoned cleanupAbandonedMessage in
              do! call (OCounterInc metric_cleanup_abandoned
                          [EffectiveCASRegion (ac_aliyun ac); class_string (ClassOf e)]) in
              Ret None
        end
    end in
  match stop with
  | Some res => Ret (inl res)
  | None =>
      let! patched := patchStatus ac orig in
      Ret match patched with inl e => inl (0%Z, Some e) | inr ac => inr ac end
  end.

(** c. the Certificate must be gone before its Secret is touched *)
Definition delete_certificate (ac : AliyunCertificate) : prog (Result + unit) :=
  let! got := call (OGetCert (ac_namespace ac) (certManagerNameFor ac)) in
  match got with
  | inr cert =>
      if is_deleting (cert_meta cert) then Ret (inl (requeueDeletionWait, None))
      else
        let! derr := call (ODeleteCert cert) in
        Ret match IgnoreNotFound derr with
            | Some e => inl (0%Z, Some e)
            | None => inl (requeueDeletionWait, None)
            end
  | inl e => Ret (if IsNotFound e then inr tt else inl (0%Z, Some e))
  end.

(** d. the Secret in service, when it is ours; [inr name] is a Secret left in place *)
Definition delete_secret (ac : AliyunCertificate) : prog (Result + string) :=
  let! got := call (OGetSecret (ac_namespace ac) (servingSecretName ac (as_secret_name (ac_status ac)))) in
  match got with
  | inr s =>
      if secretOwnedByUs s ac then
        let! derr := call (ODeleteSecret s) in
        Ret match IgnoreNotFound derr with Some e => inl (0%Z, Some e) | None => inr "" end
      else Ret (inr (om_name (sec_meta s)))
  | inl e => Ret (if IsNotFound e then inr "" else inl (0%Z, Some e))
  end.

(** e. the finalizer, and the traces left behind *)
Definition delete_finalizer (ac : AliyunCertificate) (skippedSecret : string) : prog Result :=
  let ac := set_ac_meta (RemoveFinalizer (ac_meta ac) FinalizerName) ac in
  let! up := call (OUpdateAC ac) in
  let uerr := err_of up in
  match IgnoreNotFound uerr with
  | Some e => Ret (0%Z, Some e)
  | None =>
      let ac := match up with inr ac => ac | inl _ => ac end in
      do! match up with
          | inr _ =>
              if negb (String.eqb skippedSecret "") then
                do! Event (ac_meta ac) true ReasonSecretNameConflict secretDeletionSkippedMessage in
                call (OCounterInc metric_secret_skipped [ac_namespace ac])
              else Ret tt
          | inl _ => Ret tt
          end in
      do! clearCertMetrics (ac_namespace ac) (ac_name ac) in
      Ret (0%Z, None)
  end.

Definition reconcileDelete (ac orig : AliyunCertificate) : prog Result :=
  if negb (ContainsFinalizer (ac_meta ac) FinalizerName) then Ret (0%Z, None)
  else
    let! blocked := delete_blocked ac orig in
    match blocked with
    | inl res => Ret res
    | inr _ =>
        let! started := delete_started ac orig in
        match started with
        | inl res => Ret res
        | inr (ac, orig) =>
            let! cleaned := delete_cas ac orig in
            match cleaned with
            | inl res => Ret res
            | inr ac =>
                let! gone := delete_certificate ac in
                match gone with
                | inl res => Ret res
                | inr _ =>
                    let! skipped := delete_secret ac in
                    match skipped with
                    | inl res => Ret res
                    | inr skippedSecret => delete_finalizer ac skippedSecret
                    end
                end
            end
        end
    end.

End deletion.

(** ** The CAS cleanup *)

(** the calls of a cleanup: deletions of what the status records, or of what CAS
    lists under the name of the pending record *)
Definition cleanup_call (ac : AliyunCertificate) (o : op) : Prop :=
  match o with
  | OCASDelete _ id token =>
      id ∈ remainingCertIDs ac \/ exists p, as_pending (ac_status ac) = Some p /\ token = deleteToken (pu_client_token p)
  | OCASFind _ _ => True
  | _ => client_call o \/ is_report o
  end.

(** the same generation, its certId aside *)
Definition same_gen (g g' : CertificateGeneration) : Prop := set_gen_cert_id None g = set_gen_cert_id None g'.

Lemma remainingCertIDs_eq ac :
  remainingCertIDs ac =
    match as_current (ac_status ac) with Some c => gen_ids c | None => [] end
    ++ flat_map gen_ids (as_history (ac_status ac)).
Proof. unfold remainingCertIDs. by destruct (as_current (ac_status ac)). Qed.

(** what is known after some generations [l] became [l'] *)
Definition gens_cleaned (l l' : list CertificateGeneration) (h : history) : Prop :=
  Forall2 same_gen l l' /\
  (forall id, id ∈ flat_map gen_ids l -> id ∈ flat_map gen_ids l' \/ delete_confirmed h id) /\
  (forall id, id ∈ flat_map gen_ids l' -> id ∈ flat_map gen_ids l).

Lemma gens_cleaned_refl l h : gens_cleaned l l h.
Proof. split; [|auto]. by apply Forall2_same_length_lookup_2; [done|intros ??? -> [= ->]]. Qed.

Section cleanup.
  Context (ac : AliyunCertificate).

Let C := cleanup_call ac.

Lemma del_gen_wp cas uid g (h : history) :
  (forall id, id ∈ gen_ids g -> id ∈ remainingCertIDs ac) ->
  twp any_env (fun _ o => C o) h (del_gen cas uid g) (fun '(err, g') h' =>
    (forall e, e ∈ h -> e ∈ h') /\ gens_cleaned [g] [g'] h' /\ (err = None -> gen_ids g' = [])).
Proof.
  intros Hg. unfold del_gen. unfold gen_ids in Hg. destruct (gen_cert_id g) as [id|] eqn:Ei.
  - repeat twp_step; [left; apply Hg; by left|]. rename r into err0.
    assert (Hgone : forall h', Ev (OCASDelete cas id (deleteToken (ClientToken uid (gen_fingerprint g)))) err0 ∈ h' ->
      err0 = None \/ is_not_found err0 = true -> gens_cleaned [g] [set_gen_cert_id None g] h').
    { intros h' Hin Hok. split; [by repeat constructor|]. split.
      - intros id'. cbn. unfold gen_ids at 1. rewrite Ei. cbn. intros ->%list_elem_of_singleton. right.
        by eexists _, _, _.
      - by intros id' ?%elem_of_nil. }
    eapply twp_post; [apply (all_calls_twp is_report); [apply recordCASDelete_reports|]|].
    { intros h' o Ho. destruct o; try done; by right. }
    intros ? h' Hs. cbn beta in Hs. assert (Hh : forall e, e ∈ Ev (OCASDelete cas id (deleteToken (ClientToken uid
      (gen_fingerprint g)))) err0 :: h -> e ∈ h') by (intros e; by apply (only_since_elem _ _ _ _ Hs)).
    assert (Hh' : forall e, e ∈ h -> e ∈ h') by (intros e He; apply Hh; by right).
    destruct err0 as [e|]; [destruct (bool_decide (ClassOf e = ClassNotFound)) eqn:En|];
      cbn [twp]; (split; [done|]).
    + split; [|done]. apply Hgone; [apply Hh; by left|by right].
    + split; [apply gens_cleaned_refl|done].
    + split; [|done]. apply Hgone; [apply Hh; by left|by left].
  - cbn [twp]. split; [done|]. split; [apply gens_cleaned_refl|]. intros _. unfold gen_ids. by rewrite Ei.
Qed.

Lemma gens_cleaned_mono l l' (h h' : history) :
  (forall e, e ∈ h -> e ∈ h') -> gens_cleaned l l' h -> gens_cleaned l l' h'.
Proof.
  intros Hh (H1 & H2 & H3). split; [done|]. split; [|done]. intros id Hid.
  destruct (H2 id Hid) as [?|Hc]; [by left|right]. by eapply delete_confirmed_mono.
Qed.

Lemma gens_cleaned_app l1 l1' l2 l2' h :
  gens_cleaned l1 l1' h -> gens_cleaned l2 l2' h -> gens_cleaned (l1 ++ l2) (l1' ++ l2') h.
Proof.
  intros (H1 & H2 & H3) (H4 & H5 & H6). split; [by apply Forall2_app|]. rewrite !flat_map_app.
  split; intros id; rewrite !elem_of_app; naive_solver.
Qed.

Lemma del_gens_wp cas uid l (h : history) :
  (forall id, id ∈ flat_map gen_ids l -> id ∈ remainingCertIDs ac) ->
  twp any_env (fun _ o => C o) h (del_gens cas uid l) (fun '(err, l') h' =>
    (forall e, e ∈ h -> e ∈ h') /\ gens_cleaned l l' h' /\ (err = None -> flat_map gen_ids l' = [])).
Proof.
  revert h. induction l as [|g l IH]; intros h Hl; cbn [del_gens].
  { cbn. split; [done|]. split; [apply gens_cleaned_refl|done]. }
  twp_step. eapply twp_post; [apply del_gen_wp; intros id Hid; apply Hl; apply elem_of_app; by left|].
  intros [[e|] g'] h1 (Hh1 & Hg & Hi).
  { cbn. split; [done|]. split; [|done]. apply (gens_cleaned_app [g] [g']); [done|apply gens_cleaned_refl]. }
  twp_step. eapply twp_post; [apply IH; intros id Hid; apply Hl; apply elem_of_app; by right|].
  intros [err l'] h2 (Hh2 & Hgl & Hil). cbn [twp]. split; [auto|]. split.
  - apply (gens_cleaned_app [g] [g']); [|done]. by eapply gens_cleaned_mono.
  - intros He. cbn. by rewrite Hi, Hil.
Qed.

(** the generations of an object, the current one first *)
Definition all_gens (ac : AliyunCertificate) : list CertificateGeneration :=
  match as_current (ac_status ac) with Some c => [c] | None => [] end ++ as_history (ac_status ac).

Lemma all_gens_ids a : flat_map gen_ids (all_gens a) = remainingCertIDs a.
Proof.
  rewrite remainingCertIDs_eq. unfold all_gens. destruct (as_current (ac_status a)) as [c|]; cbn; [|done].
  done.
Qed.

Lemma recordCASDelete_quietly (h : history) err (Q : unit -> history -> Prop) :
  (forall u h', (forall e, e ∈ h -> e ∈ h') -> Q u h') ->
  twp any_env (fun _ o => C o) h (recordCASDelete err) Q.
Proof.
  intros Hp. eapply twp_post; [apply (all_calls_twp is_report); [apply recordCASDelete_reports|]|].
  - intros h' o Ho. destruct o; try done; by right.
  - intros u h' Hs. apply Hp. intros e. by apply (only_since_elem _ _ _ _ Hs).
Qed.

(** what a cleanup does not touch *)
Definition cleanup_frame : AliyunCertificate -> AliyunCertificate :=
  on_status (fun s => set_as_current None (set_as_history [] (set_as_pending None s))).

Lemma cleanupPendingUpload_wp cas a (h : history) :
  as_pending (ac_status a) = as_pending (ac_status ac) ->
  twp any_env (fun _ o => C o) h (cleanupPendingUpload cas a) (fun '(err, a') h' =>
    (forall e, e ∈ h -> e ∈ h') /\ cleanup_frame a' = cleanup_frame a /\ all_gens a' = all_gens a /\ (err = None -> as_pending (ac_status a') = None)).
Proof.
  intros Hp. unfold cleanupPendingUpload. destruct (as_pending (ac_status a)) as [p|] eqn:Ep; [|done].
  repeat twp_step. destruct r as [e|l]; [cbn; split; [set_solver|done]|].
  destruct (List.find _ l) as [c|]; repeat twp_step; [right; eauto| |cbn; split; [set_solver|done]].
  apply recordCASDelete_quietly. intros _ h' Hh'. cbn [twp].
  assert (Hh : forall e, e ∈ h -> e ∈ h') by (intros e He; apply Hh'; by do 2 right).
  destruct (if is_not_found _ then None else _) as [e|]; done.
Qed.

(** the outcome of a cleanup *)
Definition cleaned (res : option goerr * AliyunCertificate) (h : history) : Prop :=
  cleanup_frame res.2 = cleanup_frame ac /\
  gens_cleaned (all_gens ac) (all_gens res.2) h /\
  (res.1 = None -> remainingCertIDs res.2 = [] /\ as_pending (ac_status res.2) = None).

Context (r : CertReconciler) `{!CASFactoryOk r}.

(** the current generation and the pending record, after the history *)
Lemma cleanup_tail_wp cas hist' (h2 : history) :
  gens_cleaned (as_history (ac_status ac)) hist' h2 -> flat_map gen_ids hist' = [] ->
  twp any_env (fun _ o => C o) h2
    (let! '(err, a) :=
       match as_current (ac_status ac) with
       | None => Ret (None, with_history hist' ac)
       | Some c => let! '(err, c) := del_gen cas (om_uid (ac_meta ac)) c in Ret (err, set_current_gen c (with_history hist' ac))
       end in
     match err with Some e => Ret (Some e, a) | None => cleanupPendingUpload cas a end) cleaned.
Proof.
  intros Hg Hi. assert (Hpend : forall a (h' : history), (forall e, e ∈ h2 -> e ∈ h') ->
    as_pending (ac_status a) = as_pending (ac_status ac) ->
    cleanup_frame a = cleanup_frame ac -> gens_cleaned (all_gens ac) (all_gens a) h' -> remainingCertIDs a = [] ->
    twp any_env (fun _ o => C o) h' (cleanupPendingUpload cas a) cleaned).
  { intros a h' Hh' Hpa Hfa Hga Hra. eapply twp_post; [by apply cleanupPendingUpload_wp|].
    intros [err a'] h'' (Hh'' & Hfa' & Hga' & Hpa'). split; [cbn [snd]; congruence|]. split; cbn [fst snd].
    - rewrite Hga'. by eapply gens_cleaned_mono.
    - intros He. split; [by rewrite <-all_gens_ids, Hga', all_gens_ids|auto]. }
  destruct (as_current (ac_status ac)) as [c|] eqn:Ec.
  - do 2 twp_step. eapply twp_post; [apply del_gen_wp|].
    { intros id Hid'. rewrite <-all_gens_ids. unfold all_gens. rewrite Ec, flat_map_app. apply elem_of_app. left.
      cbn. by rewrite app_nil_r. }
    intros [err c'] h3 (Hh3 & Hgc & Hic). cbn [twp].
    assert (Hall : gens_cleaned (all_gens ac) (all_gens (set_current_gen c' (with_history hist' ac))) h3).
    { unfold all_gens. rewrite Ec. cbn. apply (gens_cleaned_app [c] [c']); [done|]. by eapply gens_cleaned_mono. }
    destruct err as [e|]; [by split; [|split]|]. apply Hpend; [done|done|done|done|].
    rewrite <-all_gens_ids. unfold all_gens. cbn. by rewrite Hic, Hi.
  - cbn [twp bind]. apply Hpend; [done|done|done| |].
    + unfold all_gens. cbn. by rewrite Ec.
    + rewrite <-all_gens_ids. unfold all_gens. cbn. rewrite Ec. cbn. by apply Hi.
Qed.

Lemma cleanupCAS_wp (h : history) :
  twp any_env (fun _ o => C o) h (cleanupCAS r ac) cleaned.
Proof.
  assert (Hdone : remainingCertIDs ac = [] -> as_pending (ac_status ac) = None -> cleaned (None, ac) h).
  { intros Hr Hp. split; [done|]. split; [apply gens_cleaned_refl|done]. }
  unfold cleanupCAS. destruct (remainingCertIDs ac) as [|id0 ids] eqn:Er, (as_pending (ac_status ac)) as [p|] eqn:Ep; [|by apply Hdone| |].
  all: clear Hdone; twp_step; eapply twp_post; [apply (all_calls_twp client_call); [by apply casClient_calls|]|].
  all: try by (intros h' o Ho; destruct o; try done; by left).
  all: intros [e|cas] h1 _; [split; [done|]; split; [apply gens_cleaned_refl|done]|]; cbn zeta; twp_step.
  all: eapply twp_post; [apply del_gens_wp|].
  all: try by (intros id Hid; rewrite <-Er, <-all_gens_ids; unfold all_gens; rewrite flat_map_app; apply elem_of_app; by right).
  all: try by (intros id Hid; rewrite <-all_gens_ids; unfold all_gens; rewrite flat_map_app; apply elem_of_app; by right).
  all: intros [[e|] hist'] h2 (Hh2 & Hg & Hi);
    [cbn [twp]; split; [done|]; split; [|done]; cbn [snd]; unfold all_gens; cbn; by apply gens_cleaned_app; [apply gens_cleaned_refl|]|].
  all: by apply cleanup_tail_wp; [|apply Hi].
Qed.

End cleanup.

(** ** The order of a deletion *)

(** the object of the latest status patch the API server accepted *)
Definition patched_by (e : event) : option AliyunCertificate :=
  match e with
  | Ev o r =>
      match o return resp o -> option AliyunCertificate with
      | OPatchACStatus ac _ => fun r => match r with inr _ => Some ac | inl _ => None end
      | _ => fun _ => None
      end r
  end.

Fixpoint last_patched (h : history) : option AliyunCertificate :=
  match h with
  | [] => None
  | e :: h => match patched_by e with Some ac => Some ac | None => last_patched h end
  end.

Section order.
  Context (r : CertReconciler) (ac0 : AliyunCertificate).

(** every binding of the certificate that the API server listed in this round is
    itself being deleted *)
Definition unbound (h : history) : Prop :=
  exists bs, Ev (OListBindingsLive (ac_namespace ac0)) (inr bs) ∈ h /\
    forall b, b ∈ bs -> abs_certificate_ref (ab_spec b) = ac_name ac0 -> is_deleting (ab_meta b) = true.

(** the API server has no Certificate of this name any more *)
Definition cert_gone (h : history) : Prop :=
  exists e, Ev (OGetCert (ac_namespace ac0) (ac_name ac0)) (inl e) ∈ h /\ IsNotFound e = true.

(** where the start of the grace period was read from *)
Definition started_at (h : history) (t : gotime) : Prop :=
  as_cleanup_started (ac_status ac0) = Some t \/
  exists a b a', Ev (OPatchACStatus a b) (inr a') ∈ h /\ as_cleanup_started (ac_status a') = Some t.

Definition abandoned (h : history) : Prop :=
  r_cleanup_failure_policy r <> CleanupPolicyBlock /\
  exists t now, started_at h t /\ Ev ONow now ∈ h /\ (r_cleanup_grace_period r <= time_sub now t)%Z.

(** the persisted status names no CAS certificate any more, or cleaning was given up *)
Definition settled (h : history) : Prop :=
  exists a, last_patched h = Some a /\
    ((remainingCertIDs a = [] /\ as_pending (ac_status a) = None) \/ abandoned h).

Lemma unbound_mono (h h' : history) : (forall e, e ∈ h -> e ∈ h') -> unbound h -> unbound h'.
Proof. intros Hh (bs & Hin & Hb). exists bs. auto. Qed.

Lemma started_at_mono (h h' : history) t : (forall e, e ∈ h -> e ∈ h') -> started_at h t -> started_at h' t.
Proof. intros Hh [Ht|(a & b & a' & Hin & Ht)]; [by left|right]. exists a, b, a'. auto. Qed.

Lemma abandoned_mono (h h' : history) : (forall e, e ∈ h -> e ∈ h') -> abandoned h -> abandoned h'.
Proof.
  intros Hh (Hp & t & now & Ht & Hin & Hg). split; [done|]. exists t, now.
  split; [by eapply started_at_mono|auto].
Qed.

Lemma settled_step o resp0 h : patched_by (Ev o resp0) = None -> settled h -> settled (Ev o resp0 :: h).
Proof.
  intros Hn (a & Ha & Hc). exists a. split; [cbn [last_patched]; by rewrite Hn|].
  destruct Hc as [|Hc]; [by left|right]. eapply abandoned_mono; [|exact Hc]. set_solver.
Qed.

Lemma is_deleting_active bs names :
  activeBindingNames (bindings_of (ac_name ac0) bs) = names -> names = [] ->
  forall b, b ∈ bs -> abs_certificate_ref (ab_spec b) = ac_name ac0 -> is_deleting (ab_meta b) = true.
Proof.
  intros <- He b Hb Hr. unfold activeBindingNames, bindings_of in He. apply fmap_nil_inv in He.
  apply not_false_iff_true. intros Hd.
  assert (Hin : b ∈ List.filter (fun b => negb (is_deleting (ab_meta b)))
    (List.filter (fun b => String.eqb (abs_certificate_ref (ab_spec b)) (ac_name ac0)) bs)).
  { rewrite list_elem_of_In, !filter_In, <-list_elem_of_In, Hd, Hr, String.eqb_refl. done. }
  rewrite He in Hin. by apply elem_of_nil in Hin.
Qed.

Lemma since_report_mono h h' (e : event) : only_since is_report h h' -> e ∈ h -> e ∈ h'.
Proof. apply only_since_elem. Qed.

Context `{KL : KubeLibLaws}.

Definition delete_order : policy := fun h o =>
  match o with
  | OCASDelete _ _ _ => unbound h
  | ODeleteCert _ => unbound h /\ settled h
  | ODeleteSecret s => unbound h /\ settled h /\ cert_gone h /\ secretOwnedByUs s ac0 = true
  | OUpdateAC a =>
      unbound h /\ settled h /\ cert_gone h /\ ContainsFinalizer (ac_meta a) FinalizerName = false
  | OCASUpload _ _ _ _ _ | OCreateOrUpdateCert _ _ | OUpdateCustomDomain _ _ _
  | OPutCnameCert _ _ _ _ | ODeleteCnameCert _ _ _ | OUpdateBinding _ => False
  | _ => True
  end.

Lemma report_ok h o : is_report o -> delete_order h o.
Proof. by destruct o. Qed.

Lemma delete_blocked_wp orig h :
  twp api_identity delete_order h (delete_blocked ac0 orig) (fun res h' =>
    match res with inr _ => unbound h' | inl _ => True end).
Proof.
  unfold delete_blocked, liveBindingsFor. repeat twp_step. destruct r0 as [e|bs]; cbn [twp bind]; [done|].
  destruct (activeBindingNames _) as [|n l] eqn:Ea.
  - cbn. exists bs. split; [by left|]. by eapply is_deleting_active.
  - unfold Event, patch_and_return. repeat twp_step.
    apply patchStatus_wp; [apply report_ok|done|done].
Qed.

Lemma delete_started_wp ac orig h :
  same_object (ac_meta ac0) (ac_meta ac) -> unbound h ->
  as_cleanup_started (ac_status ac) = as_cleanup_started (ac_status ac0) ->
  twp api_identity delete_order h (delete_started ac orig) (fun res h' =>
    match res with
    | inr (ac', _) => same_object (ac_meta ac0) (ac_meta ac') /\ unbound h' /\
        (forall t, as_cleanup_started (ac_status ac') = Some t -> started_at h' t)
    | inl _ => True end).
Proof.
  intros Hs Hu Ht. unfold delete_started. destruct (as_cleanup_started (ac_status ac)) eqn:E.
  - cbn. split; [done|]. split; [done|]. intros t Ht'. left. congruence.
  - repeat twp_step. apply patchStatus_wp; [apply report_ok|done|].
    intros h1 [e|ac'] Hsince Henv; cbn [twp]; [done|]. split; [by transitivity (ac_meta ac)|]. split.
    + eapply unbound_mono; [|exact Hu]. intros e He. right. eapply since_report_mono; [done|by right].
    + intros t' Ht'. right. eexists _, _, ac'. split; [by left|done].
Qed.

Lemma cleanup_frame_meta a a' : cleanup_frame a = cleanup_frame a' ->
  ac_meta a = ac_meta a' /\ as_cleanup_started (ac_status a) = as_cleanup_started (ac_status a').
Proof.
  intros H. split; [exact (f_equal ac_meta H)|exact (f_equal (fun x => as_cleanup_started (ac_status x)) H)].
Qed.

Lemma delete_cas_wp `{!CASFactoryOk r} ac orig h :
  same_object (ac_meta ac0) (ac_meta ac) -> unbound h ->
  (forall t, as_cleanup_started (ac_status ac) = Some t -> started_at h t) ->
  twp api_identity delete_order h (delete_cas r ac orig) (fun res h' =>
    match res with
    | inr ac' => same_object (ac_meta ac0) (ac_meta ac') /\ unbound h' /\ settled h'
    | inl _ => True end).
Proof.
  intros Hs Hu Ht. unfold delete_cas. twp_step.
  eapply twp_post; [apply (twp_under (cleanup_call ac) _ _ _ _ _ (cleanupCAS_wp ac r h))|].
  { intros h' o Hsince Ho. assert (unbound h') by (eapply unbound_mono; [intros e; by apply (only_since_elem _ _ _ e Hsince)|done]).
    destruct o; try done; cbn in Ho; tauto. }
  intros [err ac1] h1 [(Hf & _ & Hc) Hsince]. cbn [fst snd] in Hf, Hc.
  apply cleanup_frame_meta in Hf as [Hm Hst].
  assert (Hmono : forall e, e ∈ h -> e ∈ h1) by (intros e; by apply (only_since_elem _ _ _ e Hsince)).
  assert (Hfinal : forall h2, (forall e, e ∈ h1 -> e ∈ h2) ->
    (remainingCertIDs ac1 = [] /\ as_pending (ac_status ac1) = None) \/ abandoned h2 ->
    twp api_identity delete_order h2 (let! patched := patchStatus ac1 orig in
      Ret match patched with inl e => inl (0%Z, Some e) | inr ac => inr ac end) (fun res h' =>
      match res with inr ac' => same_object (ac_meta ac0) (ac_meta ac') /\ unbound h' /\ settled h' | inl _ => True end)).
  { intros h2 Hh2 Hor. twp_step. apply patchStatus_wp; [apply report_ok|done|].
    intros h3 [e|ac2] Hs3 Henv; cbn [twp]; [done|]. cbn in Henv. rewrite Hm in Henv.
    assert (Hh3 : forall e, e ∈ h2 -> e ∈ Ev (OPatchACStatus ac1 orig) (inr ac2) :: h3).
    { intros e He. right. by eapply since_report_mono. }
    split; [by transitivity (ac_meta ac)|]. split; [eapply unbound_mono; [|exact Hu]; auto|].
    exists ac1. split; [done|]. destruct Hor as [|Ha]; [by left|right]. by eapply abandoned_mono. }
  destruct err as [e|]; [|cbn [bind]; by apply Hfinal; [|left; apply Hc]].
  twp_step. repeat twp_step. destruct (as_cleanup_started (ac_status ac1)) as [t|] eqn:Et; [|done].
  destruct (shouldAbandonCleanup _ _ _) eqn:Ea; cbn [negb].
  - unfold Event. repeat twp_step. apply (proj1 (twp_bind _ _ _ _ _ _)). apply Hfinal; [set_solver|]. right. unfold shouldAbandonCleanup in Ea.
    apply andb_true_iff in Ea as [Ep Eg]. split; [by apply String.eqb_neq, negb_true_iff|].
    exists t, r0. split; [|split; [set_solver|by apply Z.leb_le]].
    eapply started_at_mono; [|apply Ht; congruence]. set_solver.
  - twp_step. apply patchStatus_wp; [apply report_ok|done|done].
Qed.

Lemma delete_certificate_wp ac h :
  same_object (ac_meta ac0) (ac_meta ac) -> unbound h -> settled h ->
  twp api_identity delete_order h (delete_certificate ac) (fun res h' =>
    match res with inr _ => unbound h' /\ settled h' /\ cert_gone h' | inl _ => True end).
Proof.
  intros (Hns & Hn & _) Hu Hs. unfold delete_certificate. repeat twp_step.
  destruct r0 as [e|cert]; cbn [twp].
  - destruct (IsNotFound e) eqn:En; [|done]. split; [eapply unbound_mono; [|exact Hu]; set_solver|].
    split; [by apply settled_step|]. exists e. split; [|done].
    unfold certManagerNameFor, ac_namespace, ac_name. rewrite Hns, Hn. by left.
  - destruct (is_deleting (cert_meta cert)); [done|]. repeat twp_step.
    + split; [eapply unbound_mono; [|exact Hu]; set_solver|by apply settled_step].
    + by destruct (IgnoreNotFound _).
Qed.

Lemma delete_secret_wp ac h :
  same_object (ac_meta ac0) (ac_meta ac) -> unbound h -> settled h -> cert_gone h ->
  twp api_identity delete_order h (delete_secret ac) (fun res h' =>
    match res with inr _ => unbound h' /\ settled h' /\ cert_gone h' | inl _ => True end).
Proof.
  intros (_ & Hn & _) Hu Hs Hg. unfold delete_secret. repeat twp_step.
  assert (Hg' : forall o x h, cert_gone h -> cert_gone (Ev o x :: h)).
  { intros o x h' (e & He & Hf). exists e. split; [by right|done]. }
  assert (Hu' : forall o x h, unbound h -> unbound (Ev o x :: h)).
  { intros o x h'. apply unbound_mono. set_solver. }
  destruct r0 as [e|s]; cbn [twp].
  - destruct (IsNotFound e); [|done]. auto using settled_step.
  - destruct (secretOwnedByUs s ac) eqn:Eo; repeat twp_step; auto 6 using settled_step.
    + split; [auto|]. split; [auto using settled_step|]. split; [auto|].
      unfold secretOwnedByUs, certManagerNameFor, ac_name in *. by rewrite Hn.
    + destruct (IgnoreNotFound _); [done|]. auto 6 using settled_step.
Qed.

Lemma delete_finalizer_wp ac sk h :
  unbound h -> settled h -> cert_gone h ->
  twp api_identity delete_order h (delete_finalizer ac sk) (fun _ _ => True).
Proof.
  intros Hu Hs Hg. unfold delete_finalizer. repeat twp_step.
  { split; [done|]. split; [done|]. split; [done|]. apply finalizer_removed. }
  destruct (IgnoreNotFound _); [done|]. twp_step.
  eapply twp_post; [apply (all_calls_twp is_report); [|apply report_ok]|].
  { destruct r0; [done|]. destruct (negb _); by repeat split. }
  intros ? h' _. unfold clearCertMetrics. by repeat twp_step.
Qed.

Lemma reconcileDelete_wp `{!CASFactoryOk r} orig h :
  twp api_identity delete_order h (reconcileDelete r ac0 orig) (fun _ _ => True).
Proof.
  unfold reconcileDelete. destruct (negb _); [done|]. twp_step.
  eapply twp_post; [apply delete_blocked_wp|]. intros [res|[]] h1 H1; [done|]. twp_step.
  eapply twp_post; [by apply delete_started_wp|]. intros [res|[ac1 orig1]] h2 H2; [done|].
  destruct H2 as (Hs & Hu & Ht). twp_step.
  eapply twp_post; [by apply delete_cas_wp|]. intros [res|ac2] h3 H3; [done|].
  destruct H3 as (Hs3 & Hu3 & Hc3). twp_step.
  eapply twp_post; [by apply delete_certificate_wp|]. intros [res|[]] h4 H4; [done|].
  destruct H4 as (Hu4 & Hc4 & Hg4). twp_step.
  eapply twp_post; [by apply delete_secret_wp|]. intros [res|sk] h5 H5; [done|].
  destruct H5 as (Hu5 & Hc5 & Hg5). by apply delete_finalizer_wp.
Qed.

End order.

(** ** Properties *)

(** The CAS cleanup of a deletion loses no certificate: a certId disappears
    from the status only when CAS confirmed its deletion in this run (or said it is
    not there); nothing else of the object changes; only certificates the status
    records, or that CAS lists under the pending record's name, are deleted; and
    success leaves neither a certId nor a pending record behind. *)
Theorem cleanupCAS_spec (r : CertReconciler) `{!CASFactoryOk r} (ac : AliyunCertificate) (h : history) :
  twp any_env (fun _ o => cleanup_call ac o) h (cleanupCAS r ac) (cleaned ac).
Proof. by apply cleanupCAS_wp. Qed.

(** the second deletion fails: the first certId is gone, the other is kept *)
Lemma cleanupCAS_spec_witness :
  let w : handler unit := fun _ o => match o return resp o * unit with
    | OCASDelete _ id _ => (if (id =? 2)%Z then None else Some (EText "denied"), tt)
    | o => (failed_resp o, tt) end in
  let run := exec w tt [] (cleanupCAS sample_reconciler sample_old) in
  remainingCertIDs run.1.1.2 = [3; 1]%Z /\ cleaned sample_old run.1.1 run.1.2.
Proof.
  intros w run. split; [vm_compute; reflexivity|].
  exact (twp_exec_any w _ [] tt _ _ (cleanupCAS_spec sample_reconciler sample_old [])).
Defined.

(** C13: the order of a deletion.  In every run of the deletion branch, also one
    that crashes midway: CAS certificates are deleted only once the API server
    listed no live binding of the certificate; the Certificate only after the
    persisted status names no CAS certificate any more, or the grace period ran out
    under a policy that permits giving up; the Secret only after the API server said
    the Certificate is gone, and only if it is annotated as ours; the finalizer last,
    under all of these.  Nothing is uploaded or created. *)
Theorem deletion_order `{KL : KubeLibLaws} (r : CertReconciler) `{!CASFactoryOk r}
    (ac orig : AliyunCertificate) (h : history) :
  twp api_identity (delete_order r ac) h (reconcileDelete r ac orig) (fun _ _ => True).
Proof. by apply reconcileDelete_wp. Qed.

(** a deletion that runs to its end: the last call on the cluster is the finalizer's *)
Definition deletion_world : handler unit := fun _ o =>
  match o return resp o * unit with
  | OListBindingsLive _ => (inr [], tt)
  | OCASDelete _ _ _ => (None, tt)
  | OPatchACStatus ac _ | OUpdateAC ac => (inr ac, tt)
  | OGetCert _ _ => (inl (EKube true "gone"), tt)
  | OGetSecret _ _ => (inr (sample_secret "site-tls" "leaf"), tt)
  | ODeleteSecret _ => (None, tt)
  | o => (failed_resp o, tt)
  end.

Lemma deletion_order_witness :
  let K := ref_kube 0 in
  let run := exec deletion_world tt [] (reconcileDelete sample_reconciler sample_old sample_old) in
  run.1.1 = (0%Z, None) /\
  length (List.filter (fun e => match ev_op e with OUpdateAC _ | ODeleteSecret _ | OCASDelete _ _ _ => true | _ => false end)
            run.1.2) = 5 /\
  all_allowed (delete_order sample_reconciler sample_old) run.1.2.
Proof.
  intros K run. split; [vm_compute; reflexivity|]. split; [vm_compute; reflexivity|].
  assert (HE : forall s h o, api_identity h o (deletion_world s o).1).
  { intros s h []; try exact I; repeat split. }
  exact (twp_exec_allowed deletion_world _ _ tt _ _ HE
    (@deletion_order (ref_kube 0) (ref_kube_laws 0) sample_reconciler _ sample_old sample_old [])).
Defined.

(** the grace period has passed and status patches go through *)
Definition grace_passed (grace : duration) (t : gotime) : environment := fun _ o x =>
  match o return resp o -> Prop with
  | ONow => fun now => (grace <= time_sub now t)%Z
  | OPatchACStatus _ _ => fun x => exists a, x = inr a
  | _ => fun _ => True
  end x.

(** C22: a deletion cannot be blocked forever by the cloud: under any policy but
    Block, once the grace period since the recorded start has passed, the CAS step
    of the deletion proceeds, whatever CAS and the credentials Secret answer. *)
Theorem cleanup_bounded `{K : KubeLib} (r : CertReconciler) `{!CASFactoryOk r} (ac orig : AliyunCertificate)
    (t : gotime) (h : history) :
  as_cleanup_started (ac_status ac) = Some t -> r_cleanup_failure_policy r <> CleanupPolicyBlock ->
  twp (grace_passed (r_cleanup_grace_period r) t) any_call h (delete_cas r ac orig)
    (fun res _ => exists a, res = inr a).
Proof.
  intros Ht Hp. unfold delete_cas. twp_step.
  eapply twp_post; [apply (twp_under (cleanup_call ac) _ _ _ _ _ (cleanupCAS_wp ac r h)); done|].
  intros [err ac1] h1 [(Hf & _) _]. apply cleanup_frame_meta in Hf as [_ Hst]. cbn [snd] in Hst.
  assert (Hfin : forall h', twp (grace_passed (r_cleanup_grace_period r) t) any_call h'
    (let! patched := patchStatus ac1 orig in
      Ret match patched with inl e => inl (0%Z, Some e) | inr ac => inr ac end) (fun res _ => exists a : AliyunCertificate, res = inr a)).
  { intros h'. twp_step. apply patchStatus_wp; [done|done|]. intros h2 x _ [a ->]. by exists a. }
  destruct err as [e|]; [|apply Hfin]. repeat twp_step. rewrite Hst, Ht.
  assert (Ha : shouldAbandonCleanup (r_cleanup_failure_policy r) (time_sub r0 t) (r_cleanup_grace_period r) = true).
  { unfold shouldAbandonCleanup. apply andb_true_iff. split; [by apply negb_true_iff, String.eqb_neq|by apply Z.leb_le]. }
  rewrite Ha. cbn [negb]. unfold Event. repeat twp_step. apply (proj1 (twp_bind _ _ _ _ _ _)), Hfin.
Qed.

Lemma cleanup_bounded_witness :
  let w : handler unit := fun _ o => match o return resp o * unit with
    | OPatchACStatus ac _ => (inr ac, tt) | ONow => ((2 * hour)%Z, tt) | o => (failed_resp o, tt) end in
  let ac := on_status (set_as_cleanup_started (Some 0%Z)) sample_old in
  exists a, (exec w tt [] (@delete_cas (ref_kube 0) sample_reconciler ac ac)).1.1 = inr a.
Proof.
  intros w ac.
  assert (HE : forall s h o, grace_passed (r_cleanup_grace_period sample_reconciler) 0 h o (w s o).1).
  { intros s h []; try exact I; [by eexists|]. vm_compute. by intros [=]. }
  exact (twp_exec_env w _ _ [] tt _ _ HE
    (@cleanup_bounded (ref_kube 0) sample_reconciler _ ac ac 0%Z [] eq_refl ltac:(done))).
Defined.
