(* ===== verification/CleanupWorld.v ===== *)
(** * Cleaning up the cloud

    The attempts of the certificate controller to remove the certificates of a deleted
    object from CAS, run against the in-memory CAS with its faults: what is left of
    them, and of the certificates of others. *)
From S2P Require Import Prelude GoString GoTime Api GoError Cloud KubeLib Effects FakeCAS FakeFC3 FakeOSS FakeCloud.
From S2P Require Import Naming Tokens Bundle Issuer CertStatus Samples CertUpload UploadWorld CertRetention CertDeletion.

#[local] Open Scope prog_scope.

(** ** Definitions *)

(** CAS answers NotFound for certificates only that are not there *)
Definition honest (s : FakeCAS.CAS) : Prop := Forall (fun e => is_not_found e = false) (FakeCAS.deleteErrs s).
Definition no_faults (s : FakeCAS.CAS) : Prop := FakeCAS.deleteErrs s = [] /\ FakeCAS.findErrs s = [].

(** from [s] to [s'] only certificates of which [mine] holds were removed, and nothing
    was added *)
Record shrunk (mine : Z -> FakeCAS.Cert -> Prop) (s s' : FakeCAS.CAS) : Prop := {
  sh_wf : FakeCAS.wf s';
  sh_honest : honest s';
  sh_faults : no_faults s -> no_faults s';
  sh_less : FakeCAS.certs s' ⊆ FakeCAS.certs s;
  sh_others id x : FakeCAS.certs s !! id = Some x -> ~ mine id x -> FakeCAS.certs s' !! id = Some x
}.

(** the certificates an object accounts for: by certId, or by the name of its pending
    upload *)
Definition mine_of (ac : AliyunCertificate) (id : Z) (x : FakeCAS.Cert) : Prop :=
  id ∈ remainingCertIDs ac \/ exists p, as_pending (ac_status ac) = Some p /\ FakeCAS.Name x = pu_cas_name p.

(** the object at a later attempt of its deletion *)
Definition stage_of (ac a : AliyunCertificate) : Prop :=
  remainingCertIDs a ⊆ remainingCertIDs ac /\
  (as_pending (ac_status a) = None \/ as_pending (ac_status a) = as_pending (ac_status ac)).

(** the listing that looks for the pending upload can show it *)
Definition hint_fits (a : AliyunCertificate) (p : PendingUpload) : Prop :=
  casFindHint a "" = "" \/ contains (pu_cas_name p) (FakeCAS.sanitizeHint (casFindHint a "")) = true.

Definition absent (id : Z) (s : FakeCAS.CAS) : Prop := FakeCAS.certs s !! id = None.

Section defs.
  Context (r : CertReconciler).

Fixpoint cleanup_attempts (l : list AliyunCertificate) : prog (list (option goerr * AliyunCertificate)) :=
  match l with
  | [] => Ret []
  | a :: l =>
      let! res := cleanupCAS r a in
      let! rest := cleanup_attempts l in
      Ret (res :: rest)
  end.

(** what one attempt achieved, seen in a later state of CAS *)
Record cleaned_in (s : FakeCAS.CAS) (calm : Prop) (a : AliyunCertificate) (res : option goerr * AliyunCertificate) : Prop := {
  ci_stage : stage_of a res.2;
  ci_left id : id ∈ remainingCertIDs a -> id ∉ remainingCertIDs res.2 -> absent id s;
  ci_done : res.1 = None -> remainingCertIDs res.2 = [] /\ as_pending (ac_status res.2) = None;
  ci_pending p : res.1 = None -> as_pending (ac_status a) = Some p -> hint_fits a p ->
    FakeCAS.name_taken (pu_cas_name p) (FakeCAS.certs s) = false;
  ci_calm : calm -> returns (fun c => exists cas, c = inr cas) (casClient r a) -> res.1 = None
}.

End defs.

(** ** Lemmas *)

(** the certIds [ids] were reduced to [ids'], each that left after it left CAS *)
Record emptied (mine : Z -> FakeCAS.Cert -> Prop) (s s' : FakeCAS.CAS) (err : option goerr) (ids ids' : list Z) : Prop := {
  em_shrunk : shrunk mine s s';
  em_less : ids' ⊆ ids;
  em_left id : id ∈ ids -> id ∉ ids' -> absent id s';
  em_done : err = None -> ids' = [];
  em_calm : no_faults s -> err = None
}.

Lemma shrunk_refl mine s : FakeCAS.wf s -> honest s -> shrunk mine s s.
Proof. by split. Qed.

Lemma shrunk_mono (mine mine' : Z -> FakeCAS.Cert -> Prop) s s' :
  (forall id x, mine id x -> mine' id x) -> shrunk mine s s' -> shrunk mine' s s'.
Proof. intros H [? ? ? ? Ho]. split; try done. intros id x Hx Hn. apply Ho; [done|]. intros Hm. by apply Hn, H. Qed.

Lemma shrunk_trans mine s1 s2 s3 : shrunk mine s1 s2 -> shrunk mine s2 s3 -> shrunk mine s1 s3.
Proof. intros [_ _ Hf1 Hl1 Ho1] [? ? Hf2 Hl2 Ho2]. split; [done|done|auto|by etrans|auto]. Qed.

Lemma shrunk_absent mine s s' id : shrunk mine s s' -> absent id s -> absent id s'.
Proof. intros Hs Ha. eapply lookup_weaken_None; [exact Ha|apply Hs]. Qed.

Lemma shrunk_free mine s s' name : shrunk mine s s' ->
  FakeCAS.name_taken name (FakeCAS.certs s) = false -> FakeCAS.name_taken name (FakeCAS.certs s') = false.
Proof.
  intros Hs Hf. apply not_true_iff_false. rewrite FakeCAS.name_taken_spec. intros (id & x & Hx & Hn).
  apply not_true_iff_false in Hf. apply Hf, FakeCAS.name_taken_spec. exists id, x. split; [|done].
  by eapply lookup_weaken, Hs.
Qed.

Lemma cleaned_later r mine s s' calm a res : shrunk mine s s' -> cleaned_in r s calm a res -> cleaned_in r s' calm a res.
Proof.
  intros Hs [H1 H2 H3 H4 H5]. split; try done.
  - intros id Hi Hn. eapply shrunk_absent; [exact Hs|]. by apply H2.
  - intros p He Hp Hh. eapply shrunk_free; [exact Hs|]. by eapply H4.
Qed.

Lemma emptied_nil mine s : FakeCAS.wf s -> honest s -> emptied mine s s None [] [].
Proof. intros Hwf Hh. split; [by apply shrunk_refl|done|by intros ? ?%elem_of_nil|done..]. Qed.

Lemma emptied_stop mine s1 s2 e ids ids' rest :
  emptied mine s1 s2 (Some e) ids ids' -> emptied mine s1 s2 (Some e) (ids ++ rest) (ids' ++ rest).
Proof.
  intros [? Hl Ha _ Hc]. split; [done| | |done|done].
  - intros id. rewrite !elem_of_app. intros [?|?]; [left; by apply Hl|by right].
  - intros id. rewrite !elem_of_app. intros [Hi|Hi] Hn; [apply Ha; tauto|tauto].
Qed.

Lemma emptied_app mine s1 s2 s3 err ids1 ids2 ids2' :
  emptied mine s1 s2 None ids1 [] -> emptied mine s2 s3 err ids2 ids2' -> emptied mine s1 s3 err (ids1 ++ ids2) ids2'.
Proof.
  intros [Hs1 _ Ha1 _ _] [Hs2 Hl2 Ha2 Hd2 Hc2]. split.
  - by eapply shrunk_trans.
  - intros id Hi. apply elem_of_app. right. by apply Hl2.
  - intros id Hi Hn. apply elem_of_app in Hi as [Hi|Hi]; [|by apply Ha2]. eapply shrunk_absent; [exact Hs2|]. apply Ha1; [done|by apply not_elem_of_nil].
  - done.
  - intros Hf. apply Hc2, Hs1, Hf.
Qed.

(** only membership counts *)
Lemma emptied_equiv mine s s' err ids ids' jds jds' :
  (forall id, id ∈ ids <-> id ∈ jds) -> (forall id, id ∈ ids' <-> id ∈ jds') ->
  emptied mine s s' err ids ids' -> emptied mine s s' err jds jds'.
Proof.
  intros H1 H2 [? Hl Ha Hd Hc]. split; [done| | | |done].
  - intros id. rewrite <-H1, <-H2. apply Hl.
  - intros id. rewrite <-H1, <-H2. apply Ha.
  - intros He. specialize (Hd He). subst ids'. destruct jds' as [|j l]; [done|]. exfalso. apply (not_elem_of_nil j), H2. by left.
Qed.

Section world.
  Context (visit : gmap Z FakeCAS.Cert -> list FakeCAS.Cert) (Hvisit : FakeCAS.visits visit) (c0 : cloud).

#[local] Abbreviation cas_at := (cas_after visit c0).

Lemma env_delete h cas id t x : fake_env visit c0 h (OCASDelete cas id t) x ->
  x = (FakeCAS.Delete id t (cas_at h)).1 /\ cas_at (Ev (OCASDelete cas id t) x :: h) = (FakeCAS.Delete id t (cas_at h)).2.
Proof. unfold fake_env, cas_after. cbn. unfold cloud_next. cbn. by destruct (FakeCAS.Delete _ _ _). Qed.

(** a deletion that is reported as done, or not needed, is done *)
Lemma delete_shrunk id t s (mine : Z -> FakeCAS.Cert -> Prop) :
  FakeCAS.wf s -> honest s -> (forall x, FakeCAS.certs s !! id = Some x -> mine id x) ->
  let r := (FakeCAS.Delete id t s).1 in let s' := (FakeCAS.Delete id t s).2 in
  shrunk mine s s' /\ (r = None \/ is_not_found r = true -> absent id s') /\
  (no_faults s -> r = None \/ is_not_found r = true).
Proof.
  intros Hwf Hh Hm. cbn zeta. destruct (FakeCAS.Delete_outcome id t s) as (Eq & Ef & Hr).
  assert (Hh' : honest (FakeCAS.Delete id t s).2).
  { unfold honest in *. rewrite Eq. destruct (FakeCAS.deleteErrs s); [done|]. by apply Forall_cons in Hh as [_ Hh]. }
  assert (Hf' : no_faults s -> no_faults (FakeCAS.Delete id t s).2).
  { intros [E1 E2]. split; [by rewrite Eq, E1|by rewrite Ef]. }
  pose proof (FakeCAS.Delete_wf id t s Hwf) as Hwf'. destruct Hr as [(e & q & Eq0 & -> & Ec)|(_ & Hr & Ec)].
  - split; [|split].
    + split; try done; rewrite Ec; [done|by auto].
    + intros [?|Hn]; [done|]. unfold honest in Hh. rewrite Eq0 in Hh. apply Forall_cons in Hh as [Hh _]. congruence.
    + intros [E _]. congruence.
  - split; [|split].
    + split; try done; rewrite Ec; [apply delete_subseteq|]. intros i x Hx Hn.
      rewrite lookup_delete_ne; [done|]. intros <-. by apply Hn, Hm.
    + intros _. unfold absent. by rewrite Ec, lookup_delete_eq.
    + intros _. destruct Hr as [->| ->]; [by left|by right].
Qed.

Lemma find_shrunk hint s mine : FakeCAS.wf s -> honest s -> shrunk mine s (FakeCAS.FindUploaded visit hint s).2.
Proof.
  intros Hwf Hh. destruct (FakeCAS.Find_same visit hint s) as (E1 & E2 & E3 & _), (FakeCAS.Find_faults visit hint s) as (E4 & E5 & _).
  split; [by apply (FakeCAS.wf_same s)|unfold honest; by rewrite E4| |by rewrite E1|by rewrite E1].
  intros [F1 F2]. split; [congruence|by rewrite E5, F2].
Qed.

Lemma recordCASDelete_world h err (Q : unit -> history -> Prop) :
  (forall h', cas_at h' = cas_at h -> Q tt h') -> twp (fake_env visit c0) any_call h (recordCASDelete err) Q.
Proof.
  intros HQ. eapply twp_post; [apply (all_calls_twp (fun o => cloud_call o = false)); [|done]|].
  { apply recordCASDelete_calls. done. }
  intros [] h' Hs. by apply HQ, cas_after_since.
Qed.

Lemma del_gen_world cas uid g h mine :
  FakeCAS.wf (cas_at h) -> honest (cas_at h) -> (forall id x, id ∈ gen_ids g -> mine id x) ->
  twp (fake_env visit c0) any_call h (del_gen cas uid g) (fun '(err, g') h' =>
    emptied mine (cas_at h) (cas_at h') err (gen_ids g) (gen_ids g')).
Proof.
  intros Hwf Hh Hm. unfold del_gen. unfold gen_ids at 1 in Hm. destruct (gen_cert_id g) as [id|] eqn:Ei.
  2: { cbn [twp]. unfold gen_ids. rewrite Ei. by apply emptied_nil. }
  twp_step. split; [exact I|]. intros err Herr. apply env_delete in Herr as [Herr Hc]. cbn [twp].
  destruct (delete_shrunk id (deleteToken (ClientToken uid (gen_fingerprint g))) (cas_at h) mine Hwf Hh) as (Hs & Hgone & Hcalm).
  { intros x _. apply Hm. by left. }
  rewrite <-Herr, <-Hc in *. twp_step. apply recordCASDelete_world. intros h' Hh'. rewrite <-Hh' in *.
  assert (Hyes : err = None \/ is_not_found err = true -> emptied mine (cas_at h) (cas_at h') None (gen_ids g) []).
  { intros Hr. unfold gen_ids. rewrite Ei. split; [done|by intros i ?%elem_of_nil| |done|done].
    intros i ->%list_elem_of_singleton _. by apply Hgone. }
  destruct err as [e|]; [cbn in Hyes, Hcalm; destruct (bool_decide (ClassOf e = ClassNotFound)) eqn:En|]; cbn [twp].
  - apply Hyes. by right.
  - split; [done|done|tauto|done|]. intros Hn. by destruct (Hcalm Hn).
  - apply Hyes. by left.
Qed.

Lemma del_gens_world cas uid l h mine :
  FakeCAS.wf (cas_at h) -> honest (cas_at h) -> (forall id x, id ∈ flat_map gen_ids l -> mine id x) ->
  twp (fake_env visit c0) any_call h (del_gens cas uid l) (fun '(err, l') h' =>
    emptied mine (cas_at h) (cas_at h') err (flat_map gen_ids l) (flat_map gen_ids l')).
Proof.
  revert h. induction l as [|g l IH]; intros h Hwf Hh Hm; cbn [del_gens].
  { cbn. by apply emptied_nil. }
  twp_step. eapply twp_post; [apply (del_gen_world cas uid g h mine); [done..|]; intros id x Hid; apply Hm, elem_of_app; by left|].
  intros [[e|] g'] h1 H1; cbn in H1. { cbn. by apply emptied_stop. }
  pose proof (em_done _ _ _ _ _ _ H1 eq_refl) as Hg. rewrite Hg in H1.
  twp_step. eapply twp_post; [apply (IH h1); [apply H1..|]; intros id x Hid; apply Hm, elem_of_app; by right|].
  intros [err l'] h2 H2. cbn [twp flat_map] in *. rewrite Hg. cbn. by eapply emptied_app.
Qed.

(** what became of the pending upload *)
Record pending_settled (mine : Z -> FakeCAS.Cert -> Prop) (s s' : FakeCAS.CAS) (a : AliyunCertificate)
    (res : option goerr * AliyunCertificate) : Prop := {
  ps_shrunk : shrunk mine s s';
  ps_ids : remainingCertIDs res.2 = remainingCertIDs a;
  ps_stage : as_pending (ac_status res.2) = None \/ as_pending (ac_status res.2) = as_pending (ac_status a);
  ps_done : res.1 = None -> as_pending (ac_status res.2) = None;
  ps_free p : res.1 = None -> as_pending (ac_status a) = Some p -> hint_fits a p ->
    FakeCAS.name_taken (pu_cas_name p) (FakeCAS.certs s') = false;
  ps_calm : no_faults s -> res.1 = None
}.

(** looking for a name shows the certificate of this name *)
Lemma found_name a p s l : FakeCAS.wf s -> (FakeCAS.FindUploaded visit (casFindHint a "") s).1 = inr l ->
  match List.find (fun c => String.eqb (sum_name c) (pu_cas_name p)) l with
  | None => hint_fits a p -> FakeCAS.name_taken (pu_cas_name p) (FakeCAS.certs s) = false
  | Some c => exists x, FakeCAS.certs s !! sum_cert_id c = Some x /\ FakeCAS.Name x = pu_cas_name p
  end.
Proof.
  intros Hwf Hl. destruct (List.find _ l) as [c|] eqn:Ef.
  - apply find_some in Ef as [Hin%list_elem_of_In Hn%String.eqb_eq].
    destruct (FakeCAS.Find_shown visit _ s l c Hvisit Hwf Hl Hin) as (x & Hx & Ex). exists x. split; [done|congruence].
  - intros Hh. apply not_true_iff_false. rewrite FakeCAS.name_taken_spec. intros (id & x & Hx & Hn).
    destruct (FakeCAS.Find_complete visit _ s l id x Hvisit Hwf Hl Hx) as (c & Hin%list_elem_of_In & Hc & _).
    { rewrite Hn. exact Hh. }
    apply (find_none _ _ Ef) in Hin. rewrite Hc, Hn, String.eqb_refl in Hin. done.
Qed.

(** a name that only an absent certificate had is free *)
Lemma absent_free mine s s' id x : FakeCAS.wf s -> shrunk mine s s' -> FakeCAS.certs s !! id = Some x -> absent id s' ->
  FakeCAS.name_taken (FakeCAS.Name x) (FakeCAS.certs s') = false.
Proof.
  intros Hwf Hs Hx Ha. apply not_true_iff_false. rewrite FakeCAS.name_taken_spec. intros (i & y & Hy & Hn).
  assert (Hy' : FakeCAS.certs s !! i = Some y) by (eapply lookup_weaken; [exact Hy|apply Hs]).
  rewrite (FakeCAS.wf_name s Hwf i id y x Hy' Hx Hn) in Hy. unfold absent in Ha. congruence.
Qed.

Lemma cleanupPendingUpload_world cas a h (mine : Z -> FakeCAS.Cert -> Prop) :
  FakeCAS.wf (cas_at h) -> honest (cas_at h) ->
  (forall p id x, as_pending (ac_status a) = Some p -> FakeCAS.Name x = pu_cas_name p -> mine id x) ->
  twp (fake_env visit c0) any_call h (cleanupPendingUpload cas a) (fun res h' =>
    pending_settled mine (cas_at h) (cas_at h') a res).
Proof.
  intros Hwf Hh Hm. unfold cleanupPendingUpload. destruct (as_pending (ac_status a)) as [p|] eqn:Ep.
  2: { cbn [twp]. split; [by apply shrunk_refl|done|by left|done|cbn; congruence|done]. }
  twp_step. split; [exact I|]. intros l Hl. apply env_find in Hl as [Hl Hc]. cbn [twp].
  pose proof (find_shrunk (casFindHint a "") (cas_at h) mine Hwf Hh) as Hs. rewrite <-Hc in Hs.
  destruct (FakeCAS.Find_same visit (casFindHint a "") (cas_at h)) as (Ecerts & _). rewrite <-Hc in Ecerts.
  destruct l as [e|l].
  { cbn [twp]. split; [done|done|right; by rewrite Ep|done|done|]. intros [_ F].
    destruct (FakeCAS.Find_faults visit (casFindHint a "") (cas_at h)) as (_ & _ & Hok). destruct (Hok F) as [l Hl']. congruence. }
  set (h1 := Ev (OCASFind cas (casFindHint a "")) (inr l) :: h) in *.
  pose proof (found_name a p (cas_at h) l Hwf (eq_sym Hl)) as Hf. destruct (List.find _ l) as [c|]; cbn [bind].
  2: { cbn [twp]. split; [done|done|by left|done| |done]. intros p' _ Hp'. rewrite Ep in Hp'. injection Hp' as <-. rewrite Ecerts. exact Hf. }
  destruct Hf as (x & Hx & Ex). rewrite <-Ecerts in Hx.
  twp_step. split; [exact I|]. intros err Herr. apply env_delete in Herr as [Herr Hc2]. cbn [twp].
  destruct (delete_shrunk (sum_cert_id c) (deleteToken (pu_client_token p)) (cas_at h1) mine (sh_wf _ _ _ Hs) (sh_honest _ _ _ Hs)) as (Hs2 & Hgone & Hcalm).
  { intros y Hy. apply (Hm p); [done|congruence]. }
  rewrite <-Herr, <-Hc2 in *. cbn [bind]. twp_step. apply recordCASDelete_world. intros h' Hh'. rewrite <-Hh' in *.
  pose proof (shrunk_trans _ _ _ _ Hs Hs2) as Hs3. cbn [twp].
  assert (Hyes : err = None \/ is_not_found err = true -> pending_settled mine (cas_at h) (cas_at h') a (None, on_status (set_as_pending None) a)).
  { intros Hr. split; [done|done|by left|done| |done]. intros p' _ Hp' _. rewrite Ep in Hp'. injection Hp' as <-. rewrite <-Ex.
    apply (absent_free mine (cas_at h1) (cas_at h') (sum_cert_id c)); [apply Hs|done|done|by apply Hgone]. }
  destruct err as [e|]; [|by apply Hyes; left]. destruct (is_not_found (Some e)) eqn:En; [by apply Hyes; right|].
  split; [done|done|by right|done|done|]. intros Hn. destruct (Hcalm (sh_faults _ _ _ Hs Hn)); congruence.
Qed.

(** ** An attempt, and any number of them *)

Context (r : CertReconciler) `{!CASFactoryOk r}.

Lemma cleaned_failed mine s s' a a' e :
  emptied mine s s' (Some e) (remainingCertIDs a) (remainingCertIDs a') -> as_pending (ac_status a') = as_pending (ac_status a) ->
  cleaned_in r s' (no_faults s) a (Some e, a').
Proof.
  intros [? Hl Ha _ Hc] Hp. split; cbn; [split; [done|by right]|done|done|done|]. intros Hn. by specialize (Hc Hn).
Qed.

Lemma cleaned_done mine s s1 s2 a a1 res :
  emptied mine s s1 None (remainingCertIDs a) (remainingCertIDs a1) ->
  as_pending (ac_status a1) = as_pending (ac_status a) -> casFindHint a1 "" = casFindHint a "" ->
  pending_settled mine s1 s2 a1 res -> cleaned_in r s2 (no_faults s) a res.
Proof.
  intros [Hs1 Hl Ha Hd _] Hp Hh [Hs2 Hi Hst Hdn Hf Hc]. specialize (Hd eq_refl). rewrite Hd in *.
  split; [split| | | |].
  - rewrite Hi. by intros id ?%elem_of_nil.
  - destruct Hst as [?|E]; [by left|right]. congruence.
  - intros id Hid _. eapply shrunk_absent; [exact Hs2|]. apply Ha; [done|by apply not_elem_of_nil].
  - auto.
  - intros p He Ep Hfit. apply Hf; [done|congruence|]. unfold hint_fits in *. by rewrite Hh.
  - intros Hn _. apply Hc, Hs1, Hn.
Qed.

(** the certIds of an object, the history first *)
Lemma ids_of a id : id ∈ flat_map gen_ids (as_history (ac_status a)) ++
    (match as_current (ac_status a) with Some c => gen_ids c | None => [] end) <-> id ∈ remainingCertIDs a.
Proof. rewrite remainingCertIDs_eq, !elem_of_app. tauto. Qed.

Lemma casClient_world a h : twp (fake_env visit c0) any_call h (casClient r a) (fun c h' =>
  cas_at h' = cas_at h /\ forall R, returns R (casClient r a) -> R c).
Proof.
  eapply twp_and; [|apply twp_returned]. eapply twp_post.
  - apply (all_calls_twp (fun o => cloud_call o = false)); [|done]. eapply all_calls_mono; [apply client_off_cloud|by apply casClient_calls].
  - intros c h' Hs. by apply cas_after_since.
Qed.


(** the current generation and the pending upload, after the history *)
Lemma cleanup_tail_world cas uid hist' a h h2 mine :
  emptied mine (cas_at h) (cas_at h2) None (flat_map gen_ids (as_history (ac_status a))) (flat_map gen_ids hist') ->
  (forall id x, mine_of a id x -> mine id x) ->
  twp (fake_env visit c0) any_call h2
    (let! '(err, a) :=
       match as_current (ac_status a) with
       | None => Ret (None, with_history hist' a)
       | Some c => let! '(err, c) := del_gen cas uid c in Ret (err, set_current_gen c (with_history hist' a))
       end in
     match err with Some e => Ret (Some e, a) | None => cleanupPendingUpload cas a end) (fun res h' =>
    shrunk mine (cas_at h) (cas_at h') /\ cleaned_in r (cas_at h') (no_faults (cas_at h)) a res).
Proof.
  intros H1 Hm. pose proof (em_done _ _ _ _ _ _ H1 eq_refl) as Hg. rewrite Hg in H1. pose proof (em_shrunk _ _ _ _ _ _ H1) as Hs1.
  assert (Hpend : forall a1 h3, emptied mine (cas_at h) (cas_at h3) None (remainingCertIDs a) (remainingCertIDs a1) ->
    as_pending (ac_status a1) = as_pending (ac_status a) -> casFindHint a1 "" = casFindHint a "" ->
    twp (fake_env visit c0) any_call h3 (cleanupPendingUpload cas a1) (fun res h' =>
      shrunk mine (cas_at h) (cas_at h') /\ cleaned_in r (cas_at h') (no_faults (cas_at h)) a res)).
  { intros a1 h3 H3 Hp Hf. eapply twp_post; [apply (cleanupPendingUpload_world cas a1 h3 mine); [apply H3..|]|].
    - intros p id x Ep Ex. apply Hm. right. exists p. split; [congruence|done].
    - intros res h' Hps. split; [by eapply shrunk_trans; [apply H3|apply Hps]|]. by eapply cleaned_done. }
  destruct (as_current (ac_status a)) as [c|] eqn:Ec.
  - twp_step. twp_step. eapply twp_post; [apply (del_gen_world cas uid c h2 mine); [apply Hs1..|]|].
    { intros id x Hid. apply Hm. left. apply ids_of, elem_of_app. right. by rewrite Ec. }
    intros [err c'] h3 H2. cbn [twp].
    assert (H3 : emptied mine (cas_at h) (cas_at h3) err (remainingCertIDs a) (remainingCertIDs (set_current_gen c' (with_history hist' a)))).
    { apply (emptied_equiv _ _ _ _ _ (gen_ids c') _ _ (fun id => ids_of a id)).
      - intros id. rewrite remainingCertIDs_eq. cbn. by rewrite Hg, app_nil_r.
      - rewrite Ec. by eapply emptied_app; [exact H1|exact H2]. }
    destruct err as [e|]; [|by apply Hpend]. cbn [twp]. split; [apply H3|]. by eapply cleaned_failed.
  - cbn [bind]. apply Hpend; [|done..].
    apply (emptied_equiv _ _ _ _ _ [] _ _ (fun id => ids_of a id)).
    + intros id. rewrite remainingCertIDs_eq. cbn. by rewrite Ec, Hg.
    + by rewrite Ec, app_nil_r.
Qed.

Lemma cleanupCAS_world a h (mine : Z -> FakeCAS.Cert -> Prop) :
  FakeCAS.wf (cas_at h) -> honest (cas_at h) -> (forall id x, mine_of a id x -> mine id x) ->
  twp (fake_env visit c0) any_call h (cleanupCAS r a) (fun res h' =>
    shrunk mine (cas_at h) (cas_at h') /\ cleaned_in r (cas_at h') (no_faults (cas_at h)) a res).
Proof.
  intros Hwf Hh Hm. unfold cleanupCAS.
  destruct (remainingCertIDs a) as [|id0 ids] eqn:Er, (as_pending (ac_status a)) as [p|] eqn:Ep.
  2: { cbn [twp]. split; [by apply shrunk_refl|]. split; cbn [fst snd]; [by split; [|left]|tauto|done|congruence|done]. }
  all: twp_step; eapply twp_post; [apply casClient_world|]; intros [e|cas] h1 [E HR]; rewrite <-E in *.
  1, 3, 5: cbn [twp]; split; [by apply shrunk_refl|]; split; [by split; [|right]|cbn; tauto|done|done|];
    intros _ HP; destruct (HR _ HP) as [? ?]; done.
  all: cbv zeta; twp_step; eapply twp_post; [apply (del_gens_world cas _ _ h1 mine); [done..|]|].
  1, 3, 5: intros id x Hid; apply Hm; left; apply ids_of, elem_of_app; by left.
  all: intros [[e|] hist'] h2 H1; cbn beta iota in H1; [|exact (cleanup_tail_world cas (om_uid (ac_meta a)) hist' a h1 h2 mine H1 Hm)].
  all: cbn [twp]; split; [apply H1|]; eapply (cleaned_failed mine); [|done].
  all: apply (emptied_equiv _ _ _ _ _ _ _ _ (fun id => ids_of a id) (fun id => ids_of (with_history hist' a) id)).
  all: by apply emptied_stop.
Qed.

Lemma stage_trans a1 a2 a3 : stage_of a1 a2 -> stage_of a2 a3 -> stage_of a1 a3.
Proof.
  intros [H1 H2] [H3 H4]. split; [by etrans|]. destruct H4 as [?|E]; [by left|]. rewrite E. exact H2.
Qed.

Lemma mine_stage ac a id x : stage_of ac a -> mine_of a id x -> mine_of ac id x.
Proof.
  intros [H1 H2] [Hid|(p & Ep & En)]; [left; by apply H1|right]. destruct H2 as [E|E]; [congruence|]. exists p. split; [congruence|done].
Qed.

Lemma cleanup_attempts_world ac l h :
  Forall (stage_of ac) l -> FakeCAS.wf (cas_at h) -> honest (cas_at h) ->
  twp (fake_env visit c0) any_call h (cleanup_attempts r l) (fun rs h' =>
    shrunk (mine_of ac) (cas_at h) (cas_at h') /\
    Forall2 (cleaned_in r (cas_at h') (no_faults (cas_at h))) l rs).
Proof.
  intros Hl. revert h. induction Hl as [|a l Ha _ IH]; intros h Hwf Hh; cbn [cleanup_attempts].
  { cbn [twp]. split; [by apply shrunk_refl|done]. }
  twp_step. eapply twp_post; [apply (cleanupCAS_world a h (mine_of ac)); [done..|]; intros id x; by apply mine_stage|].
  intros res h1 [Hs1 H1]. twp_step. eapply twp_post; [apply IH; apply Hs1|]. intros rs h2 [Hs2 H2]. cbn [twp].
  split; [by eapply shrunk_trans|]. constructor; [by eapply cleaned_later|].
  eapply Forall2_impl; [exact H2|]. intros a' res' [? ? ? ? Hc]. split; try done. intros Hn. apply Hc, Hs1, Hn.
Qed.

End world.

(** ** Properties *)

(** C14: The clean-up of a deleted object empties CAS of its certificates and of no
    others.  Against CAS as the repository describes it, with errors at any call as
    long as NotFound is not claimed of a certificate that is there, and for any number
    of attempts, each with what the previous ones left in the status or with an older
    copy of it: only certificates the object records, or of the name of its pending
    upload, are removed, and nothing is added; a certId leaves the status only when its
    certificate is gone from CAS for good; an attempt that succeeds leaves neither a
    certId nor a pending record, and no certificate of the pending name that the
    search by its domain can show; and on a CAS without faults every attempt that gets
    a client succeeds. *)
Theorem deletion_empties_cas (visit : gmap Z FakeCAS.Cert -> list FakeCAS.Cert) (r : CertReconciler) `{!CASFactoryOk r}
    (ac : AliyunCertificate) (c0 : cloud) (l : list AliyunCertificate) :
  FakeCAS.visits visit -> FakeCAS.wf (cl_cas c0) -> honest (cl_cas c0) -> Forall (stage_of ac) l ->
  twp (fake_env visit c0) any_call [] (cleanup_attempts r l) (fun rs h =>
    let s := cl_cas c0 in let s' := cas_after visit c0 h in
    shrunk (mine_of ac) s s' /\ Forall2 (cleaned_in r s' (no_faults s)) l rs).
Proof. intros Hv Hwf Hh Hl. by apply (cleanup_attempts_world visit Hv c0 r ac l []). Qed.

(** two generations, a lost upload and a certificate of somebody else; the first
    deletion fails once *)
Definition littered : FakeCAS.CAS :=
  FakeCAS.run (fun m => (map_to_list m).*2) FakeCAS.NewCAS
    [FakeCAS.MUpload "site_1" "c" "k" "t1"; FakeCAS.MUpload "site_2" "c" "k" "t2"; FakeCAS.MUpload "other" "c" "k" "t3";
     FakeCAS.MUpload "site_3" "c" "k" "t4"; FakeCAS.MQueueDeleteErr (Some EDeadline)].
Definition littering_ac : AliyunCertificate :=
  on_status (fun s => set_as_current (Some (mkGeneration "f2" (Some 1002%Z) "site_2" 0 0 5))
    (set_as_history [mkGeneration "f1" (Some 1001%Z) "site_1" 0 0 5]
    (set_as_pending (Some (mkPendingUpload "site_3" "site_3" "t4" 0 "site.example.com")) s))) sample_ac.

Lemma deletion_empties_cas_witness :
  let visit m := (map_to_list m).*2 in
  let c0 := mkCloud littered FakeFC3.NewFC3 FakeOSS.NewOSS in
  let w : handler unit := fun _ o => (failed_resp o, tt) in
  let run := exec (fake_world visit w) (c0, tt) [] (cleanup_attempts sample_reconciler [littering_ac; littering_ac]) in
  (fun res => (remainingCertIDs res.2, as_pending (ac_status res.2))) <$> run.1.1 =
    [([1002; 1001]%Z, as_pending (ac_status littering_ac)); ([], None)] /\
  FakeCAS.Name <$> FakeCAS.Certs visit (cl_cas run.2.1) = ["other"] /\
  shrunk (mine_of littering_ac) littered (cl_cas run.2.1).
Proof.
  intros visit c0 w run. split; [vm_compute; reflexivity|]. split; [vm_compute; reflexivity|].
  assert (Hwf : FakeCAS.wf littered).
  { apply FakeCAS.run_wf; [apply FakeCAS.NewCAS_wf|vm_compute; intros H; discriminate H]. }
  assert (Hh : honest littered) by (vm_compute; repeat constructor).
  assert (Hl : Forall (stage_of littering_ac) [littering_ac; littering_ac]).
  { apply Forall_forall. intros a Ha. assert (a = littering_ac) as -> by (apply elem_of_cons in Ha as [?|Ha]; [done|by apply list_elem_of_singleton]).
    split; [done|by right]. }
  pose proof (fake_world_env visit w c0 tt _ _ _
    (deletion_empties_cas visit sample_reconciler littering_ac c0 [littering_ac; littering_ac] (fun m => Permutation_refl _) Hwf Hh Hl)) as H.
  unfold run. destruct (exec _ _ _ _) as [[rs h] s']. cbn. destruct H as [[Hs _] ->]. exact Hs.
Defined.
