(* ===== verification/CertController.v ===== *)
(** * The certificate controller (internal/controller/aliyuncertificate_controller.go)

    [Reconcile] and its steps.  Each step is a function on the round's copy of
    the object; [inl] results are early returns. *)
From S2P Require Import Prelude GoString GoTime Api GoError Cloud KubeLib Effects Naming Tokens Bundle Issuer.
From S2P Require Import CertStatus Samples CertMaterial CertUpload CertProbe CertRetention CertDeletion.

#[local] Open Scope prog_scope.

(** ** Definitions *)

Section controller.
  Context `{K : KubeLib} `{Cr : Crypto} (r : CertReconciler).

(** [detectIssuerDivergence]; [issuer] is the reference just written to the status *)
Definition detectIssuerDivergence (ac : AliyunCertificate) (source : IssuerSource) : prog AliyunCertificate :=
  let effective := default (mkIssuerReference "" "" "") (as_effective_issuer (ac_status ac)) in
  let healthy := setCondition ac ConditionIssuerDefaultDiverged CondFalse ReasonReady "" in
  match Ref (r_defaults r) with
  | None => Ret healthy
  | Some d =>
      if bool_decide (source = IssuerSourceStatus) && negb (IssuerRefEqual d effective) then
        let was := condTrue ac ConditionIssuerDefaultDiverged in
        let ac := setCondition ac ConditionIssuerDefaultDiverged CondTrue ReasonIssuerDefaultDiverged
          ("已固化 " +:+ iss_kind effective +:+ "/" +:+ iss_name effective +:+ "，operator 默认现为 " +:+
           iss_kind d +:+ "/" +:+ iss_name d +:+ "；如需切换请显式设置 spec.certificateTemplate.issuerRef") in
        do! if was then Ret tt
            else Event (ac_meta ac) true ReasonIssuerDefaultDiverged "pinned issuer differs from operator default" in
        Ret ac
      else Ret healthy
  end.

Definition handleCloudError (ac orig : AliyunCertificate) (opName : string) (err : goerr) : prog Result :=
  match errors_as is_credentials err with
  | Some (reason, ce) =>
      let ac := setCondition ac ConditionUploaded CondFalse reason (err_text ce) in
      patch_and_return (5 * minute) (aggregateReady ac) orig
  | None =>
      match ClassOf err with
      | ClassRetryable =>
          let reason := if throttling_code err then ReasonThrottled else ReasonUploadFailed in
          let ac := setCondition ac ConditionUploaded CondFalse reason (opName +:+ " 失败，将重试") in
          let! patched := patchStatus (aggregateReady ac) orig in
          Ret (0%Z, Some match patched with inl perr => perr | inr _ => err end)
      | ClassAuth =>
          let ac := setCondition ac ConditionUploaded CondFalse ReasonCredentialsInvalid
                      (opName +:+ " 被拒绝: " +:+ err_text err) in
          patch_and_return (5 * minute) (aggregateReady ac) orig
      | _ =>
          let ac := setCondition ac ConditionUploaded CondFalse ReasonUploadFailed
                      (opName +:+ " 失败: " +:+ err_text err) in
          do! Event (ac_meta ac) true ReasonUploadFailed (opName +:+ " failed") in
          patch_and_return (r_resync_interval r) (aggregateReady ac) orig
      end
  end.

Definition handleNonFatalCloudError (ac orig : AliyunCertificate) (err : goerr) (reason message : string) : prog Result :=
  do! Event (ac_meta ac) true reason message in
  let! patched := patchStatus (aggregateReady ac) orig in
  Ret match patched with
      | inl perr => (0%Z, Some perr)
      | inr _ => if bool_decide (ClassOf err = ClassRetryable) then (0%Z, Some err)
                 else (r_resync_interval r, None)
      end.

Definition handleReclaimError (ac orig : AliyunCertificate) (err : goerr) : prog Result :=
  handleNonFatalCloudError ac orig err "ReclaimFailed" reclaimFailedMessage.

Definition secretNameConflict (ac : AliyunCertificate) : prog (goerr + bool) :=
  let! got := call (OGetSecret (ac_namespace ac) (secretNameFor ac)) in
  Ret match got with
      | inl e => if IsNotFound e then inr false else inl e
      | inr s => inr (negb (secretOwnedByUs s ac))
      end.

(** step 5: the material that must be uploaded, and the probe; [orig] moves with the
    patch that persists a probe's finding *)
Definition probe_step (ac orig : AliyunCertificate) (b : Bundle) : prog (Result + round) :=
  let! '(missing, ac) := probeCAS r ac (first_or (DNSNames b) "") in
  match missing with
  | inl _ => do! noteProbeFailure ac in Ret (inr (ac, orig))
  | inr false => Ret (inr (ac, orig))
  | inr true =>
      let! patched := patchStatus ac orig in
      Ret match patched with inl e => inl (0%Z, Some e) | inr ac => inr (ac, ac) end
  end.

Definition reconcileIssued (ac orig : AliyunCertificate) (cert : Certificate) (stalled : bool) : prog Result :=
  let! material := loadMaterial ac cert in
  match material with
  | inl me =>
      let ac := setCondition ac ConditionIssued CondFalse (me_reason me) (me_message me) in
      do! if String.eqb (me_reason me) ReasonSelfSignedDuringIssuance
          then Event (ac_meta ac) true (me_reason me) (me_message me) else Ret tt in
      patch_and_return (r_resync_interval r) (aggregateReady ac) orig
  | inr b =>
      let ac := if stalled then ac else setCondition ac ConditionIssued CondTrue ReasonReady "Secret 通过校验" in
      let! probed := probe_step ac orig b in
      match probed with
      | inl res => Ret res
      | inr (ac, orig) =>
          let! '(uploaded, (ac, orig)) := ensureUploaded r ac orig b in
          match uploaded with
          | inl e => handleCloudError ac orig "Upload" e
          | inr _ =>
              let ac := setUploadedCondition ac in
              let! '(err, ac) := reclaimOldGenerations r ac in
              match err with
              | Some e => handleReclaimError ac orig e
              | None => patch_and_return (r_resync_interval r) (aggregateReady ac) orig
              end
          end
      end
  end.

(** step 3: CreateOrUpdate of the cert-manager Certificate *)
Definition mutateCertificate (ac : AliyunCertificate) (issuer : IssuerReference) (cert : Certificate) : goerr + Certificate :=
  let m := cert_meta cert in
  SetControllerReference ac
    (mkCertificate (set_om_labels (<[LabelManaged := "true"]> (om_labels m)) m)
       (desiredCertificateSpec ac issuer) (cert_status cert)).

Definition empty_cert (ac : AliyunCertificate) : Certificate :=
  mkCertificate (mkObjectMeta (ac_namespace ac) (certManagerNameFor ac) "" "" 0 time_zero None [] ∅ ∅)
    (mkCertificateSpec "" (mkIssuerReference "" "" "") "" [] [] None None None [] None None)
    (mkCertificateStatus [] None None None None).

Definition syncCertificate (ac : AliyunCertificate) (issuer : IssuerReference) : prog (goerr + Certificate) :=
  let! synced := call (OCreateOrUpdateCert (empty_cert ac) (mutateCertificate ac issuer)) in
  match synced with
  | inl e => Ret (inl (EWrap "同步 cert-manager Certificate 失败: " e))
  | inr (op, cert) =>
      do! if bool_decide (op = OperationResultCreated) && negb (String.eqb (as_cm_name (ac_status ac)) "") then
            do! call (OCounterInc metric_cert_recreated [ac_namespace ac; ac_name ac]) in
            Event (ac_meta ac) true "CertificateRecreated" "cert-manager Certificate was recreated"
          else Ret tt in
      Ret (inr cert)
  end.

(** step 4: the mirror of the Certificate's status, and the stall detection *)
Definition observeIssuance (ac : AliyunCertificate) (cert : Certificate) : prog (AliyunCertificate * bool) :=
  let ac := on_status (fun s => set_as_secret_name (cs_secret_name (cert_spec cert))
              (set_as_cm_name (om_name (cert_meta cert)) s)) ac in
  let ac := mirrorIssuance ac cert in
  let '(issuing, since) := certIssuingSince cert in
  if issuing && negb (time_is_zero since) then
    let! now := call ONow in
    if (r_issuance_stall_threshold r <? time_sub now since)%Z then
      let! now := call ONow in
      let ac := setCondition ac ConditionIssued CondFalse ReasonIssuanceStalled
                  ("cert-manager Issuing 已持续 " +:+ minutes_string (time_sub now since)) in
      do! Event (ac_meta ac) true ReasonIssuanceStalled "cert-manager issuance stalled" in
      Ret (ac, true)
    else Ret (ac, false)
  else Ret (ac, false).

(** steps 4 to 10 *)
Definition reconcileCertificate (ac orig : AliyunCertificate) (cert : Certificate) : prog Result :=
  let! '(ac, stalled) := observeIssuance ac cert in
  if certReady cert then reconcileIssued ac orig cert stalled
  else
    let ac := if stalled then ac
              else setCondition ac ConditionIssued CondFalse ReasonCertificateNotReady "等待 cert-manager 签发" in
    let ac := aggregateReady ac in
    patch_and_return (if stalled || secretNameGuardHolding ac then r_resync_interval r else 0%Z) ac orig.

(** steps 2 and 3: the guard on the Secret name, then the Certificate *)
Definition reconcileLive (ac orig : AliyunCertificate) (existing : option Certificate) (issuer : IssuerReference) :
    prog Result :=
  let! conflict :=
    if match existing with Some c => String.eqb (cs_secret_name (cert_spec c)) (secretNameFor ac) | None => false end
    then Ret (inr false) else secretNameConflict ac in
  match conflict with
  | inl e => Ret (0%Z, Some e)
  | inr conflict =>
      match conflict, existing with
      | true, None =>
          let ac := setCondition ac ConditionReady CondFalse ReasonSecretNameConflict (secretNameConflictMessage ac) in
          patch_and_return (r_resync_interval r) ac orig
      | true, Some cert => reconcileCertificate ac orig cert
      | false, _ =>
          let! synced := syncCertificate ac issuer in
          match synced with
          | inl e => Ret (0%Z, Some e)
          | inr cert => reconcileCertificate ac orig cert
          end
      end
  end.

(** step 1: the issuer *)
Definition reconcileNormal (ac orig : AliyunCertificate) : prog Result :=
  let ac := on_status (set_as_observed_generation (om_generation (ac_meta ac))) ac in
  let! got := call (OGetCert (ac_namespace ac) (certManagerNameFor ac)) in
  match (match got with
         | inr c => inr (Some c)
         | inl e => if IsNotFound e then inr None else inl e
         end) with
  | inl e => Ret (0%Z, Some e)
  | inr existing =>
      match ResolveIssuerRef (Some (ac_template ac)) (Some (ac_status ac)) existing (r_defaults r) with
      | None =>
          let ac := setCondition ac ConditionReady CondFalse ReasonNoIssuer
                      "spec.certificateTemplate.issuerRef 未指定，且 operator 未配置 --default-issuer-name" in
          patch_and_return 0 ac orig
      | Some (issuer, source) =>
          let ac := on_status (set_as_effective_issuer (Some issuer)) ac in
          let! ac := detectIssuerDivergence ac source in
          reconcileLive ac orig existing issuer
      end
  end.

Definition Reconcile (namespace name : string) : prog Result :=
  let! got := call (OGetAC false namespace name) in
  match got with
  | inl e => Ret (0%Z, IgnoreNotFound (Some e))
  | inr ac =>
      if is_deleting (ac_meta ac) then reconcileDelete r ac ac
      else if negb (ContainsFinalizer (ac_meta ac) FinalizerName) then
        let! up := call (OUpdateAC (set_ac_meta (AddFinalizer (ac_meta ac) FinalizerName) ac)) in
        Ret (0%Z, err_of up)
      else reconcileNormal ac ac
  end.

End controller.

(** ** The calls of the steps *)

(** what the steps after the Certificate is in place may call, the upload aside *)
Definition round_call (o : op) : Prop :=
  match o with
  | OGetAC _ _ _ | OPatchACStatus _ _ | OListBindingsLive _ | OGetCert _ _ | OGetSecret _ _
  | OCASDelete _ _ _ | OCASFind _ _ => True
  | _ => client_call o \/ is_report o
  end.

(** and what the deletion branch may call *)
Definition delete_call (o : op) : Prop :=
  match o with
  | OUpdateAC _ | ODeleteCert _ | ODeleteSecret _ => True
  | _ => round_call o
  end.

Lemma report_round o : is_report o -> round_call o.
Proof. destruct o; cbn; tauto. Qed.

Lemma client_round o : client_call o -> round_call o.
Proof. destruct o; cbn; tauto. Qed.

Lemma quiet_round o : round_call o -> ~ is_upload o.
Proof. destruct o; cbn; tauto. Qed.

Lemma delete_no_upload o : delete_call o -> ~ is_upload o.
Proof. destruct o; cbn; tauto. Qed.

Lemma round_delete o : round_call o -> delete_call o.
Proof. destruct o; cbn; tauto. Qed.

Lemma call_round o : round_call o -> all_calls round_call (call o).
Proof. intros H. by split. Qed.

Section calls.
  Context `{K : KubeLib} `{CL : CryptoLaws} (r : CertReconciler) `{!CASFactoryOk r}.

Lemma patchStatus_round ac orig : all_calls round_call (patchStatus ac orig).
Proof.
  unfold patchStatus. twp_step; [|by split].
  eapply all_calls_mono; [apply report_round|apply recordCertMetrics_reports].
Qed.

Lemma patch_and_return_round d ac orig : all_calls round_call (patch_and_return d ac orig).
Proof. unfold patch_and_return. twp_step; [apply patchStatus_round|exact I]. Qed.

Lemma Event_round m w re msg : all_calls round_call (Event m w re msg).
Proof. split; [by right|done]. Qed.

Lemma cleanupCAS_round ac : all_calls round_call (cleanupCAS r ac).
Proof.
  eapply all_calls_mono; [|eapply twp_all_calls, (cleanupCAS_wp ac r [])].
  intros o Ho. destruct o; try done; cbn in *; tauto.
Qed.

Lemma reclaim_round ac : all_calls round_call (reclaimOldGenerations r ac).
Proof.
  apply (twp_all_calls round_call _ [] (fun _ _ => True)).
  eapply twp_mono; [|done|by apply reclaimOldGenerations_wp]. intros h o Ho.
  destruct o; try done; cbn in *; tauto.
Qed.

(** one call or branch of a program *)
Ltac round_step :=
  first [ exact I
        | apply patchStatus_round | apply patch_and_return_round | apply Event_round | apply cleanupCAS_round
        | apply reclaim_round
        | (apply call_round; first [exact I | by right | by left])
        | twp_step
        | match goal with |- all_calls _ (match ?x with _ => _ end) => destruct x end ].

Lemma cloudError_round ac orig opn e : all_calls round_call (handleCloudError r ac orig opn e).
Proof. unfold handleCloudError. repeat round_step. Qed.

Lemma reclaimError_round ac orig e : all_calls round_call (handleReclaimError r ac orig e).
Proof. unfold handleReclaimError, handleNonFatalCloudError. repeat round_step. Qed.

Lemma probe_step_round ac orig b : all_calls round_call (probe_step r ac orig b).
Proof.
  unfold probe_step, noteProbeFailure. twp_step; [|repeat round_step].
  apply (twp_all_calls round_call _ [] (fun _ _ => True)).
  eapply twp_mono; [|done|by apply probeCAS_wp]. intros h o [Ho|[Ho|[cas ->]]]; [|by apply report_round|done].
  by apply client_round.
Qed.

Lemma loadMaterial_round ac cert : all_calls round_call (loadMaterial ac cert).
Proof. eapply all_calls_mono; [|apply loadMaterial_calls]. by intros ? ->. Qed.

Lemma observeIssuance_round ac cert : all_calls round_call (observeIssuance r ac cert).
Proof. unfold observeIssuance. repeat round_step. Qed.

Lemma detectIssuerDivergence_round ac src : all_calls round_call (detectIssuerDivergence r ac src).
Proof. unfold detectIssuerDivergence. repeat round_step. Qed.

Lemma secretNameConflict_round ac : all_calls round_call (secretNameConflict ac).
Proof. unfold secretNameConflict. repeat round_step. Qed.

Lemma casClient_round ac : all_calls round_call (casClient r ac).
Proof. eapply all_calls_mono; [apply client_round|by apply casClient_calls]. Qed.

(** with the upload *)
Lemma ensureUploaded_round ac orig b :
  all_calls (fun o => round_call o \/ is_upload o) (ensureUploaded r ac orig b).
Proof.
  unfold ensureUploaded, refreshUploadState, advanceGeneration, uploadGeneration, ensurePending, patchPendingUpload,
    uploadOrClaim, findByName, Event.
  repeat first [ exact I | (eapply all_calls_mono; [|apply casClient_round]; by left)
    | (split; [first [by left | by right | by left; right]|intros ?; exact I])
    | twp_step | match goal with |- all_calls _ (match ?x with _ => _ end) => destruct x end ].
Qed.

Lemma reconcileIssued_round ac orig cert st :
  all_calls (fun o => round_call o \/ is_upload o) (reconcileIssued r ac orig cert st).
Proof.
  assert (Hw : forall A (p : prog A), all_calls round_call p -> all_calls (fun o => round_call o \/ is_upload o) p).
  { intros A p. apply all_calls_mono. by left. }
  unfold reconcileIssued. twp_step; [apply Hw, loadMaterial_round|]. destruct a as [me|b].
  { apply Hw. repeat round_step. }
  twp_step; [apply Hw, probe_step_round|]. destruct a as [res|[ac1 orig1]]; [done|].
  twp_step; [apply ensureUploaded_round|]. destruct a as [[e|ch] [ac2 orig2]]; apply Hw; [apply cloudError_round|].
  cbn zeta. twp_step; [apply reclaim_round|]. destruct a as [[e|] ac3]; [apply reclaimError_round|repeat round_step].
Qed.

Lemma reconcileCertificate_round ac orig cert :
  all_calls (fun o => round_call o \/ is_upload o) (reconcileCertificate r ac orig cert).
Proof.
  unfold reconcileCertificate. twp_step; [eapply all_calls_mono; [|apply observeIssuance_round]; by left|].
  destruct a as [ac1 st]. destruct (certReady cert); [apply reconcileIssued_round|].
  eapply all_calls_mono; [|apply patch_and_return_round]. by left.
Qed.

Lemma reconcileDelete_calls ac orig : all_calls delete_call (reconcileDelete r ac orig).
Proof.
  assert (Hw : forall A (p : prog A), all_calls round_call p -> all_calls delete_call p).
  { intros A p. apply all_calls_mono, round_delete. }
  unfold reconcileDelete. destruct (negb _); [done|].
  twp_step; [apply Hw; unfold delete_blocked, liveBindingsFor; repeat round_step|]. destruct a; [done|].
  twp_step; [apply Hw; unfold delete_started; repeat round_step|]. destruct a as [?|[ac1 orig1]]; [done|].
  twp_step; [apply Hw; unfold delete_cas; repeat round_step|]. destruct a as [?|ac2]; [done|].
  twp_step; [unfold delete_certificate; split; [exact I|intros [e|c]; [done|]]; cbn; destruct (is_deleting (cert_meta c)); by repeat split|].
  destruct a; [done|].
  twp_step; [unfold delete_secret; split; [exact I|intros [e|s]; [done|]]; cbn; destruct (secretOwnedByUs s ac2); by repeat split|].
  destruct a; [done|]. unfold delete_finalizer, clearCertMetrics. twp_step; [by split|].
  destruct (IgnoreNotFound _); [done|]. apply Hw. repeat round_step.
Qed.

End calls.

(** ** The write-ahead record over a whole round *)

Lemma patchStatus_quiet_before `{KubeLib} `{Crypto} h ac orig (Q : goerr + AliyunCertificate -> history -> Prop) :
  no_upload h -> (forall r h', no_upload h' -> Q r h') ->
  twp any_env write_ahead h (patchStatus ac orig) Q.
Proof.
  intros Hn HQ. apply patchStatus_wp; [by intros ? []|done|]. intros h1 r Hs _. apply HQ.
  apply no_upload_cons; [by intros []|]. apply (quiet_since h h1); [|done].
  eapply only_since_mono; [|exact Hs]. apply report_quiet.
Qed.

Section write_ahead.
  Context `{K : KubeLib} `{CL : CryptoLaws} (r : CertReconciler) `{!CASFactoryOk r}.

Abbreviation safe := (twp any_env write_ahead).
Abbreviation any := (fun _ _ => True).

(** once the upload is behind, nothing of the round uploads again *)
Lemma no_more_upload {A} (p : prog A) h : all_calls delete_call p -> safe h p any.
Proof.
  intros Hp. eapply twp_post; [apply (all_calls_twp _ _ _ _ _ Hp)|done].
  intros h' o Ho%delete_no_upload. by destruct o.
Qed.

Lemma no_upload_round {A} (p : prog A) h : all_calls round_call p -> safe h p any.
Proof. intros Hp. apply no_more_upload. eapply all_calls_mono; [apply round_delete|done]. Qed.

Lemma probe_step_safe ac orig b h :
  no_upload h -> safe h (probe_step r ac orig b) (fun _ h' => no_upload h').
Proof.
  intros Hn. unfold probe_step. twp_step. apply twp_quiet; [by apply probeCAS_quiet|].
  intros [[e|[]] ac1] h1 _ Hn1; cbn [twp].
  - unfold noteProbeFailure, Event. repeat twp_step. apply no_upload_cons; [by intros []|auto].
  - twp_step. apply patchStatus_quiet_before; auto.
  - auto.
Qed.

Lemma reconcileIssued_safe ac orig cert st h :
  no_upload h -> safe h (reconcileIssued r ac orig cert st) any.
Proof.
  intros Hn. unfold reconcileIssued. twp_step.
  eapply twp_post; [apply twp_returns_and; [|apply loadMaterial_good]|].
  { apply (twp_quiet _ _ (fun _ h' => no_upload h')); [|auto].
    eapply all_calls_mono; [|apply loadMaterial_calls]. by intros ? ->. }
  intros [me|b] h1 [Hn1 Hv]; cbn beta in Hn1.
  { apply no_upload_round. twp_step; [|by apply patch_and_return_round].
    destruct (String.eqb _ _); [by apply Event_round|done]. }
  destruct Hv as [Hv _]. twp_step. eapply twp_post; [by apply probe_step_safe|].
  intros [res|[ac1 orig1]] h2 Hn2; [done|]. twp_step.
  eapply twp_post; [by apply ensureUploaded_wp|]. intros [[e|ch] [ac2 orig2]] h3 _; apply no_upload_round.
  { by apply cloudError_round. }
  cbn zeta. twp_step; [by apply reclaim_round|].
  destruct a as [[e|] ac3]; [by apply reclaimError_round|by apply patch_and_return_round].
Qed.

Lemma reconcileCertificate_safe ac orig cert h :
  no_upload h -> safe h (reconcileCertificate r ac orig cert) any.
Proof.
  intros Hn. unfold reconcileCertificate. twp_step.
  apply twp_quiet.
  { unfold observeIssuance. destruct (certIssuingSince cert) as [iss since]. destruct (iss && _); [|done].
    twp_step; [by split|]. destruct (_ <? _)%Z; by repeat split. }
  intros [ac1 st] h1 _ Hn1. destruct (certReady cert); [apply reconcileIssued_safe; auto|].
  by apply no_upload_round, patch_and_return_round.
Qed.

Lemma reconcileNormal_safe ac orig h :
  no_upload h -> safe h (reconcileNormal r ac orig) any.
Proof.
  intros Hn. unfold reconcileNormal. cbn zeta. twp_step. apply twp_quiet; [by split|]. intros got h1 _ Hn1.
  destruct (match got with inl e => if IsNotFound e then inr None else inl e | inr c => inr (Some c) end)
    as [e|existing]; [done|].
  destruct (ResolveIssuerRef _ _ _ _) as [[issuer source]|]; [|by apply no_upload_round, patch_and_return_round].
  twp_step. apply twp_quiet.
  { unfold detectIssuerDivergence. destruct (Ref _) as [d|]; [|done]. destruct (_ && _); [|done].
    twp_step; [|done]. by destruct (condTrue _ _); [|split]. }
  intros ac1 h2 _ Hn2. unfold reconcileLive. twp_step. apply twp_quiet.
  { destruct (match existing with Some _ => _ | None => _ end); [done|]. by repeat split. }
  intros [e|conflict] h3 _ Hn3; [done|]. destruct conflict; [destruct existing as [cert|]|].
  - apply reconcileCertificate_safe; auto.
  - by apply no_upload_round, patch_and_return_round.
  - twp_step. unfold syncCertificate. apply twp_quiet.
    { twp_step; [by split|]. destruct a as [e|[op cert]]; [done|]. twp_step; [|done].
      destruct (_ && _); [|done]. by repeat split. }
    intros [e|cert] h4 _ Hn4; [done|]. apply reconcileCertificate_safe; auto.
Qed.

Lemma Reconcile_safe ns name : safe [] (Reconcile r ns name) any.
Proof.
  unfold Reconcile. repeat twp_step. destruct r0 as [e|ac]; [done|].
  destruct (is_deleting _); [by apply no_more_upload, reconcileDelete_calls|].
  destruct (negb _); [by repeat twp_step|]. apply reconcileNormal_safe.
  apply no_upload_cons; [by intros []|constructor].
Qed.

End write_ahead.
