(* ===== verification/CertTheorems.v ===== *)
(** * Properties of a whole round of the certificate controller *)
From S2P Require Import Prelude GoString GoTime Api GoError Cloud KubeLib Effects Naming Tokens Bundle Issuer.
From S2P Require Import CertStatus Samples CertMaterial CertUpload CertProbe CertRetention CertDeletion.
From S2P Require Import CertController.

#[local] Open Scope prog_scope.

(** ** The guard on the Secret name *)

(** the API server showed, in this round, that the Secret the spec asks for is free,
    or ours, or the one the Certificate writes already *)
Definition target_free (ac : AliyunCertificate) (h : history) : Prop :=
  let target := secretNameFor ac in
  (exists c, Ev (OGetCert (ac_namespace ac) (ac_name ac)) (inr c) ∈ h /\ cs_secret_name (cert_spec c) = target) \/
  (exists e, Ev (OGetSecret (ac_namespace ac) target) (inl e) ∈ h /\ IsNotFound e = true) \/
  (exists s, Ev (OGetSecret (ac_namespace ac) target) (inr s) ∈ h /\ secretOwnedByUs s ac = true).

(** the Certificate is only ever written with a Secret name that passed the guard *)
Definition guarded (ns name : string) : policy := fun h o =>
  match o with
  | OCreateOrUpdateCert _ mutate =>
      exists ac, Ev (OGetAC false ns name) (inr ac) ∈ h /\ target_free ac h /\
        forall c c', mutate c = inr c' -> cs_secret_name (cert_spec c') = secretNameFor ac
  | _ => True
  end.

(** the same object as far as naming goes *)
Definition same_naming (ac ac' : AliyunCertificate) : Prop := ac_meta ac = ac_meta ac' /\ ac_spec ac = ac_spec ac'.

Lemma same_naming_names ac ac' : same_naming ac ac' ->
  secretNameFor ac = secretNameFor ac' /\ ac_namespace ac = ac_namespace ac' /\ ac_name ac = ac_name ac' /\
  forall s, secretOwnedByUs s ac = secretOwnedByUs s ac'.
Proof.
  intros [Hm Hs]. unfold secretNameFor, secretOwnedByUs, certManagerNameFor, ac_name, ac_namespace. by rewrite Hm, Hs.
Qed.

Section guard.
  Context `{KL : KubeLibLaws} `{CL : CryptoLaws} (r : CertReconciler) `{!CASFactoryOk r}.

Lemma guarded_round {A} ns name (p : prog A) (h : history) :
  all_calls round_call p -> twp any_env (guarded ns name) h p (fun _ h' => forall e, e ∈ h -> e ∈ h').
Proof.
  intros Hp. eapply twp_post; [apply (all_calls_twp _ _ _ _ _ Hp)|].
  - intros h' o Ho. destruct o; try done. cbn in Ho. tauto.
  - intros ? h' Hs e. by apply (only_since_elem _ _ _ _ Hs).
Qed.

Lemma guarded_tail {A} ns name (p : prog A) (h : history) :
  all_calls (fun o => round_call o \/ is_upload o) p -> twp any_env (guarded ns name) h p (fun _ _ => True).
Proof.
  intros Hp. eapply twp_post; [apply (all_calls_twp _ _ _ _ _ Hp)|done].
  intros h' o Ho. destruct o; try done. cbn in Ho. tauto.
Qed.

Lemma guarded_delete {A} ns name (p : prog A) (h : history) :
  all_calls delete_call p -> twp any_env (guarded ns name) h p (fun _ _ => True).
Proof.
  intros Hp. eapply twp_post; [apply (all_calls_twp _ _ _ _ _ Hp)|done].
  intros h' o Ho. destruct o; try done. cbn in Ho. tauto.
Qed.

Lemma detectIssuer_naming ac src : returns (same_naming ac) (detectIssuerDivergence r ac src).
Proof.
  unfold detectIssuerDivergence. destruct (Ref _) as [d|]; [|done]. destruct (_ && _); [|done].
  apply returns_bind. destruct (condTrue _ _); [done|]. intros []. done.
Qed.

Lemma mutate_secret_name ac issuer c c' :
  mutateCertificate ac issuer c = inr c' -> cs_secret_name (cert_spec c') = secretNameFor ac.
Proof. unfold mutateCertificate. intros H%owner_ref_spec. by destruct H as [-> _]. Qed.

Lemma reconcileLive_guarded ns name ac0 ac orig existing issuer (h : history) :
  Ev (OGetAC false ns name) (inr ac0) ∈ h -> same_naming ac0 ac ->
  (forall c, existing = Some c -> Ev (OGetCert (ac_namespace ac0) (ac_name ac0)) (inr c) ∈ h) ->
  twp any_env (guarded ns name) h (reconcileLive r ac orig existing issuer) (fun _ _ => True).
Proof.
  intros Hac Hsame Hex. destruct (same_naming_names _ _ Hsame) as (Hsec & Hns & Hn & Ho). unfold reconcileLive. twp_step.
  assert (Hsync : forall h', (forall e, e ∈ h -> e ∈ h') -> target_free ac0 h' ->
    twp any_env (guarded ns name) h' (let! synced := syncCertificate ac issuer in
      match synced with inl e => Ret (0%Z, Some e) | inr cert => reconcileCertificate r ac orig cert end) (fun _ _ => True)).
  { intros h' Hh' Hf. unfold syncCertificate. repeat twp_step.
    { exists ac0. split; [auto|]. split; [done|]. intros c c' Hc. rewrite Hsec. by eapply mutate_secret_name. }
    destruct r0 as [e|[op cert]]; [done|]. twp_step.
    eapply twp_post; [apply (guarded_round ns name)|].
    { destruct (_ && _); [|done]. split; [by right|]. intros ?. by split; [right|]. }
    intros ? h2 ?. cbn [twp bind]. apply guarded_tail. by apply reconcileCertificate_round. }
  destruct existing as [cert|].
  - destruct (String.eqb_spec (cs_secret_name (cert_spec cert)) (secretNameFor ac)) as [He|Hne].
    + cbn. apply Hsync; [done|]. left. exists cert. rewrite Hsec. auto.
    + unfold secretNameConflict. repeat twp_step.
      assert (Hh : forall e, e ∈ h -> e ∈ Ev (OGetSecret (ac_namespace ac) (secretNameFor ac)) r0 :: h) by set_solver.
      destruct r0 as [e|s]; [destruct (IsNotFound e) eqn:En; [|done]|destruct (secretOwnedByUs s ac) eqn:Eo]; cbn.
      * apply Hsync; [done|]. right. left. exists e. rewrite Hns, Hsec. split; [by left|done].
      * apply Hsync; [done|]. right. right. exists s. rewrite Hns, Hsec, Ho. split; [by left|done].
      * apply guarded_tail. by apply reconcileCertificate_round.
  - unfold secretNameConflict. repeat twp_step.
    assert (Hh : forall e, e ∈ h -> e ∈ Ev (OGetSecret (ac_namespace ac) (secretNameFor ac)) r0 :: h) by set_solver.
    destruct r0 as [e|s]; [destruct (IsNotFound e) eqn:En; [|done]|destruct (secretOwnedByUs s ac) eqn:Eo]; cbn [negb].
    + apply Hsync; [done|]. right. left. exists e. rewrite Hns, Hsec. split; [by left|done].
    + apply Hsync; [done|]. right. right. exists s. rewrite Hns, Hsec, Ho. split; [by left|done].
    + eapply twp_post; [apply guarded_round; by apply patch_and_return_round|done].
Qed.

Lemma Reconcile_guarded ns name : twp any_env (guarded ns name) [] (Reconcile r ns name) (fun _ _ => True).
Proof.
  unfold Reconcile. repeat twp_step. destruct r0 as [e|ac]; [done|].
  destruct (is_deleting _); [by apply guarded_delete, reconcileDelete_calls|].
  destruct (negb _); [by repeat twp_step|]. unfold reconcileNormal. cbn zeta. repeat twp_step.
  destruct r0 as [e|c]; [destruct (IsNotFound e)|]; [|done|].
  all: destruct (ResolveIssuerRef _ _ _ _) as [[issuer source]|];
    [|eapply twp_post; [apply guarded_round; by apply patch_and_return_round|done]].
  all: twp_step; eapply twp_post;
    [apply twp_returns_and; [apply guarded_round; by apply detectIssuerDivergence_round|apply detectIssuer_naming]|].
  all: intros ac1 h1 [Hh1 [Hm Hs]]; apply (reconcileLive_guarded ns name ac); [apply Hh1; set_solver|by split|].
  all: intros c0; try done. intros [= ->]. apply Hh1. by left.
Qed.

End guard.

(** ** Ready is never claimed wrongly *)

(** a status write that shows Ready=True shows it of an object for which it holds,
    or does not touch Ready *)
Definition honest `{KubeLib} : policy := fun _ o =>
  match o with
  | OPatchACStatus a base =>
      condTrue a ConditionReady = true -> ready_spec a = true \/ ac_shown a ConditionReady = ac_shown base ConditionReady
  | _ => True
  end.

(** calls other than status patches *)
Definition no_patch (o : op) : Prop := match o with OPatchACStatus _ _ => False | _ => True end.

Section honesty.
  Context `{KL : KubeLibLaws} `{CL : CryptoLaws} (r : CertReconciler) `{!CASFactoryOk r}.

Definition conds (ac : AliyunCertificate) : list Condition := as_conditions (ac_status ac).

(** both copies show the same Ready *)
Definition same_ready (st : round) : Prop :=
  ac_shown st.1 ConditionReady = ac_shown st.2 ConditionReady.

Lemma same_ready_conds ac ac' orig orig' :
  conds ac = conds ac' -> conds orig = conds orig' -> same_ready (ac, orig) -> same_ready (ac', orig').
Proof. unfold same_ready, ac_shown, conds. cbn. by intros -> ->. Qed.

Lemma same_ready_set ac orig t s re m :
  t <> ConditionReady -> same_ready (ac, orig) -> same_ready (setCondition ac t s re m, orig).
Proof. intros Ht. unfold same_ready. cbn. by rewrite ac_shown_set_other by done. Qed.

Lemma ready_spec_aggregate ac : ready_spec (aggregateReady ac) = ready_spec ac.
Proof.
  destruct (aggregateReady_rest ac) as []. pose proof (aggregateReady_rest ac) as Hb.
  assert (Hc : forall t, t <> ConditionReady -> condTrue (aggregateReady ac) t = condTrue ac t).
  { intros t Ht. unfold condTrue. rewrite !is_true_shown.
    pose proof (aggregateReady_other ac t Ht) as H1. unfold ac_shown in H1. by rewrite H1. }
  unfold ready_spec. rewrite !Hc by done. rewrite (but_conditions_guard _ _ Hb).
  by replace (ac_aliyun (aggregateReady ac)) with (ac_aliyun ac) by
    exact (f_equal (fun a => ac_aliyun a) (eq_sym Hb)).
Qed.

Lemma honest_aggregate h ac orig : honest h (OPatchACStatus (aggregateReady ac) orig).
Proof. intros Ht. left. rewrite ready_spec_aggregate. by rewrite aggregateReady_true in Ht. Qed.

Lemma honest_false h ac s re m orig : s <> CondTrue -> honest h (OPatchACStatus (setCondition ac ConditionReady s re m) orig).
Proof. intros Hs Ht. rewrite condTrue_set_same in Ht. by apply bool_decide_eq_true in Ht. Qed.

Lemma honest_same h ac orig : same_ready (ac, orig) -> honest h (OPatchACStatus ac orig).
Proof. by right. Qed.

Lemma honest_no_patch h o : no_patch o -> honest h o.
Proof. by destruct o. Qed.

Abbreviation hwp := (twp any_env honest).
Abbreviation any := (fun _ _ => True).

Lemma hwp_patch h ac orig (Q : goerr + AliyunCertificate -> history -> Prop) :
  honest h (OPatchACStatus ac orig) -> (forall x h', Q x h') -> hwp h (patchStatus ac orig) Q.
Proof.
  intros Hh HQ. apply patchStatus_wp; [by intros ? []|intros ? _; exact Hh|auto].
Qed.

Lemma hwp_patch_return h d ac orig : honest h (OPatchACStatus ac orig) -> hwp h (patch_and_return d ac orig) any.
Proof. intros Hh. unfold patch_and_return. twp_step. by apply hwp_patch. Qed.

(** a program without status patches, and what it returns *)
Lemma hwp_silent {A} (p : prog A) h (R : A -> Prop) (Q : A -> history -> Prop) :
  all_calls no_patch p -> returns R p -> (forall a h', R a -> Q a h') -> hwp h p Q.
Proof.
  intros Hp HR HQ. eapply twp_post; [apply twp_returns_and; [|exact HR]|].
  - eapply twp_post; [apply (all_calls_twp no_patch); [done|apply honest_no_patch]|]. intros ? ? _. exact I.
  - intros a h' [_ Ha]. auto.
Qed.

Lemma report_no_patch o : is_report o -> no_patch o.
Proof. by destruct o. Qed.

Lemma client_no_patch o : client_call o -> no_patch o.
Proof. by destruct o. Qed.

Lemma casClient_no_patch ac : all_calls no_patch (casClient r ac).
Proof. eapply all_calls_mono; [apply client_no_patch|by apply casClient_calls]. Qed.

Lemma detectIssuer_no_patch ac source : all_calls no_patch (detectIssuerDivergence r ac source).
Proof.
  unfold detectIssuerDivergence. destruct (Ref _) as [d|]; [|done]. destruct (_ && _); [|done].
  twp_step; [|done]. by destruct (condTrue _ _); [|split].
Qed.

(** the end of a deletion *)
Lemma delete_certificate_no_patch ac : all_calls no_patch (delete_certificate ac).
Proof.
  unfold delete_certificate. split; [exact I|]. intros [e|c]; [done|]. cbn. destruct (is_deleting (cert_meta c)); by repeat split.
Qed.

Lemma delete_secret_no_patch ac : all_calls no_patch (delete_secret ac).
Proof.
  unfold delete_secret. split; [exact I|]. intros [e|s]; [done|]. cbn. destruct (secretOwnedByUs s ac); by repeat split.
Qed.

Lemma delete_finalizer_no_patch ac sk : all_calls no_patch (delete_finalizer ac sk).
Proof.
  unfold delete_finalizer, clearCertMetrics, Event. twp_step; [by split|].
  destruct (IgnoreNotFound _); [done|]. destruct a; [by repeat split|]. destruct (negb _); by repeat split.
Qed.

(** *** The steps that return an object keep its conditions *)

Lemma twp_to_returns {A} (P : policy) h (p : prog A) (R : A -> Prop) :
  twp any_env P h p (fun a _ => R a) -> returns R p.
Proof. revert h. induction p as [a|o k IH]; intros h; cbn; [done|]. intros [_ H] x. by eapply IH, H. Qed.

Lemma probeCAS_conds ac d : returns (fun '(_, ac') => conds ac' = conds ac) (probeCAS r ac d).
Proof.
  eapply (twp_to_returns _ []), twp_post; [by apply probeCAS_wp|].
  intros [[e|[]] ac'] h' (Hp & _); cbn in Hp; [by subst| |].
  - by destruct Hp as [now ->].
  - by destruct Hp as [->|[now ->]].
Qed.

Lemma probeCAS_no_patch ac d : all_calls no_patch (probeCAS r ac d).
Proof.
  eapply all_calls_mono; [|by apply probeCAS_quiet]. by intros [].
Qed.

Lemma reclaim_conds ac : returns (fun '(_, ac') => conds ac' = conds ac) (reclaimOldGenerations r ac).
Proof.
  eapply (twp_to_returns _ []), twp_post; [by apply reclaimOldGenerations_wp|].
  by intros [e ac'] h' [(n & -> & _) _].
Qed.

Lemma reclaim_no_patch ac : all_calls no_patch (reclaimOldGenerations r ac).
Proof.
  apply (twp_all_calls no_patch _ [] any). eapply twp_mono; [|done|by apply reclaimOldGenerations_wp].
  intros h o Ho. destruct o; try done. cbn in Ho. tauto.
Qed.

Lemma cleanupCAS_conds ac : returns (fun '(_, ac') => conds ac' = conds ac) (cleanupCAS r ac).
Proof.
  eapply (twp_to_returns _ []), twp_post; [by apply cleanupCAS_wp|].
  intros [e ac'] h' [Hf _]. exact (f_equal conds Hf).
Qed.

Lemma cleanupCAS_no_patch ac : all_calls no_patch (cleanupCAS r ac).
Proof.
  eapply all_calls_mono; [|eapply twp_all_calls, (cleanupCAS_wp ac r [])].
  intros o Ho. destruct o; try done. cbn in Ho. tauto.
Qed.

Lemma pushGeneration_conds g ac : conds (pushGeneration g ac) = conds ac.
Proof. unfold pushGeneration, conds, on_status. cbn. destruct (as_current _) as [c|]; [by destruct (negb _)|done]. Qed.

Lemma ensurePending_honest ac orig b h :
  same_ready (ac, orig) ->
  hwp h (ensurePending r ac orig b) (fun res _ => match res with inr (_, st) => same_ready st | inl _ => True end).
Proof.
  intros Hs. unfold ensurePending. set (fresh := let! startedAt := call ONow in _).
  assert (Hf : forall h, hwp h fresh (fun res _ => match res with inr (_, st) => same_ready st | inl _ => True end)).
  { intros h'. unfold fresh, patchPendingUpload. repeat twp_step; [by right|]. by destruct r1. }
  destruct (as_pending (ac_status ac)) as [p|]; [|apply Hf]. by destruct (String.eqb _ _).
Qed.

Lemma ensureUploaded_honest ac orig b h :
  same_ready (ac, orig) -> hwp h (ensureUploaded r ac orig b) (fun '(_, st) _ => same_ready st).
Proof.
  intros Hs. unfold ensureUploaded. destruct (current_is ac _); [done|]. unfold refreshUploadState. repeat twp_step.
  destruct r0 as [e|fresh]; [done|]. cbn [twp bind].
  assert (Hs1 : same_ready (adoptUploadState ac fresh, adoptUploadState orig fresh)) by done.
  revert Hs1. generalize (adoptUploadState ac fresh) (adoptUploadState orig fresh). intros ac1 orig1 Hs1.
  destruct (current_is ac1 _); [done|]. unfold advanceGeneration. repeat twp_step.
  destruct (UploadEnabled _).
  2: { cbn. eapply same_ready_conds; [symmetry; apply pushGeneration_conds|reflexivity|done]. }
  unfold uploadGeneration. twp_step. eapply twp_post; [by apply ensurePending_honest|].
  intros [e|[p [ac2 orig2]]] h2 Hs2; [done|]. twp_step.
  apply (hwp_silent _ _ (fun _ => True)); [by apply casClient_no_patch|apply returns_True|].
  intros [e|cas] h3 _; [done|]. destruct (KeyPEM b) as [e|kp]; [done|]. twp_step.
  apply (hwp_silent _ _ (fun _ => True)); [|apply returns_True|].
  { unfold uploadOrClaim, findByName. twp_step; [by split|]. destruct a as [e|id]; [|by repeat split].
    twp_step; [|by repeat split]. destruct (_ && _); [|done]. twp_step; [|done].
    twp_step; [by split|]. by destruct a. }
  intros [e|id] h4 _; [done|]. unfold Event. repeat twp_step.
  eapply same_ready_conds; [symmetry; apply pushGeneration_conds|reflexivity|done].
Qed.

Lemma handleCloudError_honest ac orig opn e h : hwp h (handleCloudError r ac orig opn e) any.
Proof.
  unfold handleCloudError. destruct (errors_as is_credentials e) as [[re ce]|]; [apply hwp_patch_return, honest_aggregate|].
  destruct (ClassOf e); unfold Event; repeat twp_step; try apply hwp_patch_return, honest_aggregate.
  apply hwp_patch; [apply honest_aggregate|done].
Qed.

Lemma handleReclaimError_honest ac orig e h : hwp h (handleReclaimError r ac orig e) any.
Proof.
  unfold handleReclaimError, handleNonFatalCloudError, Event. repeat twp_step.
  apply hwp_patch; [apply honest_aggregate|done].
Qed.

Lemma reconcileIssued_honest ac orig cert st h : same_ready (ac, orig) -> hwp h (reconcileIssued r ac orig cert st) any.
Proof.
  intros Hs. unfold reconcileIssued. twp_step.
  apply (hwp_silent _ _ (fun _ => True)); [|apply returns_True|].
  { eapply all_calls_mono; [|apply loadMaterial_calls]. by intros ? ->. }
  intros [me|b] h1 _; cbn zeta.
  { twp_step. apply (hwp_silent _ _ (fun _ => True)); [by destruct (String.eqb _ _)|apply returns_True|].
    intros _ h2 _. apply hwp_patch_return, honest_aggregate. }
  match goal with |- hwp _ (bind (probe_step _ ?a _ _) _) _ => assert (Hs1 : same_ready (a, orig)) end.
  { destruct st; [done|by apply same_ready_set]. }
  revert Hs1. generalize (if st then ac else setCondition ac ConditionIssued CondTrue ReasonReady "Secret 通过校验").
  intros ac1 Hs1. twp_step.
  apply (twp_post _ _ _ _ (fun res _ => match res with inr st => same_ready st | inl _ => True end)).
  { unfold probe_step. twp_step. eapply (hwp_silent _ _ _ _ (probeCAS_no_patch _ _) (probeCAS_conds _ _)).
    intros [m ac2] h2 Hc. assert (Hs2 : same_ready (ac2, orig)) by (by eapply same_ready_conds).
    destruct m as [e|[]]; unfold noteProbeFailure, Event; repeat twp_step; [done| |done].
    apply hwp_patch; [by apply honest_same|]. by intros [e|ac3] h'. }
  intros [res|[ac2 orig2]] h2 Hs2; [done|]. twp_step. eapply twp_post; [by apply ensureUploaded_honest|].
  intros [[e|ch] [ac3 orig3]] h3 Hs3; [apply handleCloudError_honest|]. cbn zeta. twp_step.
  eapply (hwp_silent _ _ _ _ (reclaim_no_patch _) (returns_True _)).
  intros [[e|] ac4] h4 _; [apply handleReclaimError_honest|]. apply hwp_patch_return, honest_aggregate.
Qed.

Lemma observeIssuance_spec ac cert :
  all_calls no_patch (observeIssuance r ac cert) /\
  returns (fun '(ac', _) => ac_shown ac' ConditionReady = ac_shown ac ConditionReady) (observeIssuance r ac cert).
Proof.
  split.
  - unfold observeIssuance. destruct (certIssuingSince cert) as [i since]. destruct (_ && _); [|done].
    twp_step; [by split|]. destruct (_ <? _)%Z; by repeat split.
  - unfold observeIssuance. destruct (certIssuingSince cert) as [i since]. destruct (_ && _); [|done].
    cbn. intros now. destruct (_ <? _)%Z; [|done]. cbn. intros now' _. by rewrite ac_shown_set_other.
Qed.

Lemma reconcileCertificate_honest ac orig cert h :
  same_ready (ac, orig) -> hwp h (reconcileCertificate r ac orig cert) any.
Proof.
  intros Hs. unfold reconcileCertificate. twp_step. destruct (observeIssuance_spec ac cert) as [Hn Hc].
  eapply (hwp_silent _ _ _ _ Hn Hc). intros [ac1 st] h1 H1. cbn beta iota in H1.
  assert (Hs1 : same_ready (ac1, orig)) by (unfold same_ready in *; cbn in *; congruence).
  destruct (certReady cert); [by apply reconcileIssued_honest|]. apply hwp_patch_return, honest_aggregate.
Qed.

Lemma reconcileLive_honest ac orig existing issuer h :
  same_ready (ac, orig) -> hwp h (reconcileLive r ac orig existing issuer) any.
Proof.
  intros Hs. unfold reconcileLive. twp_step.
  apply (hwp_silent _ _ (fun _ => True)); [|apply returns_True|].
  { destruct (match existing with Some _ => _ | None => _ end); [done|]. by repeat split. }
  intros [e|[]] h1 _; [done|destruct existing as [cert|]|].
  - by apply reconcileCertificate_honest.
  - by apply hwp_patch_return, honest_false.
  - twp_step. apply (hwp_silent _ _ (fun _ => True)); [|apply returns_True|].
    { unfold syncCertificate. twp_step; [by split|]. destruct a as [e|[op cert]]; [done|]. twp_step; [|done].
      destruct (_ && _); [|done]. by repeat split. }
    intros [e|cert] h2 _; [done|]. by apply reconcileCertificate_honest.
Qed.

Lemma reconcileNormal_honest ac h : hwp h (reconcileNormal r ac ac) any.
Proof.
  unfold reconcileNormal. cbn zeta. repeat twp_step.
  destruct (match r0 with inl e => if IsNotFound e then inr None else inl e | inr c => inr (Some c) end)
    as [e|existing]; [done|].
  destruct (ResolveIssuerRef _ _ _ _) as [[issuer source]|]; [|by apply hwp_patch_return, honest_false].
  match goal with |- hwp _ (bind (detectIssuerDivergence _ ?a _) _) _ => set (ac1 := a) end.
  twp_step. apply (hwp_silent _ _ (fun ac' => same_ready (ac', ac))).
  - apply detectIssuer_no_patch.
  - assert (Hs : forall s re m, same_ready (setCondition ac1 ConditionIssuerDefaultDiverged s re m, ac)).
    { intros. by apply same_ready_set. }
    unfold detectIssuerDivergence. destruct (Ref _) as [d|]; [|apply Hs]. destruct (_ && _); [|apply Hs].
    apply returns_bind. destruct (condTrue _ _); cbn; intros; apply Hs.
  - intros ac2 h1 Hs2. by apply reconcileLive_honest.
Qed.

Lemma reconcileDelete_honest ac h : hwp h (reconcileDelete r ac ac) any.
Proof.
  unfold reconcileDelete. destruct (negb _); [done|]. unfold delete_blocked. twp_step.
  eapply (twp_post _ _ _ _ any).
  { twp_step. apply (hwp_silent _ _ (fun _ => True)); [|apply returns_True|].
    { unfold liveBindingsFor. repeat twp_step; [exact I|]. by destruct a. }
    intros [e|bs] h1 _; [done|]. destruct (activeBindingNames bs) as [|n l]; [done|]. cbn zeta.
    unfold Event. repeat twp_step. eapply twp_post; [by apply hwp_patch_return, honest_false|done]. }
  intros [res|[]] h1 _; [done|]. twp_step.
  apply (twp_post _ _ _ _ (fun res _ => match res with inr st => same_ready st | inl _ => True end)).
  { unfold delete_started. destruct (as_cleanup_started _); [done|]. repeat twp_step.
    apply hwp_patch; [by right|]. by intros [e|ac1] h'. }
  intros [res|[ac1 orig1]] h2 Hs; [done|]. unfold delete_cas. twp_step.
  apply (twp_post _ _ _ _ any).
  { twp_step. eapply (hwp_silent _ _ _ _ (cleanupCAS_no_patch _) (cleanupCAS_conds _)).
    intros [err ac2] h3 Hc. assert (Hs2 : same_ready (ac2, orig1)) by (by eapply same_ready_conds). twp_step.
    apply (twp_post _ _ _ _ any).
    { destruct err as [e|]; [|done]. twp_step. split; [done|]. intros now _. cbn [twp].
      destruct (as_cleanup_started _); [|done]. destruct (negb _); cbn zeta.
      - twp_step. by apply hwp_patch; [apply honest_false|].
      - unfold Event. by repeat twp_step. }
    intros [res|] h4 _; [done|]. twp_step. apply hwp_patch; [by right|]. by intros [e|ac3] h'. }
  intros [res|ac2] h3 _; [done|].
  apply (hwp_silent _ _ (fun _ => True)); [|apply returns_True|done].
  twp_step; [apply delete_certificate_no_patch|]. destruct a; [done|].
  twp_step; [apply delete_secret_no_patch|]. destruct a; [done|]. apply delete_finalizer_no_patch.
Qed.

Lemma Reconcile_honest ns name : hwp [] (Reconcile r ns name) any.
Proof.
  unfold Reconcile. repeat twp_step. destruct r0 as [e|ac]; [done|].
  destruct (is_deleting _); [apply reconcileDelete_honest|].
  destruct (negb _); [by repeat twp_step|]. apply reconcileNormal_honest.
Qed.

End honesty.

(** ** Every issued round is followed by another *)

(** an error makes controller-runtime retry with backoff; otherwise a delay is asked for *)
Definition rescheduled (r : CertReconciler) (res : Result) : Prop :=
  (exists e, res.2 = Some e) \/ res.1 = r_resync_interval r \/ res.1 = (5 * minute)%Z.

Section rescheduling.
  Context `{K : KubeLib} `{Cr : Crypto} (r : CertReconciler).

Lemma patch_and_return_delay d ac orig : returns (fun res => res.1 = d) (patch_and_return d ac orig).
Proof. unfold patch_and_return. apply returns_bind. eapply returns_mono; [apply returns_True|done]. Qed.

Lemma patch_and_return_rescheduled d ac orig :
  d = r_resync_interval r \/ d = (5 * minute)%Z -> returns (rescheduled r) (patch_and_return d ac orig).
Proof. intros Hd. eapply returns_mono; [apply patch_and_return_delay|].
  intros res Hr. right. by rewrite Hr.
Qed.

Lemma handleCloudError_rescheduled ac orig opn e : returns (rescheduled r) (handleCloudError r ac orig opn e).
Proof.
  unfold handleCloudError. destruct (errors_as is_credentials e) as [[re ce]|].
  { apply patch_and_return_rescheduled. by right. }
  destruct (ClassOf e).
  - cbn. intros _. apply patch_and_return_rescheduled. by left.
  - apply returns_bind. eapply returns_mono; [apply returns_True|]. intros [p|a] _; left; eauto.
  - apply patch_and_return_rescheduled. by right.
  - cbn. intros _. apply patch_and_return_rescheduled. by left.
Qed.

Lemma handleReclaimError_rescheduled ac orig e : returns (rescheduled r) (handleReclaimError r ac orig e).
Proof.
  unfold handleReclaimError, handleNonFatalCloudError. cbn. intros _. apply returns_bind.
  eapply returns_mono; [apply returns_True|]. intros [p|a] _; [left; eauto|]. cbn.
  case_bool_decide; [left; eauto|by right; left].
Qed.

Lemma reconcileIssued_rescheduled_aux ac orig cert st : returns (rescheduled r) (reconcileIssued r ac orig cert st).
Proof.
  assert (Hb : forall A (p : prog A) (f : A -> prog Result), (forall a, returns (rescheduled r) (f a)) ->
    returns (rescheduled r) (bind p f)) by (intros A p f Hf; apply (returns_bind_post (fun _ => True)); [apply returns_True|auto]).
  unfold reconcileIssued. apply Hb. intros [me|b].
  { cbn zeta. apply Hb. intros _. apply patch_and_return_rescheduled. by left. }
  cbn zeta. eapply (returns_bind_post (fun p => match p with inl res => rescheduled r res | inr _ => True end)).
  { unfold probe_step. eapply returns_bind_post; [apply returns_True|]. intros [[e|[]] ac1] _; cbn; [done| |done].
    apply returns_bind. eapply returns_mono; [apply returns_True|]. intros [e|a] _; cbn; [left; eauto|done]. }
  intros [res|[ac1 orig1]] Hp; [done|]. apply Hb. intros [[e|ch] [ac2 orig2]]; [apply handleCloudError_rescheduled|].
  apply Hb. intros [[e|] ac3]; [apply handleReclaimError_rescheduled|]. apply patch_and_return_rescheduled. by left.
Qed.

End rescheduling.

(** ** Properties *)

(** the world of a first upload: cert-manager has issued, CAS accepts *)
Definition sample_certificate : Certificate :=
  mkCertificate (sample_meta "site" "uid-c" []) 
    (mkCertificateSpec "site-tls" (mkIssuerReference "letsencrypt" "" "") "" ["leaf"] [] None None None [] None None)
    (mkCertificateStatus [mkCertificateCondition CertificateConditionReady CondTrue None] (Some 1%Z) None None None).

Definition issued_world : handler unit := fun _ o =>
  match o return resp o * unit with
  | OGetAC _ _ _ => (inr sample_ac, tt)
  | OGetCert _ _ => (inr sample_certificate, tt)
  | OCreateOrUpdateCert _ f => (match f sample_certificate with inl e => inl e | inr c => inr (OperationResultUpdated, c) end, tt)
  | OGetSecret _ _ => (inr (sample_secret "site-tls" "leaf"), tt)
  | OListBindingsLive _ => (inr [], tt)
  | OPatchACStatus ac _ | OUpdateAC ac => (inr ac, tt)
  | OCASUpload _ _ _ _ _ => (inr 4711%Z, tt)
  | OCASFind _ _ => (inr [], tt)
  | o => (failed_resp o, tt)
  end.

Abbreviation issued_run := (exec issued_world tt []
  (@Reconcile (ref_kube 0) toy_crypto sample_reconciler "prod" "site")).

Definition uploads (h : history) : nat :=
  length (List.filter (fun e => match ev_op e with OCASUpload _ _ _ _ _ => true | _ => false end) h).

(** C1: uploads are written ahead.  In every run of a whole round, also one that
    crashes midway: a certificate is uploaded at most once, only after the API
    server has accepted (or shown) the record of the attempt, under the name and
    idempotency token of that record, and it is the certificate the record names. *)
Theorem uploads_are_recorded_first `{CL : CryptoLaws} `{K : KubeLib} (r : CertReconciler) `{!CASFactoryOk r}
    (ns name : string) (h : history) (rest : prog Result) :
  reaches any_env [] (Reconcile r ns name) h rest -> all_allowed write_ahead h.
Proof. intros Hr. eapply twp_reaches_allowed; [by apply Reconcile_safe|exact I|exact Hr]. Qed.

Lemma uploads_are_recorded_first_witness :
  uploads issued_run.1.2 = 1 /\ @all_allowed (@write_ahead toy_crypto) issued_run.1.2.
Proof.
  split; [vm_compute; reflexivity|].
  exact (@uploads_are_recorded_first toy_crypto toy_crypto_laws (ref_kube 0) sample_reconciler _ "prod" "site" _ _
    (exec_reaches issued_world any_env [] tt _ (fun _ _ _ => I))).
Defined.

(** C5: the operator never takes over a Secret.  In every run, the Certificate is
    created or rewritten only with the Secret name the spec asks for, and only after
    the API server showed, in this round, that this Secret is the one the
    Certificate writes already, does not exist, or is annotated as ours. *)
Theorem foreign_secret_never_written `{KL : KubeLibLaws} `{CL : CryptoLaws} (r : CertReconciler) `{!CASFactoryOk r}
    (ns name : string) (h : history) (rest : prog Result) :
  reaches any_env [] (Reconcile r ns name) h rest -> all_allowed (guarded ns name) h.
Proof. intros Hr. eapply twp_reaches_allowed; [by apply Reconcile_guarded|exact I|exact Hr]. Qed.

Lemma foreign_secret_never_written_witness :
  length (List.filter (fun e => match ev_op e with OCreateOrUpdateCert _ _ => true | _ => false end) issued_run.1.2) = 1 /\
  all_allowed (guarded "prod" "site") issued_run.1.2.
Proof.
  split; [vm_compute; reflexivity|].
  exact (@foreign_secret_never_written (ref_kube 0) (ref_kube_laws 0) toy_crypto toy_crypto_laws sample_reconciler _
    "prod" "site" _ _ (exec_reaches issued_world any_env [] tt _ (fun _ _ _ => I))).
Defined.

(** C21: Ready is never claimed wrongly.  In every run, each status write that says
    Ready=True is of an object for which the Ready conjunction holds (no Secret-name
    guard, Issued, and Uploaded when uploading is on), or leaves Ready as the API
    server has it. *)
Theorem Ready_is_honest `{KL : KubeLibLaws} `{CL : CryptoLaws} (r : CertReconciler) `{!CASFactoryOk r}
    (ns name : string) (h : history) (rest : prog Result) :
  reaches any_env [] (Reconcile r ns name) h rest -> all_allowed honest h.
Proof. intros Hr. eapply twp_reaches_allowed; [by apply Reconcile_honest|exact I|exact Hr]. Qed.

(** the round ends with a status that says Ready, of an object that is *)
Lemma Ready_is_honest_witness :
  (a ← last_patched issued_run.1.2; Some (@condTrue (ref_kube 0) a ConditionReady, @ready_spec (ref_kube 0) a)) = Some (true, true) /\
  all_allowed (@honest (ref_kube 0)) issued_run.1.2.
Proof.
  split; [vm_compute; reflexivity|].
  exact (@Ready_is_honest (ref_kube 0) (ref_kube_laws 0) toy_crypto toy_crypto_laws sample_reconciler _
    "prod" "site" _ _ (exec_reaches issued_world any_env [] tt _ (fun _ _ _ => I))).
Defined.

(** A certificate that has been issued is never forgotten: whatever fails in the
    round (the material, the probe, the upload, the reclaim, a status write), it ends
    with an error to retry or a requeue after five minutes or the resync interval. *)
Theorem reconcileIssued_rescheduled `{K : KubeLib} `{Cr : Crypto} (r : CertReconciler)
    (ac orig : AliyunCertificate) (cert : Certificate) (stalled : bool) :
  returns (rescheduled r) (reconcileIssued r ac orig cert stalled).
Proof. apply reconcileIssued_rescheduled_aux. Qed.
