(* ===== verification/CertAccounts.v ===== *)
(** * No certificate is forgotten

    What the status says of CAS is the operator's only account of the certificates it
    stored there: the certIds of the generations, and the write-ahead record of an
    upload whose outcome is not known.  [keeps_account] is the policy that no status
    write of a round strikes an entry off this account without a cause that CAS gave
    in the same round; the three causes that do not come from CAS are written out. *)
From S2P Require Import Prelude GoString GoTime Api GoError Cloud KubeLib Effects Naming Tokens Bundle Issuer.
From S2P Require Import CertStatus Samples CertMaterial CertUpload CertProbe CertRetention CertDeletion.
From S2P Require Import CertController CertTheorems FakeCAS FakeCloud UploadWorld.

#[local] Open Scope prog_scope.

(** ** Accounts *)

(** the part of the status that refers to CAS *)
Definition ledger (ac : AliyunCertificate) :
    option CertificateGeneration * option PendingUpload * list CertificateGeneration :=
  let s := ac_status ac in (as_current s, as_pending s, as_history s).

Definition in_step (st : round) : Prop := ledger st.1 = ledger st.2.

(** the current generation has a certId but no fingerprint; the probe's placeholder
    has neither *)
Definition nameless (ac : AliyunCertificate) (id : Z) : Prop :=
  exists c, as_current (ac_status ac) = Some c /\ gen_fingerprint c = "" /\ gen_cert_id c = Some id.

(** CAS was asked, and listed nothing under the name *)
Definition listed_without (h : history) (name : string) : Prop :=
  exists cas hint l, Ev (OCASFind cas hint) (inr l) ∈ h /\ forall c, c ∈ l -> sum_name c <> name.

(** the certId [id] of [base] in [a] *)
Definition id_accounted (h : history) (base a : AliyunCertificate) (id : Z) : Prop :=
  id ∈ remainingCertIDs a \/ delete_confirmed h id \/ not_listed h id \/ nameless base id.

(** CAS named a certificate for the record, and that one is accounted for *)
Definition claimed (h : history) (p : PendingUpload) (a : AliyunCertificate) : Prop :=
  exists id, cas_confirmed h p id /\ (id ∈ remainingCertIDs a \/ delete_confirmed h id).

(** the record [p] of [base] in [a] *)
Definition record_accounted (h : history) (p : PendingUpload) (a : AliyunCertificate) : Prop :=
  as_pending (ac_status a) = Some p \/ claimed h p a \/ listed_without h (pu_cas_name p) \/
  exists q, as_pending (ac_status a) = Some q /\ pu_fingerprint q <> pu_fingerprint p.

Definition accounted (h : history) (base a : AliyunCertificate) : Prop :=
  (forall id, id ∈ remainingCertIDs base -> id_accounted h base a id) /\
  (forall p, as_pending (ac_status base) = Some p -> record_accounted h p a).

Definition keeps_account : policy := fun h o =>
  match o with OPatchACStatus a base => accounted h base a | _ => True end.

(** ** Lemmas *)

Abbreviation later h h' := (forall e : event, e ∈ h -> e ∈ h').

Lemma later_refl (h : history) : later h h.
Proof. done. Qed.

Lemma later_cons x (h h' : history) : later h h' -> later h (x :: h').
Proof. intros Hh e He. right. by apply Hh. Qed.

Ltac later_tac := repeat first [apply later_refl | assumption | apply later_cons].

Lemma remaining_ledger ac ac' : ledger ac = ledger ac' -> remainingCertIDs ac = remainingCertIDs ac'.
Proof. unfold ledger, remainingCertIDs. by intros [= -> _ ->]. Qed.

Lemma accounted_in_step h ac orig : in_step (ac, orig) -> accounted h orig ac.
Proof.
  intros Hs. change (ledger ac = ledger orig) in Hs. split.
  - intros id Hid. left. by rewrite (remaining_ledger _ _ Hs).
  - intros p Hp. left. unfold ledger in Hs. injection Hs. congruence.
Qed.

Lemma cas_confirmed_mono (h h' : history) p id : later h h' -> cas_confirmed h p id -> cas_confirmed h' p id.
Proof. intros Hh (e & He & Hp). exists e. auto. Qed.

Lemma not_listed_mono (h h' : history) id : later h h' -> not_listed h id -> not_listed h' id.
Proof. intros Hh (cas & hint & l & He & Hl). exists cas, hint, l. auto. Qed.

Lemma listed_without_mono (h h' : history) n : later h h' -> listed_without h n -> listed_without h' n.
Proof. intros Hh (cas & hint & l & He & Hl). exists cas, hint, l. auto. Qed.

(** what is accounted for stays so while entries leave for a confirmed deletion only *)
Lemma accounted_shrink (h h' : history) base a a' :
  later h h' -> accounted h base a ->
  (forall id, id ∈ remainingCertIDs a -> id ∈ remainingCertIDs a' \/ delete_confirmed h' id) ->
  as_pending (ac_status a') = as_pending (ac_status a) -> accounted h' base a'.
Proof.
  intros Hh [Hi Hp] Hids Hpend. split.
  - intros id Hid. destruct (Hi id Hid) as [H|[H|[H|H]]].
    + destruct (Hids id H); [by left|by right; left].
    + right. left. by eapply delete_confirmed_mono.
    + right. right. left. by eapply not_listed_mono.
    + by do 3 right.
  - intros p H. destruct (Hp p H) as [Hq|[(id & Hc & Hin)|[Hl|Hs]]].
    + left. congruence.
    + right. left. exists id. split; [by eapply cas_confirmed_mono|].
      destruct Hin as [Hin|Hin]; [by apply Hids|right; by eapply delete_confirmed_mono].
    + do 2 right. left. by eapply listed_without_mono.
    + do 3 right. by rewrite Hpend.
Qed.

Lemma accounted_same (h h' : history) base a a' :
  later h h' -> ledger a' = ledger a -> accounted h base a -> accounted h' base a'.
Proof.
  intros Hh Hl Ha. apply (accounted_shrink h h' base a a'); [done|done| |].
  - intros id. rewrite (remaining_ledger _ _ Hl). by left.
  - injection Hl. congruence.
Qed.

(** a new current generation pushes the one before it into the history *)
Lemma pushGeneration_ids gen ac id :
  id ∈ remainingCertIDs ac -> id ∈ remainingCertIDs (pushGeneration gen ac) \/ nameless ac id.
Proof.
  rewrite !remainingCertIDs_eq. unfold pushGeneration. cbn.
  destruct (as_current (ac_status ac)) as [c|] eqn:Ec; [|intros Hi; left; apply elem_of_app; by right].
  destruct (String.eqb_spec (gen_fingerprint c) "") as [He|]; cbn [negb]; intros Hi.
  - apply elem_of_app in Hi as [Hi|Hi]; [right|left; apply elem_of_app; by right]. exists c. split; [done|]. split; [done|].
    unfold gen_ids in Hi. destruct (gen_cert_id c); [|by apply elem_of_nil in Hi]. by apply list_elem_of_singleton in Hi as ->.
  - left. apply elem_of_app. by right.
Qed.

Lemma pushGeneration_accounted (h : history) ac ac' orig gen :
  in_step (ac, orig) -> as_current (ac_status ac') = as_current (ac_status ac) ->
  as_history (ac_status ac') = as_history (ac_status ac) ->
  (forall p, as_pending (ac_status orig) = Some p -> record_accounted h p (pushGeneration gen ac')) ->
  accounted h orig (pushGeneration gen ac').
Proof.
  intros Hs Hc Hh Hp. split; [|done]. change (ledger ac = ledger orig) in Hs. intros id Hid.
  assert (Hid' : id ∈ remainingCertIDs ac').
  { revert Hid. rewrite <-(remaining_ledger _ _ Hs). unfold remainingCertIDs. by rewrite Hc, Hh. }
  destruct (pushGeneration_ids gen ac' id Hid') as [H|(c & H & Hf)]; [by left|]. do 3 right. exists c.
  split; [|done]. injection Hs. congruence.
Qed.

(** ** The parts of a round *)

Section accounts.
  Context `{KL : KubeLibLaws} `{CL : CryptoLaws} (r : CertReconciler) `{!CASFactoryOk r}.

Abbreviation kwp := (twp any_env keeps_account).
Abbreviation silent := (twp any_env (fun _ o => no_patch o)).
Abbreviation any := (fun _ _ => True).

(** a program without status patches *)
Lemma kwp_silent {A} (p : prog A) h (Q : A -> history -> Prop) : silent h p Q -> kwp h p Q.
Proof. apply twp_mono; [|done]. by intros h' []. Qed.

Lemma silent_calls {A} (p : prog A) h (R : A -> Prop) (Q : A -> history -> Prop) :
  all_calls no_patch p -> returns R p -> (forall a h', later h h' -> R a -> Q a h') -> silent h p Q.
Proof.
  intros Hp HR HQ. eapply twp_post; [apply twp_returns_and; [by apply (all_calls_twp no_patch)|exact HR]|].
  intros a h' [Hs Ha]. apply HQ; [|done]. intros e. apply (only_since_elem _ _ _ _ Hs).
Qed.

Lemma kwp_calls {A} (p : prog A) h (R : A -> Prop) (Q : A -> history -> Prop) :
  all_calls no_patch p -> returns R p -> (forall a h', later h h' -> R a -> Q a h') -> kwp h p Q.
Proof. intros. by apply kwp_silent, (silent_calls p h R). Qed.

Lemma kwp_patch h ac orig (Q : goerr + AliyunCertificate -> history -> Prop) :
  (forall h', later h h' -> accounted h' orig ac) -> (forall x h', Q x h') -> kwp h (patchStatus ac orig) Q.
Proof.
  intros Hh HQ. apply patchStatus_wp; [by intros ? []| |auto]. intros h' Hs. apply Hh.
  intros e. apply (only_since_elem _ _ _ _ Hs).
Qed.

Lemma accounted_mono (h h' : history) base a : later h h' -> accounted h base a -> accounted h' base a.
Proof. intros Hh. by apply accounted_same. Qed.

Lemma kwp_patch_accounted h ac ac' orig (Q : goerr + AliyunCertificate -> history -> Prop) :
  accounted h orig ac -> ledger ac' = ledger ac -> (forall x h', Q x h') -> kwp h (patchStatus ac' orig) Q.
Proof. intros Ha Hl. apply kwp_patch. intros h' Hh. by eapply accounted_same. Qed.

Lemma kwp_patch_return h d ac ac' orig :
  accounted h orig ac -> ledger ac' = ledger ac -> kwp h (patch_and_return d ac' orig) any.
Proof. intros Ha Hl. unfold patch_and_return. twp_step. by eapply kwp_patch_accounted. Qed.

Lemma aggregateReady_ledger ac : ledger (aggregateReady ac) = ledger ac.
Proof. pose proof (aggregateReady_rest ac) as H. exact (f_equal ledger H). Qed.

(** *** The errors of the cloud *)

Lemma handleCloudError_kept ac orig opn e h : accounted h orig ac -> kwp h (handleCloudError r ac orig opn e) any.
Proof.
  intros Ha. unfold handleCloudError. destruct (errors_as is_credentials e) as [[re ce]|].
  { by eapply kwp_patch_return; [|rewrite aggregateReady_ledger]. }
  destruct (ClassOf e); unfold Event; repeat twp_step.
  1, 3, 4: by eapply kwp_patch_return; [|rewrite aggregateReady_ledger]; [by eapply accounted_mono; [|exact Ha]; later_tac|].
  by eapply kwp_patch_accounted; [|rewrite aggregateReady_ledger|].
Qed.

Lemma handleReclaimError_kept ac orig e h : accounted h orig ac -> kwp h (handleReclaimError r ac orig e) any.
Proof.
  intros Ha. unfold handleReclaimError, handleNonFatalCloudError, Event. repeat twp_step.
  eapply kwp_patch_accounted; [|by rewrite aggregateReady_ledger|done]. eapply accounted_mono; [|exact Ha]. later_tac.
Qed.

(** *** The probe *)

Lemma probe_step_kept ac orig b h :
  in_step (ac, orig) -> kwp h (probe_step r ac orig b) (fun res _ => match res with inr st => in_step st | inl _ => True end).
Proof.
  intros Hs. unfold probe_step. twp_step. apply kwp_silent.
  eapply twp_mono; [|intros a h' H; exact H|eapply twp_post; [by apply probeCAS_wp|]].
  { intros h' o [Ho|[Ho|[cas ->]]]; [by apply client_no_patch|by apply report_no_patch|done]. }
  intros [m ac1] h1 (Hp & Hn & _). destruct m as [e|[]]; cbn in Hp.
  - subst ac1. unfold noteProbeFailure, Event. by repeat twp_step.
  - destruct Hp as [now ->], (Hn eq_refl) as (c & id & Ht & Hl). clear Hn. twp_step. apply kwp_patch; [|by intros [e|a] h'].
    intros h' Hh. unfold probe_target in Ht. destruct (UploadEnabled _); [|done].
    destruct (as_current (ac_status ac)) as [c'|] eqn:Ec; [|done]. destruct (gen_cert_id c') as [id'|] eqn:Ei; [|done].
    injection Ht as -> ->. change (ledger ac = ledger orig) in Hs. split.
    + intros i. rewrite <-(remaining_ledger _ _ Hs), remainingCertIDs_eq, Ec. unfold gen_ids at 1. rewrite Ei.
      intros [->|Hi]%elem_of_cons; [right; right; left; by eapply not_listed_mono|left].
      rewrite remainingCertIDs_eq. cbn. by rewrite Ec.
    + intros p Hq. left. injection Hs. cbn. congruence.
  - cbn. by destruct Hp as [->|[now ->]].
Qed.

(** *** The upload *)

Lemma ensurePending_kept ac orig b h :
  in_step (ac, orig) ->
  kwp h (ensurePending r ac orig b) (fun res h' => match res with
    | inr (p, st) => st = (with_record p ac, with_record p orig)
    | inl _ => True end).
Proof.
  intros Hs. unfold ensurePending. set (fresh := let! startedAt := call ONow in _).
  assert (Hpo : as_pending (ac_status orig) = as_pending (ac_status ac)) by (by injection Hs).
  assert (Hf : forall h, (forall p, as_pending (ac_status ac) = Some p -> pu_fingerprint p <> b_fingerprint b) ->
    kwp h fresh (fun res h' => match res with
      | inr (p, st) => st = (with_record p ac, with_record p orig) | inl _ => True end)).
  { intros h' Hne. unfold fresh, patchPendingUpload. repeat twp_step; [|by destruct r1]. split; [by left|].
    intros p Hp. do 3 right. eexists. split; [reflexivity|]. cbn. by apply not_eq_sym, Hne. }
  destruct (as_pending (ac_status ac)) as [p|] eqn:Ep; [|by apply Hf].
  destruct (String.eqb_spec (pu_fingerprint p) (b_fingerprint b)) as [|Hne]; [|apply Hf; by intros ? [= ->]].
  cbn. by rewrite !with_record_same.
Qed.

Lemma with_record_in_step p ac orig : in_step (ac, orig) -> in_step (with_record p ac, with_record p orig).
Proof.
  intros Hs. change (ledger ac = ledger orig) in Hs. unfold ledger in Hs. injection Hs as H1 _ H2.
  unfold in_step, ledger. cbn. by rewrite H1, H2.
Qed.

(** a certId that comes back was named by CAS for the record *)
Lemma uploadOrClaim_confirmed cas b p kp h :
  silent h (uploadOrClaim cas b p kp) (fun res h' => match res with inr id => cas_confirmed h' p id | inl _ => True end).
Proof.
  unfold uploadOrClaim, findByName. repeat twp_step. destruct r0 as [e|id].
  - destruct (_ && _); repeat twp_step; [|done]. destruct r0 as [e'|l]; repeat twp_step; [done|].
    destruct (List.find _ l) as [c|] eqn:El; [|done].
    apply find_some in El as [Hin%list_elem_of_In Hname%String.eqb_eq]. destruct (sum_cert_id c =? 0)%Z; [done|].
    apply cas_confirmed_cons. eexists. split; [by left|]. by exists l, c.
  - repeat twp_step. apply cas_confirmed_cons. eexists. by split; [left|].
Qed.

Lemma ensureUploaded_kept ac orig b h :
  in_step (ac, orig) -> kwp h (ensureUploaded r ac orig b) (fun '(_, (ac', orig')) h' => accounted h' orig' ac').
Proof.
  intros Hs. unfold ensureUploaded. destruct (current_is ac _); [by apply accounted_in_step|].
  unfold refreshUploadState. repeat twp_step. destruct r0 as [e|fresh]; [by apply accounted_in_step|]. cbn [twp bind].
  assert (Hs1 : in_step (adoptUploadState ac fresh, adoptUploadState orig fresh)) by done.
  revert Hs1. generalize (Ev (OGetAC (r_has_api_reader r) (ac_namespace ac) (ac_name ac)) (inr fresh) :: h).
  generalize (adoptUploadState ac fresh) (adoptUploadState orig fresh). clear ac orig Hs H h. intros ac orig h Hs.
  destruct (current_is ac _); [by apply accounted_in_step|]. unfold advanceGeneration. repeat twp_step.
  destruct (UploadEnabled _).
  2: { cbn. apply (pushGeneration_accounted _ ac); try done. intros p Hp. left. rewrite pushGeneration_pending.
       change (ledger ac = ledger orig) in Hs. injection Hs. congruence. }
  unfold uploadGeneration. twp_step. eapply twp_post; [by apply ensurePending_kept|].
  intros [e|[p st]] h2 H2; [by apply accounted_in_step|]. subst st. apply (with_record_in_step p) in Hs. twp_step.
  apply (kwp_calls _ _ (fun _ => True)); [by apply casClient_no_patch|apply returns_True|].
  intros [e|cas] h3 _ _; [by apply accounted_in_step|]. destruct (KeyPEM b) as [e|kp]; [by apply accounted_in_step|]. twp_step.
  apply kwp_silent. eapply twp_post; [apply uploadOrClaim_confirmed|].
  intros [e|id] h4 Hc; [by apply accounted_in_step|]. unfold Event. repeat twp_step.
  apply (pushGeneration_accounted _ (with_record p ac)); [done|done|done|]. intros q [= <-]. right. left. exists id.
  split; [by apply cas_confirmed_cons|]. left. rewrite remainingCertIDs_eq. apply elem_of_app. left. by left.
Qed.

(** *** Retention *)

Lemma reclaim_accounted ac orig h :
  accounted h orig ac -> silent h (reclaimOldGenerations r ac) (fun '(_, ac') h' => accounted h' orig ac').
Proof.
  intros Ha. eapply twp_post; [eapply twp_and; [|eapply twp_and; [by apply reclaim_ends|by apply reclaimOldGenerations_wp]]|].
  { apply (all_calls_twp no_patch); [by apply reclaim_no_patch|done]. }
  intros [err ac'] h' [_ [(Hh & Hk & _) [(n & E & _) _]]]. eapply accounted_shrink; [|exact Ha| |by rewrite E].
  - intros e He. by eapply elem_suffix.
  - intros id. rewrite !remainingCertIDs_eq. subst ac'. cbn in Hk |- *. rewrite !elem_of_app. intros [Hi|Hi]; [by left; left|].
    destruct (Hk id Hi); auto.
Qed.

(** *** The deletion *)

(** the pending record after a clean-up *)
Definition record_cleaned (ac : AliyunCertificate) (h : history) (a : AliyunCertificate) : Prop :=
  forall p, as_pending (ac_status ac) = Some p -> record_accounted h p a.

Lemma cleanupPendingUpload_record cas ac a h :
  as_pending (ac_status a) = as_pending (ac_status ac) ->
  silent h (cleanupPendingUpload cas a) (fun '(_, a') h' => record_cleaned ac h' a').
Proof.
  intros Hp. assert (Hsame : forall h', record_cleaned ac h' a) by (intros h' p Hq; left; congruence).
  unfold cleanupPendingUpload. destruct (as_pending (ac_status a)) as [p|] eqn:Ep; [|apply Hsame].
  repeat twp_step. destruct r0 as [e|l]; [apply Hsame|].
  destruct (List.find _ l) as [c|] eqn:El; repeat twp_step.
  - apply find_some in El as [Hin%list_elem_of_In Hname%String.eqb_eq].
    apply (silent_calls _ _ (fun _ => True)); [|apply returns_True|].
    { eapply all_calls_mono; [|apply recordCASDelete_reports]. by apply report_no_patch. }
    intros _ h2 Hh2 _. cbn [twp]. destruct (if is_not_found r0 then None else r0) as [e|] eqn:Ed; [apply Hsame|].
    intros q Hq. assert (q = p) as -> by congruence. right. left. exists (sum_cert_id c). split.
    + exists (Ev (OCASFind cas (casFindHint a "")) (inr l)). split; [apply Hh2; right; by left|]. by exists l, c.
    + right. eexists cas, _, r0. split; [apply Hh2; by left|]. destruct (is_not_found r0); [by right|by left].
  - intros q Hq. assert (q = p) as -> by congruence. do 2 right. left. eexists cas, _, l. split; [by left|].
    intros c Hc%list_elem_of_In Hname. pose proof (find_none _ _ El c Hc) as Hf. cbn in Hf.
    by rewrite Hname, String.eqb_refl in Hf.
Qed.

Lemma del_gen_no_patch cas uid g : all_calls no_patch (del_gen cas uid g).
Proof.
  unfold del_gen. destruct (gen_cert_id g); [|done]. twp_step; [by split|]. twp_step.
  { eapply all_calls_mono; [|apply recordCASDelete_reports]. by apply report_no_patch. }
  destruct a as [e|]; [|done]. by destruct (bool_decide _).
Qed.

Lemma del_gens_no_patch cas uid l : all_calls no_patch (del_gens cas uid l).
Proof.
  induction l as [|g l IH]; [done|]. cbn [del_gens]. twp_step; [apply del_gen_no_patch|]. destruct a as [[e|] g']; [done|].
  twp_step; [done|]. by destruct a.
Qed.

Lemma cleanupCAS_record ac h : silent h (cleanupCAS r ac) (fun '(_, a) h' => record_cleaned ac h' a).
Proof.
  assert (Hsame : forall a h', as_pending (ac_status a) = as_pending (ac_status ac) -> record_cleaned ac h' a).
  { intros a h' Ha p Hq. left. congruence. }
  unfold cleanupCAS. destruct (remainingCertIDs ac), (as_pending (ac_status ac)) eqn:Ep; [|by apply Hsame| |].
  all: twp_step; apply (silent_calls _ _ (fun _ => True)); [by apply casClient_no_patch|apply returns_True|].
  all: intros [e|cas] h1 _ _; [by apply Hsame|]; cbn zeta; twp_step.
  all: apply (silent_calls _ _ (fun _ => True)); [apply del_gens_no_patch|apply returns_True|].
  all: intros [[e|] hist] h2 _ _; [by apply Hsame|].
  all: destruct (as_current (ac_status (with_history hist ac))) as [c|]; cbn [bind]; [|by apply cleanupPendingUpload_record].
  all: do 2 twp_step; apply (silent_calls _ _ (fun _ => True)); [apply del_gen_no_patch|apply returns_True|].
  all: intros [[e|] c'] h3 _ _; cbn [twp bind]; [by apply Hsame|by apply cleanupPendingUpload_record].
Qed.

Lemma cleanupCAS_accounted ac orig h :
  in_step (ac, orig) -> silent h (cleanupCAS r ac) (fun '(_, a) h' => accounted h' orig a).
Proof.
  intros Hs. change (ledger ac = ledger orig) in Hs. eapply twp_post; [eapply twp_and; [|apply cleanupCAS_record]|].
  { eapply twp_mono; [| |by apply cleanupCAS_wp]; [|intros a h' H; exact H]. intros h' o Ho. destruct o; try done. cbn in Ho. tauto. }
  intros [err a] h' [(_ & (_ & Hg & _) & _) Hr]. split.
  - intros id. rewrite <-(remaining_ledger _ _ Hs), <-all_gens_ids. intros [H|H]%Hg; [left|by right; left].
    by rewrite <-all_gens_ids.
  - intros p Hp. apply Hr. injection Hs. congruence.
Qed.

Lemma reconcileDelete_kept ac h : kwp h (reconcileDelete r ac ac) any.
Proof.
  unfold reconcileDelete. destruct (negb _); [done|]. unfold delete_blocked. twp_step.
  eapply (twp_post _ _ _ _ any).
  { twp_step. apply (kwp_calls _ _ (fun _ => True)); [|apply returns_True|].
    { unfold liveBindingsFor. repeat twp_step; [exact I|]. by destruct a. }
    intros [e|bs] h1 _ _; [done|]. destruct (activeBindingNames bs) as [|n l]; [done|]. cbn zeta.
    unfold Event. repeat twp_step. eapply twp_post; [by eapply (kwp_patch_return _ _ ac); [apply accounted_in_step|]|done]. }
  intros [res|[]] h1 _; [done|]. twp_step.
  apply (twp_post _ _ _ _ (fun res _ => match res with inr st => in_step st | inl _ => True end)).
  { unfold delete_started. destruct (as_cleanup_started _); [done|]. repeat twp_step.
    apply kwp_patch; [intros h' _; by apply accounted_in_step|]. by intros [e|ac1] h'. }
  intros [res|[ac1 orig1]] h2 Hs; [done|]. unfold delete_cas. twp_step.
  apply (twp_post _ _ _ _ any).
  { twp_step. apply kwp_silent. eapply twp_post; [by apply (cleanupCAS_accounted _ orig1)|].
    intros [err ac2] h3 Ha. twp_step. apply (twp_post _ _ _ _ (fun stop h' => stop = None -> accounted h' orig1 ac2)).
    { destruct err as [e|]; [|cbn; by intros]. twp_step. split; [done|]. intros now _. cbn [twp].
      assert (Ha' : accounted (Ev ONow now :: h3) orig1 ac2) by (eapply accounted_mono; [|exact Ha]; later_tac).
      destruct (as_cleanup_started _); [|done]. destruct (negb _); cbn zeta.
      - twp_step. by eapply kwp_patch_accounted; [exact Ha'|done|].
      - unfold Event. repeat twp_step. intros _. eapply accounted_mono; [|exact Ha']. later_tac. }
    intros [res|] h4 Ha4; [done|]. twp_step. eapply kwp_patch_accounted; [by apply Ha4|done|]. by intros [e|ac3] h'. }
  intros [res|ac2] h3 _; [done|].
  apply (kwp_calls _ _ (fun _ => True)); [|apply returns_True|done].
  twp_step; [apply delete_certificate_no_patch|]. destruct a; [done|].
  twp_step; [apply delete_secret_no_patch|]. destruct a; [done|]. apply delete_finalizer_no_patch.
Qed.

(** *** The live round *)

Lemma reconcileIssued_kept ac orig cert st h : in_step (ac, orig) -> kwp h (reconcileIssued r ac orig cert st) any.
Proof.
  intros Hs. unfold reconcileIssued. twp_step.
  apply (kwp_calls _ _ (fun _ => True)); [|apply returns_True|].
  { eapply all_calls_mono; [|apply loadMaterial_calls]. by intros ? ->. }
  intros [me|b] h1 _ _; cbn zeta.
  { twp_step. apply (kwp_calls _ _ (fun _ => True)); [by destruct (String.eqb _ _)|apply returns_True|].
    intros _ h2 _ _. eapply (kwp_patch_return _ _ ac); [by apply accounted_in_step|by rewrite aggregateReady_ledger]. }
  match goal with |- kwp _ (bind (probe_step _ ?a _ _) _) _ => assert (Hs1 : in_step (a, orig)) by by destruct st end.
  revert Hs1. generalize (if st then ac else setCondition ac ConditionIssued CondTrue ReasonReady "Secret 通过校验").
  intros ac1 Hs1. twp_step. eapply twp_post; [by apply probe_step_kept|].
  intros [res|[ac2 orig2]] h2 Hs2; [done|]. twp_step. eapply twp_post; [by apply ensureUploaded_kept|].
  intros [[e|ch] [ac3 orig3]] h3 Ha3; [by apply handleCloudError_kept|]. cbn zeta. twp_step.
  assert (Ha4 : accounted h3 orig3 (setUploadedCondition ac3)).
  { eapply accounted_same; [done| |exact Ha3]. exact (f_equal ledger (setUploadedCondition_rest ac3)). }
  apply kwp_silent. eapply twp_post; [by apply (reclaim_accounted _ orig3)|]. intros [err ac4] h4 Ha5.
  destruct err; [by apply handleReclaimError_kept|]. by eapply kwp_patch_return; [exact Ha5|rewrite aggregateReady_ledger].
Qed.

Lemma observeIssuance_ledger ac cert : returns (fun '(ac', _) => ledger ac' = ledger ac) (observeIssuance r ac cert).
Proof.
  unfold observeIssuance. destruct (certIssuingSince cert) as [i since]. destruct (_ && _); [|done].
  cbn. intros now. by destruct (_ <? _)%Z.
Qed.

Lemma reconcileCertificate_kept ac orig cert h : in_step (ac, orig) -> kwp h (reconcileCertificate r ac orig cert) any.
Proof.
  intros Hs. unfold reconcileCertificate. twp_step. destruct (observeIssuance_spec r ac cert) as [Hn _].
  eapply (kwp_calls _ _ _ _ Hn (observeIssuance_ledger _ _)). intros [ac1 st] h1 _ H1. cbn beta iota in H1.
  assert (Hs1 : in_step (ac1, orig)) by (unfold in_step in *; cbn in *; congruence).
  destruct (certReady cert); [by apply reconcileIssued_kept|].
  eapply (kwp_patch_return _ _ ac1); [by apply accounted_in_step|]. rewrite aggregateReady_ledger. by destruct st.
Qed.

Lemma reconcileLive_kept ac orig existing issuer h :
  in_step (ac, orig) -> kwp h (reconcileLive r ac orig existing issuer) any.
Proof.
  intros Hs. unfold reconcileLive. twp_step.
  apply (kwp_calls _ _ (fun _ => True)); [|apply returns_True|].
  { destruct (match existing with Some _ => _ | None => _ end); [done|]. by repeat split. }
  intros [e|[]] h1 _ _; [done|destruct existing as [cert|]|].
  - by apply reconcileCertificate_kept.
  - by eapply (kwp_patch_return _ _ ac); [apply accounted_in_step|].
  - twp_step. apply (kwp_calls _ _ (fun _ => True)); [|apply returns_True|].
    { unfold syncCertificate. twp_step; [by split|]. destruct a as [e|[op cert]]; [done|]. twp_step; [|done].
      destruct (_ && _); [|done]. by repeat split. }
    intros [e|cert] h2 _ _; [done|]. by apply reconcileCertificate_kept.
Qed.

Lemma detectIssuer_ledger ac source : returns (fun ac' => ledger ac' = ledger ac) (detectIssuerDivergence r ac source).
Proof.
  unfold detectIssuerDivergence. destruct (Ref _) as [d|]; [|done]. destruct (_ && _); [|done].
  apply returns_bind. by destruct (condTrue _ _); cbn; intros.
Qed.

(** it changes nothing but a condition *)
Lemma detectIssuer_rest ac source : returns (fun ac' => but_conditions ac' = but_conditions ac) (detectIssuerDivergence r ac source).
Proof.
  unfold detectIssuerDivergence. destruct (Ref _) as [d|]; [|done]. destruct (_ && _); [|done].
  apply returns_bind. by destruct (condTrue _ _); cbn; intros.
Qed.

Lemma reconcileNormal_kept ac h : kwp h (reconcileNormal r ac ac) any.
Proof.
  unfold reconcileNormal. cbn zeta. repeat twp_step.
  destruct (match r0 with inl e => if IsNotFound e then inr None else inl e | inr c => inr (Some c) end)
    as [e|existing]; [done|].
  destruct (ResolveIssuerRef _ _ _ _) as [[issuer source]|];
    [|by eapply (kwp_patch_return _ _ ac); [apply accounted_in_step|]].
  twp_step. eapply (kwp_calls _ _ _ _ (detectIssuer_no_patch _ _ _) (detectIssuer_ledger _ _)).
  intros ac2 h1 _ H2. by apply reconcileLive_kept.
Qed.

Lemma Reconcile_kept ns name : kwp [] (Reconcile r ns name) any.
Proof.
  unfold Reconcile. repeat twp_step. destruct r0 as [e|ac]; [done|].
  destruct (is_deleting _); [apply reconcileDelete_kept|].
  destruct (negb _); [by repeat twp_step|]. apply reconcileNormal_kept.
Qed.

End accounts.

(** ** Properties *)

(** C4: No certificate is forgotten.  In every run of a whole round, also one that crashes
    midway, a status write takes a certId off the status (against the base of its
    patch) only when CAS confirmed the deletion or listed no such certificate in this
    round, or when the current generation it belongs to has no fingerprint; and it
    takes the record of an upload off only when CAS named the certificate the record
    made, and that one is in the status or confirmed deleted, when CAS listed no
    certificate of the record's name, or when the record of another certificate
    replaces it. *)
Theorem no_certificate_is_forgotten `{KL : KubeLibLaws} `{CL : CryptoLaws} (r : CertReconciler) `{!CASFactoryOk r}
    (ns name : string) (h : history) (rest : prog Result) :
  reaches any_env [] (Reconcile r ns name) h rest -> all_allowed keeps_account h.
Proof. intros Hr. eapply twp_reaches_allowed; [by apply Reconcile_kept|exact I|exact Hr]. Qed.

(** a renewal of [sample_old] two days later: the new generation is uploaded, and
    retention deletes the two oldest *)
Definition renewal_world : handler unit := fun _ o =>
  match o return resp o * unit with
  | OGetAC _ _ _ => (inr sample_old, tt)
  | OCASDelete _ _ _ => (None, tt)
  | ONow => ((48 * hour)%Z, tt)
  | o => issued_world tt o
  end.

Lemma no_certificate_is_forgotten_witness :
  let run := exec renewal_world tt [] (@Reconcile (ref_kube 0) toy_crypto sample_reconciler "prod" "site") in
  remainingCertIDs sample_old = [3; 2; 1]%Z /\
  remainingCertIDs <$> last_patched run.1.2 = Some [4711; 3]%Z /\
  all_allowed keeps_account run.1.2.
Proof.
  intros run. split; [vm_compute; reflexivity|]. split; [vm_compute; reflexivity|].
  exact (@no_certificate_is_forgotten (ref_kube 0) (ref_kube_laws 0) toy_crypto toy_crypto_laws sample_reconciler _ "prod" "site" _ _
    (exec_reaches renewal_world any_env [] tt _ (fun _ _ _ => I))).
Defined.

(** The last of these causes loses a certificate: when the answer of an upload was
    lost after CAS had stored the certificate, and the certificate is renewed before
    the upload is tried again, the record of the renewal replaces the only trace of
    the first one.  CAS then holds two certificates, of which the status knows one. *)
Example renewal_orphans_lost_upload :
  let visit m := (map_to_list m).*2 in
  let api : handler AliyunCertificate := fun s o => match o return resp o * AliyunCertificate with
    | OGetAC _ _ _ => (inr s, s)
    | OPatchACStatus a _ => (inr a, a)
    | o => (failed_resp o, s) end in
  let rounds :=
    let! '(first, (ac, orig)) := @ensureUploaded toy_crypto sample_reconciler sample_ac sample_ac (sample_bundle "old") in
    let! '(second, (ac, _)) := @ensureUploaded toy_crypto sample_reconciler ac orig (sample_bundle "leaf") in
    Ret (first, second, ac) in
  let run := exec (fake_world visit api) (lossy_cloud, sample_ac) [] rounds in
  let '(first, second, ac) := run.1.1 in
  first = inl EDeadline /\ second = inr true /\
  (map_to_list (FakeCAS.certs (cl_cas run.2.1))).*1 = [1001; 1002]%Z /\
  remainingCertIDs ac = [1002]%Z /\ as_pending (ac_status ac) = None.
Proof. vm_compute. done. Qed.
