(* ===== verification/CertWorld.v ===== *)
(** * The certificate controller against the cluster and CAS

    Whole rounds of a live certificate are run against the in-memory CAS and an API
    server that keeps one object: reads show it, a status patch changes the fields in
    which the patch's object differs from its base.  Once cert-manager has issued,
    rounds bring the certificate to CAS, once, and to Ready, and then keep it there. *)
From S2P Require Import Prelude GoString GoTime Api GoError Cloud KubeLib Effects FakeCAS FakeFC3 FakeOSS FakeCloud.
From S2P Require Import Naming Tokens Bundle Sans Issuer CertStatus Samples CertMaterial CertUpload UploadWorld CertProbe.
From S2P Require Import CertRetention CertDeletion CertController CertTheorems CertAccounts.

#[local] Open Scope prog_scope.

(** ** The API server *)

(** what a status patch leaves of one field: the server's value where the patch does
    not touch it, the patch's where it was made from the server's *)
Definition moved {X} (s base a s' : X) : Prop := (a = base -> s' = s) /\ (base = s -> s' = a).

(** the fields of the status the upload depends on *)
Definition fields (ac : AliyunCertificate) :
    option CertificateGeneration * list CertificateGeneration * option PendingUpload * list Condition * string :=
  let s := ac_status ac in (as_current s, as_history s, as_pending s, as_conditions s, as_secret_name s).

(** what a status patch does not change *)
Definition ident (ac : AliyunCertificate) : AliyunCertificateSpec * (string * string * string) * option gotime * list string :=
  let m := ac_meta ac in (ac_spec ac, (om_namespace m, om_name m, om_uid m), om_deletion m, om_finalizers m).

Record merged (s base a s' : AliyunCertificate) : Prop := {
  mg_ident : ident s' = ident s;
  mg_current : moved (as_current (ac_status s)) (as_current (ac_status base)) (as_current (ac_status a)) (as_current (ac_status s'));
  mg_history : moved (as_history (ac_status s)) (as_history (ac_status base)) (as_history (ac_status a)) (as_history (ac_status s'));
  mg_pending : moved (as_pending (ac_status s)) (as_pending (ac_status base)) (as_pending (ac_status a)) (as_pending (ac_status s'));
  mg_conditions : moved (as_conditions (ac_status s)) (as_conditions (ac_status base)) (as_conditions (ac_status a)) (as_conditions (ac_status s'));
  mg_secret : moved (as_secret_name (ac_status s)) (as_secret_name (ac_status base)) (as_secret_name (ac_status a)) (as_secret_name (ac_status s'))
}.

(** an API server that does so *)
#[export] Instance CertificateGeneration_eq_dec : EqDecision CertificateGeneration.
Proof. solve_decision. Defined.
#[export] Instance PendingUpload_eq_dec : EqDecision PendingUpload.
Proof. solve_decision. Defined.
#[export] Instance Condition_eq_dec : EqDecision Condition.
Proof. solve_decision. Defined.

Definition merge_field {X} `{EqDecision X} (s base a : X) : X := if decide (a = base) then s else a.

Definition merge (s base a : AliyunCertificate) : AliyunCertificate :=
  let m {X} `{EqDecision X} (f : AliyunCertificateStatus -> X) := merge_field (f (ac_status s)) (f (ac_status base)) (f (ac_status a)) in
  on_status (fun x => set_as_current (m as_current) (set_as_history (m as_history) (set_as_pending (m as_pending)
    (set_as_conditions (m as_conditions) (set_as_secret_name (m as_secret_name) x))))) s.

Lemma merge_field_moved {X} `{EqDecision X} (s base a : X) : moved s base a (merge_field s base a).
Proof. unfold moved, merge_field. destruct (decide (a = base)) as [->|]; by split. Qed.

Lemma merge_merged s base a : merged s base a (merge s base a).
Proof. split; [done|..]; apply merge_field_moved. Qed.

(** the object of a status patch that went through *)
Definition patch_answer (e : event) : option AliyunCertificate :=
  match e with
  | Ev o r =>
      match o return resp o -> option AliyunCertificate with
      | OPatchACStatus _ _ => fun r => match r with inr a => Some a | inl _ => None end
      | _ => fun _ => None
      end r
  end.

(** the object in the API server after a history *)
Fixpoint stored (ac0 : AliyunCertificate) (h : history) : AliyunCertificate :=
  match h with
  | [] => ac0
  | e :: h => match patch_answer e with Some a => a | None => stored ac0 h end
  end.

(** neither CAS nor the object is reached *)
Definition neutral (o : op) : Prop :=
  cloud_call o = false /\ match o with OPatchACStatus _ _ => False | _ => True end.

Lemma stored_since ac0 h h' : only_since neutral h h' -> stored ac0 h' = stored ac0 h.
Proof.
  intros (new & -> & Hn). induction Hn as [|[o x] new [_ He] _ IH]; [done|]. cbn [app stored]. rewrite IH. by destruct o.
Qed.

Lemma client_neutral o : client_call o -> neutral o.
Proof. by destruct o; intros []. Qed.

Lemma report_neutral o : is_report o -> neutral o.
Proof. by destruct o; intros []. Qed.

(** *** Patches *)

Lemma merged_current s base a s' : fields base = fields s -> merged s base a s' -> fields s' = fields a /\ ident s' = ident s.
Proof.
  intros Hb [Hi [_ H1] [_ H2] [_ H3] [_ H4] [_ H5]]. split; [|done]. injection Hb as E1 E2 E3 E4 E5.
  unfold fields. by rewrite H1, H2, H3, H4, H5.
Qed.

(** the patch that writes a record ahead is made from the object of the round *)
Lemma merged_record s ac p s' :
  as_pending (ac_status ac) = as_pending (ac_status s) -> merged s ac (with_record p ac) s' ->
  fields s' = fields (with_record p s) /\ ident s' = ident s.
Proof.
  intros Hp [Hi [H1 _] [H2 _] [_ H3] [H4 _] [H5 _]]. split; [|done]. cbn in *. unfold fields. cbn.
  by rewrite H1, H2, H3, H4, H5.
Qed.

(** *** The copies of a round *)

Lemma fields_ledger a a' : fields a = fields a' -> ledger a = ledger a'.
Proof. intros [= E1 E2 E3 _ _]. unfold ledger. by rewrite E1, E2, E3. Qed.

Lemma ident_names a a' : ident a = ident a' ->
  ac_spec a = ac_spec a' /\ ac_namespace a = ac_namespace a' /\ ac_name a = ac_name a' /\
  om_uid (ac_meta a) = om_uid (ac_meta a') /\ secretNameFor a = secretNameFor a' /\ ac_aliyun a = ac_aliyun a' /\
  is_deleting (ac_meta a) = is_deleting (ac_meta a').
Proof.
  intros [= E1 E2 E3 E4 E5 E6]. unfold ac_namespace, secretNameFor, ac_name, ac_aliyun, is_deleting. by rewrite E1, E2, E3, E4, E5.
Qed.

(** what Ready is computed from *)
Lemma same_conditions `{KubeLib} a a' t :
  as_conditions (ac_status a') = as_conditions (ac_status a) -> condTrue a' t = condTrue a t.
Proof. unfold condTrue. by intros ->. Qed.

Lemma same_guard a a' : ident a' = ident a -> as_secret_name (ac_status a') = as_secret_name (ac_status a) ->
  secretNameGuardHolding a' = secretNameGuardHolding a.
Proof. intros Hi Hs. destruct (ident_names _ _ Hi) as (_ & _ & _ & _ & E & _). unfold secretNameGuardHolding. by rewrite E, Hs. Qed.

Lemma pushGeneration_rest gen ac : as_conditions (ac_status (pushGeneration gen ac)) = as_conditions (ac_status ac) /\
  as_secret_name (ac_status (pushGeneration gen ac)) = as_secret_name (ac_status ac).
Proof. unfold pushGeneration. cbn. destruct (as_current (ac_status ac)) as [g|]; [by destruct (negb _)|done]. Qed.

Lemma ResolveIssuerRef_existing tpl st cert d :
  iss_name (cs_issuer_ref (cert_spec cert)) <> "" -> is_Some (ResolveIssuerRef tpl st (Some cert) d).
Proof.
  intros Hn%String.eqb_neq. unfold ResolveIssuerRef. destruct (named _); [eauto|]. destruct (named _); [eauto|].
  cbn. rewrite Hn. cbn. eauto.
Qed.

(** ** CAS *)

(** a CAS that answers *)
Record answers (s : FakeCAS.CAS) : Prop := {
  an_wf : FakeCAS.wf s;
  an_upload : FakeCAS.uploadErrs s = [];
  an_find : FakeCAS.findErrs s = [];
  an_commit : FakeCAS.failAfterCommit s = None
}.

(** an upload that is answered: the certificate of the name is there, an earlier one or
    a new one, and nothing is lost *)
Record landed (s s' : FakeCAS.CAS) (name : string) (id : Z) : Prop := {
  ld_answers : answers s';
  ld_next : (FakeCAS.nextID s' <= FakeCAS.nextID s + 1)%Z;
  ld_kept i x : FakeCAS.certs s !! i = Some x -> FakeCAS.certs s' !! i = Some x;
  ld_there : exists x, FakeCAS.certs s' !! id = Some x /\ FakeCAS.Name x = name;
  ld_new : (exists x, FakeCAS.certs s !! id = Some x /\ FakeCAS.Name x = name) \/ id = (FakeCAS.nextID s + 1)%Z
}.

(** the same certificates *)
Definition same_cas (s s' : FakeCAS.CAS) : Prop :=
  FakeCAS.certs s' = FakeCAS.certs s /\ FakeCAS.nextID s' = FakeCAS.nextID s /\ (answers s -> answers s').

Lemma same_cas_refl s : same_cas s s.
Proof. done. Qed.

Lemma find_same visit hint s : same_cas s (FakeCAS.FindUploaded visit hint s).2.
Proof.
  destruct (FakeCAS.Find_same visit hint s) as (E1 & E2 & E3 & E4). destruct (FakeCAS.Find_faults visit hint s) as (_ & E5 & _).
  split; [done|]. split; [done|]. intros [Hw Hu Hf Hc]. split; [by apply (FakeCAS.wf_same s)|congruence|by rewrite E5, Hf|].
  unfold FakeCAS.FindUploaded. by destruct (FakeCAS.pop _) as [[e|] q].
Qed.

(** a name that is taken is reported as a duplicate; otherwise an upload lands *)
Lemma upload_lands name cert key token s :
  answers s -> room 1 s -> owned s name token ->
  let r := (FakeCAS.Upload name cert key token s).1 in let s' := (FakeCAS.Upload name cert key token s).2 in
  (exists id, r = inr id /\ landed s s' name id) \/
  (r = inl FakeCAS.ErrDuplicateName /\ same_cas s s' /\ exists id, cert_named s name id).
Proof.
  cbn zeta. intros [Hwf Hu Hf Hc] Hroom Ho. assert (Hmax : (FakeCAS.nextID s < int64_max)%Z) by (unfold room in Hroom; lia).
  pose proof (FakeCAS.Upload_wf name cert key token s Hwf Hmax) as Hwf'. pose proof (FakeCAS.wf_next s Hwf) as Hn.
  revert Hwf'. unfold FakeCAS.Upload. rewrite Hu. cbn [FakeCAS.pop]. cbn [FakeCAS.byToken FakeCAS.certs].
  destruct (if String.eqb token "" then None else FakeCAS.byToken s !! token) as [id|] eqn:Et; cbn [fst snd]; intros Hwf'.
  - left. exists id. split; [done|]. assert (Hb : FakeCAS.byToken s !! token = Some id) by by destruct (String.eqb token "").
    destruct (FakeCAS.wf_index s Hwf token id Hb) as (_ & x & Hx & Ex).
    split; cbn; [by split|lia|done| |left]; exists x; (split; [done|by apply (Ho id)]).
  - destruct (FakeCAS.name_taken name (FakeCAS.certs s)) eqn:En; cbn [fst snd] in *.
    + right. split; [done|]. apply FakeCAS.name_taken_spec in En as (id & x & Hx & Ex).
      split; [|by exists id, x]. split; [done|]. split; [done|]. by split.
    + left. cbn [FakeCAS.failAfterCommit]. rewrite Hc. eexists. split; [reflexivity|].
      assert (Ei : int64_incr (FakeCAS.nextID s) = (FakeCAS.nextID s + 1)%Z) by (apply int64_incr_lt; lia).
      split; cbn; rewrite ?Ei; [split; cbn; rewrite ?Ei; done|lia| | |by right].
      * intros i x Hx. rewrite lookup_insert_ne; [done|]. apply (FakeCAS.wf_id s Hwf) in Hx as [_ Hx]. lia.
      * eexists. by rewrite lookup_insert_eq.
Qed.

Section world.
  Context `{KL : KubeLibLaws} `{CL : CryptoLaws} (visit : gmap Z FakeCAS.Cert -> list FakeCAS.Cert).
  Context (Hvisit : FakeCAS.visits visit).
  Context (r : CertReconciler) `{!CASFactoryOk r} (ac0 : AliyunCertificate) (c0 : cloud) (cert : Certificate).
  Context (b : Bundle) (kp : string).

(** the world of an issued certificate: the API server keeps the object, cert-manager
    has written the Certificate and the Secret [b] is read from, CAS is the in-memory
    one; [E] is whatever else is known of the surroundings *)
Definition steady (E : environment) : environment := fun h o x =>
  E h o x /\ fake_env visit c0 h o x /\
  match o return resp o -> Prop with
  | OGetAC _ _ _ => fun x => x = inr (stored ac0 h)
  | OPatchACStatus a base => fun x => exists s', x = inr s' /\ merged (stored ac0 h) base a s'
  | OGetCert _ _ => fun x => x = inr cert
  | OCreateOrUpdateCert _ _ => fun x => exists res, x = inr (res, cert)
  | OGetSecret ns n => fun x => ns = ac_namespace ac0 -> n = secretNameFor ac0 ->
      exists s, x = inr s /\
        ParseBundle (default "" (sec_data s !! TLSCertKey)) (default "" (sec_data s !! TLSPrivateKeyKey)) = inr b
  | _ => fun _ => True
  end x.

Context (E : environment).
Abbreviation swp := (twp (steady E) any_call).

(** the object and CAS, as they stand *)
Definition world (h : history) : AliyunCertificate * FakeCAS.CAS := (stored ac0 h, cas_after visit c0 h).

Lemma world_since h h' : only_since neutral h h' -> world h' = world h.
Proof using Type.
  intros Hs. unfold world. rewrite (stored_since ac0 h h' Hs). f_equal. apply cas_after_since.
  eapply only_since_mono; [|exact Hs]. by intros o [].
Qed.

(** a part of a round that reaches neither *)
Lemma neutral_bind {A B} h (q : prog A) (f : A -> prog B) R Q :
  all_calls neutral q -> returns R q ->
  (forall a h', world h' = world h -> R a -> swp h' (f a) Q) -> swp h (bind q f) Q.
Proof using Type.
  intros Hq HR Hf. apply twp_bind. eapply twp_post; [apply twp_returns_and; [by apply (all_calls_twp neutral)|exact HR]|].
  intros a h' [Hs Ha]. apply Hf; [by apply world_since|done].
Qed.

(** the client CAS is called with *)
Definition has_client : Prop := forall ac h, swp h (casClient r ac) (fun x _ => exists cl, x = inr cl).

Lemma client_bind {B} h ac (f : goerr + CASClient -> prog B) Q :
  has_client -> (forall cl h', world h' = world h -> swp h' (f (inr cl)) Q) -> swp h (bind (casClient r ac) f) Q.
Proof using CASFactoryOk0.
  intros Hc Hf. apply twp_bind. eapply twp_post; [apply (twp_and _ _ any_call); [apply Hc|apply (all_calls_twp neutral); [|done]]|].
  { eapply all_calls_mono; [apply client_neutral|by apply casClient_calls]. }
  intros x h' [[cl ->] Hs]. apply Hf. by apply world_since.
Qed.

(** a patch against the object the API server has *)
Lemma patch_world h a base s c :
  world h = (s, c) -> fields base = fields s ->
  swp h (patchStatus a base) (fun x h' => exists s', x = inr s' /\ world h' = (s', c) /\ fields s' = fields a /\ ident s' = ident s).
Proof using Type.
  intros Hw Hb. apply patchStatus_wp; [done|done|]. intros h1 x Hs (_ & _ & s' & -> & Hm).
  assert (Hw1 : world h1 = (s, c)).
  { rewrite <-Hw. apply world_since. eapply only_since_mono; [|exact Hs]. apply report_neutral. }
  injection Hw1 as E1 E2. rewrite E1 in Hm. exists s'. split; [done|]. split; [|by apply (merged_current s base)].
  unfold world. f_equal. rewrite <-E2. apply cas_after_since. exists [Ev (OPatchACStatus a base) (inr s')]. by repeat constructor.
Qed.

(** ** The steps of a round *)

(** the copies of the round, with the object [s] in the API server *)
Record backed (s ac orig : AliyunCertificate) : Prop := {
  bk_ident : ident ac = ident s;
  bk_orig : fields orig = fields s;
  bk_ledger : ledger ac = ledger s;
  bk_issued : condTrue ac ConditionIssued = true;
  bk_guard : secretNameGuardHolding ac = false
}.

Definition hint : string := first_or (DNSNames b) "".

(** a listing for the names of the bundle shows certificates of this name *)
Definition findable (name : string) : Prop := contains name (FakeCAS.sanitizeHint hint) = true.

(** the certificate is current, and in CAS *)
Definition held (s : AliyunCertificate) (c : FakeCAS.CAS) : Prop :=
  exists g id x, as_current (ac_status s) = Some g /\ gen_fingerprint g = b_fingerprint b /\ gen_cert_id g = Some id /\
    (id ∉ flat_map gen_ids (as_history (ac_status s))) /\ as_pending (ac_status s) = None /\
    FakeCAS.certs c !! id = Some x /\ findable (FakeCAS.Name x).

(** the record an upload will be made from, and what must hold of it *)
Definition usable (s : AliyunCertificate) (c : FakeCAS.CAS) (name token : string) : Prop :=
  findable name /\ owned c name token /\
  forall id x, id ∈ remainingCertIDs s -> FakeCAS.certs c !! id = Some x -> FakeCAS.Name x <> name.

(** the names and tokens of an upload are free, or stand for this very certificate *)
Definition uploadable (s : AliyunCertificate) (c : FakeCAS.CAS) : Prop :=
  (forall id, id ∈ remainingCertIDs s -> (id <= FakeCAS.nextID c)%Z) /\
  (forall t, usable s c (CASName (ac_name s) (b_fingerprint b)) (uploadToken (om_uid (ac_meta s)) (b_fingerprint b) t)) /\
  (forall p, as_pending (ac_status s) = Some p -> pu_fingerprint p = b_fingerprint b ->
    usable s c (pu_cas_name p) (pu_client_token p)).

(** the certificate is not current yet *)
Definition awaiting (s : AliyunCertificate) (c : FakeCAS.CAS) : Prop :=
  current_is s (b_fingerprint b) = false /\ uploadable s c.

(** whenever the clock is read, the probe of the generation is due *)
Definition due (s : AliyunCertificate) (g : CertificateGeneration) : Prop :=
  forall h now, E h ONow now -> time_before (gen_not_after g) now = false /\
    match as_probed_at (ac_status s) with Some t => (r_cas_probe_interval r <= time_sub now t)%Z | None => True end.

(** the certificate is current, but somebody has deleted it from CAS *)
Definition missing (s : AliyunCertificate) (c : FakeCAS.CAS) : Prop :=
  (exists g id, as_current (ac_status s) = Some g /\ gen_fingerprint g = b_fingerprint b /\ gen_cert_id g = Some id /\
    FakeCAS.certs c !! id = None /\ due s g) /\ uploadable s c.

Lemma held_current s c : held s c -> current_is s (b_fingerprint b) = true.
Proof using Type. intros (g & id & x & Hc & Hf & _). unfold current_is. by rewrite Hc, Hf, String.eqb_refl. Qed.

Lemma held_same s s' c c' : ledger s' = ledger s -> FakeCAS.certs c' = FakeCAS.certs c -> held s c -> held s' c'.
Proof using Type.
  intros [= E1 E2 E3] Hc (g & id & x & H). exists g, id, x. by rewrite E1, E2, E3, Hc.
Qed.

Lemma usable_same s s' c c' n t : (forall id, id ∈ remainingCertIDs s' -> id ∈ remainingCertIDs s) ->
  FakeCAS.certs c' = FakeCAS.certs c -> usable s c n t -> usable s' c' n t.
Proof using Type. intros Hi Hc (H1 & H2 & H3). split; [done|]. split; [intros id x|intros id x Hid]; rewrite Hc; eauto. Qed.

Lemma awaiting_same s s' c c' :
  ident s' = ident s -> current_is s' (b_fingerprint b) = false -> as_pending (ac_status s') = as_pending (ac_status s) ->
  (forall id, id ∈ remainingCertIDs s' -> id ∈ remainingCertIDs s) -> same_cas c c' -> uploadable s c -> awaiting s' c'.
Proof using Type.
  intros Hi Hcur Hp Hids (Hc & Hn & _) (H1 & H2 & H3). destruct (ident_names _ _ Hi) as (_ & _ & En & Eu & _).
  split; [done|]. split; [rewrite Hn; auto|]. rewrite En, Eu, Hp. split; [intros t|intros p Hq Hf]; eapply usable_same; eauto.
Qed.

(** *** The probe *)

Lemma find_world h cl k (Q : goerr + list CertSummary -> history -> Prop) s c :
  world h = (s, c) ->
  (forall x h' c', x = (FakeCAS.FindUploaded visit k c).1 -> world h' = (s, c') -> same_cas c c' -> Q x h') ->
  swp h (call (OCASFind cl k)) Q.
Proof using Type.
  intros Hw HQ. split; [exact I|]. intros x (_ & Hx & _). apply env_find in Hx as [Hx Hc]. injection Hw as Hs Hc0. rewrite Hc0 in Hx, Hc.
  apply (HQ x _ (FakeCAS.FindUploaded visit k c).2); [done| |apply find_same]. unfold world. cbn [stored patch_answer]. by rewrite Hs, Hc.
Qed.

Lemma probeCAS_world h ac s c :
  has_client -> world h = (s, c) -> hint <> "" ->
  swp h (probeCAS r ac hint) (fun '(res, ac') h' => exists c', world h' = (s, c') /\ same_cas c c' /\ probed ac res ac' /\
    (answers c -> held ac c -> res <> inr true)).
Proof using CASFactoryOk0 Hvisit.
  intros Hcl Hw Hd. assert (Hstay : forall res ac' h', world h' = (s, c) -> probed ac res ac' -> res <> inr true ->
    exists c', world h' = (s, c') /\ same_cas c c' /\ probed ac res ac' /\ (answers c -> held ac c -> res <> inr true)).
  { intros res ac' h' Hw' Hp Hr. exists c. do 3 (split; [done|]). by intros. }
  unfold probeCAS. destruct (probe_target ac) as [[cur id]|] eqn:Et; [|apply Hstay; [done|by left|done]].
  eapply neutral_bind; [by split|apply returns_True|]. intros now h1 Hw1 _.
  destruct (time_before _ _); [apply Hstay; [congruence|by left|done]|].
  eapply neutral_bind; [by destruct (as_probed_at (ac_status ac)); repeat split|apply returns_True|].
  intros th h2 Hw2 _. destruct th; [apply Hstay; [congruence|by left|done]|].
  apply client_bind; [done|]. intros cl h3 Hw3. twp_step.
  apply (find_world _ _ _ _ s c); [congruence|]. intros l h4 c' Hl Hw4 Hsame. destruct l as [e|l]; cbn [twp].
  { exists c'. do 2 (split; [done|]). split; [done|]. by intros. }
  eapply neutral_bind; [by split|apply returns_True|]. intros now' h5 Hw5 _.
  destruct (existsb _ l) eqn:El.
  { exists c'. split; [congruence|]. split; [done|]. split; [right; eauto|]. by intros. }
  eapply neutral_bind; [by split|apply returns_True|]. intros u h6 Hw6 _. exists c'. split; [congruence|]. split; [done|].
  split; [cbn; eauto|]. intros Ha (g & i & x & Hg & _ & Hi & _ & Hp & Hx & Hfind) _.
  unfold probe_target in Et. rewrite Hg, Hi in Et. destruct (UploadEnabled _); [|done]. injection Et as <- <-.
  destruct (FakeCAS.Find_complete visit hint c l i x Hvisit (an_wf _ Ha)) as (y & Hy & _ & Hyi).
  { unfold casFindHint in Hl. rewrite Hp in Hl. apply String.eqb_neq in Hd. rewrite Hd in Hl. by symmetry. }
  { done. }
  { by right. }
  by destruct (existsb_id_false _ _ El y Hy).
Qed.

(** what a probe found gone is cleared in the status, and awaits its upload *)
Lemma forgotten_world h s c c1 ac orig now :
  valid_bundle b -> world h = (s, c1) -> same_cas c c1 -> backed s ac orig -> uploadable s c ->
  swp h (let! patched := patchStatus (forget_current (on_status (set_as_probed_at (Some now)) ac)) orig in
         Ret match patched with inl e => inl (0%Z, Some e) | inr ac => inr (ac, ac) end)
    (fun res h' => exists s', res = @inr Result round (s', s') /\ world h' = (s', c1) /\ backed s' s' s' /\ ident s' = ident s /\ awaiting s' c1).
Proof using CASFactoryOk0 Hvisit CL KL.
  intros Hv Hw Hsame [Hi Ho Hl Hiss Hg] Hup. twp_step.
  eapply twp_post; [apply (patch_world _ _ orig s c1 Hw Ho)|]. intros x h2 (s2 & -> & Hw2 & Hf2 & Hi2). cbn [twp].
  exists s2. do 2 (split; [done|]). split; [split; try done|split; [done|]].
  - etrans; [|exact Hiss]. apply same_conditions. by injection Hf2.
  - etrans; [|exact Hg]. apply same_guard; [congruence|by injection Hf2].
  - apply (awaiting_same s s2 c c1); [done| | | |done|done].
    + unfold current_is. injection Hf2 as -> _ _ _ _. cbn. destruct (as_current (ac_status ac)) as [g|]; cbn; [|done].
      pose proof (fingerprint_64 b Hv) as Hlen. by destruct (b_fingerprint b).
    + injection Hf2 as _ _ -> _ _. by injection Hl.
    + intros id. rewrite (remaining_ledger _ _ (fields_ledger _ _ Hf2)), <-(remaining_ledger _ _ Hl).
      rewrite !remainingCertIDs_eq. cbn. destruct (as_current (ac_status ac)); cbn; set_solver.
Qed.

Lemma probe_step_world h s c ac orig :
  valid_bundle b -> has_client -> world h = (s, c) -> hint <> "" -> backed s ac orig -> answers c -> held s c \/ awaiting s c ->
  swp h (probe_step r ac orig b) (fun res h' => exists s' c' ac' orig', res = inr (ac', orig') /\
    world h' = (s', c') /\ same_cas c c' /\ backed s' ac' orig' /\ ident s' = ident s /\ (held s c -> held s' c') /\
    (awaiting s c -> awaiting s' c')).
Proof using CASFactoryOk0 Hvisit CL KL.
  intros Hv Hcl Hw Hd Hb Hans Hst. pose proof Hb as [Hi Ho Hl Hiss Hg]. unfold probe_step. fold hint. twp_step.
  eapply twp_post; [by apply (probeCAS_world h ac s c)|]. intros [res ac1] h1 (c1 & Hw1 & Hsame & Hp & Hheld).
  assert (Hstay : forall ac2 h2, world h2 = (s, c1) -> ledger ac2 = ledger ac -> ident ac2 = ident ac -> fields ac2 = fields ac ->
    swp h2 (Ret (inr (ac2, orig))) (fun res h' => exists s' c' ac' orig', res = @inr Result round (ac', orig') /\
      world h' = (s', c') /\ same_cas c c' /\ backed s' ac' orig' /\ ident s' = ident s /\ (held s c -> held s' c') /\
      (awaiting s c -> awaiting s' c'))).
  { intros ac2 h2 Hw2 H1 H2 H3. cbn [twp]. exists s, c1, ac2, orig. do 3 (split; [done|]).
    assert (H4 : as_conditions (ac_status ac2) = as_conditions (ac_status ac) /\ as_secret_name (ac_status ac2) = as_secret_name (ac_status ac))
      by (injection H3; auto).
    split; [|split; [done|split; [apply held_same; [done|apply Hsame]|intros Ha; apply (awaiting_same s s c); try done; by destruct Ha]]].
    split; [congruence|done|congruence| |].
    - etrans; [|exact Hiss]. apply same_conditions, H4.
    - etrans; [|exact Hg]. apply same_guard; [done|apply H4]. }
  destruct res as [e|[]]; cbn in Hp.
  - subst ac1. unfold noteProbeFailure, Event. twp_step. split; [exact I|]. intros u _. by apply Hstay.
  - destruct Hp as [now ->]. destruct Hst as [Hst|Hst].
    { destruct (Hheld Hans); [|done]. by apply (held_same s ac c c). }
    eapply twp_post; [apply (forgotten_world h1 s c c1 ac orig now); try done; apply Hst|].
    intros res h2 (s2 & -> & Hw2 & Hb2 & Hi2 & Ha2). exists s2, c1, s2, s2. do 5 (split; [done|]). split; [|done].
    intros Hh. exfalso. destruct Hst as [Hst _]. by rewrite (held_current _ _ Hh) in Hst.
  - destruct Hp as [->|[now ->]]; by apply Hstay.
Qed.

(** a probe that is due finds out that the certificate is gone *)
Lemma probe_missing_world h s c ac :
  has_client -> world h = (s, c) -> UploadEnabled (ac_aliyun ac) = true -> ledger ac = ledger s ->
  as_probed_at (ac_status ac) = as_probed_at (ac_status s) -> answers c -> missing s c ->
  swp h (probeCAS r ac hint) (fun '(res, ac') h' => exists c' now, world h' = (s, c') /\ same_cas c c' /\ res = inr true /\
    ac' = forget_current (on_status (set_as_probed_at (Some now)) ac)).
Proof using CASFactoryOk0 Hvisit.
  intros Hcl Hw Hen Hl Hpr Hans [(g & id & Hg & Hf & Hid & Hno & Hdue) _]. injection Hl as Eg _ _.
  unfold probeCAS, probe_target. rewrite Hen, Eg, Hg, Hid. twp_step. split; [exact I|]. intros now (Hnow & _). cbn [bind twp].
  destruct (Hdue _ _ Hnow) as [-> _].
  apply twp_bind. eapply twp_post with (Q := fun th h' => th = false /\ world h' = world h).
  { unfold due in Hdue. rewrite Hpr. destruct (as_probed_at (ac_status s)) as [t|]; [|by split].
    twp_step. split; [exact I|]. intros now' (Hnow' & _). cbn [bind twp]. split; [|done].
    apply Z.ltb_ge. by apply (Hdue _ _ Hnow'). }
  intros th h2 [-> Hw2]. apply client_bind; [done|]. intros cl h3 Hw3. twp_step.
  apply (find_world _ _ _ _ s c); [congruence|]. intros l h4 c' Hfl Hw4 Hsame.
  destruct (FakeCAS.Find_faults visit (casFindHint ac hint) c) as (_ & _ & Hno_err). destruct (Hno_err (an_find _ Hans)) as [l' Hl'].
  rewrite Hl' in Hfl. subst l. cbn [bind twp].
  eapply neutral_bind; [by split|apply returns_True|]. intros now' h5 Hw5 _.
  replace (existsb _ l') with false.
  2: { symmetry. apply not_true_iff_false. rewrite existsb_exists. intros (y & Hy%list_elem_of_In & Hyi%Z.eqb_eq).
    destruct (FakeCAS.Find_shown visit _ c l' y Hvisit (an_wf _ Hans) Hl' Hy) as (x & Hx & _). congruence. }
  eapply neutral_bind; [by split|apply returns_True|]. intros u h6 Hw6 _. cbn [twp]. exists c', now'. split; [congruence|]. done.
Qed.

(** the probe step, from any of the three starts *)
Definition started (s : AliyunCertificate) (c : FakeCAS.CAS) : Prop := held s c \/ awaiting s c \/ missing s c.

Lemma held_not_missing s c : held s c -> missing s c -> False.
Proof using Type. intros (g & id & x & Hg & _ & Hi & _ & _ & Hx & _) [(g' & id' & Hg' & _ & Hi' & Hn & _) _]. congruence. Qed.

Lemma probe_step_any h s c ac orig :
  valid_bundle b -> has_client -> world h = (s, c) -> hint <> "" -> backed s ac orig -> answers c ->
  UploadEnabled (ac_aliyun ac) = true -> as_probed_at (ac_status ac) = as_probed_at (ac_status s) -> started s c ->
  swp h (probe_step r ac orig b) (fun res h' => exists s' c' ac' orig', res = inr (ac', orig') /\
    world h' = (s', c') /\ same_cas c c' /\ backed s' ac' orig' /\ ident s' = ident s /\ (held s c -> held s' c') /\
    (held s' c' \/ awaiting s' c')).
Proof using CASFactoryOk0 Hvisit CL KL.
  intros Hv Hcl Hw Hd Hb Hans Hen Hpr [Hst|[Hst|Hst]].
  1, 2: eapply twp_post; [apply (probe_step_world h s c ac orig); try done; by auto|];
    intros res h' (s' & c' & ac' & orig' & H1 & H2 & H3 & H4 & H5 & H6 & H7); exists s', c', ac', orig'; do 6 (split; [done|]); auto.
  unfold probe_step. fold hint. twp_step.
  eapply twp_post; [by apply (probe_missing_world h s c ac); try done; apply Hb|].
  intros [res ac1] h1 (c1 & now & Hw1 & Hsame & -> & ->).
  eapply twp_post; [by apply (forgotten_world h1 s c c1 ac orig now); try done; apply Hst|].
  intros res h2 (s2 & -> & Hw2 & Hb2 & Hi2 & Ha2). exists s2, c1, s2, s2. do 5 (split; [done|]). split; [|by right].
  intros Hh. by destruct (held_not_missing s c).
Qed.

(** *** The upload *)

Lemma upload_world h cl n ck kk t s c (Q : goerr + Z -> history -> Prop) :
  world h = (s, c) ->
  (forall h', world h' = (s, (FakeCAS.Upload n ck kk t c).2) -> Q (FakeCAS.Upload n ck kk t c).1 h') ->
  swp h (call (OCASUpload cl n ck kk t)) Q.
Proof using Type.
  intros Hw HQ. split; [exact I|]. intros x (_ & Hx & _). apply env_upload in Hx as [Hx Hc]. injection Hw as Hs Hc0.
  rewrite Hc0 in Hx, Hc. cbn [twp]. specialize (HQ (Ev (OCASUpload cl n ck kk t) x :: h)). rewrite <-Hx in HQ. apply HQ.
  unfold world. cbn [stored patch_answer]. by rewrite Hs, Hc.
Qed.

Lemma uploadOrClaim_lands h cl p s c :
  world h = (s, c) -> answers c -> room 1 c -> owned c (pu_cas_name p) (pu_client_token p) -> findable (pu_cas_name p) ->
  swp h (uploadOrClaim cl b p kp) (fun up h' => exists id c', up = inr id /\ world h' = (s, c') /\ landed c c' (pu_cas_name p) id).
Proof using Hvisit.
  intros Hw Ha Hroom Ho Hf. unfold uploadOrClaim. twp_step. apply (upload_world _ _ _ _ _ _ s c _ Hw). intros h1 Hw1.
  assert (Hend : forall id c' h', world h' = (s, c') -> landed c c' (pu_cas_name p) id ->
    swp h' (do! call (OCounterInc metric_cas_upload [casResult (err_of (inr id : goerr + Z))]) in Ret (inr id)) (fun up h' =>
      exists id c', up = @inr goerr Z id /\ world h' = (s, c') /\ landed c c' (pu_cas_name p) id)).
  { intros id c' h' Hw' Hl. eapply neutral_bind; [by split|apply returns_True|]. intros u h2 Hw2 _. exists id, c'.
    split; [done|]. split; [congruence|done]. }
  destruct (upload_lands (pu_cas_name p) (CertPEM b) kp (pu_client_token p) c Ha Hroom Ho) as [(id & Hr & Hl)|(Hr & Hs & id0 & x0 & Hx0 & Ex0)].
  - rewrite Hr. cbn [bind]. by apply (Hend id _ h1 Hw1).
  - rewrite Hr. replace (bool_decide _ && _) with true by reflexivity. twp_step. twp_step. unfold findByName. twp_step.
    fold hint. apply (find_world _ _ _ _ s _ Hw1). intros l h2 c2 Hl Hw2 Hs2.
    set (c1 := (FakeCAS.Upload _ _ _ _ c).2) in *. destruct Hs as (Ec1 & En1 & Ha1). specialize (Ha1 Ha).
    destruct Hs2 as (Ec2 & En2 & Ha2). specialize (Ha2 Ha1). rewrite <-Ec1 in Hx0.
    destruct (FakeCAS.Find_faults visit hint c1) as (_ & _ & Hlist). destruct (Hlist (an_find _ Ha1)) as [l' El'].
    rewrite El' in Hl. subst l. cbn [twp].
    destruct (FakeCAS.Find_complete visit hint c1 l' id0 x0 Hvisit (an_wf _ Ha1) El' Hx0) as (y & Hy & Hyn & _); [right; by rewrite Ex0|].
    destruct (List.find _ l') as [y'|] eqn:Ef.
    2: { apply list_elem_of_In in Hy. pose proof (find_none _ _ Ef y Hy) as Hno. cbn in Hno. by rewrite Hyn, Ex0, String.eqb_refl in Hno. }
    apply find_some in Ef as [Hy'%list_elem_of_In Hn'%String.eqb_eq].
    destruct (FakeCAS.Find_shown visit hint c1 l' y' Hvisit (an_wf _ Ha1) El' Hy') as (x' & Hx' & Ex').
    destruct (FakeCAS.wf_id _ (an_wf _ Ha1) _ _ Hx') as [_ Hpos]. rewrite (proj2 (Z.eqb_neq _ _)) by lia.
    apply (Hend _ c2 h2 Hw2). split; [done|lia|intros i x; by rewrite Ec2, Ec1| |left]; exists x'; (split; [congruence|congruence]).
Qed.

Lemma with_record_fields p a a' : fields a = fields a' -> fields (with_record p a) = fields (with_record p a').
Proof using Type. unfold fields. cbn. by intros [= -> -> _ -> ->]. Qed.

Lemma ensurePending_world h s c ac orig :
  world h = (s, c) -> backed s ac orig -> awaiting s c ->
  swp h (ensurePending r ac orig b) (fun res h' => exists p s', res = inr (p, (with_record p ac, with_record p orig)) /\
    world h' = (s', c) /\ fields s' = fields (with_record p s) /\ ident s' = ident s /\
    usable s c (pu_cas_name p) (pu_client_token p)).
Proof using Type.
  intros Hw [Hi Ho Hl _ _] (_ & _ & Hnew & Hold). destruct (ident_names _ _ Hi) as (_ & _ & En & Eu & _).
  assert (Hpo : as_pending (ac_status orig) = as_pending (ac_status ac)) by (injection Ho as _ _ -> _ _; by injection Hl).
  assert (Hps : as_pending (ac_status ac) = as_pending (ac_status s)) by by injection Hl.
  unfold ensurePending. set (fresh := let! startedAt := call ONow in _).
  assert (Hf : forall h, world h = (s, c) -> swp h fresh (fun res h' => exists p s', res = inr (p, (with_record p ac, with_record p orig)) /\
    world h' = (s', c) /\ fields s' = fields (with_record p s) /\ ident s' = ident s /\
    usable s c (pu_cas_name p) (pu_client_token p))).
  { intros h1 Hw1. unfold fresh. eapply neutral_bind; [by split|apply returns_True|]. intros now h2 Hw2 _. cbv zeta. twp_step.
    unfold patchPendingUpload. set (p := mkPendingUpload _ _ _ _ _). cbv zeta. twp_step. split; [exact I|].
    intros x (_ & _ & s' & -> & Hm). rewrite Hw1 in Hw2. injection Hw2 as Es Ec. rewrite Es in Hm.
    destruct (merged_record s ac p s' Hps Hm) as [Hf' Hi']. cbn [twp]. exists p, s'. split; [done|]. split; [|split; [done|split; [done|]]].
    - unfold world. f_equal. rewrite <-Ec. apply cas_after_since.
      exists [Ev (OPatchACStatus (on_status (set_as_pending (Some p)) ac) ac) (inr s')]. by repeat constructor.
    - unfold p. cbn [pu_cas_name pu_client_token]. rewrite En, Eu. apply Hnew. }
  destruct (as_pending (ac_status ac)) as [p|] eqn:Ep; [|by apply Hf].
  destruct (String.eqb_spec (pu_fingerprint p) (b_fingerprint b)) as [He|]; [|by apply Hf]. cbn [twp]. exists p, s.
  rewrite !with_record_same by congruence. do 4 (split; [done|]). by apply Hold.
Qed.

Lemma pushGeneration_history gen ac id :
  id ∈ flat_map gen_ids (as_history (ac_status (pushGeneration gen ac))) -> id ∈ remainingCertIDs ac.
Proof using Type.
  rewrite remainingCertIDs_eq. unfold pushGeneration. cbn. destruct (as_current (ac_status ac)) as [g|]; [|done].
  destruct (negb _); [done|]. intros H. apply elem_of_app. by right.
Qed.

(** the copies after the upload: what they say is in CAS *)
Record uploaded (c : FakeCAS.CAS) (s ac orig : AliyunCertificate) : Prop := {
  up_ident : ident ac = ident s;
  up_orig : fields orig = fields s;
  up_held : held ac c;
  up_issued : condTrue ac ConditionIssued = true;
  up_guard : secretNameGuardHolding ac = false
}.

Lemma advanceGeneration_world h s c ac orig :
  valid_bundle b -> KeyPEM b = inr kp -> has_client -> UploadEnabled (ac_aliyun s) = true ->
  world h = (s, c) -> backed s ac orig -> answers c -> room 1 c -> awaiting s c ->
  swp h (advanceGeneration r ac orig b) (fun '(res, (ac', orig')) h' => exists s' c', res = inr true /\
    world h' = (s', c') /\ answers c' /\ (FakeCAS.nextID c' <= FakeCAS.nextID c + 1)%Z /\ ident s' = ident s /\ uploaded c' s' ac' orig').
Proof using CASFactoryOk0 Hvisit.
  intros Hv Hk Hcl Hen Hw Hb Ha Hroom Hst. destruct Hb as [Hi Ho Hl Hiss Hg] eqn:Eb. clear Eb. unfold advanceGeneration.
  eapply neutral_bind; [by split|apply returns_True|]. intros now h1 Hw1 _. cbv zeta.
  destruct (ident_names _ _ Hi) as (_ & _ & _ & _ & _ & Ea & _). rewrite Ea, Hen. unfold uploadGeneration. twp_step. twp_step.
  eapply twp_post; [apply (ensurePending_world h1 s c); [congruence|by split|done]|].
  intros pend h2 (p & s2 & -> & Hw2 & Hf2 & Hi2 & Hname & Hown & Hids).
  apply client_bind; [done|]. intros cl h3 Hw3. rewrite Hk. twp_step.
  eapply twp_post; [apply (uploadOrClaim_lands h3 cl p s2 c); [congruence|done..]|].
  intros up h4 (id & c4 & -> & Hw4 & [Hans Hnext Hkept (x & Hx & Ex) Hnew]). unfold Event.
  eapply neutral_bind; [by split|apply returns_True|]. intros u h5 Hw5 _. cbn [twp]. exists s2, c4. split; [done|]. split; [congruence|].
  do 3 (split; [done|]).
  match goal with |- uploaded _ _ (pushGeneration ?g ?a) _ => destruct (pushGeneration_rest g a) as [Hpc Hps] end.
  split; [by etrans|rewrite Hf2; by apply with_record_fields| |by rewrite (same_conditions _ _ _ Hpc)|].
  - eexists _, id, x. split; [reflexivity|]. do 2 (split; [done|]). split; [|split; [by rewrite pushGeneration_pending|by rewrite Ex]].
    intros Hin%pushGeneration_history.
    assert (Hin' : id ∈ remainingCertIDs s) by (by rewrite <-(remaining_ledger _ _ Hl)).
    destruct Hnew as [(y & Hy & Ey)| ->]; [by destruct (Hids id y Hin' Hy)|].
    destruct Hst as (_ & Hle & _). specialize (Hle _ Hin'). lia.
  - etrans; [|exact Hg]. by apply same_guard.
Qed.

Lemma ensureUploaded_world h s c ac orig :
  valid_bundle b -> KeyPEM b = inr kp -> has_client -> UploadEnabled (ac_aliyun s) = true ->
  world h = (s, c) -> backed s ac orig -> answers c -> room 1 c -> held s c \/ awaiting s c ->
  swp h (ensureUploaded r ac orig b) (fun '(res, (ac', orig')) h' => exists ch s' c', res = inr ch /\
    world h' = (s', c') /\ answers c' /\ (FakeCAS.nextID c' <= FakeCAS.nextID c + 1)%Z /\ (held s c -> c' = c) /\
    ident s' = ident s /\ uploaded c' s' ac' orig').
Proof using CASFactoryOk0 Hvisit.
  intros Hv Hk Hcl Hen Hw Hb Ha Hroom Hst. destruct Hb as [Hi Ho Hl Hiss Hg] eqn:Eb. clear Eb.
  assert (Hcur : forall a, ledger a = ledger s -> current_is a (b_fingerprint b) = current_is s (b_fingerprint b)).
  { intros a Hla. unfold current_is. by injection Hla as -> _ _. }
  unfold ensureUploaded. rewrite (Hcur ac Hl). destruct Hst as [Hst|Hst].
  { rewrite (held_current _ _ Hst). cbn [twp]. exists false, s, c. do 3 (split; [done|]). split; [lia|]. do 2 (split; [done|]).
    split; try done. by apply (held_same s ac c c). }
  assert (Hno : current_is s (b_fingerprint b) = false) by apply Hst. rewrite Hno. unfold refreshUploadState. twp_step. twp_step.
  split; [exact I|]. intros x (_ & _ & ->). cbn [twp]. pose proof Hw as [= Es Ec]. rewrite Es.
  rewrite (Hcur (adoptUploadState ac s)), Hno by done.
  eapply twp_post; [apply (advanceGeneration_world _ s c); try done|].
  - split; try done. unfold fields in *. cbn. injection Ho as _ _ _ E4 E5. by rewrite E4, E5.
  - intros [res [ac' orig']] h' (s' & c' & -> & Hw' & Ha' & Hn' & Hi' & Hu). exists true, s', c'. do 4 (split; [done|]).
    split; [intros Hh; by rewrite (held_current _ _ Hh) in Hno|]. by split.
Qed.

(** *** Retention *)

(** deletions of certificates other than [id] *)
Definition spares (ids : list Z) (o : op) : Prop :=
  match o with
  | OCASDelete _ id _ => id ∈ ids
  | _ => neutral o
  end.

Lemma delete_spares id i t s x : answers s -> i <> id -> FakeCAS.certs s !! id = Some x ->
  let s' := (FakeCAS.Delete i t s).2 in
  answers s' /\ FakeCAS.nextID s' = FakeCAS.nextID s /\ FakeCAS.certs s' !! id = Some x.
Proof using Type.
  intros [Hwf Hu Hf Hc] Hne Hx s'. pose proof (FakeCAS.Delete_wf i t s Hwf) as Hwf'. unfold s', FakeCAS.Delete in *.
  destruct (FakeCAS.pop (FakeCAS.deleteErrs s)) as [[e|] q]; [by split; [split|]|]. cbn [FakeCAS.certs] in *.
  destruct (FakeCAS.certs s !! i); [|by split; [split|]]. cbn in *. split; [by split|]. split; [done|]. by rewrite lookup_delete_ne.
Qed.

Lemma spared_since ids h h' s c id x : only_since (spares ids) h h' -> (id ∉ ids) -> world h = (s, c) -> answers c ->
  FakeCAS.certs c !! id = Some x -> exists c', world h' = (s, c') /\ answers c' /\
    FakeCAS.nextID c' = FakeCAS.nextID c /\ FakeCAS.certs c' !! id = Some x.
Proof using Type.
  intros (new & -> & Hn) Hid Hw Ha Hx. induction Hn as [|[o a] new Ho _ (c1 & Hw1 & Ha1 & Hn1 & Hx1)]; [by exists c|].
  cbn [app]. cbn [ev_op] in Ho.
  assert (Hneu : neutral o -> exists c', world (Ev o a :: new ++ h) = (s, c') /\ answers c' /\
    FakeCAS.nextID c' = FakeCAS.nextID c /\ FakeCAS.certs c' !! id = Some x).
  { intros Hneu. exists c1. split; [|done]. rewrite <-Hw1. apply world_since. exists [Ev o a]. split; [done|]. by constructor. }
  destruct o; try (by apply Hneu). clear Hneu. cbn in Ho. injection Hw1 as Es Ec.
  destruct (delete_spares id id0 token c1 x Ha1) as (H1 & H2 & H3); [by intros ->|done|].
  exists (FakeCAS.Delete id0 token c1).2. split; [|split; [done|split; [congruence|done]]].
  unfold world. cbn [stored patch_answer]. rewrite Es. f_equal. unfold cas_after in *. cbn [cloud_after]. rewrite <-Ec.
  unfold cloud_next. cbn. by destruct (FakeCAS.Delete id0 token (cl_cas (cloud_after visit c0 (new ++ h)))) as [r1 f1].
Qed.

Lemma reclaim_spares ac : all_calls (spares (flat_map gen_ids (as_history (ac_status ac)))) (reclaimOldGenerations r ac).
Proof using CASFactoryOk0.
  apply (twp_all_calls (spares (flat_map gen_ids (as_history (ac_status ac)))) _ [] (fun _ _ => True)).
  eapply twp_mono; [|done|by apply reclaimOldGenerations_wp].
  intros h o Ho. destruct o; try done; cbn in Ho; try tauto.
  destruct Ho as (i & g & now & bs & Hi & Hg & _). cbn. apply list_elem_of_In, in_flat_map. exists g.
  split; [by apply list_elem_of_In, (list_elem_of_lookup_2 _ i)|]. unfold gen_ids. rewrite Hg. by left.
Qed.

Lemma reclaim_world h s c ac :
  world h = (s, c) -> answers c -> held ac c ->
  swp h (reclaimOldGenerations r ac) (fun '(_, ac') h' => exists c', world h' = (s, c') /\ answers c' /\
    FakeCAS.nextID c' = FakeCAS.nextID c /\ held ac' c' /\ exists l, ac' = with_history l ac).
Proof using CASFactoryOk0.
  intros Hw Ha (g & id & x & Hg & Hf & Hi & Hid & Hp & Hx & Hn).
  eapply twp_post; [apply twp_returns_and; [apply (all_calls_twp _ _ _ _ _ (reclaim_spares ac)); done|]|].
  { apply (twp_to_returns (reclaim_safe ac) [] _ (fun '(_, ac') => reclaimed ac ac')). eapply twp_post; [by apply reclaimOldGenerations_wp|]. by intros [err ac'] h' [H _]. }
  intros [err ac'] h' [Hs (n & -> & _)]. destruct (spared_since _ _ _ _ _ id x Hs Hid Hw Ha Hx) as (c' & Hw' & Ha' & Hn' & Hx').
  exists c'. do 3 (split; [done|]). split; [|eauto]. exists g, id, x. cbn. do 3 (split; [done|]). split; [|done].
  intros Hin. apply Hid. rewrite <-(take_drop n (as_history (ac_status ac))), flat_map_app. apply elem_of_app. by left.
Qed.

(** ** A round *)

(** Ready, with the certificate current and in CAS *)
Record settled_in (s : AliyunCertificate) (c : FakeCAS.CAS) : Prop := {
  si_held : held s c;
  si_ready : condTrue s ConditionReady = true;
  (* what the bindings look at, beside the current generation *)
  si_issued : condTrue s ConditionIssued = true;
  si_secret : secretNameGuardHolding s = false
}.

Lemma aggregateReady_issued ac : condTrue (aggregateReady ac) ConditionIssued = condTrue ac ConditionIssued.
Proof using KL.
  unfold aggregateReady. destruct (secretNameGuardHolding ac); [by rewrite condTrue_set_other|].
  destruct (_ && _); by rewrite condTrue_set_other.
Qed.

(** the end of a round: the status is written *)
Lemma final_patch h s c ac orig d :
  world h = (s, c) -> fields orig = fields s -> ident ac = ident s -> held ac c -> ready_spec ac = true ->
  swp h (patch_and_return d (aggregateReady ac) orig) (fun res h' => exists s', res = (d, None) /\ world h' = (s', c) /\
    ident s' = ident s /\ settled_in s' c).
Proof using KL.
  intros Hw Ho Hi Hh Hr. unfold patch_and_return. twp_step. eapply twp_post; [by apply (patch_world _ _ _ s c)|].
  intros x h' (s' & -> & Hw' & Hf & Hi'). cbn [twp]. exists s'. do 3 (split; [done|]). split.
  - apply (held_same ac s' c c); [|done|done]. rewrite (fields_ledger _ _ Hf). apply aggregateReady_ledger.
  - rewrite (same_conditions (aggregateReady ac) s'); [|by injection Hf]. by rewrite aggregateReady_true.
  - rewrite (same_conditions (aggregateReady ac) s'); [|by injection Hf]. rewrite aggregateReady_issued.
    by apply andb_prop in Hr as [[_ ?]%andb_prop _].
  - apply andb_prop in Hr as [[Hg _]%andb_prop _]. apply negb_true_iff in Hg. rewrite <-Hg. apply same_guard; [congruence|].
    injection Hf as _ _ _ _ ->. apply (f_equal (fun a => as_secret_name (ac_status a)) (aggregateReady_rest ac)).
Qed.

(** what the cluster has, beside the object, once the certificate is issued *)
Record issued_cluster : Prop := {
  ic_ready : certReady cert = true;
  ic_settled : (certIssuingSince cert).1 = false;
  ic_secret : cs_secret_name (cert_spec cert) = secretNameFor ac0;
  ic_issuer : iss_name (cs_issuer_ref (cert_spec cert)) <> "";
  ic_valid : valid_bundle b;
  ic_covers : Missing (DNSNames b) (requiredNames ac0) = [];
  ic_key : KeyPEM b = inr kp;
  ic_hint : hint <> "";
  ic_upload : UploadEnabled (ac_aliyun ac0) = true;
  ic_live : is_deleting (ac_meta ac0) = false;
  ic_finalizer : FinalizerName ∈ om_finalizers (ac_meta ac0);
  ic_client : has_client
}.

Context (IC : issued_cluster).

(** what a round leaves *)
Definition round_done (s : AliyunCertificate) (c : FakeCAS.CAS) (h' : history) : Prop :=
  exists s' c', world h' = (s', c') /\ ident s' = ident s /\ answers c' /\ (FakeCAS.nextID c' <= FakeCAS.nextID c + 1)%Z /\
    (held s c -> FakeCAS.nextID c' = FakeCAS.nextID c) /\ settled_in s' c'.

Lemma setUploaded_ready c s ac orig : uploaded c s ac orig -> UploadEnabled (ac_aliyun ac) = true ->
  let ac' := setUploadedCondition ac in
  ledger ac' = ledger ac /\ ident ac' = ident ac /\ forall l, ready_spec (with_history l ac') = true.
Proof using KL.
  intros [Hi Ho (g & id & x & Hg & _ & Hid & _) Hiss Hgd] Hen. cbn zeta. unfold setUploadedCondition. rewrite Hen, Hg. cbn [negb mbind option_bind].
  rewrite Hid. split; [done|]. split; [done|]. intros l. unfold ready_spec. change (condTrue (with_history l ?a)) with (condTrue a).
  rewrite condTrue_set_same, condTrue_set_other, Hiss by done.
  rewrite (same_guard ac) by done. rewrite Hgd. apply orb_true_r.
Qed.

Lemma load_world h ac (f : materialError + Bundle -> prog Result) Q :
  ident ac = ident ac0 -> (forall h', world h' = world h -> swp h' (f (inr b)) Q) -> swp h (bind (loadMaterial ac cert) f) Q.
Proof using IC.
  intros Hi Hf. destruct (ident_names _ _ Hi) as (Esp & Ens & _ & _ & Esec & _).
  unfold loadMaterial, loadBundle. do 3 twp_step. split; [exact I|]. intros x (_ & _ & Hx).
  destruct Hx as (sec & -> & Hp).
  { done. }
  { unfold servingSecretName. rewrite (ic_secret IC), Esec. by destruct (negb _). }
  cbn [twp]. rewrite Hp. unfold validateMaterial. rewrite (ic_settled IC). cbn [andb].
  replace (requiredNames ac) with (requiredNames ac0) by (unfold requiredNames, ac_template; by rewrite Esp).
  rewrite (ic_covers IC). cbn [twp]. apply Hf. apply world_since.
  exists [Ev (OGetSecret (ac_namespace ac) (servingSecretName ac (cs_secret_name (cert_spec cert)))) (inr sec)]. by repeat constructor.
Qed.

Lemma issued_round h s c ac orig :
  world h = (s, c) -> ident s = ident ac0 -> answers c -> room 1 c -> started s c ->
  ident ac = ident s -> fields orig = fields s -> ledger ac = ledger s -> secretNameGuardHolding ac = false ->
  as_probed_at (ac_status ac) = as_probed_at (ac_status s) ->
  swp h (reconcileIssued r ac orig cert false) (fun _ h' => round_done s c h').
Proof using All.
  intros Hw His Ha Hroom Hst Hi Ho Hl Hg Hpr. unfold reconcileIssued. apply load_world; [congruence|]. intros h1 Hw1. cbv zeta.
  set (ac1 := setCondition ac ConditionIssued CondTrue ReasonReady "Secret 通过校验").
  assert (Hb1 : backed s ac1 orig) by (split; [done..| |done]; unfold ac1; by rewrite condTrue_set_same).
  twp_step. eapply twp_post; [apply (probe_step_any h1 s c ac1 orig); try apply IC; try done; try congruence|].
  { destruct (ident_names ac1 ac0) as (_ & _ & _ & _ & _ & -> & _); [by etrans|apply IC]. }
  intros res h2 (s2 & c2 & ac2 & orig2 & -> & Hw2 & Hsame & Hb2 & Hi2 & Hh2 & Hu2). cbn [bind].
  assert (Hen : UploadEnabled (ac_aliyun s2) = true).
  { destruct (ident_names s2 ac0) as (_ & _ & _ & _ & _ & -> & _); [congruence|apply IC]. }
  destruct Hsame as (Ec2 & En2 & Ha2). specialize (Ha2 Ha).
  twp_step. eapply twp_post; [apply (ensureUploaded_world h2 s2 c2 ac2 orig2); try apply IC; try done; unfold room in *; by rewrite En2|].
  intros [res [ac3 orig3]] h3 (ch & s3 & c3 & -> & Hw3 & Ha3 & Hn3 & Heq3 & Hi3 & Hup3). cbv zeta.
  destruct (setUploaded_ready c3 s3 ac3 orig3 Hup3) as (Hl4 & Hi4 & Hr4).
  { destruct (ident_names ac3 s2) as (_ & _ & _ & _ & _ & -> & _); [rewrite (up_ident _ _ _ _ Hup3); congruence|done]. }
  twp_step. eapply twp_post; [apply (reclaim_world h3 s3 c3); [done..|]|].
  { apply (held_same ac3 _ c3 c3); [done|done|apply Hup3]. }
  intros [err ac4] h4 (c4 & Hw4 & Ha4 & Hn4 & Hh4 & l & ->). cbn beta iota.
  assert (Hfin : forall h5 d, world h5 = (s3, c4) -> swp h5 (patch_and_return d (aggregateReady (with_history l (setUploadedCondition ac3))) orig3)
    (fun res h' => res = (d, None) /\ round_done s c h')).
  { intros h5 d Hw5. eapply twp_post; [apply (final_patch h5 s3 c4); try done; [apply Hup3|]|].
    { etrans; [exact Hi4|apply Hup3]. }
    intros res h' (s' & -> & Hw' & Hi' & Hset). split; [done|]. exists s', c4. split; [done|]. split; [congruence|]. split; [done|].
    split; [lia|]. split; [|done]. intros Hh. rewrite (Heq3 (Hh2 Hh)) in Hn4. lia. }
  destruct err as [e|].
  2: { eapply twp_post; [by apply Hfin|]. by intros res h' [_ H]. }
  unfold handleReclaimError, handleNonFatalCloudError, Event. eapply neutral_bind; [by split|apply returns_True|].
  intros u h5 Hw5 _. specialize (Hfin h5 0%Z ltac:(congruence)). unfold patch_and_return in Hfin. apply twp_bind in Hfin. twp_step.
  eapply twp_post; [exact Hfin|]. intros x h6 [_ H]. cbn [twp]. by destruct x.
Qed.

Lemma Reconcile_world ns name h s c :
  world h = (s, c) -> ident s = ident ac0 -> answers c -> room 1 c -> started s c ->
  swp h (Reconcile r ns name) (fun _ h' => round_done s c h').
Proof using All.
  intros Hw His Ha Hroom Hst. unfold Reconcile. twp_step. split; [exact I|]. intros x (_ & _ & ->). cbn [twp].
  set (h1 := Ev _ _ :: h). assert (Hw1 : world h1 = (s, c)) by exact Hw. clearbody h1. pose proof Hw as [= Es Ec]. rewrite Es.
  destruct (ident_names _ _ His) as (_ & _ & _ & _ & Esec & _ & Edel). rewrite Edel, (ic_live IC), contains_finalizer_spec.
  replace (om_finalizers (ac_meta s)) with (om_finalizers (ac_meta ac0)) by (by injection His). rewrite (bool_decide_eq_true_2 _ (ic_finalizer IC)).
  cbn [negb]. unfold reconcileNormal. cbv zeta. twp_step. split; [exact I|]. intros x (_ & _ & ->). cbn [twp].
  destruct (ResolveIssuerRef_existing (Some (ac_template (on_status (set_as_observed_generation (om_generation (ac_meta s))) s)))
    (Some (ac_status (on_status (set_as_observed_generation (om_generation (ac_meta s))) s))) cert (r_defaults r) (ic_issuer IC)) as [[issuer source] ->].
  set (ac1 := on_status (set_as_effective_issuer (Some issuer)) _).
  eapply (neutral_bind _ _ _ (fun ac => but_conditions ac = but_conditions ac1 /\ same_naming ac1 ac)).
  { eapply all_calls_mono; [apply report_neutral|]. unfold detectIssuerDivergence. destruct (Ref _) as [d|]; [|done].
    destruct (_ && _); [|done]. twp_step; [|done]. destruct (condTrue _ _); [done|]. by split. }
  { by apply returns_and; [by apply detectIssuer_rest|by apply detectIssuer_naming]. }
  intros ac2 h3 Hw3 [Hr2 [Hm2 Hs2]]. pose proof (f_equal ledger Hr2 : ledger ac2 = ledger ac1) as Hl2.
  pose proof (f_equal (fun a => as_probed_at (ac_status a)) Hr2 : as_probed_at (ac_status ac2) = as_probed_at (ac_status s)) as Hp2. unfold reconcileLive. replace (String.eqb _ _) with true.
  2: { symmetry. apply String.eqb_eq. rewrite (ic_secret IC), <-Esec. unfold secretNameFor, ac_name. by rewrite <-Hm2, <-Hs2. }
  cbn [bind]. unfold syncCertificate. do 2 twp_step. split; [exact I|]. intros x (_ & _ & res & ->). cbn [twp].
  eapply neutral_bind; [|apply returns_True|].
  { destruct (_ && _); [|done]. by repeat split. }
  intros u h4 Hw4 _. cbn [twp]. unfold reconcileCertificate, observeIssuance.
  destruct (certIssuingSince cert) as [issuing since] eqn:Eis. assert (issuing = false) as -> by (change issuing with (issuing, since).1; rewrite <-Eis; apply IC).
  cbn [andb bind]. rewrite (ic_ready IC).
  assert (Hi : ident (mirrorIssuance (on_status (fun x => set_as_secret_name (cs_secret_name (cert_spec cert))
    (set_as_cm_name (om_name (cert_meta cert)) x)) ac2) cert) = ident s).
  { unfold ident. cbn. by rewrite <-Hm2, <-Hs2. }
  apply (issued_round h4 s c); try done; [etrans; [exact Hw4|]; etrans; [exact Hw3|]; exact Hw1|].
  unfold secretNameGuardHolding. destruct (ident_names _ _ Hi) as (_ & _ & _ & _ & -> & _).
  change (as_secret_name _) with (cs_secret_name (cert_spec cert)). rewrite (ic_secret IC), Esec, String.eqb_refl. apply andb_false_r.
Qed.

(** ** Any number of rounds *)

Fixpoint rounds (n : nat) (ns name : string) : prog (list Result) :=
  match n with
  | 0 => Ret []
  | S n => let! res := Reconcile r ns name in let! l := rounds n ns name in Ret (res :: l)
  end.

Lemma rounds_world n ns name h s c :
  world h = (s, c) -> ident s = ident ac0 -> answers c -> room 1 c -> held s c ->
  swp h (rounds n ns name) (fun _ h' => exists s' c', world h' = (s', c') /\ ident s' = ident ac0 /\ held s' c' /\
    FakeCAS.nextID c' = FakeCAS.nextID c /\ (settled_in s c -> settled_in s' c')).
Proof using All.
  revert h s c. induction n as [|n IH]; intros h s c Hw Hi Ha Hroom Hh; cbn [rounds].
  { cbn [twp]. exists s, c. by do 4 (split; [done|]). }
  twp_step. eapply twp_post; [apply (Reconcile_world ns name h s c); try done; by left|].
  intros res h1 (s1 & c1 & Hw1 & Hi1 & Ha1 & _ & Hn1 & Hs1). specialize (Hn1 Hh). pose proof (si_held _ _ Hs1) as Hh1. twp_step.
  eapply twp_post; [apply (IH h1 s1 c1); try done; [congruence|unfold room in *; by rewrite Hn1]|].
  intros l h2 (s2 & c2 & Hw2 & Hi2 & Hh2 & Hn2 & Hr2). cbn [twp]. exists s2, c2. do 3 (split; [done|]). split; [by rewrite Hn2, Hn1|auto].
Qed.

Lemma rounds_converge_world n ns name :
  answers (cl_cas c0) -> room 2 (cl_cas c0) -> started ac0 (cl_cas c0) ->
  swp [] (rounds (S n) ns name) (fun _ h' => exists s' c', world h' = (s', c') /\ ident s' = ident ac0 /\ settled_in s' c' /\
    (FakeCAS.nextID c' <= FakeCAS.nextID (cl_cas c0) + 1)%Z).
Proof using All.
  intros Ha Hroom Hst. cbn [rounds]. twp_step.
  eapply twp_post; [apply (Reconcile_world ns name [] ac0 (cl_cas c0)); try done; unfold room in *; lia|].
  intros res h1 (s1 & c1 & Hw1 & Hi1 & Ha1 & Hn1 & _ & Hs1). twp_step.
  eapply twp_post; [apply (rounds_world n ns name h1 s1 c1); try done; [unfold room in *; lia|apply Hs1]|].
  intros l h2 (s2 & c2 & Hw2 & Hi2 & _ & Hn2 & Hr2). cbn [twp]. exists s2, c2. do 2 (split; [done|]). split; [auto|lia].
Qed.

End world.

(** ** Properties *)

(** C7: Certificates converge and stay.  Let cert-manager have issued the certificate of a
    live object, with a key, covering names, and a Secret that parses to the bundle [b];
    let CAS answer, and a client be had for it.  From an object that lacks the bundle -
    whatever else its status says, the record of an upload that crashed included - or
    has it already, or has it although somebody deleted the certificate from CAS, with
    the probe due, any positive number of rounds end with an object that is Ready and
    whose current generation is [b], with the certId of a certificate of its name in
    CAS; together they make at most one certificate there.  So retries, probes and
    retention never undo what an earlier round achieved, and the probe repairs what
    others undo. *)
Theorem certificates_converge `{KL : KubeLibLaws} `{CL : CryptoLaws} (visit : gmap Z FakeCAS.Cert -> list FakeCAS.Cert)
    (r : CertReconciler) `{!CASFactoryOk r} (ac0 : AliyunCertificate) (c0 : cloud) (cert : Certificate) (b : Bundle) (kp : string)
    (E : environment) (n : nat) (ns name : string) :
  FakeCAS.visits visit -> issued_cluster visit r ac0 c0 cert b kp E ->
  answers (cl_cas c0) -> room 2 (cl_cas c0) -> started r b E ac0 (cl_cas c0) ->
  twp (steady visit ac0 c0 cert b E) any_call [] (rounds r (S n) ns name) (fun _ h =>
    let c := cas_after visit c0 h in
    settled_in b (stored ac0 h) c /\ (FakeCAS.nextID c <= FakeCAS.nextID (cl_cas c0) + 1)%Z).
Proof.
  intros Hv IC Ha Hroom Hst. eapply twp_post; [by apply (rounds_converge_world visit Hv r ac0 c0 cert b kp E IC n ns name)|].
  intros l h (s & c & [= -> ->] & _ & Hs & Hn). by split.
Qed.

(** the certificate "leaf", its Certificate and Secret, and a CAS in which the answer of
    an earlier upload was lost *)
Definition leaf_ac : AliyunCertificate := set_ac_meta (sample_meta "leaf" "uid-1" [FinalizerName]) sample_ac.

Definition leaf_cert : Certificate :=
  mkCertificate (sample_meta "leaf" "uid-c" [])
    (mkCertificateSpec "leaf-tls" (mkIssuerReference "letsencrypt" "" "") "" ["leaf"] [] None None None [] None None)
    (mkCertificateStatus [mkCertificateCondition CertificateConditionReady CondTrue None] (Some 1%Z) None None None).

Definition leaf_api : handler AliyunCertificate := fun s o =>
  match o return resp o * AliyunCertificate with
  | OGetAC _ _ _ => (inr s, s)
  | OPatchACStatus a base => (inr (merge s base a), merge s base a)
  | OGetCert _ _ => (inr leaf_cert, s)
  | OCreateOrUpdateCert _ _ => (inr (OperationResultNone, leaf_cert), s)
  | OGetSecret _ _ => (inr (sample_secret "leaf-tls" "leaf"), s)
  | o => (failed_resp o, s)
  end.

Lemma leaf_api_steady ac0 c0 :
  let visit m := (map_to_list m).*2 in
  forall s h o, s.1 = cloud_after visit c0 h /\ s.2 = stored ac0 h ->
    @steady toy_crypto visit ac0 c0 leaf_cert (sample_bundle "leaf") any_env h o (fake_world visit leaf_api s o).1 /\
    (fake_world visit leaf_api s o).2.1 = cloud_after visit c0 (Ev o (fake_world visit leaf_api s o).1 :: h) /\
    (fake_world visit leaf_api s o)  .2.2 = stored ac0 (Ev o (fake_world visit leaf_api s o).1 :: h).
Proof.
  intros visit [c a] h o [Ec Ea]. cbn in Ec, Ea. subst c a. unfold fake_world, steady, fake_env. cbn [fst snd cloud_after].
  unfold cloud_next. cbn [ev_op]. destruct (cloud_step visit (cloud_after visit c0 h) o) as [[x c]|] eqn:Es.
  - split; [split; [done|split; [done|]]|split; [done|]]; cbn [fst snd] in *.
    all: assert (Hc : cloud_call o = true) by (apply (cloud_call_spec visit (cloud_after visit c0 h)); by rewrite Es).
    all: by destruct o.
  - assert (Hc : cloud_call o = false) by (apply not_true_iff_false; rewrite (cloud_call_spec visit (cloud_after visit c0 h)), Es; by intros [? ?]).
    destruct o; try done; cbn; repeat split; try done; try (by eexists).
    eexists. split; [reflexivity|]. apply merge_merged.
Qed.

(** the crashed upload: CAS has the certificate, the status has the record only *)
Definition leaf_record : PendingUpload :=
  mkPendingUpload (toy_digest "leaf") (CASName "leaf" (toy_digest "leaf")) (uploadToken "uid-1" (toy_digest "leaf") 7) 7 "leaf".

Definition leaf_start : AliyunCertificate := with_record leaf_record leaf_ac.

Definition leaf_cloud : cloud :=
  mkCloud (FakeCAS.Upload (pu_cas_name leaf_record) "c" "k" (pu_client_token leaf_record) FakeCAS.NewCAS).2 FakeFC3.NewFC3 FakeOSS.NewOSS.

Lemma leaf_awaiting : awaiting (sample_bundle "leaf") leaf_start (cl_cas leaf_cloud).
Proof.
  assert (Hone : forall t, usable (sample_bundle "leaf") leaf_start (cl_cas leaf_cloud) (pu_cas_name leaf_record) t).
  { intros t. split; [vm_compute; reflexivity|]. split; [|by intros id x ?%elem_of_nil].
    intros id x Hx _. change (FakeCAS.certs (cl_cas leaf_cloud)) with ({[ 1001%Z := FakeCAS.mkCert 1001 (pu_cas_name leaf_record) "c" "k"
      (pu_client_token leaf_record) ]} : gmap Z FakeCAS.Cert) in Hx. by apply lookup_singleton_Some in Hx as [_ <-]. }
  split; [vm_compute; reflexivity|]. split; [by intros id ?%elem_of_nil|]. split; [intros t; apply Hone|].
  intros p [= <-] _. apply Hone.
Qed.

(** the certificate has been there and was deleted by somebody else; the clock stands still *)
Definition leaf_deleted : AliyunCertificate := on_status (set_as_current (Some (sample_gen "leaf" (Some 1001%Z) 0))) leaf_ac.

Definition leaf_emptied : FakeCAS.CAS := (FakeCAS.Delete 1001 "" (cl_cas leaf_cloud)).2.

Definition clock_stands : environment := fun _ o =>
  match o return resp o -> Prop with ONow => fun now => now = 0%Z | _ => fun _ => True end.

Lemma leaf_missing : missing sample_reconciler (sample_bundle "leaf") clock_stands leaf_deleted leaf_emptied.
Proof.
  assert (He : FakeCAS.certs leaf_emptied = ∅) by by vm_compute. split.
  - eexists _, 1001%Z. split; [reflexivity|]. split; [vm_compute; reflexivity|]. split; [reflexivity|]. split; [by rewrite He|].
    intros h now Hnow. cbn in Hnow. subst now. split; [vm_compute; reflexivity|exact I].
  - split; [|split; [|done]].
    + change (remainingCertIDs leaf_deleted) with [1001%Z]. intros id [->|Hi]%elem_of_cons; [|by apply elem_of_nil in Hi].
      vm_compute. discriminate.
    + intros t. split; [vm_compute; reflexivity|]. split; intros id x; rewrite He; by intros.
Qed.

Lemma leaf_issued E c0 :
  @issued_cluster toy_crypto (fun m => (map_to_list m).*2) sample_reconciler leaf_start c0 leaf_cert
    (sample_bundle "leaf") (frame "EC PRIVATE KEY" (frame "key" "")) E.
Proof.
  split; try (vm_compute; reflexivity); try (vm_compute; discriminate).
  - apply sample_bundle_valid.
  - left.
  - intros ac h. cbn. eauto.
Qed.

Lemma certificates_converge_witness :
  let visit m := (map_to_list m).*2 in
  let run := exec (fake_world visit leaf_api) (leaf_cloud, leaf_start) []
    (@rounds (ref_kube 0) toy_crypto sample_reconciler 3 "prod" "leaf") in
  remainingCertIDs run.2.2 = [1001%Z] /\ @condTrue (ref_kube 0) run.2.2 ConditionReady = true /\
  held (sample_bundle "leaf") run.2.2 (cl_cas run.2.1).
Proof.
  intros visit run. split; [vm_compute; reflexivity|]. split; [vm_compute; reflexivity|].
  pose proof (twp_exec (fake_world visit leaf_api) (fun s h => s.1 = cloud_after visit leaf_cloud h /\ s.2 = stored leaf_start h) _ _ []
    (leaf_cloud, leaf_start) _ _ (leaf_api_steady leaf_start leaf_cloud) (conj eq_refl eq_refl)
    (@certificates_converge (ref_kube 0) (ref_kube_laws 0) toy_crypto toy_crypto_laws visit sample_reconciler _ leaf_start leaf_cloud
       leaf_cert (sample_bundle "leaf") _ any_env 2 "prod" "leaf" (fun m => Permutation_refl _) (leaf_issued any_env leaf_cloud)
       ltac:(split; [apply FakeCAS.Upload_wf; [apply FakeCAS.NewCAS_wf|vm_compute; reflexivity]|reflexivity..])
       ltac:(vm_compute; discriminate) (or_intror (or_introl leaf_awaiting)))) as H.
  change (exec _ _ _ _) with run in H. destruct run as [[l h] [c s]]. destruct H as [[Hset _] [Hc Hs]]. cbn [fst snd] in *.
  rewrite Hc, Hs. exact (si_held _ _ _ Hset).
Defined.
