(* ===== verification/Provider.v ===== *)
(** * The provider interface (pkg/provider)

    A [Provider] is a record of programs, as the Go interface is a set of
    methods.  [Client any] and [Target.Spec any] are sums of the dynamic types
    the code builds.  [ProviderContract] states what the interface's comment
    promises the binding controller; the instances for FC3 and OSS are in
    ProviderFC3.v and ProviderOSS.v. *)
From S2P Require Import Prelude GoString GoTime Api GoError Cloud Effects.
From stdpp Require Import gmap pretty.

#[local] Open Scope prog_scope.

(** ** Definitions *)

(** the dynamic type and value of [Target.Spec]; a pointer may be nil *)
Inductive TargetSpec : Type :=
| SpecFC3 (t : option FC3CustomDomainTarget)
| SpecOSS (t : option OSSCustomDomainTarget).

Record Target : Type := mkTarget {
  tg_type : string;
  tg_region : string;
  tg_identifier : string;
  tg_spec : TargetSpec
}.

Record CertMaterial : Type := mkCertMaterial {
  cm_fingerprint : string;
  cm_cert_pem : string;
  cm_key_pem : string;
  cm_cert_id : option Z;
  cm_cas_name : string;
  cm_not_after : gotime;
  cm_dns_names : list string;
  cm_cas_region : string
}.

Definition CASCertRef (m : CertMaterial) : string :=
  match cm_cert_id m with
  | Some id => if String.eqb (cm_cas_region m) "" then "" else pretty id +:+ "-" +:+ cm_cas_region m
  | None => ""
  end.

Record ObservedState : Type := mkObserved {
  ob_current_fingerprint : string;
  ob_current_cert_ref : string;
  ob_protocol : string;
  ob_account_id : string
}.

Record Capabilities : Type := mkCapabilities {
  cap_references_cert_by_id : bool;
  cap_supports_protocol_switch : bool;
  cap_requires_cas_upload : bool
}.

Record ApplyOptions : Type := mkApplyOptions {
  ao_ensure_https : bool;
  ao_previous_fingerprint : string
}.

Record Provider : Type := mkProvider {
  pv_name : string;
  pv_capabilities : Capabilities;
  pv_observe : Target -> ProviderClient -> prog (goerr + ObservedState);
  pv_apply : Target -> ProviderClient -> CertMaterial -> ApplyOptions -> prog (option goerr);
  pv_cleanup : Target -> ProviderClient -> string -> prog (option goerr)
}.

(** [%T] of a client *)
Definition client_type (c : ProviderClient) : string :=
  match c with
  | FC3Client _ _ _ => "*aliyun.sdkFC3"
  | OSSClient _ _ _ => "*aliyun.sdkOSS"
  | OtherClient t => t
  end.

(** [%T] of a target's spec *)
Definition spec_type (s : TargetSpec) : string :=
  match s with
  | SpecFC3 _ => "*v1alpha1.FC3CustomDomainTarget"
  | SpecOSS _ => "*v1alpha1.OSSCustomDomainTarget"
  end.

(** *** registry.go: the process-wide map, filled by the init functions *)

Abbreviation registry := (gmap string Provider).

(** [None] is the panic on a duplicate *)
Definition Register (p : Provider) (reg : registry) : option registry :=
  match reg !! pv_name p with
  | Some _ => None
  | None => Some (<[pv_name p := p]> reg)
  end.

Definition Get (typeName : string) (reg : registry) : option Provider := reg !! typeName.

Definition Names (reg : registry) : list string := sort_strings (map_to_list reg).*1.

(** ** The contract *)

(** calls that only read a target, and calls that may change it *)
Definition cloud_read (o : op) : Prop :=
  match o with OGetCustomDomain _ _ | OGetCname _ _ _ => True | _ => False end.
Definition cloud_write (o : op) : Prop :=
  match o with OUpdateCustomDomain _ _ _ | OPutCnameCert _ _ _ _ | ODeleteCnameCert _ _ _ => True | _ => False end.

Definition classified (e : goerr) : Prop := is_Some (ErrorOf e).
Definition classified_opt (e : option goerr) : Prop := match e with Some e => classified e | None => True end.

Definition cloud_write_dec (o : op) : bool :=
  match o with OUpdateCustomDomain _ _ _ | OPutCnameCert _ _ _ _ | ODeleteCnameCert _ _ _ => true | _ => false end.

(** the writes to targets of a history *)
Definition cloud_writes (h : history) : list event := List.filter (fun e => cloud_write_dec (ev_op e)) h.

Class ProviderContract (p : Provider) : Prop := {
  (* Observe only reads *)
  observe_reads t c : all_calls cloud_read (pv_observe p t c);
  (* Apply and Cleanup touch nothing but the target, and write at most once *)
  apply_cloud t c m o : all_calls (fun o => cloud_read o \/ cloud_write o) (pv_apply p t c m o);
  apply_writes_once t c m o h : twp any_env any_call h (pv_apply p t c m o)
    (fun _ h' => length (cloud_writes h') <= length (cloud_writes h) + 1);
  cleanup_cloud t c policy : all_calls (fun o => cloud_read o \/ cloud_write o) (pv_cleanup p t c policy);
  cleanup_writes_once t c policy h : twp any_env any_call h (pv_cleanup p t c policy)
    (fun _ h' => length (cloud_writes h') <= length (cloud_writes h) + 1);
  (* Orphan leaves the target alone: not a single call *)
  cleanup_orphan t c policy : policy <> DeletionPolicyUnbind -> pv_cleanup p t c policy = Ret None;
  (* every error is a ProviderError *)
  observe_classified t c : returns (fun r => match r with inl e => classified e | inr _ => True end) (pv_observe p t c);
  apply_classified t c m o : returns classified_opt (pv_apply p t c m o);
  cleanup_classified t c policy : returns classified_opt (pv_cleanup p t c policy);
  (* a cleanup never fails because the target is gone *)
  cleanup_gone t c policy : returns (fun r => match r with Some e => SwallowNotFound (Some e) = Some e | None => True end)
    (pv_cleanup p t c policy)
}.

(** ** Lemmas *)

#[global] Arguments ToProviderError : simpl never.

Lemma translated_classified op err fr : classified_opt (ToProviderError op err fr).
Proof.
  destruct err as [e|]; [|done]. destruct (ToProviderError_verdict op e fr) as (r & -> & Hv). by exists (provider_verdict e fr).
Qed.

Lemma SwallowNotFound_classified e : classified_opt e -> classified_opt (SwallowNotFound e).
Proof.
  destruct e as [e|]; [|done]. intros He. unfold SwallowNotFound.
  destruct (ErrorOf e) as [[[c r] re]|] eqn:E; [destruct (String.eqb c CodeTargetNotFound)|]; done.
Qed.

Lemma SwallowNotFound_idem e : SwallowNotFound (SwallowNotFound e) = SwallowNotFound e.
Proof.
  destruct e as [e|]; [|done]. cbn. destruct (ErrorOf e) as [[[c r] re]|] eqn:E.
  - destruct (String.eqb c CodeTargetNotFound) eqn:Ec; [done|]. cbn. by rewrite E, Ec.
  - cbn. by rewrite E.
Qed.

Lemma swallowed e : match SwallowNotFound e with Some e => SwallowNotFound (Some e) = Some e | None => True end.
Proof. destruct (SwallowNotFound e) as [e'|] eqn:E; [|done]. rewrite <-E. by rewrite SwallowNotFound_idem. Qed.

Lemma translate_some op e fr : is_Some (ToProviderError op (Some e) fr).
Proof. destruct (ToProviderError_verdict op e fr) as (r & -> & _). eauto. Qed.

Lemma Register_Get p q reg reg' :
  Register p reg = Some reg' -> Get q reg' = if String.eqb q (pv_name p) then Some p else Get q reg.
Proof.
  unfold Register, Get. destruct (reg !! pv_name p); [done|]. intros [= <-].
  destruct (String.eqb_spec q (pv_name p)) as [->|]; by simplify_map_eq.
Qed.

Lemma CASCertRef_empty m : CASCertRef m = "" <-> cm_cert_id m = None \/ cm_cas_region m = "".
Proof.
  unfold CASCertRef. destruct (cm_cert_id m) as [id|]; [|naive_solver].
  destruct (String.eqb_spec (cm_cas_region m) "") as [->|Hn]; [naive_solver|].
  split; [|naive_solver]. intros H. exfalso.
  assert (Hl : String.length (pretty id +:+ "-" +:+ cm_cas_region m) = 0) by by rewrite H.
  rewrite !length_str_app in Hl. cbn in Hl. lia.
Qed.

(** *** Counting writes *)

Lemma cloud_write_dec_spec o : cloud_write_dec o = true <-> cloud_write o.
Proof. by destruct o. Qed.

Lemma cloud_writes_app new h : cloud_writes (new ++ h) = cloud_writes new ++ cloud_writes h.
Proof. apply List.filter_app. Qed.

Lemma cloud_writes_since C h h' : (forall o, C o -> ~ cloud_write o) -> only_since C h h' -> cloud_writes h' = cloud_writes h.
Proof.
  intros HC (new & -> & Hn). rewrite cloud_writes_app. induction Hn as [|e new He _ IH]; [done|]. cbn.
  destruct (cloud_write_dec (ev_op e)) eqn:E; [|exact IH]. apply cloud_write_dec_spec in E. by destruct (HC _ He).
Qed.

Lemma writes_bounded {A} h (p : prog A) n :
  twp any_env any_call h p (fun _ h' => length (cloud_writes h') <= n) -> length (cloud_writes h) <= n.
Proof.
  revert h. induction p as [a|o k IH]; intros h; cbn; [done|]. intros [_ Hk].
  specialize (IH (failed_resp o) _ (Hk (failed_resp o) I)). revert IH. unfold cloud_writes. cbn.
  destruct (cloud_write_dec o); cbn; lia.
Qed.

(** of a program that writes at most once, the write is the first one *)
Lemma writes_once_first {A} h (p : prog A) h' o k :
  twp any_env any_call h p (fun _ h' => length (cloud_writes h') <= length (cloud_writes h) + 1) ->
  reaches any_env h p h' (Vis o k) -> cloud_write o -> cloud_writes h' = cloud_writes h.
Proof.
  intros Ht Hr Ho. pose proof (reaches_suffix _ _ _ _ _ Hr) as [new ->]. rewrite cloud_writes_app.
  pose proof (twp_reaches _ _ _ _ _ _ _ Ht Hr) as [_ Hk]. specialize (Hk (failed_resp o) I).
  apply writes_bounded in Hk. revert Hk. unfold cloud_writes at 1. cbn.
  rewrite (proj2 (cloud_write_dec_spec o) Ho). cbn. fold (cloud_writes (new ++ h)).
  rewrite cloud_writes_app, length_app. intros Hl. destruct (cloud_writes new); [done|]. cbn in Hl. lia.
Qed.
