(* ===== verification/ProviderFC3.v ===== *)
(** * The FC3 provider (pkg/provider/fc3): certificates inlined into a custom domain *)
From S2P Require Import Prelude GoString GoTime Api GoError Cloud Effects Bundle Provider.

#[local] Open Scope prog_scope.

Module FC3.

(** ** Definitions *)

(** *** protocol.go *)

Definition protocolHTTP : string := "HTTP".
Definition protocolHTTPS : string := "HTTPS".
Definition protocolBoth : string := "HTTP,HTTPS".

Definition splitProtocol (p : string) : gset string :=
  list_to_set (List.filter (fun s => negb (String.eqb s ""))
    ((fun part => to_upper (trim_space part)) <$> split "," p)).

Definition protocolHasHTTPS (p : string) : bool := bool_decide (protocolHTTPS ∈ splitProtocol p).

Definition isHTTPSOnly (p : string) : bool :=
  let set := splitProtocol p in
  bool_decide (protocolHTTPS ∈ set) && negb (bool_decide (protocolHTTP ∈ set)).

(** *** provider.go *)

Definition capabilities : Capabilities := mkCapabilities false true false.

Definition clientOf (c : ProviderClient) : goerr + ProviderClient :=
  match c with
  | FC3Client _ _ _ => inr c
  | _ => inl (Errorf CodeInvalidClient false ReasonApplyFailed
                (EText ("需要 aliyun.FC3Client，得到 " +:+ client_type c)))
  end.

(** what [Observe] makes of the domain's certificate *)
Definition observed `{Crypto} (cd : CustomDomain) : ObservedState :=
  let fp := if String.eqb (cd_certificate_pem cd) "" then ""
            else match LeafFingerprint (cd_certificate_pem cd) with inr fp => fp | inl _ => "" end in
  mkObserved fp "" (cd_protocol cd) (cd_account_id cd).

Definition Observe `{Crypto} (t : Target) (c : ProviderClient) : prog (goerr + ObservedState) :=
  match clientOf c with
  | inl e => Ret (inl e)
  | inr cl =>
      let! got := call (OGetCustomDomain cl (tg_identifier t)) in
      Ret match got with
          | inl e => match ToProviderError ActionGetCustomDomain (Some e) ReasonObserveFailed with
                     | Some e => inl e
                     | None => inl e
                     end
          | inr cd => inr (observed cd)
          end
  end.

(** the body [Apply] writes over the domain it just read *)
Definition apply_input (cd : CustomDomain) (m : CertMaterial) (o : ApplyOptions) : UpdateCustomDomainInput :=
  mkUpdateInput
    (if ao_ensure_https o && negb (protocolHasHTTPS (cd_protocol cd)) then protocolBoth else cd_protocol cd)
    (Some (mkCertConfig (cm_cas_name m) (cm_cert_pem m) (cm_key_pem m))) false (cd_echo cd).

Definition Apply (t : Target) (c : ProviderClient) (m : CertMaterial) (o : ApplyOptions) : prog (option goerr) :=
  match clientOf c with
  | inl e => Ret (Some e)
  | inr cl =>
      if String.eqb (cm_cas_name m) "" then
        Ret (Some (Errorf CodePermanent false ReasonApplyFailed
                     (EText "CertMaterial.CASName 为空，无法填写 certConfig.certName")))
      else
        let! got := call (OGetCustomDomain cl (tg_identifier t)) in
        match got with
        | inl e => Ret (ToProviderError ActionGetCustomDomain (Some e) ReasonApplyFailed)
        | inr cd =>
            let! err := call (OUpdateCustomDomain cl (tg_identifier t) (apply_input cd m o)) in
            Ret (ToProviderError ActionUpdateCustomDomain err ReasonApplyFailed)
        end
  end.

(** the body [Cleanup] writes *)
Definition cleanup_input (cd : CustomDomain) : UpdateCustomDomainInput :=
  mkUpdateInput (if isHTTPSOnly (cd_protocol cd) then protocolHTTP else cd_protocol cd) None true (cd_echo cd).

Definition Cleanup (t : Target) (c : ProviderClient) (policy : string) : prog (option goerr) :=
  if negb (String.eqb policy DeletionPolicyUnbind) then Ret None
  else
    match clientOf c with
    | inl e => Ret (Some e)
    | inr cl =>
        let! got := call (OGetCustomDomain cl (tg_identifier t)) in
        match got with
        | inl e => Ret (SwallowNotFound (ToProviderError ActionGetCustomDomain (Some e) ReasonCleanupFailed))
        | inr cd =>
            let! err := call (OUpdateCustomDomain cl (tg_identifier t) (cleanup_input cd)) in
            Ret (SwallowNotFound (ToProviderError ActionUpdateCustomDomain err ReasonCleanupFailed))
        end
    end.

Definition provider `{Crypto} : Provider :=
  mkProvider TargetTypeFC3CustomDomain capabilities Observe Apply Cleanup.

(** ** The contract *)

Lemma clientOf_cases c :
  (exists a b l, c = FC3Client a b l /\ clientOf c = inr c) \/
  (exists e, clientOf c = inl e /\ ErrorOf e = Some (CodeInvalidClient, false, ReasonApplyFailed)).
Proof. destruct c; [left|right|right]; unfold clientOf; eauto 7. Qed.

#[export] Instance contract `{Crypto} : ProviderContract provider.
Proof.
  split; cbn [pv_observe pv_apply pv_cleanup provider]; intros.
  - unfold Observe. destruct (clientOf c); [done|]. by repeat twp_step.
  - unfold Apply. destruct (clientOf c); [done|]. destruct (String.eqb _ _); [done|].
    twp_step; [split; [by left|done]|]. destruct a as [e|cd]; [done|]. twp_step; [split; [by right|done]|done].
  - unfold Apply. destruct (clientOf c); [cbn; lia|]. destruct (String.eqb _ _); [cbn; lia|].
    repeat twp_step. unfold cloud_writes. destruct r as [e|cd]; [cbn; lia|]. repeat twp_step. cbn. lia.
  - unfold Cleanup. destruct (negb _); [done|]. destruct (clientOf c); [done|].
    twp_step; [split; [by left|done]|]. destruct a as [e|cd]; [done|]. twp_step; [split; [by right|done]|done].
  - unfold Cleanup. destruct (negb _); [cbn; lia|]. destruct (clientOf c); [cbn; lia|].
    repeat twp_step. unfold cloud_writes. destruct r as [e|cd]; [cbn; lia|]. repeat twp_step. cbn. lia.
  - unfold Cleanup. by rewrite (proj2 (String.eqb_neq _ _)).
  - unfold Observe. destruct (clientOf_cases c) as [(a & b & l & -> & ->)|(e & -> & He)]; [|cbn; eexists; exact He].
    cbn. intros [e|cd]; [|done]. pose proof (translated_classified ActionGetCustomDomain (Some e) ReasonObserveFailed) as Hc.
    destruct (translate_some ActionGetCustomDomain e ReasonObserveFailed) as [r Hr]. by rewrite Hr in Hc |- *.
  - unfold Apply. destruct (clientOf_cases c) as [(a & b & l & -> & ->)|(e & -> & He)]; [|cbn; eexists; exact He].
    destruct (String.eqb _ _); [by eexists|]. cbn.
    intros [e|cd]; cbn; [apply (translated_classified _ (Some e))|]. intros err. apply translated_classified.
  - unfold Cleanup. destruct (negb _); [done|].
    destruct (clientOf_cases c) as [(a & b & l & -> & ->)|(e & -> & He)]; [|cbn; eexists; exact He]. cbn.
    intros [e|cd]; cbn.
    + apply SwallowNotFound_classified, (translated_classified _ (Some e)).
    + intros err. apply SwallowNotFound_classified, translated_classified.
  - unfold Cleanup. destruct (negb _); [done|].
    destruct (clientOf_cases c) as [(a & b & l & -> & ->)|(e & -> & He)].
    + cbn. intros [e|cd]; cbn; [apply swallowed|]. intros err. apply swallowed.
    + cbn. by rewrite He.
Qed.

(** ** Lemmas *)

Lemma both_has_https : protocolHasHTTPS protocolBoth = true.
Proof. vm_compute. reflexivity. Qed.

Lemma http_not_https_only : isHTTPSOnly protocolHTTP = false.
Proof. vm_compute. reflexivity. Qed.

Lemma isHTTPSOnly_has p : isHTTPSOnly p = true -> protocolHasHTTPS p = true.
Proof. unfold isHTTPSOnly, protocolHasHTTPS. by intros [? _]%andb_true_iff. Qed.

Lemma apply_input_https cd m o :
  ao_ensure_https o = true -> protocolHasHTTPS (ui_protocol (apply_input cd m o)) = true.
Proof.
  unfold apply_input. cbn. intros ->. cbn [andb].
  destruct (protocolHasHTTPS (cd_protocol cd)) eqn:E; cbn [negb]; [done|apply both_has_https].
Qed.

Lemma cleanup_input_reachable cd : isHTTPSOnly (ui_protocol (cleanup_input cd)) = false.
Proof. unfold cleanup_input. cbn. destruct (isHTTPSOnly (cd_protocol cd)) eqn:E; [apply http_not_https_only|done]. Qed.

End FC3.

(** ** Properties *)

(** the calls of a read-modify-write of [domain]: the only write is [f] of what the
    call right before it read *)
Definition rmw (cl : ProviderClient) (domain : string) (f : CustomDomain -> UpdateCustomDomainInput) : policy := fun h o =>
  match o with
  | OGetCustomDomain c d => c = cl /\ d = domain
  | OUpdateCustomDomain c d input => c = cl /\ d = domain /\
      exists cd h', h = Ev (OGetCustomDomain cl domain) (inr cd) :: h' /\ input = f cd
  | _ => False
  end.

Definition update_failed (e : event) : bool :=
  match e with
  | Ev o r =>
      match o return resp o -> bool with
      | OUpdateCustomDomain _ _ _ => fun r => match r with Some _ => true | None => false end
      | _ => fun _ => false
      end r
  end.

(** Apply on FC3 is a read-modify-write that touches nothing of anybody else:
    the only write goes to the target's domain, right after reading it, and consists
    of the certificate with the material's name and bytes, everything else as read,
    and the protocol as read unless HTTPS was asked for and is off, in which case it
    becomes HTTP,HTTPS; so the domain serves HTTPS after a write that asked for it
    and plain HTTP is never opened on a domain that has HTTPS.  Success is reported
    exactly when the write went through. *)
Theorem fc3_Apply_spec (t : Target) (cl : ProviderClient) (m : CertMaterial) (o : ApplyOptions) (h : history) :
  twp any_env (rmw cl (tg_identifier t) (fun cd => FC3.apply_input cd m o)) h (FC3.Apply t cl m o) (fun err h' =>
    err = None <-> exists cd, h' = Ev (OUpdateCustomDomain cl (tg_identifier t) (FC3.apply_input cd m o)) None
      :: Ev (OGetCustomDomain cl (tg_identifier t)) (inr cd) :: h) /\
  forall cd, let input := FC3.apply_input cd m o in
    ui_echo input = cd_echo cd /\ ui_clear_cert input = false /\
    ui_cert_config input = Some (mkCertConfig (cm_cas_name m) (cm_cert_pem m) (cm_key_pem m)) /\
    (ui_protocol input = cd_protocol cd \/
     ui_protocol input = FC3.protocolBoth /\ FC3.protocolHasHTTPS (cd_protocol cd) = false) /\
    (ao_ensure_https o = true -> FC3.protocolHasHTTPS (ui_protocol input) = true).
Proof.
  assert (Hlen : forall (h1 h2 : history) e1 e2, h1 <> e1 :: e2 :: h1).
  { intros h1 _ e1 e2 H. apply (f_equal length) in H. cbn in H. lia. }
  assert (Hlen1 : forall (h1 : history) e1 e2 e3, e3 :: h1 <> e1 :: e2 :: h1).
  { intros h1 e1 e2 e3 H. apply (f_equal length) in H. cbn in H. lia. }
  split.
  - unfold FC3.Apply. destruct (FC3.clientOf_cases cl) as [(a & b & l & Ec & ->)|(e & -> & He)].
    2: { cbn. split; [done|]. intros [cd H]. by apply Hlen in H. }
    destruct (String.eqb _ _); [cbn; split; [done|]; intros [cd H]; by apply Hlen in H|].
    twp_step. split; [done|]. intros [e|cd] _; cbn [twp].
    { split; [|intros [cd H]; by apply Hlen1 in H].
      intros H. by destruct (translate_some ActionGetCustomDomain e ReasonApplyFailed) as [? ?]; congruence. }
    twp_step. split; [do 2 (split; [done|]); by exists cd, h|]. intros err _. cbn [twp]. destruct err as [e|].
    + split; [|intros (cd' & H); by apply (f_equal (existsb update_failed ∘ take 1)) in H].
      intros H. by destruct (translate_some ActionUpdateCustomDomain e ReasonApplyFailed) as [? ?]; congruence.
    + split; [by exists cd|done].
  - intros cd. cbn zeta. do 3 (split; [done|]). split; [|apply FC3.apply_input_https].
    unfold FC3.apply_input. cbn. destruct (ao_ensure_https o); cbn; [|by left].
    destruct (FC3.protocolHasHTTPS (cd_protocol cd)); cbn; auto.
Qed.

(** Unbinding on FC3 removes the certificate and nothing else: Orphan makes no
    call; Unbind is a read-modify-write that clears the certificate, keeps
    everything else as read, and never leaves a domain that can only be reached over
    HTTPS.  It reports success only when nothing was to be done, when the write went
    through, or when the last call said that the domain is gone. *)
Theorem fc3_Cleanup_spec (t : Target) (cl : ProviderClient) (policy : string) (h : history) :
  twp any_env (rmw cl (tg_identifier t) FC3.cleanup_input) h (FC3.Cleanup t cl policy) (fun err h' =>
    err = None ->
      (policy <> DeletionPolicyUnbind /\ h' = h) \/
      (exists cd, h' = Ev (OUpdateCustomDomain cl (tg_identifier t) (FC3.cleanup_input cd)) None
         :: Ev (OGetCustomDomain cl (tg_identifier t)) (inr cd) :: h) \/
      (exists e, ClassOf e = ClassNotFound /\
         (head h' = Some (Ev (OGetCustomDomain cl (tg_identifier t)) (inl e)) \/
          exists cd, head h' = Some (Ev (OUpdateCustomDomain cl (tg_identifier t) (FC3.cleanup_input cd)) (Some e))))) /\
  forall cd, let input := FC3.cleanup_input cd in
    ui_echo input = cd_echo cd /\ ui_clear_cert input = true /\ ui_cert_config input = None /\
    (ui_protocol input = cd_protocol cd \/ FC3.isHTTPSOnly (cd_protocol cd) = true) /\
    FC3.isHTTPSOnly (ui_protocol input) = false.
Proof.
  assert (Hgone : forall op e, SwallowNotFound (ToProviderError op (Some e) ReasonCleanupFailed) = None -> ClassOf e = ClassNotFound).
  { intros op e. destruct (ToProviderError_spec op ReasonCleanupFailed e) as (r & -> & _ & _ & _ & H). apply H. }
  split.
  - unfold FC3.Cleanup. destruct (String.eqb_spec policy DeletionPolicyUnbind) as [->|Hn]; cbn [negb]; [|cbn; auto].
    destruct (FC3.clientOf_cases cl) as [(a & b & l & Ec & ->)|(e & -> & He)]; [|done].
    twp_step. split; [done|]. intros [e|cd] _; cbn [twp].
    { intros He%Hgone. right. right. exists e. split; [done|]. by left. }
    twp_step. split; [do 2 (split; [done|]); by exists cd, h|]. intros [e|] _; cbn [twp]; intros H.
    + apply Hgone in H. right. right. exists e. split; [done|]. right. by exists cd.
    + right. left. by exists cd.
  - intros cd. cbn zeta. do 3 (split; [done|]). split; [|apply FC3.cleanup_input_reachable].
    unfold FC3.cleanup_input. cbn. destruct (FC3.isHTTPSOnly (cd_protocol cd)); auto.
Qed.
