(* ===== verification/ProviderOSS.v ===== *)
(** * The OSS provider (pkg/provider/oss): CAS certificates referenced by a CNAME *)
From S2P Require Import Prelude GoString GoTime Api GoError Cloud Effects Provider.

#[local] Open Scope prog_scope.

Module OSS.

(** ** Definitions *)

Definition capabilities : Capabilities := mkCapabilities true false true.

Definition clientOf (c : ProviderClient) : goerr + ProviderClient :=
  match c with
  | OSSClient _ _ _ => inr c
  | _ => inl (Errorf CodeInvalidClient false ReasonApplyFailed
                (EText ("需要 aliyun.OSSClient，得到 " +:+ client_type c)))
  end.

(** a nil pointer is refused like a spec of another type *)
Definition specOf (t : Target) : goerr + OSSCustomDomainTarget :=
  match tg_spec t with
  | SpecOSS (Some s) => inr s
  | s => inl (Errorf CodeInvalidTarget false ReasonApplyFailed
                (EText ("需要 *OSSCustomDomainTarget，得到 " +:+ spec_type s)))
  end.

(** both assertions, in the order of the methods *)
Definition with_client {A} (t : Target) (c : ProviderClient) (fail : goerr -> A)
    (k : ProviderClient -> OSSCustomDomainTarget -> prog A) : prog A :=
  match clientOf c with
  | inl e => Ret (fail e)
  | inr cl => match specOf t with inl e => Ret (fail e) | inr s => k cl s end
  end.

Definition Observe (t : Target) (c : ProviderClient) : prog (goerr + ObservedState) :=
  with_client t c inl (fun cl s =>
    let! got := call (OGetCname cl (oss_bucket s) (oss_domain_name s)) in
    Ret match got with
        | inl e => match ToProviderError ActionListCname (Some e) ReasonObserveFailed with
                   | Some e => inl e
                   | None => inl e
                   end
        | inr cn => inr (mkObserved "" (cn_cert_ref cn) "" (cn_account_id cn))
        end).

Definition Apply (t : Target) (c : ProviderClient) (m : CertMaterial) (_ : ApplyOptions) : prog (option goerr) :=
  with_client t c Some (fun cl s =>
    let ref := CASCertRef m in
    if String.eqb ref "" then
      Ret (Some (Errorf CodePermanent false ReasonApplyFailed
                   (EText "CertMaterial 没有可引用的 CAS certId（CertID 为 nil 或 CASRegion 为空）")))
    else
      let! err := call (OPutCnameCert cl (oss_bucket s) (oss_domain_name s) ref) in
      Ret (ToProviderError ActionPutCname err ReasonApplyFailed)).

Definition Cleanup (t : Target) (c : ProviderClient) (policy : string) : prog (option goerr) :=
  if negb (String.eqb policy DeletionPolicyUnbind) then Ret None
  else
    with_client t c Some (fun cl s =>
      let! err := call (ODeleteCnameCert cl (oss_bucket s) (oss_domain_name s)) in
      Ret (SwallowNotFound (ToProviderError ActionPutCname err ReasonCleanupFailed))).

Definition provider : Provider := mkProvider TargetTypeOSSCustomDomain capabilities Observe Apply Cleanup.

(** ** The contract *)

(** a refused client or target is a permanent wiring error, reported before any call *)
Lemma with_client_cases {A} t c (fail : goerr -> A) k :
  (exists cl s, clientOf c = inr cl /\ specOf t = inr s /\ with_client t c fail k = k cl s) \/
  (exists e code, with_client t c fail k = Ret (fail e) /\
     ErrorOf e = Some (code, false, ReasonApplyFailed) /\ (code = CodeInvalidClient \/ code = CodeInvalidTarget)).
Proof.
  unfold with_client. destruct (clientOf c) as [e|cl] eqn:Ec; [right|].
  { exists e, CodeInvalidClient. split; [done|]. split; [|by left].
    unfold clientOf in Ec. by destruct c; [injection Ec as <-| |injection Ec as <-]. }
  destruct (specOf t) as [e|s] eqn:Es; [right|left; eauto 6].
  exists e, CodeInvalidTarget. split; [done|]. split; [|by right].
  unfold specOf in Es. by destruct (tg_spec t) as [|[]]; [injection Es as <-| |injection Es as <-].
Qed.

#[export] Instance contract : ProviderContract provider.
Proof.
  split; cbn [pv_observe pv_apply pv_cleanup provider]; intros;
    unfold Observe, Apply, Cleanup; try destruct (String.eqb_spec policy DeletionPolicyUnbind); cbn [negb];
    try done; try solve [cbn; lia];
    match goal with |- context [with_client ?t ?c ?f ?k] =>
      destruct (with_client_cases t c f k) as [(cl & s & _ & _ & ->)|(err0 & code & -> & He & Hc)] end;
    cbv beta zeta; try (cbn; done).
  - destruct (String.eqb _ _); [done|]. twp_step; [split; [by right|done]|done].
  - destruct (String.eqb _ _); [cbn; lia|]. repeat twp_step. unfold cloud_writes. cbn. lia.
  - cbn. lia.
  - twp_step; [split; [by right|done]|done].
  - repeat twp_step. unfold cloud_writes. cbn. lia.
  - cbn. lia.
  - cbn. intros [e|cd]; [|done]. pose proof (translated_classified ActionListCname (Some e) ReasonObserveFailed) as Hc.
    destruct (translate_some ActionListCname e ReasonObserveFailed) as [r Hr]. by rewrite Hr in Hc |- *.
  - cbn. by eexists.
  - destruct (String.eqb _ _); [by eexists|]. cbn. intros err. apply translated_classified.
  - cbn. by eexists.
  - cbn. intros err. apply SwallowNotFound_classified, translated_classified.
  - cbn. by eexists.
  - cbn. intros err. apply swallowed.
  - cbn. rewrite He. by destruct Hc as [-> | ->].
Qed.

End OSS.

(** ** Properties *)

(** the one write to the CNAME of the target *)
Definition cname_write (t : Target) (f : OSSCustomDomainTarget -> op) : policy := fun h o =>
  exists s, tg_spec t = SpecOSS (Some s) /\ o = f s.

Definition put_of (cl : ProviderClient) (m : CertMaterial) (s : OSSCustomDomainTarget) : op :=
  OPutCnameCert cl (oss_bucket s) (oss_domain_name s) (CASCertRef m).
Definition detach_of (cl : ProviderClient) (s : OSSCustomDomainTarget) : op :=
  ODeleteCnameCert cl (oss_bucket s) (oss_domain_name s).

(** OSS targets are bound by reference.  All Apply does to the cloud is to
    write the CAS reference of the material to the bucket and domain of the target,
    and only when there is a certificate in CAS to refer to; neither the certificate
    nor its key is sent, and success is reported exactly when the write went through.
    Cleanup under Unbind detaches the certificate of that CNAME and of no other, and
    reports success only when that went through or the CNAME is gone; under Orphan it
    does nothing. *)
Theorem oss_writes_spec (t : Target) (cl : ProviderClient) (m : CertMaterial) (o : ApplyOptions) (policy : string)
    (h : history) :
  twp any_env (fun h o => cname_write t (put_of cl m) h o /\ CASCertRef m <> "") h (OSS.Apply t cl m o) (fun err h' =>
    err = None <-> exists s, h' = Ev (OPutCnameCert cl (oss_bucket s) (oss_domain_name s) (CASCertRef m)) None :: h) /\
  twp any_env (fun h o => cname_write t (detach_of cl) h o /\ policy = DeletionPolicyUnbind) h (OSS.Cleanup t cl policy)
    (fun err h' => err = None ->
      (policy <> DeletionPolicyUnbind /\ h' = h) \/
      exists s err, h' = Ev (ODeleteCnameCert cl (oss_bucket s) (oss_domain_name s)) err :: h /\
        (err = None \/ exists e, err = Some e /\ ClassOf e = ClassNotFound)).
Proof.
  assert (Hlen : forall (h1 : history) e1, h1 <> e1 :: h1).
  { intros h1 e1 H. apply (f_equal length) in H. cbn in H. lia. }
  assert (Hcl : forall c x, OSS.clientOf c = inr x -> c = x) by (by intros [] x; cbn; intros [=]).
  assert (Hsp : forall s, OSS.specOf t = inr s -> tg_spec t = SpecOSS (Some s)).
  { unfold OSS.specOf. intros s. destruct (tg_spec t) as [|[]]; congruence. }
  split.
  - unfold OSS.Apply. match goal with |- context [OSS.with_client ?t ?c ?f ?k] =>
      destruct (OSS.with_client_cases t c f k) as [(cl' & s & <-%Hcl & Hs%Hsp & ->)|(e & code & -> & _)] end.
    2: { cbn. split; [done|]. intros [s H]. by apply Hlen in H. }
    cbn zeta. destruct (String.eqb_spec (CASCertRef m) "") as [_|Hr]; [cbn; split; [done|]; intros [s' H]; by apply Hlen in H|].
    twp_step. split; [split; [by exists s|done]|]. intros err _. cbn [twp]. destruct err as [e|].
    + split; intros H; [by destruct (translate_some ActionPutCname e ReasonApplyFailed) as [? ?]; congruence|].
      destruct H as [s' H]. by apply (f_equal (fun h => match h with
        | Ev o r :: _ => match o return resp o -> bool with OPutCnameCert _ _ _ _ => fun r => bool_decide (is_Some r)
                         | _ => fun _ => false end r | [] => false end)) in H.
    + split; [by exists s|done].
  - unfold OSS.Cleanup. destruct (String.eqb_spec policy DeletionPolicyUnbind) as [Hp|Hn]; cbn [negb]; [|cbn; by left].
    match goal with |- context [OSS.with_client ?t ?c ?f ?k] =>
      destruct (OSS.with_client_cases t c f k) as [(cl' & s & <-%Hcl & Hs%Hsp & ->)|(e & code & -> & _)] end; [|done].
    twp_step. split; [split; [by exists s|done]|]. intros err _. cbn [twp]. intros H. right. exists s, err.
    split; [done|]. destruct err as [e|]; [right|by left]. exists e. split; [done|]. revert H.
    destruct (ToProviderError_spec ActionPutCname ReasonCleanupFailed e) as (r & -> & _ & _ & _ & Hg). apply Hg.
Qed.
