(* ===== verification/TargetCells.v ===== *)
(** * Targets as cells: what the two providers implement

    The abstract view of the clouds: each target is a cell that shows an
    [ObservedState], or is not there.  [CellProvider] says of a provider that
    observing reads the target's cell and that applying and cleaning up are atomic
    steps of that cell and of no other, whatever faults the cloud has; and that on a
    cloud without faults the steps succeed.  Both providers, over the fakes, are
    instances, so a client can be verified against the cells. *)
From S2P Require Import Prelude GoString GoTime Api GoError Cloud Effects Bundle Provider ProviderFC3 ProviderOSS.
From S2P Require Import FakeCAS FakeFC3 FakeOSS FakeCloud.

#[local] Open Scope prog_scope.

(** ** The abstract clouds *)

(** the identity of a target in its cloud; OSS takes any spelling of a domain *)
Inductive cell_key : Type := KFC3 (domain : string) | KOSS (bucket lower_domain : string).
#[export] Instance cell_key_eq_dec : EqDecision cell_key.
Proof. solve_decision. Defined.

Definition cname_observed (account : string) (r : FakeOSS.CnameRecord) : ObservedState :=
  mkObserved "" (FakeOSS.CertRef r) "" account.

Definition cell `{Crypto} (c : cloud) (k : cell_key) : option ObservedState :=
  match k with
  | KFC3 d => FC3.observed ∘ FakeFC3.shown_domain (FakeFC3.accountID (cl_fc3 c)) <$> FakeFC3.domains (cl_fc3 c) !! d
  | KOSS b d => cname_observed (FakeOSS.owner (cl_oss c)) <$> (FakeOSS.buckets (cl_oss c) !! b ≫= fun recs => recs !! d)
  end.

(** no fault is injected *)
Definition calm (c : cloud) : Prop :=
  FakeFC3.getErrs (cl_fc3 c) = [] /\ FakeFC3.updateErrs (cl_fc3 c) = [] /\
  FakeFC3.alwaysUpdateErr (cl_fc3 c) = None /\ FakeFC3.failAfterCommit (cl_fc3 c) = None /\
  FakeOSS.listErrs (cl_oss c) = [] /\ FakeOSS.putErrs (cl_oss c) = [] /\ FakeOSS.alwaysPutErr (cl_oss c) = None.

(** an atomic write: it succeeds, or commits although an error is reported, or is
    refused with an error *)
Inductive write_step (f : ObservedState -> ObservedState) :
    option ObservedState -> option goerr -> option ObservedState -> Prop :=
| write_done x : write_step f (Some x) None (Some (f x))
| write_lost x e : write_step f (Some x) (Some e) (Some (f x))
| write_refused s e : write_step f s (Some e) s.

(** the error a cloud answered a call on a target with *)
Definition target_error (o : op) : resp o -> option goerr :=
  match o with
  | OGetCustomDomain _ _ | OGetCname _ _ _ => fun x => match x with inl e => Some e | inr _ => None end
  | OUpdateCustomDomain _ _ _ | OPutCnameCert _ _ _ _ | ODeleteCnameCert _ _ _ => fun x => x
  | _ => fun _ => None
  end.

(** the cloud answered with [e] between [h] and [h'] *)
Definition answered (h h' : history) (e : goerr) : Prop :=
  exists new o x, h' = new ++ h /\ Ev o x ∈ new /\ target_error o x = Some e.

(** the cloud said between [h] and [h'] that the target is gone *)
Definition told_gone (h h' : history) : Prop := exists e, answered h h' e /\ ClassOf e = ClassNotFound.

(** an unbinding as it is reported: done when the certificate is off the target or the
    cloud said that there is none; an error of the cloud in any other case *)
Definition unbinding_reported (f : ObservedState -> ObservedState) (s : option ObservedState) (err : option goerr) (s' : option ObservedState)
    (h h' : history) : Prop :=
  (s' = s \/ s' = f <$> s) /\
  match err with
  | None => s' = f <$> s \/ told_gone h h'
  | Some _ => exists e, answered h h' e /\ ClassOf e <> ClassNotFound
  end.

(** the cells but [k] are the same *)
Definition frame `{Crypto} (k : cell_key) (c c' : cloud) : Prop := forall k', k' <> k -> cell c' k' = cell c k'.

Class CellProvider `{Crypto} (p : Provider) : Type := {
  (* the cell of a target, for a client of the right type *)
  cp_key : Target -> ProviderClient -> option cell_key;
  (* a material that can be written, a cell that can be written to *)
  cp_material : CertMaterial -> Prop;
  cp_live : ObservedState -> Prop;
  (* what the cell shows after an apply, and after an unbinding *)
  cp_applied : CertMaterial -> ApplyOptions -> ObservedState -> ObservedState;
  cp_bare : ObservedState -> ObservedState
}.

Class CellProviderLaws `{Crypto} (visit : gmap Z FakeCAS.Cert -> list FakeCAS.Cert) (p : Provider) `{!CellProvider p} : Prop := {
  cell_observe c0 h t cl k : cp_key t cl = Some k ->
    let c := cloud_after visit c0 h in
    twp (fake_env visit c0) any_call h (pv_observe p t cl) (fun seen h' =>
      let c' := cloud_after visit c0 h' in
      (forall k', cell c' k' = cell c k') /\
      (forall obs, seen = inr obs -> cell c k = Some obs) /\
      (calm c -> calm c' /\
         forall e, seen = inl e -> cell c k = None /\ exists b rs, ErrorOf e = Some (CodeTargetNotFound, b, rs)));
  cell_apply c0 h t cl k m o : cp_key t cl = Some k ->
    let c := cloud_after visit c0 h in
    twp (fake_env visit c0) any_call h (pv_apply p t cl m o) (fun err h' =>
      let c' := cloud_after visit c0 h' in
      write_step (cp_applied m o) (cell c k) err (cell c' k) /\ frame k c c' /\
      (calm c -> calm c' /\ forall x, cp_material m -> cell c k = Some x -> cp_live x -> err = None));
  cell_cleanup c0 h t cl k : cp_key t cl = Some k ->
    let c := cloud_after visit c0 h in
    twp (fake_env visit c0) any_call h (pv_cleanup p t cl DeletionPolicyUnbind) (fun err h' =>
      let c' := cloud_after visit c0 h' in
      unbinding_reported cp_bare (cell c k) err (cell c' k) h h' /\ frame k c c' /\
      (calm c -> calm c' /\
         ((forall x, cell c k = Some x -> cp_live x) -> err = None /\ cell c' k = cp_bare <$> cell c k)));
  (* an applied cell shows the material, serves HTTPS where that was asked for and can
     be switched, and stays live and in its account *)
  applied_identity m o x : cp_material m ->
    if cap_references_cert_by_id (pv_capabilities p) then ob_current_cert_ref (cp_applied m o x) = CASCertRef m
    else ob_current_fingerprint (cp_applied m o x) = cm_fingerprint m;
  applied_https m o x : ao_ensure_https o = true -> cap_supports_protocol_switch (pv_capabilities p) = true ->
    FC3.protocolHasHTTPS (ob_protocol (cp_applied m o x)) = true;
  applied_live m o x : cp_live x -> cp_live (cp_applied m o x) /\ ob_account_id (cp_applied m o x) = ob_account_id x;
  (* a bare cell shows no certificate *)
  bare_identity x : ob_current_cert_ref (cp_bare x) = "" /\ ob_current_fingerprint (cp_bare x) = ""
}.

(** ** Steps of the fakes as steps of the cells *)

Section steps.
  Context `{Cr : Crypto} (visit : gmap Z FakeCAS.Cert -> list FakeCAS.Cert).

(** what [cell] and [calm] read of the FC3 fake, and of the OSS fake *)
Lemma cell_set_fc3 c f k :
  FakeFC3.accountID f = FakeFC3.accountID (cl_fc3 c) -> FakeFC3.domains f = FakeFC3.domains (cl_fc3 c) ->
  cell (set_fc3 c f) k = cell c k.
Proof. intros Ha Hd. destruct k; cbn; by rewrite ?Ha, ?Hd. Qed.

Lemma cell_set_oss c f k :
  FakeOSS.owner f = FakeOSS.owner (cl_oss c) -> FakeOSS.buckets f = FakeOSS.buckets (cl_oss c) ->
  cell (set_oss c f) k = cell c k.
Proof. intros Ha Hd. destruct k; cbn; by rewrite ?Ha, ?Hd. Qed.

(** **** FC3 *)

Lemma fc3_account_get d f : FakeFC3.accountID (FakeFC3.GetCustomDomain d f).2 = FakeFC3.accountID f.
Proof. unfold FakeFC3.GetCustomDomain. cbn. destruct (FakeFC3.getErrs f) as [|[e|] q]; cbn; try done; by destruct (FakeFC3.domains f !! d). Qed.

Lemma fc3_account_update d i f : FakeFC3.accountID (FakeFC3.UpdateCustomDomain d i f).2 = FakeFC3.accountID f.
Proof.
  unfold FakeFC3.UpdateCustomDomain, FakeFC3.count_update, FakeFC3.set_faults, FakeFC3.set_domains. cbn.
  destruct (FakeFC3.alwaysUpdateErr f); [done|]. destruct (FakeCAS.pop _) as [[e|] q]; [done|].
  destruct (FakeFC3.domains f !! d); [|done]. destruct (FakeFC3.validateUpdate i); [done|]. destruct i; [|done].
  by destruct (FakeFC3.failAfterCommit f).
Qed.

Definition after_get (d : string) (c : cloud) : cloud := set_fc3 c (FakeFC3.GetCustomDomain d (cl_fc3 c)).2.
Definition after_update (d : string) (i : UpdateCustomDomainInput) (c : cloud) : cloud :=
  set_fc3 c (FakeFC3.UpdateCustomDomain d (Some i) (cl_fc3 c)).2.

Lemma env_get c0 h cl d x : fake_env visit c0 h (OGetCustomDomain cl d) x ->
  x = (FakeFC3.GetCustomDomain d (cl_fc3 (cloud_after visit c0 h))).1 /\
  cloud_after visit c0 (Ev (OGetCustomDomain cl d) x :: h) = after_get d (cloud_after visit c0 h).
Proof. unfold fake_env, after_get. cbn. unfold cloud_next. cbn. by destruct (FakeFC3.GetCustomDomain _ _). Qed.

Lemma env_update c0 h cl d i x : fake_env visit c0 h (OUpdateCustomDomain cl d i) x ->
  x = (FakeFC3.UpdateCustomDomain d (Some i) (cl_fc3 (cloud_after visit c0 h))).1 /\
  cloud_after visit c0 (Ev (OUpdateCustomDomain cl d i) x :: h) = after_update d i (cloud_after visit c0 h).
Proof. unfold fake_env, after_update. cbn. unfold cloud_next. cbn. by destruct (FakeFC3.UpdateCustomDomain _ _ _). Qed.

Lemma after_get_cell d c k : cell (after_get d c) k = cell c k.
Proof. apply cell_set_fc3; [apply fc3_account_get|apply FakeFC3.get_domains]. Qed.

Lemma after_get_calm d c : calm c -> calm (after_get d c) /\
  (FakeFC3.GetCustomDomain d (cl_fc3 c)).1 =
    match FakeFC3.domains (cl_fc3 c) !! d with
    | Some x => inr (FakeFC3.shown_domain (FakeFC3.accountID (cl_fc3 c)) x)
    | None => inl FakeFC3.ErrDomainNotFound
    end.
Proof.
  intros (Hg & Hu & Ha & Hf & Hc). unfold calm, after_get, FakeFC3.GetCustomDomain. cbn. rewrite Hg. cbn.
  by destruct (FakeFC3.domains (cl_fc3 c) !! d).
Qed.

(** a read that returns a domain returns the one that is there *)
Lemma get_shown d f cd : (FakeFC3.GetCustomDomain d f).1 = inr cd ->
  exists x, FakeFC3.domains f !! d = Some x /\ cd = FakeFC3.shown_domain (FakeFC3.accountID f) x.
Proof.
  unfold FakeFC3.GetCustomDomain. cbn. destruct (FakeCAS.pop (FakeFC3.getErrs f)) as [[e|] q]; [done|]. cbn.
  destruct (FakeFC3.domains f !! d) as [x|]; [|done]. cbn. intros [= <-]. eauto.
Qed.

Lemma after_update_frame d i c : frame (KFC3 d) c (after_update d i c).
Proof.
  intros k Hk. destruct k as [d'|b d']; [|done]. cbn. rewrite fc3_account_update, FakeFC3.update_frame; [done|]. congruence.
Qed.

(** a write of [i] over the domain [x] that was just read *)
Lemma after_update_cell d i c x (g : ObservedState -> ObservedState) :
  FakeFC3.domains (cl_fc3 c) !! d = Some x ->
  (let a := FakeFC3.accountID (cl_fc3 c) in
   FC3.observed (FakeFC3.shown_domain a (FakeFC3.updated i x)) = g (FC3.observed (FakeFC3.shown_domain a x))) ->
  write_step g (cell c (KFC3 d)) (FakeFC3.UpdateCustomDomain d (Some i) (cl_fc3 c)).1 (cell (after_update d i c) (KFC3 d)).
Proof.
  intros Hx Hg. cbn. rewrite fc3_account_update.
  destruct (FakeFC3.update_self d i (cl_fc3 c)) as [[-> [e ->]]|(y & Hy & -> & ->)]; [constructor|].
  rewrite Hx in Hy |- *. injection Hy as <-. cbn. rewrite Hg. destruct (FakeFC3.failAfterCommit (cl_fc3 c)); constructor.
Qed.

Lemma after_update_calm d i c : calm c -> calm (after_update d i c) /\
  (forall x, FakeFC3.domains (cl_fc3 c) !! d = Some x -> ui_protocol i <> "" ->
     (FakeFC3.UpdateCustomDomain d (Some i) (cl_fc3 c)).1 = None /\
     FakeFC3.domains (cl_fc3 (after_update d i c)) !! d = Some (FakeFC3.updated i x)).
Proof.
  intros (Hg & Hu & Ha & Hf & Hc).
  unfold calm, after_update, FakeFC3.UpdateCustomDomain, FakeFC3.count_update, FakeFC3.set_faults, FakeFC3.set_domains.
  cbn. rewrite Ha, Hu. cbn. destruct (FakeFC3.domains (cl_fc3 c) !! d) as [y|] eqn:Ey; [|by cbn].
  unfold FakeFC3.validateUpdate. destruct (String.eqb_spec (ui_protocol i) "") as [E|Hp]; cbn; [by split; [|done]|].
  rewrite Hf. cbn. split; [done|]. intros x [= ->] _. by rewrite lookup_insert_eq.
Qed.

End steps.

(** an error that is translated stays an error *)
Lemma translate_step f s raw s' op fr : write_step f s raw s' -> write_step f s (ToProviderError op raw fr) s'.
Proof.
  destruct 1 as [x|x e|s e]; [apply write_done|..]; destruct (translate_some op e fr) as [r ->]; constructor.
Qed.

(** a write whose reported error may be swallowed *)
Lemma write_step_state f s raw s' : write_step f s raw s' -> s' = s \/ s' = f <$> s.
Proof. destruct 1; auto. Qed.

(** an unbinding that reports the cloud's answer, a missing target aside *)
Lemma swallowed_reported f s raw s' h h' op fr :
  write_step f s raw s' -> (forall e, raw = Some e -> answered h h' e) ->
  unbinding_reported f s (SwallowNotFound (ToProviderError op raw fr)) s' h h'.
Proof.
  intros Hs Han. split; [by eapply write_step_state|]. destruct raw as [e|]; [|cbn; left; by inversion Hs].
  destruct (ToProviderError_spec op fr e) as (r & -> & _ & _ & _ & Hgone).
  destruct (SwallowNotFound (Some r)) as [e'|]; [|right; exists e; split; [by apply Han|by apply Hgone]].
  exists e. split; [by apply Han|]. intros Hc. by apply Hgone in Hc.
Qed.

(** ** FC3 *)

(** the fingerprint a certificate text is observed with *)
Definition shown_fingerprint `{Crypto} (pem : string) : string :=
  if String.eqb pem "" then "" else match LeafFingerprint pem with inr fp => fp | inl _ => "" end.

Definition fc3_applied `{Crypto} (m : CertMaterial) (o : ApplyOptions) (x : ObservedState) : ObservedState :=
  mkObserved (shown_fingerprint (cm_cert_pem m)) ""
    (if ao_ensure_https o && negb (FC3.protocolHasHTTPS (ob_protocol x)) then FC3.protocolBoth else ob_protocol x)
    (ob_account_id x).

Definition fc3_bare (x : ObservedState) : ObservedState :=
  mkObserved "" "" (if FC3.isHTTPSOnly (ob_protocol x) then FC3.protocolHTTP else ob_protocol x) (ob_account_id x).

#[export] Instance fc3_cells `{Crypto} : CellProvider FC3.provider := {
  cp_key t cl := match cl with FC3Client _ _ _ => Some (KFC3 (tg_identifier t)) | _ => None end;
  cp_material m := cm_cas_name m <> "" /\ cm_cert_pem m <> "" /\ LeafFingerprint (cm_cert_pem m) = inr (cm_fingerprint m);
  cp_live x := ob_protocol x <> "";
  cp_applied := fc3_applied;
  cp_bare := fc3_bare
}.

Section fc3.
  Context `{Cr : Crypto} (visit : gmap Z FakeCAS.Cert -> list FakeCAS.Cert).

Lemma fc3_client t cl k : cp_key t cl = Some k -> FC3.clientOf cl = inr cl /\ k = KFC3 (tg_identifier t).
Proof. by destruct cl; [intros [= <-]| |]. Qed.

(** the write of [f] over what was just read, as a step of the cell *)
Lemma fc3_rmw c0 h t cl (f : CustomDomain -> UpdateCustomDomainInput) (g : ObservedState -> ObservedState) op1 op2 fr
    (fin : option goerr -> option goerr) :
  (forall a x, FC3.observed (FakeFC3.shown_domain a (FakeFC3.updated (f (FakeFC3.shown_domain a x)) x)) =
     g (FC3.observed (FakeFC3.shown_domain a x))) ->
  (forall a x, FakeFC3.Protocol x <> "" -> ui_protocol (f (FakeFC3.shown_domain a x)) <> "") ->
  let c := cloud_after visit c0 h in let k := KFC3 (tg_identifier t) in
  twp (fake_env visit c0) any_call h
    (let! got := call (OGetCustomDomain cl (tg_identifier t)) in
     match got with
     | inl e => Ret (fin (ToProviderError op1 (Some e) fr))
     | inr cd =>
         let! err := call (OUpdateCustomDomain cl (tg_identifier t) (f cd)) in
         Ret (fin (ToProviderError op2 err fr))
     end)
    (fun err h' => let c' := cloud_after visit c0 h' in
       frame k c c' /\
       exists raw, write_step g (cell c k) raw (cell c' k) /\
         (err = fin (ToProviderError op1 raw fr) \/ err = fin (ToProviderError op2 raw fr)) /\
         (forall e, raw = Some e -> answered h h' e) /\
         (calm c -> calm c' /\
            (cell c k = None -> raw = Some FakeFC3.ErrDomainNotFound) /\
            (forall x, cell c k = Some x -> ob_protocol x <> "" -> raw = None))).
Proof.
  intros Hg Hp. cbn zeta. twp_step. split; [exact I|]. intros got Hgot. apply env_get in Hgot as [Hgot Hc1].
  set (d := tg_identifier t) in *. set (c := cloud_after visit c0 h) in *. destruct got as [e|cd].
  - cbn [twp]. rewrite Hc1. split; [intros k' _; apply after_get_cell|]. exists (Some e). rewrite after_get_cell.
    split; [constructor|]. split; [by left|]. split.
    { intros e' [= <-]. exists [Ev (OGetCustomDomain cl d) (inl e)], (OGetCustomDomain cl d), (inl e). split; [done|]. split; [by left|done]. }
    intros Hcalm. destruct (after_get_calm d c Hcalm) as [Hcalm' Heq].
    split; [done|]. rewrite <-Hgot in Heq. cbn. destruct (FakeFC3.domains (cl_fc3 c) !! d); [done|]. by injection Heq as ->.
  - symmetry in Hgot. apply get_shown in Hgot as (x & Hx & Ecd).
    cbn [twp]. twp_step. split; [exact I|]. intros err Herr. apply env_update in Herr as [Herr Hc2].
    rewrite Hc1 in Herr, Hc2. cbn [twp]. rewrite Hc2. set (i := f cd) in *. set (c1 := after_get d c) in *.
    assert (Hx1 : FakeFC3.domains (cl_fc3 c1) !! d = Some x) by (unfold c1, after_get; cbn; by rewrite FakeFC3.get_domains).
    assert (Ha1 : FakeFC3.accountID (cl_fc3 c1) = FakeFC3.accountID (cl_fc3 c)) by (apply fc3_account_get).
    split. { intros k' Hk. rewrite (after_update_frame d i c1) by done. apply after_get_cell. }
    exists err. rewrite <-(after_get_cell d c), Herr. fold c1.
    split. { apply (after_update_cell d i c1 x g Hx1). cbn zeta. rewrite Ha1. unfold i. rewrite Ecd. apply Hg. }
    split; [by right|]. split.
    { intros e' He. eexists [_; _], (OUpdateCustomDomain cl d i), _. split; [reflexivity|]. split; [by apply list_elem_of_here|done]. }
    intros Hcalm. destruct (after_get_calm d c Hcalm) as [Hcalm1 _]. fold c1 in Hcalm1.
    destruct (after_update_calm d i c1 Hcalm1) as [Hcalm2 Hok]. split; [done|]. cbn [cell]. rewrite Hx1. split; [done|].
    cbn. intros y [= <-] Hl. apply (Hok x Hx1). unfold i. rewrite Ecd. by apply Hp.
Qed.


#[export] Instance fc3_cells_laws : CellProviderLaws visit FC3.provider.
Proof.
  split; cbn [pv_observe pv_apply pv_cleanup pv_capabilities FC3.provider].
  - intros c0 h t cl k Hk. cbn zeta. apply fc3_client in Hk as [Hcl ->]. unfold FC3.Observe. rewrite Hcl.
    twp_step. split; [exact I|]. intros got Hgot. apply env_get in Hgot as [Hgot Hc1]. cbn [twp]. rewrite Hc1.
    set (d := tg_identifier t) in *. set (c := cloud_after visit c0 h) in *.
    split; [intros k'; apply after_get_cell|]. split.
    + intros obs. destruct got as [e|cd]. { by destruct (ToProviderError _ _ _). }
      intros [= <-]. symmetry in Hgot. apply get_shown in Hgot as (x & Hx & ->). cbn. by rewrite Hx.
    + intros Hcalm. destruct (after_get_calm d c Hcalm) as [Hcalm' Heq]. split; [done|]. intros e He.
      rewrite <-Hgot in Heq. cbn. destruct (FakeFC3.domains (cl_fc3 c) !! d); [by rewrite Heq in He|].
      split; [done|]. rewrite Heq in He. cbn in He. injection He as <-. by repeat eexists.
  - intros c0 h t cl k m o Hk. cbn zeta. apply fc3_client in Hk as [Hcl ->]. unfold FC3.Apply. rewrite Hcl.
    destruct (String.eqb_spec (cm_cas_name m) "") as [E|Hn].
    { cbn [twp]. split; [constructor|]. split; [by intros k' _|]. intros Hc. split; [done|]. by intros x [? _]. }
    eapply twp_post; [apply (fc3_rmw c0 h t cl (fun cd => FC3.apply_input cd m o) (fc3_applied m o) _ _ _ id)|].
    + intros a x. reflexivity.
    + intros a x Hp. unfold FC3.apply_input. cbn [ui_protocol]. case_match; [discriminate|exact Hp].
    + intros err h' (Hf & raw & Hs & He & _ & Hc). split.
      { destruct He as [-> | ->]; by apply translate_step. }
      split; [done|]. intros Hcalm. destruct (Hc Hcalm) as (? & _ & Hlive). split; [done|]. intros x _ Hx Hl.
      specialize (Hlive x Hx Hl). subst raw. by destruct He as [-> | ->].
  - intros c0 h t cl k Hk. cbn zeta. apply fc3_client in Hk as [Hcl ->]. unfold FC3.Cleanup.
    change (negb (String.eqb DeletionPolicyUnbind DeletionPolicyUnbind)) with false. cbv iota. rewrite Hcl.
    eapply twp_post; [apply (fc3_rmw c0 h t cl FC3.cleanup_input fc3_bare _ _ _ SwallowNotFound)|].
    + intros a x. reflexivity.
    + intros a x Hp. unfold FC3.cleanup_input. cbn [ui_protocol]. case_match; [discriminate|exact Hp].
    + intros err h' (Hf & raw & Hs & He & Han & Hc). split.
      { destruct He as [-> | ->]; by apply swallowed_reported. }
      split; [done|]. intros Hcalm.
      destruct (Hc Hcalm) as (? & Hgone & Hlive). split; [done|]. intros Hl.
      destruct (cell (cloud_after visit c0 h) (KFC3 (tg_identifier t))) as [x|] eqn:E.
      * specialize (Hlive x eq_refl (Hl x eq_refl)). subst raw. split; [by destruct He as [-> | ->]|]. by inversion Hs.
      * specialize (Hgone eq_refl). subst raw. split; [by destruct He as [-> | ->]|]. by inversion Hs.
  - intros m o x (_ & Hp & Hfp). cbn. unfold shown_fingerprint. by rewrite (proj2 (String.eqb_neq _ _) Hp), Hfp.
  - intros m o x Ho _. cbn. rewrite Ho. cbn [andb]. destruct (FC3.protocolHasHTTPS (ob_protocol x)) eqn:E; [exact E|apply FC3.both_has_https].
  - intros m o x Hl. cbn in Hl |- *. split; [|done]. case_match; [discriminate|exact Hl].
  - done.
Qed.

End fc3.

(** ** OSS *)

Definition oss_applied (m : CertMaterial) (_ : ApplyOptions) (x : ObservedState) : ObservedState :=
  mkObserved "" (CASCertRef m) "" (ob_account_id x).
Definition oss_bare (x : ObservedState) : ObservedState := mkObserved "" "" "" (ob_account_id x).

#[export] Instance oss_cells `{Crypto} : CellProvider OSS.provider := {
  cp_key t cl :=
    match cl, tg_spec t with
    | OSSClient _ _ _, SpecOSS (Some s) => Some (KOSS (oss_bucket s) (to_lower (oss_domain_name s)))
    | _, _ => None
    end;
  cp_material m := CASCertRef m <> "";
  cp_live _ := True;
  cp_applied := oss_applied;
  cp_bare := oss_bare
}.

Section oss.
  Context `{Cr : Crypto} (visit : gmap Z FakeCAS.Cert -> list FakeCAS.Cert).

Lemma oss_client t cl k : cp_key (p := OSS.provider) t cl = Some k ->
  exists s, OSS.clientOf cl = inr cl /\ OSS.specOf t = inr s /\ k = KOSS (oss_bucket s) (to_lower (oss_domain_name s)).
Proof.
  cbn. unfold OSS.specOf. destruct cl; try done. destruct (tg_spec t) as [|[s|]]; try done. intros [= <-]. by exists s.
Qed.

Lemma cname_of_cell c b d :
  cell c (KOSS b (to_lower d)) = cname_observed (FakeOSS.owner (cl_oss c)) <$> FakeOSS.Cname_of b d (cl_oss c).
Proof. cbn. unfold FakeOSS.Cname_of. by destruct (FakeOSS.buckets (cl_oss c) !! b). Qed.

Definition after_list (b d : string) (c : cloud) : cloud := set_oss c (FakeOSS.GetCname b d (cl_oss c)).2.
Definition after_put (b d : string) (f : FakeOSS.CnameRecord -> FakeOSS.CnameRecord) (c : cloud) : cloud :=
  set_oss c (FakeOSS.write b d f (cl_oss c)).2.

Lemma env_list c0 h cl b d x : fake_env visit c0 h (OGetCname cl b d) x ->
  x = (FakeOSS.GetCname b d (cl_oss (cloud_after visit c0 h))).1 /\
  cloud_after visit c0 (Ev (OGetCname cl b d) x :: h) = after_list b d (cloud_after visit c0 h).
Proof. unfold fake_env, after_list. cbn. unfold cloud_next. cbn. by destruct (FakeOSS.GetCname _ _ _). Qed.

Lemma env_put c0 h cl b d ref x : ref <> "" -> fake_env visit c0 h (OPutCnameCert cl b d ref) x ->
  x = (FakeOSS.write b d (FakeOSS.attach ref) (cl_oss (cloud_after visit c0 h))).1 /\
  cloud_after visit c0 (Ev (OPutCnameCert cl b d ref) x :: h) = after_put b d (FakeOSS.attach ref) (cloud_after visit c0 h).
Proof.
  intros Hr. unfold fake_env, after_put. cbn. unfold cloud_next. cbn. unfold FakeOSS.PutCnameCert.
  rewrite (proj2 (String.eqb_neq _ _) Hr). by destruct (FakeOSS.write _ _ _ _).
Qed.

Lemma env_detach c0 h cl b d x : fake_env visit c0 h (ODeleteCnameCert cl b d) x ->
  x = (FakeOSS.write b d FakeOSS.detach (cl_oss (cloud_after visit c0 h))).1 /\
  cloud_after visit c0 (Ev (ODeleteCnameCert cl b d) x :: h) = after_put b d FakeOSS.detach (cloud_after visit c0 h).
Proof.
  unfold fake_env, after_put. cbn. unfold cloud_next. cbn. unfold FakeOSS.DeleteCnameCert. by destruct (FakeOSS.write _ _ _ _).
Qed.

Lemma oss_owner_put b d f o : FakeOSS.owner (FakeOSS.write b d f o).2 = FakeOSS.owner o.
Proof.
  unfold FakeOSS.write, FakeOSS.count_put, FakeOSS.set_faults, FakeOSS.set_buckets. cbn.
  destruct (FakeOSS.alwaysPutErr o); [done|]. destruct (FakeCAS.pop _) as [[e|] q]; [done|].
  destruct (FakeOSS.buckets o !! b) as [recs|]; [|done]. by destruct (recs !! to_lower d).
Qed.

Lemma after_list_cell b d c k : cell (after_list b d c) k = cell c k.
Proof.
  apply cell_set_oss; [|apply FakeOSS.get_buckets]. unfold FakeOSS.GetCname. cbn.
  destruct (FakeCAS.pop _) as [[e|] q]; [done|]. cbn. destruct (FakeOSS.buckets (cl_oss c) !! b) as [recs|]; [|done].
  by destruct (recs !! to_lower d).
Qed.

Lemma after_list_calm b d c : calm c -> calm (after_list b d c) /\
  match FakeOSS.Cname_of b d (cl_oss c) with
  | Some r => (FakeOSS.GetCname b d (cl_oss c)).1 = inr (FakeOSS.shown_cname (FakeOSS.owner (cl_oss c)) r)
  | None => exists e, (FakeOSS.GetCname b d (cl_oss c)).1 = inl e /\ ClassOf e = ClassNotFound
  end.
Proof.
  intros (? & ? & ? & ? & Hl & Hp & Ha). unfold calm, after_list, FakeOSS.GetCname, FakeOSS.Cname_of. cbn. rewrite Hl. cbn.
  destruct (FakeOSS.buckets (cl_oss c) !! b) as [recs|]; [|by cbn; eauto 10]. destruct (recs !! to_lower d); cbn; eauto 10.
Qed.

Lemma list_shown b d f cn : (FakeOSS.GetCname b d f).1 = inr cn ->
  exists r, FakeOSS.Cname_of b d f = Some r /\ cn = FakeOSS.shown_cname (FakeOSS.owner f) r.
Proof.
  unfold FakeOSS.GetCname, FakeOSS.Cname_of. cbn. destruct (FakeCAS.pop _) as [[e|] q]; [done|]. cbn.
  destruct (FakeOSS.buckets f !! b) as [recs|]; [|done]. destruct (recs !! to_lower d) as [r|]; [|done].
  cbn. intros [= <-]. eauto.
Qed.

(** a write as a step of the cell *)
Lemma after_put_cell b d f g c :
  (forall a r, cname_observed a (f r) = g (cname_observed a r)) ->
  let k := KOSS b (to_lower d) in let raw := (FakeOSS.write b d f (cl_oss c)).1 in
  write_step g (cell c k) raw (cell (after_put b d f c) k) /\ frame k c (after_put b d f c) /\
  (calm c -> calm (after_put b d f c) /\ (forall x, cell c k = Some x -> raw = None) /\
     (cell c k = None -> exists e, raw = Some e /\ ClassOf e = ClassNotFound)).
Proof.
  intros Hf. cbn zeta. split; [|split].
  - rewrite !cname_of_cell. unfold after_put. cbn [set_oss cl_oss]. rewrite oss_owner_put.
    destruct (FakeOSS.write_self b d f (cl_oss c)) as [[Hb [e ->]]|(r & Hr & -> & Hr')].
    + unfold FakeOSS.Cname_of. rewrite Hb. constructor.
    + rewrite Hr, Hr'. cbn. rewrite Hf. constructor.
  - intros [d'|b' d'] Hk; [done|]. cbn. rewrite oss_owner_put. f_equal.
    unfold FakeOSS.write, FakeOSS.count_put, FakeOSS.set_faults, FakeOSS.set_buckets. cbn.
    destruct (FakeOSS.alwaysPutErr (cl_oss c)); [done|]. destruct (FakeCAS.pop _) as [[e|] q]; [done|].
    destruct (FakeOSS.buckets (cl_oss c) !! b) as [recs|] eqn:Eb; [|done]. destruct (recs !! to_lower d); [|done]. cbn.
    destruct (decide (b' = b)) as [->|Hn]; [|by rewrite lookup_insert_ne by done].
    rewrite lookup_insert_eq, Eb. cbn. rewrite lookup_insert_ne; [done|]. congruence.
  - intros (? & ? & ? & ? & Hl & Hp & Ha). rewrite cname_of_cell.
    unfold calm, after_put, FakeOSS.write, FakeOSS.count_put, FakeOSS.set_faults, FakeOSS.set_buckets, FakeOSS.Cname_of.
    cbn. rewrite Ha, Hp. cbn. destruct (FakeOSS.buckets (cl_oss c) !! b) as [recs|]; cbn;
      [destruct (recs !! to_lower d); cbn|]; (split; [done|split; [done|]]); first [done|eauto].
Qed.

Lemma gone_swallowed e op fr : ClassOf e = ClassNotFound -> SwallowNotFound (ToProviderError op (Some e) fr) = None.
Proof. intros He. destruct (ToProviderError_verdict op e fr) as (r & -> & Hr). cbn. rewrite Hr. unfold provider_verdict. by rewrite He. Qed.

#[export] Instance oss_cells_laws : CellProviderLaws visit OSS.provider.
Proof.
  split; cbn [pv_observe pv_apply pv_cleanup pv_capabilities OSS.provider].
  - intros c0 h t cl k Hk. cbn zeta. apply oss_client in Hk as (s & Hcl & Hs & ->). unfold OSS.Observe, OSS.with_client. rewrite Hcl, Hs.
    twp_step. split; [exact I|]. intros got Hgot. apply env_list in Hgot as [Hgot Hc1]. cbn [twp]. rewrite Hc1.
    set (b := oss_bucket s) in *. set (d := oss_domain_name s) in *. set (c := cloud_after visit c0 h) in *.
    split; [intros k'; apply after_list_cell|]. rewrite cname_of_cell. split.
    + intros obs. destruct got as [e|cn]. { by destruct (ToProviderError _ _ _). }
      intros [= <-]. symmetry in Hgot. apply list_shown in Hgot as (r & -> & ->). done.
    + intros Hcalm. destruct (after_list_calm b d c Hcalm) as [Hcalm' Heq]. split; [done|]. intros e He.
      rewrite <-Hgot in Heq. destruct (FakeOSS.Cname_of b d (cl_oss c)); [by rewrite Heq in He|].
      split; [done|]. destruct Heq as (e' & -> & Hc). destruct (ToProviderError_verdict ActionListCname e' ReasonObserveFailed) as (r & Hr & Hv).
      rewrite Hr in He. injection He as <-. rewrite Hv. unfold provider_verdict. rewrite Hc. eauto.
  - intros c0 h t cl k m o Hk. cbn zeta. apply oss_client in Hk as (s & Hcl & Hs & ->). unfold OSS.Apply, OSS.with_client. rewrite Hcl, Hs.
    cbn zeta. destruct (String.eqb_spec (CASCertRef m) "") as [E|Hn].
    { cbn [twp]. split; [constructor|]. split; [by intros k' _|]. intros Hc. by split. }
    twp_step. split; [exact I|]. intros err Herr. apply env_put in Herr as [Herr Hc1]; [|done]. cbn [twp]. rewrite Hc1, Herr.
    destruct (after_put_cell (oss_bucket s) (oss_domain_name s) (FakeOSS.attach (CASCertRef m)) (oss_applied m o)
      (cloud_after visit c0 h)) as (H1 & H2 & H3); [done|].
    split; [by apply translate_step|]. split; [done|]. intros Hcalm. destruct (H3 Hcalm) as (? & Hok & _). split; [done|].
    intros x _ Hx _. by rewrite (Hok x Hx).
  - intros c0 h t cl k Hk. cbn zeta. apply oss_client in Hk as (s & Hcl & Hs & ->). unfold OSS.Cleanup, OSS.with_client.
    change (negb (String.eqb DeletionPolicyUnbind DeletionPolicyUnbind)) with false. cbv iota. rewrite Hcl, Hs.
    twp_step. split; [exact I|]. intros err Herr. apply env_detach in Herr as [Herr Hc1]. cbn [twp]. rewrite Hc1, Herr.
    destruct (after_put_cell (oss_bucket s) (oss_domain_name s) FakeOSS.detach oss_bare (cloud_after visit c0 h)) as (H1 & H2 & H3); [done|].
    split.
    { apply swallowed_reported; [done|]. intros e He. eexists [_], (ODeleteCnameCert cl _ _), _. split; [reflexivity|]. split; [by apply list_elem_of_here|done]. }
    split; [done|]. intros Hcalm. destruct (H3 Hcalm) as (? & Hok & Hgone). split; [done|]. intros _.
    destruct (cell (cloud_after visit c0 h) (KOSS (oss_bucket s) (to_lower (oss_domain_name s)))) as [x|] eqn:E.
    + specialize (Hok x eq_refl). rewrite Hok in H1 |- *. split; [done|]. by inversion H1.
    + destruct (Hgone eq_refl) as (e & He & Hc). rewrite He in H1 |- *. split; [by apply gone_swallowed|]. by inversion H1.
  - done.
  - done.
  - done.
  - done.
Qed.

End oss.

(** ** Properties *)

(** C10: Both providers implement the abstract target.  Whatever faults the cloud has,
    observing reads the cell of the target; applying is one atomic step of that cell
    to what the material and the options ask for, reported as done, or as an error
    with the step made or not made; unbinding leaves the cell as it was or without its
    certificate, and is reported as done only when the certificate is off or the cloud
    answered that the target is gone, as an error only when the cloud answered with
    another error; and no other cell changes.  On a cloud without faults the steps
    succeed, and a target that is not there is reported as such. *)
Theorem providers_implement_cells `{Cr : Crypto} (visit : gmap Z FakeCAS.Cert -> list FakeCAS.Cert) :
  CellProviderLaws visit FC3.provider /\ CellProviderLaws visit OSS.provider.
Proof. split; apply _. Qed.
