(* ===== verification/TargetRaces.v ===== *)
(** * Replicas that write the same target at the same time

    The certificate material is computed from the Secret alone, "so that, should
    replicas overlap for a moment, the worst case is that the same bytes are written
    twice" (pkg/provider/provider.go).  Here any number of [Apply] of either provider,
    with one material, run interleaved call by call over the fakes, with faults and
    with changes of other targets between the calls; on FC3 an Apply is two calls, and
    the body it writes may be older than what another replica has written since. *)
From S2P Require Import Prelude GoString GoTime Api GoError Cloud Effects Interleave Bundle Provider ProviderFC3 ProviderOSS.
From S2P Require Import FakeCAS FakeFC3 FakeOSS FakeCloud TargetCells.

#[local] Open Scope prog_scope.

Section races.
  Context `{Cr : Crypto} (visit : gmap Z FakeCAS.Cert -> list FakeCAS.Cert).
  Context (k : cell_key) (m : CertMaterial) (o : ApplyOptions).

(** ** The target *)

(** the certificate of a target as its cloud stores it *)
Definition content (c : cloud) : option (list string) :=
  match k with
  | KFC3 d => (fun x => [FakeFC3.CertName x; FakeFC3.CertPEM x; FakeFC3.KeyPEM x]) <$> FakeFC3.domains (cl_fc3 c) !! d
  | KOSS b d => (fun r => [FakeOSS.CertRef r; FakeOSS.CertType r]) <$> (FakeOSS.buckets (cl_oss c) !! b ≫= fun recs => recs !! d)
  end.

Definition wanted : list string :=
  match k with
  | KFC3 _ => [cm_cas_name m; cm_cert_pem m; cm_key_pem m]
  | KOSS _ _ => [CASCertRef m; "CAS"]
  end.

(** OSS has no protocol *)
Definition serves_https (c : cloud) : Prop :=
  match k with
  | KFC3 d => exists x, FakeFC3.domains (cl_fc3 c) !! d = Some x /\ FC3.protocolHasHTTPS (FakeFC3.Protocol x) = true
  | KOSS _ _ => True
  end.

Definition applied_to (c : cloud) : Prop := content c = Some wanted /\ (ao_ensure_https o = true -> serves_https c).

(** what the replicas and the others do: the others leave this target alone *)
Definition settles : relation cloud := fun c c' =>
  (content c' = content c \/ is_Some (content c) /\ content c' = Some wanted) /\
  (ao_ensure_https o = true -> serves_https c -> serves_https c').

Definition elsewhere : relation cloud := fun c c' => content c' = content c /\ (serves_https c -> serves_https c').

Definition cloud_answers (c : cloud) (op : op) (x : resp op) (c' : cloud) : Prop :=
  match cloud_step visit c op with
  | Some (y, c1) => x = y /\ c' = c1
  | None => c' = c
  end.

#[export] Instance settles_preorder : PreOrder settles.
Proof using Type.
  split; [by intros c; split; [left|]|]. intros c1 c2 c3 [H12 P12] [H23 P23]. split; [|auto].
  destruct H23 as [E|[H2 E]]; [rewrite E; destruct H12 as [E'|H12]; [left|right]; done|].
  right. split; [|done]. destruct H12 as [E'|[? _]]; [by rewrite <-E'|done].
Qed.

Lemma applied_stays c c' : settles c c' -> applied_to c -> applied_to c'.
Proof using Type.
  intros [Hc Hp] [Ha Hs]. split; [|auto]. destruct Hc as [E|[_ E]]; by rewrite E.
Qed.

(** ** The calls *)

Lemma get_answers c cl d x c' :
  k = KFC3 d -> cloud_answers c (OGetCustomDomain cl d) x c' -> settles c c'.
Proof using Type.
  intros Hk. unfold cloud_answers. cbn [cloud_step]. destruct (FakeFC3.GetCustomDomain d (cl_fc3 c)) as [y f] eqn:E.
  intros [_ ->]. pose proof (FakeFC3.get_domains d (cl_fc3 c)) as Hd. rewrite E in Hd. cbn in Hd.
  unfold settles, content, serves_https. rewrite Hk. cbn. rewrite Hd. split; [by left|done].
Qed.

Lemma update_answers c cl d cd x c' :
  k = KFC3 d -> cloud_answers c (OUpdateCustomDomain cl d (FC3.apply_input cd m o)) x c' ->
  settles c c' /\ (x = None -> applied_to c').
Proof using Type.
  intros Hk. unfold cloud_answers. cbn [cloud_step].
  destruct (FakeFC3.UpdateCustomDomain d (Some (FC3.apply_input cd m o)) (cl_fc3 c)) as [y f] eqn:E. intros [-> ->].
  destruct (FakeFC3.update_self d (FC3.apply_input cd m o) (cl_fc3 c)) as [[Hd [e He]]|(z & Hz & Hd & _)];
    rewrite E in Hd; cbn [fst snd] in Hd.
  - rewrite E in He. cbn in He. subst y. split; [|done].
    unfold settles, content, serves_https. rewrite Hk. cbn. rewrite Hd. split; [by left|done].
  - assert (Ha : applied_to (set_fc3 c f)).
    { unfold applied_to, content, wanted, serves_https. rewrite Hk. cbn [cl_fc3 set_fc3]. rewrite Hd. split; [done|].
      intros Ho. eexists. split; [done|]. by apply FC3.apply_input_https. }
    split; [|done]. destruct Ha as [Hc Hs]. split; [right|auto]. split; [|done].
    unfold content. rewrite Hk, Hz. by eexists.
Qed.

Lemma put_answers c cl s x c' :
  k = KOSS (oss_bucket s) (to_lower (oss_domain_name s)) ->
  cloud_answers c (OPutCnameCert cl (oss_bucket s) (oss_domain_name s) (CASCertRef m)) x c' ->
  settles c c' /\ (x = None -> applied_to c').
Proof using Type.
  intros Hk. unfold cloud_answers. cbn [cloud_step].
  destruct (FakeOSS.PutCnameCert (oss_bucket s) (oss_domain_name s) (CASCertRef m) (cl_oss c)) as [y f] eqn:E. intros [-> ->].
  unfold settles, applied_to, content, wanted, serves_https. rewrite Hk. cbn [cl_oss set_oss].
  unfold FakeOSS.PutCnameCert in E. destruct (String.eqb (CASCertRef m) "").
  { injection E as <- <-. split; [split; [by left|done]|done]. }
  destruct (FakeOSS.write_self (oss_bucket s) (oss_domain_name s) (FakeOSS.attach (CASCertRef m)) (cl_oss c))
    as [[Hb [e He]]|(r & Hr & He & Hr')]; rewrite E in He; cbn [fst] in He; subst y.
  - rewrite E in Hb. cbn [snd] in Hb. rewrite Hb. split; [split; [by left|done]|done].
  - rewrite E in Hr'. cbn [snd] in Hr'. unfold FakeOSS.Cname_of in Hr, Hr'.
    assert (Hf : FakeOSS.buckets f !! oss_bucket s ≫= (fun recs => recs !! to_lower (oss_domain_name s)) =
                 Some (FakeOSS.attach (CASCertRef m) r)) by (by destruct (FakeOSS.buckets f !! oss_bucket s)).
    assert (Hg : FakeOSS.buckets (cl_oss c) !! oss_bucket s ≫= (fun recs => recs !! to_lower (oss_domain_name s)) = Some r)
      by (by destruct (FakeOSS.buckets (cl_oss c) !! oss_bucket s)).
    rewrite Hf, Hg. cbn. split; [split; [right; by split|done]|]. by split.
Qed.

(** ** The programs *)

Definition apply_done (err : option goerr) (c : cloud) : Prop := err = None -> applied_to c.

Abbreviation shared := (rwp cloud_answers settles).

Lemma fc3_apply_shared c t cl : cp_key (p := FC3.provider) t cl = Some k -> shared c (FC3.Apply t cl m o) apply_done.
Proof.
  intros Hk. apply fc3_client in Hk as [Hcl Hk]. unfold FC3.Apply. rewrite Hcl.
  destruct (String.eqb _ _); [by intros c1 _|]. cbn [bind call]. intros c1 _ got c2 Hgot.
  split; [by apply (get_answers c1 cl (tg_identifier t) got)|].
  destruct got as [e|cd]; cbn [bind].
  { intros c3 _. by destruct (translate_some ActionGetCustomDomain e ReasonApplyFailed) as [r ->]. }
  intros c3 _ err c4 Herr. destruct (update_answers _ _ _ _ _ _ Hk Herr) as [H4 Ha]. split; [done|].
  intros c5 H5. destruct err as [e|]; [by destruct (translate_some ActionUpdateCustomDomain e ReasonApplyFailed) as [r ->]|].
  intros _. apply (applied_stays c4); [done|by apply Ha].
Qed.

Lemma oss_apply_shared c t cl : cp_key (p := OSS.provider) t cl = Some k -> shared c (OSS.Apply t cl m o) apply_done.
Proof.
  intros Hk. apply oss_client in Hk as (s & Hcl & Hs & Hk). unfold OSS.Apply, OSS.with_client. rewrite Hcl, Hs. cbv zeta.
  destruct (String.eqb _ _); [by intros c1 _|]. cbn [bind call]. intros c1 _ err c2 Herr.
  destruct (put_answers _ _ _ _ _ Hk Herr) as [H2 Ha]. split; [done|]. intros c3 H3.
  destruct err as [e|]; [by destruct (translate_some ActionPutCname e ReasonApplyFailed) as [r ->]|].
  intros _. apply (applied_stays c2); [done|by apply Ha].
Qed.

(** an Apply to this target *)
Definition applier (p : prog (option goerr)) : Prop :=
  exists t cl, cp_key (p := FC3.provider) t cl = Some k /\ p = pv_apply FC3.provider t cl m o \/
               cp_key (p := OSS.provider) t cl = Some k /\ p = pv_apply OSS.provider t cl m o.

Lemma elsewhere_settles c c' : elsewhere c c' -> settles c c'.
Proof using Type. intros [E H]. split; [by left|auto]. Qed.

Lemma appliers_shared c pool : Forall applier pool -> Forall (fun p => shared c p apply_done) pool.
Proof.
  intros Hp. eapply Forall_impl; [exact Hp|].
  intros p (t & cl & [[Hk ->]|[Hk ->]]); [by apply fc3_apply_shared|by apply oss_apply_shared].
Qed.

Lemma races_sound c pool c' pool' :
  Forall (fun p => shared c p apply_done) pool -> rtc (pool_step cloud_answers elsewhere) (c, pool) (c', pool') ->
  settles c c' /\ Forall (fun p => shared c' p apply_done) pool'.
Proof using Type.
  intros Hp Hr. by apply (pool_sound cloud_answers elsewhere settles apply_done (c, pool) (c', pool') elsewhere_settles).
Qed.

End races.

(** ** Properties *)

(** C11: Replicas that write the same target at the same time agree.  Any number of
    Apply of either provider to one target, with one material and the same options,
    run interleaved call by call, with faults (also answers lost after the commit) and
    with changes of other targets in between: in every state they reach the target
    carries the certificate it had before or the material, name, bytes and key; from
    the first Apply that reports success on it carries the material, and, where that
    was asked for, serves HTTPS, even when a replica that read the domain earlier writes last. *)
Theorem replicas_agree_on_targets `{Cr : Crypto} (visit : gmap Z FakeCAS.Cert -> list FakeCAS.Cert)
    (k : cell_key) (m : CertMaterial) (o : ApplyOptions) (c0 c c' : cloud) pool pool1 pool' :
  Forall (applier k m o) pool ->
  rtc (pool_step (cloud_answers visit) (elsewhere k)) (c0, pool) (c, pool1) ->
  rtc (pool_step (cloud_answers visit) (elsewhere k)) (c, pool1) (c', pool') ->
  (content k c' = content k c0 \/ is_Some (content k c0) /\ content k c' = Some (wanted k m)) /\
  (Ret None ∈ pool1 -> content k c' = Some (wanted k m) /\ (ao_ensure_https o = true -> serves_https k c')).
Proof.
  intros Hp H1 H2. apply (appliers_shared visit k m o c0) in Hp.
  destruct (races_sound visit k m o _ _ _ _ Hp H1) as [[Hc1 _] Hp1].
  destruct (races_sound visit k m o _ _ _ _ Hp1 H2) as [Hs2 _]. split.
  - destruct Hs2 as [[E|[H E]] _]; [by rewrite E|right]. split; [|done]. destruct Hc1 as [E1|[? _]]; [by rewrite <-E1|done].
  - intros Hn. rewrite Forall_forall in Hp1. apply (applied_stays k m o c c' Hs2). by apply (Hp1 _ Hn c).
Qed.

(** two replicas read a domain without HTTPS; one writes, then the other writes what
    it computed from its older reading *)
Definition racing_material : CertMaterial := mkCertMaterial "fp" "cert" "key" None "site_1" 0 ["a.example.com"] "".
Definition racing_options : ApplyOptions := mkApplyOptions true "".

Definition racing_apply : prog (option goerr) :=
  pv_apply (@FC3.provider toy_crypto) (mkTarget TargetTypeFC3CustomDomain "cn-hangzhou" "a.example.com" (SpecFC3 None))
    (FC3Client (CfgAccessKey "ak" "sk") "cn-hangzhou" "ak") racing_material racing_options.

Definition racing_cloud : cloud :=
  mkCloud FakeCAS.NewCAS
    (FakeFC3.AddDomain (FakeFC3.mkDomain "a.example.com" "HTTP" "" "" "" EchoNil) FakeFC3.NewFC3) FakeOSS.NewOSS.

Definition listed (certs : gmap Z FakeCAS.Cert) : list FakeCAS.Cert := (map_to_list certs).*2.

Definition racing_world : handler cloud := fun c op =>
  match cloud_step listed c op with Some r => r | None => (failed_resp op, c) end.

Definition first_wrote : cloud * list (prog (option goerr)) :=
  run_schedule racing_world [1; 0; 0] (racing_cloud, [racing_apply; racing_apply]).
Definition both_wrote : cloud * list (prog (option goerr)) := run_schedule racing_world [1] first_wrote.

Lemma racing_answers c op : cloud_answers listed c op (racing_world c op).1 (racing_world c op).2.
Proof. unfold cloud_answers, racing_world. by destruct (cloud_step listed c op) as [[x c']|]. Qed.

Lemma replicas_agree_on_targets_witness :
  let k := KFC3 "a.example.com" in
  Ret None ∈ first_wrote.2 /\ both_wrote.2 = [Ret None; Ret None] /\
  content k both_wrote.1 = Some ["site_1"; "cert"; "key"] /\ serves_https k both_wrote.1.
Proof.
  intros k. assert (Hn : Ret None ∈ first_wrote.2).
  { apply list_elem_of_lookup. exists 0. vm_compute. reflexivity. }
  split; [exact Hn|]. split; [vm_compute; reflexivity|].
  assert (H1 : rtc (pool_step (cloud_answers listed) (elsewhere k)) (racing_cloud, [racing_apply; racing_apply])
                 (first_wrote.1, first_wrote.2)).
  { rewrite <-(surjective_pairing first_wrote). apply run_schedule_steps, racing_answers. }
  assert (H2 : rtc (pool_step (cloud_answers listed) (elsewhere k)) (first_wrote.1, first_wrote.2)
                 (both_wrote.1, both_wrote.2)).
  { rewrite <-(surjective_pairing first_wrote), <-(surjective_pairing both_wrote).
    apply run_schedule_steps, racing_answers. }
  assert (Ha : Forall (@applier toy_crypto k racing_material racing_options) [racing_apply; racing_apply]).
  { assert (@applier toy_crypto k racing_material racing_options racing_apply) as Hr.
    { eexists _, _. left. split; [|reflexivity]. reflexivity. }
    apply Forall_cons_2; [exact Hr|]. apply Forall_cons_2; [exact Hr|apply Forall_nil_2]. }
  destruct (@replicas_agree_on_targets toy_crypto listed k racing_material racing_options _ _ _ _ _ _ Ha H1 H2) as [_ H].
  destruct (H Hn) as [Hc Hs]. split; [exact Hc|exact (Hs eq_refl)].
Defined.
