(* ===== verification/Sdk.v ===== *)
(** * The SDK-backed clients and their rate limiters (pkg/aliyun: *_sdk.go, ratelimit.go)

    The methods behind the client calls of Effects.v, in state-passing style: the
    state is the limiters of the process and the world behind the SDKs.  The SDKs,
    golang.org/x/time/rate and the metrics hook are the parameters [SDK]; what a
    method makes of their responses is modelled.  The 30 s timeout of a call is the
    SDK's: a call that runs into it returns an error.  The SDK's responses are
    nested pointers; [None] stands for a nil at any level the code checks. *)
From S2P Require Import Prelude GoString GoTime Api GoError Cloud Provider ProviderFC3.
From S2P Require Import Bundle.

(** ** Definitions *)

(** *** ratelimit.go *)

Inductive LimitKind : Type := LimitCASList | LimitCASWrite | LimitFC3 | LimitOSS.

(** [rate.NewLimiter(qps, burst)] *)
Record Limiter : Type := mkLimiter { lim_qps : Z; lim_burst : Z }.

Definition newLimiter (k : LimitKind) : Limiter :=
  match k with
  | LimitCASList => mkLimiter 8 1
  | LimitFC3 | LimitOSS => mkLimiter 5 1
  | LimitCASWrite => mkLimiter 50 10
  end.

Definition kindName (k : LimitKind) : string :=
  match k with
  | LimitCASList => "cas-list"
  | LimitFC3 => "fc3"
  | LimitOSS => "oss"
  | LimitCASWrite => "cas-write"
  end.

Abbreviation Limiters := (gmap string Limiter).

Definition limiter_id (key : string) (k : LimitKind) : string := key +:+ "/" +:+ kindName k.

(** the limiter of a key and kind, made at its first use *)
Definition limiter_for (key : string) (k : LimitKind) (m : Limiters) : Limiter * Limiters :=
  match m !! limiter_id key k with
  | Some l => (l, m)
  | None => (newLimiter k, <[limiter_id key k := newLimiter k]> m)
  end.

(** *** Requests and responses of the SDKs *)

Record UploadRequest : Type := mkUploadRequest {
  up_name : string;
  up_cert : string;
  up_key : string;
  up_client_token : string;
  up_resource_group : option string
}.

Record DeleteRequest : Type := mkDeleteRequest { del_cert_id : Z; del_client_token : option string }.

Record ListRequest : Type := mkListRequest {
  lr_order_type : string;
  lr_keyword : string;
  lr_current_page : Z;
  lr_show_size : Z;
  lr_resource_group : option string
}.

Record OrderItem : Type := mkOrderItem {
  it_certificate_id : option Z;
  it_name : option string;
  it_sans : option string;
  it_end_date : option string
}.

(** fc.CustomDomain *)
Record SDKDomain : Type := mkSDKDomain {
  sd_account_id : option string;
  sd_domain_name : option string;
  sd_protocol : option string;
  sd_cert : option SDKCertConfig;
  sd_auth : option opaque;
  sd_cors : option opaque;
  sd_route : option opaque;
  sd_tls : option opaque;
  sd_waf : option opaque
}.

(** oss.ListCnameResult *)
Record CnameCertificate : Type := mkCnameCertificate { cc_cert_id : option string; cc_type : option string }.
Record CnameInfo : Type := mkCnameInfo {
  ci_domain : option string;
  ci_status : option string;
  ci_certificate : option CnameCertificate
}.
Record ListCnameResult : Type := mkListCnameResult { lc_cnames : list CnameInfo; lc_owner : option string }.

(** oss.CertificateConfiguration: the fields of its contents are there to be left empty *)
Record CertificateConfiguration : Type := mkCertificateConfiguration {
  ccfg_cert_id : option string;
  ccfg_certificate : option string;
  ccfg_private_key : option string;
  ccfg_force : option bool;
  ccfg_delete : option bool
}.

(** what the code calls but does not define *)
Record SDK (W : Type) : Type := mkSDK {
  (* lim.Wait(ctx) of the limiter stored under an id *)
  rate_wait : string -> Limiter -> W -> option goerr * W;
  cas_upload : CASClient -> UploadRequest -> W -> (goerr + option Z) * W;
  cas_delete : CASClient -> DeleteRequest -> W -> option goerr * W;
  cas_list : CASClient -> ListRequest -> W -> (goerr + option (list (option OrderItem))) * W;
  fc_get : ProviderClient -> string -> W -> (goerr + option SDKDomain) * W;
  fc_update : ProviderClient -> string -> SDKBody -> W -> option goerr * W;
  oss_list_cname : ProviderClient -> string -> W -> (goerr + option ListCnameResult) * W;
  oss_put_cname : ProviderClient -> string -> string -> CertificateConfiguration -> W -> option goerr * W;
  (* the hook of the metrics: action and code *)
  on_call : string -> string -> W -> W
}.
Arguments rate_wait {W}. Arguments cas_upload {W}. Arguments cas_delete {W}. Arguments cas_list {W}.
Arguments fc_get {W}. Arguments fc_update {W}. Arguments oss_list_cname {W}. Arguments oss_put_cname {W}.
Arguments on_call {W}.

(** *** Conversions *)

(** [dara.StringValue], [oss.ToString] *)
Definition str_value (s : option string) : string := default "" s.

(** what credentials-go answers with, and what the OSS SDK is given of it *)
Record CredentialModel : Type := mkCredentialModel {
  crm_access_key_id : option string;
  crm_access_key_secret : option string;
  crm_security_token : option string
}.

Record OSSCredentials : Type := mkOSSCredentials {
  osc_access_key_id : string;
  osc_access_key_secret : string;
  osc_security_token : string
}.

(** [ossCredentials.GetCredentials], by the answer of [cred.GetCredential()] *)
Definition GetCredentials (got : goerr + option CredentialModel) : goerr + OSSCredentials :=
  match got with
  | inl e => inl e
  | inr None => inl (EText "credentials-go 返回了空的凭证模型")
  | inr (Some m) => inr (mkOSSCredentials (str_value (crm_access_key_id m)) (str_value (crm_access_key_secret m))
                           (str_value (crm_security_token m)))
  end.

Definition customDomainFromSDK (d : SDKDomain) : CustomDomain :=
  mkCustomDomain (str_value (sd_account_id d)) (str_value (sd_domain_name d)) (str_value (sd_protocol d))
    (match sd_cert d with Some c => str_value (scc_name c) | None => "" end)
    (match sd_cert d with Some c => str_value (scc_certificate c) | None => "" end)
    (EchoSDK (mkSDKBody (sd_auth d) (sd_cors d) (sd_route d) (sd_tls d) (sd_waf d) None None)).

Definition set_body_protocol (p : option string) (b : SDKBody) : SDKBody :=
  mkSDKBody (body_auth b) (body_cors b) (body_route b) (body_tls b) (body_waf b) p (body_cert b).
Definition set_body_cert (c : option SDKCertConfig) (b : SDKBody) : SDKBody :=
  mkSDKBody (body_auth b) (body_cors b) (body_route b) (body_tls b) (body_waf b) (body_protocol b) c.

Definition updateInputToSDK (i : UpdateCustomDomainInput) : goerr + SDKBody :=
  match (match ui_echo i with
         | EchoNil => inr (mkSDKBody None None None None None None None)
         | EchoSDK b => inr b
         | EchoOther t => inl (EAliyun ClassPermanent ActionUpdateCustomDomain "InvalidEcho" (EText ("回填体类型不匹配: " +:+ t)))
         end) with
  | inl e => inl e
  | inr base =>
      let base := if negb (String.eqb (ui_protocol i) "") then set_body_protocol (Some (ui_protocol i)) base else base in
      inr (if ui_clear_cert i then set_body_cert (Some (mkSDKCertConfig (Some "") (Some "") (Some ""))) base
           else match ui_cert_config i with
                | Some c => set_body_cert (Some (mkSDKCertConfig (Some (ccf_name c)) (Some (ccf_cert_pem c)) (Some (ccf_key_pem c)))) base
                | None => base
                end)
  end.

Definition cname_of (owner : option string) (c : CnameInfo) : Cname :=
  mkCname (str_value (ci_domain c)) (str_value (ci_status c))
    (match ci_certificate c with Some cc => str_value (cc_cert_id cc) | None => "" end)
    (match ci_certificate c with Some cc => str_value (cc_type cc) | None => "" end) (str_value owner).

Definition cnameFromList (res : option ListCnameResult) (domain : string) : goerr + Cname :=
  match res with
  | None => inl (EAliyun ClassRetryable ActionListCname CodeEmptyResponse (EText "响应为空"))
  | Some res =>
      match List.find (fun c => equal_fold (str_value (ci_domain c)) domain) (lc_cnames res) with
      | Some c => inr (cname_of (lc_owner res) c)
      | None => inl (EAliyun ClassNotFound ActionListCname "CnameNotFound" (EText "bucket 上没有该自定义域名"))
      end
  end.

Definition summary_of (i : option OrderItem) : option CertSummary :=
  i ← i; id ← it_certificate_id i;
  Some (mkCertSummary id (str_value (it_name i)) (match it_sans i with Some s => split "," s | None => [] end)
          (str_value (it_end_date i))).

Definition casListPageSize : Z := 50.
Definition casListMaxPages : Z := 200.

Definition shouldFetchNextPage (got size page : Z) : bool :=
  if (got <=? 0)%Z || (size <=? 0)%Z || (got <? size)%Z then false else (page <? casListMaxPages)%Z.

(** *** The clients *)

Section clients.
  Context {W : Type} (sdk : SDK W).

Abbreviation state := (Limiters * W)%type.

(** [Limiters.Wait]; the lock covers the lookup *)
Definition Wait (key : string) (k : LimitKind) (s : state) : option goerr * state :=
  let '(l, m) := limiter_for key k s.1 in
  let '(e, w) := rate_wait sdk (limiter_id key k) l s.2 in
  (e, (m, w)).

(** the [observe] methods *)
Definition observe (action : string) (err : option goerr) (s : state) : state := (s.1, on_call sdk action (callCode err) s.2).

(** a call of the SDK between the limiter and the hook *)
Definition sdk_call {A} (key : string) (k : LimitKind) (waitOp op action : string)
    (classify : string -> option goerr -> option goerr) (f : W -> (goerr + A) * W) (s : state) : (goerr + A) * state :=
  match Wait key k s with
  | (Some e, s) => (match Classify waitOp (Some e) with Some e => inl e | None => inl e end, s)
  | (None, s) =>
      let '(r, w) := f s.2 in
      let cerr := classify op (match r with inl e => Some e | inr _ => None end) in
      let s := observe action cerr (s.1, w) in
      (match cerr, r with Some e, _ => inl e | None, inr a => inr a | None, inl e => inl e end, s)
  end.

Definition err_only (f : W -> option goerr * W) (w : W) : (goerr + unit) * W :=
  let '(e, w) := f w in (match e with Some e => inl e | None => inr tt end, w).

Definition sum_err {A} (r : goerr + A) : option goerr := match r with inl e => Some e | inr _ => None end.

Definition resource_group (c : CASClient) : option string :=
  if String.eqb (cas_resource_group c) "" then None else Some (cas_resource_group c).

Definition Upload (c : CASClient) (name certPEM keyPEM token : string) (s : state) : (goerr + Z) * state :=
  let req := mkUploadRequest name certPEM keyPEM token (resource_group c) in
  let '(r, s) := sdk_call (cas_limiter_key c) LimitCASWrite "Upload" "Upload" "UploadUserCertificate" Classify
                   (cas_upload sdk c req) s in
  (match r with
   | inl e => inl e
   | inr None => inl (EAliyun ClassRetryable "Upload" CodeEmptyResponse (EText "响应缺少 CertId"))
   | inr (Some id) => inr id
   end, s).

Definition Delete (c : CASClient) (id : Z) (token : string) (s : state) : option goerr * state :=
  let req := mkDeleteRequest id (if String.eqb token "" then None else Some token) in
  let '(r, s) := sdk_call (cas_limiter_key c) LimitCASWrite "Delete" "Delete" "DeleteUserCertificate" Classify
                   (err_only (cas_delete sdk c req)) s in
  (sum_err r, s).

Definition list_request (c : CASClient) (hint : string) (page : Z) : ListRequest :=
  mkListRequest "UPLOAD" hint page casListPageSize (resource_group c).

Definition list_page (c : CASClient) (hint : string) (page : Z) : state -> (goerr + option (list (option OrderItem))) * state :=
  sdk_call (cas_limiter_key c) LimitCASList "ListUserCertificateOrder" "ListUserCertificateOrder" "ListUserCertificateOrder"
    Classify (cas_list sdk c (list_request c hint page)).

Definition too_many_pages : goerr :=
  EAliyun ClassPermanent "ListUserCertificateOrder" "TooManyPages" (EText "翻页超过 200 页仍未结束").

(** the loop of [FindUploaded], from [page] on; [None] when [fuel] runs out *)
Fixpoint find_loop (fuel : nat) (c : CASClient) (hint : string) (page : Z) (out : list CertSummary) (s : state) :
    option ((goerr + list CertSummary) * state) :=
  match fuel with
  | 0 => None
  | S fuel =>
      match list_page c hint page s with
      | (inl e, s) => Some (inl e, s)
      | (inr None, s) => Some (inr out, s)
      | (inr (Some items), s) =>
          let out := out ++ omap summary_of items in
          let got := Z.of_nat (length items) in
          if shouldFetchNextPage got casListPageSize page then find_loop fuel c hint (page + 1) out s
          else if (casListPageSize <=? got)%Z && (casListMaxPages <=? page)%Z then Some (inl too_many_pages, s)
          else Some (inr out, s)
      end
  end.

Definition FindUploaded (c : CASClient) (hint : string) (s : state) : option ((goerr + list CertSummary) * state) :=
  find_loop 200 c hint 1 [] s.

(** the limiter key of an FC3 or OSS client *)
Definition limiter_key_of (c : ProviderClient) : string :=
  match c with FC3Client _ _ k | OSSClient _ _ k => k | OtherClient _ => "" end.

Definition GetCustomDomain (c : ProviderClient) (domain : string) (s : state) : (goerr + CustomDomain) * state :=
  let '(r, s) := sdk_call (limiter_key_of c) LimitFC3 ActionGetCustomDomain ActionGetCustomDomain ActionGetCustomDomain Classify
                   (fc_get sdk c domain) s in
  (match r with
   | inl e => inl e
   | inr None => inl (EAliyun ClassRetryable ActionGetCustomDomain CodeEmptyResponse (EText "响应缺少 body"))
   | inr (Some d) => inr (customDomainFromSDK d)
   end, s).

(** a nil input cannot be built in the model *)
Definition UpdateCustomDomain (c : ProviderClient) (domain : string) (i : UpdateCustomDomainInput) (s : state) : option goerr * state :=
  match updateInputToSDK i with
  | inl e => (Some e, s)
  | inr body =>
      let '(r, s) := sdk_call (limiter_key_of c) LimitFC3 ActionUpdateCustomDomain ActionUpdateCustomDomain ActionUpdateCustomDomain
                       Classify (err_only (fc_update sdk c domain body)) s in
      (sum_err r, s)
  end.

Definition GetCname (c : ProviderClient) (bucket domain : string) (s : state) : (goerr + Cname) * state :=
  let '(r, s) := sdk_call (limiter_key_of c) LimitOSS ActionListCname ActionListCname ActionListCname classifyOSS
                   (oss_list_cname sdk c bucket) s in
  (match r with inl e => inl e | inr res => cnameFromList res domain end, s).

Definition putCname (c : ProviderClient) (bucket domain : string) (cc : CertificateConfiguration) (s : state) : option goerr * state :=
  let '(r, s) := sdk_call (limiter_key_of c) LimitOSS ActionPutCname ActionPutCname ActionPutCname classifyOSS
                   (err_only (oss_put_cname sdk c bucket domain cc)) s in
  (sum_err r, s).

Definition PutCnameCert (c : ProviderClient) (bucket domain certRef : string) (s : state) : option goerr * state :=
  if String.eqb certRef "" then
    (Some (EAliyun ClassPermanent ActionPutCname "CertRefRequired" (EText "certRef 为空")), s)
  else putCname c bucket domain (mkCertificateConfiguration (Some certRef) None None (Some true) None) s.

Definition DeleteCnameCert (c : ProviderClient) (bucket domain : string) (s : state) : option goerr * state :=
  putCname c bucket domain (mkCertificateConfiguration None None None None (Some true)) s.

End clients.

(** ** Lemmas *)

(** *** Limiters *)

(** an id determines the kind, and the key *)
Lemma limiter_id_inj key k key' k' : limiter_id key k = limiter_id key' k' -> key = key' /\ k = k'.
Proof.
  intros H. apply (f_equal String.list_ascii_of_string) in H. unfold limiter_id in H. rewrite !list_ascii_app in H.
  assert (k = k') as <-.
  { apply (f_equal last) in H. revert H. rewrite !(assoc_L (++)).
    destruct k, k'; cbn; intros H; try done; exfalso; revert H; rewrite !last_app; cbn; done. }
  split; [|done]. apply list_ascii_inj. by apply app_inv_tail in H.
Qed.

(** every limiter has the rate of its kind *)
Definition limiters_ok (m : Limiters) : Prop := forall key k l, m !! limiter_id key k = Some l -> l = newLimiter k.

(** a call waits for the limiter of its own account and kind, at that kind's rate:
    no other account and no other kind of call is held back by it or hastens it *)
Theorem Wait_own_limiter {W} (sdk : SDK W) (key : string) (k : LimitKind) (m : Limiters) (w : W) :
  limiters_ok m ->
  let '(e, (m', w')) := Wait sdk key k (m, w) in
  (e, w') = rate_wait sdk (limiter_id key k) (newLimiter k) w /\ limiters_ok m' /\
  forall key' k', (key', k') <> (key, k) -> m' !! limiter_id key' k' = m !! limiter_id key' k'.
Proof.
  intros Hok. unfold Wait, limiter_for. cbn [fst snd]. destruct (m !! limiter_id key k) as [l|] eqn:E.
  - rewrite (Hok _ _ _ E). by destruct (rate_wait _ _ _ _).
  - destruct (rate_wait _ _ _ _). split; [done|]. split.
    + intros key' k' l'. destruct (decide (limiter_id key' k' = limiter_id key k)) as [Hi|Hn].
      * apply limiter_id_inj in Hi as [-> ->]. simplify_map_eq. by intros [= <-].
      * rewrite lookup_insert_ne by done. apply Hok.
    + intros key' k' Hn. apply lookup_insert_ne. intros Hi%eq_sym%limiter_id_inj. naive_solver.
Qed.

(** *** Listing *)

Section listing.
  Context {W : Type} (sdk : SDK W) (c : CASClient) (hint : string).

Abbreviation state := (Limiters * W)%type.
Abbreviation body := (option (list (option OrderItem))).

(** the pages from [page] on were read, in order, with these bodies *)
Inductive fetched : Z -> state -> list body -> state -> Prop :=
| fetched_none page s : fetched page s [] s
| fetched_page page s b s1 rest s2 :
    list_page sdk c hint page s = (inr b, s1) -> fetched (page + 1) s1 rest s2 -> fetched page s (b :: rest) s2.

Definition page_items (b : body) : list CertSummary := match b with Some items => omap summary_of items | None => [] end.
Definition full_page (b : body) : Prop := exists items, b = Some items /\ (casListPageSize <= Z.of_nat (length items))%Z.

(** what a listing that began at [page] makes of what it read *)
Definition listing_outcome (fuel : nat) (page : Z) (out : list CertSummary) (s : state) (res : goerr + list CertSummary) (s' : state) : Prop :=
  match res with
  | inr l => exists full last, fetched page s (full ++ [last]) s' /\ Forall full_page full /\ ~ full_page last /\
      length full < fuel /\ l = out ++ concat (page_items <$> (full ++ [last]))
  | inl e =>
      (exists full s1, fetched page s full s1 /\ Forall full_page full /\ length full < fuel /\
         list_page sdk c hint (page + Z.of_nat (length full)) s1 = (inl e, s')) \/
      (e = too_many_pages /\ exists full, fetched page s full s' /\ Forall full_page full /\ length full = fuel)
  end.

Lemma find_loop_spec fuel page out s :
  (0 < fuel)%nat -> (page + Z.of_nat fuel = 201)%Z ->
  exists res s', find_loop sdk fuel c hint page out s = Some (res, s') /\ listing_outcome fuel page out s res s'.
Proof.
  revert page out s. induction fuel as [|fuel IH]; intros page out s Hf Hp; [lia|]. cbn [find_loop].
  destruct (list_page sdk c hint page s) as [[e|b] s1] eqn:El.
  { eexists _, _. split; [done|]. left. exists [], s. split; [constructor|]. split; [done|]. split; [cbn; lia|].
    by rewrite Z.add_0_r. }
  destruct b as [items|].
  2: { eexists _, _. split; [done|]. exists [], None. split; [econstructor; [done|constructor]|]. split; [done|].
       split; [by intros (? & ? & _)|]. split; [cbn; lia|]. cbn. by rewrite app_nil_r. }
  set (got := Z.of_nat (length items)). unfold shouldFetchNextPage.
  assert (Hshort : (got < casListPageSize)%Z -> listing_outcome (S fuel) page out s (inr (out ++ omap summary_of items)) s1).
  { intros Hs. exists [], (Some items). split; [econstructor; [done|constructor]|]. split; [done|].
    split; [intros (? & [= <-] & ?); unfold got in Hs; lia|]. split; [cbn; lia|]. cbn. by rewrite app_nil_r. }
  destruct (Z.ltb_spec got casListPageSize) as [Hs|Hl]; rewrite ?orb_true_r.
  { rewrite (proj2 (Z.leb_gt _ _)) by done. cbn [andb]. eauto. }
  assert (Hfull : full_page (Some items)) by (exists items; by split).
  unfold casListPageSize in Hl. rewrite (proj2 (Z.leb_gt got 0)) by lia. cbn [orb].
  change ((casListPageSize <=? 0)%Z) with false. cbn [orb]. unfold casListMaxPages.
  destruct (Z.ltb_spec page 200) as [Hlt|Hge].
  - destruct (IH (page + 1)%Z (out ++ omap summary_of items) s1) as (res & s' & -> & Hres); [lia|lia|].
    eexists _, _. split; [done|]. destruct res as [e|l].
    + destruct Hres as [(full & s2 & H1 & H2 & H3 & H4)|(-> & full & H1 & H2 & H3)].
      * left. exists (Some items :: full), s2. split; [by econstructor|]. split; [by constructor|]. split; [cbn; lia|].
        rewrite <-H4. f_equal. cbn. lia.
      * right. split; [done|]. exists (Some items :: full). split; [by econstructor|]. split; [by constructor|]. cbn. lia.
    + destruct Hres as (full & last & H1 & H2 & H3 & H4 & ->). exists (Some items :: full), last.
      split; [by econstructor|]. split; [by constructor|]. split; [done|]. split; [cbn; lia|]. cbn. by rewrite <-app_assoc.
  - rewrite (proj2 (Z.leb_le casListPageSize got)) by exact Hl. rewrite (proj2 (Z.leb_le 200 page)) by lia. cbn [andb].
    eexists _, _. split; [done|]. right. split; [done|]. exists [Some items]. split; [econstructor; [done|constructor]|].
    split; [by constructor|]. cbn. lia.
Qed.

End listing.

(** *** Messages of the services *)

(** the same error, or two errors of the service with one code and status *)
Definition alike (service : goerr -> string -> Z -> Prop) (e e' : goerr) : Prop :=
  e = e' \/ exists c s, service e c s /\ service e' c s.

(** answers that differ in the message of an error at most *)
Definition alike_answers {A W} (service : goerr -> string -> Z -> Prop) (x y : (goerr + A) * W) : Prop :=
  x.2 = y.2 /\
  match x.1, y.1 with
  | inl e, inl e' => alike service e e'
  | inr a, inr a' => a = a'
  | _, _ => False
  end.

Definition oss_service_error (e : goerr) (c : string) (s : Z) : Prop := oss_error e c s \/ service_error e c s.

(** two SDKs over one world, whose services word their errors differently *)
Record worded_differently {W} (sdk sdk' : SDK W) : Prop := {
  wd_wait id l w : rate_wait sdk id l w = rate_wait sdk' id l w;
  wd_upload c r w : alike_answers service_error (cas_upload sdk c r w) (cas_upload sdk' c r w);
  wd_delete c r w : alike_answers service_error (err_only (cas_delete sdk c r) w) (err_only (cas_delete sdk' c r) w);
  wd_list c r w : alike_answers service_error (cas_list sdk c r w) (cas_list sdk' c r w);
  wd_get c d w : alike_answers service_error (fc_get sdk c d w) (fc_get sdk' c d w);
  wd_update c d b w : alike_answers service_error (err_only (fc_update sdk c d b) w) (err_only (fc_update sdk' c d b) w);
  wd_list_cname c b w : alike_answers oss_service_error (oss_list_cname sdk c b w) (oss_list_cname sdk' c b w);
  wd_put_cname c b d cc w :
    alike_answers oss_service_error (err_only (oss_put_cname sdk c b d cc) w) (err_only (oss_put_cname sdk' c b d cc) w);
  wd_hook action code w : on_call sdk action code w = on_call sdk' action code w
}.

Lemma Classify_alike op e e' : alike service_error e e' -> Classify op (Some e) = Classify op (Some e').
Proof. intros [-> |(c & s & H & H')]; [done|]. by rewrite (Classify_service op e c s), (Classify_service op e' c s). Qed.

Lemma classifyOSS_alike op e e' : alike oss_service_error e e' -> classifyOSS op (Some e) = classifyOSS op (Some e').
Proof.
  assert (Hc : forall e c s, oss_service_error e c s -> classifyOSS op (Some e) = Some (fromSDKError op (Some c) (Some s))).
  { intros e0 c s [H|H]; [by apply classifyOSS_oss|by apply classifyOSS_service]. }
  intros [-> |(c & s & H & H')]; [done|]. by rewrite (Hc e c s), (Hc e' c s).
Qed.

(** a classified error is never nil *)
Lemma classifyOSS_some op e : exists r, classifyOSS op (Some e) = Some r.
Proof.
  unfold classifyOSS. destruct (errors_as is_oss_service e) as [[c s]|]; [eauto|].
  destruct (Classify_aliyun op e) as (r & x & -> & _). eauto.
Qed.

Section worded.
  Context {W : Type} (sdk sdk' : SDK W) (Hw : worded_differently sdk sdk').

Lemma sdk_call_worded {A} service key k waitOp op action classify (f f' : W -> (goerr + A) * W) s :
  (forall e e', alike service e e' -> classify op (Some e) = classify op (Some e')) ->
  (forall e, exists r, classify op (Some e) = Some r) ->
  (forall w, alike_answers service (f w) (f' w)) ->
  sdk_call sdk key k waitOp op action classify f s = sdk_call sdk' key k waitOp op action classify f' s.
Proof.
  intros Hc Hsome Hf. unfold sdk_call, Wait, observe. destruct (limiter_for key k s.1) as [l m]. rewrite (wd_wait _ _ Hw).
  destruct (rate_wait sdk' _ l s.2) as [[e|] w]; [done|]. cbn [fst snd]. destruct (Hf w) as [H2 H1].
  destruct (f w) as [x w1], (f' w) as [y w2]. cbn in H1, H2. subst w2.
  destruct x as [e|a], y as [e'|a']; try done.
  - rewrite (Hc e e' H1), (wd_hook _ _ Hw). by destruct (Hsome e') as [r ->].
  - subst a'. by rewrite (wd_hook _ _ Hw).
Qed.

Lemma classified op e : exists r, Classify op (Some e) = Some r.
Proof. destruct (Classify_aliyun op e) as (r & x & -> & _). eauto. Qed.

Lemma cas_fc_worded {A} key k waitOp op action (f f' : W -> (goerr + A) * W) s :
  (forall w, alike_answers service_error (f w) (f' w)) ->
  sdk_call sdk key k waitOp op action Classify f s = sdk_call sdk' key k waitOp op action Classify f' s.
Proof. apply sdk_call_worded; [apply Classify_alike|apply classified]. Qed.

Lemma oss_worded {A} key k waitOp op action (f f' : W -> (goerr + A) * W) s :
  (forall w, alike_answers oss_service_error (f w) (f' w)) ->
  sdk_call sdk key k waitOp op action classifyOSS f s = sdk_call sdk' key k waitOp op action classifyOSS f' s.
Proof. apply sdk_call_worded; [apply classifyOSS_alike|apply classifyOSS_some]. Qed.

Lemma find_loop_worded fuel c hint page out s : find_loop sdk fuel c hint page out s = find_loop sdk' fuel c hint page out s.
Proof.
  revert page out s. induction fuel as [|fuel IH]; intros page out s; [done|]. cbn [find_loop].
  unfold list_page. rewrite (cas_fc_worded _ _ _ _ _ _ _ s (wd_list _ _ Hw c _)).
  destruct (sdk_call _ _ _ _ _ _ _ _ s) as [[e|[items|]] s1]; try done. destruct (shouldFetchNextPage _ _ _); [apply IH|done].
Qed.

Lemma putCname_worded c b d cc s : putCname sdk c b d cc s = putCname sdk' c b d cc s.
Proof. unfold putCname. by rewrite (oss_worded _ _ _ _ _ _ _ s (wd_put_cname _ _ Hw c b d cc)). Qed.

End worded.

(** ** Properties *)

(** C40: what a service says in an error stays inside the clients.  Let two SDKs answer
    alike, but for the messages of service errors: errors of CAS and FC3 (dara, tea)
    or of OSS, wrapped in any way, with the same code and status.  Then every method of
    the clients returns the same and leaves the same world, so that no text the operator
    makes of it (condition, event, log or metric) can depend on the message.  The error
    is rendered by its call, code and status; and a provider error, of whatever cause, by
    its call, the code of the cloud and the verdict.  (Errors that are not the service's,
    of the transport or unknown to the operator, keep their text in the error of the
    client, though not in that of the provider.) *)
Theorem service_messages_stay_inside {W} (sdk sdk' : SDK W) :
  worded_differently sdk sdk' ->
  (forall c name cert key token s, Upload sdk c name cert key token s = Upload sdk' c name cert key token s) /\
  (forall c id token s, Delete sdk c id token s = Delete sdk' c id token s) /\
  (forall c hint s, FindUploaded sdk c hint s = FindUploaded sdk' c hint s) /\
  (forall c d s, GetCustomDomain sdk c d s = GetCustomDomain sdk' c d s) /\
  (forall c d i s, UpdateCustomDomain sdk c d i s = UpdateCustomDomain sdk' c d i s) /\
  (forall c b d s, GetCname sdk c b d s = GetCname sdk' c b d s) /\
  (forall c b d ref s, PutCnameCert sdk c b d ref s = PutCnameCert sdk' c b d ref s) /\
  (forall c b d s, DeleteCnameCert sdk c b d s = DeleteCnameCert sdk' c b d s) /\
  (forall op e c s, service_error e c s -> err_text <$> Classify op (Some e) = Some (service_text op c s)) /\
  (forall op e c s, oss_service_error e c s -> err_text <$> classifyOSS op (Some e) = Some (service_text op c s)) /\
  (forall op fr e, err_text <$> ToProviderError op (Some e) fr = Some (
     let '(code, retryable, reason) := provider_verdict e fr in
     op +:+ match errors_as is_aliyun e with Some (_, _, c) => "[" +:+ c +:+ "]: " | None => ": " end +:+
     "provider error " +:+ code +:+ " (retryable=" +:+ bool_string retryable +:+ ", reason=" +:+ reason +:+ ")")).
Proof.
  intros Hw. split_and!.
  - intros c name cert key token s. unfold Upload. by rewrite (cas_fc_worded _ _ Hw _ _ _ _ _ _ _ s (wd_upload _ _ Hw c _)).
  - intros c id token s. unfold Delete. by rewrite (cas_fc_worded _ _ Hw _ _ _ _ _ _ _ s (wd_delete _ _ Hw c _)).
  - intros c hint s. by apply find_loop_worded.
  - intros c d s. unfold GetCustomDomain. by rewrite (cas_fc_worded _ _ Hw _ _ _ _ _ _ _ s (wd_get _ _ Hw c d)).
  - intros c d i s. unfold UpdateCustomDomain. destruct (updateInputToSDK i) as [e|b]; [done|].
    by rewrite (cas_fc_worded _ _ Hw _ _ _ _ _ _ _ s (wd_update _ _ Hw c d b)).
  - intros c b d s. unfold GetCname. by rewrite (oss_worded _ _ Hw _ _ _ _ _ _ _ s (wd_list_cname _ _ Hw c b)).
  - intros c b d ref s. unfold PutCnameCert. destruct (String.eqb ref ""); [done|]. by apply putCname_worded.
  - intros c b d s. by apply putCname_worded.
  - intros op e c s H. by rewrite (Classify_service op e c s H).
  - intros op e c s [H|H]; [by rewrite (classifyOSS_oss op e c s H)|by rewrite (classifyOSS_service op e c s H)].
  - apply ToProviderError_text.
Qed.


(** C32: a listing of CAS is complete or an error.  [FindUploaded] always returns; it asks
    for the pages one after the other from the first; if it returns a list, all
    pages but the last were full and the last was not, so that nothing was left to
    read, and the list is what the pages hold, in order; an error is that of the
    first page that failed, or says that 200 full pages did not suffice: a list that
    was cut off is never returned.  (A response without a body ends the listing as an
    empty page does.) *)
Theorem FindUploaded_complete {W} (sdk : SDK W) (c : CASClient) (hint : string) (s : Limiters * W) :
  exists res s', FindUploaded sdk c hint s = Some (res, s') /\
    match res with
    | inr l => exists full last, fetched sdk c hint 1 s (full ++ [last]) s' /\ Forall full_page full /\ ~ full_page last /\
        length full < 200 /\ l = concat (page_items <$> (full ++ [last]))
    | inl e =>
        (exists full s1, fetched sdk c hint 1 s full s1 /\ Forall full_page full /\ length full < 200 /\
           list_page sdk c hint (1 + Z.of_nat (length full)) s1 = (inl e, s')) \/
        (e = too_many_pages /\ exists full, fetched sdk c hint 1 s full s' /\ Forall full_page full /\ length full = 200)
    end.
Proof. apply (find_loop_spec sdk c hint 200 1 [] s); lia. Qed.

Definition with_private_key (k : option string) (d : SDKDomain) : SDKDomain :=
  mkSDKDomain (sd_account_id d) (sd_domain_name d) (sd_protocol d)
    ((fun c => mkSDKCertConfig (scc_name c) (scc_certificate c) k) <$> sd_cert d)
    (sd_auth d) (sd_cors d) (sd_route d) (sd_tls d) (sd_waf d).

(** the body [f] carries everything of domain [d] that is not the certificate's *)
Definition carries (d : SDKDomain) (b : SDKBody) : Prop :=
  body_auth b = sd_auth d /\ body_cors b = sd_cors d /\ body_route b = sd_route d /\ body_tls b = sd_tls d /\
  body_waf b = sd_waf d.

(** C34: what a read-modify-write of an FC3 domain puts on the wire.  Reading a domain, then
    applying to it or cleaning it up, never fails on the way; the body carries the
    auth, CORS, route, TLS and WAF settings as read; the protocol is the one of the
    provider's input, left out when the domain has none; the certificate is the
    material's, or three explicit empty strings; and nothing anywhere depends on the
    private key that the domain was read with. *)
Theorem fc3_wire_spec (d : SDKDomain) (m : CertMaterial) (o : ApplyOptions) (k : option string) :
  let cd := customDomainFromSDK d in
  customDomainFromSDK (with_private_key k d) = cd /\
  (exists b, updateInputToSDK (FC3.apply_input cd m o) = inr b /\ carries d b /\
     body_cert b = Some (mkSDKCertConfig (Some (cm_cas_name m)) (Some (cm_cert_pem m)) (Some (cm_key_pem m))) /\
     str_value (body_protocol b) = ui_protocol (FC3.apply_input cd m o) /\
     (body_protocol b = None <-> str_value (sd_protocol d) = "" /\ ao_ensure_https o = false)) /\
  (exists b, updateInputToSDK (FC3.cleanup_input cd) = inr b /\ carries d b /\
     body_cert b = Some (mkSDKCertConfig (Some "") (Some "") (Some "")) /\
     FC3.isHTTPSOnly (str_value (body_protocol b)) = false).
Proof.
  cbv zeta. split.
  { unfold customDomainFromSDK, with_private_key. cbn. by destruct (sd_cert d). }
  split.
  - unfold updateInputToSDK, FC3.apply_input. cbn. eexists. split; [done|].
    destruct (ao_ensure_https o && negb (FC3.protocolHasHTTPS (str_value (sd_protocol d)))) eqn:E; cbn.
    + do 3 (split; [done|]). split; [done|]. intros [_ Ho]. by rewrite Ho in E.
    + destruct (String.eqb_spec (str_value (sd_protocol d)) "") as [Hp|Hp]; cbn; (do 2 (split; [done|])).
      * split; [done|]. split; [|done]. split; [done|]. rewrite Hp in E. by destruct (ao_ensure_https o).
      * split; [done|]. split; [done|]. by intros [? _].
  - unfold updateInputToSDK. cbn [ui_echo FC3.cleanup_input customDomainFromSDK cd_echo ui_clear_cert].
    eexists. split; [done|]. pose proof (FC3.cleanup_input_reachable (customDomainFromSDK d)) as Hr.
    destruct (String.eqb_spec (ui_protocol (FC3.cleanup_input (customDomainFromSDK d))) "") as [Hp|Hp]; cbn [negb].
    + by rewrite Hp in Hr.
    + do 2 (split; [done|]). exact Hr.
Qed.

(** the CNAME of a domain: the first entry with that name in any case, under the
    account of the whole list; an absent entry and an absent bucket are the same
    NotFound; an empty response is worth a retry *)
Theorem cnameFromList_spec (res : option ListCnameResult) (domain : string) :
  match cnameFromList res domain with
  | inr cn => exists r pre c post, res = Some r /\ lc_cnames r = pre ++ c :: post /\ cn = cname_of (lc_owner r) c /\
      equal_fold (cn_domain cn) domain = true /\
      Forall (fun c => equal_fold (str_value (ci_domain c)) domain = false) pre
  | inl e => ClassOf e = (match res with Some _ => ClassNotFound | None => ClassRetryable end) /\
      forall r, res = Some r -> Forall (fun c => equal_fold (str_value (ci_domain c)) domain = false) (lc_cnames r)
  end.
Proof.
  unfold cnameFromList. destruct res as [r|]; [|done].
  assert (Hf : match List.find (fun c => equal_fold (str_value (ci_domain c)) domain) (lc_cnames r) with
    | Some c => exists pre post, lc_cnames r = pre ++ c :: post /\ equal_fold (str_value (ci_domain c)) domain = true /\
        Forall (fun c => equal_fold (str_value (ci_domain c)) domain = false) pre
    | None => Forall (fun c => equal_fold (str_value (ci_domain c)) domain = false) (lc_cnames r) end).
  { induction (lc_cnames r) as [|c l IH]; [constructor|]. cbn.
    destruct (equal_fold (str_value (ci_domain c)) domain) eqn:E; [by exists [], l|].
    destruct (List.find _ l) as [c'|]; [|by constructor]. destruct IH as (pre & post & -> & H1 & H2).
    exists (c :: pre), post. split; [done|]. split; [done|]. by constructor. }
  destruct (List.find _ _) as [c|].
  - destruct Hf as (pre & post & H1 & H2 & H3). by exists r, pre, c, post.
  - split; [done|]. by intros ? [= <-].
Qed.

(** *** A server that caps its pages *)

Definition item (id : Z) : option OrderItem := Some (mkOrderItem (Some id) (Some "k8s-x") (Some "leaf") None).

(** CAS with 60 certificates, of which it shows at most 20 a page *)
Definition capped_sdk : SDK unit := {|
  rate_wait := fun _ _ w => (None, w);
  cas_upload := fun _ _ w => (inl EDeadline, w);
  cas_delete := fun _ _ w => (None, w);
  cas_list := fun _ req w =>
    (inr (Some (if (lr_current_page req <=? 3)%Z
                then (fun i => item (20 * (lr_current_page req - 1) + Z.of_nat i)) <$> seq 0 20 else [])), w);
  fc_get := fun _ _ w => (inl EDeadline, w);
  fc_update := fun _ _ _ w => (None, w);
  oss_list_cname := fun _ _ w => (inl EDeadline, w);
  oss_put_cname := fun _ _ _ _ w => (None, w);
  on_call := fun _ _ w => w
|}.

(** the same server, refusing uploads with a message of its own *)
Definition refusing_sdk (message : string) : SDK unit := {|
  rate_wait := rate_wait capped_sdk;
  cas_upload := fun _ _ w => (inl (EWrap "tea: " (ETeaSDK (Some "NoPermission") (Some 403%Z) message)), w);
  cas_delete := cas_delete capped_sdk;
  cas_list := cas_list capped_sdk;
  fc_get := fc_get capped_sdk;
  fc_update := fc_update capped_sdk;
  oss_list_cname := oss_list_cname capped_sdk;
  oss_put_cname := fun _ _ _ _ w => (Some (EOssService "AccessDenied" 403 message), w);
  on_call := on_call capped_sdk
|}.

Lemma refusing_worded m m' : worded_differently (refusing_sdk m) (refusing_sdk m').
Proof.
  split; try done; intros; split; try done; cbn.
  - right. exists "NoPermission", 403%Z. split; apply service_wrap; exact (service_tea (Some "NoPermission") (Some 403%Z) _).
  - by left.
  - by left.
  - right. exists "AccessDenied", 403%Z. split; left; constructor.
Qed.

Lemma service_messages_stay_inside_witness :
  let c := mkCASClient (CfgAccessKey "ak" "sk") "cn-hangzhou" "" "" "ak" in
  let up m := (Upload (refusing_sdk m) c "name" "cert" "key" "token" (∅, tt)).1 in
  up "key=MIIE..." = up "denied" /\
  (match up "key=MIIE..." with inl e => err_text e | inr _ => "" end) =
    "aliyun Upload: NoPermission (Auth): sdk error code=NoPermission status=403".
Proof.
  intros c up. split; [|vm_compute; reflexivity]. unfold up.
  by rewrite (proj1 (service_messages_stay_inside (refusing_sdk "key=MIIE...") (refusing_sdk "denied") (refusing_worded _ _))).
Defined.

(** the listing ends after the first page, without an error, and lacks 40 of them *)
Example capped_pages_truncate :
  (fun res => match res.1 with inr l => Some (length l) | inl _ => None end) <$>
    FindUploaded capped_sdk (mkCASClient (CfgAccessKey "ak" "sk") "cn-hangzhou" "" "" "ak") "leaf" (∅, tt) = Some (Some 20).
Proof. vm_compute. reflexivity. Qed.
