(* ===== verification/Clients.v ===== *)
(** * Client construction: the caches and the two factories

    pkg/aliyun/cache.go, internal/controller/cas_factory.go and
    provider_factory.go.  A cache is shared by all rounds: its map is reached
    through calls, so nothing is assumed of what other rounds stored but that
    they stored it by the same code ([coherent]). *)
From S2P Require Import Prelude GoString GoTime Api GoError Cloud KubeLib Effects Bundle Samples CertStatus.
From S2P Require Import CertUpload Provider ProviderFC3 ProviderOSS.

#[local] Open Scope prog_scope.

(** ** Definitions *)

(** *** pkg/aliyun/cache.go *)

Record ClientKey : Type := mkClientKey {
  ck_namespace : string;
  ck_name : string;
  ck_resource_version : string;
  ck_region : string;
  ck_endpoint : string;
  ck_resource_group : string;
  ck_type : string
}.

Definition identity (k : ClientKey) : string :=
  ck_namespace k +:+ "/" +:+ ck_name k +:+ "/" +:+ ck_region k +:+ "/" +:+ ck_endpoint k +:+ "/"
  +:+ ck_resource_group k +:+ "/" +:+ ck_type k.

(** one instantiation of [ClientCache]: how its map is read and written; the lock is
    held over the whole method *)
Record ClientCache (T : Type) : Type := mkClientCache {
  cache_get : string -> prog (option (string * T));
  cache_put : string -> string -> T -> prog unit
}.
Arguments cache_get {T} _ _.
Arguments cache_put {T} _ _ _ _.

Definition GetOrBuild {T} (c : ClientCache T) (key : ClientKey) (build : prog (goerr + T)) : prog (goerr + T) :=
  let id := identity key in
  let rebuild :=
    try! cl := build in
    do! cache_put c id (ck_resource_version key) cl in
    Ret (inr cl) in
  let! e := cache_get c id in
  match e with
  | Some (rv, cl) => if String.eqb rv (ck_resource_version key) then Ret (inr cl) else rebuild
  | None => rebuild
  end.

Definition cas_cache : ClientCache CASClient :=
  mkClientCache CASClient (fun id => call (OCASCacheGet id)) (fun id rv c => call (OCASCachePut id rv c)).
Definition provider_cache : ClientCache ProviderClient :=
  mkClientCache ProviderClient (fun id => call (OProviderCacheGet id)) (fun id rv c => call (OProviderCachePut id rv c)).

(** *** credentials.go, [Build]: the configuration stands for the credential made of it *)
Definition Credentials_Build (c : Credentials) : prog (goerr + CredentialConfig) :=
  let! err := call (ONewCredential (build_config c)) in
  Ret match err with Some e => inl e | None => inr (build_config c) end.

(** *** the constructors of the SDK clients (cas_sdk.go, fc3_sdk.go, oss_sdk.go) *)
Definition NewCASClient (c : CASClient) : prog (goerr + CASClient) :=
  let! err := call (ONewCASClient c) in
  Ret match Classify "NewClient" err with Some e => inl e | None => inr c end.

Definition NewFC3Client (cred : CredentialConfig) (region limiterKey : string) : prog (goerr + ProviderClient) :=
  let c := FC3Client cred region limiterKey in
  let! err := call (ONewProviderClient c) in
  Ret match Classify "NewFC3Client" err with Some e => inl e | None => inr c end.

Definition NewOSSClient (cred : CredentialConfig) (region limiterKey : string) : prog (goerr + ProviderClient) :=
  Ret (if String.eqb region "" then
         inl (EAliyun ClassPermanent "NewOSSClient" "RegionRequired" (EText "OSS client 需要 region"))
       else inr (OSSClient cred region limiterKey)).

(** *** cas_factory.go *)

Definition credentials_missing (name : string) : goerr :=
  ECredentials ReasonCredentialsNotFound (EText ("凭证 Secret " +:+ quote name +:+ " 不存在")).

(** the Secret and the credentials in it *)
Definition read_credentials (ns name : string) : prog (goerr + (Secret * Credentials)) :=
  let! got := call (OGetSecret ns name) in
  Ret match got with
      | inl e => inl (if IsNotFound e then credentials_missing name else e)
      | inr s =>
          match CredentialsFromSecret s with
          | inl e => inl (ECredentials ReasonCredentialsInvalid e)
          | inr c => inr (s, c)
          end
      end.

Definition cas_key (s : Secret) (ac : AliyunCertificate) : ClientKey :=
  mkClientKey (om_namespace (sec_meta s)) (om_name (sec_meta s)) (om_resource_version (sec_meta s))
    (EffectiveCASRegion (ac_aliyun ac)) (al_endpoint_override (ac_aliyun ac)) (al_resource_group_id (ac_aliyun ac)) "".

(** the closure handed to the cache *)
Definition build_cas (key : ClientKey) (creds : Credentials) : prog (goerr + CASClient) :=
  let! cred := Credentials_Build creds in
  match cred with
  | inl e => Ret (inl (ECredentials ReasonCredentialsInvalid e))
  | inr cred => NewCASClient (mkCASClient cred (ck_region key) (ck_endpoint key) (ck_resource_group key) (LimiterKey creds))
  end.

Definition NewCASFactory : CASFactory := fun ac =>
  let! got := read_credentials (ac_namespace ac) (al_credentials_ref (ac_aliyun ac)) in
  match got with
  | inl e => Ret (inl e)
  | inr (s, creds) => let key := cas_key s ac in GetOrBuild cas_cache key (build_cas key creds)
  end.

(** *** provider_factory.go *)

Definition ProviderFactory : Type :=
  AliyunCertificateBinding -> option AliyunCertificate -> prog (goerr + (Provider * ProviderClient)).

Definition credentialsSecretNameFor (b : AliyunCertificateBinding) (ac : option AliyunCertificate) : string :=
  match abs_credentials_ref (ab_spec b) with
  | Some n => if negb (String.eqb n "") then n
              else match ac with Some ac => al_credentials_ref (ac_aliyun ac) | None => "" end
  | None => match ac with Some ac => al_credentials_ref (ac_aliyun ac) | None => "" end
  end.

(** [%v] of a []string *)
Definition show_names (l : list string) : string := "[" +:+ join " " l +:+ "]".

Definition targetOf (reg : registry) (b : AliyunCertificateBinding) : goerr + Target :=
  let t := ab_target b in
  if String.eqb (bt_type t) TargetTypeFC3CustomDomain then
    match bt_fc3 t with
    | None => inl (EText ("target.type=" +:+ bt_type t +:+ " 但缺少 fc3CustomDomain"))
    | Some fc => inr (mkTarget (bt_type t) (fc_region fc) (fc_domain_name fc) (SpecFC3 (Some fc)))
    end
  else if String.eqb (bt_type t) TargetTypeOSSCustomDomain then
    match bt_oss t with
    | None => inl (EText ("target.type=" +:+ bt_type t +:+ " 但缺少 ossCustomDomain"))
    | Some o => inr (mkTarget (bt_type t) (oss_region o) (oss_domain_name o) (SpecOSS (Some o)))
    end
  else inl (EText ("未知的 target.type " +:+ quote (bt_type t) +:+ "，已注册: " +:+ show_names (Names reg))).

Definition buildProviderClient (typeName region : string) (cred : CredentialConfig) (limiterKey : string) :
    prog (goerr + ProviderClient) :=
  if String.eqb typeName TargetTypeFC3CustomDomain then NewFC3Client cred region limiterKey
  else if String.eqb typeName TargetTypeOSSCustomDomain then NewOSSClient cred region limiterKey
  else Ret (inl (EText ("没有 target.type " +:+ quote typeName +:+ " 的 client 构造器"))).

Definition provider_key (s : Secret) (tg : Target) : ClientKey :=
  mkClientKey (om_namespace (sec_meta s)) (om_name (sec_meta s)) (om_resource_version (sec_meta s))
    (tg_region tg) "" "" (tg_type tg).

Definition build_provider (key : ClientKey) (creds : Credentials) : prog (goerr + ProviderClient) :=
  let! cred := Credentials_Build creds in
  match cred with
  | inl e => Ret (inl (ECredentials ReasonCredentialsInvalid e))
  | inr cred => buildProviderClient (ck_type key) (ck_region key) cred (LimiterKey creds)
  end.

Definition NewProviderFactory (reg : registry) : ProviderFactory := fun b ac =>
  match targetOf reg b with
  | inl e => Ret (inl e)
  | inr tg =>
      match Get (tg_type tg) reg with
      | None => Ret (inl (EText ("没有注册 target.type " +:+ quote (tg_type tg) +:+ " 的 provider，已注册: " +:+ show_names (Names reg))))
      | Some p =>
          let secretName := credentialsSecretNameFor b ac in
          if String.eqb secretName "" then
            Ret (inl (ECredentials ReasonCredentialsNotFound
                        (EText "既未设置 spec.credentialsRef，也取不到证书的 aliyun.credentialsRef")))
          else
            let! got := read_credentials (ab_namespace b) secretName in
            match got with
            | inl e => Ret (inl e)
            | inr (s, creds) =>
                let key := provider_key s tg in
                try! cl := GetOrBuild provider_cache key (build_provider key creds) in
                Ret (inr (p, cl))
            end
      end
  end.

(** the registry after the init functions of the two providers *)
Definition builtin_registry `{Crypto} : option registry :=
  Register FC3.provider ∅ ≫= Register OSS.provider.

(** ** Lemmas *)

(** the parts of a key that make its identity *)
Definition key_parts (k : ClientKey) : list string :=
  [ck_namespace k; ck_name k; ck_region k; ck_endpoint k; ck_resource_group k; ck_type k].

Definition slash_free (l : list string) : Prop := Forall (fun s => free_of "/" s = true) l.

Lemma identity_join k : identity k = join "/" (key_parts k).
Proof. done. Qed.

Lemma identity_inj k k' :
  slash_free (key_parts k) -> slash_free (key_parts k') -> identity k = identity k' -> key_parts k = key_parts k'.
Proof. rewrite !identity_join. intros. by apply (join_inj "/"). Qed.

(** the client a key and the credentials of its Secret stand for *)
Definition cas_client_of (k : ClientKey) (c : Credentials) : CASClient :=
  mkCASClient (build_config c) (ck_region k) (ck_endpoint k) (ck_resource_group k) (LimiterKey c).

Definition provider_client_of (k : ClientKey) (c : Credentials) : ProviderClient :=
  if String.eqb (ck_type k) TargetTypeFC3CustomDomain then FC3Client (build_config c) (ck_region k) (LimiterKey c)
  else OSSClient (build_config c) (ck_region k) (LimiterKey c).

Section coherence.
  (** what each version of a Secret holds: a resourceVersion identifies the content *)
  Context (creds_at : string -> string -> string -> option Credentials).

(** an entry stored by a factory *)
Definition entry_of {T} (client_of : ClientKey -> Credentials -> T) (id rv : string) (cl : T) : Prop :=
  exists k c, slash_free (key_parts k) /\ identity k = id /\ ck_resource_version k = rv /\
    creds_at (ck_namespace k) (ck_name k) rv = Some c /\ cl = client_of k c.

(** the Secrets are the ones asked for, in some version; the caches hold what
    factories stored *)
Definition coherent : environment := fun _ o r =>
  match o return resp o -> Prop with
  | OGetSecret ns n => fun r => match r with
      | inr s => om_namespace (sec_meta s) = ns /\ om_name (sec_meta s) = n /\
          forall c, CredentialsFromSecret s = inr c -> creds_at ns n (om_resource_version (sec_meta s)) = Some c
      | inl _ => True end
  | OCASCacheGet id => fun r => match r with Some (rv, cl) => entry_of cas_client_of id rv cl | None => True end
  | OProviderCacheGet id => fun r =>
      match r with Some (rv, cl) => entry_of provider_client_of id rv cl | None => True end
  | _ => fun _ => True
  end r.

(** and a factory stores nothing else *)
Definition stores_coherent : policy := fun _ o =>
  match o with
  | OCASCachePut id rv cl => entry_of cas_client_of id rv cl
  | OProviderCachePut id rv cl => entry_of provider_client_of id rv cl
  | _ => client_call o
  end.

Abbreviation cwp := (twp coherent stores_coherent).

(** an entry found under the identity and version of [k] is the client of [k] *)
Lemma entry_is {T} (client_of : ClientKey -> Credentials -> T) k c cl :
  (forall k1 k2 c, key_parts k1 = key_parts k2 -> client_of k1 c = client_of k2 c) ->
  slash_free (key_parts k) -> creds_at (ck_namespace k) (ck_name k) (ck_resource_version k) = Some c ->
  entry_of client_of (identity k) (ck_resource_version k) cl -> cl = client_of k c.
Proof.
  intros Hc Hk Hat (k' & c' & Hk' & Hid & Hrv & Hat' & ->).
  assert (Hp : key_parts k' = key_parts k) by by apply identity_inj.
  injection (Hp) as Hn Hm _ _ _ _. rewrite Hn, Hm, Hat in Hat'. injection Hat' as <-. by apply Hc.
Qed.

Lemma GetOrBuild_wp {T} (cache : ClientCache T) (client_of : ClientKey -> Credentials -> T) k c build (h : history) :
  (forall k1 k2 c, key_parts k1 = key_parts k2 -> client_of k1 c = client_of k2 c) ->
  (forall (h : history), cwp h (cache_get cache (identity k)) (fun r h' => (forall e, e ∈ h -> e ∈ h') /\
     match r with Some (rv, cl) => entry_of client_of (identity k) rv cl | None => True end)) ->
  (forall (h : history) cl, entry_of client_of (identity k) (ck_resource_version k) cl ->
     cwp h (cache_put cache (identity k) (ck_resource_version k) cl) (fun _ h' => forall e, e ∈ h -> e ∈ h')) ->
  (forall (h : history), cwp h build (fun r h' => (forall e, e ∈ h -> e ∈ h') /\
     match r with inr cl => cl = client_of k c | inl _ => True end)) ->
  slash_free (key_parts k) -> creds_at (ck_namespace k) (ck_name k) (ck_resource_version k) = Some c ->
  cwp h (GetOrBuild cache k build) (fun r h' => (forall e, e ∈ h -> e ∈ h') /\
    match r with inr cl => cl = client_of k c | inl _ => True end).
Proof.
  intros Hc Hget Hput Hbuild Hk Hat. unfold GetOrBuild. cbv zeta.
  match goal with |- context [if _ then _ else ?p] => set (rebuild := p) end.
  assert (Hre : forall h1 : history, (forall e, e ∈ h -> e ∈ h1) -> cwp h1 rebuild (fun r h' =>
    (forall e, e ∈ h -> e ∈ h') /\ match r with inr cl => cl = client_of k c | inl _ => True end)).
  { intros h1 H1. unfold rebuild. twp_step. eapply twp_post; [apply Hbuild|]. intros [e|cl] h2 [H2 Hcl]; cbn beta iota.
    { split; [auto|done]. }
    twp_step. eapply twp_post; [apply Hput; exists k, c; by subst|]. intros u h3 H3. cbn beta in H3. split; [auto|done]. }
  twp_step. eapply twp_post; [apply Hget|]. intros [[rv cl]|] h1 [H1 He]; [|by apply Hre].
  destruct (String.eqb_spec rv (ck_resource_version k)) as [->|]; [|by apply Hre].
  split; [done|]. by eapply entry_is.
Qed.

Lemma read_credentials_wp ns name (h : history) :
  cwp h (read_credentials ns name) (fun r h' => (forall e, e ∈ h -> e ∈ h') /\
    match r with
    | inr (s, c) => Ev (OGetSecret ns name) (inr s) ∈ h' /\ CredentialsFromSecret s = inr c /\
        om_namespace (sec_meta s) = ns /\ om_name (sec_meta s) = name /\
        creds_at ns name (om_resource_version (sec_meta s)) = Some c
    | inl _ => True
    end).
Proof.
  unfold read_credentials. twp_step. split; [exact I|]. intros [e|s] Hs; cbn [twp].
  { split; [set_solver|done]. }
  cbn in Hs. destruct Hs as (Hn & Hm & Hc). destruct (CredentialsFromSecret s) as [e|c] eqn:Ec; (split; [set_solver|]); [done|].
  split; [by left|]. by auto.
Qed.

Lemma build_cas_wp k c (h : history) :
  cwp h (build_cas k c) (fun r h' => (forall e, e ∈ h -> e ∈ h') /\ match r with inr cl => cl = cas_client_of k c | inl _ => True end).
Proof.
  unfold build_cas, Credentials_Build, NewCASClient. repeat twp_step.
  destruct r as [e|]; [split; [set_solver|done]|]. cbn [twp bind]. repeat twp_step.
  split; [set_solver|]. by destruct (Classify _ _).
Qed.

Lemma build_provider_wp k c (h : history) :
  cwp h (build_provider k c) (fun r h' => (forall e, e ∈ h -> e ∈ h') /\ match r with inr cl => cl = provider_client_of k c | inl _ => True end).
Proof.
  unfold build_provider, Credentials_Build. repeat twp_step.
  destruct r as [e|]; [split; [set_solver|done]|]. unfold buildProviderClient, provider_client_of.
  destruct (String.eqb _ TargetTypeFC3CustomDomain).
  { unfold NewFC3Client. cbn [twp bind]. repeat twp_step. split; [set_solver|]. by destruct (Classify _ _). }
  destruct (String.eqb _ TargetTypeOSSCustomDomain); [|split; [set_solver|done]].
  unfold NewOSSClient. cbn [twp]. split; [set_solver|]. by destruct (String.eqb _ _).
Qed.

End coherence.

(** a cluster with one Secret and empty caches, where construction succeeds *)
Definition sample_creds_secret : Secret :=
  mkSecret (mkObjectMeta "prod" "creds" "uid-k" "11" 1 0 None [] ∅ ∅) {["accessKeyId" := "ak"; "accessKeySecret" := "sk"]}.

Definition clients_world : handler unit := fun _ o =>
  match o return resp o * unit with
  | OGetSecret ns name =>
      (if String.eqb ns "prod" && String.eqb name "creds" then inr sample_creds_secret else inl (EKube true "no Secret"), tt)
  | ONewCredential _ | ONewCASClient _ | ONewProviderClient _ => (None, tt)
  | o => (failed_resp o, tt)
  end.

(** *** The interface of the certificate controller *)

Lemma NewCASFactory_calls ac : all_calls client_call (NewCASFactory ac).
Proof.
  unfold NewCASFactory, read_credentials, GetOrBuild, build_cas, Credentials_Build, NewCASClient, cas_cache. cbn [cache_get cache_put].
  repeat first [ twp_step | exact I | match goal with |- all_calls _ (match ?x with _ => _ end) => destruct x end
    | match goal with |- all_calls _ (Vis _ _) => split end | progress cbv beta zeta | intros ? ].
Qed.

(** the production factory is what the controller expects of one *)
Lemma NewCASFactory_ok r : r_cas_factory r = Some NewCASFactory -> CASFactoryOk r.
Proof. intros Hr f ac Hf. rewrite Hr in Hf. injection Hf as <-. apply NewCASFactory_calls. Qed.

Lemma client_key_parts k1 k2 c : key_parts k1 = key_parts k2 -> cas_client_of k1 c = cas_client_of k2 c.
Proof. intros [= _ _ Hr He Hg _]. unfold cas_client_of. by rewrite Hr, He, Hg. Qed.

Lemma provider_key_parts k1 k2 c : key_parts k1 = key_parts k2 -> provider_client_of k1 c = provider_client_of k2 c.
Proof. intros [= _ _ Hr _ _ Ht]. unfold provider_client_of. by rewrite Hr, Ht. Qed.

(** ** Properties *)

(** C31: the CAS client of a certificate always speaks with the credentials of the
    version of the Secret just read, to the region, endpoint and resource group of
    this certificate, whatever other rounds put in the shared cache; and what this
    round puts there keeps that true for the others.  (Rotated credentials take
    effect at the next use, and certificates with different resource groups never
    share a client.) *)
Theorem cas_client_is_current (creds_at : string -> string -> string -> option Credentials) (ac : AliyunCertificate) (h : history) :
  slash_free [ac_namespace ac; al_credentials_ref (ac_aliyun ac); EffectiveCASRegion (ac_aliyun ac);
              al_endpoint_override (ac_aliyun ac); al_resource_group_id (ac_aliyun ac)] ->
  twp (coherent creds_at) (stores_coherent creds_at) h (NewCASFactory ac) (fun r h' =>
    match r with
    | inr cl => exists s c, Ev (OGetSecret (ac_namespace ac) (al_credentials_ref (ac_aliyun ac))) (inr s) ∈ h' /\
        CredentialsFromSecret s = inr c /\
        cl = mkCASClient (build_config c) (EffectiveCASRegion (ac_aliyun ac)) (al_endpoint_override (ac_aliyun ac))
               (al_resource_group_id (ac_aliyun ac)) (LimiterKey c)
    | inl _ => True
    end).
Proof.
  intros Hs. unfold NewCASFactory. twp_step. eapply twp_post; [apply read_credentials_wp|].
  intros [e|[s c]] h1; [done|]. intros (_ & He & Hc & Hn & Hm & Hat).
  eapply twp_post; [apply (GetOrBuild_wp creds_at cas_cache cas_client_of (cas_key s ac) c)|].
  - apply client_key_parts.
  - intros h'. cbn. split; [done|]. intros r Hr. split; [set_solver|exact Hr].
  - intros h' cl Hcl. cbn. split; [done|]. intros r Hr e He'. by right.
  - intros h'. apply build_cas_wp.
  - unfold key_parts, cas_key. cbn. rewrite Hn, Hm. inversion Hs as [|? ? H1 H2]; subst. inversion H2 as [|? ? H3 H4]; subst.
    inversion H4 as [|? ? H5 H6]; subst. inversion H6 as [|? ? H7 H8]; subst. inversion H8; subst. by repeat constructor.
  - cbn. by rewrite Hn, Hm.
  - intros [e|cl] h2; [done|]. intros [Hh ->]. exists s, c. split; [auto|]. split; [done|]. done.
Qed.

Lemma cas_client_is_current_witness :
  let creds := mkCredentials "ak" "sk" "" "" "" "" in
  let run := exec clients_world tt [] (NewCASFactory sample_ac) in
  run.1.1 = inr sample_cas /\
  exists s c, CredentialsFromSecret s = inr c /\ sample_cas = mkCASClient (build_config c) "cn-hangzhou" "" "" (LimiterKey c).
Proof.
  intros creds run. split; [vm_compute; reflexivity|].
  assert (HE : forall s h o, coherent (fun _ _ _ => Some creds) h o (clients_world s o).1).
  { intros s h o. destruct o; try exact I. unfold clients_world.
    destruct (String.eqb_spec ns "prod") as [->|], (String.eqb_spec name "creds") as [->|]; try exact I.
    cbn. do 2 (split; [reflexivity|]). intros c Hc. vm_compute in Hc. by injection Hc as <-. }
  assert (Hs : slash_free [ac_namespace sample_ac; al_credentials_ref (ac_aliyun sample_ac);
    EffectiveCASRegion (ac_aliyun sample_ac); al_endpoint_override (ac_aliyun sample_ac);
    al_resource_group_id (ac_aliyun sample_ac)]) by (repeat constructor).
  assert (Hr : run.1.1 = inr sample_cas) by (vm_compute; reflexivity).
  pose proof (twp_exec_env clients_world _ _ [] tt _ _ HE (cas_client_is_current _ sample_ac [] Hs)) as H.
  fold run in H. cbv beta in H. rewrite Hr in H. destruct H as (s & c & _ & Hc & Hcl). by exists s, c.
Defined.

(** The provider client of a binding always speaks with the credentials of the
    version of the Secret just read (the binding's own, or else the certificate's),
    and is of the kind and region of the target, under the same conditions. *)
Theorem provider_client_is_current (creds_at : string -> string -> string -> option Credentials) (reg : registry)
    (b : AliyunCertificateBinding) (ac : option AliyunCertificate) (h : history) :
  slash_free [ab_namespace b; credentialsSecretNameFor b ac] ->
  (forall tg, targetOf reg b = inr tg -> free_of "/" (tg_region tg) = true) ->
  twp (coherent creds_at) (stores_coherent creds_at) h (NewProviderFactory reg b ac) (fun r h' =>
    match r with
    | inr (p, cl) => exists tg s c, targetOf reg b = inr tg /\ Get (tg_type tg) reg = Some p /\
        Ev (OGetSecret (ab_namespace b) (credentialsSecretNameFor b ac)) (inr s) ∈ h' /\
        CredentialsFromSecret s = inr c /\
        cl = if String.eqb (tg_type tg) TargetTypeFC3CustomDomain then FC3Client (build_config c) (tg_region tg) (LimiterKey c)
             else OSSClient (build_config c) (tg_region tg) (LimiterKey c)
    | inl _ => True
    end).
Proof.
  intros Hs Hrg. unfold NewProviderFactory. destruct (targetOf reg b) as [e|tg] eqn:Et; [done|].
  specialize (Hrg tg eq_refl). assert (Hty : free_of "/" (tg_type tg) = true).
  { unfold targetOf in Et. destruct (String.eqb_spec (bt_type (ab_target b)) TargetTypeFC3CustomDomain) as [E|_].
    - destruct (bt_fc3 _); [|done]. injection Et as <-. cbn. by rewrite E.
    - destruct (String.eqb_spec (bt_type (ab_target b)) TargetTypeOSSCustomDomain) as [E|_]; [|done].
      destruct (bt_oss _); [|done]. injection Et as <-. cbn. by rewrite E. }
  destruct (Get (tg_type tg) reg) as [p|] eqn:Eg; [|done]. cbv zeta. destruct (String.eqb _ ""); [done|]. twp_step.
  eapply twp_post; [apply read_credentials_wp|].
  intros [e|[s c]] h1; [done|]. intros (_ & He & Hc & Hn & Hm & Hat). twp_step.
  eapply twp_post; [apply (GetOrBuild_wp creds_at provider_cache provider_client_of (provider_key s tg) c)|].
  - apply provider_key_parts.
  - intros h'. cbn. split; [done|]. intros r Hr. split; [set_solver|exact Hr].
  - intros h' cl Hcl. cbn. split; [done|]. intros r Hr e He'. by right.
  - intros h'. apply build_provider_wp.
  - unfold key_parts, provider_key. cbn. rewrite Hn, Hm. inversion Hs as [|? ? H1 H2]; subst.
    inversion H2 as [|? ? H3 H4]; subst. by repeat constructor.
  - cbn. by rewrite Hn, Hm.
  - intros [e|cl] h2; [done|]. intros [Hh ->]. cbn [twp]. exists tg, s, c. do 2 (split; [done|]). split; [auto|]. by split.
Qed.

Definition sample_registry : registry := default ∅ (@builtin_registry toy_crypto).

Definition sample_binding_for (target : BindingTarget) : AliyunCertificateBinding :=
  mkBinding (sample_meta "bind" "uid-b" [FinalizerName]) (mkBindingSpec "site" target None DeletionPolicyUnbind)
    (mkBindingStatus 0 "" "" "" "" None None "" None []).

Definition sample_fc3_target : BindingTarget :=
  mkBindingTarget TargetTypeFC3CustomDomain (Some (mkFC3Target "cn-hangzhou" "leaf" true)) None.

Lemma provider_client_is_current_witness :
  let creds := mkCredentials "ak" "sk" "" "" "" "" in
  let b := sample_binding_for sample_fc3_target in
  let run := exec clients_world tt [] (NewProviderFactory sample_registry b (Some sample_ac)) in
  let cl := FC3Client (CfgAccessKey "ak" "sk") "cn-hangzhou" "ak" in
  snd <$> (match run.1.1 with inr x => Some x | inl _ => None end) = Some cl /\
  exists tg c, targetOf sample_registry b = inr tg /\ cl = FC3Client (build_config c) (tg_region tg) (LimiterKey c).
Proof.
  intros creds b run cl. split; [vm_compute; reflexivity|].
  assert (HE : forall s h o, coherent (fun _ _ _ => Some creds) h o (clients_world s o).1).
  { intros s h o. destruct o; try exact I. unfold clients_world.
    destruct (String.eqb_spec ns "prod") as [->|], (String.eqb_spec name "creds") as [->|]; try exact I.
    cbn. do 2 (split; [reflexivity|]). intros c Hc. vm_compute in Hc. by injection Hc as <-. }
  assert (Hs : slash_free [ab_namespace b; credentialsSecretNameFor b (Some sample_ac)]) by (repeat constructor).
  assert (Hrg : forall tg, targetOf sample_registry b = inr tg -> free_of "/" (tg_region tg) = true).
  { intros tg Ht. vm_compute in Ht. by injection Ht as <-. }
  assert (Hr : match run.1.1 with inr x => Some x.2 | inl _ => None end = Some cl) by (vm_compute; reflexivity).
  pose proof (twp_exec_env clients_world _ _ [] tt _ _ HE
    (provider_client_is_current _ sample_registry b (Some sample_ac) [] Hs Hrg)) as H.
  fold run in H. cbv beta in H. destruct run.1.1 as [e|[p cl']]; [discriminate Hr|]. injection Hr as Hr. subst cl'.
  destruct H as (tg & s & c & Ht & _ & _ & Hc & Hcl).
  exists tg, c. split; [exact Ht|]. vm_compute in Ht. injection Ht as <-. exact Hcl.
Defined.
