(* ===== verification/SharedState.v ===== *)
(** * The memory the goroutines of the process share

    The settings of the two reconcilers (the setters and getters of
    aliyuncertificate_controller.go and aliyuncertificatebinding_controller.go), the client
    cache (pkg/aliyun/cache.go) and the rate limiters (pkg/aliyun/ratelimit.go), each
    under its lock (Mutex.v). *)
From S2P Require Import Prelude GoString GoTime Api GoError Cloud Effects Mutex FakeCAS Issuer Sdk Clients.
From stdpp Require Import relations.

(** ** Definitions *)

(** *** The settings of the certificate reconciler *)

Record settings : Type := mkSettings {
  st_defaults : IssuerDefaults;
  (* nil is the real clock *)
  st_now : option (prog gotime);
  st_resync : duration
}.

(** what the methods return *)
Inductive setting : Type :=
| SNone
| SDefaults (d : IssuerDefaults)
| STime (t : gotime)
| SResync (d : duration).

Definition SetIssuerDefaults (d : IssuerDefaults) : code settings setting :=
  locked Exclusive (Load (fun s => Store (mkSettings d (st_now s) (st_resync s)) (Done SNone))).

Definition issuerDefaults : code settings setting :=
  locked Shared (Load (fun s => Done (SDefaults (st_defaults s)))).

Definition SetNow (fn : option (prog gotime)) : code settings setting :=
  locked Exclusive (Load (fun s => Store (mkSettings (st_defaults s) fn (st_resync s)) (Done SNone))).

(** the clock is read outside the lock *)
Definition now : code settings setting :=
  Acquire Shared (Load (fun s => Release Shared
    (code_bind (lift match st_now s with Some fn => fn | None => call ONow end) (fun t => Done (STime t))))).

Definition SetResyncInterval (d : duration) : code settings setting :=
  locked Exclusive (Load (fun s => Store (mkSettings (st_defaults s) (st_now s) d) (Done SNone))).

Definition resyncInterval : code settings setting :=
  locked Shared (Load (fun s => Done (SResync (st_resync s)))).

Inductive settings_method : Type :=
| MSetIssuerDefaults (d : IssuerDefaults)
| MIssuerDefaults
| MSetNow (fn : option (prog gotime))
| MNow
| MSetResyncInterval (d : duration)
| MResyncInterval.

Definition run_method (m : settings_method) : code settings setting :=
  match m with
  | MSetIssuerDefaults d => SetIssuerDefaults d
  | MIssuerDefaults => issuerDefaults
  | MSetNow fn => SetNow fn
  | MNow => now
  | MSetResyncInterval d => SetResyncInterval d
  | MResyncInterval => resyncInterval
  end.

(** a goroutine that calls methods one after the other *)
Fixpoint run_methods (ms : list settings_method) : code settings (list setting) :=
  match ms with
  | [] => Done []
  | m :: ms => code_bind (run_method m) (fun r => code_bind (run_methods ms) (fun rs => Done (r :: rs)))
  end.

(** *** The client cache *)

Section cache.
  Context {T : Type}.

Abbreviation entries := (gmap string (string * T)).

(** a client that is missing, or of another version of its Secret, is built and kept *)
Definition build_and_keep (key : ClientKey) (build : prog (goerr + T)) : code entries (goerr + T) :=
  code_bind (lift build) (fun r =>
    match r with
    | inl err => Done (inl err)
    | inr cl => Load (fun m => Store (<[identity key := (ck_resource_version key, cl)]> m) (Done (inr cl)))
    end).

(** [GetOrBuild] holds the lock while it builds *)
Definition ClientCache_GetOrBuild (key : ClientKey) (build : prog (goerr + T)) : code entries (goerr + T) :=
  locked Exclusive (Load (fun m =>
    match m !! identity key with
    | Some (rv, cl) => if String.eqb rv (ck_resource_version key) then Done (inr cl) else build_and_keep key build
    | None => build_and_keep key build
    end)).

End cache.

(** *** The limiters *)

(** the map holds pointers to limiters *)
Record limiters : Type := mkLimiters {
  lm_pointers : gmap string nat;
  lm_heap : list Limiter
}.

Definition NewLimiters : limiters := mkLimiters ∅ [].

(** [Wait] up to [lim.Wait(ctx)]: the limiter a goroutine waits on *)
Definition Limiters_Wait (key : string) (kind : LimitKind) : code limiters nat :=
  let id := limiter_id key kind in
  Acquire Exclusive (Load (fun l =>
    match lm_pointers l !! id with
    | Some lim => Release Exclusive (Done lim)
    | None =>
        let lim := length (lm_heap l) in
        Store (mkLimiters (<[id := lim]> (lm_pointers l)) (lm_heap l ++ [newLimiter kind])) (Release Exclusive (Done lim))
    end)).

(** *** The in-memory CAS (pkg/aliyun/fake/cas.go) *)

Inductive cas_answer : Type :=
| AUpload (r : goerr + Z)
| ADelete (e : option goerr)
| AFind (r : goerr + list CertSummary)
| ANone.

(** its methods, as functions on what its mutex protects *)
Definition cas_method (visit : gmap Z FakeCAS.Cert -> list FakeCAS.Cert) (m : FakeCAS.method) (f : FakeCAS.CAS) :
    cas_answer * FakeCAS.CAS :=
  match m with
  | FakeCAS.MUpload n c k t => let r := FakeCAS.Upload n c k t f in (AUpload r.1, r.2)
  | FakeCAS.MDelete id t => let r := FakeCAS.Delete id t f in (ADelete r.1, r.2)
  | FakeCAS.MFind h => let r := FakeCAS.FindUploaded visit h f in (AFind r.1, r.2)
  | _ => (ANone, FakeCAS.step visit f m)
  end.

(** ** Lemmas *)

(** what a program may return *)
Definition may_return {A} (p : prog A) (a : A) : Prop := forall P, returns P p -> P a.

Lemma returns_may_return {A} (p : prog A) : returns (may_return p) p.
Proof.
  induction p as [a|o k IH]; cbn; [by intros P HP|]. intros x. eapply returns_mono; [apply IH|].
  intros a Ha P HP. apply Ha, HP.
Qed.

(** *** Settings *)

Section settings.
  Context (s0 : settings) (called : list settings_method).

(** the values that were there, or that somebody sets *)
Definition default_given (d : IssuerDefaults) : Prop := d = st_defaults s0 \/ MSetIssuerDefaults d ∈ called.
Definition clock_given (fn : option (prog gotime)) : Prop := fn = st_now s0 \/ MSetNow fn ∈ called.
Definition resync_given (d : duration) : Prop := d = st_resync s0 \/ MSetResyncInterval d ∈ called.

Definition settings_given (s : settings) : Prop :=
  default_given (st_defaults s) /\ clock_given (st_now s) /\ resync_given (st_resync s).

Definition clock (fn : option (prog gotime)) : prog gotime := match fn with Some fn => fn | None => call ONow end.

(** what a method may answer *)
Definition answer_given (m : settings_method) (r : setting) : Prop :=
  match m, r with
  | MIssuerDefaults, SDefaults d => default_given d
  | MNow, STime t => exists fn, clock_given fn /\ may_return (clock fn) t
  | MResyncInterval, SResync d => resync_given d
  | (MSetIssuerDefaults _ | MSetNow _ | MSetResyncInterval _), SNone => True
  | _, _ => False
  end.

Definition keeps_given (s s' : settings) : Prop := settings_given s -> settings_given s'.

#[global] Instance keeps_given_preorder : PreOrder keeps_given.
Proof. split; [by intros s H|]. intros s1 s2 s3 H1 H2 H. by apply H2, H1. Qed.

Lemma run_method_guarded m : guarded None (run_method m).
Proof. destruct m; (split; [done|split; [by eexists|intros s]]); cbn; split_and!; try done. by apply guarded_lift. Qed.

(** a section that leaves given settings, and returns *)
Lemma setter_gwp s1 s2 (Q : setting -> settings -> Prop) r :
  settings_given s2 -> (forall s', settings_given s' -> Q r s') ->
  keeps_given s1 s2 /\ gwp keeps_given None s2 (Done r) Q.
Proof. intros H2 HQ. split; [by intros _|]. split; [done|]. intros s3 H3. by apply HQ, H3. Qed.

Lemma run_method_gwp m s :
  m ∈ called -> settings_given s -> gwp keeps_given None s (run_method m) (fun r s' => answer_given m r /\ settings_given s').
Proof.
  intros Hm Hs. destruct m; intros s1 H1; specialize (H1 Hs) as Hg; pose proof Hg as (Hd & Hn & Hr).
  - apply setter_gwp; [by split; [right|]|done].
  - by apply setter_gwp.
  - apply setter_gwp; [by split; [|split; [right|]]|done].
  - split; [done|]. eapply gwp_lift; [apply returns_may_return|]. intros t Ht. split; [done|]. intros s2 H2.
    split; [by exists (st_now s1)|by apply H2].
  - apply setter_gwp; [by split; [|split; [|right]]|done].
  - by apply setter_gwp.
Qed.

Lemma run_methods_guarded ms : guarded None (run_methods ms).
Proof.
  induction ms as [|m ms IH]; cbn; [done|]. apply guarded_bind; [apply run_method_guarded|]. intros r.
  by apply guarded_bind.
Qed.

Lemma run_methods_gwp ms s :
  ms ⊆ called -> settings_given s ->
  gwp keeps_given None s (run_methods ms) (fun rs s' => Forall2 answer_given ms rs /\ settings_given s').
Proof.
  revert s. induction ms as [|m ms IH]; intros s Hms Hs; cbn [run_methods].
  - split; [done|]. intros s' H. split; [constructor|by apply H].
  - apply gwp_bind; [apply _|]. eapply gwp_mono; [|apply run_method_gwp; [set_solver|done]]. intros r s1 [Hr H1].
    apply gwp_bind; [apply _|]. eapply gwp_mono; [|apply IH; [set_solver|done]]. intros rs s2 [Hrs H2].
    split; [done|]. intros s3 H3. split; [by constructor|by apply H3].
Qed.

End settings.

(** The settings of the reconciler under any use by any goroutines at the same time: no data race, no unlock of a
    lock that is not held, somebody can always go on; and each getter returns a value that was there at the start or
    that some goroutine sets (the clock: a time that such a clock gives). *)
Theorem settings_are_synchronised (s0 : settings) (calls : list (list settings_method)) (s : config settings (list setting)) :
  rtc routine_step (mkConfig ∅ s0 (map run_methods calls)) s ->
  (~ data_race s /\ ~ bad_unlock s /\ (all_done s \/ exists s', routine_step s s')) /\
  forall i ms rs, calls !! i = Some ms -> routines s !! i = Some (Done rs) ->
    Forall2 (answer_given s0 (concat calls)) ms rs.
Proof.
  intros Hr. split.
  - eapply guarded_is_safe; [|exact Hr]. apply Forall_map, Forall_true, run_methods_guarded.
  - intros i ms rs Hi Hrs.
    set (Q ms (rs : list setting) (_ : settings) := Forall2 (answer_given s0 (concat calls)) ms rs).
    assert (Hs0 : settings_given s0 (concat calls) s0) by by repeat split; left.
    destruct (routines_return (keeps_given s0 (concat calls)) s0 (map run_methods calls) (map Q calls) s) as (v & _ & HQ).
    + apply Forall2_fmap, Forall_Forall2_diag, Forall_forall. intros l Hl. split; [apply run_methods_guarded|].
      eapply gwp_mono; [|apply run_methods_gwp; [|done]]; [by intros rs' v' [H _]|].
      intros m Hm. apply list_elem_of_In, in_concat. exists l. by split; apply list_elem_of_In.
    + done.
    + apply (HQ i rs (Q ms)); [done|]. by rewrite list_lookup_fmap, Hi.
Qed.

(** *** Clients *)

Section clients.
  Context {T : Type} (version : string -> string).

(** what was cached under its current version stays *)
Definition keeps_current (m m' : gmap string (string * T)) : Prop :=
  forall id cl, m !! id = Some (version id, cl) -> m' !! id = Some (version id, cl).

#[global] Instance keeps_current_preorder : PreOrder keeps_current.
Proof. split; [by intros m id cl H|]. intros m1 m2 m3 H1 H2 id cl H. by apply H2, H1. Qed.

Lemma build_guarded key (build : prog (goerr + T)) :
  guarded (Some Exclusive) (code_bind (build_and_keep key build) (fun r => Release Exclusive (Done r))).
Proof.
  unfold build_and_keep. induction build as [[e|cl]|o k IH]; cbn; [done|by split; [eexists|]|apply IH].
Qed.

Lemma GetOrBuild_guarded key (build : prog (goerr + T)) : guarded None (ClientCache_GetOrBuild key build).
Proof.
  split; [done|]. split; [by eexists|]. intros m.
  destruct (m !! identity key) as [[rv cl]|]; [destruct (String.eqb rv _); [done|]|]; apply build_guarded.
Qed.

(** the client that is returned is the one cached under the version of the key *)
Definition shown (key : ClientKey) (r : goerr + T) (m : gmap string (string * T)) : Prop :=
  match r with inr cl => m !! identity key = Some (ck_resource_version key, cl) | inl _ => True end.

Lemma shown_keeps key r m m' :
  ck_resource_version key = version (identity key) -> keeps_current m m' -> shown key r m -> shown key r m'.
Proof. intros Hv Hm. destruct r as [e|cl]; cbn; [done|]. rewrite Hv. apply Hm. Qed.

Lemma build_gwp key (build : prog (goerr + T)) m :
  ck_resource_version key = version (identity key) -> (forall cl, m !! identity key <> Some (ck_resource_version key, cl)) ->
  gwp keeps_current (Some m) m (code_bind (build_and_keep key build) (fun r => Release Exclusive (Done r))) (shown key).
Proof.
  intros Hv Hm. unfold build_and_keep. induction build as [[e|cl]|o k IH]; cbn; [by split| |apply IH].
  split; [|split; [done|]].
  - intros id c Hc. destruct (decide (id = identity key)) as [->|Hn]; [by rewrite <-Hv in Hc; destruct (Hm c)|].
    by rewrite lookup_insert_ne.
  - intros m' Hk. rewrite Hv. apply Hk. by rewrite Hv, lookup_insert_eq.
Qed.

Lemma GetOrBuild_gwp key (build : prog (goerr + T)) m :
  ck_resource_version key = version (identity key) ->
  gwp keeps_current None m (ClientCache_GetOrBuild key build) (shown key).
Proof.
  intros Hv m1 _. cbn [gwp code_bind].
  destruct (m1 !! identity key) as [[rv cl]|] eqn:E; [destruct (String.eqb_spec rv (ck_resource_version key)) as [->|Hn]|].
  - split; [reflexivity|]. split; [done|]. intros m' Hm. by eapply shown_keeps; [| |exact E].
  - apply build_gwp; [done|]. rewrite E. intros c [= ? ?]. done.
  - apply build_gwp; [done|]. by rewrite E.
Qed.

End clients.

(** C30: Goroutines that look for clients in one cache at the same time, while the Secrets they read do not change: there
    is no data race and no deadlock, and those that ask for the same client (an account, a region, an endpoint, a resource
    group and a kind) get one and the same, although every construction could give another. *)
Theorem cached_clients_are_shared {T} (version : string -> string) (m : gmap string (string * T))
    (requests : list (ClientKey * prog (goerr + T))) (s : config (gmap string (string * T)) (goerr + T)) :
  (forall k b, (k, b) ∈ requests -> ck_resource_version k = version (identity k)) ->
  rtc routine_step (mkConfig ∅ m (map (fun '(k, b) => ClientCache_GetOrBuild k b) requests)) s ->
  (~ data_race s /\ ~ bad_unlock s /\ (all_done s \/ exists s', routine_step s s')) /\
  forall i j ki bi kj bj ci cj,
    requests !! i = Some (ki, bi) -> requests !! j = Some (kj, bj) -> identity ki = identity kj ->
    routines s !! i = Some (Done (inr ci)) -> routines s !! j = Some (Done (inr cj)) -> ci = cj.
Proof.
  intros Hv Hr. split.
  - eapply guarded_is_safe; [|exact Hr]. apply Forall_map, Forall_true. intros [k b]. apply GetOrBuild_guarded.
  - destruct (routines_return (keeps_current version) m (map (fun '(k, b) => ClientCache_GetOrBuild k b) requests)
      (map (fun '(k, _) => shown k) requests) s) as (v & _ & HQ).
    + apply Forall2_fmap, Forall_Forall2_diag, Forall_forall. intros [k b] Hk. split; [apply GetOrBuild_guarded|].
      apply GetOrBuild_gwp. by eapply Hv.
    + done.
    + intros i j ki bi kj bj ci cj Hi Hj Hid Hci Hcj.
      assert (H1 := HQ i _ (shown ki) Hci). rewrite list_lookup_fmap, Hi in H1. specialize (H1 eq_refl).
      assert (H2 := HQ j _ (shown kj) Hcj). rewrite list_lookup_fmap, Hj in H2. specialize (H2 eq_refl).
      cbn in H1, H2. rewrite Hid, H2 in H1. congruence.
Qed.

(** *** Limiters *)

(** the pointers are those of live limiters of the right kind, each of its own *)
Record limiters_wf (l : limiters) : Prop := {
  lwf_heap id p : lm_pointers l !! id = Some p -> p < length (lm_heap l);
  lwf_apart id id' p : lm_pointers l !! id = Some p -> lm_pointers l !! id' = Some p -> id = id'
}.

(** pointers stay, and limiters are not replaced *)
Definition keeps_limiters (l l' : limiters) : Prop :=
  limiters_wf l -> limiters_wf l' /\ lm_pointers l ⊆ lm_pointers l' /\ lm_heap l `prefix_of` lm_heap l'.

#[global] Instance keeps_limiters_preorder : PreOrder keeps_limiters.
Proof.
  split; [by intros l H|]. intros l1 l2 l3 H12 H23 H1.
  destruct (H12 H1) as (H2 & Hp & Hh). destruct (H23 H2) as (H3 & Hp' & Hh'). split; [done|]. by split; etransitivity.
Qed.

(** the limiter of an account and a kind *)
Definition limiter_at (key : string) (kind : LimitKind) (p : nat) (l : limiters) : Prop :=
  limiters_wf l /\ lm_pointers l !! limiter_id key kind = Some p.

Lemma limiter_at_keeps key kind p l l' : keeps_limiters l l' -> limiter_at key kind p l -> limiter_at key kind p l'.
Proof. intros Hk [Hwf Hp]. destruct (Hk Hwf) as (Hwf' & Hs & _). split; [done|]. by eapply lookup_weaken. Qed.

Lemma new_limiter_wf l id (lim : Limiter) :
  limiters_wf l -> lm_pointers l !! id = None ->
  limiters_wf (mkLimiters (<[id := length (lm_heap l)]> (lm_pointers l)) (lm_heap l ++ [lim])).
Proof.
  intros [Hh Ha] Hn. split; cbn.
  - intros id' p. rewrite length_app. cbn. intros [[_ <-]|[_ Hp]]%lookup_insert_Some; [lia|]. specialize (Hh _ _ Hp). lia.
  - intros i j p [[<- <-]|[Hi Hp]]%lookup_insert_Some [[<- Hq]|[Hj Hq]]%lookup_insert_Some; try done.
    + specialize (Hh _ _ Hq). lia.
    + subst. specialize (Hh _ _ Hp). lia.
    + by eapply Ha.
Qed.

Lemma Wait_guarded key kind : guarded None (Limiters_Wait key kind).
Proof. split; [done|]. split; [by eexists|]. intros l. by destruct (lm_pointers l !! _). Qed.

Lemma Wait_gwp key kind l : limiters_wf l -> gwp keeps_limiters None l (Limiters_Wait key kind) (limiter_at key kind).
Proof.
  intros Hwf l1 H1. destruct (H1 Hwf) as (Hwf1 & _ & _). cbn [gwp Limiters_Wait].
  destruct (lm_pointers l1 !! limiter_id key kind) as [p|] eqn:E.
  - split; [reflexivity|]. split; [done|]. intros l2 H2. by apply (limiter_at_keeps _ _ _ l1).
  - assert (Hn := new_limiter_wf l1 _ (newLimiter kind) Hwf1 E). split.
    + intros _. split; [done|]. split; [by apply insert_subseteq|by apply prefix_app_r].
    + split; [done|]. intros l2 H2. apply (limiter_at_keeps _ _ _ _ _ H2). split; [done|]. cbn [lm_pointers]. by rewrite lookup_insert_eq.
Qed.

(** C29: Goroutines that reach the rate limiters at the same time, also the first ones of an account: there is no data race
    and no deadlock, and two of them wait on the same limiter exactly when they are of the same account and the same
    channel, so that goroutines neither multiply the quota of an account nor share it with another channel. *)
Theorem limiters_are_shared (requests : list (string * LimitKind)) (s : config limiters nat) :
  rtc routine_step (mkConfig ∅ NewLimiters (map (fun '(key, kind) => Limiters_Wait key kind) requests)) s ->
  (~ data_race s /\ ~ bad_unlock s /\ (all_done s \/ exists s', routine_step s s')) /\
  forall i j keyi kindi keyj kindj pi pj,
    requests !! i = Some (keyi, kindi) -> requests !! j = Some (keyj, kindj) ->
    routines s !! i = Some (Done pi) -> routines s !! j = Some (Done pj) ->
    (pi = pj <-> keyi = keyj /\ kindi = kindj).
Proof.
  intros Hr. split.
  - eapply guarded_is_safe; [|exact Hr]. apply Forall_map, Forall_true. intros [k b]. apply Wait_guarded.
  - destruct (routines_return keeps_limiters NewLimiters (map (fun '(key, kind) => Limiters_Wait key kind) requests)
      (map (fun '(key, kind) => limiter_at key kind) requests) s) as (v & _ & HQ).
    + apply Forall2_fmap, Forall_Forall2_diag, Forall_true. intros [key kind]. split; [apply Wait_guarded|].
      by apply Wait_gwp.
    + done.
    + intros i j keyi kindi keyj kindj pi pj Hi Hj Hpi Hpj.
      assert (H1 := HQ i _ (limiter_at keyi kindi) Hpi). rewrite list_lookup_fmap, Hi in H1. destruct (H1 eq_refl) as [Hwf Hl1].
      assert (H2 := HQ j _ (limiter_at keyj kindj) Hpj). rewrite list_lookup_fmap, Hj in H2. destruct (H2 eq_refl) as [_ Hl2].
      split; [intros ->|intros [-> ->]; congruence].
      apply limiter_id_inj. by eapply lwf_apart.
Qed.

(** *** The in-memory CAS *)

Lemma cas_method_step visit m f : (cas_method visit m f).2 = FakeCAS.step visit f m.
Proof. by destruct m. Qed.

Lemma in_order_run visit ms order f :
  (in_order (map (cas_method visit) ms) order f).2 = FakeCAS.run visit f (omap (ms !!.) order).
Proof.
  revert f. induction order as [|i order IH]; intros f; cbn [in_order omap list_omap]; [done|].
  rewrite list_lookup_fmap. destruct (ms !! i) as [m|]; cbn; [|apply IH]. by rewrite IH, cas_method_step.
Qed.

Lemma omap_seq {B} (l : list B) : omap (l !!.) (seq 0 (length l)) = l.
Proof.
  induction l as [|x l IH]; [done|]. cbn. f_equal. etransitivity; [|exact IH]. rewrite <-fmap_S_seq.
  generalize (seq 0 (length l)). intros ks. induction ks as [|i ks IHs]; cbn; [done|]. rewrite IHs. by destruct (l !! i).
Qed.

(** Whatever goroutines do with the in-memory CAS at the same time, its mutex makes them take turns: what it holds in
    the end is what some sequence of the same calls leaves, each call is answered as in that sequence, and so the CAS is
    well-formed.  This is what lets the other theorems take its methods for single steps. *)
Theorem fake_cas_linearises visit (ms : list FakeCAS.method) (s : config FakeCAS.CAS cas_answer) :
  FakeCAS.visits visit -> (1000 + Z.of_nat (length ms) <= int64_max)%Z ->
  rtc routine_step (mkConfig ∅ FakeCAS.NewCAS (map (fun m => method (cas_method visit m)) ms)) s -> all_done s ->
  exists order, order ≡ₚ ms /\ vars s = FakeCAS.run visit FakeCAS.NewCAS order /\ FakeCAS.wf (vars s) /\
    forall i m r, ms !! i = Some m -> routines s !! i = Some (Done r) ->
      exists before after, order = before ++ m :: after /\ r = (cas_method visit m (FakeCAS.run visit FakeCAS.NewCAS before)).1.
Proof.
  intros Hv Hl Hr Hd. rewrite <-(map_map (cas_method visit) method) in Hr.
  destruct (methods_linearise _ _ _ Hr Hd) as (o & Ho & Hvars & Hres). rewrite length_map in Ho.
  exists (omap (ms !!.) o). rewrite in_order_run in Hvars.
  assert (Hp : omap (ms !!.) o ≡ₚ ms) by by rewrite Ho, omap_seq.
  split; [done|]. split; [done|]. split.
  - rewrite Hvars. apply FakeCAS.run_wf; [apply FakeCAS.NewCAS_wf|]. by rewrite Hp.
  - intros i m r Hm Hi. destruct (in_order_result _ _ _ _ _ (Hres _ _ Hi)) as (o1 & o2 & f & -> & Hf & ->).
    rewrite list_lookup_fmap, Hm in Hf. injection Hf as <-. exists (omap (ms !!.) o1), (omap (ms !!.) o2).
    rewrite omap_app. cbn. rewrite Hm. split; [done|]. by rewrite in_order_run.
Qed.

(** ** Interleavings of goroutines *)

(** calls answer the zero value *)
Definition zero_world (o : op) : resp o.
Proof.
  destruct o; try exact tt; try exact None; try exact 0%Z; exact (inl (EText "no answer")).
Defined.

(** three goroutines; the second and the third begin while the first is in its section *)
Definition sample_schedule : list nat := [0; 0; 1; 2; 0; 0; 1; 0; 1; 1; 1; 2; 1; 1; 2; 2; 2; 2; 0; 1; 2].

Definition sample_waits : list (string * LimitKind) := [("ak", LimitFC3); ("ak", LimitFC3); ("ak", LimitOSS)].

Lemma limiters_are_shared_witness :
  let s := run_routines zero_world sample_schedule
    (mkConfig ∅ NewLimiters (map (fun '(key, kind) => Limiters_Wait key kind) sample_waits)) in
  routines s = [Done 0; Done 0; Done 1] /\ (0 = 0 <-> "ak" = "ak" /\ LimitFC3 = LimitFC3).
Proof.
  set (s0 := mkConfig ∅ NewLimiters (map (fun '(key, kind) => Limiters_Wait key kind) sample_waits)). cbv zeta.
  assert (Hd : routines (run_routines zero_world sample_schedule s0) = [Done 0; Done 0; Done 1]) by by vm_compute.
  split; [exact Hd|].
  destruct (limiters_are_shared sample_waits _ (run_routines_steps zero_world sample_schedule s0)) as [_ H].
  apply (H 0 1 "ak" LimitFC3 "ak" LimitFC3 0 0 eq_refl eq_refl); by rewrite Hd.
Defined.

Definition sample_key : ClientKey := mkClientKey "prod" "creds" "7" "cn-hangzhou" "" "" "".

(** the second goroutine's own construction would have failed *)
Definition sample_builds : list (ClientKey * prog (goerr + nat)) :=
  [(sample_key, Ret (inr 5)); (sample_key, Ret (inl (EText "refused"))); (sample_key, Ret (inr 6))].

Lemma cached_clients_are_shared_witness :
  let s := run_routines zero_world sample_schedule
    (mkConfig ∅ ∅ (map (fun '(k, b) => ClientCache_GetOrBuild k b) sample_builds)) in
  routines s = [Done (inr 5); Done (inr 5); Done (inr 5)] /\ 5 = 5.
Proof.
  set (s0 := mkConfig ∅ ∅ (map (fun '(k, b) => ClientCache_GetOrBuild k b) sample_builds)). cbv zeta.
  assert (Hd : routines (run_routines zero_world sample_schedule s0) = [Done (inr 5); Done (inr 5); Done (inr 5)]) by by vm_compute.
  split; [exact Hd|].
  destruct (cached_clients_are_shared (fun _ => "7") ∅ sample_builds (run_routines zero_world sample_schedule s0)) as [_ H].
  - intros k b Hk. repeat (apply elem_of_cons in Hk as [[= -> ->]|Hk]; [reflexivity|]). by apply elem_of_nil in Hk.
  - apply run_routines_steps.
  - apply (H 0 2 sample_key (Ret (inr 5)) sample_key (Ret (inr 6)) 5 5 eq_refl eq_refl eq_refl); by rewrite Hd.
Defined.

(** a reader of the period while it is changed *)
Definition sample_calls : list (list settings_method) := [[MSetResyncInterval 5]; [MResyncInterval; MNow]].

Lemma settings_are_synchronised_witness :
  let s := run_routines zero_world (sample_schedule ++ [1; 1; 1; 1; 1])
    (mkConfig ∅ (mkSettings (mkIssuerDefaults "" "" "") None 60) (map run_methods sample_calls)) in
  routines s = [Done [SNone]; Done [SResync 5; STime 0]] /\
  Forall2 (answer_given (mkSettings (mkIssuerDefaults "" "" "") None 60) (concat sample_calls))
    [MResyncInterval; MNow] [SResync 5; STime 0].
Proof.
  set (s0 := mkConfig ∅ (mkSettings (mkIssuerDefaults "" "" "") None 60) (map run_methods sample_calls)). cbv zeta.
  set (sch := sample_schedule ++ [1; 1; 1; 1; 1]).
  assert (Hd : routines (run_routines zero_world sch s0) = [Done [SNone]; Done [SResync 5; STime 0]]) by by vm_compute.
  split; [exact Hd|].
  destruct (settings_are_synchronised _ sample_calls _ (run_routines_steps zero_world sch s0)) as [_ H].
  apply (H 1); [reflexivity|]. by rewrite Hd.
Defined.

(** two uploads and a deletion, the second upload while the first is in the method *)
Lemma fake_cas_linearises_witness :
  let visit m := (map_to_list m).*2 in
  let ms := [FakeCAS.MUpload "a" "c" "k" "t"; FakeCAS.MUpload "a" "c" "k" "t"; FakeCAS.MDelete 1001 ""] in
  let s := run_routines zero_world sample_schedule (mkConfig ∅ FakeCAS.NewCAS (map (fun m => method (cas_method visit m)) ms)) in
  routines s = [Done (AUpload (inr 1001%Z)); Done (AUpload (inr 1001%Z)); Done (ADelete None)] /\
  exists order, order ≡ₚ ms /\ vars s = FakeCAS.run visit FakeCAS.NewCAS order.
Proof.
  intros visit ms s.
  assert (Hd : routines s = [Done (AUpload (inr 1001%Z)); Done (AUpload (inr 1001%Z)); Done (ADelete None)]) by by vm_compute.
  split; [exact Hd|].
  destruct (fake_cas_linearises visit ms s) as (order & H1 & H2 & _).
  - intros m. done.
  - vm_compute. intros H. discriminate H.
  - apply run_routines_steps.
  - unfold all_done. rewrite Hd. by repeat constructor.
  - exists order. split; [exact H1|exact H2].
Defined.
