(* ===== verification/BindingStatus.v ===== *)
(** * Status, metrics and arbitration of the binding controller

    binding_status.go, binding_conflict.go, indexes.go, the binding side of
    metrics.go and the reconciler's fields. *)
From S2P Require Import Prelude GoString GoTime Api GoError Cloud KubeLib Effects Bundle Samples CertStatus Provider.
From S2P Require Import ProviderFC3 ProviderOSS Clients.

#[local] Open Scope prog_scope.

(** ** Definitions *)

(** AliyunCertificateBindingReconciler, and the provider registry of the process *)
Record BindingReconciler : Type := mkBindingReconciler {
  br_registry : registry;
  br_provider_factory : option ProviderFactory;
  br_drift_interval : duration;
  br_cleanup_grace_period : duration;
  br_cleanup_failure_policy : string
}.

(** *** binding_status.go *)

Record bindingRound : Type := mkBindingRound {
  rd_b : AliyunCertificateBinding;
  rd_orig : AliyunCertificateBinding;
  rd_provider : string;
  rd_lag : duration
}.

Definition set_rd_b (v : AliyunCertificateBinding) (rd : bindingRound) : bindingRound :=
  mkBindingRound v (rd_orig rd) (rd_provider rd) (rd_lag rd).
Definition set_rd_lag (v : duration) (rd : bindingRound) : bindingRound :=
  mkBindingRound (rd_b rd) (rd_orig rd) (rd_provider rd) v.
Definition set_rd_orig (v : AliyunCertificateBinding) (rd : bindingRound) : bindingRound :=
  mkBindingRound (rd_b rd) v (rd_provider rd) (rd_lag rd).

Definition newBindingRound (b : AliyunCertificateBinding) : bindingRound :=
  mkBindingRound b b (bt_type (ab_target b)) 0.

Definition targetIdentifier (b : AliyunCertificateBinding) : string :=
  match bt_fc3 (ab_target b), bt_oss (ab_target b) with
  | Some fc, _ => fc_domain_name fc
  | None, Some o => oss_domain_name o
  | None, None => TargetKey b
  end.

Definition targetRegion (b : AliyunCertificateBinding) : string :=
  match bt_fc3 (ab_target b), bt_oss (ab_target b) with
  | Some fc, _ => fc_region fc
  | None, Some o => oss_region o
  | None, None => ""
  end.

(** [appliedLag] *)
Definition appliedLag (b : AliyunCertificateBinding) (ac : option AliyunCertificate) : prog duration :=
  match ac with
  | None => Ret 0%Z
  | Some ac =>
      match as_current (ac_status ac) with
      | None => Ret 0%Z
      | Some cur =>
          if String.eqb (gen_fingerprint cur) "" || String.eqb (bs_applied_fingerprint (ab_status b)) (gen_fingerprint cur)
          then Ret 0%Z
          else
            let! now := call ONow in
            let lag := time_sub now (gen_uploaded_at cur) in
            Ret (if (lag <? 0)%Z then 0%Z else lag)
      end
  end.

(** *** metrics.go, binding side *)

Definition metric_binding_ready : string := "aliyuncert_binding_ready".
Definition metric_binding_conflict : string := "aliyuncert_binding_conflict".
Definition metric_binding_applied_age : string := "aliyuncert_binding_applied_age_seconds".
Definition metric_binding_apply : string := "aliyuncert_binding_apply_total".
Definition metric_binding_drift : string := "aliyuncert_binding_drift_detected_total".

Definition clearBindingMetrics (namespace name providerName : string) : prog unit :=
  do! call (OGaugeDelete metric_binding_ready [namespace; name]) in
  do! call (OGaugeDelete metric_binding_conflict [namespace; name]) in
  call (OGaugeDelete metric_binding_applied_age [namespace; name; providerName]).

Section kube.
  Context `{K : KubeLib}.

Definition setBindingCondition (b : AliyunCertificateBinding) (condType : string) (status : ConditionStatus)
    (reason message : string) : AliyunCertificateBinding :=
  on_bstatus (fun s => set_bs_conditions (SetStatusCondition (bs_conditions s)
    (mkCondition condType status reason message (om_generation (ab_meta b)) time_zero)) s) b.

Definition bindingCondTrue (b : AliyunCertificateBinding) (condType : string) : bool :=
  IsStatusConditionTrue (bs_conditions (ab_status b)) condType.

Definition bindingCondReason (b : AliyunCertificateBinding) (condType : string) : string :=
  match FindStatusCondition (bs_conditions (ab_status b)) condType with
  | Some c => cond_reason c
  | None => ""
  end.

Definition setBindingReadyFalse (b : AliyunCertificateBinding) (reason message : string) : AliyunCertificateBinding :=
  setBindingCondition b ConditionReady CondFalse reason message.

Definition aggregateBindingReady (b : AliyunCertificateBinding) : AliyunCertificateBinding :=
  let applied := bindingCondTrue b ConditionApplied in
  let conflict := bindingCondTrue b ConditionConflict in
  if applied && negb conflict then setBindingCondition b ConditionReady CondTrue ReasonApplied ""
  else
    let reason :=
      if conflict then bindingCondReason b ConditionConflict
      else
        let r := bindingCondReason b ConditionApplied in
        if negb (String.eqb r "") then r else ReasonObserveFailed in
    setBindingCondition b ConditionReady CondFalse reason "".

Definition recordBindingReadiness (rd : bindingRound) : prog unit :=
  let b := rd_b rd in
  let l := [ab_namespace b; ab_name b] in
  do! call (OGaugeSet metric_binding_ready l (b2f (bindingCondTrue b ConditionReady))) in
  call (OGaugeSet metric_binding_conflict l (b2f (bindingCondTrue b ConditionConflict))).

(** the age gauge is set in nanoseconds here, in (fractional) seconds by the code *)
Definition recordBindingMetrics (rd : bindingRound) : prog unit :=
  do! recordBindingReadiness rd in
  call (OGaugeSet metric_binding_applied_age [ab_namespace (rd_b rd); ab_name (rd_b rd); rd_provider rd] (rd_lag rd)).

(** both decode the response back into [rd.b] *)
Definition patchBindingStatus (rd : bindingRound) : prog (goerr + AliyunCertificateBinding) :=
  call (OPatchBindingStatus (rd_b rd) (rd_orig rd)).

Definition patchBinding (rd : bindingRound) : prog (goerr + AliyunCertificateBinding) :=
  do! recordBindingMetrics rd in patchBindingStatus rd.

(** [return ctrl.Result{RequeueAfter: d}, r.patchBinding(ctx, rd)] *)
Definition patch_binding_and_return (d : duration) (rd : bindingRound) : prog Result :=
  let! r := patchBinding rd in Ret (d, err_of r).

End kube.

(** *** binding_conflict.go *)

(** [a < b] on strings is bytewise *)
Definition str_lt (a b : string) : bool := String.ltb a b.

Definition lessBinding (a b : AliyunCertificateBinding) : bool :=
  let ca := om_creation (ab_meta a) in
  let cb := om_creation (ab_meta b) in
  if negb (ca =? cb)%Z then time_before ca cb
  else str_lt (om_uid (ab_meta a)) (om_uid (ab_meta b)).

(** the loop of [pickWinner], from the winner so far *)
Fixpoint pick_from (winner : option AliyunCertificateBinding) (items : list AliyunCertificateBinding) :
    option AliyunCertificateBinding :=
  match items with
  | [] => winner
  | c :: items =>
      if negb (timep_is_zero (om_deletion (ab_meta c))) then pick_from winner items
      else
        match winner with
        | None => pick_from (Some c) items
        | Some w => pick_from (Some (if lessBinding c w then c else w)) items
        end
  end.

Definition pickWinner (items : list AliyunCertificateBinding) : option AliyunCertificateBinding := pick_from None items.

Definition arbitrate (b : AliyunCertificateBinding) : prog (goerr + AliyunCertificateBinding) :=
  let key := TargetKey b in
  if String.eqb key "" then Ret (inr b)
  else
    let! list := call (OListBindingsByTarget key) in
    Ret match list with
        | inl e => inl e
        | inr items => inr (default b (pickWinner items))
        end.

(** a reconcile request: namespace and name *)
Definition bindingRequests (items : list AliyunCertificateBinding) : list (string * string) :=
  (fun b => (ab_namespace b, ab_name b)) <$> items.

Definition bindingPeerRequests (b : AliyunCertificateBinding) : prog (list (string * string)) :=
  let key := TargetKey b in
  if String.eqb key "" then Ret []
  else
    let! list := call (OListBindingsByTarget key) in
    Ret match list with inl _ => [] | inr items => bindingRequests items end.

(** *** indexes.go *)

Definition bindingCertificateIndex (b : AliyunCertificateBinding) : list string :=
  if String.eqb (abs_certificate_ref (ab_spec b)) "" then [] else [abs_certificate_ref (ab_spec b)].

Definition bindingTargetIndex (b : AliyunCertificateBinding) : list string :=
  if String.eqb (TargetKey b) "" then [] else [TargetKey b].

Definition IndexBindingByCertificate : string := "spec.certificateRef.name".
Definition IndexBindingByTarget : string := "spec.target".

(** a field index of the cache: its name and the values a binding is found by *)
Record fieldIndex : Type := mkFieldIndex {
  ix_field : string;
  ix_values : AliyunCertificateBinding -> list string
}.

(** the indexes in the order they are registered; the first error ends it *)
Definition RegisterIndexes : list fieldIndex :=
  [mkFieldIndex IndexBindingByCertificate bindingCertificateIndex; mkFieldIndex IndexBindingByTarget bindingTargetIndex].

(** the watch on certificates: the bindings to wake *)
Definition certificateBindingRequests (ac : AliyunCertificate) : prog (list (string * string)) :=
  let! list := call (OListBindingsByCertificate (ac_namespace ac) (ac_name ac)) in
  Ret match list with inl _ => [] | inr items => bindingRequests items end.

(** ** Lemmas *)

(** *** The order of the bindings of a target *)

Lemma str_lt_le a b : str_lt a b = true <-> String.le a b /\ a <> b.
Proof.
  unfold str_lt, String.le, String.ltb, String.leb. rewrite Is_true_true.
  destruct (String.compare a b) eqn:E; split; try done.
  - apply String.compare_eq_iff in E. by intros [_ Hn].
  - intros _. split; [done|]. intros ->. pose proof (String.compare_antisym b b) as H. by rewrite E in H.
  - by intros [].
Qed.

Definition binding_uid (b : AliyunCertificateBinding) : string := om_uid (ab_meta b).

Lemma lessBinding_spec a b :
  lessBinding a b = true <->
  (om_creation (ab_meta a) < om_creation (ab_meta b))%Z \/
  om_creation (ab_meta a) = om_creation (ab_meta b) /\ str_lt (binding_uid a) (binding_uid b) = true.
Proof.
  unfold lessBinding, time_before, binding_uid. destruct (Z.eqb_spec (om_creation (ab_meta a)) (om_creation (ab_meta b))) as [E|E]; cbn.
  - rewrite E. split; [by right|]. intros [?|[_ ?]]; [lia|done].
  - rewrite Z.ltb_lt. split; [by left|]. intros [?|[? _]]; [done|lia].
Qed.

Lemma lessBinding_irrefl a : lessBinding a a = false.
Proof.
  apply not_true_iff_false. rewrite lessBinding_spec, str_lt_le. intros [?|[_ [_ ?]]]; [lia|done].
Qed.

Lemma lessBinding_trans a b c : lessBinding a b = true -> lessBinding b c = true -> lessBinding a c = true.
Proof.
  rewrite !lessBinding_spec, !str_lt_le. intros [H1|[H1 [L1 N1]]] [H2|[H2 [L2 N2]]]; try (left; lia).
  right. split; [congruence|]. split; [by etrans|]. intros E.
  rewrite E in L1. apply N2. by apply (anti_symm String.le).
Qed.

Lemma lessBinding_total a b : binding_uid a <> binding_uid b -> lessBinding a b = true \/ lessBinding b a = true.
Proof.
  intros Hn. rewrite !lessBinding_spec, !str_lt_le.
  destruct (Z.lt_total (om_creation (ab_meta a)) (om_creation (ab_meta b))) as [|[E|]]; [by do 2 left| |by right; left].
  destruct (total String.le (binding_uid a) (binding_uid b)); [left|right]; right; auto.
Qed.

(** a candidate: not being deleted *)
Definition alive (b : AliyunCertificateBinding) : bool := timep_is_zero (om_deletion (ab_meta b)).

(** the first of a list *)
Definition is_winner (items : list AliyunCertificateBinding) (w : AliyunCertificateBinding) : Prop :=
  w ∈ items /\ alive w = true /\
  forall c, c ∈ items -> alive c = true -> c = w \/ lessBinding w c = true.

Definition distinct_uids (items : list AliyunCertificateBinding) : Prop := NoDup (binding_uid <$> items).

Lemma distinct_uid_eq items a b : distinct_uids items -> a ∈ items -> b ∈ items -> binding_uid a = binding_uid b -> a = b.
Proof.
  intros Hd (i & Hi)%list_elem_of_lookup (j & Hj)%list_elem_of_lookup He.
  assert (Hij : i = j). { apply (NoDup_lookup _ i j (binding_uid a) Hd); rewrite list_lookup_fmap; [by rewrite Hi|by rewrite Hj, He]. }
  congruence.
Qed.

Lemma pick_from_spec items pre w :
  distinct_uids (pre ++ items) ->
  match w with Some w => is_winner pre w | None => forall c, c ∈ pre -> alive c = false end ->
  match pick_from w items with
  | Some w => is_winner (pre ++ items) w
  | None => forall c, c ∈ pre ++ items -> alive c = false
  end.
Proof.
  revert pre w. induction items as [|c items IH]; intros pre w Hd Hw; cbn [pick_from]; [by rewrite app_nil_r|].
  change (pre ++ c :: items) with (pre ++ [c] ++ items) in *. rewrite app_assoc in *.
  fold (alive c). destruct (alive c) eqn:Ha; cbn [negb].
  - assert (Hnew : forall v, is_winner (pre ++ [c]) v ->
      match pick_from (Some v) items with
      | Some w => is_winner ((pre ++ [c]) ++ items) w | None => forall c0, c0 ∈ (pre ++ [c]) ++ items -> alive c0 = false end).
    { intros v Hv. by apply IH. }
    destruct w as [w|].
    + apply Hnew. destruct Hw as (Hin & Haw & Hmin).
      assert (Hsub : forall x, x ∈ pre -> x ∈ pre ++ [c]) by (intros x Hx; apply elem_of_app; by left).
      assert (Hc : c ∈ pre ++ [c]) by (apply elem_of_app; right; by apply list_elem_of_singleton).
      destruct (lessBinding c w) eqn:El.
      * split; [done|]. split; [done|]. intros x Hx Hax. apply elem_of_app in Hx as [Hx| ->%list_elem_of_singleton]; [|by left].
        right. destruct (Hmin x Hx Hax) as [->|]; [done|]. by eapply lessBinding_trans.
      * split; [auto|]. split; [done|]. intros x Hx Hax. apply elem_of_app in Hx as [Hx| ->%list_elem_of_singleton]; [auto|].
        destruct (decide (binding_uid c = binding_uid w)) as [Hu|Hu].
        { left. apply (distinct_uid_eq ((pre ++ [c]) ++ items)); [done|apply elem_of_app; by left|apply elem_of_app; left; auto|done]. }
        right. by destruct (lessBinding_total c w Hu); [congruence|].
    + apply Hnew. split; [apply elem_of_app; right; by apply list_elem_of_singleton|]. split; [done|].
      intros x [Hx|Hx]%elem_of_app Hax; [by rewrite (Hw x Hx) in Hax|left; by apply list_elem_of_singleton].
  - apply IH; [done|]. destruct w as [w|].
    + destruct Hw as (Hin & Haw & Hmin). split; [apply elem_of_app; by left|]. split; [done|].
      intros x [Hx| ->%list_elem_of_singleton]%elem_of_app Hax; [auto|congruence].
    + intros x [Hx| ->%list_elem_of_singleton]%elem_of_app; auto.
Qed.

Lemma pickWinner_spec items :
  distinct_uids items ->
  match pickWinner items with
  | Some w => is_winner items w
  | None => forall c, c ∈ items -> alive c = false
  end.
Proof. intros Hd. apply (pick_from_spec items [] None Hd). by intros c ?%elem_of_nil. Qed.

Lemma winner_unique items w w' : is_winner items w -> is_winner items w' -> w = w'.
Proof.
  intros (H1 & A1 & M1) (H2 & A2 & M2). destruct (M1 w' H2 A2) as [|L1]; [done|]. destruct (M2 w H1 A1) as [|L2]; [done|].
  pose proof (lessBinding_trans _ _ _ L1 L2) as Hl. by rewrite lessBinding_irrefl in Hl.
Qed.

(** *** Conditions of a binding *)

Section conditions.
  Context `{KL : KubeLibLaws}.

Definition ab_shown (b : AliyunCertificateBinding) (t : string) : option (ConditionStatus * string * string * Z) :=
  shown (bs_conditions (ab_status b)) t.

Lemma ab_shown_set_same b t s r m :
  ab_shown (setBindingCondition b t s r m) t = Some (s, r, m, om_generation (ab_meta b)).
Proof. unfold ab_shown, setBindingCondition. cbn. apply shown_set_same. Qed.

Lemma ab_shown_set_other b t t' s r m : t' <> t -> ab_shown (setBindingCondition b t s r m) t' = ab_shown b t'.
Proof. intros H. unfold ab_shown, setBindingCondition. cbn. by apply shown_set_other. Qed.

Lemma bindingCondTrue_shown b t :
  bindingCondTrue b t = match ab_shown b t with Some (s, _, _, _) => bool_decide (s = CondTrue) | None => false end.
Proof. apply is_true_shown. Qed.

Lemma bindingCondReason_shown b t :
  bindingCondReason b t = match ab_shown b t with Some (_, r, _, _) => r | None => "" end.
Proof. unfold bindingCondReason, ab_shown, shown. by destruct (FindStatusCondition _ t). Qed.

Lemma bindingCondTrue_set_same b t s r m : bindingCondTrue (setBindingCondition b t s r m) t = bool_decide (s = CondTrue).
Proof. by rewrite bindingCondTrue_shown, ab_shown_set_same. Qed.

Lemma bindingCondTrue_set_other b t t' s r m :
  t' <> t -> bindingCondTrue (setBindingCondition b t s r m) t' = bindingCondTrue b t'.
Proof. intros H. by rewrite !bindingCondTrue_shown, ab_shown_set_other. Qed.

(** everything of a binding but its conditions *)
Definition but_bconditions (b : AliyunCertificateBinding) : AliyunCertificateBinding := on_bstatus (set_bs_conditions []) b.

Lemma setBindingCondition_rest b t s r m : but_bconditions (setBindingCondition b t s r m) = but_bconditions b.
Proof. done. Qed.

Lemma aggregateBindingReady_rest b : but_bconditions (aggregateBindingReady b) = but_bconditions b.
Proof. unfold aggregateBindingReady. by destruct (_ && _). Qed.

Lemma aggregateBindingReady_other b t : t <> ConditionReady -> ab_shown (aggregateBindingReady b) t = ab_shown b t.
Proof. intros H. unfold aggregateBindingReady. destruct (_ && _); by rewrite ab_shown_set_other. Qed.

Lemma aggregateBindingReady_true b :
  bindingCondTrue (aggregateBindingReady b) ConditionReady = bindingCondTrue b ConditionApplied && negb (bindingCondTrue b ConditionConflict).
Proof.
  unfold aggregateBindingReady. destruct (bindingCondTrue b ConditionApplied && _); by rewrite bindingCondTrue_set_same.
Qed.

End conditions.

Lemma recordBindingMetrics_reports `{KubeLib} rd : all_calls is_report (recordBindingMetrics rd).
Proof. by repeat split. Qed.

Lemma patchBinding_wp `{KubeLib} (E : environment) (P : policy) h rd (Q : goerr + AliyunCertificateBinding -> history -> Prop) :
  (forall h o, is_report o -> P h o) ->
  (forall h1, only_since is_report h h1 -> P h1 (OPatchBindingStatus (rd_b rd) (rd_orig rd))) ->
  (forall h1 r, only_since is_report h h1 -> E h1 (OPatchBindingStatus (rd_b rd) (rd_orig rd)) r ->
    Q r (Ev (OPatchBindingStatus (rd_b rd) (rd_orig rd)) r :: h1)) ->
  twp E P h (patchBinding rd) Q.
Proof.
  intros Hrep Hp HQ. unfold patchBinding, patchBindingStatus. twp_step.
  eapply twp_post; [apply (all_calls_twp is_report); [apply recordBindingMetrics_reports|done]|].
  intros ? h1 Hs. cbn beta in Hs. split; [by apply Hp|]. intros r Hr. by apply HQ.
Qed.

(** *** Target keys *)

(** the cloud resource a well-formed target names *)
Definition target_parts (b : AliyunCertificateBinding) : option (list string) :=
  let t := ab_target b in
  if String.eqb (bt_type t) TargetTypeFC3CustomDomain then
    fc ← bt_fc3 t; Some [bt_type t; fc_region fc; fc_domain_name fc]
  else if String.eqb (bt_type t) TargetTypeOSSCustomDomain then
    o ← bt_oss t; Some [bt_type t; oss_region o; oss_bucket o; oss_domain_name o]
  else None.

Lemma TargetKey_parts b : TargetKey b = match target_parts b with Some l => join "/" l | None => "" end.
Proof.
  unfold TargetKey, target_parts. destruct (String.eqb _ TargetTypeFC3CustomDomain); [by destruct (bt_fc3 _)|].
  destruct (String.eqb _ TargetTypeOSSCustomDomain); [by destruct (bt_oss _)|done].
Qed.

Lemma target_parts_shape b l : target_parts b = Some l ->
  exists x l', l = bt_type (ab_target b) :: x :: l' /\ bt_type (ab_target b) <> "".
Proof.
  unfold target_parts. destruct (String.eqb_spec (bt_type (ab_target b)) TargetTypeFC3CustomDomain) as [E|_].
  - destruct (bt_fc3 _); [|done]. intros [= <-]. rewrite E. eauto.
  - destruct (String.eqb_spec (bt_type (ab_target b)) TargetTypeOSSCustomDomain) as [E|_]; [|done].
    destruct (bt_oss _); [|done]. intros [= <-]. rewrite E. eauto.
Qed.

Lemma TargetKey_empty b : TargetKey b = "" <-> target_parts b = None.
Proof.
  rewrite TargetKey_parts. destruct (target_parts b) as [l|] eqn:E; [|done]. split; [|done].
  destruct (target_parts_shape b l E) as (x & l' & -> & Hn). intros H. exfalso.
  change (join "/" (bt_type (ab_target b) :: x :: l')) with (bt_type (ab_target b) +:+ "/" +:+ join "/" (x :: l')) in H.
  by destruct (bt_type (ab_target b)).
Qed.

(** the key determines its parts, where no part has a slash *)
Lemma TargetKey_inj b b' l l' :
  target_parts b = Some l -> target_parts b' = Some l' -> slash_free l -> slash_free l' ->
  (TargetKey b = TargetKey b' <-> l = l').
Proof.
  intros Hb Hb' Hl Hl'. rewrite !TargetKey_parts, Hb, Hb'. split; [|by intros ->].
  destruct (target_parts_shape b l Hb) as (x & t & -> & _), (target_parts_shape b' l' Hb') as (x' & t' & -> & _).
  by apply (join_inj "/").
Qed.

(** a target that is not well formed is in no index, and conflicts with nothing *)
Lemma malformed_free b : target_parts b = None -> bindingTargetIndex b = [] /\ arbitrate b = Ret (inr b).
Proof. intros H%TargetKey_empty. unfold bindingTargetIndex, arbitrate. by rewrite H. Qed.

(** all that the arbitration reads of a candidate *)
Definition same_rank (a b : AliyunCertificateBinding) : Prop :=
  binding_uid a = binding_uid b /\ om_creation (ab_meta a) = om_creation (ab_meta b) /\
  om_deletion (ab_meta a) = om_deletion (ab_meta b).

Lemma pick_from_rank items items' w w' :
  Forall2 same_rank items items' -> option_Forall2 same_rank w w' ->
  option_Forall2 same_rank (pick_from w items) (pick_from w' items').
Proof.
  intros Hl. revert w w'. induction Hl as [|a b items items' Hab _ IH]; intros w w' Hw; [done|]. cbn [pick_from].
  destruct Hab as (Hu & Hc & Hd). rewrite <-Hd. destruct (negb _); [by apply IH|]. destruct Hw as [v v' Hv|]; apply IH; constructor; [|done].
  assert (Hless : lessBinding a v = lessBinding b v').
  { unfold lessBinding. destruct Hv as (Hu' & Hc' & _). unfold binding_uid in *. by rewrite Hu, Hc, Hu', Hc'. }
  rewrite Hless. by destruct (lessBinding b v').
Qed.

Lemma pickWinner_rank items items' : Forall2 same_rank items items' ->
  binding_uid <$> pickWinner items = binding_uid <$> pickWinner items'.
Proof.
  intros Hl. pose proof (pick_from_rank items items' None None Hl ltac:(constructor)) as H. unfold pickWinner.
  destruct H as [v v' [Hu _]|]; [|done]. cbn. by rewrite Hu.
Qed.

Lemma pickWinner_perm (items items' : list AliyunCertificateBinding) :
  distinct_uids items -> items ≡ₚ items' ->
  pickWinner items = pickWinner items' /\
  match pickWinner items with
  | Some w => is_winner items w
  | None => forall c, c ∈ items -> alive c = false
  end.
Proof.
  intros Hd Hp. assert (Hd' : distinct_uids items') by (unfold distinct_uids; by rewrite <-Hp).
  pose proof (pickWinner_spec items Hd) as H. pose proof (pickWinner_spec items' Hd') as H'. split; [|done].
  assert (Hw : forall w, is_winner items w <-> is_winner items' w).
  { intros w. unfold is_winner. setoid_rewrite Hp. done. }
  destruct (pickWinner items) as [w|], (pickWinner items') as [w'|]; try done.
  - f_equal. apply (winner_unique items'); [by apply Hw|done].
  - destruct H as (Hin & Ha & _). rewrite Hp in Hin. by rewrite (H' w Hin) in Ha.
  - destruct H' as (Hin & Ha & _). rewrite <-Hp in Hin. by rewrite (H w' Hin) in Ha.
Qed.

(** ** Properties *)

(** C27: arbitration does not depend on the order in which a replica sees the candidates:
    of the bindings of a target, seen in any order, the same one wins, and it is the
    one that no other live candidate precedes in the total order by creation time and
    UID; there is no winner exactly when all candidates are being deleted. *)
Theorem arbitration_is_deterministic (items items' : list AliyunCertificateBinding) :
  distinct_uids items -> items ≡ₚ items' ->
  pickWinner items = pickWinner items' /\
  match pickWinner items with
  | Some w => is_winner items w
  | None => forall c, c ∈ items -> alive c = false
  end.
Proof. apply pickWinner_perm. Qed.

Definition sample_peer (name uid : string) (created : gotime) (deleting : bool) : AliyunCertificateBinding :=
  set_ab_meta (mkObjectMeta "prod" name uid "7" 3 created (if deleting then Some 5%Z else None) [FinalizerName] ∅ ∅)
    (sample_binding_for sample_fc3_target).

(** three candidates: the oldest is being deleted, the others are of the same second *)
Lemma arbitration_is_deterministic_witness :
  let a := sample_peer "a" "uid-9" 100 false in
  let b := sample_peer "b" "uid-2" 100 false in
  let c := sample_peer "c" "uid-1" 50 true in
  pickWinner [a; b; c] = Some b /\ pickWinner [a; b; c] = pickWinner [c; b; a].
Proof.
  intros a b c. split; [vm_compute; reflexivity|].
  apply (arbitration_is_deterministic [a; b; c] [c; b; a]).
  - apply (bool_decide_unpack (NoDup (binding_uid <$> [a; b; c]))). vm_compute. exact I.
  - change [a; b; c] with ([a; b] ++ [c]). rewrite Permutation_app_comm. cbn. apply perm_skip, perm_swap.
Defined.

(** Ready of a binding is Applied and not Conflict, computed without touching
    anything else; when it is False it carries the reason of the conflict, or else
    the reason of Applied, or ObserveFailed when nothing was ever applied. *)
Theorem aggregateBindingReady_spec `{KL : KubeLibLaws} (b : AliyunCertificateBinding) :
  bindingCondTrue (aggregateBindingReady b) ConditionReady =
    bindingCondTrue b ConditionApplied && negb (bindingCondTrue b ConditionConflict) /\
  but_bconditions (aggregateBindingReady b) = but_bconditions b /\
  (forall t, t <> ConditionReady -> ab_shown (aggregateBindingReady b) t = ab_shown b t) /\
  (forall r m g, ab_shown b ConditionConflict = Some (CondTrue, r, m, g) ->
     ab_shown (aggregateBindingReady b) ConditionReady = Some (CondFalse, r, "", om_generation (ab_meta b))) /\
  (forall s r m g, bindingCondTrue b ConditionConflict = false ->
     ab_shown b ConditionApplied = Some (s, r, m, g) -> s <> CondTrue -> r <> "" ->
     ab_shown (aggregateBindingReady b) ConditionReady = Some (CondFalse, r, "", om_generation (ab_meta b))) /\
  (bindingCondTrue b ConditionConflict = false -> ab_shown b ConditionApplied = None ->
     ab_shown (aggregateBindingReady b) ConditionReady = Some (CondFalse, ReasonObserveFailed, "", om_generation (ab_meta b))).
Proof.
  split; [apply aggregateBindingReady_true|]. split; [apply aggregateBindingReady_rest|].
  split; [apply aggregateBindingReady_other|]. unfold aggregateBindingReady. rewrite !bindingCondReason_shown. split; [|split].
  - intros r m g Hc. assert (Ht : bindingCondTrue b ConditionConflict = true) by (by rewrite bindingCondTrue_shown, Hc).
    by rewrite Ht, andb_false_r, ab_shown_set_same, Hc.
  - intros s r m g Hc Ha Hs Hr. rewrite Hc. assert (Ht : bindingCondTrue b ConditionApplied = false).
    { rewrite bindingCondTrue_shown, Ha. by apply bool_decide_eq_false. }
    rewrite Ht. cbn [andb]. rewrite ab_shown_set_same, Ha. by rewrite (proj2 (String.eqb_neq _ _)).
  - intros Hc Ha. rewrite Hc. rewrite (bindingCondTrue_shown b ConditionApplied), Ha. cbn [andb].
    by rewrite ab_shown_set_same.
Qed.

Lemma aggregateBindingReady_spec_witness :
  let K := ref_kube 0 in
  let b := on_bstatus (set_bs_conditions [sample_cond ConditionApplied CondTrue ReasonApplied;
             sample_cond ConditionConflict CondTrue ReasonAccountMismatch]) (sample_binding_for sample_fc3_target) in
  bindingCondTrue (aggregateBindingReady b) ConditionReady = false /\
  ab_shown (aggregateBindingReady b) ConditionReady = Some (CondFalse, ReasonAccountMismatch, "", 3%Z).
Proof.
  intros K b. pose proof (@aggregateBindingReady_spec (ref_kube 0) (ref_kube_laws 0) b) as (H1 & _ & _ & H2 & _).
  split; [exact H1|]. eapply H2. reflexivity.
Defined.
