(* ===== verification/BindingMaterial.v ===== *)
(** * Material and identity of a binding (binding_material.go, binding_identity.go) *)
From S2P Require Import Prelude GoString GoTime Api GoError Cloud KubeLib Effects Naming Bundle Sans Samples CertStatus.
From S2P Require Import CertMaterial CertUpload Provider ProviderFC3 ProviderOSS Clients BindingStatus.

#[local] Open Scope prog_scope.

(** ** Definitions *)

(** *** binding_material.go *)

Definition certificateGateRequeue : duration := 30 * second.

(** the generation the status vouches for, when it is the one of fingerprint [fp] *)
Definition current_of (ac : AliyunCertificate) (fp : string) : option CertificateGeneration :=
  match as_current (ac_status ac) with
  | Some cur => if String.eqb (gen_fingerprint cur) fp then Some cur else None
  | None => None
  end.

Section material.
  Context `{Cr : Crypto}.

(** the material made of a bundle and its encoded key *)
Definition material_of (ac : AliyunCertificate) (b : Bundle) (keyPEM : string) : CertMaterial :=
  let cur := current_of ac (b_fingerprint b) in
  {| cm_fingerprint := b_fingerprint b;
     cm_cert_pem := CertPEM b;
     cm_key_pem := keyPEM;
     cm_cert_id := c ← cur; gen_cert_id c;
     cm_cas_name := match cur with
                    | Some c => if String.eqb (gen_cas_name c) "" then CASName (ac_name ac) (b_fingerprint b) else gen_cas_name c
                    | None => CASName (ac_name ac) (b_fingerprint b)
                    end;
     cm_not_after := x_not_after (b_leaf b);
     cm_dns_names := DNSNames b;
     cm_cas_region := EffectiveCASRegion (ac_aliyun ac) |}.

Definition loadBindingMaterial (ac : AliyunCertificate) : prog (materialError + CertMaterial) :=
  let! r := loadBundle (ac_namespace ac) (servingSecretName ac (as_secret_name (ac_status ac))) in
  Ret match r with
      | inl me => inl me
      | inr b =>
          match KeyPEM b with
          | inl e => inl (mkMaterialError ReasonSecretInvalid (err_text e))
          | inr keyPEM => inr (material_of ac b keyPEM)
          end
      end.

End material.

Definition requiredDomainsOf (b : AliyunCertificateBinding) : list string :=
  let t := ab_target b in
  match bt_fc3 t, bt_oss t with
  | Some fc, _ =>
      if String.eqb (bt_type t) TargetTypeFC3CustomDomain then [fc_domain_name fc]
      else if String.eqb (bt_type t) TargetTypeOSSCustomDomain then
        match bt_oss t with Some o => [oss_domain_name o] | None => [] end
      else []
  | None, Some o => if String.eqb (bt_type t) TargetTypeOSSCustomDomain then [oss_domain_name o] else []
  | None, None => []
  end.

Definition checkDomainCoverage (m : CertMaterial) (b : AliyunCertificateBinding) : option materialError :=
  match requiredDomainsOf b with
  | [] => None
  | required =>
      match Missing (cm_dns_names m) required with
      | [] => None
      | missing => Some (mkMaterialError ReasonDomainNotCovered ("证书未覆盖目标域名: " +:+ join ", " missing))
      end
  end.

Definition certificateGate (m : CertMaterial) (ac : AliyunCertificate) : bool :=
  match as_current (ac_status ac) with
  | Some cur => String.eqb (gen_fingerprint cur) (cm_fingerprint m)
  | None => false
  end.

(** *** binding_identity.go *)

Record certIdentity : Type := mkCertIdentity {
  id_want : string;
  id_current : string;
  id_applied : string;
  id_by_ref : bool
}.

Section identity.
  Context (reg : registry).

Definition capabilitiesOf (b : AliyunCertificateBinding) : Capabilities :=
  match Get (bt_type (ab_target b)) reg with
  | Some p => pv_capabilities p
  | None => mkCapabilities false false false
  end.

Definition identityOf (b : AliyunCertificateBinding) (obs : ObservedState) (m : CertMaterial) : certIdentity :=
  if cap_references_cert_by_id (capabilitiesOf b) then
    mkCertIdentity (CASCertRef m) (ob_current_cert_ref obs) (bs_applied_cert_ref (ab_status b)) true
  else mkCertIdentity (cm_fingerprint m) (ob_current_fingerprint obs) (bs_applied_fingerprint (ab_status b)) false.

End identity.

Definition ensureHTTPSOf (b : AliyunCertificateBinding) : bool :=
  match bt_fc3 (ab_target b) with Some fc => fc_ensure_https fc | None => false end.

Definition casUploadRequiredMessage : string :=
  "目标类型要求证书上传到 CAS，请把 AliyunCertificate 的 spec.aliyun.uploadToCAS 设为 true".
Definition casCertIDPendingMessage : string := "证书尚未取得 CAS certId".

(** an empty reason lets the round pass *)
Definition casUploadGate (caps : Capabilities) (ac : AliyunCertificate) (m : CertMaterial) : string * string :=
  if negb (cap_requires_cas_upload caps) then ("", "")
  else if negb (UploadEnabled (ac_aliyun ac)) then (ReasonCASUploadRequired, casUploadRequiredMessage)
  else match cm_cert_id m with
       | None => (ReasonCertificateNotReady, casCertIDPendingMessage)
       | Some _ => ("", "")
       end.

(** the zero CertMaterial *)
Definition no_material : CertMaterial := mkCertMaterial "" "" "" None "" time_zero [] "".

(** ** Lemmas *)

(** a well-formed target, as the CRD's rules admit it: the block of its type only *)
Definition well_formed (b : AliyunCertificateBinding) : Prop :=
  (bt_type (ab_target b) = TargetTypeFC3CustomDomain /\ is_Some (bt_fc3 (ab_target b)) /\ bt_oss (ab_target b) = None) \/
  (bt_type (ab_target b) = TargetTypeOSSCustomDomain /\ is_Some (bt_oss (ab_target b)) /\ bt_fc3 (ab_target b) = None).

Lemma coverage_spec m b :
  checkDomainCoverage m b = None <->
  forall d, d ∈ requiredDomainsOf b -> exists n, n ∈ cm_dns_names m /\ Covers n d = true.
Proof.
  rewrite <-Missing_nil. unfold checkDomainCoverage. destruct (requiredDomainsOf b) as [|d l] eqn:E; [done|].
  destruct (Missing (cm_dns_names m) (d :: l)); naive_solver.
Qed.

(** the provider is given the domain whose coverage was checked *)
Lemma required_is_target reg b tg : targetOf reg b = inr tg -> requiredDomainsOf b = [tg_identifier tg].
Proof.
  unfold targetOf, requiredDomainsOf. destruct (String.eqb_spec (bt_type (ab_target b)) TargetTypeFC3CustomDomain) as [->|].
  - destruct (bt_fc3 (ab_target b)); [|done]. by intros [= <-].
  - destruct (String.eqb_spec (bt_type (ab_target b)) TargetTypeOSSCustomDomain) as [->|]; [|done].
    destruct (bt_oss (ab_target b)); [|done]. intros [= <-]. by destruct (bt_fc3 (ab_target b)).
Qed.

Lemma certificateGate_spec m ac :
  certificateGate m ac = true <-> exists cur, as_current (ac_status ac) = Some cur /\ gen_fingerprint cur = cm_fingerprint m.
Proof.
  unfold certificateGate. destruct (as_current (ac_status ac)) as [cur|]; [|naive_solver].
  rewrite String.eqb_eq. naive_solver.
Qed.

Lemma casUploadGate_pass caps ac m :
  (casUploadGate caps ac m).1 = "" <->
  (cap_requires_cas_upload caps = true -> UploadEnabled (ac_aliyun ac) = true /\ is_Some (cm_cert_id m)).
Proof.
  unfold casUploadGate. destruct (cap_requires_cas_upload caps); cbn [negb]; [|naive_solver].
  destruct (UploadEnabled (ac_aliyun ac)); cbn [negb].
  - destruct (cm_cert_id m); cbn; [naive_solver|]. split; [done|]. intros H. by destruct (proj2 (H eq_refl)).
  - cbn. split; [done|]. intros H. by destruct (H eq_refl).
Qed.

Lemma loadBindingMaterial_calls `{Crypto} ac :
  all_calls (fun o => o = OGetSecret (ac_namespace ac) (servingSecretName ac (as_secret_name (ac_status ac)))) (loadBindingMaterial ac).
Proof. by repeat split. Qed.

Section good.
  Context `{CL : CryptoLaws}.

(** material made of a bundle that parsed from the Secret in service *)
Definition from_bundle (ac : AliyunCertificate) (m : CertMaterial) : Prop :=
  exists b kp, valid_bundle b /\ KeyPEM b = inr kp /\ m = material_of ac b kp.

Lemma loadBindingMaterial_from ac :
  returns (fun r => match r with inr m => from_bundle ac m | inl _ => True end) (loadBindingMaterial ac).
Proof.
  eapply returns_bind_post; [apply loadBundle_valid|]. intros [me|b] Hb; cbn; [done|].
  destruct (KeyPEM b) as [e|kp] eqn:E; [done|]. by exists b, kp.
Qed.

Lemma CASName_nonempty cr fp : CASName cr fp <> "".
Proof.
  rewrite CASName_eq. pose proof (cas_prefix_length cr) as [H _]. intros E.
  apply (f_equal String.length) in E. rewrite length_str_app in E. cbn in E. lia.
Qed.

Lemma from_bundle_name ac m : from_bundle ac m -> cm_cas_name m <> "".
Proof.
  intros (b & kp & _ & _ & ->). cbn. destruct (current_of ac (b_fingerprint b)) as [c|]; [|apply CASName_nonempty].
  destruct (String.eqb_spec (gen_cas_name c) ""); [apply CASName_nonempty|done].
Qed.

Lemma from_bundle_fingerprint ac m : from_bundle ac m -> LeafFingerprint (cm_cert_pem m) = inr (cm_fingerprint m).
Proof. intros (b & kp & Hv & _ & ->). by apply LeafFingerprint_CertPEM. Qed.

Lemma from_bundle_cert_id ac m id : from_bundle ac m -> cm_cert_id m = Some id ->
  exists cur, as_current (ac_status ac) = Some cur /\ gen_cert_id cur = Some id /\ gen_fingerprint cur = cm_fingerprint m.
Proof.
  intros (b & kp & _ & _ & ->). cbn. unfold current_of. destruct (as_current (ac_status ac)) as [cur|]; [|done].
  destruct (String.eqb_spec (gen_fingerprint cur) (b_fingerprint b)); [|done]. cbn. eauto.
Qed.

End good.

(** ** Properties *)

(** What a binding writes to the cloud comes from the Secret in service alone: the
    certificate bytes are the ones their fingerprint says, the key is the
    certificate's own, there is always a name for the cloud side, and a CAS
    certificate is referred to only if the certificate's status records it for this
    very generation, never for an earlier one. *)
Theorem loadBindingMaterial_spec `{CL : CryptoLaws} (ac : AliyunCertificate) :
  all_calls (fun o => o = OGetSecret (ac_namespace ac) (servingSecretName ac (as_secret_name (ac_status ac)))) (loadBindingMaterial ac) /\
  returns (fun r =>
    match r with
    | inr m =>
        LeafFingerprint (cm_cert_pem m) = inr (cm_fingerprint m) /\
        (exists b, valid_bundle b /\ ParseBundle (cm_cert_pem m) (cm_key_pem m) = inr b /\ b_fingerprint b = cm_fingerprint m /\
           cm_dns_names m = DNSNames b) /\
        cm_cas_name m <> "" /\ cm_cas_region m = EffectiveCASRegion (ac_aliyun ac) /\
        (forall id, cm_cert_id m = Some id -> exists cur, as_current (ac_status ac) = Some cur /\
           gen_cert_id cur = Some id /\ gen_fingerprint cur = cm_fingerprint m)
    | inl me => me_reason me = ReasonSecretNotFound \/ me_reason me = ReasonSecretInvalid
    end) (loadBindingMaterial ac).
Proof.
  split; [by repeat split|]. eapply returns_mono; [apply returns_and; [apply loadBindingMaterial_from|]|].
  - apply (returns_mono (fun r => match r with inl me => me_reason me = ReasonSecretNotFound \/ me_reason me = ReasonSecretInvalid | inr _ => True end)).
    + apply (returns_bind_post (fun r => match r with inl me => me_reason me = ReasonSecretNotFound \/ me_reason me = ReasonSecretInvalid | inr _ => True end)).
      * cbn. intros [e|s]; [destruct (IsNotFound e); auto|].
        match goal with |- match (match ?x with _ => _ end) with _ => _ end => destruct x as [e|b] end; [by right|done].
      * intros [me|b] Hm; [exact Hm|]. cbn [returns]. destruct (KeyPEM b); [by right|done].
    + intros r Hr. exact Hr.
  - intros [me|m] [Hf Hr]; [done|]. split; [by eapply from_bundle_fingerprint|]. split.
    { destruct Hf as (b & kp & Hv & Hk & ->). exists b. split; [done|]. split; [|done]. by apply ParseBundle_CertPEM. }
    split; [by eapply from_bundle_name|]. split; [by destruct Hf as (b & kp & _ & _ & ->)|].
    intros id. by apply (from_bundle_cert_id ac).
Qed.

(** the Secret holds a renewed certificate the status does not know yet: no certId *)
Lemma loadBindingMaterial_spec_witness :
  let ac := on_status (set_as_current (Some (sample_gen "old" (Some 7%Z) 0))) sample_ac in
  let w : handler unit := fun _ o => match o return resp o * unit with
    | OGetSecret _ n => (inr (sample_secret n "leaf"), tt) | o => (failed_resp o, tt) end in
  let run := exec w tt [] (@loadBindingMaterial toy_crypto ac) in
  match run.1.1 with
  | inr m => cm_cert_id m = None /\ @LeafFingerprint toy_crypto (cm_cert_pem m) = inr (cm_fingerprint m)
  | inl _ => False
  end.
Proof.
  intros ac w run. pose proof (twp_exec_any w _ [] tt _ _ (returns_twp any_env [] _ _
    (proj2 (@loadBindingMaterial_spec toy_crypto toy_crypto_laws ac)))) as H. cbv beta in H. fold run in H.
  assert (Hr : match run.1.1 with inr m => cm_cert_id m = None | inl _ => False end) by (vm_compute; reflexivity).
  destruct run.1.1 as [me|m]; [exact Hr|]. split; [exact Hr|exact (proj1 H)].
Defined.

(** the gates before a write: the domain handed to the provider is covered by the
    material's names, the certificate's status vouches for this very generation, and
    a target bound by reference has a certificate in CAS to refer to. *)
Theorem gates_spec (reg : registry) (b : AliyunCertificateBinding) (ac : AliyunCertificate) (m : CertMaterial) :
  (forall tg, targetOf reg b = inr tg -> checkDomainCoverage m b = None ->
     exists n, n ∈ cm_dns_names m /\ Covers n (tg_identifier tg) = true) /\
  (certificateGate m ac = true <-> exists cur, as_current (ac_status ac) = Some cur /\ gen_fingerprint cur = cm_fingerprint m) /\
  ((casUploadGate (capabilitiesOf reg b) ac m).1 = "" <->
     (cap_requires_cas_upload (capabilitiesOf reg b) = true -> UploadEnabled (ac_aliyun ac) = true /\ is_Some (cm_cert_id m))).
Proof.
  split; [|split; [apply certificateGate_spec|apply casUploadGate_pass]].
  intros tg Ht Hc. apply coverage_spec with (d := tg_identifier tg) in Hc; [done|].
  rewrite (required_is_target reg b tg Ht). by left.
Qed.
