(* ===== verification/BindingObserve.v ===== *)
(** * Observing and applying (binding_observe.go, binding_apply.go) *)
From S2P Require Import Prelude GoString GoTime Api GoError Cloud KubeLib Effects Bundle Samples CertStatus CertMaterial.
From S2P Require Import CertUpload Provider ProviderFC3 ProviderOSS Clients BindingStatus BindingMaterial.

#[local] Open Scope prog_scope.

(** ** Definitions *)

Definition targetNotFoundRequeue : duration := 5 * minute.
Definition credentialsRequeue : duration := 5 * minute.

Definition observeFailedMessage : string := "failed to observe the binding target; the applied state is unchanged".
Definition driftCorrectedMessage : string := "target certificate was changed outside the operator; re-applying".
Definition appliedMessage : string := "certificate applied to the binding target".
Definition applyFailedMessage : string := "failed to apply the certificate to the binding target".

Definition protocolSatisfied (obs : ObservedState) (ensureHTTPS : bool) : bool :=
  if negb ensureHTTPS then true
  else existsb (fun part => equal_fold (trim_space part) "HTTPS") (split "," (ob_protocol obs)).

(** [noteObserved] *)
Definition noteObserved (rd : bindingRound) : prog bindingRound :=
  let! now := call ONow in
  Ret (if match bs_last_observed (ab_status (rd_orig rd)) with
          | Some prev => (truncate_second prev =? truncate_second now)%Z
          | None => false
          end
       then rd
       else set_rd_b (on_bstatus (set_bs_last_observed (Some now)) (rd_b rd)) rd).

(** the first condition of type Applied gets another reason and message; nothing else
    of it changes *)
Fixpoint rewrite_applied (l : list Condition) : option (list Condition) :=
  match l with
  | [] => None
  | c :: l =>
      if of_type ConditionApplied c then
        Some (mkCondition (cond_type c) (cond_status c) ReasonObserveFailed "上一轮观测失败，保留既有判定"
                (cond_observed_generation c) (cond_last_transition c) :: l)
      else l' ← rewrite_applied l; Some (c :: l')
  end.

Definition noteObserveFailed (b : AliyunCertificateBinding) : bool * AliyunCertificateBinding :=
  match rewrite_applied (bs_conditions (ab_status b)) with
  | Some l => (true, on_bstatus (set_bs_conditions l) b)
  | None => (false, b)
  end.

Definition bindingApplyResult (err : option goerr) : string :=
  match err with
  | None => resultSuccess
  | Some e =>
      match ErrorOf e with
      | Some (code, _, _) => if String.eqb code CodeThrottled then resultThrottled else resultError
      | None => resultError
      end
  end.

(** [pe != nil && pe.Retryable] and the code of an error *)
Definition is_retryable (e : goerr) : bool :=
  match ErrorOf e with Some (_, retry, _) => retry | None => false end.
Definition has_code (code : string) (e : goerr) : bool :=
  match ErrorOf e with Some (c, _, _) => String.eqb c code | None => false end.
Definition reason_of (e : goerr) : string :=
  match ErrorOf e with Some (_, _, reason) => reason | None => "" end.

Section kube.
  Context `{K : KubeLib} (r : BindingReconciler).

Definition eventOnReasonChange (rd : bindingRound) (condType reason : string) (warning : bool)
    (eventReason message : string) : prog unit :=
  if String.eqb (bindingCondReason (rd_orig rd) condType) reason then Ret tt
  else Event (ab_meta (rd_b rd)) warning eventReason message.

Definition handleObserveError (rd : bindingRound) (err : goerr) : prog Result :=
  if has_code CodeTargetNotFound err then
    let b := setBindingCondition (rd_b rd) ConditionApplied CondFalse (reason_of err) "目标不存在" in
    patch_binding_and_return targetNotFoundRequeue (set_rd_b (aggregateBindingReady b) rd)
  else if has_code CodeAuth err then
    patch_binding_and_return credentialsRequeue
      (set_rd_b (setBindingReadyFalse (rd_b rd) (reason_of err) (err_text err)) rd)
  else
    let '(noted, b) := noteObserveFailed (rd_b rd) in
    let rd := set_rd_b b rd in
    do! if noted : bool then
          eventOnReasonChange rd ConditionApplied ReasonObserveFailed true ReasonObserveFailed observeFailedMessage
        else Ret tt in
    let! patched := patchBinding (set_rd_b (aggregateBindingReady b) rd) in
    Ret match patched with
        | inl perr => (0%Z, Some perr)
        | inr _ => if is_retryable err then (0%Z, Some err) else (br_drift_interval r, None)
        end.

Definition setFencedConflict (rd : bindingRound) : bindingRound :=
  let ltt :=
    match FindStatusCondition (bs_conditions (ab_status (rd_orig rd))) ConditionConflict with
    | Some prev =>
        if bool_decide (cond_status prev = CondTrue) && String.eqb (cond_reason prev) ReasonAccountMismatch
        then cond_last_transition prev else time_zero
    | None => time_zero
    end in
  let b := rd_b rd in
  set_rd_b (on_bstatus (fun s => set_bs_conditions (SetStatusCondition (bs_conditions s)
    (mkCondition ConditionConflict CondTrue ReasonAccountMismatch "目标所属账号与首次绑定时不一致"
       (om_generation (ab_meta b)) ltt)) s) b) rd.

(** [Some]: fenced *)
Definition fenceAccount (rd : bindingRound) (obs : ObservedState) : option bindingRound :=
  let bound := bs_bound_account (ab_status (rd_b rd)) in
  if String.eqb bound "" || String.eqb bound (ob_account_id obs) then None
  else Some (setFencedConflict rd).

Definition set_drifted (fp ref : string) : AliyunCertificateBinding -> AliyunCertificateBinding :=
  on_bstatus (fun s => set_bs_drifted_cert_ref ref (set_bs_drifted_fingerprint fp s)).

Definition noteDrift (rd : bindingRound) (obs : ObservedState) (m : CertMaterial) : prog bindingRound :=
  let id := identityOf (br_registry r) (rd_b rd) obs m in
  let cur := id_current id in
  if String.eqb cur "" || String.eqb cur (id_applied id) || String.eqb cur (id_want id) then
    Ret (set_rd_b (set_drifted "" "" (rd_b rd)) rd)
  else
    let s := ab_status (rd_orig rd) in
    let prev := if id_by_ref id then bs_drifted_cert_ref s else bs_drifted_fingerprint s in
    let rd :=
      if id_by_ref id then set_rd_b (on_bstatus (set_bs_drifted_cert_ref cur) (rd_b rd)) rd
      else set_rd_b (on_bstatus (set_bs_drifted_fingerprint cur) (rd_b rd)) rd in
    if String.eqb prev cur then Ret rd
    else
      do! call (OCounterInc metric_binding_drift [rd_provider rd]) in
      do! Event (ab_meta (rd_b rd)) true ReasonDriftCorrected driftCorrectedMessage in
      Ret rd.

(** *** binding_apply.go *)

Definition handleApplyError (rd : bindingRound) (err : goerr) : prog Result :=
  let reason := if negb (String.eqb (reason_of err) "") then reason_of err else ReasonApplyFailed in
  do! eventOnReasonChange rd ConditionApplied reason true ReasonApplyFailed applyFailedMessage in
  let b := aggregateBindingReady (setBindingCondition (rd_b rd) ConditionApplied CondFalse reason "写入目标失败") in
  let! patched := patchBinding (set_rd_b b rd) in
  Ret match patched with
      | inl perr => (0%Z, Some perr)
      | inr _ =>
          if is_retryable err then (0%Z, Some err)
          else if has_code CodeAuth err then (credentialsRequeue, None)
          else (br_drift_interval r, None)
      end.

Definition setApplied (rd : bindingRound) : prog bindingRound :=
  let was := bindingCondTrue (rd_b rd) ConditionApplied in
  let b := setBindingCondition (rd_b rd) ConditionApplied CondTrue ReasonApplied "" in
  do! if was then Ret tt else Event (ab_meta b) false ReasonApplied appliedMessage in
  Ret (set_rd_b b rd).

(** the status fields [freezeApplied] writes, the time of a write aside *)
Definition frozen (b : AliyunCertificateBinding) (obs : ObservedState) (m : CertMaterial) : AliyunCertificateBinding :=
  let b := on_bstatus (set_bs_applied_fingerprint (cm_fingerprint m)) b in
  let b := if cap_references_cert_by_id (capabilitiesOf (br_registry r) b)
           then on_bstatus (set_bs_applied_cert_ref (CASCertRef m)) b else b in
  set_drifted "" "" b.

Definition freezeApplied (rd : bindingRound) (obs : ObservedState) (m : CertMaterial) (wrote : bool) : prog bindingRound :=
  let b := frozen (rd_b rd) obs m in
  let! b :=
    if wrote then
      let! now := call ONow in
      Ret (on_bstatus (set_bs_last_applied (Some now)) b)
    else Ret b in
  let b := if String.eqb (bs_bound_account (ab_status b)) "" && negb (String.eqb (ob_account_id obs) "")
           then on_bstatus (set_bs_bound_account (ob_account_id obs)) b else b in
  setApplied (set_rd_lag 0 (set_rd_b b rd)).

End kube.

(** ** Lemmas *)

Section observing.
  Context `{KL : KubeLibLaws}.

Lemma rewrite_applied_find l l' : rewrite_applied l = Some l' ->
  (forall t, t <> ConditionApplied -> FindStatusCondition l' t = FindStatusCondition l t) /\
  exists c, FindStatusCondition l ConditionApplied = Some c /\
    FindStatusCondition l' ConditionApplied = Some (mkCondition (cond_type c) (cond_status c) ReasonObserveFailed
      "上一轮观测失败，保留既有判定" (cond_observed_generation c) (cond_last_transition c)).
Proof.
  setoid_rewrite find_first. revert l'. induction l as [|c l IH]; intros l'; cbn [rewrite_applied]; [done|].
  destruct (of_type ConditionApplied c) eqn:E.
  - intros [= <-]. cbn [List.find]. rewrite E. unfold of_type in E |- *. cbn [cond_type]. rewrite E.
    split; [|by eexists]. intros t Ht. apply String.eqb_eq in E. rewrite E. by rewrite (proj2 (String.eqb_neq _ _)) by done.
  - destruct (rewrite_applied l) as [l1|] eqn:E1; [|done]. cbn. intros [= <-]. destruct (IH l1 eq_refl) as [H1 H2].
    cbn [List.find]. rewrite E. split; [|done]. intros t Ht. destruct (of_type t c); [done|auto].
Qed.

Lemma rewrite_applied_none l : rewrite_applied l = None -> FindStatusCondition l ConditionApplied = None.
Proof.
  rewrite find_first. induction l as [|c l IH]; cbn [rewrite_applied List.find]; [done|].
  destruct (of_type ConditionApplied c); [done|]. destruct (rewrite_applied l); [done|]. auto.
Qed.

(** the verdict on the application: all of the condition but its reason and message *)
Definition applied_verdict (b : AliyunCertificateBinding) : option (ConditionStatus * Z * gotime) :=
  (fun c => (cond_status c, cond_observed_generation c, cond_last_transition c)) <$>
    FindStatusCondition (bs_conditions (ab_status b)) ConditionApplied.

(** the other verdicts, Ready aside *)
Definition other_verdicts (b b' : AliyunCertificateBinding) : Prop :=
  forall t, t <> ConditionApplied -> t <> ConditionReady ->
    FindStatusCondition (bs_conditions (ab_status b)) t = FindStatusCondition (bs_conditions (ab_status b')) t.

Lemma aggregate_find b t : t <> ConditionReady ->
  FindStatusCondition (bs_conditions (ab_status (aggregateBindingReady b))) t = FindStatusCondition (bs_conditions (ab_status b)) t.
Proof. intros Ht. unfold aggregateBindingReady. destruct (_ && _); unfold setBindingCondition; cbn; by rewrite find_set_other. Qed.

Lemma noteObserveFailed_find b :
  but_bconditions (noteObserveFailed b).2 = but_bconditions b /\ other_verdicts (noteObserveFailed b).2 b /\
  applied_verdict (noteObserveFailed b).2 = applied_verdict b /\
  ((noteObserveFailed b).1 = true <-> is_Some (FindStatusCondition (bs_conditions (ab_status b)) ConditionApplied)) /\
  ((noteObserveFailed b).1 = true -> bindingCondReason (noteObserveFailed b).2 ConditionApplied = ReasonObserveFailed).
Proof.
  unfold noteObserveFailed, applied_verdict, bindingCondReason. destruct (rewrite_applied (bs_conditions (ab_status b))) as [l|] eqn:E; cbn.
  - apply rewrite_applied_find in E as (H & c & H1 & H2). rewrite H1, H2. split; [done|]. split; [intros t Ht _; by apply H|]. done.
  - apply rewrite_applied_none in E. rewrite E. split; [done|]. split; [done|]. split; [done|]. split; [|done].
    split; [done|]. by intros [].
Qed.

End observing.

(** ** Properties *)

(** The account fence.  A target is fenced exactly when the binding has been applied
    in some account and the target is now in another one.  A fenced round touches
    nothing of the status but the conditions, says Conflict=True with AccountMismatch,
    makes Ready False for that reason, and keeps the transition time of a fence that
    was up in the round before, although the arbitration of this round has just taken
    the condition down. *)
Theorem fenceAccount_spec `{KL : KubeLibLaws} (rd : bindingRound) (obs : ObservedState) :
  let bound := bs_bound_account (ab_status (rd_b rd)) in
  (fenceAccount rd obs = None <-> bound = "" \/ bound = ob_account_id obs) /\
  forall rd', fenceAccount rd obs = Some rd' ->
    rd_orig rd' = rd_orig rd /\ but_bconditions (rd_b rd') = but_bconditions (rd_b rd) /\
    (forall t, t <> ConditionConflict -> ab_shown (rd_b rd') t = ab_shown (rd_b rd) t) /\
    bindingCondTrue (rd_b rd') ConditionConflict = true /\
    ab_shown (aggregateBindingReady (rd_b rd')) ConditionReady =
      Some (CondFalse, ReasonAccountMismatch, "", om_generation (ab_meta (rd_b rd))) /\
    forall up down,
      FindStatusCondition (bs_conditions (ab_status (rd_orig rd))) ConditionConflict = Some up ->
      cond_status up = CondTrue -> cond_reason up = ReasonAccountMismatch -> time_is_zero (cond_last_transition up) = false ->
      FindStatusCondition (bs_conditions (ab_status (rd_b rd))) ConditionConflict = Some down -> cond_status down = CondFalse ->
      cond_last_transition <$> FindStatusCondition (bs_conditions (ab_status (rd_b rd'))) ConditionConflict =
        Some (cond_last_transition up).
Proof.
  cbv zeta. unfold fenceAccount. split.
  { destruct (String.eqb_spec (bs_bound_account (ab_status (rd_b rd))) "") as [|N1]; cbn [orb]; [by split; [left|]|].
    destruct (String.eqb_spec (bs_bound_account (ab_status (rd_b rd))) (ob_account_id obs)) as [|N2]; [by split; [right|]|].
    split; [done|]. by intros []. }
  intros rd'. destruct (_ || _); [done|]. intros [= <-]. unfold setFencedConflict.
  match goal with |- context [mkCondition _ _ _ _ _ ?x] => set (ltt := x) end.
  split; [done|]. split; [done|]. split.
  { intros t Ht. unfold ab_shown. cbn. by apply shown_set_other. }
  assert (Hc : forall b m g, b = rd_b rd -> ab_shown (on_bstatus (fun s => set_bs_conditions (SetStatusCondition (bs_conditions s)
      (mkCondition ConditionConflict CondTrue ReasonAccountMismatch m g ltt)) s) b) ConditionConflict =
      Some (CondTrue, ReasonAccountMismatch, m, g)).
  { intros b m g ->. unfold ab_shown. cbn. apply shown_set_same. }
  split; [rewrite bindingCondTrue_shown; cbn [rd_b set_rd_b]; by rewrite Hc|]. split.
  { unfold aggregateBindingReady. cbn [rd_b set_rd_b]. rewrite (bindingCondTrue_shown _ ConditionConflict), Hc by done.
    cbn [negb]. rewrite andb_false_r, ab_shown_set_same. by rewrite bindingCondReason_shown, Hc. }
  intros up down Hup Hs Hr Hz Hdown Hd. cbn.
  assert (ltt = cond_last_transition up) as ->.
  { unfold ltt. rewrite Hup, Hs, Hr. by rewrite bool_decide_eq_true_2, String.eqb_refl. }
  match goal with |- context [SetStatusCondition ?l ?c] => change ConditionConflict with (cond_type c) at 2 end.
  erewrite (set_ltt_given _ _ down); [done|exact Hdown|by rewrite Hd|exact Hz].
Qed.

Lemma fenceAccount_spec_witness :
  let up := mkCondition ConditionConflict CondTrue ReasonAccountMismatch "" 3 77 in
  let down := mkCondition ConditionConflict CondFalse ReasonNoConflict "" 3 99 in
  let at_ c := on_bstatus (fun s => set_bs_bound_account "acct" (set_bs_conditions [c] s)) (sample_binding_for sample_fc3_target) in
  let rd := mkBindingRound (at_ down) (at_ up) TargetTypeFC3CustomDomain 0 in
  let obs := mkObserved "" "" "HTTPS" "other" in
  exists rd', @fenceAccount (ref_kube 50) rd obs = Some rd' /\
    cond_last_transition <$> @FindStatusCondition (ref_kube 50) (bs_conditions (ab_status (rd_b rd'))) ConditionConflict = Some 77%Z.
Proof.
  intros up down at_ rd obs. eexists. split; [reflexivity|].
  exact (proj2 (proj2 (proj2 (proj2 (proj2 (proj2 (@fenceAccount_spec (ref_kube 50) (ref_kube_laws 50) rd obs) _ eq_refl)))))
    up down eq_refl eq_refl eq_refl eq_refl eq_refl eq_refl).
Defined.

(** Drift is reported once.  When the target holds a certificate that is neither the
    one last applied nor the wanted one, its identity is recorded in the status, with
    a warning event and a count exactly when the record of the round before was
    another; otherwise the record is cleared without a word.  Nothing else of the
    binding changes. *)
Theorem noteDrift_spec `{K : KubeLib} (r : BindingReconciler) (rd : bindingRound) (obs : ObservedState) (m : CertMaterial)
    (h : history) :
  let id := identityOf (br_registry r) (rd_b rd) obs m in
  let cur := id_current id in
  let foreign := cur <> "" /\ cur <> id_applied id /\ cur <> id_want id in
  let recorded s := if id_by_ref id then bs_drifted_cert_ref s else bs_drifted_fingerprint s in
  twp any_env any_call h (noteDrift r rd obs m) (fun rd' h' =>
    rd' = set_rd_b (set_drifted (bs_drifted_fingerprint (ab_status (rd_b rd'))) (bs_drifted_cert_ref (ab_status (rd_b rd'))) (rd_b rd)) rd /\
    (~ foreign /\ h' = h /\ bs_drifted_fingerprint (ab_status (rd_b rd')) = "" /\ bs_drifted_cert_ref (ab_status (rd_b rd')) = "" \/
     foreign /\ recorded (ab_status (rd_b rd')) = cur /\
       h' = if String.eqb (recorded (ab_status (rd_orig rd))) cur then h
            else Ev (OEvent (ab_namespace (rd_b rd)) (ab_name (rd_b rd)) true ReasonDriftCorrected driftCorrectedMessage) tt
                 :: Ev (OCounterInc metric_binding_drift [rd_provider rd]) tt :: h)).
Proof.
  cbv zeta. unfold noteDrift. cbv zeta. set (id := identityOf _ _ _ _).
  assert (Hset : forall fp ref, set_rd_b (set_drifted fp ref (rd_b rd)) rd =
    set_rd_b (set_drifted (bs_drifted_fingerprint (ab_status (set_drifted fp ref (rd_b rd))))
      (bs_drifted_cert_ref (ab_status (set_drifted fp ref (rd_b rd)))) (rd_b rd)) rd) by done.
  destruct (String.eqb_spec (id_current id) "") as [E1|N1]; cbn [orb].
  { split; [apply Hset|]. left. by split; [intros []|]. }
  destruct (String.eqb_spec (id_current id) (id_applied id)) as [E2|N2]; cbn [orb].
  { split; [apply Hset|]. left. by split; [intros (_ & ? & _)|]. }
  destruct (String.eqb_spec (id_current id) (id_want id)) as [E3|N3]; cbn [orb].
  { split; [apply Hset|]. left. by split; [intros (_ & _ & ?)|]. }
  assert (Hrd : forall rd', rd' = (if id_by_ref id then set_rd_b (on_bstatus (set_bs_drifted_cert_ref (id_current id)) (rd_b rd)) rd
      else set_rd_b (on_bstatus (set_bs_drifted_fingerprint (id_current id)) (rd_b rd)) rd) ->
    rd' = set_rd_b (set_drifted (bs_drifted_fingerprint (ab_status (rd_b rd'))) (bs_drifted_cert_ref (ab_status (rd_b rd'))) (rd_b rd)) rd /\
    (if id_by_ref id then bs_drifted_cert_ref (ab_status (rd_b rd')) else bs_drifted_fingerprint (ab_status (rd_b rd'))) = id_current id /\
    ab_meta (rd_b rd') = ab_meta (rd_b rd) /\ rd_provider rd' = rd_provider rd).
  { intros rd' ->. destruct rd as [[me sp []] orig pv lag]. by destruct (id_by_ref id). }
  match goal with |- context [if id_by_ref id then set_rd_b ?x rd else ?y] => set (rd' := if id_by_ref id then set_rd_b x rd else y) end.
  destruct (Hrd rd' eq_refl) as (H1 & H2 & H3 & H4).
  destruct (String.eqb_spec (if id_by_ref id then bs_drifted_cert_ref (ab_status (rd_orig rd)) else bs_drifted_fingerprint (ab_status (rd_orig rd)))
    (id_current id)) as [E|N].
  { split; [exact H1|]. right. by split. }
  unfold Event. cbn [bind call twp]. split; [exact I|]. intros [] _. split; [exact I|]. intros [] _.
  split; [exact H1|]. right. split; [done|]. split; [exact H2|]. unfold ab_namespace, ab_name. by rewrite H3, H4.
Qed.

(** C26: a failed observation is not a verdict.  Whatever the provider reports, the one
    status write that follows touches nothing but conditions, and of these leaves all
    but Ready alone, Applied included (its reason aside, which becomes ObserveFailed),
    unless the error says that the target does not exist: then Applied is False.
    Rejected credentials make Ready False and nothing else; in all other cases Ready
    is what the conditions say.  A retryable error goes back to the queue's backoff,
    the others wait for a fixed time. *)
Theorem handleObserveError_spec `{KL : KubeLibLaws} (r : BindingReconciler) (rd : bindingRound) (e : goerr) (h : history) :
  let gone := has_code CodeTargetNotFound e in
  let auth := negb gone && has_code CodeAuth e in
  twp any_env (fun _ o =>
    match o with
    | OPatchBindingStatus b base =>
        base = rd_orig rd /\ but_bconditions b = but_bconditions (rd_b rd) /\ other_verdicts b (rd_b rd) /\
        (if gone then ab_shown b ConditionApplied = Some (CondFalse, reason_of e, "目标不存在", om_generation (ab_meta (rd_b rd)))
         else applied_verdict b = applied_verdict (rd_b rd)) /\
        (if auth then ab_shown b ConditionReady = Some (CondFalse, reason_of e, err_text e, om_generation (ab_meta (rd_b rd)))
         else bindingCondTrue b ConditionReady = bindingCondTrue b ConditionApplied && negb (bindingCondTrue b ConditionConflict))
    | _ => is_report o
    end) h (handleObserveError r rd e) (fun res h' =>
      exists b base x h1, h' = Ev (OPatchBindingStatus b base) x :: h1 /\
        res = if gone then (targetNotFoundRequeue, err_of x)
              else if auth then (credentialsRequeue, err_of x)
              else match x with
                   | inl perr => (0%Z, Some perr)
                   | inr _ => if is_retryable e then (0%Z, Some e) else (br_drift_interval r, None)
                   end).
Proof.
  cbv zeta. unfold handleObserveError. destruct (has_code CodeTargetNotFound e) eqn:Eg; cbn [negb andb].
  { unfold patch_binding_and_return. twp_step. apply patchBinding_wp; [by intros ? []| |].
    - intros h1 _. cbn [rd_b rd_orig set_rd_b]. split; [done|]. split; [by rewrite aggregateBindingReady_rest|]. split.
      { intros t H1 H2. rewrite aggregate_find by done. unfold setBindingCondition. cbn. by rewrite find_set_other. }
      split; [rewrite aggregateBindingReady_other by done; apply ab_shown_set_same|].
      by rewrite aggregateBindingReady_true, !(bindingCondTrue_shown (aggregateBindingReady _)), !aggregateBindingReady_other, <-!bindingCondTrue_shown.
    - intros h1 x _ _. by eexists _, _, x, h1. }
  destruct (has_code CodeAuth e) eqn:Ea; cbn [negb andb].
  { unfold patch_binding_and_return. twp_step. apply patchBinding_wp; [by intros ? []| |].
    - intros h1 _. cbn [rd_b rd_orig set_rd_b]. split; [done|]. split; [done|]. unfold setBindingReadyFalse. split.
      { intros t H1 H2. unfold setBindingCondition. cbn. by rewrite find_set_other. }
      split; [unfold applied_verdict, setBindingCondition; cbn; by rewrite find_set_other|apply ab_shown_set_same].
    - intros h1 x _ _. by eexists _, _, x, h1. }
  destruct (noteObserveFailed_find (rd_b rd)) as (Hb & Ho & Hv & _). destruct (noteObserveFailed (rd_b rd)) as [noted b].
  cbn [fst snd] in *. cbv zeta. twp_step.
  eapply twp_post; [apply (all_calls_twp is_report); [|by intros ? []]|].
  { destruct noted; [|done]. unfold eventOnReasonChange. by destruct (String.eqb _ _). }
  intros _ h1 _. cbn beta. twp_step. apply patchBinding_wp; [by intros ? []| |].
  - intros h2 _. cbn [rd_b rd_orig set_rd_b]. split; [done|]. split; [by rewrite aggregateBindingReady_rest|]. split.
    { intros t H1 H2. rewrite aggregate_find by done. by apply Ho. }
    split; [rewrite <-Hv; unfold applied_verdict; by rewrite aggregate_find|].
    by rewrite aggregateBindingReady_true, !(bindingCondTrue_shown (aggregateBindingReady _)), !aggregateBindingReady_other, <-!bindingCondTrue_shown.
  - intros h2 x _ _. eexists _, _, x, h2. split; [done|]. by destruct x.
Qed.

(** an applied binding, and a timeout: Applied stays True under its old transition time *)
Lemma handleObserveError_spec_witness :
  let K := ref_kube 50 in
  let b := on_bstatus (set_bs_conditions [mkCondition ConditionApplied CondTrue ReasonApplied "" 3 77]) (sample_binding_for sample_fc3_target) in
  let rd := mkBindingRound b b TargetTypeFC3CustomDomain 0 in
  let r := mkBindingReconciler ∅ None (30 * minute) (1 * hour) "Abandon" in
  let w : handler unit := fun _ o => match o return resp o * unit with OPatchBindingStatus b _ => (inr b, tt) | o => (failed_resp o, tt) end in
  let run := exec w tt [] (handleObserveError r rd EDeadline) in
  (applied_verdict <$> match run.1.2 with Ev (OPatchBindingStatus b _) _ :: _ => Some b | _ => None end) = Some (Some (CondTrue, 3%Z, 77%Z)) /\
  exists b base x h1, run.1.2 = Ev (OPatchBindingStatus b base) x :: h1 /\
    run.1.1 = match x with inl perr => (0%Z, Some perr) | inr _ => (br_drift_interval r, None) end.
Proof.
  intros K b rd r w run. split; [vm_compute; reflexivity|].
  exact (twp_exec_any w _ [] tt _ _ (@handleObserveError_spec (ref_kube 50) (ref_kube_laws 50) r rd EDeadline [])).
Defined.
