(* ===== verification/BindingController.v ===== *)
(** * The binding controller (aliyuncertificatebinding_controller.go, binding_deletion.go)

    A round is threaded as a [bindingRound]; [inl] results of steps are errors. *)
From S2P Require Import Prelude GoString GoTime Api GoError Cloud KubeLib Effects Bundle Samples CertStatus CertMaterial.
From S2P Require Import CertUpload CertDeletion Provider ProviderFC3 ProviderOSS Clients BindingStatus BindingMaterial.
From S2P Require Import BindingObserve.

#[local] Open Scope prog_scope.

(** ** Definitions *)

Definition bindingCleanupAbandonedMessage : string :=
  "gave up unbinding the certificate from the target after the cleanup grace period; see operator logs".

Definition providerErrClass (err : goerr) : string :=
  match ErrorOf err with Some (code, _, _) => code | None => CodePermanent end.

Section controller.
  Context `{K : KubeLib} `{Cr : Crypto} (r : BindingReconciler).

Definition certIssued (ac : AliyunCertificate) : bool :=
  IsStatusConditionTrue (as_conditions (ac_status ac)) ConditionIssued.

Definition providerClient (b : AliyunCertificateBinding) (ac : option AliyunCertificate) :
    prog (goerr + (Provider * ProviderClient)) :=
  match br_provider_factory r with
  | None => Ret (inl (EText "ProviderFactory 未配置"))
  | Some f => f b ac
  end.

Definition handleFactoryError (rd : bindingRound) (err : goerr) : prog Result :=
  match errors_as is_credentials err with
  | Some (reason, ce) =>
      patch_binding_and_return credentialsRequeue (set_rd_b (setBindingReadyFalse (rd_b rd) reason (err_text ce)) rd)
  | None =>
      patch_binding_and_return credentialsRequeue
        (set_rd_b (setBindingReadyFalse (rd_b rd) ReasonApplyFailed (err_text err)) rd)
  end.

(** *** binding_deletion.go *)

Definition finishBindingDeletion (rd : bindingRound) : prog Result :=
  let b := set_ab_meta (RemoveFinalizer (ab_meta (rd_b rd)) FinalizerName) (rd_b rd) in
  let! up := call (OUpdateBinding b) in
  match IgnoreNotFound (err_of up) with
  | Some e => Ret (0%Z, Some e)
  | None =>
      let b := match up with inr b => b | inl _ => b end in
      do! clearBindingMetrics (ab_namespace b) (ab_name b) (rd_provider rd) in
      Ret (0%Z, None)
  end.

(** the target and the client of the unbinding *)
Definition unbind_client (b : AliyunCertificateBinding) : prog (goerr + (Provider * ProviderClient * Target)) :=
  let! got := call (OGetAC false (ab_namespace b) (abs_certificate_ref (ab_spec b))) in
  match (match got with
         | inr ac => inr (Some ac)
         | inl e => if IsNotFound e then inr None else inl e
         end) with
  | inl e => Ret (inl e)
  | inr ac =>
      try! pc := providerClient b ac in
      Ret match targetOf (br_registry r) b with inl e => inl e | inr tg => inr (pc, tg) end
  end.

Definition unbindTarget (rd : bindingRound) : prog (option goerr) :=
  let b := rd_b rd in
  let! got := unbind_client b in
  match got with
  | inl e => Ret (Some e)
  | inr (p, cl, tg) =>
      let! seen := pv_observe p tg cl in
      match seen with
      | inl e => Ret (if has_code CodeTargetNotFound e then None else Some e)
      | inr obs =>
          let bound := bs_bound_account (ab_status b) in
          if negb (String.eqb bound "") && negb (String.eqb bound (ob_account_id obs)) then Ret None
          else
            let id := identityOf (br_registry r) b obs no_material in
            if negb (String.eqb (id_current id) (id_applied id)) then Ret None
            else pv_cleanup p tg cl DeletionPolicyUnbind
      end
  end.

(** the start of the grace period, recorded once *)
Definition unbind_started (rd : bindingRound) : prog (goerr + bindingRound) :=
  match bs_cleanup_started (ab_status (rd_b rd)) with
  | Some _ => Ret (inr rd)
  | None =>
      let! now := call ONow in
      let rd := set_rd_b (on_bstatus (set_bs_cleanup_started (Some now)) (rd_b rd)) rd in
      try! b := patchBindingStatus rd in
      Ret (inr (set_rd_orig b (set_rd_b b rd)))
  end.

Definition unbind_failed (rd : bindingRound) (err : goerr) : prog Result :=
  let b := rd_b rd in
  let! now := call ONow in
  match bs_cleanup_started (ab_status b) with
  | None => Ret panicked
  | Some started =>
      if negb (shouldAbandonCleanup (br_cleanup_failure_policy r) (time_sub now started) (br_cleanup_grace_period r))
      then
        let rd := set_rd_b (setBindingReadyFalse b ReasonCleanupFailed ("解绑失败，重试中: " +:+ err_text err)) rd in
        let! patched := patchBindingStatus rd in
        match patched with
        | inl perr => Ret (0%Z, Some perr)
        | inr b => do! recordBindingReadiness (set_rd_b b rd) in Ret (0%Z, Some err)
        end
      else
        do! Event (ab_meta b) true ReasonCleanupAbandoned bindingCleanupAbandonedMessage in
        do! call (OCounterInc metric_cleanup_abandoned [targetRegion b; providerErrClass err]) in
        finishBindingDeletion rd
  end.

Definition reconcileBindingDelete (rd : bindingRound) : prog Result :=
  let b := rd_b rd in
  if negb (ContainsFinalizer (ab_meta b) FinalizerName) then Ret (0%Z, None)
  else if negb (String.eqb (abs_deletion_policy (ab_spec b)) DeletionPolicyUnbind) then finishBindingDeletion rd
  else if String.eqb (bs_applied_fingerprint (ab_status b)) "" then finishBindingDeletion rd
  else
    let! started := unbind_started rd in
    match started with
    | inl e => Ret (0%Z, Some e)
    | inr rd =>
        let! err := unbindTarget rd in
        match err with
        | None => finishBindingDeletion rd
        | Some e => unbind_failed rd e
        end
    end.

(** *** The steps of [reconcileBindingReady] *)

(** steps 3 to 3c: material and gates; [inl] is the object and the delay of an early return *)
Definition gated_material (b : AliyunCertificateBinding) (ac : AliyunCertificate) :
    prog ((AliyunCertificateBinding * duration) + CertMaterial) :=
  let! loaded := loadBindingMaterial ac in
  Ret match loaded with
      | inl me => inl (setBindingReadyFalse b (me_reason me) (me_message me), br_drift_interval r)
      | inr m =>
          match checkDomainCoverage m b with
          | Some me => inl (setBindingReadyFalse b (me_reason me) (me_message me), br_drift_interval r)
          | None =>
              if negb (certificateGate m ac) then
                inl (aggregateBindingReady (setBindingCondition b ConditionApplied CondFalse ReasonCertificateNotReady
                       "证书 CR 尚未认下 Secret 中的这一代"), certificateGateRequeue)
              else
                let '(reason, msg) := casUploadGate (capabilitiesOf (br_registry r) b) ac m in
                if negb (String.eqb reason "") then
                  inl (aggregateBindingReady (setBindingCondition b ConditionApplied CondFalse reason msg),
                       if String.eqb reason ReasonCertificateNotReady then certificateGateRequeue else br_drift_interval r)
                else inr m
          end
      end.

(** steps 6 to 8: the write *)
Definition apply_step (p : Provider) (cl : ProviderClient) (tg : Target) (rd : bindingRound) (obs : ObservedState)
    (m : CertMaterial) : prog Result :=
  let! rd := noteDrift r rd obs m in
  let b := rd_b rd in
  let! aerr := pv_apply p tg cl m (mkApplyOptions (ensureHTTPSOf b) (bs_applied_fingerprint (ab_status b))) in
  do! call (OCounterInc metric_binding_apply [rd_provider rd; bindingApplyResult aerr]) in
  match aerr with
  | Some e => handleApplyError r rd e
  | None =>
      let! rd := freezeApplied r rd obs m true in
      patch_binding_and_return (br_drift_interval r) (set_rd_b (aggregateBindingReady (rd_b rd)) rd)
  end.

(** the short circuit: the target has what it should have *)
Definition already_applied (b : AliyunCertificateBinding) (obs : ObservedState) (m : CertMaterial) : bool :=
  let id := identityOf (br_registry r) b obs m in
  String.eqb (id_current id) (id_want id) && protocolSatisfied obs (ensureHTTPSOf b).

(** step 5: observe, fence, and write unless the target is right already *)
Definition observe_step (p : Provider) (cl : ProviderClient) (tg : Target) (rd : bindingRound) (m : CertMaterial) : prog Result :=
  let! seen := pv_observe p tg cl in
  match seen with
  | inl e => handleObserveError r rd e
  | inr obs =>
      let! rd := noteObserved rd in
      match fenceAccount rd obs with
      | Some rd => patch_binding_and_return (br_drift_interval r) (set_rd_b (aggregateBindingReady (rd_b rd)) rd)
      | None =>
          if already_applied (rd_b rd) obs m then
            let! rd := freezeApplied r rd obs m false in
            patch_binding_and_return (br_drift_interval r) (set_rd_b (aggregateBindingReady (rd_b rd)) rd)
          else apply_step p cl tg rd obs m
      end
  end.

(** step 4: the client, and the target *)
Definition client_step (rd : bindingRound) (ac : AliyunCertificate) (m : CertMaterial) : prog Result :=
  let! got := providerClient (rd_b rd) (Some ac) in
  match got with
  | inl e => handleFactoryError rd e
  | inr (p, cl) =>
      match targetOf (br_registry r) (rd_b rd) with
      | inl e => handleFactoryError rd e
      | inr tg => observe_step p cl tg rd m
      end
  end.

Definition reconcileBindingReady (rd : bindingRound) (ac : AliyunCertificate) : prog Result :=
  let b := rd_b rd in
  let! winner := arbitrate b in
  match winner with
  | inl e => Ret (0%Z, Some e)
  | inr w =>
      if negb (String.eqb (binding_uid w) (binding_uid b)) then
        let b := setBindingCondition b ConditionConflict CondTrue ReasonConflictingBinding
                   ("同目标已由 " +:+ ab_namespace w +:+ "/" +:+ ab_name w +:+ " 绑定") in
        patch_binding_and_return (br_drift_interval r) (set_rd_b (aggregateBindingReady b) rd)
      else
        let b := setBindingCondition b ConditionConflict CondFalse ReasonNoConflict "" in
        let! gated := gated_material b ac in
        match gated with
        | inl (b, d) => patch_binding_and_return d (set_rd_b b rd)
        | inr m => client_step (set_rd_b b rd) ac m
        end
  end.

(** step 1: the certificate *)
Definition reconcileBindingNormal (rd : bindingRound) : prog Result :=
  let b := on_bstatus (set_bs_observed_generation (om_generation (ab_meta (rd_b rd)))) (rd_b rd) in
  let! got := call (OGetAC false (ab_namespace b) (abs_certificate_ref (ab_spec b))) in
  match (match got with
         | inr ac => inr (Some ac)
         | inl e => if IsNotFound e then inr None else inl e
         end) with
  | inl e => Ret (0%Z, Some e)
  | inr ac =>
      let! lag := appliedLag b ac in
      let rd := set_rd_lag lag (set_rd_b b rd) in
      match ac with
      | None =>
          patch_binding_and_return (br_drift_interval r)
            (set_rd_b (setBindingReadyFalse b ReasonCertificateNotFound
               ("AliyunCertificate " +:+ quote (abs_certificate_ref (ab_spec b)) +:+ " 不存在")) rd)
      | Some ac =>
          if negb (certIssued ac) then
            patch_binding_and_return (br_drift_interval r)
              (set_rd_b (setBindingReadyFalse b ReasonCertificateNotReady "证书尚未通过校验") rd)
          else reconcileBindingReady rd ac
      end
  end.

Definition BindingReconcile (namespace name : string) : prog Result :=
  let! got := call (OGetBinding true namespace name) in
  match got with
  | inl e => Ret (0%Z, IgnoreNotFound (Some e))
  | inr b =>
      let rd := newBindingRound b in
      if is_deleting (ab_meta b) then reconcileBindingDelete rd
      else if negb (ContainsFinalizer (ab_meta b) FinalizerName) then
        let! up := call (OUpdateBinding (set_ab_meta (AddFinalizer (ab_meta b) FinalizerName) b)) in
        match up with
        | inl e => Ret (0%Z, Some e)
        | inr b => reconcileBindingNormal (newBindingRound b)
        end
      else reconcileBindingNormal rd
  end.

End controller.

(** ** What a target has to show *)

(** a list of protocols with HTTPS on it, in any case and with any space around it *)
Definition lists_https (protocol : string) : Prop :=
  exists part, part ∈ split "," protocol /\ to_upper (trim_space part) = "HTTPS".

(** the target [x] has the material [m] on it, by its reference in CAS or by its
    fingerprint, and serves HTTPS where the binding asks for it *)
Record in_place (r : BindingReconciler) (b : AliyunCertificateBinding) (x : ObservedState) (m : CertMaterial) : Prop := {
  ip_certificate :
    if cap_references_cert_by_id (capabilitiesOf (br_registry r) b) then ob_current_cert_ref x = CASCertRef m
    else ob_current_fingerprint x = cm_fingerprint m;
  ip_https fc : bt_fc3 (ab_target b) = Some fc -> fc_ensure_https fc = true -> lists_https (ob_protocol x)
}.

Lemma protocolSatisfied_spec x : protocolSatisfied x true = true <-> lists_https (ob_protocol x).
Proof.
  unfold protocolSatisfied, lists_https. cbn [negb]. rewrite existsb_exists. setoid_rewrite equal_fold_upper.
  setoid_rewrite list_elem_of_In. done.
Qed.

(** the short circuit is taken exactly then *)
Lemma already_applied_spec r b x m : already_applied r b x m = true <-> in_place r b x m.
Proof.
  unfold already_applied. rewrite andb_true_iff.
  assert (Hid : String.eqb (id_current (identityOf (br_registry r) b x m)) (id_want (identityOf (br_registry r) b x m)) = true <->
    if cap_references_cert_by_id (capabilitiesOf (br_registry r) b) then ob_current_cert_ref x = CASCertRef m
    else ob_current_fingerprint x = cm_fingerprint m).
  { rewrite String.eqb_eq. unfold identityOf. by destruct (cap_references_cert_by_id _). }
  rewrite Hid. unfold ensureHTTPSOf. split.
  - intros [Hc Hp]. split; [done|]. intros fc Hfc He. rewrite Hfc, He in Hp. by apply protocolSatisfied_spec.
  - intros [Hc Hp]. split; [done|]. destruct (bt_fc3 (ab_target b)) as [fc|] eqn:Hfc; [|done].
    destruct (fc_ensure_https fc) eqn:He; [|done]. by apply protocolSatisfied_spec, (Hp fc).
Qed.

Lemma already_applied_false r b x m : already_applied r b x m = false <-> ~ in_place r b x m.
Proof. by rewrite <-already_applied_spec, not_true_iff_false. Qed.
