(* ===== verification/BindingSafety.v ===== *)
(** * A whole round of the binding controller, symbolically executed

    The policies state what a round may do: [gated] for writes to targets,
    [claims] and [binding_honest] for status writes, [released] for the
    finalizer.  [BindingReconcile_bwp] shows all four of every run at once; the
    properties are read off it in BindingTheorems.v. *)
From S2P Require Import Prelude GoString GoTime Api GoError Cloud KubeLib Effects Bundle Samples CertStatus CertMaterial.
From S2P Require Import CertUpload CertDeletion Provider ProviderFC3 ProviderOSS Clients BindingStatus BindingMaterial.
From S2P Require Import BindingObserve BindingController.

#[local] Open Scope prog_scope.

(** ** What the controller expects of its factory *)

(** it only reads Secrets and builds clients, and the providers it hands out keep the
    contract of the interface *)
Class BindingFactoryOk (r : BindingReconciler) : Prop := {
  factory_calls f b ac : br_provider_factory r = Some f -> all_calls client_call (f b ac);
  factory_contract f b ac : br_provider_factory r = Some f ->
    returns (fun res => match res with inr (p, _) => ProviderContract p | inl _ => True end) (f b ac)
}.

(** a registry of providers that keep the contract *)
Definition lawful (reg : registry) : Prop := map_Forall (fun _ p => ProviderContract p) reg.

Lemma builtin_lawful `{Crypto} : lawful (default ∅ builtin_registry).
Proof.
  unfold builtin_registry, Register. rewrite lookup_empty. cbn. apply map_Forall_insert_2; [apply OSS.contract|].
  apply map_Forall_insert_2; [apply FC3.contract|apply map_Forall_empty].
Qed.

(** the production factory keeps it *)
Lemma NewProviderFactory_ok r : lawful (br_registry r) ->
  br_provider_factory r = Some (NewProviderFactory (br_registry r)) -> BindingFactoryOk r.
Proof.
  intros Hl Hr. split; intros f b ac Hf; rewrite Hr in Hf; injection Hf as <-; unfold NewProviderFactory;
    destruct (targetOf _ _) as [e|tg]; try done; destruct (Get (tg_type tg) (br_registry r)) as [p|] eqn:Eg; try done;
    cbv zeta; destruct (String.eqb _ ""); try done.
  - unfold read_credentials, GetOrBuild, build_provider, Credentials_Build, buildProviderClient, NewFC3Client, NewOSSClient,
      provider_cache. cbn [cache_get cache_put].
    repeat first [ twp_step | exact I | match goal with |- all_calls _ (match ?x with _ => _ end) => destruct x end
      | match goal with |- all_calls _ (Vis _ _) => split end | progress cbv beta zeta | intros ? ].
  - apply returns_bind. eapply returns_mono; [apply returns_True|]. intros [e|[s c]] _; [done|]. cbv zeta.
    apply returns_bind. eapply returns_mono; [apply returns_True|]. intros [e|cl] _; [done|]. exact (Hl _ _ Eg).
Qed.

(** ** Nothing is written to a target without cause *)

(** the binding as the API server has it in this round: alive, with its finalizer *)
Definition read_alive `{KubeLib} (ns name : string) (b : AliyunCertificateBinding) (h : history) : Prop :=
  (Ev (OGetBinding true ns name) (inr b) ∈ h /\ is_deleting (ab_meta b) = false /\
     ContainsFinalizer (ab_meta b) FinalizerName = true) \/
  (exists b0, Ev (OGetBinding true ns name) (inr b0) ∈ h /\ is_deleting (ab_meta b0) = false /\
     Ev (OUpdateBinding (set_ab_meta (AddFinalizer (ab_meta b0) FinalizerName) b0)) (inr b) ∈ h).

(** no other binding has a better claim to its target, as listed in this round *)
Definition wins (b : AliyunCertificateBinding) (h : history) : Prop :=
  TargetKey b = "" \/ exists items, Ev (OListBindingsByTarget (TargetKey b)) (inr items) ∈ h /\
    binding_uid (default b (pickWinner items)) = binding_uid b.

(** the same binding as far as a decision to write goes *)
Definition same_binding (b b' : AliyunCertificateBinding) : Prop :=
  ab_meta b = ab_meta b' /\ ab_spec b = ab_spec b' /\
  bs_bound_account (ab_status b) = bs_bound_account (ab_status b') /\
  bs_applied_fingerprint (ab_status b) = bs_applied_fingerprint (ab_status b') /\
  bs_applied_cert_ref (ab_status b) = bs_applied_cert_ref (ab_status b').

(** everything that has to be the case for a write of material [m] to target [tg] *)
Record may_apply `{KubeLib} `{Crypto} (r : BindingReconciler) (ns name : string) (b : AliyunCertificateBinding)
    (ac : AliyunCertificate) (m : CertMaterial) (p : Provider) (cl : ProviderClient) (tg : Target) (obs : ObservedState)
    (h : history) : Prop := {
  (* the binding is alive, and no other binding has a better claim to the target *)
  ma_binding : read_alive ns name b h;
  ma_wins : wins b h;
  (* its certificate is issued, and the material is of the generation it vouches for *)
  ma_certificate : Ev (OGetAC false (ab_namespace b) (abs_certificate_ref (ab_spec b))) (inr ac) ∈ h;
  ma_issued : certIssued ac = true;
  ma_material : ran h (loadBindingMaterial ac) (inr m);
  ma_gate : certificateGate m ac = true;
  ma_coverage : checkDomainCoverage m b = None;
  ma_uploaded : (casUploadGate (capabilitiesOf (br_registry r) b) ac m).1 = "";
  (* the client is of this binding, and the target was looked at *)
  ma_client : exists b', same_binding b b' /\ ran h (providerClient r b' (Some ac)) (inr (p, cl));
  ma_target : targetOf (br_registry r) b = inr tg;
  ma_observed : ran h (pv_observe p tg cl) (inr obs);
  (* it is in the account of the first application, and not as it should be *)
  ma_account : bs_bound_account (ab_status b) = "" \/ bs_bound_account (ab_status b) = ob_account_id obs;
  ma_needed : ~ in_place r b obs m
}.

(** the binding of a deletion: as first read with its start recorded, or as stored with it *)
Definition unbinding (b0 b : AliyunCertificateBinding) (h : history) : Prop :=
  (b = b0 /\ is_Some (bs_cleanup_started (ab_status b))) \/
  exists b1 orig, Ev (OPatchBindingStatus b1 orig) (inr b) ∈ h.

(** and for unbinding it *)
Record may_cleanup `{KubeLib} `{Crypto} (r : BindingReconciler) (ns name : string) (b0 b : AliyunCertificateBinding)
    (p : Provider) (cl : ProviderClient) (tg : Target) (obs : ObservedState) (h : history) : Prop := {
  (* the binding is being deleted, asked to be unbound, and was applied once *)
  mc_binding : Ev (OGetBinding true ns name) (inr b0) ∈ h;
  mc_deleting : is_deleting (ab_meta b0) = true;
  mc_finalizer : ContainsFinalizer (ab_meta b0) FinalizerName = true;
  mc_policy : abs_deletion_policy (ab_spec b0) = DeletionPolicyUnbind;
  mc_applied : bs_applied_fingerprint (ab_status b0) <> "";
  mc_unbinding : unbinding b0 b h;
  (* the target was looked at: in our account, and with our certificate on it *)
  mc_client : exists ac, ran h (providerClient r b ac) (inr (p, cl));
  mc_target : targetOf (br_registry r) b = inr tg;
  mc_observed : ran h (pv_observe p tg cl) (inr obs);
  mc_account : bs_bound_account (ab_status b) = "" \/ bs_bound_account (ab_status b) = ob_account_id obs;
  mc_ours : id_current (identityOf (br_registry r) b obs no_material) = id_applied (identityOf (br_registry r) b obs no_material)
}.

(** a write to a target is the only one of the round so far, and a step of Apply or
    of Cleanup, started when that was justified *)
Definition justified `{KubeLib} `{Crypto} (r : BindingReconciler) (ns name : string) : policy := fun h o =>
  (exists b ac m p cl tg obs h0 k, may_apply r ns name b ac m p cl tg obs h0 /\
      reaches any_env h0 (pv_apply p tg cl m (mkApplyOptions (ensureHTTPSOf b) (bs_applied_fingerprint (ab_status b))))
        h (Vis o k)) \/
  (exists b0 b p cl tg obs h0 k, may_cleanup r ns name b0 b p cl tg obs h0 /\
      reaches any_env h0 (pv_cleanup p tg cl DeletionPolicyUnbind) h (Vis o k)).

Definition gated `{KubeLib} `{Crypto} (r : BindingReconciler) (ns name : string) : policy := fun h o =>
  cloud_write o -> cloud_writes h = [] /\ justified r ns name h o.

(** ** What a status write claims *)

(** what [b] says of the last application is what [base] says *)
Definition keeps `{KubeLib} (b base : AliyunCertificateBinding) : Prop :=
  same_binding base b /\ (bindingCondTrue b ConditionApplied = true -> bindingCondTrue base ConditionApplied = true).

(** this round saw that the target has the material, or wrote it there *)
Record confirmed `{KubeLib} `{Crypto} (r : BindingReconciler) (b base : AliyunCertificateBinding) (ac : AliyunCertificate)
    (m : CertMaterial) (p : Provider) (cl : ProviderClient) (tg : Target) (obs : ObservedState) (h : history) : Prop := {
  cf_meta : ab_meta b = ab_meta base /\ ab_spec b = ab_spec base;
  cf_material : ran h (loadBindingMaterial ac) (inr m);
  cf_target : targetOf (br_registry r) base = inr tg;
  cf_observed : ran h (pv_observe p tg cl) (inr obs);
  cf_account : bs_bound_account (ab_status base) = "" \/ bs_bound_account (ab_status base) = ob_account_id obs;
  cf_in_place : in_place r base obs m \/
    ran h (pv_apply p tg cl m (mkApplyOptions (ensureHTTPSOf base) (bs_applied_fingerprint (ab_status base)))) None;
  (* and this is what is recorded *)
  cf_fingerprint : bs_applied_fingerprint (ab_status b) = cm_fingerprint m;
  cf_ref : bs_applied_cert_ref (ab_status b) =
    if cap_references_cert_by_id (capabilitiesOf (br_registry r) base) then CASCertRef m
    else bs_applied_cert_ref (ab_status base);
  cf_bound : bs_bound_account (ab_status b) = ob_account_id obs
}.

Definition claims `{KubeLib} `{Crypto} (r : BindingReconciler) : policy := fun h o =>
  match o with
  | OPatchBindingStatus b base =>
      keeps b base \/ exists ac m p cl tg obs, confirmed r b base ac m p cl tg obs h
  | _ => True
  end.

(** Ready=True only with Applied and no Conflict, or as the API server has it *)
Definition ready_ok `{KubeLib} (b base : AliyunCertificateBinding) : Prop :=
  bindingCondTrue b ConditionReady = true ->
  bindingCondTrue b ConditionApplied && negb (bindingCondTrue b ConditionConflict) = true \/
  ab_shown b ConditionReady = ab_shown base ConditionReady.

Definition binding_honest `{KubeLib} : policy := fun _ o =>
  match o with OPatchBindingStatus b base => ready_ok b base | _ => True end.

(** ** When the finalizer goes *)

(** nothing of ours is on the target: it is gone, or in another account, or has a
    certificate that is not ours, or the cleanup went through *)
Definition detached `{KubeLib} `{Crypto} (r : BindingReconciler) (b : AliyunCertificateBinding) (h : history) : Prop :=
  exists ac p cl tg, ran h (providerClient r b ac) (inr (p, cl)) /\ targetOf (br_registry r) b = inr tg /\
    ((exists e, ran h (pv_observe p tg cl) (inl e) /\ has_code CodeTargetNotFound e = true) \/
     (exists obs, ran h (pv_observe p tg cl) (inr obs) /\
        (bs_bound_account (ab_status b) <> "" /\ bs_bound_account (ab_status b) <> ob_account_id obs \/
         id_current (identityOf (br_registry r) b obs no_material) <> id_applied (identityOf (br_registry r) b obs no_material) \/
         ran h (pv_cleanup p tg cl DeletionPolicyUnbind) None))).

(** there was nothing to detach, or it is detached, or nobody can wait any longer *)
Definition settled `{KubeLib} `{Crypto} (r : BindingReconciler) (b0 b : AliyunCertificateBinding) (h : history) : Prop :=
  (b = b0 /\ (abs_deletion_policy (ab_spec b0) <> DeletionPolicyUnbind \/ bs_applied_fingerprint (ab_status b0) = "")) \/
  (unbinding b0 b h /\ detached r b h) \/
  (unbinding b0 b h /\ exists rd e started now, rd_b rd = b /\ ran h (unbindTarget r rd) (Some e) /\
     bs_cleanup_started (ab_status b) = Some started /\ Ev ONow now ∈ h /\
     shouldAbandonCleanup (br_cleanup_failure_policy r) (time_sub now started) (br_cleanup_grace_period r) = true).

Definition released `{KubeLib} `{Crypto} (r : BindingReconciler) (ns name : string) : policy := fun h o =>
  match o with
  | OUpdateBinding b' => exists b0, Ev (OGetBinding true ns name) (inr b0) ∈ h /\
      if is_deleting (ab_meta b0) then
        exists b, b' = set_ab_meta (RemoveFinalizer (ab_meta b) FinalizerName) b /\ settled r b0 b h
      else b' = set_ab_meta (AddFinalizer (ab_meta b0) FinalizerName) b0
  | _ => True
  end.

(** *** Lemmas *)

(** calls that do not write to a target *)
Definition harmless (o : op) : Prop := ~ cloud_write o.

Lemma report_harmless o : is_report o -> harmless o.
Proof. destruct o; intros [] []. Qed.
Lemma client_harmless o : client_call o -> harmless o.
Proof. by destruct o; intros H []. Qed.
Lemma read_harmless o : cloud_read o -> harmless o.
Proof. by destruct o; intros H []. Qed.

Section factory.
  Context `{K : KubeLib} `{Cr : Crypto} (r : BindingReconciler) `{!BindingFactoryOk r}.

Lemma providerClient_calls b ac : all_calls client_call (providerClient r b ac).
Proof. unfold providerClient. destruct (br_provider_factory r) as [f|] eqn:E; [|done]. by eapply factory_calls. Qed.

Lemma providerClient_contract b ac :
  returns (fun res => match res with inr (p, _) => ProviderContract p | inl _ => True end) (providerClient r b ac).
Proof. unfold providerClient. destruct (br_provider_factory r) as [f|] eqn:E; [|done]. by eapply factory_contract. Qed.

End factory.

Section gating.
  Context `{K : KubeLib} `{Cr : Crypto} (r : BindingReconciler).

(** everything a round may do *)
Definition round_policy (ns name : string) : policy := fun h o =>
  gated r ns name h o /\ claims r h o /\ binding_honest h o /\ released r ns name h o.

(** calls none of the policies is about *)
Definition silent (o : op) : Prop :=
  match o with OUpdateBinding _ | OPatchBindingStatus _ _ => False | _ => harmless o end.

Lemma silent_allowed ns name h o : silent o -> round_policy ns name h o.
Proof.
  intros Ho. split; [|split; [|split]]; [|by destruct o|by destruct o|by destruct o].
  intros Hw. destruct o; cbn in Ho; try done; by destruct Ho.
Qed.

Lemma silent_harmless o : silent o -> harmless o.
Proof. by destruct o; try done; intros [] []. Qed.

Lemma report_silent o : is_report o -> silent o.
Proof. by destruct o; intros H; try done; intros []. Qed.
Lemma client_silent o : client_call o -> silent o.
Proof. by destruct o; intros H; try done; intros []. Qed.
Lemma cloud_read_silent o : cloud_read o -> silent o.
Proof. by destruct o; intros H; try done; intros []. Qed.

Abbreviation bwp ns name := (twp any_env (round_policy ns name)).
Abbreviation any := (fun _ _ => True).

(** *** Views of a binding that do not depend on the rest of its status *)

Lemma same_refl b : same_binding b b.
Proof. done. Qed.

Lemma same_trans a b c : same_binding a b -> same_binding b c -> same_binding a c.
Proof. unfold same_binding. intros (-> & -> & -> & -> & ->). done. Qed.

Lemma same_target a b : same_binding a b ->
  TargetKey b = TargetKey a /\ targetOf (br_registry r) b = targetOf (br_registry r) a /\
  capabilitiesOf (br_registry r) b = capabilitiesOf (br_registry r) a /\ ensureHTTPSOf b = ensureHTTPSOf a /\
  (forall m, checkDomainCoverage m b = checkDomainCoverage m a).
Proof.
  intros (_ & Hs & _). assert (Ht : ab_target b = ab_target a) by (unfold ab_target; by rewrite Hs).
  unfold TargetKey, targetOf, capabilitiesOf, ensureHTTPSOf, checkDomainCoverage, requiredDomainsOf. by rewrite Ht.
Qed.

Lemma same_identity a b obs m : same_binding a b ->
  identityOf (br_registry r) b obs m = identityOf (br_registry r) a obs m /\
  already_applied r b obs m = already_applied r a obs m.
Proof.
  intros Hs. destruct (same_target a b Hs) as (_ & _ & Hc & He & _). destruct Hs as (_ & _ & _ & Hf & Hr).
  assert (Hi : identityOf (br_registry r) b obs m = identityOf (br_registry r) a obs m).
  { unfold identityOf. by rewrite Hc, Hf, Hr. }
  split; [done|]. unfold already_applied. by rewrite Hi, He.
Qed.

Lemma same_set b t s re m : same_binding b (setBindingCondition b t s re m).
Proof. done. Qed.

End gating.

(** *** What the status writes of a round claim *)

Section claims.
  Context `{KL : KubeLibLaws} `{Cr : Crypto}.

Lemma same_aggregate b : same_binding b (aggregateBindingReady b).
Proof. unfold aggregateBindingReady. by destruct (_ && _). Qed.

Lemma applied_aggregate b t : t <> ConditionReady -> bindingCondTrue (aggregateBindingReady b) t = bindingCondTrue b t.
Proof. intros Ht. by rewrite !bindingCondTrue_shown, aggregateBindingReady_other. Qed.

Lemma keeps_refl b : keeps b b.
Proof. done. Qed.

Lemma keeps_same b b' base : keeps b base -> same_binding b b' ->
  bindingCondTrue b' ConditionApplied = bindingCondTrue b ConditionApplied -> keeps b' base.
Proof. intros [Hs Ha] Hs' Ha'. split; [by eapply same_trans|]. by rewrite Ha'. Qed.

Lemma keeps_aggregate b base : keeps b base -> keeps (aggregateBindingReady b) base.
Proof. intros Hk. eapply keeps_same; [exact Hk|apply same_aggregate|]. by apply applied_aggregate. Qed.

Lemma keeps_set b base t s re m : t <> ConditionApplied -> keeps b base -> keeps (setBindingCondition b t s re m) base.
Proof. intros Ht Hk. eapply keeps_same; [exact Hk|done|]. by rewrite bindingCondTrue_set_other. Qed.

Lemma keeps_unapplied b base s re m : s <> CondTrue -> keeps b base -> keeps (setBindingCondition b ConditionApplied s re m) base.
Proof.
  intros Hn [Hs Ha]. split; [done|]. rewrite bindingCondTrue_set_same. by intros H%bool_decide_eq_true.
Qed.

Lemma ready_aggregate b base : ready_ok (aggregateBindingReady b) base.
Proof.
  intros Hr. left. rewrite aggregateBindingReady_true in Hr. by rewrite !applied_aggregate.
Qed.

Lemma ready_false b base re m : ready_ok (setBindingReadyFalse b re m) base.
Proof. unfold ready_ok, setBindingReadyFalse. rewrite bindingCondTrue_set_same. by intros H%bool_decide_eq_true. Qed.

Lemma keeps_noteObserveFailed b base : keeps b base -> keeps (noteObserveFailed b).2 base.
Proof.
  intros Hk. destruct (noteObserveFailed_find b) as (_ & _ & Hv & _).
  eapply keeps_same; [exact Hk| |].
  - unfold noteObserveFailed. by destruct (rewrite_applied _).
  - unfold bindingCondTrue, IsStatusConditionTrue. revert Hv. unfold applied_verdict.
    destruct (FindStatusCondition _ ConditionApplied) as [c|], (FindStatusCondition (bs_conditions (ab_status b)) ConditionApplied) as [c'|];
      cbn; try done. by intros [= -> _ _].
Qed.

End claims.

(** *** A round step by step *)

Section round.
  Context `{KL : KubeLibLaws} `{Cr : Crypto} (r : BindingReconciler) `{!BindingFactoryOk r} (ns name : string).

Abbreviation bwp := (twp any_env (round_policy r ns name)).
Abbreviation any := (fun _ _ => True).

Definition claimed (h : history) (b base : AliyunCertificateBinding) : Prop :=
  keeps b base \/ exists ac m p cl tg obs, confirmed r b base ac m p cl tg obs h.

Lemma claimed_suffix h h' b base : claimed h b base -> h `suffix_of` h' -> claimed h' b base.
Proof.
  intros [Hk|(ac & m & p & cl & tg & obs & [])] Hs; [by left|right]. exists ac, m, p, cl, tg, obs.
  split; try done; [by eapply ran_suffix|by eapply ran_suffix|].
  destruct cf_in_place0; [by left|right; by eapply ran_suffix].
Qed.

Lemma read_alive_suffix b h h' : read_alive ns name b h -> h `suffix_of` h' -> read_alive ns name b h'.
Proof. intros [(H1 & H2)|(b0 & H1 & H2 & H3)] Hs; [left|right; exists b0]; eauto using elem_suffix. Qed.

Lemma wins_suffix b h h' : wins b h -> h `suffix_of` h' -> wins b h'.
Proof. intros [H|(items & H1 & H2)] Hs; [by left|right; exists items]; eauto using elem_suffix. Qed.

(** a status write that claims no more than it may *)
Lemma bwp_patchStatus h rd (Q : goerr + AliyunCertificateBinding -> history -> Prop) :
  claimed h (rd_b rd) (rd_orig rd) -> ready_ok (rd_b rd) (rd_orig rd) ->
  (forall x, Q x (Ev (OPatchBindingStatus (rd_b rd) (rd_orig rd)) x :: h)) -> bwp h (patchBindingStatus rd) Q.
Proof.
  intros Hc Hr HQ. split; [|intros x _; apply HQ]. split; [by intros []|]. split; [exact Hc|]. by split.
Qed.

Lemma bwp_patch h rd (Q : goerr + AliyunCertificateBinding -> history -> Prop) :
  claimed h (rd_b rd) (rd_orig rd) -> ready_ok (rd_b rd) (rd_orig rd) -> (forall x h', Q x h') -> bwp h (patchBinding rd) Q.
Proof.
  intros Hc Hr HQ. apply patchBinding_wp; [intros ? ? Ho; by apply silent_allowed, report_silent| |auto].
  intros h1 Hs. split; [by intros []|]. split; [|by split].
  apply (claimed_suffix h); [done|by eapply only_since_suffix].
Qed.

Lemma bwp_patch_return h d rd :
  claimed h (rd_b rd) (rd_orig rd) -> ready_ok (rd_b rd) (rd_orig rd) -> bwp h (patch_binding_and_return d rd) any.
Proof. intros Hc Hr. unfold patch_binding_and_return. twp_step. by apply bwp_patch. Qed.

(** a program that does nothing the policies are about *)
Lemma bwp_silent {A} (p : prog A) h (R : A -> Prop) (Q : A -> history -> Prop) :
  all_calls silent p -> returns R p -> (forall a h', only_since silent h h' -> R a -> Q a h') -> bwp h p Q.
Proof.
  intros Hp HR HQ. eapply twp_post; [apply twp_returns_and; [|exact HR]|].
  - apply (all_calls_twp silent); [done|]. intros. by apply silent_allowed.
  - intros a h' [Hs Ha]. auto.
Qed.

Lemma bwp_silent_any {A} (p : prog A) h : all_calls silent p -> bwp h p any.
Proof. intros Hp. apply (bwp_silent p h (fun _ => True)); [done|apply returns_True|done]. Qed.

Lemma writes_silent h h' : only_since silent h h' -> cloud_writes h' = cloud_writes h.
Proof. apply cloud_writes_since, silent_harmless. Qed.

Lemma eventOnReasonChange_silent rd t re w ev msg : all_calls silent (eventOnReasonChange rd t re w ev msg).
Proof. unfold eventOnReasonChange. destruct (String.eqb _ _); [done|]. split; [|done]. by intros []. Qed.

Lemma handleObserveError_bwp h rd e : keeps (rd_b rd) (rd_orig rd) -> bwp h (handleObserveError r rd e) any.
Proof.
  intros Hk. unfold handleObserveError. destruct (has_code CodeTargetNotFound e).
  { apply bwp_patch_return; [left; cbn; by apply keeps_aggregate, keeps_unapplied|apply ready_aggregate]. }
  destruct (has_code CodeAuth e).
  { apply bwp_patch_return; [left; cbn; by apply keeps_set|apply ready_false]. }
  pose proof (keeps_noteObserveFailed _ _ Hk) as Hk'. destruct (noteObserveFailed (rd_b rd)) as [noted b]. cbv zeta.
  twp_step. apply (bwp_silent _ _ (fun _ => True)); [|apply returns_True|].
  { destruct noted; [apply eventOnReasonChange_silent|done]. }
  intros _ h1 _ _. twp_step. apply bwp_patch; [left; cbn; by apply keeps_aggregate|apply ready_aggregate|done].
Qed.

Lemma handleApplyError_bwp h rd e : keeps (rd_b rd) (rd_orig rd) -> bwp h (handleApplyError r rd e) any.
Proof.
  intros Hk. unfold handleApplyError. cbv zeta. twp_step.
  apply (bwp_silent _ _ (fun _ => True)); [apply eventOnReasonChange_silent|apply returns_True|]. intros _ h1 _ _. twp_step.
  apply bwp_patch; [left; cbn; by apply keeps_aggregate, keeps_unapplied|apply ready_aggregate|].
  done.
Qed.

Lemma handleFactoryError_bwp h rd e : keeps (rd_b rd) (rd_orig rd) -> bwp h (handleFactoryError rd e) any.
Proof.
  intros Hk. unfold handleFactoryError. destruct (errors_as _ _) as [[re ce]|];
    (apply bwp_patch_return; [left; cbn; by apply keeps_set|apply ready_false]).
Qed.

(** after an application was seen or made *)
Lemma freezeApplied_bwp h rd obs m wrote ac p cl tg :
  keeps (rd_b rd) (rd_orig rd) ->
  confirmed r (on_bstatus (fun s => set_bs_bound_account (ob_account_id obs) s) (frozen r (rd_orig rd) obs m)) (rd_orig rd) ac m p cl tg obs h ->
  bwp h (let! rd := freezeApplied r rd obs m wrote in
         patch_binding_and_return (br_drift_interval r) (set_rd_b (aggregateBindingReady (rd_b rd)) rd)) any.
Proof.
  intros [Hsame _] Hc. unfold freezeApplied. cbv zeta. do 2 twp_step.
  set (res := fun b : AliyunCertificateBinding => ab_meta b = ab_meta (rd_orig rd) /\ ab_spec b = ab_spec (rd_orig rd) /\
    bs_applied_fingerprint (ab_status b) = cm_fingerprint m /\
    bs_applied_cert_ref (ab_status b) = (if cap_references_cert_by_id (capabilitiesOf (br_registry r) (rd_orig rd))
      then CASCertRef m else bs_applied_cert_ref (ab_status (rd_orig rd))) /\
    bs_bound_account (ab_status b) = bs_bound_account (ab_status (rd_orig rd))).
  destruct (same_target r _ _ Hsame) as (_ & _ & Hcap & _). destruct Hsame as (Hm & Hsp & Hb & Hf & Hrf).
  assert (Hfz : res (frozen r (rd_b rd) obs m)).
  { unfold res, frozen. cbn. change (capabilitiesOf (br_registry r) (on_bstatus (set_bs_applied_fingerprint (cm_fingerprint m)) (rd_b rd)))
      with (capabilitiesOf (br_registry r) (rd_b rd)). rewrite Hcap.
    destruct (cap_references_cert_by_id _); cbn; by rewrite ?Hm, ?Hsp, ?Hb, ?Hrf. }
  eapply (bwp_silent _ _ res).
  { destruct wrote; [|done]. split; [by intros []|done]. }
  { destruct wrote; [|exact Hfz]. cbn. intros now. exact Hfz. }
  intros b h1 Hs1 (Rm & Rs & Rf & Rr & Rb).
  match goal with |- context [setApplied ?x] => set (rd1 := x) end.
  assert (Hrd1 : rd_orig rd1 = rd_orig rd /\ ab_meta (rd_b rd1) = ab_meta (rd_orig rd) /\ ab_spec (rd_b rd1) = ab_spec (rd_orig rd) /\
    bs_applied_fingerprint (ab_status (rd_b rd1)) = cm_fingerprint m /\
    bs_applied_cert_ref (ab_status (rd_b rd1)) = bs_applied_cert_ref (ab_status b) /\
    bs_bound_account (ab_status (rd_b rd1)) = ob_account_id obs).
  { unfold rd1. cbn [rd_b set_rd_lag set_rd_b rd_orig]. split; [done|].
    destruct (String.eqb_spec (bs_bound_account (ab_status b)) "") as [E|E]; cbn [andb].
    - destruct (String.eqb_spec (ob_account_id obs) "") as [E'|E']; cbn; [|done]. do 4 (split; [done|]). congruence.
    - do 4 (split; [done|]). destruct Hc. destruct cf_account0 as [H|H]; congruence. }
  clearbody rd1. destruct Hrd1 as (Ho & R1 & R2 & R3 & R4 & R5). unfold setApplied. cbv zeta. twp_step.
  eapply (bwp_silent _ _ (fun _ => True)); [|apply returns_True|].
  { destruct (bindingCondTrue _ _); [done|]. split; [|done]. by intros []. }
  intros _ h2 Hs2 _. cbn [twp]. apply bwp_patch_return; [|apply ready_aggregate].
  cbn. rewrite Ho. right. exists ac, m, p, cl, tg, obs.
  assert (Hsuf : h `suffix_of` h2) by (etrans; by eapply only_since_suffix).
  destruct Hc. assert (Hag := same_aggregate (setBindingCondition (rd_b rd1) ConditionApplied CondTrue ReasonApplied "")).
  destruct Hag as (G1 & G2 & G3 & G4 & G5). split; try done.
  - by rewrite <-G1, <-G2.
  - by eapply ran_suffix.
  - by eapply ran_suffix.
  - destruct cf_in_place0; [by left|right; by eapply ran_suffix].
  - by rewrite <-G4.
  - rewrite <-G5. cbn. by rewrite R4, Rr.
  - rewrite <-G3. exact R5.
Qed.

(** the round after it only touched what no claim is about *)
Definition follows (rd rd' : bindingRound) : Prop :=
  rd_orig rd' = rd_orig rd /\ same_binding (rd_b rd) (rd_b rd') /\
  bindingCondTrue (rd_b rd') ConditionApplied = bindingCondTrue (rd_b rd) ConditionApplied.

Lemma follows_keeps rd rd' : follows rd rd' -> keeps (rd_b rd) (rd_orig rd) -> keeps (rd_b rd') (rd_orig rd').
Proof. intros (-> & Hs & Ha) Hk. by eapply keeps_same. Qed.

Lemma noteDrift_follows rd obs m : all_calls silent (noteDrift r rd obs m) /\ returns (follows rd) (noteDrift r rd obs m).
Proof using Type.
  unfold noteDrift. cbv zeta. destruct (_ || _); [by split|]. destruct (String.eqb _ _).
  { split; [done|]. unfold follows. by destruct (id_by_ref _). }
  split; [by repeat split; intros []|]. cbn. intros _ _. unfold follows. by destruct (id_by_ref _).
Qed.

Lemma noteObserved_follows rd : all_calls silent (noteObserved rd) /\ returns (follows rd) (noteObserved rd).
Proof.
  split; [by repeat split; intros []|]. cbn. intros now. unfold follows.
  destruct (match bs_last_observed _ with Some _ => _ | None => _ end); done.
Qed.

Lemma may_apply_suffix b ac m p cl tg obs h h' :
  may_apply r ns name b ac m p cl tg obs h -> h `suffix_of` h' -> may_apply r ns name b ac m p cl tg obs h'.
Proof.
  intros [] Hs. split; try done.
  - by eapply read_alive_suffix.
  - by eapply wins_suffix.
  - by eapply elem_suffix.
  - by eapply ran_suffix.
  - destruct ma_client0 as (b' & H1 & H2). exists b'. eauto using ran_suffix.
  - by eapply ran_suffix.
Qed.

(** running a method that may write, once, with cause *)
Lemma bwp_write h (p : prog (option goerr)) (Q : option goerr -> history -> Prop) :
  all_calls (fun o => cloud_read o \/ cloud_write o) p ->
  twp any_env any_call h p (fun _ h' => length (cloud_writes h') <= length (cloud_writes h) + 1) ->
  cloud_writes h = [] ->
  (forall h' o k, reaches any_env h p h' (Vis o k) -> justified r ns name h' o) ->
  (forall a h', h `suffix_of` h' -> ran h' p a -> Q a h') -> bwp h p Q.
Proof.
  intros Hc Ho Hw Hj Hf.
  pose proof (twp_tracks any_env any_call h p h p _ (reaches_here _ _ _) (twp_trivial any_env h p)) as Ht.
  eapply twp_mono; [| |exact Ht]; cbn beta.
  - intros h' o [_ [k Hr]]. pose proof (all_calls_reaches _ _ _ _ _ _ _ Hc Hr) as [Hrd|Hwr].
    { by apply silent_allowed, cloud_read_silent. }
    split; [|by destruct o]. intros _. split; [|by eapply Hj].
    by rewrite (writes_once_first _ _ _ _ _ Ho Hr Hwr).
  - intros a h' [_ Hr]. apply Hf; [by eapply reaches_suffix|]. by exists h, h'.
Qed.

Lemma apply_step_bwp h p cl tg rd obs ac m :
  ProviderContract p -> cloud_writes h = [] -> keeps (rd_b rd) (rd_orig rd) ->
  may_apply r ns name (rd_orig rd) ac m p cl tg obs h -> bwp h (apply_step r p cl tg rd obs m) any.
Proof.
  intros Hp Hw Hk Hma. unfold apply_step. twp_step. destruct (noteDrift_follows rd obs m) as [Hn1 Hn2].
  apply (bwp_silent _ _ _ _ Hn1 Hn2). intros rd1 h1 Hs1 Hfo. clear Hn1 Hn2. cbv zeta.
  pose proof (follows_keeps _ _ Hfo Hk) as Hk1. destruct Hfo as (Ho & _ & _).
  apply (may_apply_suffix _ _ _ _ _ _ _ _ h1) in Hma; [|by eapply only_since_suffix].
  destruct (same_target r _ _ (proj1 Hk1)) as (_ & _ & _ & Hen & _).
  destruct (proj1 Hk1) as (_ & _ & _ & Hfp & _). rewrite Hen, <-Hfp, Ho.
  twp_step. apply bwp_write.
  - apply apply_cloud.
  - apply apply_writes_once.
  - by rewrite (writes_silent _ _ Hs1).
  - intros h' o k Hr. left. by exists (rd_orig rd), ac, m, p, cl, tg, obs, h1, k.
  - intros aerr h2 Hs2 Hran. twp_step. split; [by apply silent_allowed, report_silent|]. intros u _. cbn [twp].
    destruct aerr as [e|]; [by apply handleApplyError_bwp|].
    apply (freezeApplied_bwp _ _ _ _ _ ac p cl tg); [done|]. rewrite Ho.
    assert (Hsuf : h1 `suffix_of` Ev (OCounterInc metric_binding_apply [rd_provider rd1; bindingApplyResult None]) u :: h2).
    { etrans; [exact Hs2|]. by exists [Ev (OCounterInc metric_binding_apply [rd_provider rd1; bindingApplyResult None]) u]. }
    eapply ran_suffix in Hran; [|by exists [Ev (OCounterInc metric_binding_apply [rd_provider rd1; bindingApplyResult None]) u]].
    destruct Hma. split; try done.
    + unfold frozen. cbn. by destruct (cap_references_cert_by_id _).
    + by eapply ran_suffix.
    + by eapply ran_suffix.
    + by right.
    + unfold frozen. cbn. by destruct (cap_references_cert_by_id _).
    + unfold frozen. cbn.
      change (capabilitiesOf (br_registry r) (on_bstatus (set_bs_applied_fingerprint (cm_fingerprint m)) (rd_orig rd)))
        with (capabilitiesOf (br_registry r) (rd_orig rd)). by destruct (cap_references_cert_by_id _).
Qed.

Lemma fence_keeps rd obs :
  match fenceAccount rd obs with
  | Some rd' => rd_orig rd' = rd_orig rd /\ (keeps (rd_b rd) (rd_orig rd) -> keeps (rd_b rd') (rd_orig rd))
  | None => bs_bound_account (ab_status (rd_b rd)) = "" \/ bs_bound_account (ab_status (rd_b rd)) = ob_account_id obs
  end.
Proof.
  unfold fenceAccount.
  destruct (String.eqb_spec (bs_bound_account (ab_status (rd_b rd))) "") as [|_]; [by left|].
  destruct (String.eqb_spec (bs_bound_account (ab_status (rd_b rd))) (ob_account_id obs)) as [|_]; [by right|].
  split; [done|]. intros Hk. eapply keeps_same; [exact Hk|done|].
  unfold bindingCondTrue. cbn. by rewrite is_true_set_other.
Qed.

(** what is known of a round before the target is looked at *)
Definition before_observing (rd : bindingRound) (ac : AliyunCertificate) (m : CertMaterial) (h : history) : Prop :=
  let b := rd_orig rd in
  cloud_writes h = [] /\ keeps (rd_b rd) b /\ read_alive ns name b h /\
  wins b h /\
  Ev (OGetAC false (ab_namespace b) (abs_certificate_ref (ab_spec b))) (inr ac) ∈ h /\ certIssued ac = true /\
  ran h (loadBindingMaterial ac) (inr m) /\ certificateGate m ac = true /\ checkDomainCoverage m b = None /\
  (casUploadGate (capabilitiesOf (br_registry r) b) ac m).1 = "".

Lemma observe_step_bwp h p cl tg rd ac m :
  ProviderContract p -> before_observing rd ac m h ->
  ran h (providerClient r (rd_b rd) (Some ac)) (inr (p, cl)) -> targetOf (br_registry r) (rd_orig rd) = inr tg ->
  bwp h (observe_step r p cl tg rd m) any.
Proof.
  intros Hp (Hw & Hk & Hal & Hwin & Hac & Hi & Hm & Hg & Hcov & Hup) Hcl Htg. unfold observe_step.
  apply (twp_ran cloud_read); [apply observe_reads|intros; by apply silent_allowed, cloud_read_silent|].
  intros seen h1 Hs1 Hran. assert (Hw1 : cloud_writes h1 = []).
  { rewrite <-Hw. eapply cloud_writes_since; [|exact Hs1]. apply read_harmless. }
  apply only_since_suffix in Hs1. destruct seen as [e|obs]; [by apply handleObserveError_bwp|].
  twp_step. destruct (noteObserved_follows rd) as [Hn1 Hn2]. apply (bwp_silent _ _ _ _ Hn1 Hn2).
  intros rd1 h2 Hs2 Hfo. clear Hn1 Hn2. assert (Hk1 := follows_keeps _ _ Hfo Hk). destruct Hfo as (Ho & Hs & _).
  assert (Hw2 : cloud_writes h2 = []) by (rewrite <-Hw1; by apply writes_silent).
  apply only_since_suffix in Hs2. assert (Hsuf : h `suffix_of` h2) by (by etrans).
  pose proof (fence_keeps rd1 obs) as Hf. destruct (fenceAccount rd1 obs) as [rd2|].
  { destruct Hf as [Ho2 Hf]. apply bwp_patch_return; [|apply ready_aggregate]. left. cbn. rewrite Ho2.
    by apply keeps_aggregate, Hf. }
  assert (Hacc : bs_bound_account (ab_status (rd_orig rd1)) = "" \/ bs_bound_account (ab_status (rd_orig rd1)) = ob_account_id obs).
  { destruct (proj1 Hk1) as (_ & _ & -> & _). exact Hf. }
  destruct (same_identity r _ _ obs m (proj1 Hk1)) as [_ Hia]. rewrite Ho in Hacc.
  eapply ran_suffix in Hran; [|exact Hs2]. rewrite Hia, Ho. destruct (already_applied r (rd_orig rd) obs m) eqn:Ea.
  - apply (freezeApplied_bwp _ _ _ _ _ ac p cl tg); [done|]. rewrite Ho. split; try done.
    + unfold frozen. cbn. by destruct (cap_references_cert_by_id _).
    + by eapply ran_suffix.
    + left. by apply already_applied_spec.
    + unfold frozen. cbn. by destruct (cap_references_cert_by_id _).
    + unfold frozen. cbn.
      change (capabilitiesOf (br_registry r) (on_bstatus (set_bs_applied_fingerprint (cm_fingerprint m)) (rd_orig rd)))
        with (capabilitiesOf (br_registry r) (rd_orig rd)). by destruct (cap_references_cert_by_id _).
  - apply (apply_step_bwp _ _ _ _ _ _ ac m); [done|done|done|]. rewrite Ho. apply (may_apply_suffix _ _ _ _ _ _ _ h2); [|done].
    split; try done.
    + by eapply read_alive_suffix.
    + by eapply wins_suffix.
    + by eapply elem_suffix.
    + by eapply ran_suffix.
    + exists (rd_b rd). split; [exact (proj1 Hk)|by eapply ran_suffix].
    + by apply already_applied_false.
Qed.

Lemma client_step_bwp h rd ac m : before_observing rd ac m h -> bwp h (client_step r rd ac m) any.
Proof.
  intros Hb. unfold client_step.
  apply (twp_ran client_call); [by apply providerClient_calls|intros; by apply silent_allowed, client_silent|].
  intros got h1 Hs1 Hran. assert (Hk : keeps (rd_b rd) (rd_orig rd)) by apply Hb.
  destruct got as [e|[p cl]]; [by apply handleFactoryError_bwp|].
  pose proof (ran_returns _ _ _ _ Hran (providerClient_contract _ _ _)) as Hp. cbn in Hp.
  destruct (same_target r _ _ (proj1 Hk)) as (_ & -> & _).
  destruct (targetOf (br_registry r) (rd_orig rd)) as [e|tg] eqn:Et; [by apply handleFactoryError_bwp|].
  apply (observe_step_bwp _ _ _ _ _ ac m); [done| |done|done].
  destruct Hb as (Hw & _ & Hal & Hwin & Hac & Hi & Hm & Hg & Hcov & Hup).
  assert (Hsuf : h `suffix_of` h1) by (by eapply only_since_suffix). split; [|split; [done|split; [|split]]].
  - rewrite <-Hw. eapply cloud_writes_since; [|exact Hs1]. apply client_harmless.
  - by eapply read_alive_suffix.
  - by eapply wins_suffix.
  - split; [by eapply elem_suffix|]. split; [done|]. split; [by eapply ran_suffix|done].
Qed.

Lemma gated_material_bwp h b base ac (Q : (AliyunCertificateBinding * duration) + CertMaterial -> history -> Prop) :
  keeps b base ->
  (forall h', only_since silent h h' -> forall b' d, keeps b' base -> ready_ok b' base -> Q (inl (b', d)) h') ->
  (forall h' m, only_since silent h h' -> ran h' (loadBindingMaterial ac) (inr m) -> certificateGate m ac = true ->
     checkDomainCoverage m b = None -> (casUploadGate (capabilitiesOf (br_registry r) b) ac m).1 = "" -> Q (inr m) h') ->
  bwp h (gated_material r b ac) Q.
Proof.
  intros Hk Hl Hr. unfold gated_material.
  assert (Hsec : forall o, o = OGetSecret (ac_namespace ac) (servingSecretName ac (as_secret_name (ac_status ac))) -> silent o).
  { intros ? ->. by intros []. }
  apply twp_bind. pose proof (twp_tracks any_env _ h _ h _ _ (reaches_here _ _ _)
    (all_calls_twp _ any_env (round_policy r ns name) h _ (loadBindingMaterial_calls ac)
      (fun h o H => silent_allowed r ns name h o (Hsec o H)))) as Ht.
  eapply twp_mono; [| |exact Ht]; [by intros ? ? []|]. clear Ht. intros loaded h1 [Hs Hran].
  eapply only_since_mono in Hs; [|exact Hsec]. cbn [twp].
  destruct loaded as [me|m]; [apply Hl; [done|by apply keeps_set|apply ready_false]|].
  destruct (checkDomainCoverage m b) as [me|] eqn:Ecov; [apply Hl; [done|by apply keeps_set|apply ready_false]|].
  destruct (certificateGate m ac) eqn:Eg; cbn [negb];
    [|apply Hl; [done|by apply keeps_aggregate, keeps_unapplied|apply ready_aggregate]].
  destruct (casUploadGate (capabilitiesOf (br_registry r) b) ac m) as [re msg] eqn:Eu.
  destruct (String.eqb_spec re "") as [->|]; cbn [negb];
    [|apply Hl; [done|by apply keeps_aggregate, keeps_unapplied|apply ready_aggregate]].
  apply Hr; try done; [by exists h, h1|by rewrite Eu].
Qed.

Lemma arbitrate_cases b :
  (TargetKey b = "" /\ arbitrate b = Ret (inr b)) \/
  (TargetKey b <> "" /\ arbitrate b = (let! list := call (OListBindingsByTarget (TargetKey b)) in
     Ret match list with inl e => inl e | inr items => inr (default b (pickWinner items)) end)).
Proof. unfold arbitrate. destruct (String.eqb_spec (TargetKey b) ""); [by left|by right]. Qed.

Lemma reconcileBindingReady_bwp h rd ac :
  cloud_writes h = [] -> keeps (rd_b rd) (rd_orig rd) -> read_alive ns name (rd_orig rd) h ->
  Ev (OGetAC false (ab_namespace (rd_orig rd)) (abs_certificate_ref (ab_spec (rd_orig rd)))) (inr ac) ∈ h ->
  certIssued ac = true -> bwp h (reconcileBindingReady r rd ac) any.
Proof.
  intros Hw Hk Hal Hac Hi. unfold reconcileBindingReady. cbv zeta. twp_step.
  destruct (same_target r _ _ (proj1 Hk)) as (Htk & _ & Hcap & _ & Hcov). destruct (proj1 Hk) as (Hmeta & _ & _).
  apply (twp_post _ _ _ _ (fun winner h' => only_since silent h h' /\ match winner with inr w => binding_uid w = binding_uid (rd_b rd) -> wins (rd_orig rd) h'
      | inl _ => True end)).
  { destruct (arbitrate_cases (rd_b rd)) as [[E ->]|[E ->]].
    - cbn. split; [apply only_since_refl|]. intros _. left. congruence.
    - twp_step. split; [by apply silent_allowed; intros []|]. intros list _. cbn [twp].
      split; [eexists [_]; split; [done|]; constructor; [by intros []|done]|].
      destruct list as [e|items]; [done|]. intros Hu. right. exists items. rewrite <-Htk. split; [by left|].
      unfold binding_uid in Hu |- *. destruct (pickWinner items) as [w|]; cbn in *; [congruence|done]. }
  intros [e|w] h1 [Hs1 Hwin]; [done|]. destruct (String.eqb_spec (binding_uid w) (binding_uid (rd_b rd))) as [Hu|Hu]; cbn [negb].
  2: { apply bwp_patch_return; [left; cbn; by apply keeps_aggregate, keeps_set|apply ready_aggregate]. }
  specialize (Hwin Hu). set (b1 := setBindingCondition (rd_b rd) ConditionConflict CondFalse ReasonNoConflict "").
  assert (Hk1 : keeps b1 (rd_orig rd)) by (by apply keeps_set). twp_step.
  apply (gated_material_bwp _ _ (rd_orig rd)); [done| |].
  { intros h2 _ b' d Hkb Hrb. apply bwp_patch_return; [by left|exact Hrb]. }
  intros h2 m Hs2 Hran Hg Hc Hup. apply client_step_bwp.
  pose proof (writes_silent _ _ Hs1) as Hw1. pose proof (writes_silent _ _ Hs2) as Hw2.
  apply only_since_suffix in Hs1, Hs2. assert (Hsuf : h `suffix_of` h2) by (by etrans).
  split; [cbn; congruence|]. split; [done|]. split; [|split; [|split; [|split; [done|split; [done|split; [done|]]]]]].
  - by eapply read_alive_suffix.
  - by eapply wins_suffix.
  - by eapply elem_suffix.
  - cbn [rd_orig set_rd_b]. rewrite <-Hcov, <-Hcap. split; [exact Hc|exact Hup].
Qed.

Lemma appliedLag_silent b ac : all_calls silent (appliedLag b ac).
Proof.
  unfold appliedLag. destruct ac as [ac|]; [|done]. destruct (as_current _) as [cur|]; [|done].
  destruct (_ || _); [done|]. split; [by intros []|done].
Qed.

Lemma reconcileBindingNormal_bwp h b :
  cloud_writes h = [] -> read_alive ns name b h -> bwp h (reconcileBindingNormal r (newBindingRound b)) any.
Proof.
  intros Hw Hal. unfold reconcileBindingNormal. cbv zeta.
  set (b1 := on_bstatus (set_bs_observed_generation (om_generation (ab_meta (rd_b (newBindingRound b))))) (rd_b (newBindingRound b))).
  assert (Hk : keeps b1 b) by (unfold b1; by apply (keeps_same b)). repeat twp_step.
  { apply silent_allowed. by intros []. }
  assert (Hs0 : forall x : goerr + AliyunCertificate, only_since silent h (Ev (OGetAC false (ab_namespace b1) (abs_certificate_ref (ab_spec b1))) x :: h)).
  { intros x. eexists [_]. split; [done|]. constructor; [by intros []|done]. }
  specialize (Hs0 r0). pose proof (writes_silent _ _ Hs0) as Hw0. apply only_since_suffix in Hs0.
  destruct (match r0 with inl e => if IsNotFound e then inr None else inl e | inr ac => inr (Some ac) end) as [e|ac] eqn:Eac; [done|].
  twp_step. apply (bwp_silent _ _ (fun _ => True)); [apply appliedLag_silent|apply returns_True|].
  intros lag h1 Hs1 _. pose proof (writes_silent _ _ Hs1) as Hw1. apply only_since_suffix in Hs1.
  destruct ac as [ac|]; [|apply bwp_patch_return; [left; cbn; by apply keeps_set|apply ready_false]].
  destruct (certIssued ac) eqn:Ei; cbn [negb]; [|apply bwp_patch_return; [left; cbn; by apply keeps_set|apply ready_false]].
  assert (r0 = inr ac) as -> by (destruct r0 as [e|ac']; [by destruct (IsNotFound e)|congruence]).
  assert (Hsuf : h `suffix_of` h1) by (by etrans). apply reconcileBindingReady_bwp; cbn [rd_b rd_orig set_rd_lag set_rd_b newBindingRound].
  - congruence.
  - done.
  - by eapply read_alive_suffix.
  - eapply elem_suffix; [|exact Hs1]. by left.
  - done.
Qed.

(** *** Deletion *)

(** a binding that is being deleted, as first read *)
Definition read_deleting (b0 : AliyunCertificateBinding) (h : history) : Prop :=
  Ev (OGetBinding true ns name) (inr b0) ∈ h /\ is_deleting (ab_meta b0) = true.

(** and that asks to be unbound *)
Definition unbinds (b0 : AliyunCertificateBinding) : Prop :=
  ContainsFinalizer (ab_meta b0) FinalizerName = true /\
  abs_deletion_policy (ab_spec b0) = DeletionPolicyUnbind /\ bs_applied_fingerprint (ab_status b0) <> "".

Lemma unbinding_suffix b0 b h h' : unbinding b0 b h -> h `suffix_of` h' -> unbinding b0 b h'.
Proof. intros [H|(b1 & orig & H)] Hs; [by left|right]. exists b1, orig. by eapply elem_suffix. Qed.

Lemma detached_suffix b h h' : detached r b h -> h `suffix_of` h' -> detached r b h'.
Proof.
  intros (ac & p & cl & tg & Hc & Ht & Ho) Hs. exists ac, p, cl, tg. split; [by eapply ran_suffix|]. split; [done|].
  destruct Ho as [(e & He & Hn)|(obs & Hobs & Ho)]; [left; exists e|right; exists obs]; (split; [by eapply ran_suffix|]); [done|].
  destruct Ho as [H|[H|H]]; [by left|by right; left|right; right; by eapply ran_suffix].
Qed.

Lemma settled_suffix b0 b h h' : settled r b0 b h -> h `suffix_of` h' -> settled r b0 b h'.
Proof.
  intros [H|[[Hu Hr]|(Hu & rd & e & t & now & Hb & Hr & Ht & Hn & Ha)]] Hs; [by left|right; left|right; right].
  - split; [by eapply unbinding_suffix|by eapply detached_suffix].
  - split; [by eapply unbinding_suffix|]. exists rd, e, t, now. split; [done|]. split; [by eapply ran_suffix|].
    split; [done|]. split; [by eapply elem_suffix|done].
Qed.

Lemma finishBindingDeletion_bwp h b0 rd :
  read_deleting b0 h -> settled r b0 (rd_b rd) h -> bwp h (finishBindingDeletion rd) any.
Proof.
  intros [Hg Hd] Hs. unfold finishBindingDeletion. cbv zeta. twp_step. split.
  { split; [by intros []|]. split; [done|]. split; [done|]. exists b0. split; [done|]. rewrite Hd. by exists (rd_b rd). }
  intros x _. cbn [twp]. destruct (IgnoreNotFound _); [done|]. apply bwp_silent_any.
  unfold clearBindingMetrics. repeat twp_step; by intros [].
Qed.

Lemma unbind_client_calls b : all_calls silent (unbind_client r b).
Proof.
  unfold unbind_client. twp_step; [by split; [intros []|]|].
  destruct (match a with inl e => if IsNotFound e then inr None else inl e | inr ac => inr (Some ac) end); [done|].
  twp_step; [eapply all_calls_mono; [apply client_silent|by apply providerClient_calls]|]. destruct a0; done.
Qed.

Lemma unbind_client_bwp h b :
  bwp h (unbind_client r b) (fun got h' => only_since silent h h' /\
    match got with
    | inr (p, cl, tg) => ProviderContract p /\ targetOf (br_registry r) b = inr tg /\
        exists ac, ran h' (providerClient r b ac) (inr (p, cl))
    | inl _ => True
    end).
Proof.
  eapply twp_post; [apply (twp_and _ _ (round_policy r ns name)); [apply (all_calls_twp silent); [apply unbind_client_calls|by intros; apply silent_allowed]|]|].
  2: { intros got h' [H1 H2]. split; [exact H1|exact H2]. }
  unfold unbind_client. twp_step. split; [apply silent_allowed; by intros []|]. intros got _. cbn [twp].
  destruct (match got with inl e => if IsNotFound e then inr None else inl e | inr ac => inr (Some ac) end) as [e|ac]; [done|].
  apply (twp_ran client_call); [by apply providerClient_calls|intros; by apply silent_allowed, client_silent|].
  intros [e|[p cl]] h1 Hs1 Hran; [done|]. cbn [twp].
  pose proof (ran_returns _ _ _ _ Hran (providerClient_contract _ _ _)) as Hp. cbn in Hp.
  destruct (targetOf (br_registry r) b) as [e|tg]; [done|]. eauto.
Qed.

Lemma unbindTarget_bwp h b0 rd :
  cloud_writes h = [] -> read_deleting b0 h -> unbinds b0 -> unbinding b0 (rd_b rd) h ->
  bwp h (unbindTarget r rd) any.
Proof.
  intros Hw Hd (Hfin & Hpol & Hfp) Hu. unfold unbindTarget. cbv zeta. twp_step.
  eapply twp_post; [apply unbind_client_bwp|]. intros got h1 [Hs1 Hgot]. cbv beta.
  destruct got as [e|[[p cl] tg]]; [done|]. destruct Hgot as (Hp & Htg & ac & Hcl).
  pose proof (writes_silent _ _ Hs1) as Hw1. apply only_since_suffix in Hs1.
  apply (twp_ran cloud_read); [apply observe_reads|intros; by apply silent_allowed, cloud_read_silent|].
  intros seen h2 Hs2 Hran. assert (Hw2 : cloud_writes h2 = []).
  { rewrite <-Hw, <-Hw1. eapply cloud_writes_since; [|exact Hs2]. apply read_harmless. }
  apply only_since_suffix in Hs2. assert (Hsuf : h `suffix_of` h2) by (by etrans).
  destruct seen as [e|obs]; [done|].
  destruct (String.eqb_spec (bs_bound_account (ab_status (rd_b rd))) "") as [Eb|Nb],
    (String.eqb_spec (bs_bound_account (ab_status (rd_b rd))) (ob_account_id obs)) as [Ea|Na]; cbn [negb andb]; try done.
  all: destruct (String.eqb_spec (id_current (identityOf (br_registry r) (rd_b rd) obs no_material))
    (id_applied (identityOf (br_registry r) (rd_b rd) obs no_material))) as [Ei|Ni]; cbn [negb]; [|done].
  all: assert (Hmc : may_cleanup r ns name b0 (rd_b rd) p cl tg obs h2) by (destruct Hd as [Hd1 Hd2]; split; try done;
    [by eapply elem_suffix|by eapply unbinding_suffix|exists ac; by eapply ran_suffix|auto]).
  all: apply bwp_write; [apply cleanup_cloud|apply cleanup_writes_once|done| |done].
  all: intros h' o k Hr; right; by exists b0, (rd_b rd), p, cl, tg, obs, h2, k.
Qed.

Lemma unbindTarget_detached h rd :
  twp any_env any_call h (unbindTarget r rd) (fun err h' => err = None -> detached r (rd_b rd) h').
Proof using All.
  unfold unbindTarget. cbv zeta. twp_step. eapply twp_mono; [| |apply unbind_client_bwp]; [done|].
  intros [e|[[p cl] tg]] h1 [Hs1 Hgot]; [done|]. cbv beta. destruct Hgot as (Hp & Htg & ac & Hcl).
  apply (twp_ran cloud_read); [apply observe_reads|done|]. intros seen h2 Hs2 Hobs. apply only_since_suffix in Hs2.
  apply (ran_suffix _ h2) in Hcl; [|done]. destruct seen as [e|obs].
  { cbn [twp]. destruct (has_code CodeTargetNotFound e) eqn:En; [|done]. intros _. exists ac, p, cl, tg.
    split; [done|]. split; [done|]. left. by exists e. }
  assert (Hdet : forall h3, h2 `suffix_of` h3 ->
    (bs_bound_account (ab_status (rd_b rd)) <> "" /\ bs_bound_account (ab_status (rd_b rd)) <> ob_account_id obs \/
     id_current (identityOf (br_registry r) (rd_b rd) obs no_material) <> id_applied (identityOf (br_registry r) (rd_b rd) obs no_material) \/
     ran h3 (pv_cleanup p tg cl DeletionPolicyUnbind) None) -> detached r (rd_b rd) h3).
  { intros h3 Hs3 Hd. exists ac, p, cl, tg. split; [by eapply ran_suffix|]. split; [done|]. right. exists obs.
    split; [by eapply ran_suffix|done]. }
  destruct (String.eqb_spec (bs_bound_account (ab_status (rd_b rd))) "") as [|Nb],
    (String.eqb_spec (bs_bound_account (ab_status (rd_b rd))) (ob_account_id obs)) as [|Na]; cbn [negb andb].
  4: { intros _. apply Hdet; [done|]. by left. }
  all: destruct (String.eqb_spec (id_current (identityOf (br_registry r) (rd_b rd) obs no_material))
    (id_applied (identityOf (br_registry r) (rd_b rd) obs no_material))) as [|Ni]; cbn [negb];
    [|intros _; apply Hdet; [done|by right; left]].
  all: eapply twp_mono; [| |exact (twp_tracks any_env any_call h2 _ h2 _ _ (reaches_here _ _ _)
    (twp_trivial any_env h2 (pv_cleanup p tg cl DeletionPolicyUnbind)))]; [done|].
  all: intros err h3 [_ Hr] ->; apply Hdet; [by eapply reaches_suffix|right; right; by exists h2, h3].
Qed.

Lemma unbind_started_bwp h b0 rd :
  rd_b rd = b0 -> rd_orig rd = b0 -> bwp h (unbind_started rd) (fun res h' => cloud_writes h' = cloud_writes h /\ h `suffix_of` h' /\
    match res with inr rd' => unbinding b0 (rd_b rd') h' /\ rd_orig rd' = rd_b rd' | inl _ => True end).
Proof.
  intros Hb Ho. unfold unbind_started. destruct (bs_cleanup_started (ab_status (rd_b rd))) as [t|] eqn:E.
  { cbn. split; [done|]. split; [done|]. split; [left; rewrite Hb in E |- *; split; [done|by rewrite E]|congruence]. }
  twp_step. split; [apply silent_allowed; by intros []|]. intros now _. cbn [twp]. cbv zeta. twp_step.
  apply bwp_patchStatus.
  - left. cbn. rewrite Hb, Ho. by apply (keeps_same b0).
  - intros _. right. cbn. by rewrite Hb, Ho.
  - intros x. assert (Hsuf : h `suffix_of` Ev (OPatchBindingStatus (rd_b (set_rd_b (on_bstatus (set_bs_cleanup_started (Some now)) (rd_b rd)) rd))
      (rd_orig (set_rd_b (on_bstatus (set_bs_cleanup_started (Some now)) (rd_b rd)) rd))) x :: Ev ONow now :: h) by (by eexists [_; _]).
    destruct x as [e|b]; cbn [twp]; [done|]. split; [done|]. split; [done|]. split; [|done]. right. eexists _, _. by left.
Qed.

Lemma unbind_failed_bwp h b0 rd e :
  read_deleting b0 h -> unbinding b0 (rd_b rd) h -> rd_orig rd = rd_b rd -> ran h (unbindTarget r rd) (Some e) ->
  bwp h (unbind_failed r rd e) any.
Proof.
  intros Hd Hu Ho Hran. unfold unbind_failed. cbv zeta. twp_step. split; [apply silent_allowed; by intros []|].
  intros now _. cbn [twp]. destruct (bs_cleanup_started (ab_status (rd_b rd))) as [t|] eqn:Et; [|done].
  destruct (shouldAbandonCleanup _ _ _) eqn:Ea; cbn [negb].
  - unfold Event. twp_step. split; [apply silent_allowed; by intros []|]. intros [] _. cbn [twp].
    twp_step. split; [apply silent_allowed; by intros []|]. intros [] _. cbn [twp].
    apply (finishBindingDeletion_bwp _ b0).
    + destruct Hd as [Hd1 Hd2]. split; [|done]. by do 3 right.
    + apply (settled_suffix _ _ (Ev ONow now :: h)); [|by eexists [_; _]].
      right. right. split; [by eapply unbinding_suffix; [|eexists [_]]|]. exists rd, e, t, now. split; [done|].
      split; [by eapply ran_suffix; [|eexists [_]]|]. split; [done|]. split; [by left|done].
  - twp_step. apply bwp_patchStatus.
    + left. cbn. rewrite Ho. by apply keeps_set.
    + cbn. rewrite Ho. apply ready_false.
    + intros [pe|b]; [done|]. apply bwp_silent_any. unfold recordBindingReadiness. repeat twp_step; by intros [].
Qed.

Lemma reconcileBindingDelete_bwp h b0 :
  cloud_writes h = [] -> read_deleting b0 h -> bwp h (reconcileBindingDelete r (newBindingRound b0)) any.
Proof.
  intros Hw Hd. unfold reconcileBindingDelete. cbn [rd_b newBindingRound].
  destruct (ContainsFinalizer (ab_meta b0) FinalizerName) eqn:Hfin; cbn [negb]; [|done].
  destruct (String.eqb_spec (abs_deletion_policy (ab_spec b0)) DeletionPolicyUnbind) as [Hp|Hp]; cbn [negb].
  2: { apply (finishBindingDeletion_bwp _ b0); [done|]. left. split; [done|by left]. }
  destruct (String.eqb_spec (bs_applied_fingerprint (ab_status b0)) "") as [Hf|Hf].
  { apply (finishBindingDeletion_bwp _ b0); [done|]. left. split; [done|by right]. }
  twp_step. eapply twp_post; [by apply (unbind_started_bwp h b0)|]. intros [e|rd] h1 (Hw1 & Hs1 & Hrd); [done|].
  destruct Hrd as [Hu Ho]. assert (Hd1 : read_deleting b0 h1) by (destruct Hd as [H1 H2]; split; [by eapply elem_suffix|done]).
  twp_step. pose proof (twp_tracks any_env _ h1 _ h1 _ _ (reaches_here _ _ _)
    (unbindTarget_bwp h1 b0 rd ltac:(congruence) Hd1 ltac:(done) Hu)) as Ht.
  eapply twp_mono; [| |exact Ht]; [by intros ? ? []|]. clear Ht. intros err h2 [_ Hr]. cbv beta.
  pose proof (reaches_suffix _ _ _ _ _ Hr) as Hs2. assert (Hran : ran h2 (unbindTarget r rd) err) by (by exists h1, h2).
  assert (Hd2 : read_deleting b0 h2) by (destruct Hd1 as [H1 H2]; split; [by eapply elem_suffix|done]).
  assert (Hu2 : unbinding b0 (rd_b rd) h2) by (by eapply unbinding_suffix).
  destruct err as [e|]; [by apply (unbind_failed_bwp _ b0)|].
  apply (finishBindingDeletion_bwp _ b0); [done|]. right. left. split; [done|].
  exact (twp_returns _ _ _ _ _ _ _ (unbindTarget_detached h1 rd) Hr eq_refl).
Qed.

Lemma BindingReconcile_bwp : bwp [] (BindingReconcile r ns name) any.
Proof.
  unfold BindingReconcile. twp_step. split; [apply silent_allowed; by intros []|]. intros [e|b] _; cbn [twp]; [done|].
  destruct (is_deleting (ab_meta b)) eqn:Ed.
  { apply reconcileBindingDelete_bwp; [done|]. split; [by left|done]. }
  destruct (ContainsFinalizer (ab_meta b) FinalizerName) eqn:Ef; cbn [negb].
  { apply reconcileBindingNormal_bwp; [done|]. left. split; [by left|done]. }
  twp_step. split.
  { split; [by intros []|]. do 2 (split; [done|]). exists b. split; [by left|]. by rewrite Ed. }
  intros [e|b'] _; cbn [twp]; [done|]. apply reconcileBindingNormal_bwp; [done|]. right. exists b.
  split; [right; by left|]. split; [done|by left].
Qed.

End round.
