(* ===== verification/BindingTheorems.v ===== *)
(** * Properties of a whole round of the binding controller *)
From S2P Require Import Prelude GoString GoTime Api GoError Cloud KubeLib Effects Bundle Samples CertStatus CertMaterial.
From S2P Require Import CertUpload CertDeletion Provider ProviderFC3 ProviderOSS Clients BindingStatus BindingMaterial.
From S2P Require Import BindingObserve BindingController BindingSafety.

#[local] Open Scope prog_scope.

(** ** Properties *)

Lemma all_allowed_mono (P P' : policy) h : (forall h o, P h o -> P' h o) -> all_allowed P h -> all_allowed P' h.
Proof. intros HP. induction h as [|e h IH]; [done|]. intros [H1 H2]. split; auto. Qed.

Definition sample_binding_reconciler : BindingReconciler :=
  mkBindingReconciler sample_registry (Some (NewProviderFactory sample_registry)) (30 * minute) (1 * hour) CleanupPolicyAbandon.

#[export] Instance sample_binding_reconciler_ok : BindingFactoryOk sample_binding_reconciler.
Proof. apply NewProviderFactory_ok; [exact (@builtin_lawful toy_crypto)|reflexivity]. Qed.

Definition issued_ac : AliyunCertificate :=
  on_status (fun s => set_as_conditions [sample_cond ConditionIssued CondTrue ReasonReady]
    (set_as_current (Some (sample_gen "leaf" (Some 7%Z) 0)) s)) sample_ac.

Definition other_domain : CustomDomain := mkCustomDomain "acct" "leaf" "HTTP" "" "" EchoNil.

(** a world with one binding, an issued certificate, and a domain without a certificate *)
Definition binding_world (b : AliyunCertificateBinding) (cd : goerr + CustomDomain) : handler unit := fun _ o =>
  match o return resp o * unit with
  | OGetBinding _ _ _ => (inr b, tt)
  | OUpdateBinding b => (inr b, tt)
  | OPatchBindingStatus b _ => (inr b, tt)
  | OListBindingsByTarget _ => (inr [b], tt)
  | OGetAC _ _ _ => (inr issued_ac, tt)
  | OGetSecret ns name =>
      (if String.eqb name "creds" then inr sample_creds_secret else inr (sample_secret name "leaf"), tt)
  | ONewCredential _ | ONewProviderClient _ => (None, tt)
  | OGetCustomDomain _ _ => (cd, tt)
  | OUpdateCustomDomain _ _ _ => (None, tt)
  | o => (failed_resp o, tt)
  end.

Abbreviation binding_run b cd := (exec (binding_world b cd) tt []
  (@BindingReconcile (ref_kube 0) toy_crypto sample_binding_reconciler "prod" "bind")).

Definition sample_binding : AliyunCertificateBinding := sample_binding_for sample_fc3_target.

Lemma round_allowed `{KL : KubeLibLaws} `{Cr : Crypto} (r : BindingReconciler) `{!BindingFactoryOk r} ns name (P : policy)
    (h : history) (rest : prog Result) :
  (forall h o, round_policy r ns name h o -> P h o) ->
  reaches any_env [] (BindingReconcile r ns name) h rest -> all_allowed P h.
Proof.
  intros HP Hr. eapply all_allowed_mono; [exact HP|]. eapply twp_reaches_allowed; [by apply BindingReconcile_bwp|exact I|exact Hr].
Qed.

(** C6: a write to a target is never made without cause.  In every run of a whole round,
    also one that crashes midway, the cloud is written at most once, and only as a
    step of: Apply, for a live binding that holds the finalizer and has the best
    claim to the target, with material read in this round that its issued
    certificate vouches for and that covers the domain, to a target observed in this
    round to be in the account of the first application and not right already; or
    Cleanup, for a binding in deletion that asks to be unbound and was applied, of a
    target observed in this round to be in that account with our certificate on it. *)
Theorem target_writes_are_gated `{KL : KubeLibLaws} `{Cr : Crypto} (r : BindingReconciler) `{!BindingFactoryOk r}
    (ns name : string) (h : history) (rest : prog Result) :
  reaches any_env [] (BindingReconcile r ns name) h rest -> all_allowed (gated r ns name) h.
Proof. apply (round_allowed r ns name _ h rest). by intros h' o []. Qed.

Lemma target_writes_are_gated_witness :
  let run := binding_run sample_binding (inr other_domain) in
  length (cloud_writes run.1.2) = 1 /\
  all_allowed (@gated (ref_kube 0) toy_crypto sample_binding_reconciler "prod" "bind") run.1.2.
Proof.
  split; [vm_compute; reflexivity|].
  exact (@target_writes_are_gated (ref_kube 0) (ref_kube_laws 0) toy_crypto sample_binding_reconciler _ "prod" "bind" _ _
    (exec_reaches (binding_world sample_binding (inr other_domain)) any_env [] tt _ (fun _ _ _ => I))).
Defined.

(** C12: what the status says was applied was applied.  Every status write of a round
    either leaves the record of the last application (fingerprint, CAS reference,
    account) as the API server has it and does not turn Applied to True, or records
    material read in this round that the target was observed to show ([in_place]: the
    fingerprint, or the reference in CAS, of the material, and HTTPS where it is asked
    for), or that Apply wrote there with success, in the account of the first application. *)
Theorem applied_is_confirmed `{KL : KubeLibLaws} `{Cr : Crypto} (r : BindingReconciler) `{!BindingFactoryOk r}
    (ns name : string) (h : history) (rest : prog Result) :
  reaches any_env [] (BindingReconcile r ns name) h rest -> all_allowed (claims r) h.
Proof. apply (round_allowed r ns name _ h rest). by intros h' o (_ & Hc & _). Qed.

(** the object of the last status write of a history *)
Fixpoint last_binding_patch (h : history) : option AliyunCertificateBinding :=
  match h with
  | [] => None
  | e :: h => match ev_op e with OPatchBindingStatus b _ => Some b | _ => last_binding_patch h end
  end.

Lemma applied_is_confirmed_witness :
  let run := binding_run sample_binding (inr other_domain) in
  (b ← last_binding_patch run.1.2; Some (bs_applied_fingerprint (ab_status b))) = Some (toy_digest "leaf") /\
  all_allowed (@claims (ref_kube 0) toy_crypto sample_binding_reconciler) run.1.2.
Proof.
  split; [vm_compute; reflexivity|].
  exact (@applied_is_confirmed (ref_kube 0) (ref_kube_laws 0) toy_crypto sample_binding_reconciler _ "prod" "bind" _ _
    (exec_reaches (binding_world sample_binding (inr other_domain)) any_env [] tt _ (fun _ _ _ => I))).
Defined.

(** Ready of a binding is never claimed wrongly: each status write of a round that
    says Ready=True is of an object with Applied=True and no Conflict, or leaves
    Ready as the API server has it. *)
Theorem binding_Ready_is_honest `{KL : KubeLibLaws} `{Cr : Crypto} (r : BindingReconciler) `{!BindingFactoryOk r}
    (ns name : string) (h : history) (rest : prog Result) :
  reaches any_env [] (BindingReconcile r ns name) h rest -> all_allowed binding_honest h.
Proof. apply (round_allowed r ns name _ h rest). by intros h' o (_ & _ & Hh & _). Qed.

Lemma binding_Ready_is_honest_witness :
  let run := binding_run sample_binding (inr other_domain) in
  (b ← last_binding_patch run.1.2; Some (@bindingCondTrue (ref_kube 0) b ConditionReady)) = Some true /\
  all_allowed (@binding_honest (ref_kube 0)) run.1.2.
Proof.
  split; [vm_compute; reflexivity|].
  exact (@binding_Ready_is_honest (ref_kube 0) (ref_kube_laws 0) toy_crypto sample_binding_reconciler _ "prod" "bind" _ _
    (exec_reaches (binding_world sample_binding (inr other_domain)) any_env [] tt _ (fun _ _ _ => I))).
Defined.

(** C15: the finalizer of a binding in deletion goes only when the target is settled:
    there was nothing to unbind; or the target was observed in this round to be gone,
    in another account, or with a certificate that is not ours; or Cleanup reported
    success; or the unbinding failed after the grace period under a policy that gives
    up.  All other updates of a round are the one that adds the finalizer. *)
Theorem finalizer_waits_for_unbinding `{KL : KubeLibLaws} `{Cr : Crypto} (r : BindingReconciler) `{!BindingFactoryOk r}
    (ns name : string) (h : history) (rest : prog Result) :
  reaches any_env [] (BindingReconcile r ns name) h rest -> all_allowed (released r ns name) h.
Proof. apply (round_allowed r ns name _ h rest). by intros h' o (_ & _ & _ & Hh). Qed.

(** a binding in deletion whose certificate is on the target *)
Definition sample_deleted : AliyunCertificateBinding :=
  set_ab_meta (mkObjectMeta "prod" "bind" "uid-b" "7" 3 0 (Some 5%Z) [FinalizerName] ∅ ∅)
    (on_bstatus (fun s => set_bs_bound_account "acct" (set_bs_applied_fingerprint (toy_digest "leaf") s)) sample_binding).

Definition bound_domain : CustomDomain :=
  mkCustomDomain "acct" "leaf" "HTTPS" "k8s-leaf" (frame "CERTIFICATE" (frame "leaf" "")) EchoNil.

Lemma finalizer_waits_for_unbinding_witness :
  let run := binding_run sample_deleted (inr bound_domain) in
  length (cloud_writes run.1.2) = 1 /\
  length (List.filter (fun e => match ev_op e with OUpdateBinding _ => true | _ => false end) run.1.2) = 1 /\
  all_allowed (@released (ref_kube 0) toy_crypto sample_binding_reconciler "prod" "bind") run.1.2.
Proof.
  split; [vm_compute; reflexivity|]. split; [vm_compute; reflexivity|].
  exact (@finalizer_waits_for_unbinding (ref_kube 0) (ref_kube_laws 0) toy_crypto sample_binding_reconciler _ "prod" "bind" _ _
    (exec_reaches (binding_world sample_deleted (inr bound_domain)) any_env [] tt _ (fun _ _ _ => I))).
Defined.

(** *** Progress *)

(** an error makes controller-runtime retry with backoff; otherwise a delay is asked for *)
Definition binding_rescheduled (r : BindingReconciler) (res : Result) : Prop :=
  (exists e, res.2 = Some e) \/
  res.1 ∈ [br_drift_interval r; targetNotFoundRequeue; credentialsRequeue; certificateGateRequeue].

Section progress.
  Context `{K : KubeLib} `{Cr : Crypto} (r : BindingReconciler).

Abbreviation again := (returns (binding_rescheduled r)).

Lemma again_bind {A} (p : prog A) (f : A -> prog Result) : (forall a, again (f a)) -> again (bind p f).
Proof. intros Hf. apply (returns_bind_post (fun _ => True)); [apply returns_True|auto]. Qed.

Lemma again_patch d rd :
  d ∈ [br_drift_interval r; targetNotFoundRequeue; credentialsRequeue; certificateGateRequeue] ->
  again (patch_binding_and_return d rd).
Proof. intros Hd. unfold patch_binding_and_return. apply again_bind. intros a. by right. Qed.

(** the tail of the error handlers: an error of the patch comes first *)
Lemma again_patched rd (f : prog Result) res :
  binding_rescheduled r res ->
  again (let! patched := patchBinding rd in Ret match patched with inl perr => (0%Z, Some perr) | inr _ => res end).
Proof. intros Hr. apply again_bind. intros [perr|b]; [left; by exists perr|exact Hr]. Qed.

Lemma again_handleObserveError rd e : again (handleObserveError r rd e).
Proof.
  unfold handleObserveError. destruct (has_code _ _); [apply again_patch; set_solver|].
  destruct (has_code _ _); [apply again_patch; set_solver|]. destruct (noteObserveFailed _) as [noted b]. cbv zeta.
  apply again_bind. intros _. apply again_bind. intros [perr|b']; [left; by exists perr|].
  destruct (is_retryable e); [left; by exists e|right; cbn; set_solver].
Qed.

Lemma again_handleApplyError rd e : again (handleApplyError r rd e).
Proof.
  unfold handleApplyError. cbv zeta. apply again_bind. intros _. apply again_bind. intros [perr|b']; [left; by exists perr|].
  destruct (is_retryable e); [left; by exists e|]. destruct (has_code _ _); right; cbn; set_solver.
Qed.

Lemma again_handleFactoryError rd e : again (handleFactoryError rd e).
Proof. unfold handleFactoryError. destruct (errors_as _ _) as [[re ce]|]; apply again_patch; set_solver. Qed.

Lemma again_observe_step p cl tg rd m : again (observe_step r p cl tg rd m).
Proof.
  unfold observe_step. apply again_bind. intros [e|obs]; [apply again_handleObserveError|]. apply again_bind. intros rd1.
  destruct (fenceAccount rd1 obs); [apply again_patch; set_solver|]. destruct (already_applied _ _ _ _).
  { apply again_bind. intros rd2. apply again_patch. set_solver. }
  unfold apply_step. apply again_bind. intros rd2. apply again_bind. intros aerr. apply again_bind. intros _.
  destruct aerr as [e|]; [apply again_handleApplyError|]. apply again_bind. intros rd3. apply again_patch. set_solver.
Qed.

Lemma again_gated_material b ac :
  returns (fun g => match g with inl (_, d) => d = br_drift_interval r \/ d = certificateGateRequeue | inr _ => True end)
    (gated_material r b ac).
Proof.
  unfold gated_material. eapply returns_bind_post; [apply returns_True|]. intros [me|m] _; [by left|].
  cbn [returns]. destruct (checkDomainCoverage m b); [by left|]. destruct (negb _); [by right|].
  destruct (casUploadGate _ ac m) as [re msg]. destruct (negb _); [|done]. destruct (String.eqb _ _); auto.
Qed.

Lemma reconcileBindingNormal_again rd : again (reconcileBindingNormal r rd).
Proof.
  unfold reconcileBindingNormal. cbv zeta. apply again_bind. intros got.
  destruct (match got with inl e => if IsNotFound e then inr None else inl e | inr ac => inr (Some ac) end) as [e|ac];
    [left; by exists e|].
  apply again_bind. intros lag. destruct ac as [ac|]; [|apply again_patch; set_solver].
  destruct (negb _); [apply again_patch; set_solver|]. unfold reconcileBindingReady. apply again_bind.
  intros [e|w]; [left; by exists e|]. destruct (negb _); [apply again_patch; set_solver|].
  eapply returns_bind_post; [apply again_gated_material|]. intros [[b d]|m] Hd; [apply again_patch; set_solver|].
  unfold client_step. apply again_bind. intros [e|[p cl]]; [apply again_handleFactoryError|].
  destruct (targetOf _ _); [apply again_handleFactoryError|apply again_observe_step].
Qed.

End progress.

(** A live binding is never forgotten: every run of its round ends with an error to
    retry, or with a requeue after the drift interval, five minutes, or the half
    minute of the certificate gate. *)
Theorem binding_rounds_are_rescheduled `{K : KubeLib} `{Cr : Crypto} (r : BindingReconciler) (rd : bindingRound) :
  returns (binding_rescheduled r) (reconcileBindingNormal r rd).
Proof. apply reconcileBindingNormal_again. Qed.

(** the clock is past the grace period that began at [t], and the API server takes updates *)
Definition unbind_time_up (grace : duration) (t : gotime) : environment := fun _ o x =>
  match o return resp o -> Prop with
  | ONow => fun now => (grace <= time_sub now t)%Z
  | OUpdateBinding _ => fun x => exists b, x = inr b
  | _ => fun _ => True
  end x.

(** C23: an unbinding cannot be blocked forever by the cloud: under any policy but Block,
    once the grace period since the recorded start has passed, the round of a binding
    in deletion removes the finalizer and ends without an error, whatever the cloud,
    the certificate and the credentials Secret answer. *)
Theorem unbinding_is_bounded `{K : KubeLib} (r : BindingReconciler) (b : AliyunCertificateBinding)
    (t : gotime) (h : history) :
  bs_cleanup_started (ab_status b) = Some t -> br_cleanup_failure_policy r <> CleanupPolicyBlock ->
  twp (unbind_time_up (br_cleanup_grace_period r) t) any_call h (reconcileBindingDelete r (newBindingRound b)) (fun res h' =>
    res = (0%Z, None) /\
    (ContainsFinalizer (ab_meta b) FinalizerName = true ->
       exists b', Ev (OUpdateBinding (set_ab_meta (RemoveFinalizer (ab_meta b) FinalizerName) b)) (inr b') ∈ h')).
Proof.
  intros Ht Hp. match goal with |- twp ?e _ _ _ ?q => set (E := e); set (Q := q) end.
  assert (Hfin : forall h rd, rd_b rd = b -> twp E any_call h (finishBindingDeletion rd) Q).
  { intros h1 rd Hb. unfold finishBindingDeletion. cbv zeta. rewrite Hb. twp_step. split; [exact I|].
    intros x [b' ->]. cbn [twp err_of IgnoreNotFound]. unfold clearBindingMetrics. repeat twp_step.
    split; [done|]. intros _. exists b'. set_solver. }
  unfold reconcileBindingDelete. cbn [rd_b newBindingRound].
  destruct (ContainsFinalizer (ab_meta b) FinalizerName) eqn:Ef; cbn [negb]; [|by split].
  destruct (negb _); [by apply Hfin|]. destruct (String.eqb _ ""); [by apply Hfin|].
  unfold unbind_started. cbn [rd_b newBindingRound]. rewrite Ht. cbn [bind]. twp_step.
  eapply twp_post; [apply twp_trivial|]. intros [e|] h1 _; [|by apply Hfin].
  unfold unbind_failed. cbn [rd_b newBindingRound]. cbv zeta. twp_step. split; [exact I|]. intros now Hnow. cbn [twp]. rewrite Ht.
  assert (Ha : shouldAbandonCleanup (br_cleanup_failure_policy r) (time_sub now t) (br_cleanup_grace_period r) = true).
  { unfold shouldAbandonCleanup. apply andb_true_iff. split; [by apply negb_true_iff, String.eqb_neq|by apply Z.leb_le]. }
  rewrite Ha. cbn [negb]. unfold Event. repeat twp_step. by apply Hfin.
Qed.

(** the target cannot even be read, two hours after the start *)
Lemma unbinding_is_bounded_witness :
  let w : handler unit := fun s o => match o return resp o * unit with
    | ONow => ((2 * hour)%Z, tt) | o => binding_world sample_deleted (inl (EAliyun ClassRetryable "GetCustomDomain" "x" EDeadline)) s o end in
  let b := on_bstatus (set_bs_cleanup_started (Some 0%Z)) sample_deleted in
  let run := exec w tt [] (@reconcileBindingDelete (ref_kube 0) sample_binding_reconciler (newBindingRound b)) in
  cloud_writes run.1.2 = [] /\ run.1.1 = (0%Z, None).
Proof.
  intros w b run. split; [vm_compute; reflexivity|].
  assert (HE : forall s h o, unbind_time_up (br_cleanup_grace_period sample_binding_reconciler) 0 h o (w s o).1).
  { intros s h o. destruct o; try exact I; [by eexists|]. vm_compute. by intros [=]. }
  exact (proj1 (twp_exec_env w _ _ [] tt _ _ HE
    (@unbinding_is_bounded (ref_kube 0) sample_binding_reconciler b 0%Z [] eq_refl ltac:(done)))).
Defined.

(** *** A fence that does not hold *)

(** a binding fenced in the round before: its target moved to another account *)
Definition fenced_binding : AliyunCertificateBinding :=
  on_bstatus (fun s => set_bs_conditions
    [sample_cond ConditionApplied CondTrue ReasonApplied; sample_cond ConditionConflict CondTrue ReasonAccountMismatch;
     sample_cond ConditionReady CondFalse ReasonAccountMismatch]
    (set_bs_bound_account "first" (set_bs_applied_fingerprint (toy_digest "leaf") s))) sample_binding.

Definition verdicts (b : AliyunCertificateBinding) : bool * bool :=
  (@bindingCondTrue (ref_kube 0) b ConditionReady, @bindingCondTrue (ref_kube 0) b ConditionConflict).

(** A failed observation takes the account fence down.  The binding was fenced by the
    round before (Conflict=True, Ready=False).  A round that observes the foreign
    account keeps it so; a round whose observation merely fails writes Ready=True
    and Conflict=False, because the arbitration resets the condition before the
    target is looked at and only a successful observation puts it up again. *)
Theorem observe_failure_clears_fence :
  verdicts fenced_binding = (false, true) /\
  verdicts <$> last_binding_patch (binding_run fenced_binding (inr bound_domain)).1.2 = Some (false, true) /\
  verdicts <$> last_binding_patch (binding_run fenced_binding (inl EDeadline)).1.2 = Some (true, false).
Proof. vm_compute. repeat split; reflexivity. Qed.
