(* ===== verification/Metrics.v ===== *)
(** * The metric vectors (internal/controller/metrics.go)

    The vectors that are registered, with their labels, and the calls of the
    controllers on them.  A vector panics when it is given another number of label
    values than it has labels, and the comment of the [result] constants promises that
    the label takes no other values. *)
From S2P Require Import Prelude GoString GoTime Api GoError Cloud KubeLib Effects Bundle Issuer Samples CertStatus.
From S2P Require Import CertMaterial CertUpload CertProbe CertRetention CertDeletion CertController CertTheorems Provider.
From S2P Require Import ProviderFC3 ProviderOSS Clients BindingStatus BindingMaterial BindingObserve BindingController.
From S2P Require Import BindingSafety BindingTheorems.

#[local] Open Scope prog_scope.

(** ** Definitions *)

Inductive metric_kind : Type := GaugeVec | CounterVec | HistogramVec.

Record metric_vec : Type := mkVec {
  mv_name : string;
  mv_kind : metric_kind;
  mv_labels : list string
}.

Definition labelResult : string := "result".
Definition labelProvider : string := "provider".
Definition labelNamespace : string := "namespace".
Definition crLabels : list string := [labelNamespace; "name"].

Definition certNotAfter : metric_vec := mkVec metric_not_after GaugeVec crLabels.
Definition certReadyGauge : metric_vec := mkVec metric_cert_ready GaugeVec crLabels.
Definition certIssuanceStalled : metric_vec := mkVec metric_issuance_stalled GaugeVec crLabels.
Definition issuerDefaultDiverged : metric_vec := mkVec metric_issuer_diverged GaugeVec crLabels.
Definition casUploadTotal : metric_vec := mkVec metric_cas_upload CounterVec [labelResult].
Definition casDeleteTotal : metric_vec := mkVec metric_cas_delete CounterVec [labelResult].
Definition certManagerCertRecreatedTotal : metric_vec := mkVec metric_cert_recreated CounterVec crLabels.
Definition cleanupAbandonedTotal : metric_vec := mkVec metric_cleanup_abandoned CounterVec ["region"; "reason"].
Definition secretDeletionSkippedTotal : metric_vec := mkVec metric_secret_skipped CounterVec [labelNamespace].
Definition aliyunAPIRequestsTotal : metric_vec :=
  mkVec "aliyuncert_aliyun_api_requests_total" CounterVec ["service"; "action"; "code"].
Definition aliyunAPIDuration : metric_vec :=
  mkVec "aliyuncert_aliyun_api_duration_seconds" HistogramVec ["service"; "action"].
Definition bindingReadyGauge : metric_vec := mkVec metric_binding_ready GaugeVec crLabels.
Definition bindingConflictGauge : metric_vec := mkVec metric_binding_conflict GaugeVec crLabels.
Definition bindingAppliedAge : metric_vec := mkVec metric_binding_applied_age GaugeVec [labelNamespace; "name"; labelProvider].
Definition bindingApplyTotal : metric_vec := mkVec metric_binding_apply CounterVec [labelProvider; labelResult].
Definition bindingDriftTotal : metric_vec := mkVec metric_binding_drift CounterVec [labelProvider].

(** the arguments of [MustRegister] in [init] *)
Definition initVectors : list metric_vec :=
  [certNotAfter; certReadyGauge; certIssuanceStalled; issuerDefaultDiverged;
   casUploadTotal; casDeleteTotal; certManagerCertRecreatedTotal; cleanupAbandonedTotal;
   secretDeletionSkippedTotal;
   aliyunAPIRequestsTotal; aliyunAPIDuration;
   bindingReadyGauge; bindingConflictGauge; bindingAppliedAge; bindingApplyTotal; bindingDriftTotal].

(** [MustRegister] panics on a name that is registered already *)
Fixpoint MustRegister (seen : list string) (l : list metric_vec) : option (list string) :=
  match l with
  | [] => Some seen
  | v :: l => if existsb (String.eqb (mv_name v)) seen then None else MustRegister (mv_name v :: seen) l
  end.

(** what one call of the hook records: a count, and a duration *)
Definition aliyunAPICallRecorder (service action code : string) (d : duration) : list (metric_vec * list string) :=
  [(aliyunAPIRequestsTotal, [service; action; code]); (aliyunAPIDuration, [service; action])].

(** ** What a call on a vector may be *)

(** the values of [result] are fixed; the other labels name objects, regions and
    providers *)
Definition label_ok (label value : string) : Prop :=
  if String.eqb label labelResult then value ∈ [resultSuccess; resultThrottled; resultError] else True.

Definition on_vector (kind : metric_kind) (metric : string) (values : list string) : Prop :=
  exists v, v ∈ initVectors /\ mv_name v = metric /\ mv_kind v = kind /\ Forall2 label_ok (mv_labels v) values.

Definition metric_ok (o : op) : Prop :=
  match o with
  | OCounterInc m l => on_vector CounterVec m l
  | OGaugeSet m l _ => on_vector GaugeVec m l
  | OGaugeDelete m l => on_vector GaugeVec m l
  | _ => True
  end.

(** ** Lemmas *)

Lemma on_vector_of v (kind : metric_kind) metric values :
  v ∈ initVectors -> mv_name v = metric -> mv_kind v = kind -> Forall2 label_ok (mv_labels v) values ->
  on_vector kind metric values.
Proof. by exists v. Qed.

Lemma casResult_ok err : label_ok labelResult (casResult err).
Proof. unfold label_ok, casResult. cbn [String.eqb]. rewrite String.eqb_refl. destruct err as [e|]; [destruct (throttling_code e)|]; set_solver. Qed.

Lemma bindingApplyResult_ok err : label_ok labelResult (bindingApplyResult err).
Proof.
  unfold label_ok, bindingApplyResult. rewrite String.eqb_refl.
  destruct err as [e|]; [destruct (ErrorOf e) as [[[code retry] reason]|]; [destruct (String.eqb code CodeThrottled)|]|]; set_solver.
Qed.

Lemma resultSuccess_ok : label_ok labelResult resultSuccess.
Proof. apply (casResult_ok None). Qed.

(** labels of the objects *)
Lemma free_label l x : String.eqb l labelResult = false -> label_ok l x.
Proof. unfold label_ok. by intros ->. Qed.

Create HintDb metrics.
#[export] Hint Resolve casResult_ok bindingApplyResult_ok resultSuccess_ok : metrics.
#[export] Hint Extern 2 (label_ok _ _) => apply free_label; reflexivity : metrics.

(** a call on a registered vector: which one is found by its name *)
Ltac vector_tac :=
  let try_vec v := solve [apply (on_vector_of v);
    [apply list_elem_of_In; cbv [initVectors In]; tauto|reflexivity|reflexivity|let l := eval cbv in (mv_labels v) in change (mv_labels v) with l;
     repeat first [apply Forall2_nil_2 | apply Forall2_cons_2]; auto with metrics]] in
  first
    [ try_vec certNotAfter | try_vec certReadyGauge | try_vec certIssuanceStalled | try_vec issuerDefaultDiverged
    | try_vec casUploadTotal | try_vec casDeleteTotal | try_vec certManagerCertRecreatedTotal
    | try_vec cleanupAbandonedTotal | try_vec secretDeletionSkippedTotal | try_vec bindingReadyGauge
    | try_vec bindingConflictGauge | try_vec bindingAppliedAge | try_vec bindingApplyTotal | try_vec bindingDriftTotal ].

Lemma client_metric o : client_call o -> metric_ok o.
Proof. by destruct o. Qed.

Lemma cloud_metric o : cloud_read o \/ cloud_write o -> metric_ok o.
Proof. by destruct o; intros [[]|[]]. Qed.

(** *** The certificate controller *)

(** the certificate controller, besides, calls neither FC3 nor OSS *)
Definition target_call (o : op) : Prop := cloud_read o \/ cloud_write o.

Definition cert_ok (o : op) : Prop := metric_ok o /\ ~ target_call o.

(** the binding controller, besides, writes no certificate and does not call CAS *)
Definition certificate_call (o : op) : Prop :=
  match o with OUpdateAC _ | OPatchACStatus _ _ | OCASUpload _ _ _ _ _ | OCASDelete _ _ _ | OCASFind _ _ => True | _ => False end.

Definition binding_ok (o : op) : Prop := metric_ok o /\ ~ certificate_call o.

Lemma binding_client o : client_call o -> binding_ok o.
Proof. intros Ho. split; [by apply client_metric|]. intros Hc. by destruct o; destruct Hc; destruct Ho. Qed.

Lemma binding_cloud o : target_call o -> binding_ok o.
Proof. intros Ho. split; [by apply cloud_metric|]. intros Hc. destruct o; destruct Hc; by destruct Ho as [[]|[]]. Qed.

Lemma cert_client o : client_call o -> cert_ok o.
Proof. intros Ho. split; [by apply client_metric|]. destruct o; destruct Ho; by intros [[]|[]]. Qed.

Ltac metric_step :=
  first
    [ twp_step
    | match goal with
      | |- cert_ok _ => split; [|by intros [[]|[]]]
      | |- binding_ok _ => split; [|by intros []]
      end
    | exact I
    | match goal with
      | |- metric_ok (OCounterInc _ _) => vector_tac
      | |- metric_ok (OGaugeSet _ _ _) => vector_tac
      | |- metric_ok (OGaugeDelete _ _) => vector_tac
      | |- all_calls _ (match ?x with _ => _ end) => destruct x
      end
    | solve [auto 2 with metrics]
    | progress cbv beta zeta ].

Ltac metric_tac := repeat metric_step.

Lemma cert_Event_ok m w re msg : all_calls cert_ok (Event m w re msg).
Proof. unfold Event. metric_tac. Qed.

Lemma binding_Event_ok m w re msg : all_calls binding_ok (Event m w re msg).
Proof. unfold Event. metric_tac. Qed.
#[export] Hint Resolve cert_Event_ok binding_Event_ok : metrics.

Section certificate.
  Context `{K : KubeLib} `{Cr : Crypto} (r : CertReconciler) `{!CASFactoryOk r}.

Abbreviation ok := (all_calls cert_ok).

Lemma recordCertMetrics_ok ac : ok (recordCertMetrics ac).
Proof. unfold recordCertMetrics. metric_tac. Qed.

Lemma recordCASDelete_ok err : ok (recordCASDelete err).
Proof. unfold recordCASDelete. metric_tac. Qed.

Lemma casClient_ok ac : ok (casClient r ac).
Proof. eapply all_calls_mono; [apply cert_client|by apply casClient_calls]. Qed.

#[local] Hint Resolve recordCertMetrics_ok recordCASDelete_ok casClient_ok : metrics.

Lemma patchStatus_ok ac orig : ok (patchStatus ac orig).
Proof. unfold patchStatus. metric_tac. Qed.

#[local] Hint Resolve patchStatus_ok : metrics.

Lemma reclaim_loop_ok ac now minAge bs l : forall excess cas, ok (reclaim_loop r ac now minAge bs excess cas l).
Proof. induction l as [|g l IH]; intros excess cas; cbn [reclaim_loop]; metric_tac. Qed.

Lemma del_gens_ok cas uid l : ok (del_gens cas uid l).
Proof. induction l as [|g l IH]; cbn [del_gens]; unfold del_gen; metric_tac. Qed.

#[local] Hint Resolve reclaim_loop_ok del_gens_ok : metrics.

Lemma patch_and_return_ok d ac orig : ok (patch_and_return d ac orig).
Proof. unfold patch_and_return. metric_tac. Qed.

Lemma reclaim_ok ac : ok (reclaimOldGenerations r ac).
Proof. unfold reclaimOldGenerations, liveBindingsFor. metric_tac. Qed.

Lemma cleanupCAS_ok ac : ok (cleanupCAS r ac).
Proof. unfold cleanupCAS, cleanupPendingUpload, del_gen. metric_tac. Qed.

#[local] Hint Resolve patch_and_return_ok reclaim_ok cleanupCAS_ok : metrics.

Lemma reconcileDelete_ok ac orig : ok (reconcileDelete r ac orig).
Proof.
  unfold reconcileDelete, delete_blocked, liveBindingsFor, delete_started, delete_cas, delete_certificate, delete_secret, delete_finalizer,
    clearCertMetrics. metric_tac.
Qed.

Lemma ensureUploaded_ok ac orig b : ok (ensureUploaded r ac orig b).
Proof.
  unfold ensureUploaded, refreshUploadState, advanceGeneration, uploadGeneration, ensurePending, patchPendingUpload,
    uploadOrClaim, findByName. metric_tac.
Qed.

Lemma probe_step_ok ac orig b : ok (probe_step r ac orig b).
Proof. unfold probe_step, probeCAS, handleCloudError, noteProbeFailure. metric_tac. Qed.

Lemma handleNonFatalCloudError_ok ac orig e reason msg : ok (handleNonFatalCloudError r ac orig e reason msg).
Proof. unfold handleNonFatalCloudError. metric_tac. Qed.

#[local] Hint Resolve reconcileDelete_ok ensureUploaded_ok probe_step_ok handleNonFatalCloudError_ok : metrics.

Lemma reconcileIssued_ok ac orig cert stalled : ok (reconcileIssued r ac orig cert stalled).
Proof.
  unfold reconcileIssued, handleCloudError, handleReclaimError, loadMaterial, loadBundle. metric_tac.
Qed.

#[local] Hint Resolve reconcileIssued_ok : metrics.

Lemma Reconcile_ok namespace name : ok (Reconcile r namespace name).
Proof.
  unfold Reconcile, reconcileNormal, detectIssuerDivergence, reconcileLive, reconcileCertificate, secretNameConflict,
    syncCertificate, observeIssuance, handleCloudError. metric_tac.
Qed.

End certificate.

(** *** The binding controller *)

(** a program, and what is known of its results *)
Lemma all_calls_bind_returns {A B} C (p : prog A) (f : A -> prog B) (R : A -> Prop) :
  all_calls C p -> returns R p -> (forall a, R a -> all_calls C (f a)) -> all_calls C (bind p f).
Proof.
  intros Hp Hr Hf. induction p as [a|o k IH]; cbn in *; [by apply Hf|]. destruct Hp as [Ho Hk].
  split; [done|]. intros x. by apply IH.
Qed.

Section binding.
  Context `{K : KubeLib} `{Cr : Crypto} (r : BindingReconciler) `{!BindingFactoryOk r}.

Abbreviation ok := (all_calls binding_ok).
Abbreviation lawful_client res := (match res with inr (p, _) => ProviderContract p | inl _ => True end).

Lemma observe_ok p `{!ProviderContract p} t c : ok (pv_observe p t c).
Proof. eapply all_calls_mono; [|apply observe_reads]. intros o Ho. apply binding_cloud. by left. Qed.

Lemma apply_ok p `{!ProviderContract p} t c m o : ok (pv_apply p t c m o).
Proof. eapply all_calls_mono; [apply binding_cloud|apply apply_cloud]. Qed.

Lemma cleanup_ok p `{!ProviderContract p} t c policy : ok (pv_cleanup p t c policy).
Proof. eapply all_calls_mono; [apply binding_cloud|apply cleanup_cloud]. Qed.

Lemma providerClient_ok b ac : ok (providerClient r b ac).
Proof. eapply all_calls_mono; [apply binding_client|by apply providerClient_calls]. Qed.

Lemma recordBindingMetrics_ok rd : ok (recordBindingMetrics rd).
Proof. unfold recordBindingMetrics, recordBindingReadiness. metric_tac. Qed.

#[local] Hint Resolve observe_ok apply_ok cleanup_ok providerClient_ok recordBindingMetrics_ok : metrics.

Lemma patch_binding_ok d rd : ok (patch_binding_and_return d rd).
Proof. unfold patch_binding_and_return, patchBinding, patchBindingStatus. metric_tac. Qed.

#[local] Hint Resolve patch_binding_ok : metrics.

Lemma handleFactoryError_ok rd e : ok (handleFactoryError rd e).
Proof. unfold handleFactoryError. metric_tac. Qed.

Lemma freezeApplied_ok rd obs m w : ok (freezeApplied r rd obs m w).
Proof. unfold freezeApplied, setApplied. metric_tac. Qed.

Lemma handleApplyError_ok rd e : ok (handleApplyError r rd e).
Proof. unfold handleApplyError, eventOnReasonChange, patchBinding, patchBindingStatus. metric_tac. Qed.

Lemma handleObserveError_ok rd e : ok (handleObserveError r rd e).
Proof. unfold handleObserveError, eventOnReasonChange, patchBinding, patchBindingStatus. metric_tac. Qed.

#[local] Hint Resolve handleFactoryError_ok freezeApplied_ok handleApplyError_ok handleObserveError_ok : metrics.

Lemma observe_step_ok p `{!ProviderContract p} cl tg rd m : ok (observe_step r p cl tg rd m).
Proof. unfold observe_step, apply_step, noteObserved, noteDrift. metric_tac. Qed.

#[local] Hint Resolve observe_step_ok : metrics.

Lemma client_step_ok rd ac m : ok (client_step r rd ac m).
Proof.
  unfold client_step. apply (all_calls_bind_returns _ _ _ (fun res => lawful_client res)); [auto with metrics|by apply providerClient_contract|].
  intros [e|[p cl]] Hp; metric_tac.
Qed.

#[local] Hint Resolve client_step_ok : metrics.

Lemma reconcileBindingNormal_ok rd : ok (reconcileBindingNormal r rd).
Proof.
  unfold reconcileBindingNormal, appliedLag, reconcileBindingReady, arbitrate, gated_material, loadBindingMaterial, loadBundle.
  metric_tac.
Qed.

Lemma unbind_client_ok b : ok (unbind_client r b).
Proof. unfold unbind_client. metric_tac. Qed.

Lemma unbind_client_lawful b :
  returns (fun res => match res with inr (p, _, _) => ProviderContract p | inl _ => True end) (unbind_client r b).
Proof.
  unfold unbind_client. cbn [call bind returns]. intros got. destruct (match got with inr _ => _ | inl _ => _ end) as [e|ac]; [done|].
  eapply returns_bind_post; [by apply providerClient_contract|]. intros [e|[p cl]] Hp; [done|]. cbn. by destruct (targetOf _ _).
Qed.

Lemma unbindTarget_ok rd : ok (unbindTarget r rd).
Proof.
  unfold unbindTarget.
  eapply all_calls_bind_returns; [apply unbind_client_ok|apply unbind_client_lawful|]. intros [e|[[p cl] tg]] Hp; metric_tac.
Qed.

#[local] Hint Resolve reconcileBindingNormal_ok unbindTarget_ok : metrics.

Lemma finishBindingDeletion_ok rd : ok (finishBindingDeletion rd).
Proof. unfold finishBindingDeletion, clearBindingMetrics. metric_tac. Qed.

#[local] Hint Resolve finishBindingDeletion_ok : metrics.

Lemma reconcileBindingDelete_ok rd : ok (reconcileBindingDelete r rd).
Proof.
  unfold reconcileBindingDelete, unbind_started, unbind_failed, patchBindingStatus, recordBindingReadiness. metric_tac.
Qed.

#[local] Hint Resolve reconcileBindingDelete_ok : metrics.

Lemma BindingReconcile_ok namespace name : ok (BindingReconcile r namespace name).
Proof. unfold BindingReconcile. metric_tac. Qed.

End binding.

(** what the hook of the cloud clients records *)
Lemma recorder_ok service action code d v values :
  (v, values) ∈ aliyunAPICallRecorder service action code d -> v ∈ initVectors /\ Forall2 label_ok (mv_labels v) values.
Proof.
  unfold aliyunAPICallRecorder. rewrite !elem_of_cons, elem_of_nil. intros [[= -> ->]|[[= -> ->]|[]]].
  - split; [apply list_elem_of_In; cbv [initVectors In]; tauto|]. repeat constructor.
  - split; [apply list_elem_of_In; cbv [initVectors In]; tauto|]. repeat constructor.
Qed.

(** ** The metrics of the manager *)

(** C39: No metric call of the controllers panics: [MustRegister] accepts the sixteen vectors of [init] (their names are
    distinct), and every counter or gauge call that a whole round of either controller makes, on any path and whatever
    Kubernetes and the clouds answer, names a registered vector of that kind and gives it exactly one value per label,
    and gives [result] one of its three constants; so does the hook of the cloud clients. *)
Theorem metric_calls_are_well_labelled `{K : KubeLib} `{Cr : Crypto}
    (r : CertReconciler) `{Hc : !CASFactoryOk r} (rb : BindingReconciler) `{Hb : !BindingFactoryOk rb} namespace name :
  is_Some (MustRegister [] initVectors) /\
  all_calls metric_ok (Reconcile r namespace name) /\
  all_calls metric_ok (BindingReconcile rb namespace name) /\
  forall service action code d v values,
    (v, values) ∈ aliyunAPICallRecorder service action code d ->
    v ∈ initVectors /\ Forall2 label_ok (mv_labels v) values.
Proof.
  split; [vm_compute; eauto|]. split; [eapply all_calls_mono; [|by apply Reconcile_ok]; by intros o []|]. split; [eapply all_calls_mono; [|by apply BindingReconcile_ok]; by intros o []|].
  intros *. apply recorder_ok.
Qed.

Lemma metric_calls_are_well_labelled_witness :
  all_calls metric_ok (@Reconcile (ref_kube 0) toy_crypto sample_reconciler "prod" "site") /\
  all_calls metric_ok (@BindingReconcile (ref_kube 0) toy_crypto sample_binding_reconciler "prod" "bind").
Proof.
  destruct (@metric_calls_are_well_labelled (ref_kube 0) toy_crypto sample_reconciler _ sample_binding_reconciler _ "prod" "site")
    as (_ & H1 & _).
  destruct (@metric_calls_are_well_labelled (ref_kube 0) toy_crypto sample_reconciler _ sample_binding_reconciler _ "prod" "bind")
    as (_ & _ & H2 & _).
  by split.
Defined.
