(* ===== verification/Watches.v ===== *)
(** * Watches: what wakes which controller (SetupWithManager, indexes.go)

    The predicates and handlers of controller-runtime are a class of functions with
    their documented behaviour as laws.  [binding_requests] and [cert_requests] are
    the watches the two controllers register, as programs that answer an event with
    the requests it puts into the queue. *)
From S2P Require Import Prelude GoString GoTime Api GoError Cloud KubeLib Effects Bundle CertStatus CertUpload CertDeletion Provider.
From S2P Require Import Clients BindingStatus BindingMaterial BindingObserve BindingController BindingSafety BindingTheorems.

#[local] Open Scope prog_scope.

(** ** controller-runtime *)

(** event.CreateEvent, event.UpdateEvent, event.DeleteEvent, event.GenericEvent *)
Inductive watch_event (A : Type) : Type :=
| CreateEvent (o : A)
| UpdateEvent (old new : A)
| DeleteEvent (o : A)
| GenericEvent (o : A).
Arguments CreateEvent {A} o.
Arguments UpdateEvent {A} old new.
Arguments DeleteEvent {A} o.
Arguments GenericEvent {A} o.

Definition map_event {A B} (f : A -> B) (e : watch_event A) : watch_event B :=
  match e with
  | CreateEvent o => CreateEvent (f o)
  | UpdateEvent old new => UpdateEvent (f old) (f new)
  | DeleteEvent o => DeleteEvent (f o)
  | GenericEvent o => GenericEvent (f o)
  end.

(** the objects an event carries *)
Definition event_objects {A} (e : watch_event A) : list A :=
  match e with
  | UpdateEvent old new => [old; new]
  | CreateEvent o | DeleteEvent o | GenericEvent o => [o]
  end.

(** the requests of some objects, one after the other *)
Fixpoint requests_of {A} (f : A -> prog (list (string * string))) (l : list A) : prog (list (string * string)) :=
  match l with
  | [] => Ret []
  | o :: l => let! a := f o in let! b := requests_of f l in Ret (a ++ b)
  end.

Class ControllerRuntime : Type := {
  GenerationChangedPredicate : watch_event ObjectMeta -> bool;
  AnnotationChangedPredicate : watch_event ObjectMeta -> bool;
  LabelChangedPredicate : watch_event ObjectMeta -> bool;
  predicate_Or : list (watch_event ObjectMeta -> bool) -> watch_event ObjectMeta -> bool;
  EnqueueRequestsFromMapFunc A : (A -> prog (list (string * string))) -> watch_event A -> prog (list (string * string));
  EnqueueRequestForObject : watch_event ObjectMeta -> prog (list (string * string))
}.
Arguments EnqueueRequestsFromMapFunc {_ A}.

(** the namespace and name of an object *)
Definition request_for (m : ObjectMeta) : string * string := (om_namespace m, om_name m).

Class ControllerRuntimeLaws (R : ControllerRuntime) : Prop := {
  (* the three predicates filter updates only *)
  generation_changed e : GenerationChangedPredicate e =
    match e with UpdateEvent old new => negb (om_generation new =? om_generation old)%Z | _ => true end;
  annotation_changed e : AnnotationChangedPredicate e =
    match e with UpdateEvent old new => bool_decide (om_annotations new <> om_annotations old) | _ => true end;
  label_changed e : LabelChangedPredicate e =
    match e with UpdateEvent old new => bool_decide (om_labels new <> om_labels old) | _ => true end;
  or_any l e : predicate_Or l e = existsb (fun p => p e) l;
  (* the map function is run on the old and on the new object *)
  enqueue_mapped A (f : A -> prog (list (string * string))) e : EnqueueRequestsFromMapFunc f e = requests_of f (event_objects e);
  enqueue_object e : EnqueueRequestForObject e = Ret (request_for <$> event_objects e)
}.

(** a reference instance *)
Definition ref_runtime : ControllerRuntime := {|
  GenerationChangedPredicate e := match e with UpdateEvent old new => negb (om_generation new =? om_generation old)%Z | _ => true end;
  AnnotationChangedPredicate e := match e with UpdateEvent old new => bool_decide (om_annotations new <> om_annotations old) | _ => true end;
  LabelChangedPredicate e := match e with UpdateEvent old new => bool_decide (om_labels new <> om_labels old) | _ => true end;
  predicate_Or l e := existsb (fun p => p e) l;
  EnqueueRequestsFromMapFunc A f e := requests_of f (event_objects e);
  EnqueueRequestForObject e := Ret (request_for <$> event_objects e)
|}.

#[export] Instance ref_runtime_laws : ControllerRuntimeLaws ref_runtime.
Proof. by split. Qed.

(** ** Definitions *)

Section watches.
  Context `{R : ControllerRuntime}.

Definition bindingMeaningfulChange : watch_event ObjectMeta -> bool :=
  predicate_Or [GenerationChangedPredicate; AnnotationChangedPredicate; LabelChangedPredicate].

(** the certificate controller's map function for bindings *)
Definition bindingCertificateRequest (b : AliyunCertificateBinding) : prog (list (string * string)) :=
  if String.eqb (abs_certificate_ref (ab_spec b)) "" then Ret []
  else Ret [(ab_namespace b, abs_certificate_ref (ab_spec b))].

(** [AliyunCertificateReconciler.SetupWithManager]: an event of a certificate, and of a
    binding (the watch of owned cert-manager Certificates enqueues the owner) *)
Definition cert_on_certificate (e : watch_event AliyunCertificate) : prog (list (string * string)) :=
  EnqueueRequestForObject (map_event ac_meta e).
Definition cert_on_binding (e : watch_event AliyunCertificateBinding) : prog (list (string * string)) :=
  if bindingMeaningfulChange (map_event ab_meta e) then EnqueueRequestsFromMapFunc bindingCertificateRequest e else Ret [].

(** [AliyunCertificateBindingReconciler.SetupWithManager] *)
Definition binding_on_binding (e : watch_event AliyunCertificateBinding) : prog (list (string * string)) :=
  let! own := if bindingMeaningfulChange (map_event ab_meta e) then EnqueueRequestForObject (map_event ab_meta e) else Ret [] in
  let! peers := if bindingMeaningfulChange (map_event ab_meta e) then EnqueueRequestsFromMapFunc bindingPeerRequests e else Ret [] in
  Ret (own ++ peers).
Definition binding_on_certificate (e : watch_event AliyunCertificate) : prog (list (string * string)) :=
  EnqueueRequestsFromMapFunc certificateBindingRequests e.

(** the check before the watches are registered *)
Definition binding_setup_check (has_api_reader : bool) : option goerr :=
  if has_api_reader then None else Some (EText "APIReader 未配置：Reconcile 用它直读本对象，见那里的注释").

End watches.

(** ** The cluster *)

(** the informer's cache of bindings, by namespace and name *)
Abbreviation cache := (gmap (string * string) AliyunCertificateBinding).

Definition binding_key (b : AliyunCertificateBinding) : string * string := (ab_namespace b, ab_name b).

Definition cached (S : cache) : list AliyunCertificateBinding := (map_to_list S).*2.

(** the objects an index lists under a key: those whose index function yields it *)
Definition indexed_by_target (S : cache) (key : string) : list AliyunCertificateBinding :=
  List.filter (fun b => bool_decide (key ∈ bindingTargetIndex b)) (cached S).
Definition indexed_by_certificate (S : cache) (ns name : string) : list AliyunCertificateBinding :=
  List.filter (fun b => String.eqb (ab_namespace b) ns && bool_decide (name ∈ bindingCertificateIndex b)) (cached S).

(** a cache that answers, in any order *)
Definition index_env (S : cache) : environment := fun _ o x =>
  match o return resp o -> Prop with
  | OListBindingsByTarget key => fun x => exists l, x = inr l /\ l ≡ₚ indexed_by_target S key
  | OListBindingsByCertificate ns name => fun x => exists l, x = inr l /\ l ≡ₚ indexed_by_certificate S ns name
  | _ => fun _ => True
  end x.

(** what the API server guarantees of an update: UID and creation time never change,
    and the generation changes with the spec and with the start of the deletion *)
Definition api_update (old new : AliyunCertificateBinding) : Prop :=
  binding_key new = binding_key old /\ binding_uid new = binding_uid old /\
  om_creation (ab_meta new) = om_creation (ab_meta old) /\
  (om_generation (ab_meta new) = om_generation (ab_meta old) ->
     ab_spec new = ab_spec old /\ om_deletion (ab_meta new) = om_deletion (ab_meta old)).

(** an event takes the cache from one state to the next *)
Inductive cache_step : cache -> watch_event AliyunCertificateBinding -> cache -> Prop :=
| cache_create S b : S !! binding_key b = None -> cache_step S (CreateEvent b) (<[binding_key b := b]> S)
| cache_update S old new : S !! binding_key old = Some old -> api_update old new ->
    cache_step S (UpdateEvent old new) (<[binding_key old := new]> S)
| cache_delete S b : S !! binding_key b = Some b -> cache_step S (DeleteEvent b) (delete (binding_key b) S).

(** who wins a target, as the cache has it *)
Definition winner_of (S : cache) (key : string) : option string := binding_uid <$> pickWinner (indexed_by_target S key).

(** ** Lemmas *)

Section wake.
  Context `{RL : ControllerRuntimeLaws}.

Lemma meaningful_update old new : bindingMeaningfulChange (UpdateEvent old new) = false <->
  om_generation new = om_generation old /\ om_annotations new = om_annotations old /\ om_labels new = om_labels old.
Proof.
  unfold bindingMeaningfulChange. rewrite or_any. cbn. rewrite generation_changed, annotation_changed, label_changed, orb_false_r.
  rewrite !orb_false_iff, negb_false_iff, Z.eqb_eq, !bool_decide_eq_false. split; intros (? & ? & ?); (split; [done|]).
  - split; by apply dec_stable.
  - split; by intros [].
Qed.

Lemma meaningful_other e : match e with UpdateEvent _ _ => False | _ => True end -> bindingMeaningfulChange e = true.
Proof. unfold bindingMeaningfulChange. rewrite or_any. cbn. rewrite generation_changed. by destruct e. Qed.

(** a request that one of the objects yields is among the requests of all *)
Lemma requests_of_wp {A} (f : A -> prog (list (string * string))) E h l (x : A) q :
  x ∈ l -> (forall h', twp E any_call h' (f x) (fun reqs _ => q ∈ reqs)) ->
  twp E any_call h (requests_of f l) (fun reqs _ => q ∈ reqs).
Proof.
  intros Hx Hf. revert h. induction l as [|o l IH]; intros h; cbn [requests_of]; [by apply not_elem_of_nil in Hx|].
  twp_step. apply elem_of_cons in Hx as [->|Hx].
  - eapply twp_post; [apply Hf|]. intros a h1 Ha. twp_step. eapply twp_post; [apply twp_trivial|]. intros b h2 _.
    cbn [twp]. apply elem_of_app. by left.
  - eapply twp_post; [apply twp_trivial|]. intros a h1 _. twp_step. eapply twp_post; [by apply IH|]. intros b h2 Hb.
    cbn [twp]. apply elem_of_app. by right.
Qed.

Lemma target_index b key : key ∈ bindingTargetIndex b <-> key <> "" /\ TargetKey b = key.
Proof.
  unfold bindingTargetIndex. destruct (String.eqb_spec (TargetKey b) "") as [E|E].
  - split; [by intros ?%not_elem_of_nil|]. intros [H <-]. congruence.
  - rewrite list_elem_of_singleton. split; [by intros ->|]. by intros [_ ->].
Qed.

Lemma indexed_spec S key b : b ∈ indexed_by_target S key <-> b ∈ cached S /\ key <> "" /\ TargetKey b = key.
Proof.
  unfold indexed_by_target. rewrite list_elem_of_In, filter_In, <-list_elem_of_In, bool_decide_eq_true. by rewrite target_index.
Qed.

Lemma elem_cached S b : (exists k, S !! k = Some b) -> b ∈ cached S.
Proof. intros [k Hk]. apply list_elem_of_fmap. exists (k, b). split; [done|]. by apply elem_of_map_to_list. Qed.

(** the peers of an object are requested *)
Lemma peers_wp S h b c : c ∈ cached S -> TargetKey b <> "" -> TargetKey c = TargetKey b ->
  twp (index_env S) any_call h (bindingPeerRequests b) (fun reqs _ => binding_key c ∈ reqs).
Proof.
  intros Hc Hk Hcb. unfold bindingPeerRequests. rewrite (proj2 (String.eqb_neq _ _) Hk). twp_step.
  split; [exact I|]. intros x (l & -> & Hl). cbn [twp]. apply list_elem_of_fmap. exists c. split; [done|].
  rewrite Hl. by apply indexed_spec.
Qed.

(** the cache before and after an event: what was replaced, what replaces it, and the rest *)
Lemma cache_step_rest S e S' : cache_step S e S' -> exists gone come rest,
  cached S ≡ₚ gone ++ rest /\ cached S' ≡ₚ come ++ rest /\
  match e with
  | CreateEvent b => gone = [] /\ come = [b]
  | UpdateEvent old new => gone = [old] /\ come = [new] /\ api_update old new
  | DeleteEvent b => gone = [b] /\ come = []
  | GenericEvent _ => False
  end.
Proof.
  assert (Hins : forall (M : cache) k b, M !! k = None -> cached (<[k := b]> M) ≡ₚ b :: cached M).
  { intros M k b Hk. unfold cached. by rewrite (map_to_list_insert M k b Hk). }
  assert (Hdel : forall (M : cache) k b, M !! k = Some b -> cached M ≡ₚ b :: cached (delete k M)).
  { intros M k b Hk. rewrite <-(insert_delete_id M k b Hk) at 1. apply Hins. apply lookup_delete_eq. }
  destruct 1 as [S b Hb|S old new Ho Hu|S b Hb].
  - exists [], [b], (cached S). split; [done|]. by split; [apply Hins|].
  - exists [old], [new], (cached (delete (binding_key old) S)). split; [by apply Hdel|]. split; [|done].
    rewrite <-(insert_delete_eq S). apply Hins. apply lookup_delete_eq.
  - exists [b], [], (cached (delete (binding_key b) S)). split; [by apply Hdel|]. done.
Qed.

Definition distinct_cache (S : cache) : Prop := distinct_uids (cached S).

Lemma distinct_indexed S key : distinct_cache S -> distinct_uids (indexed_by_target S key).
Proof.
  unfold distinct_cache, distinct_uids, indexed_by_target. generalize (cached S) as l. intros l. induction l as [|b l IH]; [done|].
  cbn. intros [Hb Hl]%NoDup_cons. destruct (bool_decide _); [|by apply IH]. cbn. apply NoDup_cons. split; [|by apply IH].
  intros (c & Hc & Hin)%list_elem_of_fmap. apply Hb. apply list_elem_of_fmap. exists c. split; [done|].
  apply list_elem_of_In, filter_In in Hin as [Hin _]. by apply list_elem_of_In.
Qed.

Lemma winner_perm S key l : distinct_cache S ->
  cached S ≡ₚ l -> winner_of S key = binding_uid <$> pickWinner (List.filter (fun b => bool_decide (key ∈ bindingTargetIndex b)) l).
Proof.
  intros Hd Hp. unfold winner_of. f_equal. apply pickWinner_perm; [by apply distinct_indexed|].
  unfold indexed_by_target. induction Hp as [|x l1 l2 _ IH|x y l1|l1 l2 l3 _ IH1 _ IH2]; cbn;
    repeat case_match; try done; try (by apply perm_skip); try apply perm_swap; by etrans.
Qed.

End wake.

Section arbitration.
  Context `{RL : ControllerRuntimeLaws}.

(** an update that is not worth a round leaves the arbitration of every target alone *)
Lemma meaningless_update_winner old new rest key : api_update old new ->
  bindingMeaningfulChange (UpdateEvent (ab_meta old) (ab_meta new)) = false ->
  let pick l := binding_uid <$> pickWinner (List.filter (fun b => bool_decide (key ∈ bindingTargetIndex b)) l) in
  pick (old :: rest) = pick (new :: rest).
Proof.
  intros (Hk & Hu & Hc & Hg) (Hgen & _)%meaningful_update. destruct (Hg Hgen) as [Hs Hd]. cbn zeta.
  assert (Ht : bindingTargetIndex new = bindingTargetIndex old) by (unfold bindingTargetIndex, TargetKey, ab_target; by rewrite Hs).
  apply pickWinner_rank. cbn. rewrite Ht. assert (Hrefl : forall l, Forall2 same_rank l l) by (induction l; by constructor).
  destruct (bool_decide _); [by constructor|done].
Qed.

Lemma unrelated_filtered key l : (forall o, o ∈ l -> TargetKey o <> key) ->
  List.filter (fun b => bool_decide (key ∈ bindingTargetIndex b)) l = [].
Proof.
  induction l as [|o l IH]; intros Hl; [done|]. cbn. rewrite bool_decide_eq_false_2.
  - apply IH. intros o' Ho'. apply Hl. by right.
  - rewrite target_index. intros [_ Ho]. by apply (Hl o); [left|].
Qed.

(** the winner of a target changes only by an event that is worth a round, of an
    object that is, or was, of that target *)
Lemma winner_changed S e S' key : cache_step S e S' -> distinct_cache S -> distinct_cache S' ->
  winner_of S key <> winner_of S' key ->
  bindingMeaningfulChange (map_event ab_meta e) = true /\ exists o, o ∈ event_objects e /\ TargetKey o = key.
Proof.
  intros Hst Hd Hd' Hw. destruct (cache_step_rest S e S' Hst) as (gone & come & rest & HS & HS' & He).
  rewrite (winner_perm S key _ Hd HS), (winner_perm S' key _ Hd' HS') in Hw.
  assert (Hobj : exists o, o ∈ event_objects e /\ TargetKey o = key).
  { destruct (decide (Exists (fun o => TargetKey o = key) (event_objects e))) as [Hx|Hx].
    { by apply Exists_exists in Hx as (o & ? & ?); exists o. }
    apply not_Exists_Forall in Hx; [|apply _]. rewrite Forall_forall in Hx. destruct Hw. rewrite !List.filter_app.
    assert (Hsub : forall o, o ∈ gone ++ come -> o ∈ event_objects e).
    { destruct e as [b|old new|b|b]; [destruct He as [-> ->]|destruct He as (-> & -> & _)|destruct He as [-> ->]|done]; by cbn. }
    rewrite (unrelated_filtered key gone), (unrelated_filtered key come); [done|..]; intros o Ho; apply Hx, Hsub, elem_of_app; auto. }
  split; [|done]. destruct e as [b|old new|b|b]; try (by apply meaningful_other).
  destruct He as (-> & -> & Hu). cbn [map_event]. apply not_false_iff_true. intros Hm. destruct Hw.
  by apply (meaningless_update_winner old new rest key).
Qed.

(** ** Properties *)

(** C24: No arbitration is missed.  Whenever an event changes which binding wins a target
    (it appears, changes its target, starts to be deleted, or goes), every binding
    that the cache then has for that target is put into the queue, so a loser learns
    at once that it won, and the predicate that keeps status writes from waking the
    controllers suppresses no such event. *)
Theorem arbitration_wakes_candidates (S S' : cache) (e : watch_event AliyunCertificateBinding) (key : string)
    (c : AliyunCertificateBinding) (h : history) :
  cache_step S e S' -> distinct_cache S -> distinct_cache S' -> winner_of S key <> winner_of S' key ->
  key <> "" -> c ∈ cached S' -> TargetKey c = key ->
  twp (index_env S') any_call h (binding_on_binding e) (fun reqs _ => binding_key c ∈ reqs).
Proof.
  intros Hst Hd Hd' Hw Hk Hc Hck. destruct (winner_changed S e S' key Hst Hd Hd' Hw) as [Hm (o & Ho & Hok)].
  unfold binding_on_binding. rewrite Hm. twp_step. rewrite enqueue_object. cbn [twp]. twp_step. rewrite enqueue_mapped.
  eapply twp_post; [apply (requests_of_wp _ _ _ _ o); [exact Ho|]|].
  - intros h'. apply peers_wp; [exact Hc|congruence|congruence].
  - intros reqs h' Hr. cbn [twp]. apply elem_of_app. by right.
Qed.

End arbitration.

(** the older binding of a target goes, and the younger one is told *)
Lemma arbitration_wakes_candidates_witness :
  let a := sample_peer "a" "uid-9" 100 false in
  let b := sample_peer "b" "uid-2" 200 false in
  let S : cache := {[binding_key a := a; binding_key b := b]} in
  let S' : cache := delete (binding_key a) S in
  winner_of S (TargetKey a) = Some "uid-9" /\
  twp (index_env S') any_call [] (@binding_on_binding ref_runtime (DeleteEvent a)) (fun reqs _ => binding_key b ∈ reqs).
Proof.
  intros a b S S'. split; [vm_compute; reflexivity|].
  refine (@arbitration_wakes_candidates ref_runtime _ S S' (DeleteEvent a) (TargetKey a) b [] _ _ _ _ _ _ _).
  - apply cache_delete. vm_compute. reflexivity.
  - apply (bool_decide_unpack (NoDup (binding_uid <$> cached S))). vm_compute. exact I.
  - apply (bool_decide_unpack (NoDup (binding_uid <$> cached S'))). vm_compute. exact I.
  - vm_compute. discriminate.
  - vm_compute. discriminate.
  - apply elem_cached. exists (binding_key b). vm_compute. reflexivity.
  - vm_compute. reflexivity.
Defined.

(** ** The controllers' own writes *)

(** the API server's part in a write: the write took the stored binding from [old] to
    [new] *)
Class ApiServer : Type := stores : op -> AliyunCertificateBinding -> AliyunCertificateBinding -> Prop.

Definition same_marks (a b : AliyunCertificateBinding) : Prop :=
  om_labels (ab_meta a) = om_labels (ab_meta b) /\ om_annotations (ab_meta a) = om_annotations (ab_meta b).

Class ApiServerLaws (A : ApiServer) : Prop := {
  (* a patch of the status subresource changes neither spec nor metadata that clients set *)
  status_patch_scope b base old new : stores (OPatchBindingStatus b base) old new ->
    om_generation (ab_meta new) = om_generation (ab_meta old) /\ same_marks new old;
  (* an update goes through only over the version it was made from; it stores the
     metadata it was given, and counts a generation when the spec changes *)
  update_locked b old new : stores (OUpdateBinding b) old new ->
    om_resource_version (ab_meta b) = om_resource_version (ab_meta old) /\ same_marks new b /\
    (ab_spec b = ab_spec old -> om_generation (ab_meta new) = om_generation (ab_meta old))
}.

(** the API server has sent this binding *)
Definition sent (h : history) (b : AliyunCertificateBinding) : Prop :=
  (exists ns name, Ev (OGetBinding true ns name) (inr b) ∈ h) \/
  (exists b1 base, Ev (OPatchBindingStatus b1 base) (inr b) ∈ h).

(** a version names one content *)
Definition versions_identify (h : history) (old : AliyunCertificateBinding) : Prop :=
  forall b, sent h b -> om_resource_version (ab_meta b) = om_resource_version (ab_meta old) ->
    ab_spec b = ab_spec old /\ same_marks b old.

Definition is_binding_write (o : op) : Prop :=
  match o with OPatchBindingStatus _ _ | OUpdateBinding _ => True | _ => False end.

(** an update of a round changes the finalizers of what the API server sent, and nothing else *)
Definition finalizers_only : policy := fun h o =>
  match o with
  | OUpdateBinding b' => exists b fs, sent h b /\ b' = set_ab_meta (set_om_finalizers fs (ab_meta b)) b
  | _ => True
  end.

Lemma sent_suffix h h' b : sent h b -> h `suffix_of` h' -> sent h' b.
Proof. intros [(ns & n & H)|(b1 & b2 & H)] Hs; [left|right]; do 2 eexists; by eapply elem_suffix. Qed.

Lemma all_allowed_elem P h e : all_allowed P h -> e ∈ h -> exists h1, P h1 (ev_op e) /\ h1 `suffix_of` h.
Proof.
  induction h as [|e' h IH]; intros Ha He; [by apply not_elem_of_nil in He|]. destruct Ha as [H Ha].
  apply elem_of_cons in He as [->|He]; [exists h; split; [done|by exists [e']]|].
  destruct (IH Ha He) as (h1 & HP & Hs). exists h1. split; [done|]. etrans; [exact Hs|]. by exists [e'].
Qed.

Lemma released_finalizers `{KL : KubeLibLaws} `{Cr : Crypto} r ns name h o : released r ns name h o -> finalizers_only h o.
Proof.
  destruct o; try done. cbn. intros (b0 & Hb0 & H).
  destruct (is_deleting (ab_meta b0)).
  - destruct H as (b1 & -> & Hs). rewrite remove_finalizer_spec. exists b1. eexists. split; [|done].
    assert (Hun : unbinding b0 b1 h -> sent h b1) by (intros [[-> _]|H]; [left; eauto|by right]).
    destruct Hs as [[-> _]|[[Hu _]|[Hu _]]]; [left; eauto|by apply Hun..].
  - subst b. rewrite add_finalizer_spec. exists b0. case_bool_decide; [|eexists; split; [left; eauto|done]].
    exists (om_finalizers (ab_meta b0)). split; [left; eauto|]. by destruct b0 as [[] ? ?].
Qed.

(** The controllers do not wake themselves through bindings.  Whatever write to its
    binding a round makes, also one that crashes later (the status, the finalizer put
    on or taken off), the update event that follows is filtered out by both
    controllers, so no round is its own or the certificate's next cause, although
    every round writes the time of its observation. *)
Theorem binding_writes_wake_nobody `{RL : ControllerRuntimeLaws} `{KL : KubeLibLaws} `{Cr : Crypto} `{AL : ApiServerLaws}
    (r : BindingReconciler) `{!BindingFactoryOk r} (ns name : string) (h : history) (rest : prog Result) (e : event)
    (old new : AliyunCertificateBinding) :
  reaches any_env [] (BindingReconcile r ns name) h rest -> e ∈ h -> is_binding_write (ev_op e) ->
  stores (ev_op e) old new -> versions_identify h old ->
  binding_on_binding (UpdateEvent old new) = Ret [] /\ cert_on_binding (UpdateEvent old new) = Ret [].
Proof.
  intros Hr He Hw Hst Hv.
  assert (Ha : all_allowed finalizers_only h).
  { eapply all_allowed_mono; [|eapply twp_reaches_allowed; [by apply BindingReconcile_bwp|exact I|exact Hr]].
    intros h' o (_ & _ & _ & Hrel). by eapply released_finalizers. }
  destruct (all_allowed_elem _ _ _ Ha He) as (h1 & Hf & Hs).
  assert (Hm : bindingMeaningfulChange (UpdateEvent (ab_meta old) (ab_meta new)) = false).
  { apply meaningful_update. destruct e as [o x]. cbn [ev_op] in *. destruct o; try done.
    - apply update_locked in Hst as (Hrv & [Hl Hn] & Hg). destruct Hf as (b0 & fs & Hsent & ->).
      destruct (Hv b0 (sent_suffix _ _ _ Hsent Hs) Hrv) as [Hsp [Hl0 Ha0]]. cbn in *.
      split; [by apply Hg|]. split; congruence.
    - apply status_patch_scope in Hst as [Hg [Hl Hn]]. by repeat split. }
  unfold binding_on_binding, cert_on_binding. cbn [map_event]. by rewrite Hm.
Qed.

(** an API server of which just the guarantees are known *)
#[export] Instance lawful_server : ApiServer := fun o old new =>
  match o with
  | OPatchBindingStatus _ _ => om_generation (ab_meta new) = om_generation (ab_meta old) /\ same_marks new old
  | OUpdateBinding b =>
      om_resource_version (ab_meta b) = om_resource_version (ab_meta old) /\ same_marks new b /\
      (ab_spec b = ab_spec old -> om_generation (ab_meta new) = om_generation (ab_meta old))
  | _ => False
  end.
#[export] Instance lawful_server_laws : ApiServerLaws lawful_server.
Proof. by split. Qed.

Definition is_status_patch (e : event) : bool := match ev_op e with OPatchBindingStatus _ _ => true | _ => false end.

Lemma status_patch_write e old new : is_status_patch e = true ->
  is_binding_write (ev_op e) /\
  (om_generation (ab_meta new) = om_generation (ab_meta old) /\ same_marks new old -> lawful_server (ev_op e) old new).
Proof. destruct e as [o x]. unfold is_status_patch. cbn. by destruct o. Qed.

(** the versions of the bindings an event shows *)
Definition sends_version (v : string) (e : event) : bool :=
  match e with
  | Ev o x =>
      match o return resp o -> bool with
      | OGetBinding true _ _ | OPatchBindingStatus _ _ => fun x =>
          match x with inr b => String.eqb (om_resource_version (ab_meta b)) v | inl _ => false end
      | _ => fun _ => false
      end x
  end.

(** a round writes its status over a binding that another client has just labelled *)
Lemma binding_writes_wake_nobody_witness :
  let run := exec (binding_world sample_binding (inr other_domain)) tt []
    (@BindingReconcile (ref_kube 0) toy_crypto sample_binding_reconciler "prod" "bind") in
  let old := set_ab_meta (set_om_resource_version "8" (ab_meta sample_binding)) sample_binding in
  let new := on_bstatus (set_bs_last_observed (Some 5%Z)) old in
  match List.find is_status_patch run.1.2 with
  | Some e => @binding_on_binding ref_runtime (UpdateEvent old new) = Ret []
  | None => False
  end.
Proof.
  intros run old new. destruct (List.find is_status_patch run.1.2) as [e|] eqn:Ee.
  2: { assert (H : match List.find is_status_patch run.1.2 with Some _ => true | None => false end = true) by (vm_compute; reflexivity).
       rewrite Ee in H. discriminate H. }
  apply find_some in Ee as [Hin He]. apply list_elem_of_In in Hin.
  assert (Hnone : existsb (sends_version "8") run.1.2 = false) by (vm_compute; reflexivity).
  assert (Hv : versions_identify run.1.2 old).
  { intros b Hs Hrv. exfalso. apply not_true_iff_false in Hnone. apply Hnone. apply existsb_exists.
    destruct Hs as [(ns & n & H)|(b1 & base & H)]; apply list_elem_of_In in H; (eexists; split; [exact H|]); cbn; rewrite Hrv; reflexivity. }
  refine (proj1 (@binding_writes_wake_nobody ref_runtime _ (ref_kube 0) (ref_kube_laws 0) toy_crypto lawful_server _
    sample_binding_reconciler _ "prod" "bind" run.1.2 _ e old new
    (exec_reaches (binding_world sample_binding (inr other_domain)) any_env [] tt _ (fun _ _ _ => I)) Hin _ _ Hv)).
  - exact (proj1 (status_patch_write e old new He)).
  - apply (proj2 (status_patch_write e old new He)). split; [reflexivity|split; reflexivity].
Defined.
