(* ===== verification/BindingConvergence.v ===== *)
(** * A target that was written is found right

    The binding controller decides on a write by what it observes, and the providers
    write what they are given: here the two are shown to fit, so that a round does
    not undo or repeat what the round before did. *)
From S2P Require Import Prelude GoString GoTime Api GoError Cloud KubeLib Effects Bundle Samples CertStatus CertMaterial.
From S2P Require Import CertUpload Provider ProviderFC3 ProviderOSS Clients BindingStatus BindingMaterial BindingObserve.
From S2P Require Import BindingController BindingSafety BindingTheorems.

#[local] Open Scope prog_scope.

(** ** What the clouds keep *)

(** FC3 shows the protocol and the certificate of the last write *)
Definition domain_holds (i : UpdateCustomDomainInput) : environment := fun _ o x =>
  match o return resp o -> Prop with
  | OGetCustomDomain _ _ => fun x => exists cd, x = inr cd /\ cd_protocol cd = ui_protocol i /\
      cd_certificate_pem cd = match ui_cert_config i with Some c => ccf_cert_pem c | None => "" end
  | _ => fun _ => True
  end x.

(** OSS shows the reference of the last write *)
Definition cname_holds (ref : string) : environment := fun _ o x =>
  match o return resp o -> Prop with
  | OGetCname _ _ _ => fun x => exists cn, x = inr cn /\ cn_cert_ref cn = ref
  | _ => fun _ => True
  end x.

Definition no_target_write : policy := fun _ o => ~ cloud_write o.

(** ** Lemmas *)

(** the controller and the FC3 provider mean the same by "has HTTPS" *)
Lemma protocols_agree obs : protocolSatisfied obs true = FC3.protocolHasHTTPS (ob_protocol obs).
Proof.
  apply eq_true_iff_eq. unfold protocolSatisfied, FC3.protocolHasHTTPS, FC3.splitProtocol. cbn [negb].
  rewrite existsb_exists, bool_decide_eq_true, elem_of_list_to_set, list_elem_of_In, filter_In, <-list_elem_of_In, list_elem_of_fmap.
  split.
  - intros (part & Hin & Hf%equal_fold_upper). split; [|done]. exists part. split; [by rewrite Hf|by apply list_elem_of_In].
  - intros [(part & He & Hin) _]. exists part. split; [by apply list_elem_of_In|]. apply equal_fold_upper. by rewrite <-He.
Qed.

Section settle.
  Context `{KL : KubeLibLaws} `{CL : CryptoLaws} (r : BindingReconciler).

(** reports and the status write *)
Definition tail_call (o : op) : Prop := is_report o \/ match o with OPatchBindingStatus _ _ => True | _ => False end.

Lemma tail_call_allowed h o : tail_call o -> no_target_write h o.
Proof. intros [Ho|Ho]; [by apply report_harmless|]. by destruct o; intros []. Qed.

Lemma patch_return_tail d rd : all_calls tail_call (patch_binding_and_return d rd) /\
  returns (fun res => res.1 = d) (patch_binding_and_return d rd).
Proof.
  unfold patch_binding_and_return. split.
  - unfold patchBinding, patchBindingStatus. twp_step; [|done]. twp_step; [|by split; [right|]].
    eapply all_calls_mono; [|apply recordBindingMetrics_reports]. by left.
  - apply returns_bind. eapply returns_mono; [apply returns_True|done].
Qed.

Lemma tail_wp E h (p : prog Result) d :
  all_calls tail_call p -> returns (fun res => res.1 = d) p -> twp E no_target_write h p (fun res _ => res.1 = d).
Proof.
  intros Hp Hr. eapply twp_post; [apply twp_returns_and; [apply (all_calls_twp tail_call); [done|apply tail_call_allowed]|exact Hr]|].
  by intros ? ? [].
Qed.

Lemma freezeApplied_tail rd obs m w : all_calls tail_call (freezeApplied r rd obs m w).
Proof.
  unfold freezeApplied, setApplied. cbv zeta. twp_step; [destruct w; [split; [by left|done]|done]|].
  twp_step; [|done]. destruct (bindingCondTrue _ _); [done|]. split; [by left|done].
Qed.

(** a round that observes the target to be right, whatever the account, leaves it alone *)
Lemma observe_step_settled E p cl tg rd m h :
  (forall h, twp E no_target_write h (pv_observe p tg cl) (fun seen _ =>
     exists obs, seen = inr obs /\ already_applied r (rd_b rd) obs m = true)) ->
  twp E no_target_write h (observe_step r p cl tg rd m) (fun res _ => res.1 = br_drift_interval r).
Proof.
  intros Hobs. unfold observe_step. twp_step. eapply twp_post; [apply Hobs|]. intros seen h1 (obs & -> & Ha).
  cbv beta iota. twp_step. destruct (noteObserved_follows rd) as [_ Hn2].
  eapply twp_post; [apply twp_returns_and; [|exact Hn2]|].
  { apply (all_calls_twp tail_call); [by split; [left|]|apply tail_call_allowed]. }
  intros rd1 h2 [_ (_ & Hs & _)]. destruct (fenceAccount rd1 obs) as [rd2|].
  { apply tail_wp; apply patch_return_tail. }
  destruct (same_identity r _ _ obs m Hs) as [_ ->]. rewrite Ha. apply tail_wp.
  - twp_step; [apply freezeApplied_tail|apply patch_return_tail].
  - apply (returns_bind_post (fun _ => True)); [apply returns_True|]. intros rd3 _. apply patch_return_tail.
Qed.

(** the material's certificate, where it is shown, has the material's fingerprint *)
Lemma observed_fingerprint ac m cd :
  from_bundle ac m -> cd_certificate_pem cd = cm_cert_pem m -> ob_current_fingerprint (FC3.observed cd) = cm_fingerprint m.
Proof.
  intros Hm%from_bundle_fingerprint Hp. unfold FC3.observed. cbn. rewrite Hp.
  destruct (String.eqb_spec (cm_cert_pem m) "") as [E|_]; [|by rewrite Hm].
  rewrite E in Hm. unfold LeafFingerprint, parseCertificates in Hm. cbn in Hm. done.
Qed.

End settle.

(** ** Properties *)

(** Writing settles a target.  If FC3 shows the protocol and the certificate that
    Apply last wrote for this binding and material, or OSS the reference it wrote,
    the next round of the binding with that material observes the target to be right:
    it writes nothing to it and comes back after the drift interval.  So a healthy
    binding writes once for each generation, not once for each round. *)
Theorem written_targets_are_settled `{KL : KubeLibLaws} `{CL : CryptoLaws} (r : BindingReconciler) (rd : bindingRound)
    (ac : AliyunCertificate) (m : CertMaterial) (cd : CustomDomain) (tg : Target) (cred : CredentialConfig)
    (region key : string) (h : history) :
  from_bundle ac m ->
  let b := rd_b rd in
  let opts := mkApplyOptions (ensureHTTPSOf b) (bs_applied_fingerprint (ab_status b)) in
  (cap_references_cert_by_id (capabilitiesOf (br_registry r) b) = false ->
   twp (domain_holds (FC3.apply_input cd m opts)) no_target_write h
     (observe_step r FC3.provider (FC3Client cred region key) tg rd m) (fun res _ => res.1 = br_drift_interval r)) /\
  (cap_references_cert_by_id (capabilitiesOf (br_registry r) b) = true -> ensureHTTPSOf b = false ->
   is_Some (match tg_spec tg with SpecOSS t => t | SpecFC3 _ => None end) ->
   twp (cname_holds (CASCertRef m)) no_target_write h
     (observe_step r OSS.provider (OSSClient cred region key) tg rd m) (fun res _ => res.1 = br_drift_interval r)).
Proof.
  intros Hm. cbv zeta. split.
  - intros Hcap. apply observe_step_settled. intros h1. cbn. split; [by intros []|]. intros x (cd' & -> & Hp & Hc).
    cbn in Hp, Hc |- *. eexists. split; [done|]. unfold already_applied, identityOf. rewrite Hcap. cbn [id_current id_want].
    rewrite (observed_fingerprint ac m cd' Hm Hc), String.eqb_refl. cbn [andb].
    destruct (ensureHTTPSOf (rd_b rd)) eqn:E; [|done]. rewrite protocols_agree. cbn [ob_protocol FC3.observed].
    rewrite Hp. cbn [andb]. destruct (FC3.protocolHasHTTPS (cd_protocol cd)) eqn:Eh; [exact Eh|apply FC3.both_has_https].
  - intros Hcap Hen [t Ht]. apply observe_step_settled. intros h1. cbn [pv_observe OSS.provider]. unfold OSS.Observe, OSS.with_client, OSS.specOf.
    cbn [OSS.clientOf]. destruct (tg_spec tg) as [|[t'|]]; try done.
    twp_step. split; [by intros []|]. intros x (cn & -> & Hc). cbn [twp].
    eexists. split; [done|]. unfold already_applied, identityOf. rewrite Hcap. cbn [id_current id_want ob_current_cert_ref].
    by rewrite Hc, String.eqb_refl, Hen.
Qed.

(** the material of the sample certificate *)
Definition sample_material : CertMaterial :=
  match (exec (binding_world sample_binding (inr other_domain)) tt [] (@loadBindingMaterial toy_crypto issued_ac)).1.1 with
  | inr m => m
  | inl _ => no_material
  end.

Definition sample_written : CustomDomain :=
  let i := FC3.apply_input other_domain sample_material (mkApplyOptions true "") in
  mkCustomDomain "acct" "leaf" (ui_protocol i) (cm_cas_name sample_material) (cm_cert_pem sample_material) EchoNil.

Lemma written_targets_are_settled_witness :
  let rd := newBindingRound sample_binding in
  let tg := mkTarget TargetTypeFC3CustomDomain "cn-hangzhou" "leaf" (SpecFC3 None) in
  let run := exec (binding_world sample_binding (inr sample_written)) tt []
    (@observe_step (ref_kube 0) sample_binding_reconciler (@FC3.provider toy_crypto) (FC3Client (CfgAccessKey "ak" "sk") "cn-hangzhou" "ak") tg rd sample_material) in
  cloud_writes run.1.2 = [] /\ run.1.1.1 = (30 * minute)%Z.
Proof.
  intros rd tg run. split; [vm_compute; reflexivity|].
  assert (Hm : @from_bundle toy_crypto issued_ac sample_material).
  { pose proof (twp_exec_any (binding_world sample_binding (inr other_domain)) _ [] tt _ _ (returns_twp any_env [] _ _
      (@loadBindingMaterial_from toy_crypto toy_crypto_laws issued_ac))) as H. cbv beta in H.
    unfold sample_material. destruct (exec _ tt [] _).1.1 as [e|m] eqn:E; [|exact H]. exfalso. vm_compute in E. discriminate E. }
  assert (HE : forall s h o, domain_holds (FC3.apply_input other_domain sample_material (mkApplyOptions true "")) h o
    (binding_world sample_binding (inr sample_written) s o).1).
  { intros s h o. destruct o; try exact I. exists sample_written. repeat split. }
  exact (twp_exec_env _ _ _ [] tt _ _ HE (proj1 (@written_targets_are_settled (ref_kube 0) (ref_kube_laws 0) toy_crypto toy_crypto_laws
    sample_binding_reconciler rd issued_ac sample_material other_domain tg (CfgAccessKey "ak" "sk") "cn-hangzhou" "ak" [] Hm) eq_refl)).
Defined.
