(* ===== verification/BindingWorld.v ===== *)
(** * The binding controller against the clouds

    A round of a binding is run with the fakes as the clouds (TargetCells.v): the
    verdicts of the round are related to the state the clouds are left in.  The
    proofs use the interface [CellProvider] only, so they hold of both providers. *)
From S2P Require Import Prelude GoString GoTime Api GoError Cloud KubeLib Effects FakeCAS FakeFC3 FakeOSS FakeCloud Bundle Samples CertStatus CertMaterial.
From S2P Require Import CertUpload Provider ProviderFC3 ProviderOSS TargetCells Clients BindingStatus BindingMaterial BindingObserve.
From S2P Require Import BindingController BindingSafety BindingTheorems BindingConvergence.

#[local] Open Scope prog_scope.

(** ** Calls that do not reach a cloud *)

Definition off_cloud (o : op) : Prop := cloud_call o = false.

Lemma report_off_cloud o : is_report o -> off_cloud o.
Proof. by destruct o; intros []. Qed.
Lemma tail_off_cloud o : tail_call o -> off_cloud o.
Proof. intros [Ho|Ho]; [by apply report_off_cloud|by destruct o; destruct Ho]. Qed.
Lemma off_cloud_harmless o : off_cloud o -> ~ cloud_write o.
Proof. unfold off_cloud. destruct o; cbn; congruence || tauto. Qed.

Section world.
  Context `{KL : KubeLibLaws} `{CL : CryptoLaws} (visit : gmap Z FakeCAS.Cert -> list FakeCAS.Cert).
  Context (r : BindingReconciler) (p : Provider) `{PC : !ProviderContract p} `{CP : !CellProvider p}.
  Context `{CPL : !CellProviderLaws visit p}.

(** the clouds and the writes are where they were *)
Definition still (c0 : cloud) (h h' : history) : Prop :=
  cloud_after visit c0 h' = cloud_after visit c0 h /\ cloud_writes h' = cloud_writes h.

Lemma still_trans c0 h1 h2 h3 : still c0 h1 h2 -> still c0 h2 h3 -> still c0 h1 h3.
Proof. unfold still. intros [E1 E2] [E3 E4]. by rewrite E3, E4. Qed.

Lemma off_cloud_wp {A} c0 h (q : prog A) R :
  all_calls off_cloud q -> returns R q -> twp (fake_env visit c0) any_call h q (fun a h' => still c0 h h' /\ R a).
Proof.
  intros Hq HR. eapply twp_post; [apply twp_returns_and; [apply (all_calls_twp off_cloud); [exact Hq|done]|exact HR]|].
  intros a h' [Hs Ha]. split; [|done]. split; [by apply (cloud_after_since visit off_cloud)|].
  apply (cloud_writes_since off_cloud); [apply off_cloud_harmless|done].
Qed.

Lemma off_cloud_bind {A B} c0 h (q : prog A) (f : A -> prog B) R Q :
  all_calls off_cloud q -> returns R q ->
  (forall a h', still c0 h h' -> R a -> twp (fake_env visit c0) any_call h' (f a) Q) ->
  twp (fake_env visit c0) any_call h (bind q f) Q.
Proof. intros Hq HR Hf. apply twp_bind. eapply twp_post; [by apply (off_cloud_wp c0 h q R)|]. intros a h' [Hs Ha]. by apply Hf. Qed.

(** ** One round *)

(** the target is in the account it was first bound in *)
Definition in_account (rd : bindingRound) (x : ObservedState) : Prop :=
  bs_bound_account (ab_status (rd_b rd)) = "" \/ bs_bound_account (ab_status (rd_b rd)) = ob_account_id x.

(** the status that is written says that [m] was applied *)
Definition reports_applied (m : CertMaterial) (h' : history) : Prop :=
  exists b base resp, Ev (OPatchBindingStatus b base) resp ∈ h' /\
    bs_applied_fingerprint (ab_status b) = cm_fingerprint m /\ bindingCondTrue b ConditionApplied = true.

(** a binding whose provider is [p] *)
Definition served_by (b : AliyunCertificateBinding) : Prop :=
  capabilitiesOf (br_registry r) b = pv_capabilities p /\
  (cap_supports_protocol_switch (pv_capabilities p) = false -> ensureHTTPSOf b = false).

Lemma freezeApplied_returns rd obs m w : returns (fun rd' =>
    bs_applied_fingerprint (ab_status (rd_b rd')) = cm_fingerprint m /\ bindingCondTrue (rd_b rd') ConditionApplied = true)
  (freezeApplied r rd obs m w).
Proof.
  unfold freezeApplied, setApplied. cbv zeta.
  apply (returns_bind_post (fun b => bs_applied_fingerprint (ab_status b) = cm_fingerprint m)).
  { assert (H : bs_applied_fingerprint (ab_status (frozen r (rd_b rd) obs m)) = cm_fingerprint m).
    { unfold frozen. cbn. by destruct (cap_references_cert_by_id _). }
    destruct w; [|exact H]. cbn. by intros _. }
  intros b Hb. apply (returns_bind_post (fun _ => True)); [apply returns_True|]. intros _ _. cbn [returns rd_b set_rd_b].
  unfold bindingCondTrue, setBindingCondition. cbn. rewrite is_true_set_same. split; [|by rewrite bool_decide_eq_true_2].
  by destruct (_ && _).
Qed.

(** the end of a round that applied, or found applied *)
Lemma freeze_and_patch c0 h rd obs m w :
  twp (fake_env visit c0) any_call h
    (let! rd := freezeApplied r rd obs m w in
     patch_binding_and_return (br_drift_interval r) (set_rd_b (aggregateBindingReady (rd_b rd)) rd))
    (fun res h' => still c0 h h' /\ res.1 = br_drift_interval r /\ reports_applied m h').
Proof.
  eapply off_cloud_bind; [eapply all_calls_mono; [apply tail_off_cloud|apply freezeApplied_tail]|apply freezeApplied_returns|].
  intros rd' h1 Hs [Hf Ha]. unfold patch_binding_and_return, patchBinding, patchBindingStatus.
  twp_step. eapply off_cloud_bind; [eapply all_calls_mono; [apply report_off_cloud|apply recordBindingMetrics_reports]|apply returns_True|].
  intros u h2 Hs2 _. split; [exact I|]. intros x _. cbn [twp]. split; [|split; [done|]].
  - eapply still_trans; [exact Hs|]. eapply still_trans; [exact Hs2|]. split; cbn; by rewrite ?cloud_next_other.
  - eexists _, _, x. split; [by apply list_elem_of_here|]. cbn. split.
    + destruct (same_aggregate (rd_b rd')) as (_ & _ & _ & E & _). congruence.
    + by rewrite applied_aggregate.
Qed.

(** the reactions to errors do not reach the clouds *)
Lemma event_off_cloud rd t re w ev msg : all_calls off_cloud (eventOnReasonChange rd t re w ev msg).
Proof. unfold eventOnReasonChange. destruct (String.eqb _ _); [done|]. by split. Qed.

Lemma patch_off_cloud rd : all_calls off_cloud (patchBinding rd).
Proof.
  unfold patchBinding. twp_step; [|by split]. eapply all_calls_mono; [apply report_off_cloud|apply recordBindingMetrics_reports].
Qed.

Lemma handleObserveError_off_cloud rd e : all_calls off_cloud (handleObserveError r rd e).
Proof.
  unfold handleObserveError, patch_binding_and_return. destruct (has_code _ e); [|destruct (has_code _ e)].
  - twp_step; [apply patch_off_cloud|done].
  - twp_step; [apply patch_off_cloud|done].
  - destruct (noteObserveFailed _) as [noted b]. twp_step; [destruct noted; [apply event_off_cloud|done]|].
    twp_step; [apply patch_off_cloud|done].
Qed.

Lemma handleApplyError_off_cloud rd e : all_calls off_cloud (handleApplyError r rd e).
Proof.
  unfold handleApplyError. cbv zeta. twp_step; [apply event_off_cloud|]. twp_step; [apply patch_off_cloud|done].
Qed.

Lemma noteDrift_off_cloud rd obs m : all_calls off_cloud (noteDrift r rd obs m).
Proof. unfold noteDrift. cbv zeta. destruct (_ || _); [done|]. destruct (String.eqb _ _); [done|]. by repeat split. Qed.

(** the target is as the binding asks for *)
Definition right (rd : bindingRound) (m : CertMaterial) (x : ObservedState) : Prop := in_place r (rd_b rd) x m.

(** what [cp_applied] leaves is right, whatever was there *)
Lemma applied_right rd m prev x : served_by (rd_b rd) -> cp_material m ->
  right rd m (cp_applied m (mkApplyOptions (ensureHTTPSOf (rd_b rd)) prev) x).
Proof.
  intros [Hcap Hsw] Hm. unfold right. apply already_applied_spec. unfold already_applied, identityOf. rewrite Hcap.
  set (o := mkApplyOptions _ _). pose proof (applied_identity (visit := visit) (p := p) m o x Hm) as Hid.
  assert (Hp : protocolSatisfied (cp_applied m o x) (ensureHTTPSOf (rd_b rd)) = true).
  { destruct (ensureHTTPSOf (rd_b rd)) eqn:E; [|done]. rewrite protocols_agree.
    apply (applied_https (visit := visit)); [done|]. by destruct (cap_supports_protocol_switch _); [|specialize (Hsw eq_refl)]. }
  rewrite Hp, andb_true_r. destruct (cap_references_cert_by_id _); cbn; rewrite Hid; apply String.eqb_refl.
Qed.

(** the outcome of a round for the cell [k] of its target *)
Record round_outcome (c0 : cloud) (rd : bindingRound) (m : CertMaterial) (k : cell_key) (h : history) (res : Result) (h' : history) : Prop := {
  (* other targets are as they were; the target is, too, or was applied to, which
     takes a target in the account of the first binding *)
  ro_frame : frame k (cloud_after visit c0 h) (cloud_after visit c0 h');
  ro_cell : cell (cloud_after visit c0 h') k = cell (cloud_after visit c0 h) k \/
    exists x o, cell (cloud_after visit c0 h) k = Some x /\ in_account rd x /\
      cell (cloud_after visit c0 h') k = Some (cp_applied m o x);
  ro_writes : length (cloud_writes h') <= length (cloud_writes h) + 1;
  (* a cloud without faults: a live target in the account becomes right, in one round,
     and the status says so; nothing is written to a target that is right *)
  ro_calm : calm (cloud_after visit c0 h) -> calm (cloud_after visit c0 h') /\
    forall x, cell (cloud_after visit c0 h) k = Some x -> in_account rd x -> cp_material m -> cp_live x ->
      res.1 = br_drift_interval r /\ reports_applied m h' /\
      exists x', cell (cloud_after visit c0 h') k = Some x' /\ right rd m x' /\ cp_live x' /\
        ob_account_id x' = ob_account_id x /\ (right rd m x -> x' = x /\ cloud_writes h' = cloud_writes h)
}.

(** a round that wrote nothing and left the clouds still, after which nothing is claimed *)
Lemma still_outcome c0 rd m k h h1 h' res (Hf : forall k', cell (cloud_after visit c0 h1) k' = cell (cloud_after visit c0 h) k') :
  cloud_writes h1 = cloud_writes h -> still c0 h1 h' ->
  (calm (cloud_after visit c0 h) -> calm (cloud_after visit c0 h1) /\
    forall x, cell (cloud_after visit c0 h) k = Some x -> in_account rd x -> cp_material m -> cp_live x ->
      res.1 = br_drift_interval r /\ reports_applied m h' /\ right rd m x) ->
  round_outcome c0 rd m k h res h'.
Proof.
  intros Hw [Hc Hw'] Hcalm. split; rewrite ?Hc, ?Hw', ?Hw.
  - intros k' _. apply Hf.
  - left. apply Hf.
  - lia.
  - intros [Hc1 Hx]%Hcalm. split; [done|]. intros x Ex Ha Hm Hl. destruct (Hx x Ex Ha Hm Hl) as (H1 & H2 & H3).
    split; [done|]. split; [done|]. exists x. by rewrite Hf.
Qed.

Lemma fence_account rd obs :
  (fenceAccount rd obs = None -> in_account rd obs) /\ (forall rd', fenceAccount rd obs = Some rd' -> ~ in_account rd obs).
Proof.
  unfold fenceAccount, in_account. destruct (String.eqb_spec (bs_bound_account (ab_status (rd_b rd))) "") as [E|E]; cbn; [by split; [left|]|].
  destruct (String.eqb_spec (bs_bound_account (ab_status (rd_b rd))) (ob_account_id obs)) as [E'|E']; [by split; [right|]|].
  split; [done|]. by intros rd' _ [|].
Qed.

(** the write of a round, from the state [h1] in which [x] was observed *)
Lemma apply_step_world c0 rd0 rd tg cl k m x h h1 :
  cp_key tg cl = Some k -> served_by (rd_b rd0) -> same_binding (rd_b rd0) (rd_b rd) ->
  (forall k', cell (cloud_after visit c0 h1) k' = cell (cloud_after visit c0 h) k') -> cloud_writes h1 = cloud_writes h ->
  (calm (cloud_after visit c0 h) -> calm (cloud_after visit c0 h1)) ->
  cell (cloud_after visit c0 h) k = Some x -> in_account rd0 x -> already_applied r (rd_b rd0) x m = false ->
  twp (fake_env visit c0) any_call h1 (apply_step r p cl tg rd x m) (fun res h' => round_outcome c0 rd0 m k h res h').
Proof.
  intros Hk Hsrv Hsame Hf Hw Hcalm Hx Hacc Hno. unfold apply_step.
  eapply off_cloud_bind; [apply noteDrift_off_cloud|apply (proj2 (noteDrift_follows r rd x m))|].
  intros rd2 h2 [Hc2 Hw2] (_ & Hs2 & _). cbv zeta.
  assert (Hen : ensureHTTPSOf (rd_b rd2) = ensureHTTPSOf (rd_b rd0)).
  { destruct (same_target r _ _ Hs2) as (_ & _ & _ & -> & _). by destruct (same_target r _ _ Hsame) as (_ & _ & _ & -> & _). }
  rewrite Hen. set (o := mkApplyOptions _ _). twp_step.
  eapply twp_post; [apply (twp_both _ _ _ any_call); [apply (cell_apply (visit := visit) c0 h2 tg cl k m o Hk)|apply apply_writes_once]|].
  cbn zeta. rewrite Hc2, Hw2, Hw. intros err h3 [(Hstep & Hfr & Hok) Hn3]. twp_step. split; [exact I|]. intros u _. cbn [twp].
  assert (Hc3 : still c0 h3 (Ev (OCounterInc metric_binding_apply [rd_provider rd2; bindingApplyResult err]) u :: h3)).
  { by split. }
  assert (Hcell : cell (cloud_after visit c0 h3) k = cell (cloud_after visit c0 h) k \/
    cell (cloud_after visit c0 h3) k = Some (cp_applied m o x)).
  { rewrite (Hf k), Hx in Hstep. inversion Hstep; subst; rewrite ?Hx; auto. }
  assert (Hout : forall res h', still c0 h3 h' -> (err = None -> res.1 = br_drift_interval r /\ reports_applied m h') ->
    round_outcome c0 rd0 m k h res h').
  { intros res h' [Hc Hw'] Hrep. split; rewrite ?Hc, ?Hw'.
    - intros k' Hne. by rewrite (Hfr k' Hne).
    - destruct Hcell as [?|?]; [by left|right; eauto].
    - lia.
    - intros Hcm. destruct (Hok (Hcalm Hcm)) as [Hcm3 Hlive]. split; [done|]. intros y Hy _ Hm Hl. rewrite Hx in Hy. injection Hy as <-.
      specialize (Hlive x Hm (eq_trans (Hf k) Hx) Hl). subst err. destruct (Hrep eq_refl) as [H1 H2]. do 2 (split; [done|]).
      destruct (applied_live (visit := visit) m o x Hl) as [H3 H4]. exists (cp_applied m o x).
      split; [rewrite (Hf k), Hx in Hstep; by inversion Hstep|]. split; [by apply applied_right|]. do 2 (split; [done|]).
      intros Hr%already_applied_spec. congruence. }
  destruct err as [e|].
  - eapply twp_post; [apply off_cloud_wp; [apply handleApplyError_off_cloud|apply returns_True]|].
    intros res h' [Hs _]. apply Hout; [by eapply still_trans|done].
  - eapply twp_post; [apply freeze_and_patch|]. intros res h' (Hs & Hd & Hr). apply Hout; [by eapply still_trans|done].
Qed.

Lemma observe_step_world c0 rd tg cl k m h :
  cp_key tg cl = Some k -> served_by (rd_b rd) ->
  twp (fake_env visit c0) any_call h (observe_step r p cl tg rd m) (fun res h' => round_outcome c0 rd m k h res h').
Proof.
  intros Hk Hsrv. unfold observe_step. twp_step.
  eapply twp_post; [apply (twp_both _ _ _ any_call); [apply (cell_observe (visit := visit) c0 h tg cl k Hk)|
    apply (all_calls_twp cloud_read); [apply observe_reads|done]]|].
  cbn zeta. intros seen h1 [(Hf & Hsome & Hcalm) Hw]. apply (cloud_writes_since cloud_read) in Hw; [|apply read_harmless].
  destruct seen as [e|obs].
  { eapply twp_post; [apply off_cloud_wp; [apply handleObserveError_off_cloud|apply returns_True]|].
    intros res h' [Hs _]. apply (still_outcome c0 rd m k h h1); [done..|]. intros Hcm. destruct (Hcalm Hcm) as [? Hnone].
    split; [done|]. intros x Hx. destruct (Hnone e eq_refl) as [Hx' _]. congruence. }
  specialize (Hsome obs eq_refl). assert (Hcalm1 : calm (cloud_after visit c0 h) -> calm (cloud_after visit c0 h1)) by (intros H; by apply Hcalm).
  eapply off_cloud_bind; [by split|apply (proj2 (noteObserved_follows rd))|]. intros rd1 h2 Hs2 (_ & Hs & _).
  assert (Hacc1 : in_account rd1 obs <-> in_account rd obs).
  { unfold in_account. destruct Hs as (_ & _ & E & _). by rewrite E. }
  destruct (fence_account rd1 obs) as [Hin Hout]. destruct (fenceAccount rd1 obs) as [rd2|].
  { eapply twp_post; [apply off_cloud_wp; [eapply all_calls_mono; [apply tail_off_cloud|apply patch_return_tail]|apply returns_True]|].
    intros res h' [Hs' _]. apply (still_outcome c0 rd m k h h1); [done..|by eapply still_trans|]. intros Hcm. split; [by apply Hcalm1|].
    intros x Hx Ha. rewrite Hsome in Hx. injection Hx as <-. by destruct (Hout rd2 eq_refl); apply Hacc1. }
  specialize (Hin eq_refl). apply Hacc1 in Hin. destruct (same_identity r _ _ obs m Hs) as [_ Hia]. rewrite Hia.
  destruct (already_applied r (rd_b rd) obs m) eqn:Ea.
  - eapply twp_post; [apply freeze_and_patch|]. intros res h' (Hs' & Hd & Hr).
    apply (still_outcome c0 rd m k h h1); [done..|by eapply still_trans|]. intros Hcm. split; [by apply Hcalm1|].
    intros x Hx _ _ _. rewrite Hsome in Hx. injection Hx as <-. do 2 (split; [done|]). by apply already_applied_spec.
  - destruct Hs2 as [Hc2 Hw2]. apply apply_step_world; rewrite ?Hc2, ?Hw2; done.
Qed.

(** ** Any number of rounds *)

Fixpoint observe_rounds (tg : Target) (cl : ProviderClient) (m : CertMaterial) (rds : list bindingRound) : prog (list Result) :=
  match rds with
  | [] => Ret []
  | rd :: rds =>
      let! res := observe_step r p cl tg rd m in
      let! l := observe_rounds tg cl m rds in
      Ret (res :: l)
  end.

(** rounds of one binding: the spec is the same, the status may be any *)
Definition rounds_of (spec : AliyunCertificateBindingSpec) (x : ObservedState) (rds : list bindingRound) : Prop :=
  Forall (fun rd => ab_spec (rd_b rd) = spec /\ served_by (rd_b rd) /\ in_account rd x) rds.

Lemma right_spec rd rd' m x : ab_spec (rd_b rd) = ab_spec (rd_b rd') -> right rd m x ->
  served_by (rd_b rd) -> served_by (rd_b rd') -> right rd' m x.
Proof.
  intros Hs [Hc Hp] [E1 _] [E2 _]. split; [by rewrite E2, <-E1|]. intros fc. unfold ab_target. rewrite <-Hs. apply Hp.
Qed.

Lemma in_account_eq rd x x' : ob_account_id x' = ob_account_id x -> in_account rd x -> in_account rd x'.
Proof. unfold in_account. by intros ->. Qed.

Lemma frame_trans k c c1 c2 : frame k c c1 -> frame k c1 c2 -> frame k c c2.
Proof. intros H1 H2 k' Hk. by rewrite H2, H1. Qed.

(** after a first round that made the target right, the rest only confirm it *)
Lemma rounds_settled c0 tg cl m k spec x rds h :
  cp_key tg cl = Some k -> cp_material m -> rounds_of spec x rds -> Forall (fun rd => right rd m x) rds ->
  calm (cloud_after visit c0 h) -> cell (cloud_after visit c0 h) k = Some x -> cp_live x ->
  twp (fake_env visit c0) any_call h (observe_rounds tg cl m rds) (fun l h' =>
    Forall (fun res => res.1 = br_drift_interval r) l /\ cell (cloud_after visit c0 h') k = Some x /\
    frame k (cloud_after visit c0 h) (cloud_after visit c0 h') /\ cloud_writes h' = cloud_writes h /\
    calm (cloud_after visit c0 h')).
Proof.
  intros Hk Hm. revert h. induction rds as [|rd rds IH]; intros h Hrds Hright Hcalm Hx Hl; cbn [observe_rounds].
  { cbn [twp]. do 2 (split; [done|]). split; [by intros k' _|]. by split. }
  apply Forall_cons in Hrds as [(_ & Hsrv & Hacc) Hrds], Hright as [Hr Hright].
  twp_step. eapply twp_post; [by apply (observe_step_world c0 rd tg cl k m h)|]. intros res h1 [Hf1 _ _ Hc1].
  destruct (Hc1 Hcalm) as [Hcalm1 Hx1]. destruct (Hx1 x Hx Hacc Hm Hl) as (Hd & _ & x1 & Hx1' & _ & _ & _ & Hst).
  destruct (Hst Hr) as [-> Hw1]. twp_step. eapply twp_post; [by apply IH|].
  intros l h2 (Hds & Hx2 & Hf2 & Hw2 & Hcalm2). cbn [twp]. split; [by constructor|]. do 2 (split; [done || by eapply frame_trans|]).
  split; [congruence|done].
Qed.

Lemma rounds_converge c0 tg cl m k spec x rds h :
  cp_key tg cl = Some k -> cp_material m -> rounds_of spec x rds -> rds <> [] ->
  calm (cloud_after visit c0 h) -> cell (cloud_after visit c0 h) k = Some x -> cp_live x ->
  twp (fake_env visit c0) any_call h (observe_rounds tg cl m rds) (fun l h' =>
    Forall (fun res => res.1 = br_drift_interval r) l /\
    (exists x', cell (cloud_after visit c0 h') k = Some x' /\ Forall (fun rd => right rd m x') rds) /\
    frame k (cloud_after visit c0 h) (cloud_after visit c0 h') /\
    length (cloud_writes h') <= length (cloud_writes h) + 1).
Proof.
  intros Hk Hm Hrds Hne Hcalm Hx Hl. destruct rds as [|rd rds]; [done|]. clear Hne. cbn [observe_rounds].
  apply Forall_cons in Hrds as [(Hsp & Hsrv & Hacc) Hrds].
  twp_step. eapply twp_post; [by apply (observe_step_world c0 rd tg cl k m h)|]. intros res h1 [Hf1 _ Hw1 Hc1].
  destruct (Hc1 Hcalm) as [Hcalm1 Hx1]. destruct (Hx1 x Hx Hacc Hm Hl) as (Hd & _ & x1 & Hx1' & Hr & Hl1 & Ha1 & _).
  assert (Hright : Forall (fun rd' => right rd' m x1) rds).
  { eapply Forall_impl; [exact Hrds|]. intros rd' (Hsp' & Hsrv' & _). apply (right_spec rd); [congruence|done..]. }
  twp_step. eapply twp_post; [apply (rounds_settled c0 tg cl m k spec x1); try done|].
  { eapply Forall_impl; [exact Hrds|]. intros rd' (? & ? & ?). do 2 (split; [done|]). by eapply in_account_eq. }
  intros l h2 (Hds & Hx2 & Hf2 & Hw2 & _). cbn [twp]. split; [by constructor|].
  split; [exists x1; by split; [|constructor]|]. split; [by eapply frame_trans|]. by rewrite Hw2.
Qed.

End world.

(** ** Properties *)

(** C8: A binding converges and stays.  On a cloud without faults, let the target be
    there, live, and in the account the binding is bound to, whatever is installed on
    it.  Then any number of rounds of the binding with a material, with any status in
    between, leave the target with that material ([in_place]: it shows the fingerprint or
    the reference in CAS of the material, and HTTPS where it was asked for),
    have written to the cloud at most once in all, have changed no other target, and
    each come back after the drift interval.  This is proved of every provider that
    implements the abstract target, so of FC3 and OSS. *)
Theorem bindings_converge `{KL : KubeLibLaws} `{CL : CryptoLaws} (visit : gmap Z FakeCAS.Cert -> list FakeCAS.Cert)
    (r : BindingReconciler) (p : Provider) `{!ProviderContract p} `{!CellProvider p} `{!CellProviderLaws visit p}
    (c0 : cloud) (tg : Target) (cl : ProviderClient) (m : CertMaterial) (k : cell_key) (spec : AliyunCertificateBindingSpec)
    (x : ObservedState) (rds : list bindingRound) :
  cp_key tg cl = Some k -> cp_material m -> rounds_of r p spec x rds -> rds <> [] ->
  calm c0 -> cell c0 k = Some x -> cp_live x ->
  twp (fake_env visit c0) any_call [] (observe_rounds r p tg cl m rds) (fun l h =>
    Forall (fun res => res.1 = br_drift_interval r) l /\
    (exists x', cell (cloud_after visit c0 h) k = Some x' /\ Forall (fun rd => right r rd m x') rds) /\
    frame k c0 (cloud_after visit c0 h) /\ length (cloud_writes h) <= 1).
Proof. intros Hk Hm Hrds Hne Hc Hx Hl. by apply (rounds_converge visit r p c0 tg cl m k spec x rds []). Qed.

(** a cloud with the domain of the sample binding, serving plain HTTP *)
Definition sample_cloud : cloud :=
  mkCloud FakeCAS.NewCAS
    (FakeFC3.SetAccountID "acct" (FakeFC3.AddDomain (FakeFC3.mkDomain "leaf" "HTTP" "" "" "" (EchoOther "routes")) FakeFC3.NewFC3))
    FakeOSS.NewOSS.

Definition sample_visit (m : gmap Z FakeCAS.Cert) : list FakeCAS.Cert := (map_to_list m).*2.

Lemma bindings_converge_witness :
  let rds := [newBindingRound sample_binding; newBindingRound sample_binding] in
  let tg := mkTarget TargetTypeFC3CustomDomain "cn-hangzhou" "leaf" (SpecFC3 None) in
  let cl := FC3Client (CfgAccessKey "ak" "sk") "cn-hangzhou" "ak" in
  let run := exec (fake_world sample_visit (binding_world sample_binding (inr other_domain))) (sample_cloud, tt) []
    (@observe_rounds (ref_kube 0) sample_binding_reconciler (@FC3.provider toy_crypto) tg cl sample_material rds) in
  length (cloud_writes run.1.2) <= 1 /\
  (FakeFC3.CertPEM <$> FakeFC3.domains (cl_fc3 run.2.1) !! "leaf") = Some (cm_cert_pem sample_material).
Proof.
  intros rds tg cl run. split; [|vm_compute; reflexivity].
  assert (Hm : @cp_material toy_crypto (@FC3.provider toy_crypto) (@fc3_cells toy_crypto) sample_material).
  { split; [|split]; [vm_compute; discriminate|vm_compute; discriminate|vm_compute; reflexivity]. }
  assert (Hr : rounds_of sample_binding_reconciler (@FC3.provider toy_crypto) (ab_spec sample_binding)
    (mkObserved "" "" "HTTP" "acct") rds).
  { assert (Hs : @served_by sample_binding_reconciler (@FC3.provider toy_crypto) sample_binding) by (split; [reflexivity|intros [=]]).
    repeat (constructor; [split; [reflexivity|split; [exact Hs|first [left; reflexivity|right; reflexivity]]]|]). constructor. }
  pose proof (fake_world_env sample_visit (binding_world sample_binding (inr other_domain)) sample_cloud tt _ _ _
    (@bindings_converge (ref_kube 0) (ref_kube_laws 0) toy_crypto toy_crypto_laws sample_visit sample_binding_reconciler
       (@FC3.provider toy_crypto) (@FC3.contract toy_crypto) (@fc3_cells toy_crypto) (@fc3_cells_laws toy_crypto sample_visit) sample_cloud tg cl sample_material (KFC3 "leaf") (ab_spec sample_binding)
       (mkObserved "" "" "HTTP" "acct") rds eq_refl Hm Hr ltac:(discriminate) ltac:(repeat split) eq_refl ltac:(discriminate))) as H.
  unfold run. destruct (exec _ _ _ _) as [[l h] s']. exact (proj2 (proj2 (proj2 (proj1 H)))).
Defined.

(** ** What the keys of the conflict index stand for *)

(** the place in a cloud a binding's target is at: the type, the region and the cell *)
Definition place_of (b : AliyunCertificateBinding) : option (string * string * cell_key) :=
  let t := ab_target b in
  if String.eqb (bt_type t) TargetTypeFC3CustomDomain then
    fc ← bt_fc3 t; Some (bt_type t, fc_region fc, KFC3 (fc_domain_name fc))
  else if String.eqb (bt_type t) TargetTypeOSSCustomDomain then
    o ← bt_oss t; Some (bt_type t, oss_region o, KOSS (oss_bucket o) (to_lower (oss_domain_name o)))
  else None.

(** the domain as the binding spells it *)
Definition spelling (b : AliyunCertificateBinding) : option string :=
  match place_of b with
  | Some (_, _, KFC3 d) => Some d
  | Some (_, _, KOSS _ _) => oss_domain_name <$> bt_oss (ab_target b)
  | None => None
  end.

Definition lower_case (b : AliyunCertificateBinding) : Prop := forall d, spelling b = Some d -> to_lower d = d.

(** the parts of a key are the place and the spelling *)
Lemma parts_of_place b b' l l' : target_parts b = Some l -> target_parts b' = Some l' ->
  (l = l' <-> place_of b = place_of b' /\ spelling b = spelling b').
Proof.
  unfold target_parts, spelling, place_of. intros Hl Hl'.
  destruct (String.eqb_spec (bt_type (ab_target b)) TargetTypeFC3CustomDomain) as [E|_].
  - destruct (bt_fc3 (ab_target b)) as [fc|]; [|done]. injection Hl as <-. rewrite E. cbn.
    destruct (String.eqb_spec (bt_type (ab_target b')) TargetTypeFC3CustomDomain) as [E'|Hn].
    + destruct (bt_fc3 (ab_target b')) as [fc'|]; [|done]. injection Hl' as <-. rewrite E'. cbn. split; [by intros [= -> ->]|by intros [[= -> ->] _]].
    + destruct (String.eqb_spec (bt_type (ab_target b')) TargetTypeOSSCustomDomain) as [E'|_]; [|done].
      destruct (bt_oss (ab_target b')); [|done]. injection Hl' as <-. cbn. split; [by intros [=]|by intros [[=] _]].
  - destruct (String.eqb_spec (bt_type (ab_target b)) TargetTypeOSSCustomDomain) as [E|_]; [|done].
    destruct (bt_oss (ab_target b)) as [o|]; [|done]. injection Hl as <-. rewrite E. cbn.
    destruct (String.eqb_spec (bt_type (ab_target b')) TargetTypeFC3CustomDomain) as [E'|Hn].
    + destruct (bt_fc3 (ab_target b')); [|done]. injection Hl' as <-. rewrite E'. cbn. split; [by intros [=]|by intros [[=] _]].
    + destruct (String.eqb_spec (bt_type (ab_target b')) TargetTypeOSSCustomDomain) as [E'|_]; [|done].
      destruct (bt_oss (ab_target b')) as [o'|]; [|done]. injection Hl' as <-. rewrite E'. cbn. split; [by intros [= -> -> ->]|by intros [[= -> -> _] [= ->]]].
Qed.

Lemma lower_case_spelling b b' : lower_case b -> lower_case b' -> place_of b = place_of b' -> spelling b = spelling b'.
Proof.
  unfold lower_case, spelling. intros Hb Hb' E. rewrite <-E in *.
  destruct (place_of b) as [[[ty rg] [d|bu d]]|] eqn:Ep; [done| |done].
  assert (Ho : forall c, place_of c = Some (ty, rg, KOSS bu d) -> exists o, bt_oss (ab_target c) = Some o /\ to_lower (oss_domain_name o) = d).
  { intros c. unfold place_of. destruct (String.eqb _ _); [by destruct (bt_fc3 _)|]. destruct (String.eqb _ _); [|done].
    destruct (bt_oss (ab_target c)) as [o|]; [|done]. intros [= _ _ _ <-]. by exists o. }
  destruct (Ho b Ep) as (o & Eo & Hd), (Ho b' (eq_sym E)) as (o' & Eo' & Hd'). rewrite Eo, Eo' in *. cbn in *.
  by rewrite <-(Hb _ eq_refl), <-(Hb' _ eq_refl), Hd, Hd'.
Qed.

(** the place is the cell that the provider of the target reads and writes *)
Lemma place_is_cell `{Crypto} reg b tg cl k : targetOf reg b = inr tg ->
  (tg_type tg = TargetTypeFC3CustomDomain /\ cp_key (p := FC3.provider) tg cl = Some k \/
   tg_type tg = TargetTypeOSSCustomDomain /\ cp_key (p := OSS.provider) tg cl = Some k) ->
  place_of b = Some (tg_type tg, tg_region tg, k).
Proof.
  unfold targetOf, place_of. destruct (String.eqb_spec (bt_type (ab_target b)) TargetTypeFC3CustomDomain) as [E|_].
  - destruct (bt_fc3 (ab_target b)) as [fc|]; [|done]. intros [= <-]. cbn. rewrite E. intros [[_ Hk]|[Ht _]]; [|discriminate Ht].
    destruct cl; try done. by injection Hk as <-.
  - destruct (String.eqb_spec (bt_type (ab_target b)) TargetTypeOSSCustomDomain) as [E|_]; [|done].
    destruct (bt_oss (ab_target b)) as [o|]; [|done]. intros [= <-]. cbn. rewrite E. intros [[Ht _]|[_ Hk]]; [discriminate Ht|].
    destruct cl; try done. by injection Hk as <-.
Qed.

(** C28: What a key of the conflict index stands for.  For bindings of well-formed targets
    whose parts contain no slash: two that share a key, so that the arbitration lets one of
    them write, are at the same place, which is the type, the region and the cell that the
    provider of the target reads and writes; two at the same place share a key exactly
    when they spell the domain alike, so in particular when both spell it in lower case.
    (The condition is needed: OSS takes any spelling, and [spellings_fight] below shows
    two bindings of one CNAME with keys of their own.)  Each is in the index under its
    key; a binding whose target is not well formed is in none and conflicts with nothing. *)
Theorem TargetKey_identifies `{Crypto} (reg : registry) (b b' : AliyunCertificateBinding) (l l' : list string) :
  target_parts b = Some l -> target_parts b' = Some l' -> slash_free l -> slash_free l' ->
  (TargetKey b = TargetKey b' -> place_of b = place_of b') /\
  (place_of b = place_of b' -> (TargetKey b = TargetKey b' <-> spelling b = spelling b')) /\
  (lower_case b -> lower_case b' -> (TargetKey b = TargetKey b' <-> place_of b = place_of b')) /\
  (forall tg cl k, targetOf reg b = inr tg ->
     (tg_type tg = TargetTypeFC3CustomDomain /\ cp_key (p := FC3.provider) tg cl = Some k \/
      tg_type tg = TargetTypeOSSCustomDomain /\ cp_key (p := OSS.provider) tg cl = Some k) ->
     place_of b = Some (tg_type tg, tg_region tg, k)) /\
  bindingTargetIndex b = [TargetKey b] /\
  forall m, target_parts m = None -> bindingTargetIndex m = [] /\ arbitrate m = Ret (inr m).
Proof.
  intros Hl Hl' Hs Hs'. pose proof (TargetKey_inj b b' l l' Hl Hl' Hs Hs') as Hk. rewrite (parts_of_place b b' l l' Hl Hl') in Hk.
  split; [tauto|]. split; [tauto|]. split; [|split; [|split]].
  - intros Hb Hb'. rewrite Hk. split; [tauto|]. intros Hp. split; [done|]. by apply lower_case_spelling.
  - intros tg cl k. apply place_is_cell.
  - unfold bindingTargetIndex. rewrite (proj2 (String.eqb_neq _ _)); [done|]. rewrite TargetKey_empty. congruence.
  - apply malformed_free.
Qed.

(** ** One domain under two spellings

    The conflict index compares the domain of an OSS target byte by byte, the provider
    finds the CNAME without regard to case: two bindings that spell one domain differently
    do not conflict, and each takes the certificate of the other for drift. *)

Definition oss_binding (domain : string) : AliyunCertificateBinding :=
  sample_binding_for (mkBindingTarget TargetTypeOSSCustomDomain None (Some (mkOSSTarget "cn-hangzhou" "bucket" domain))).

Lemma spellings_share_a_cell `{Crypto} region bucket d d' ty i ty' i' cred rg key :
  to_lower d = to_lower d' ->
  cp_key (p := OSS.provider) (mkTarget ty rg i (SpecOSS (Some (mkOSSTarget region bucket d)))) (OSSClient cred rg key) =
  cp_key (p := OSS.provider) (mkTarget ty' rg i' (SpecOSS (Some (mkOSSTarget region bucket d')))) (OSSClient cred rg key).
Proof. intros E. cbn. by rewrite E. Qed.

(** a round of the binding of [domain] with the certificate [id] *)
Definition spelled_round (domain : string) (id : Z) : prog Result :=
  let b := oss_binding domain in
  @observe_step (ref_kube 0) sample_binding_reconciler OSS.provider (OSSClient (CfgAccessKey "ak" "sk") "cn-hangzhou" "ak")
    (mkTarget TargetTypeOSSCustomDomain "cn-hangzhou" domain (SpecOSS (bt_oss (ab_target b)))) (newBindingRound b)
    (mkCertMaterial "fp" "pem" "key" (Some id) "name" 0 [domain] "cn-hangzhou").

(** the two bindings have keys of their own, so that each wins its target; and every
    round of either rewrites what the other wrote *)
Lemma spellings_fight :
  let oss := FakeOSS.AddCname "bucket" (FakeOSS.mkCnameRecord "leaf" "" "") (FakeOSS.AddBucket "bucket" FakeOSS.NewOSS) in
  let turn := let! _ := spelled_round "leaf" 1 in spelled_round "Leaf" 2 in
  let run q := exec (fake_world sample_visit (binding_world sample_binding (inr other_domain)))
                 (mkCloud FakeCAS.NewCAS FakeFC3.NewFC3 oss, tt) [] q in
  TargetKey (oss_binding "leaf") <> TargetKey (oss_binding "Leaf") /\
  length (cloud_writes (run turn).1.2) = 2 /\
  length (cloud_writes (run (let! _ := turn in let! _ := turn in turn)).1.2) = 6 /\
  (FakeOSS.CertRef <$> FakeOSS.Cname_of "bucket" "leaf" (cl_oss (run turn).2.1)) = Some "2-cn-hangzhou".
Proof. repeat split; vm_compute; congruence. Qed.

Lemma TargetKey_identifies_witness :
  TargetKey (oss_binding "leaf") = "OSSCustomDomain/cn-hangzhou/bucket/leaf" /\
  place_of (oss_binding "leaf") = place_of (oss_binding "Leaf") /\ TargetKey (oss_binding "leaf") <> TargetKey (oss_binding "Leaf").
Proof.
  split; [vm_compute; reflexivity|]. split; [vm_compute; reflexivity|]. intros E.
  pose proof (@TargetKey_identifies toy_crypto sample_registry (oss_binding "leaf") (oss_binding "Leaf")
    [TargetTypeOSSCustomDomain; "cn-hangzhou"; "bucket"; "leaf"] [TargetTypeOSSCustomDomain; "cn-hangzhou"; "bucket"; "Leaf"]
    eq_refl eq_refl ltac:(repeat constructor) ltac:(repeat constructor)) as (_ & Hsp & _).
  apply (Hsp eq_refl) in E. discriminate E.
Defined.
