(* ===== verification/EndToEnd.v ===== *)
(** * From the issued certificate to the target

    The two controllers over one cluster and one set of clouds.  The certificate
    controller leaves a status that vouches for the Secret (CertWorld.v), which is what
    the gates of the binding controller ask for; whole rounds of a binding then put the
    certificate on its target (BindingWorld.v).  The proofs use the two theorems'
    interfaces: what a settled certificate is, and what a cell provider does. *)
From S2P Require Import Prelude GoString GoTime Api GoError Cloud KubeLib Effects FakeCAS FakeFC3 FakeOSS FakeCloud Bundle Sans.
From S2P Require Import Samples CertStatus CertMaterial CertUpload UploadWorld CertDeletion CertController CertTheorems CertAccounts.
From S2P Require Import CertWorld Provider ProviderFC3 ProviderOSS TargetCells Clients BindingStatus BindingMaterial.
From S2P Require Import BindingObserve BindingController BindingSafety BindingTheorems Metrics BindingConvergence BindingWorld.

#[local] Open Scope prog_scope.

(** ** What the calls of one controller leave to the other *)

Section apart.
  Context `{Cr : Crypto} (visit : gmap Z FakeCAS.Cert -> list FakeCAS.Cert) (c0 : cloud).

(** without calls to targets, the targets are as they were *)
Lemma targets_kept h h' : only_since (fun o => ~ target_call o) h h' ->
  (forall k, cell (cloud_after visit c0 h') k = cell (cloud_after visit c0 h) k) /\
  (calm (cloud_after visit c0 h) -> calm (cloud_after visit c0 h')) /\ cloud_writes h' = cloud_writes h.
Proof.
  intros Hs. assert (Hw : cloud_writes h' = cloud_writes h).
  { apply (cloud_writes_since (fun o => ~ target_call o)); [|done]. intros o Ho Hc. apply Ho. by right. }
  destruct Hs as (new & -> & Hn). rewrite Hw. clear Hw.
  enough ((forall k, cell (cloud_after visit c0 (new ++ h)) k = cell (cloud_after visit c0 h) k) /\
    (calm (cloud_after visit c0 h) -> calm (cloud_after visit c0 (new ++ h)))) by tauto.
  induction Hn as [|[o x] new Ho _ [IHk IHc]]; [done|]. cbn [app cloud_after]. unfold cloud_next. cbn [ev_op] in *.
  destruct o; cbn; try done; try (by destruct Ho; left); try (by destruct Ho; right);
    (match goal with |- context [let '(_, _) := ?f in _] => destruct f as [? ?] end); (split; [|exact IHc]);
    intros k; rewrite <-IHk; by destruct k.
Qed.

(** without calls for certificates, the object and CAS are as they were *)
Lemma certificate_kept ac0 h h' : only_since (fun o => ~ certificate_call o) h h' ->
  stored ac0 h' = stored ac0 h /\ cl_cas (cloud_after visit c0 h') = cl_cas (cloud_after visit c0 h).
Proof.
  intros (new & -> & Hn). induction Hn as [|[o x] new Ho _ [IHs IHc]]; [done|].
  cbn [app cloud_after stored]. rewrite IHs, <-IHc. unfold cloud_next. cbn [ev_op] in *. split; [by destruct o|].
  destruct o; cbn; try done; try (by destruct Ho); by (match goal with |- context [let '(_, _) := ?f in _] => destruct f end).
Qed.

End apart.

(** a triple in a larger environment *)
Lemma twp_env {A} (E E' : environment) P h (q : prog A) Q :
  (forall h o x, E h o x -> E' h o x) -> twp E' P h q Q -> twp E P h q Q.
Proof.
  intros HE. revert h. induction q as [a|o k IH]; intros h; cbn; [done|]. intros [Ho Hk]. split; [done|].
  intros x Hx. apply IH, Hk. by apply HE.
Qed.

(** ** One cluster for both controllers *)

Section both.
  Context `{KL : KubeLibLaws} `{CL : CryptoLaws} (visit : gmap Z FakeCAS.Cert -> list FakeCAS.Cert).
  Context (Hvisit : FakeCAS.visits visit).
  Context (r : CertReconciler) `{!CASFactoryOk r} (rb : BindingReconciler) `{!BindingFactoryOk rb}.
  Context (p : Provider) `{PC : !ProviderContract p} `{CP : !CellProvider p} `{CPL : !CellProviderLaws visit p}.
  Context (ac0 : AliyunCertificate) (c0 : cloud) (cert : Certificate) (b : Bundle) (kp : string).
  Context (spec : AliyunCertificateBindingSpec) (uid : string) (tg : Target) (k : cell_key) (account : string).

(** a binding as a round may find it: of the spec, live, and bound to no account but
    that of its target, whatever else its status says *)
Record eligible (bd : AliyunCertificateBinding) : Prop := {
  el_spec : ab_spec bd = spec;
  el_uid : binding_uid bd = uid;
  el_live : is_deleting (ab_meta bd) = false;
  el_finalizer : FinalizerName ∈ om_finalizers (ab_meta bd);
  el_account : bs_bound_account (ab_status bd) = "" \/ bs_bound_account (ab_status bd) = account
}.

(** the API server shows such a binding, which wins its target *)
Definition serving (E : environment) : environment := fun h o x =>
  E h o x /\
  match o return resp o -> Prop with
  | OGetBinding _ _ _ => fun x => exists bd, x = inr bd /\ eligible bd
  | OListBindingsByTarget _ => fun x => exists l w, x = inr l /\ pickWinner l = Some w /\ binding_uid w = uid
  | _ => fun _ => True
  end x.

Context (E : environment).
Abbreviation cluster := (steady visit ac0 c0 cert b (serving E)).
Abbreviation bwp := (twp cluster any_call).

(** the material of the certificate, as the bindings load it *)
Definition material (ac : AliyunCertificate) : CertMaterial := material_of ac b kp.

(** the target of the binding, and how it is reached *)
Record bound_cluster : Prop := {
  bc_target bd : ab_spec bd = spec -> targetOf (br_registry rb) bd = inr tg;
  bc_served bd : ab_spec bd = spec -> served_by rb p bd;
  bc_client bd ac h : ab_spec bd = spec -> bwp h (providerClient rb bd (Some ac)) (fun x _ =>
    exists cl, x = inr (p, cl) /\ cp_key tg cl = Some k);
  bc_covers : Missing (DNSNames b) [tg_identifier tg] = [];
  bc_writable ac : certificateGate (material ac) ac = true -> is_Some (cm_cert_id (material ac)) -> ac_spec ac = ac_spec ac0 ->
    cp_material (material ac)
}.

Context (IC : issued_cluster visit r ac0 c0 cert b kp (serving E)) (BC : bound_cluster).

(** nothing that matters to either controller has changed *)
Definition quiet (h h' : history) : Prop := stored ac0 h' = stored ac0 h /\ still visit c0 h h'.

Lemma quiet_trans h1 h2 h3 : quiet h1 h2 -> quiet h2 h3 -> quiet h1 h3.
Proof using Type. intros [E1 [S1 W1]] [E2 [S2 W2]]. split; [congruence|]. split; congruence. Qed.

Lemma both_quiet_since h h' : only_since neutral h h' -> quiet h h'.
Proof using Type.
  intros Hs. split; [by apply stored_since|]. split.
  - apply (cloud_after_since visit neutral); [by intros o []|done].
  - apply (cloud_writes_since neutral); [|done]. intros o [Ho _]. by apply off_cloud_harmless.
Qed.

Lemma quiet_bind {A B} h (q : prog A) (f : A -> prog B) R Q :
  all_calls neutral q -> returns R q -> (forall a h', quiet h h' -> R a -> bwp h' (f a) Q) -> bwp h (bind q f) Q.
Proof using Type.
  intros Hq HR Hf. apply twp_bind. eapply twp_post; [apply twp_returns_and; [by apply (all_calls_twp neutral)|exact HR]|].
  intros a h' [Hs Ha]. apply Hf; [by apply both_quiet_since|done].
Qed.

Lemma quiet_call h o x : neutral o -> quiet h (Ev o x :: h).
Proof using Type. intros Ho. apply both_quiet_since. exists [Ev o x]. split; [done|by constructor]. Qed.

(** ** The gates are open *)

Section gates.
  Context (ac : AliyunCertificate) (c : FakeCAS.CAS) (Hac : settled_in b ac c) (Hid : ident ac = ident ac0).

Lemma settled_material : certificateGate (material ac) ac = true /\ is_Some (cm_cert_id (material ac)).
Proof using Hac.
  destruct (si_held _ _ _ Hac) as (g & id & x & Hg & Hf & Hc & _). split.
  - unfold certificateGate. rewrite Hg, Hf. apply String.eqb_refl.
  - cbn. unfold current_of. rewrite Hg, Hf, String.eqb_refl. cbn. rewrite Hc. by eexists.
Qed.

Lemma settled_secret : servingSecretName ac (as_secret_name (ac_status ac)) = secretNameFor ac0.
Proof using Hac Hid.
  destruct (ident_names _ _ Hid) as (_ & _ & _ & _ & Es & _). pose proof (si_secret _ _ _ Hac) as Hg.
  unfold servingSecretName, secretNameGuardHolding in *. destruct (String.eqb_spec (as_secret_name (ac_status ac)) ""); cbn in *; [done|].
  rewrite <-Es. apply negb_false_iff, String.eqb_eq in Hg. congruence.
Qed.

End gates.

Lemma gated_world h bd Q (f : (AliyunCertificateBinding * duration) + CertMaterial -> prog Result) :
  ab_spec bd = spec -> ident (stored ac0 h) = ident ac0 ->
  settled_in b (stored ac0 h) (cl_cas (cloud_after visit c0 h)) ->
  (forall h', quiet h h' -> bwp h' (f (inr (material (stored ac0 h)))) Q) ->
  bwp h (bind (gated_material rb bd (stored ac0 h)) f) Q.
Proof using IC BC.
  intros Hsp Hid Hset Hf. destruct (settled_material _ _ Hset) as [Hgate Hcert].
  destruct (ident_names _ _ Hid) as (Esp & Ens & _ & _ & _ & Eal & _).
  unfold gated_material, loadBindingMaterial, loadBundle. do 4 twp_step. split; [exact I|]. intros x (_ & _ & Hx).
  destruct (Hx Ens (settled_secret _ _ Hset Hid)) as (sec & -> & Hp). cbn [twp]. rewrite Hp, (ic_key _ _ _ _ _ _ _ _ IC). cbn [twp].
  unfold checkDomainCoverage. rewrite (required_is_target _ _ _ (bc_target BC bd Hsp)). cbn [cm_dns_names material_of].
  rewrite (bc_covers BC). fold (material (stored ac0 h)). rewrite Hgate. cbn [negb].
  assert (Hup : casUploadGate (capabilitiesOf (br_registry rb) bd) (stored ac0 h) (material (stored ac0 h)) = ("", "")).
  { unfold casUploadGate. rewrite Eal, (ic_upload _ _ _ _ _ _ _ _ IC). destruct Hcert as [id ->]. by destruct (negb _). }
  rewrite Hup. cbn [String.eqb negb twp]. apply Hf, quiet_call. done.
Qed.

(** the winner is the binding *)
Lemma arbitrate_world h bd (f : goerr + AliyunCertificateBinding -> prog Result) Q :
  binding_uid bd = uid -> (forall w h', binding_uid w = uid -> quiet h h' -> bwp h' (f (inr w)) Q) ->
  bwp h (bind (arbitrate bd) f) Q.
Proof using Type.
  intros Hu Hf. unfold arbitrate. destruct (String.eqb (TargetKey bd) ""); [by apply Hf|].
  twp_step. split; [exact I|]. intros x ((_ & l & w & -> & Hw & Huw) & _). cbn [bind twp]. rewrite Hw. cbn [default twp]. apply Hf; [done|by apply quiet_call].
Qed.

(** ** A round *)

(** what the target shows of the certificate *)
Definition shows (m : CertMaterial) (x : ObservedState) : Prop := forall bd, ab_spec bd = spec -> in_place rb bd x m.

(** the outcome of a round of the binding, from a settled certificate and a cloud without
    faults on which the target shows [x] *)
Record bound_round (h : history) (x : ObservedState) (res : Result) (h' : history) (x' : ObservedState) : Prop := {
  br_stored : stored ac0 h' = stored ac0 h;
  br_cas : cl_cas (cloud_after visit c0 h') = cl_cas (cloud_after visit c0 h);
  br_frame : frame k (cloud_after visit c0 h) (cloud_after visit c0 h');
  br_calm : calm (cloud_after visit c0 h');
  br_cell : cell (cloud_after visit c0 h') k = Some x';
  br_shows : shows (material (stored ac0 h)) x';
  br_live : cp_live x' /\ ob_account_id x' = ob_account_id x;
  br_writes : length (cloud_writes h') <= length (cloud_writes h) + 1;
  br_again : shows (material (stored ac0 h)) x -> x' = x /\ cloud_writes h' = cloud_writes h;
  br_delay : res.1 = br_drift_interval rb
}.

Lemma shows_right m x bd rd : shows m x -> ab_spec bd = spec -> rd_b rd = bd -> right rb rd m x.
Proof using Type. unfold right. intros Hs Hsp ->. by apply Hs. Qed.

Lemma right_shows m x rd : ab_spec (rd_b rd) = spec -> right rb rd m x -> shows m x.
Proof using All.
  intros Hsp Hr bd Hb. apply (right_spec visit rb p rd (newBindingRound bd) m x); [cbn; congruence|done|by apply BC..].
Qed.

Lemma client_world h rd x :
  ab_spec (rd_b rd) = spec -> bs_bound_account (ab_status (rd_b rd)) = "" \/ bs_bound_account (ab_status (rd_b rd)) = account ->
  ident (stored ac0 h) = ident ac0 -> settled_in b (stored ac0 h) (cl_cas (cloud_after visit c0 h)) ->
  calm (cloud_after visit c0 h) -> cell (cloud_after visit c0 h) k = Some x -> cp_live x -> ob_account_id x = account ->
  bwp h (client_step rb rd (stored ac0 h) (material (stored ac0 h))) (fun res h' => exists x', bound_round h x res h' x').
Proof using All.
  intros Hsp Hacc Hid Hset Hcalm Hx Hl Ha. unfold client_step. set (m := material (stored ac0 h)). twp_step.
  eapply twp_post; [apply (twp_and _ _ any_call); [by apply (bc_client BC)|apply (all_calls_twp neutral); [|done]]|].
  { eapply all_calls_mono; [apply client_neutral|by apply providerClient_calls]. }
  intros ? h1 [(cl & -> & Hk) [Hst1 [Hc1 Hw1]]%both_quiet_since]. rewrite (bc_target BC _ Hsp).
  assert (Hm : cp_material m).
  { destruct (settled_material _ _ Hset) as [H1 H2]. apply (bc_writable BC); [done|done|]. by destruct (ident_names _ _ Hid). }
  eapply twp_post; [apply (twp_and _ _ any_call)|].
  { eapply twp_env; [|apply (observe_step_world visit rb p c0 rd tg cl k m h1 Hk); by apply BC]. by intros h2 o y (_ & ? & _). }
  { apply (all_calls_twp binding_ok); [by apply observe_step_ok|done]. }
  cbn beta. intros res h' [[Hf _ Hwr Ho] Hs]. rewrite Hc1 in *.
  destruct (certificate_kept visit c0 ac0 h1 h') as [Es Ec]; [eapply only_since_mono; [|exact Hs]; by intros o []|].
  destruct (Ho Hcalm) as [Hcalm' Hout]. destruct (Hout x Hx) as (Hd & _ & x' & Hx' & Hr & Hl' & Ha' & Hagain); [by unfold in_account; rewrite Ha|done|done|].
  exists x'. split; try done.
  - congruence.
  - by rewrite Ec, Hc1.
  - by eapply right_shows.
  - by rewrite <-Hw1.
  - intros Hsh. rewrite <-Hw1. apply Hagain. by eapply shows_right.
Qed.

Lemma round_after h h1 x res h' x' : quiet h h1 -> bound_round h1 x res h' x' -> bound_round h x res h' x'.
Proof using Type. intros [Hs [Hc Hw]] [H1 H2 H3 H4 H5 H6 H7 H8 H9 H10]. rewrite Hs, Hc, Hw in *. by split. Qed.

(** where a round of the binding starts *)
Record ready_for (h : history) (x : ObservedState) : Prop := {
  rf_ident : ident (stored ac0 h) = ident ac0;
  rf_settled : settled_in b (stored ac0 h) (cl_cas (cloud_after visit c0 h));
  rf_calm : calm (cloud_after visit c0 h);
  rf_cell : cell (cloud_after visit c0 h) k = Some x;
  rf_live : cp_live x;
  rf_account : ob_account_id x = account
}.

Lemma ready_quiet h h1 x : quiet h h1 -> ready_for h x -> ready_for h1 x.
Proof using Type. intros [Hs [Hc Hw]] [H1 H2 H3 H4 H5 H6]. split; by rewrite ?Hs, ?Hc. Qed.

Lemma ready_world h rd x :
  ab_spec (rd_b rd) = spec -> binding_uid (rd_b rd) = uid ->
  bs_bound_account (ab_status (rd_b rd)) = "" \/ bs_bound_account (ab_status (rd_b rd)) = account -> ready_for h x ->
  bwp h (reconcileBindingReady rb rd (stored ac0 h)) (fun res h' => exists x', bound_round h x res h' x').
Proof using All.
  intros Hsp Hu Hacc Hrf. unfold reconcileBindingReady. cbv zeta. apply arbitrate_world; [done|]. intros w h1 Hw Hq1.
  rewrite Hw, Hu, String.eqb_refl. cbn [negb]. pose proof (ready_quiet _ _ _ Hq1 Hrf) as Hrf1. pose proof Hq1 as [<- _].
  apply gated_world; [done|apply Hrf1|apply Hrf1|]. intros h2 Hq2.
  pose proof (ready_quiet _ _ _ Hq2 Hrf1) as Hrf2. pose proof Hq2 as [<- _].
  eapply twp_post; [apply (client_world h2 _ x); try apply Hrf2; done|]. intros res h' [x' H]. exists x'.
  eapply round_after; [|exact H]. by eapply quiet_trans.
Qed.

Lemma BindingReconcile_world h ns name x :
  ready_for h x -> bwp h (BindingReconcile rb ns name) (fun res h' => exists x', bound_round h x res h' x').
Proof using All.
  intros Hrf. unfold BindingReconcile. twp_step. split; [exact I|]. intros y ((_ & bd & -> & [Hsp Hu Hl Hfin Hacc]) & _ & _). cbn [bind twp].
  set (h1 := Ev _ _ :: h). assert (Hq1 : quiet h h1) by exact (quiet_call h (OGetBinding true ns name) (inr bd) (conj eq_refl I)).
  clearbody h1. rewrite Hl, contains_finalizer_spec, (bool_decide_eq_true_2 _ Hfin). cbn [negb].
  unfold reconcileBindingNormal. cbv zeta. twp_step. split; [exact I|]. intros y (_ & _ & ->). cbn [bind twp].
  set (h2 := Ev _ _ :: h1). assert (Hq2 : quiet h h2).
  { eapply quiet_trans; [exact Hq1|]. exact (quiet_call h1 (OGetAC false _ _) (inr (stored ac0 h1)) (conj eq_refl I)). }
  change (stored ac0 h1) with (stored ac0 h2). clearbody h2. pose proof (ready_quiet _ _ _ Hq2 Hrf) as Hrf2.
  eapply quiet_bind; [|apply returns_True|].
  { unfold appliedLag. destruct (as_current _) as [g|]; [|done]. destruct (_ || _); [done|]. by repeat split. }
  intros lag h3 Hq3 _. pose proof (ready_quiet _ _ _ Hq3 Hrf2) as Hrf3. pose proof (quiet_trans _ _ _ Hq2 Hq3) as Hq.
  change (certIssued (stored ac0 h2)) with (condTrue (stored ac0 h2) ConditionIssued).
  rewrite (si_issued _ _ _ (rf_settled _ _ Hrf2)). cbn [negb]. destruct Hq3 as [<- _].
  eapply twp_post; [apply (ready_world h3 _ x); done|]. intros res h' [x' H]. exists x'. by eapply round_after.
Qed.

(** ** Any number of rounds *)

Fixpoint binding_rounds (n : nat) (ns name : string) : prog (list Result) :=
  match n with
  | 0 => Ret []
  | S n => let! res := BindingReconcile rb ns name in let! l := binding_rounds n ns name in Ret (res :: l)
  end.

Lemma round_ready h x res h' x' : ready_for h x -> bound_round h x res h' x' -> ready_for h' x'.
Proof using Type.
  intros [H1 H2 H3 H4 H5 H6] [E1 E2 _ E4 E5 _ [E7 E8] _ _ _]. split; rewrite ?E1, ?E2; try done. congruence.
Qed.

(** rounds that only confirm *)
Lemma rounds_confirm n h ns name x : ready_for h x -> shows (material (stored ac0 h)) x ->
  bwp h (binding_rounds n ns name) (fun l h' => stored ac0 h' = stored ac0 h /\
    cl_cas (cloud_after visit c0 h') = cl_cas (cloud_after visit c0 h) /\
    frame k (cloud_after visit c0 h) (cloud_after visit c0 h') /\ cell (cloud_after visit c0 h') k = Some x /\
    cloud_writes h' = cloud_writes h /\ Forall (fun res => res.1 = br_drift_interval rb) l).
Proof using All.
  revert h. induction n as [|n IH]; intros h Hrf Hsh; cbn [binding_rounds].
  { cbn [twp]. do 2 (split; [done|]). split; [by intros k' _|]. split; [apply Hrf|done]. }
  twp_step. eapply twp_post; [by apply (BindingReconcile_world h ns name x)|]. intros res h1 [x1 H1].
  destruct (br_again _ _ _ _ _ H1 Hsh) as [-> Hw1]. pose proof (round_ready _ _ _ _ _ Hrf H1) as Hrf1. destruct H1 as [E1 E2 E3 _ _ _ _ _ _ E9].
  twp_step. eapply twp_post; [apply IH; [done|by rewrite E1]|]. intros l h2 (F1 & F2 & F3 & F4 & F5 & F6). cbn [twp].
  split; [congruence|]. split; [congruence|]. split; [by intros k' Hk; rewrite F3, E3|]. split; [done|]. split; [congruence|by constructor].
Qed.

Lemma binding_rounds_world n h ns name x : ready_for h x ->
  bwp h (binding_rounds (S n) ns name) (fun l h' => stored ac0 h' = stored ac0 h /\
    cl_cas (cloud_after visit c0 h') = cl_cas (cloud_after visit c0 h) /\
    frame k (cloud_after visit c0 h) (cloud_after visit c0 h') /\
    (exists x', cell (cloud_after visit c0 h') k = Some x' /\ shows (material (stored ac0 h)) x') /\
    length (cloud_writes h') <= length (cloud_writes h) + 1 /\ Forall (fun res => res.1 = br_drift_interval rb) l).
Proof using All.
  intros Hrf. cbn [binding_rounds]. twp_step.
  eapply twp_post; [by apply (BindingReconcile_world h ns name x)|]. intros res h1 [x1 H1].
  pose proof (round_ready _ _ _ _ _ Hrf H1) as Hrf1. destruct H1 as [E1 E2 E3 _ _ E6 _ E8 _ E9].
  twp_step. eapply twp_post; [apply (rounds_confirm n h1 ns name x1); [done|by rewrite E1]|].
  intros l h2 (F1 & F2 & F3 & F4 & F5 & F6). cbn [twp].
  split; [congruence|]. split; [congruence|]. split; [by intros k' Hk; rewrite F3, E3|]. split; [by exists x1|].
  split; [by rewrite F5|by constructor].
Qed.

(** the rounds of the certificate leave the targets alone *)
Lemma rounds_cert_ok n ns name : all_calls cert_ok (rounds r n ns name).
Proof. induction n as [|n IH]; cbn [rounds]; [done|]. apply all_calls_bind; [by apply Reconcile_ok|]. intros res. by apply all_calls_bind. Qed.

Lemma end_to_end_world n n' ns name bns bname x :
  answers (cl_cas c0) -> room 2 (cl_cas c0) -> started r b (serving E) ac0 (cl_cas c0) ->
  calm c0 -> cell c0 k = Some x -> cp_live x -> ob_account_id x = account ->
  bwp [] (let! _ := rounds r (S n) ns name in binding_rounds (S n') bns bname) (fun l h =>
    settled_in b (stored ac0 h) (cl_cas (cloud_after visit c0 h)) /\
    (FakeCAS.nextID (cl_cas (cloud_after visit c0 h)) <= FakeCAS.nextID (cl_cas c0) + 1)%Z /\
    (exists x', cell (cloud_after visit c0 h) k = Some x' /\ shows (material (stored ac0 h)) x') /\
    frame k c0 (cloud_after visit c0 h) /\ length (cloud_writes h) <= 1 /\ Forall (fun res => res.1 = br_drift_interval rb) l).
Proof using All.
  intros Ha Hroom Hst Hcalm Hx Hl Hacc. twp_step.
  eapply twp_post; [apply (twp_and _ _ any_call)|].
  { by apply (rounds_converge_world visit Hvisit r ac0 c0 cert b kp (serving E) IC n ns name). }
  { apply (all_calls_twp cert_ok); [apply rounds_cert_ok|done]. }
  intros l h1 [(s & c & [= <- <-] & Hid & Hset & Hn) Hs].
  destruct (targets_kept visit c0 [] h1) as (Hcell & Hcalm1 & Hw1); [eapply only_since_mono; [|exact Hs]; by intros o []|]. cbn in Hcell, Hcalm1.
  assert (Hrf : ready_for h1 x) by (split; [done|exact Hset|by apply Hcalm1|by rewrite Hcell|done|done]).
  eapply twp_post; [by apply (binding_rounds_world n' h1 bns bname x)|].
  intros l' h' (E1 & E2 & E3 & (x' & Hx' & Hsh) & E5 & E6). rewrite E1, E2. split; [exact Hset|]. split; [exact Hn|].
  split; [by exists x'|]. split; [by intros k' Hk; rewrite E3, Hcell|]. split; [by rewrite Hw1 in E5|done].
Qed.

End both.

(** ** The two providers take the material *)

Section writable.
  Context `{CL : CryptoLaws} (ac : AliyunCertificate) (b : Bundle) (kp : string).

Lemma fc3_writable : valid_bundle b -> KeyPEM b = inr kp -> cp_material (p := FC3.provider) (material b kp ac).
Proof.
  intros Hv Hk. assert (Hf : from_bundle ac (material b kp ac)) by by exists b, kp.
  split; [by eapply from_bundle_name|]. pose proof (from_bundle_fingerprint _ _ Hf) as Hfp. split; [|done].
  intros E. rewrite E in Hfp. discriminate Hfp.
Qed.

Lemma oss_writable :
  is_Some (cm_cert_id (material b kp ac)) -> EffectiveCASRegion (ac_aliyun ac) <> "" -> cp_material (p := OSS.provider) (material b kp ac).
Proof.
  intros [id Hid] Hr. cbn [cp_material oss_cells]. unfold CASCertRef. rewrite Hid. cbn [material material_of cm_cas_region].
  apply String.eqb_neq in Hr. rewrite Hr. intros E. apply (f_equal String.length) in E. rewrite !length_str_app in E. cbn in E. lia.
Qed.

End writable.

(** ** Properties *)

(** the certificate a target shows: its fingerprint, or what refers to it in CAS *)
Definition carries (p : Provider) (m : CertMaterial) (x : ObservedState) : Prop :=
  if cap_references_cert_by_id (pv_capabilities p) then ob_current_cert_ref x = CASCertRef m
  else ob_current_fingerprint x = cm_fingerprint m.

Lemma shows_carries rb p spec m x :
  (forall bd, ab_spec bd = spec -> served_by rb p bd) -> shows rb spec m x -> carries p m x.
Proof.
  intros Hserved Hs. set (bd := mkBinding (ab_meta sample_binding) spec (ab_status sample_binding)).
  specialize (Hs bd eq_refl). destruct (Hserved bd eq_refl) as [Hc _].
  apply ip_certificate in Hs. by rewrite Hc in Hs.
Qed.

(** C9: From cert-manager to the target.  Let cert-manager have issued the certificate of a live object, let CAS and the
    clouds answer, and let a binding of the certificate win its target, which is there and live.  Then whole rounds of the
    certificate controller (one or more, from a status that lacks the certificate, or has it, also when it was deleted from CAS
    and the probe is due) and after them whole rounds
    of the binding controller (one or more, with any other status of the binding) leave the certificate Ready and in CAS,
    once, and the target carrying that certificate - by content on FC3, by its id in CAS on OSS - and right in every
    respect the binding asks for; the target was written at most once and no other target was touched. *)
Theorem issued_certificates_reach_targets `{KL : KubeLibLaws} `{CL : CryptoLaws} (visit : gmap Z FakeCAS.Cert -> list FakeCAS.Cert)
    (r : CertReconciler) `{!CASFactoryOk r} (rb : BindingReconciler) `{!BindingFactoryOk rb}
    (p : Provider) `{!ProviderContract p} `{!CellProvider p} `{!CellProviderLaws visit p}
    (ac0 : AliyunCertificate) (c0 : cloud) (cert : Certificate) (b : Bundle) (kp : string)
    (spec : AliyunCertificateBindingSpec) (uid : string) (tg : Target) (k : cell_key) (x : ObservedState) (E : environment)
    (n n' : nat) (ns name bns bname : string) :
  let seen := serving spec uid (ob_account_id x) E in
  FakeCAS.visits visit -> issued_cluster visit r ac0 c0 cert b kp seen ->
  bound_cluster visit rb p ac0 c0 cert b kp spec uid tg k (ob_account_id x) E ->
  answers (cl_cas c0) -> room 2 (cl_cas c0) -> started r b seen ac0 (cl_cas c0) ->
  calm c0 -> cell c0 k = Some x -> cp_live x ->
  twp (steady visit ac0 c0 cert b seen) any_call []
    (let! _ := rounds r (S n) ns name in binding_rounds rb (S n') bns bname) (fun l h =>
    let c := cloud_after visit c0 h in
    settled_in b (stored ac0 h) (cl_cas c) /\ (FakeCAS.nextID (cl_cas c) <= FakeCAS.nextID (cl_cas c0) + 1)%Z /\
    (exists x', cell c k = Some x' /\ carries p (material b kp (stored ac0 h)) x' /\ shows rb spec (material b kp (stored ac0 h)) x') /\
    frame k c0 c /\ length (cloud_writes h) <= 1 /\ Forall (fun res => res.1 = br_drift_interval rb) l).
Proof.
  intros seen Hv IC BC Ha Hroom Hst Hcalm Hx Hl.
  eapply twp_post; [by apply (end_to_end_world visit Hv r rb p ac0 c0 cert b kp spec uid tg k (ob_account_id x) E IC BC n n' ns name bns bname x)|].
  intros l h (H1 & H2 & (x' & H3 & H4) & H5 & H6). do 2 (split; [done|]). split; [|done].
  exists x'. split; [done|]. split; [|done]. eapply shows_carries; [|exact H4]. intros bd. by apply BC.
Qed.

(** the cluster of "leaf" with the sample binding on a domain that serves plain HTTP *)
Definition leaf_client : ProviderClient := FC3Client (CfgAccessKey "ak" "sk") "cn-hangzhou" "ak".

Definition leaf_binder : BindingReconciler :=
  mkBindingReconciler sample_registry (Some (fun _ _ => Ret (inr (@FC3.provider toy_crypto, leaf_client)))) (30 * minute) (1 * hour) CleanupPolicyAbandon.

#[export] Instance leaf_binder_ok : BindingFactoryOk leaf_binder.
Proof. split; intros f bd ac [= <-]; [done|]. apply FC3.contract. Qed.

Definition both_clouds : cloud := mkCloud (cl_cas leaf_cloud) (cl_fc3 sample_cloud) (cl_oss sample_cloud).

Definition both_api : handler AliyunCertificate := fun s o =>
  match o return resp o * AliyunCertificate with
  | OGetBinding _ _ _ => (inr sample_binding, s)
  | OListBindingsByTarget _ => (inr [sample_binding], s)
  | OPatchBindingStatus bd _ => (inr bd, s)
  | o => leaf_api s o
  end.

Definition leaf_seen : environment := serving (ab_spec sample_binding) "uid-b" "acct" any_env.

Lemma both_api_steady s h o : s.1 = cloud_after sample_visit both_clouds h /\ s.2 = stored leaf_start h ->
  @steady toy_crypto sample_visit leaf_start both_clouds leaf_cert (sample_bundle "leaf") leaf_seen h o (fake_world sample_visit both_api s o).1 /\
  (fake_world sample_visit both_api s o).2.1 = cloud_after sample_visit both_clouds (Ev o (fake_world sample_visit both_api s o).1 :: h) /\
  (fake_world sample_visit both_api s o).2.2 = stored leaf_start (Ev o (fake_world sample_visit both_api s o).1 :: h).
Proof.
  destruct s as [c a]. intros [Ec Ea]. cbn in Ec, Ea. subst c a.
  assert (He : eligible (ab_spec sample_binding) "uid-b" "acct" sample_binding) by (split; [done..|left|by left]).
  unfold fake_world, steady, fake_env, leaf_seen, serving. cbn [fst snd cloud_after].
  unfold cloud_next. cbn [ev_op]. destruct (cloud_step sample_visit (cloud_after sample_visit both_clouds h) o) as [[x c]|] eqn:Es.
  - assert (Hc : cloud_call o = true) by (apply (cloud_call_spec sample_visit (cloud_after sample_visit both_clouds h)); by rewrite Es).
    by destruct o.
  - assert (Hc : cloud_call o = false).
    { apply not_true_iff_false. rewrite (cloud_call_spec sample_visit (cloud_after sample_visit both_clouds h)), Es. by intros [? ?]. }
    destruct o; try done; cbn; repeat split; try done; try (by eexists).
    + eexists. split; [reflexivity|]. apply merge_merged.
    + exists [sample_binding], sample_binding. done.
Qed.

Lemma leaf_bound : @bound_cluster toy_crypto sample_visit leaf_binder (@FC3.provider toy_crypto) (@fc3_cells toy_crypto) leaf_start both_clouds
  leaf_cert (sample_bundle "leaf") (Bundle.frame "EC PRIVATE KEY" (Bundle.frame "key" "")) (ab_spec sample_binding) "uid-b"
  (mkTarget TargetTypeFC3CustomDomain "cn-hangzhou" "leaf" (SpecFC3 (bt_fc3 sample_fc3_target))) (KFC3 "leaf") "acct" any_env.
Proof.
  split.
  - intros bd Hb. unfold targetOf, ab_target. by rewrite Hb.
  - intros bd Hb. split; [unfold capabilitiesOf, ab_target; by rewrite Hb|done].
  - intros bd ac h _. cbn. by exists leaf_client.
  - by vm_compute.
  - intros ac _ _ _. apply (fc3_writable (CL := toy_crypto_laws)); [apply sample_bundle_valid|by vm_compute].
Qed.

Lemma issued_certificates_reach_targets_witness :
  let run := exec (fake_world sample_visit both_api) (both_clouds, leaf_start) []
    (let! _ := @rounds (ref_kube 0) toy_crypto sample_reconciler 2 "prod" "leaf" in
     @binding_rounds (ref_kube 0) toy_crypto leaf_binder 2 "prod" "bind") in
  length (cloud_writes run.1.2) <= 1 /\
  (FakeFC3.CertPEM <$> FakeFC3.domains (cl_fc3 run.2.1) !! "leaf") = Some (@CertPEM toy_crypto (sample_bundle "leaf")) /\
  held (sample_bundle "leaf") run.2.2 (cl_cas run.2.1).
Proof.
  intros run.
  pose proof (twp_exec (fake_world sample_visit both_api) (fun s h => s.1 = cloud_after sample_visit both_clouds h /\ s.2 = stored leaf_start h)
    _ _ [] (both_clouds, leaf_start) _ _ both_api_steady (conj eq_refl eq_refl)
    (@issued_certificates_reach_targets (ref_kube 0) (ref_kube_laws 0) toy_crypto toy_crypto_laws sample_visit sample_reconciler _ leaf_binder _
       (@FC3.provider toy_crypto) (@FC3.contract toy_crypto) (@fc3_cells toy_crypto) (@fc3_cells_laws toy_crypto sample_visit)
       leaf_start both_clouds leaf_cert (sample_bundle "leaf") _ _ _ _ _ (mkObserved "" "" "HTTP" "acct") _ 1 1 "prod" "leaf" "prod" "bind"
       (fun m => Permutation_refl _) (leaf_issued leaf_seen both_clouds) leaf_bound
       ltac:(split; [apply FakeCAS.Upload_wf; [apply FakeCAS.NewCAS_wf|vm_compute; reflexivity]|reflexivity..])
       ltac:(vm_compute; discriminate) (or_intror (or_introl leaf_awaiting)) ltac:(repeat split) eq_refl ltac:(discriminate))) as H.
  change (exec _ _ _ _) with run in H. split; [|split; [vm_compute; reflexivity|]].
  - destruct run as [[l h] [c s]]. exact (proj1 (proj2 (proj2 (proj2 (proj2 (proj1 H)))))).
  - destruct run as [[l h] [c s]]. destruct H as [[Hset _] [Hc Hs]]. cbn [fst snd] in *. rewrite Hc, Hs. exact (si_held _ _ _ Hset).
Defined.
