(* ===== verification/Options.v ===== *)
(** * The flags of the operator (cmd/main.go)

    The flags that reach the reconcilers, with their defaults, and their
    validation.  Parsing is package flag's. *)
From S2P Require Import Prelude GoString GoTime GoError CertStatus.

(** ** Definitions *)

Record operatorOptions : Type := mkOptions {
  oo_default_issuer_name : string;
  oo_default_issuer_kind : string;
  oo_default_issuer_group : string;
  oo_resync_interval : duration;
  oo_drift_check_interval : duration;
  oo_cas_probe_interval : duration;
  oo_issuance_stall_threshold : duration;
  oo_cloud_call_timeout : duration;
  oo_cleanup_grace_period : duration;
  oo_cleanup_failure_policy : string;
  oo_watch_namespaces : list string;
  oo_watch_namespaces_raw : string
}.

(** the values before any flag is given *)
Definition registerOperatorFlags : operatorOptions :=
  mkOptions "" "Issuer" "cert-manager.io" (1 * hour) (1 * hour) (12 * hour) (6 * hour) (30 * second) (15 * minute)
    "Abandon" [] "".

Definition set_watch_namespaces (l : list string) (o : operatorOptions) : operatorOptions :=
  mkOptions (oo_default_issuer_name o) (oo_default_issuer_kind o) (oo_default_issuer_group o) (oo_resync_interval o)
    (oo_drift_check_interval o) (oo_cas_probe_interval o) (oo_issuance_stall_threshold o) (oo_cloud_call_timeout o)
    (oo_cleanup_grace_period o) (oo_cleanup_failure_policy o) l (oo_watch_namespaces_raw o).

Definition split_namespaces (raw : string) : list string :=
  List.filter (fun n => negb (String.eqb n "")) (trim_space <$> split "," raw).

Definition validate (o : operatorOptions) : goerr + operatorOptions :=
  if negb (String.eqb (oo_cleanup_failure_policy o) CleanupPolicyAbandon)
     && negb (String.eqb (oo_cleanup_failure_policy o) CleanupPolicyBlock)
  then inl (EText ("--cleanup-failure-policy 必须是 Abandon 或 Block，得到 " +:+ quote (oo_cleanup_failure_policy o)))
  else inr (set_watch_namespaces (split_namespaces (oo_watch_namespaces_raw o)) o).

(** [parse] is [FlagSet.Parse] over the registered flags *)
Definition parseOperatorFlags (parse : operatorOptions -> list string -> goerr + operatorOptions) (args : list string) :
    goerr + operatorOptions :=
  match parse registerOperatorFlags args with
  | inl e => inl e
  | inr o => validate o
  end.

(** ** Lemmas *)

(** options are accepted exactly with one of the two policies; the namespaces are the
    non-empty trimmed parts of the flag, and no other option changes; an empty flag
    watches all namespaces *)
Theorem validate_spec (o : operatorOptions) :
  match validate o with
  | inl _ => oo_cleanup_failure_policy o <> CleanupPolicyAbandon /\ oo_cleanup_failure_policy o <> CleanupPolicyBlock
  | inr o' =>
      (oo_cleanup_failure_policy o' = CleanupPolicyAbandon \/ oo_cleanup_failure_policy o' = CleanupPolicyBlock) /\
      o' = set_watch_namespaces (oo_watch_namespaces o') o /\
      (forall n, n ∈ oo_watch_namespaces o' <-> n <> "" /\ exists part, part ∈ split "," (oo_watch_namespaces_raw o) /\ n = trim_space part) /\
      validate o' = inr o'
  end.
Proof.
  unfold validate. destruct (String.eqb_spec (oo_cleanup_failure_policy o) CleanupPolicyAbandon) as [E1|N1],
    (String.eqb_spec (oo_cleanup_failure_policy o) CleanupPolicyBlock) as [E2|N2]; cbn [negb andb]; try done.
  all: split; [cbn; auto|]; split; [done|]; split; [|unfold set_watch_namespaces; cbn; rewrite ?E1, ?E2; done].
  all: intros n; cbn; unfold split_namespaces; rewrite list_elem_of_In, filter_In, <-list_elem_of_In, list_elem_of_fmap.
  all: rewrite negb_true_iff, String.eqb_neq; naive_solver.
Qed.

Example defaults_are_valid : validate registerOperatorFlags = inr registerOperatorFlags.
Proof. reflexivity. Qed.
