(* ===== verification/Main.v ===== *)
(** * The process (cmd/main.go): flags, manager and controllers

    [main] is the sequence of set-up steps the flags ask for, run until one fails.
    Building the servers, the manager and its start are the libraries'; what is
    modelled is what they are given and in which order they are called. *)
From S2P Require Import Prelude GoString GoTime Api GoError Cloud KubeLib Effects Bundle Issuer CertStatus CertUpload Provider.
From S2P Require Import ProviderFC3 ProviderOSS Clients BindingStatus BindingMaterial BindingObserve BindingController BindingSafety.
From S2P Require Import Options Watches.

(** ** Definitions *)

(** the flags of the process *)
Record mainFlags : Type := mkMainFlags {
  mf_metrics_addr : string;
  mf_probe_addr : string;
  mf_leader_elect : bool;
  mf_secure_metrics : bool;
  mf_webhook_cert_path : string;
  mf_webhook_cert_name : string;
  mf_webhook_cert_key : string;
  mf_metrics_cert_path : string;
  mf_metrics_cert_name : string;
  mf_metrics_cert_key : string;
  mf_enable_http2 : bool;
  mf_opts : operatorOptions
}.

(** the values before any flag is given *)
Definition defaultFlags : mainFlags :=
  mkMainFlags "0" ":8081" false true "" "tls.crt" "tls.key" "" "tls.crt" "tls.key" false registerOperatorFlags.

(** [filepath.Join] of a directory and a name *)
Inductive path : Type := Join (dir name : string).

(** a [func( *tls.Config)] of the servers *)
Inductive tlsOpt : Type :=
| DisableHTTP2                      (* NextProtos = {"http/1.1"} *)
| GetCertificateFrom (cert key : path).

(** the slices share no room: [append] to nil, or to a slice of one, makes a new array *)
Definition tlsOpts (f : mainFlags) : list tlsOpt := if mf_enable_http2 f then [] else [DisableHTTP2].

Definition webhook_cert (f : mainFlags) : path * path :=
  (Join (mf_webhook_cert_path f) (mf_webhook_cert_name f), Join (mf_webhook_cert_path f) (mf_webhook_cert_key f)).
Definition metrics_cert (f : mainFlags) : path * path :=
  (Join (mf_metrics_cert_path f) (mf_metrics_cert_name f), Join (mf_metrics_cert_path f) (mf_metrics_cert_key f)).

Definition has_webhook_cert (f : mainFlags) : bool := negb (String.eqb (mf_webhook_cert_path f) "").
Definition has_metrics_cert (f : mainFlags) : bool := negb (String.eqb (mf_metrics_cert_path f) "").

Definition webhookTLSOpts (f : mainFlags) : list tlsOpt :=
  tlsOpts f ++ if has_webhook_cert f then [GetCertificateFrom (webhook_cert f).1 (webhook_cert f).2] else [].

Record metricsServerOptions : Type := mkMetricsOptions {
  mo_bind_address : string;
  mo_secure_serving : bool;
  mo_tls_opts : list tlsOpt;
  mo_authenticated : bool (* FilterProvider = filters.WithAuthenticationAndAuthorization *)
}.

Definition metricsOptions (f : mainFlags) : metricsServerOptions :=
  mkMetricsOptions (mf_metrics_addr f) (mf_secure_metrics f)
    (tlsOpts f ++ if has_metrics_cert f then [GetCertificateFrom (metrics_cert f).1 (metrics_cert f).2] else [])
    (mf_secure_metrics f).

(** ctrl.Options *)
Record managerOptions : Type := mkManagerOptions {
  mg_metrics : metricsServerOptions;
  mg_webhook_tls : list tlsOpt;
  mg_health_probe : string;
  mg_leader_election : bool;
  mg_leader_election_id : string;
  mg_release_on_cancel : bool;
  mg_uncached : list string;                  (* the kinds the client reads directly *)
  mg_default_namespaces : option (gset string) (* nil: all namespaces *)
}.

Definition mgrOpts (f : mainFlags) (opts : operatorOptions) : managerOptions :=
  mkManagerOptions (metricsOptions f) (webhookTLSOpts f) (mf_probe_addr f) (mf_leader_elect f) "certs.bestheme.ac.cn" true
    ["Secret"]
    (match oo_watch_namespaces opts with [] => None | ns => Some (list_to_set ns) end).

Section controllers.
  Context `{Cr : Crypto}.

Definition certReconciler (opts : operatorOptions) : CertReconciler := {|
  r_has_api_reader := true;
  r_cas_factory := Some NewCASFactory;
  r_resync_interval := oo_resync_interval opts;
  r_cas_probe_interval := oo_cas_probe_interval opts;
  r_issuance_stall_threshold := oo_issuance_stall_threshold opts;
  r_cleanup_grace_period := oo_cleanup_grace_period opts;
  r_cleanup_failure_policy := oo_cleanup_failure_policy opts;
  r_defaults := mkIssuerDefaults (oo_default_issuer_name opts) (oo_default_issuer_kind opts) (oo_default_issuer_group opts)
|}.

(** the registry the init functions of the providers have filled *)
Definition registered : registry := default ∅ builtin_registry.

Definition bindingReconciler (opts : operatorOptions) : BindingReconciler := {|
  br_registry := registered;
  br_provider_factory := Some (NewProviderFactory registered);
  br_drift_interval := oo_drift_check_interval opts;
  br_cleanup_grace_period := oo_cleanup_grace_period opts;
  br_cleanup_failure_policy := oo_cleanup_failure_policy opts
|}.

(** the calls that may fail and end the process *)
Inductive setup : Type :=
| NewCertWatcher (cert key : path)
| NewManager (o : managerOptions)
| IndexField (ix : fieldIndex)
| SetupCertificate (r : CertReconciler)
| SetupBinding (r : BindingReconciler)
| AddCertWatcher (cert key : path)
| AddHealthzCheck
| AddReadyzCheck
| Start.

(** in the order of [main] *)
Definition setups (f : mainFlags) (opts : operatorOptions) : list setup :=
  (if has_webhook_cert f then [NewCertWatcher (webhook_cert f).1 (webhook_cert f).2] else []) ++
  (if has_metrics_cert f then [NewCertWatcher (metrics_cert f).1 (metrics_cert f).2] else []) ++
  [NewManager (mgrOpts f opts)] ++ (IndexField <$> RegisterIndexes) ++
  [SetupCertificate (certReconciler opts); SetupBinding (bindingReconciler opts)] ++
  (if has_metrics_cert f then [AddCertWatcher (metrics_cert f).1 (metrics_cert f).2] else []) ++
  (if has_webhook_cert f then [AddCertWatcher (webhook_cert f).1 (webhook_cert f).2] else []) ++
  [AddHealthzCheck; AddReadyzCheck; Start].

(** the steps made, and the exit code *)
Fixpoint run_setups (fails : setup -> bool) (l : list setup) : list setup * Z :=
  match l with
  | [] => ([], 0%Z)
  | s :: l =>
      if fails s then ([s], 1%Z)
      else let '(made, code) := run_setups fails l in (s :: made, code)
  end.

Definition main (f : mainFlags) (fails : setup -> bool) : list setup * Z :=
  match validate (mf_opts f) with
  | inl _ => ([], 1%Z)
  | inr opts => run_setups fails (setups f opts)
  end.

End controllers.

(** ** Lemmas *)

Section runs.
  Context `{Cr : Crypto} (fails : setup -> bool).

(** a run makes the steps up to the first that fails *)
Lemma run_setups_spec l : let '(made, code) := run_setups fails l in
  (code = 0%Z /\ made = l /\ Forall (fun s => fails s = false) l) \/
  (code = 1%Z /\ (exists pre s post, l = (pre ++ s :: post) /\ made = (pre ++ [s]) /\ fails s = true /\ Forall (fun s => fails s = false) pre)).
Proof.
  induction l as [|s l IH]; cbn [run_setups]; [by left|]. destruct (fails s) eqn:Es.
  { right. split; [done|]. by exists [], s, l. }
  destruct (run_setups fails l) as [made code]. destruct IH as [(-> & -> & Hl)|(-> & pre & t & post & -> & -> & Ht & Hp)].
  - left. split; [done|]. split; [done|]. by constructor.
  - right. split; [done|]. exists (s :: pre), t, post. do 3 (split; [done|]). by constructor.
Qed.

(** the steps around those of the controllers *)
Lemma setups_parts f opts : exists pre post,
  setups f opts = pre ++ [NewManager (mgrOpts f opts)] ++ (IndexField <$> RegisterIndexes) ++
    [SetupCertificate (certReconciler opts); SetupBinding (bindingReconciler opts)] ++ post ++ [Start] /\
  Forall (fun s => match s with NewCertWatcher _ _ | AddCertWatcher _ _ | AddHealthzCheck | AddReadyzCheck => True | _ => False end) (pre ++ post).
Proof.
  unfold setups. destruct (has_webhook_cert f), (has_metrics_cert f); cbn [app].
  - by exists [NewCertWatcher (webhook_cert f).1 (webhook_cert f).2; NewCertWatcher (metrics_cert f).1 (metrics_cert f).2],
      [AddCertWatcher (metrics_cert f).1 (metrics_cert f).2; AddCertWatcher (webhook_cert f).1 (webhook_cert f).2; AddHealthzCheck; AddReadyzCheck];
      split; [|repeat constructor].
  - by exists [NewCertWatcher (webhook_cert f).1 (webhook_cert f).2],
      [AddCertWatcher (webhook_cert f).1 (webhook_cert f).2; AddHealthzCheck; AddReadyzCheck]; split; [|repeat constructor].
  - by exists [NewCertWatcher (metrics_cert f).1 (metrics_cert f).2],
      [AddCertWatcher (metrics_cert f).1 (metrics_cert f).2; AddHealthzCheck; AddReadyzCheck]; split; [|repeat constructor].
  - by exists [], [AddHealthzCheck; AddReadyzCheck]; split; [|repeat constructor].
Qed.

(** the start comes last *)
Lemma start_last f opts : exists pre, setups f opts = pre ++ [Start] /\ (Start ∉ pre).
Proof.
  destruct (setups_parts f opts) as (pre & post & -> & Ho). rewrite Forall_app, !Forall_forall in Ho. destruct Ho as [H1 H2].
  eexists (pre ++ [NewManager (mgrOpts f opts)] ++ (IndexField <$> RegisterIndexes) ++
    [SetupCertificate (certReconciler opts); SetupBinding (bindingReconciler opts)] ++ post).
  split; [by rewrite <-!app_assoc|]. rewrite !elem_of_app. cbn. rewrite !elem_of_cons, elem_of_nil.
  intros [Hs|[[Hs|[]]|[[Hs|[Hs|[]]]|[[Hs|[Hs|[]]]|Hs]]]]; try discriminate Hs; [by specialize (H1 _ Hs)|by specialize (H2 _ Hs)].
Qed.

(** what comes before a step of a list that ends in [x] is part of the rest *)
Lemma prefix_before {A} (l : list A) x pre t post : l ++ [x] = pre ++ t :: post -> exists k, l = pre ++ k.
Proof.
  destruct post as [|y post' _] using rev_ind.
  - intros [-> _]%app_inj_tail. exists []. by rewrite app_nil_r.
  - rewrite app_comm_cons, app_assoc. intros [-> _]%app_inj_tail. by exists (t :: post').
Qed.

Lemma start_split {A} (l : list A) x pre post : x ∉ l -> l ++ [x] = pre ++ x :: post -> l = pre.
Proof.
  intros Hn. destruct post as [|y post' _] using rev_ind.
  - by intros [-> _]%app_inj_tail.
  - rewrite app_comm_cons, app_assoc. intros [-> _]%app_inj_tail. exfalso. apply Hn. apply elem_of_app. right. by left.
Qed.

Lemma registered_types t : is_Some (Get t registered) <-> t = TargetTypeFC3CustomDomain \/ t = TargetTypeOSSCustomDomain.
Proof.
  unfold Get, registered, builtin_registry, Register. rewrite lookup_empty. cbn [mbind option_bind pv_name FC3.provider].
  rewrite lookup_insert_ne, lookup_empty by done. cbn [from_option id pv_name OSS.provider].
  rewrite !lookup_insert_is_Some, lookup_empty. cbn. split.
  - intros [<-|[_ [<-|[_ [? [=]]]]]]; auto.
  - intros [-> | ->]; auto.
Qed.

End runs.

(** ** Properties *)

(** [x] was done before [y] *)
Definition before {A} (x y : A) (l : list A) : Prop := exists pre post, l = pre ++ y :: post /\ x ∈ pre.

(** the certificate controller works with the production factory, live reads and the values
    of the flags [o], the policy being one that it knows *)
Record cert_wired `{Crypto} (o : operatorOptions) (r : CertReconciler) : Prop := {
  cw_live_reads : r_has_api_reader r = true;
  cw_factory : r_cas_factory r = Some NewCASFactory;
  cw_factory_ok : CASFactoryOk r;
  cw_intervals : r_resync_interval r = oo_resync_interval o /\ r_cas_probe_interval r = oo_cas_probe_interval o /\
    r_issuance_stall_threshold r = oo_issuance_stall_threshold o /\ r_cleanup_grace_period r = oo_cleanup_grace_period o;
  cw_policy : r_cleanup_failure_policy r = oo_cleanup_failure_policy o;
  cw_known : r_cleanup_failure_policy r = "Abandon" \/ r_cleanup_failure_policy r = "Block";
  cw_defaults : def_name (r_defaults r) = oo_default_issuer_name o /\ def_kind (r_defaults r) = oo_default_issuer_kind o /\
    def_group (r_defaults r) = oo_default_issuer_group o
}.

(** and so does the binding controller, whose registry holds the two providers *)
Record binding_wired `{Crypto} (o : operatorOptions) (r : BindingReconciler) : Prop := {
  bw_registry t : is_Some (Get t (br_registry r)) <-> t = TargetTypeFC3CustomDomain \/ t = TargetTypeOSSCustomDomain;
  bw_lawful : lawful (br_registry r);
  bw_factory : br_provider_factory r = Some (NewProviderFactory (br_registry r));
  bw_factory_ok : BindingFactoryOk r;
  bw_intervals : br_drift_interval r = oo_drift_check_interval o /\ br_cleanup_grace_period r = oo_cleanup_grace_period o;
  bw_policy : br_cleanup_failure_policy r = oo_cleanup_failure_policy o;
  bw_known : br_cleanup_failure_policy r = "Abandon" \/ br_cleanup_failure_policy r = "Block"
}.

(** a process that got as far as its start *)
Record started_controllers `{Crypto} (f : mainFlags) (made : list setup) (rc : CertReconciler) (rb : BindingReconciler) : Prop := {
  (* the start was the last step *)
  sc_start : exists pre, made = pre ++ [Start] /\ (Start ∉ pre);
  (* one controller of each kind was set up, and how *)
  sc_cert r : SetupCertificate r ∈ made <-> r = rc;
  sc_binding r : SetupBinding r ∈ made <-> r = rb;
  sc_cert_wired : cert_wired (mf_opts f) rc;
  sc_binding_wired : binding_wired (mf_opts f) rb;
  (* what the arbitration and the watches list by was indexed before, on a manager that
     was there before *)
  sc_indexes ix : ix ∈ [mkFieldIndex "spec.certificateRef.name" bindingCertificateIndex; mkFieldIndex "spec.target" bindingTargetIndex] ->
    before (IndexField ix) (SetupCertificate rc) made /\ before (IndexField ix) (SetupBinding rb) made /\
    exists o, before (NewManager o) (IndexField ix) made
}.

(** how the manager is set up *)
Record safe_manager (f : mainFlags) (o : managerOptions) : Prop := {
  sm_secrets : "Secret" ∈ mg_uncached o;
  sm_http2 : mf_enable_http2 f = false -> DisableHTTP2 ∈ mg_webhook_tls o /\ DisableHTTP2 ∈ mo_tls_opts (mg_metrics o);
  sm_metrics : mo_secure_serving (mg_metrics o) = true -> mo_authenticated (mg_metrics o) = true;
  sm_namespaces : forall opts, validate (mf_opts f) = inr opts ->
    match mg_default_namespaces o with
    | None => oo_watch_namespaces opts = []
    | Some ns => forall n, n ∈ ns <-> n ∈ oo_watch_namespaces opts
    end
}.

Lemma mgrOpts_safe f opts : validate (mf_opts f) = inr opts -> safe_manager f (mgrOpts f opts).
Proof.
  intros Ev. split; cbn.
  - by apply list_elem_of_singleton.
  - intros Hh. unfold webhookTLSOpts, tlsOpts. rewrite Hh. by split; apply elem_of_cons; left.
  - done.
  - intros opts' E'. rewrite Ev in E'. injection E' as <-. destruct (oo_watch_namespaces opts) as [|n l]; [done|]. intros x. exact (elem_of_list_to_set (C:=gset string) x (n :: l)).
Qed.

(** the manager is built with no other options *)
Lemma setups_manager `{Cr : Crypto} f opts o : NewManager o ∈ setups f opts -> o = mgrOpts f opts.
Proof.
  unfold setups. destruct (has_webhook_cert f), (has_metrics_cert f); cbn; rewrite ?elem_of_cons, ?elem_of_nil; intuition congruence.
Qed.

(** a validated policy is one of the two *)
Lemma validate_policy o opts : validate o = inr opts ->
  oo_cleanup_failure_policy opts = CleanupPolicyAbandon \/ oo_cleanup_failure_policy opts = CleanupPolicyBlock.
Proof.
  unfold validate. destruct (String.eqb_spec (oo_cleanup_failure_policy o) CleanupPolicyAbandon) as [E1|_],
    (String.eqb_spec (oo_cleanup_failure_policy o) CleanupPolicyBlock) as [E2|_]; cbn; intros [= <-]; auto.
Qed.

(** the flags that are kept are those that were given *)
Lemma validate_keeps o opts : validate o = inr opts ->
  opts = set_watch_namespaces (split_namespaces (oo_watch_namespaces_raw o)) o.
Proof. unfold validate. destruct (_ && _); [done|]. by intros [= <-]. Qed.

Lemma wired `{Cr : Crypto} o opts : validate o = inr opts ->
  cert_wired o (certReconciler opts) /\ binding_wired o (bindingReconciler opts).
Proof.
  intros Hv. pose proof (validate_policy _ _ Hv) as Hp. apply validate_keeps in Hv. rewrite Hv in Hp |- *. split; split; try done.
  - by apply NewCASFactory_ok.
  - intros t. apply registered_types.
  - apply builtin_lawful.
  - apply NewProviderFactory_ok; [apply builtin_lawful|done].
Qed.

Lemma before_app {A} (x y : A) (pre l : list A) : before x y l -> before x y (pre ++ l).
Proof. intros (l1 & l2 & -> & Hx). exists (pre ++ l1), l2. rewrite <-app_assoc. split; [done|]. apply elem_of_app. by right. Qed.

(** all steps were made, once the process was started *)
Lemma started_setups `{Cr : Crypto} f opts : validate (mf_opts f) = inr opts ->
  started_controllers f (setups f opts) (certReconciler opts) (bindingReconciler opts).
Proof.
  intros Hv. destruct (wired _ _ Hv) as [Hwc Hwb]. pose proof (start_last f opts) as Hst.
  destruct (setups_parts f opts) as (pre & post & E & Ho). rewrite Forall_app, !Forall_forall in Ho. destruct Ho as [H1 H2].
  assert (Hcert : forall r, SetupCertificate r ∈ setups f opts <-> r = certReconciler opts).
  { intros r. rewrite E, !elem_of_app. cbn. rewrite !elem_of_cons, elem_of_nil. split; [|intros ->; tauto].
    intros [Hs|[[Hs|[]]|[[Hs|[Hs|[]]]|[[Hs|[Hs|[]]]|[Hs|[Hs|[]]]]]]]; try discriminate Hs; [by specialize (H1 _ Hs)|congruence|by specialize (H2 _ Hs)]. }
  assert (Hbind : forall r, SetupBinding r ∈ setups f opts <-> r = bindingReconciler opts).
  { intros r. rewrite E, !elem_of_app. cbn. rewrite !elem_of_cons, elem_of_nil. split; [|intros ->; tauto].
    intros [Hs|[[Hs|[]]|[[Hs|[Hs|[]]]|[[Hs|[Hs|[]]]|[Hs|[Hs|[]]]]]]]; try discriminate Hs; [by specialize (H1 _ Hs)|congruence|by specialize (H2 _ Hs)]. }
  split; try done. rewrite E.
  intros ix [->|[->|[]%not_elem_of_nil]%elem_of_cons]%elem_of_cons; (split; [|split; [|exists (mgrOpts f opts)]]); apply before_app; cbn.
  1,4: by eexists [_; _; _], _; split; [reflexivity|rewrite !elem_of_cons; tauto].
  1,3: by eexists [_; _; _; _], _; split; [reflexivity|rewrite !elem_of_cons; tauto].
  - by eexists [_], _; split; [reflexivity|left].
  - by eexists [_; _], _; split; [reflexivity|left].
Qed.

(** C25: What the process runs.  The process exits with 0 only when the flags are valid
    and every step of the set-up succeeded; otherwise it exits with 1 at the first
    failure and makes no further step, so the manager is never started half set up.
    When it is started, that was the last step; exactly one controller of each kind was
    set up, with the production factory, live reads, the intervals, issuer defaults and
    clean-up policy of the flags, the policy being Abandon or Block, and a registry of
    exactly the two providers, as the theorems about rounds assume; and the two indexes
    they list by were registered before them, on a manager made before.  Secrets are
    never cached, HTTP/2 is off on both servers unless it is asked for, a secured metrics
    endpoint authenticates, and just the namespaces of the flag are watched. *)
Theorem main_starts_verified_controllers `{Cr : Crypto} (f : mainFlags) (fails : setup -> bool) :
  let '(made, code) := main f fails in
  (code = 0%Z <-> exists opts, validate (mf_opts f) = inr opts /\ made = setups f opts /\ Forall (fun s => fails s = false) made) /\
  (code <> 0%Z -> code = 1%Z /\ (made = [] \/ exists pre s, made = pre ++ [s] /\ fails s = true /\ (Start ∉ pre) /\ Forall (fun s => fails s = false) pre)) /\
  (Start ∈ made -> exists rc rb, started_controllers f made rc rb) /\
  (forall o, NewManager o ∈ made -> safe_manager f o).
Proof.
  unfold main. destruct (validate (mf_opts f)) as [e|opts] eqn:Ev.
  { split; [split; [done|by intros (opts & [=] & _)]|]. split; [auto|]. split; [by intros ?%not_elem_of_nil|by intros o ?%not_elem_of_nil]. }
  pose proof (run_setups_spec fails (setups f opts)) as Hr. destruct (run_setups fails (setups f opts)) as [made code].
  destruct (start_last f opts) as (steps & Hst & Hns). split; [|split; [|split]].
  - split.
    + intros ->. destruct Hr as [(_ & -> & Hl)|([=] & _)]. by exists opts.
    + intros (opts' & [= <-] & -> & Hall). destruct Hr as [(-> & _)|(_ & pre & t & post & _ & E & Ht & _)]; [done|].
      rewrite E in Hall. apply Forall_app in Hall as [_ Hall]. inversion Hall. congruence.
  - intros Hne. destruct Hr as [(-> & _)|(-> & pre & t & post & E & -> & Ht & Hp)]; [done|]. split; [done|]. right. exists pre, t.
    do 2 (split; [done|]). split; [|done]. intros Hin. rewrite Hst in E. destruct (prefix_before steps Start pre t post E) as [k ->].
    apply Hns. apply elem_of_app. by left.
  - intros Hin. exists (certReconciler opts), (bindingReconciler opts). replace made with (setups f opts); [by apply started_setups|].
    destruct Hr as [(_ & -> & _)|(_ & pre & t & post & E & -> & _)]; [done|]. rewrite Hst in E |- *.
    destruct (prefix_before steps Start pre t post E) as [k Hk]. apply elem_of_app in Hin as [Hin|<-%list_elem_of_singleton].
    + destruct Hns. rewrite Hk. apply elem_of_app. by left.
    + by rewrite <-(start_split steps Start pre post Hns E).
  - intros o Ho. apply (mgrOpts_safe f opts) in Ev as Hsafe. destruct Hr as [(_ & -> & _)|(_ & pre & t & post & E & -> & _)].
    + by apply setups_manager in Ho as ->.
    + assert (Ho' : NewManager o ∈ setups f opts) by (rewrite E, cons_middle, app_assoc; apply elem_of_app; by left).
      by apply setups_manager in Ho' as ->.
Qed.
